(* ===== verification/_CoqProject ===== *)
-Q . S2P
Prelude.v
GoLang.v
Constants.v
StringUtil.v
Decimal.v
Values.v
Typing.v
Columns.v
CastValues.v
Csv.v
Parquet.v
Kafkalib.v
Config.v
Dsn.v
Retry.v
TableData.v
Replication.v
Sql.v
Event.v
Debezium.v
Bson.v
Cdc.v
Effects.v
Logger.v
TableConfig.v
Warehouse.v
Ddl.v
Dml.v
SqlMerge.v
Shared.v
Staging.v
Consumer.v
Telemetry.v
Drain.v
Process.v
Changes.v
Convergence.v
Histories.v
Redshift.v
Snowflake.v
Mssql.v
Bigquery.v
S3.v
Destinations.v
Application.v
