(* ===== verification/Prelude.v ===== *)
(** * Artie Transfer, verified

    Artie Transfer reads change events of source databases (PostgreSQL, MySQL,
    MongoDB, in Debezium's format) from Kafka or Pub/Sub, buffers the rows of
    each destination table in memory, and writes each buffer to a warehouse
    (Snowflake, BigQuery, Redshift, SQL Server) or to S3, committing the offsets
    of its messages afterwards.  This library is a model of that Go program,
    translated function by function, with the theorems that make it correct.

    ** The path of a message, and the files

    - A message's key and value become an event: [Debezium] (lib/debezium: keys,
      schemas, values, times, decimals), [Bson] (lib/typing/mongo: MongoDB's
      extended JSON) and [Cdc] (lib/cdc: the relational and Mongo connectors,
      their formats).  [Event] (models/event, lib/cdc) turns
      the event into a row of a table's buffer, [TableData]
      (lib/optimization/table_data.go, models/memory.go).
    - [Consumer] (processes/consumer) is what one goroutine does: process a
      message, flush a buffer that is full, flush on a timer, commit.  Its state
      carries the history the safety theorems speak of.  [Drain] is what a
      flush achieves when the destination accepts, [Telemetry] what is
      reported (lib/telemetry).
    - [Process] (kafka.go, pubsub.go, processes/pool) is the running process: the
      step relation that interleaves the readers, the subscriptions and the
      ticker, against the interface [Baseline] of a destination.
      [Destinations] (lib/destination/utils) loads the client a configuration
      names and shows that each of the five is a [Baseline]; [Application]
      (main.go) composes the two.
    - What the tables become: [Changes] reduces a property of a table to what a
      save and a flush do to it; [Replication] says what a buffer means for the
      rows of a table, [Convergence] follows the writes made of a table in
      replication mode and [Histories] those made in history mode, and what a
      table they are applied to becomes; [Sql] gives the merges a meaning, and
      [SqlMerge] shows that the text [Dml] builds is a statement that does to
      the table what [Replication] says.
    - A flush calls the destination.  [Shared] (clients/shared) is the merge, the
      append and the sweep against the class [DataWarehouse] of [Warehouse]
      (lib/destination), whose laws are the class [DataWarehouseLaws].  [Ddl]
      and [Dml] (lib/destination/ddl, dml) are the statements, [TableConfig]
      (lib/destination/types) the cached description of a destination table.
    - [Redshift], [Snowflake], [Mssql], [Bigquery] (clients/...) are the
      instances of that interface; each proves the laws, so every theorem of
      [Shared] holds of it.  They share [Staging], [Csv] (encoding/csv's writer,
      and a reader to state it against) and the casts of [CastValues]
      (lib/typing/values and each client's cast).  [S3] is the client that
      writes Parquet files, with the schemas of [Parquet].
    - Below them: [Typing] (lib/typing: kinds, column types and back), [Columns]
      (lib/typing/columns), [Values] (Go's [any], extended times, sizes),
      [Decimal] (lib/typing/decimal, lib/debezium/decimal.go, with big.Float's
      rounding written out), [Kafkalib] (topics, messages), [Config]
      (lib/config), [Dsn] (connection strings, with what they use of net/url),
      [Retry] (lib/jitter, lib/retry, lib/db), [Logger] (lib/logger),
      [Constants], [StringUtil].
    - [GoLang] holds Go's outcomes (a value, an error, a panic), strings and
      [strconv]; [Effects] the computations over a state, which keep the state a
      failing call left behind; this file the tactics and list lemmas.

    ** What the theorems show

    - Delivery ([Consumer], [Process], [Application]): in every interleaving of
      the process, on whichever destination was loaded, an offset is committed
      only for a message whose rows, and those of the earlier messages of its
      table, were written first, and no saved message is lost
      ([application_at_least_once], and [commit_after_write] against the
      interface); a commit always finds its reader ([commit_never_panics]); and
      once the destination accepts, and goes on accepting, one tick an interval
      later writes and commits everything saved ([Tick_drains]).  A message is skipped only for
      one of the reasons the code names ([consume_saves]).  With several tables
      per topic the guarantee stops at the table
      ([routed_topic_commits_past_unwritten]).
    - Convergence ([Replication], [Convergence], [Histories], [SqlMerge]):
      merging a buffer leaves the table its events lead to one by one
      ([InsertRow_merge_replays]), and redelivered events change nothing
      ([InsertRow_redelivery]).  So in every interleaving, a table to which the
      writes made of it were applied, all that reported success and any of
      those that failed, is once merged with its buffer the replay of the
      changes saved in it ([destination_converges]), and after a tick that
      drains it is that replay itself ([Tick_converges]).  In history mode
      every saved change is a row of such a table or of its buffer, and any
      further row repeats one of these ([history_at_least_once]).  These three
      are about merges with hard deletes, of changes in which a placeholder
      follows its column, and appends that add rows.  The merge statements
      merge a batch into a table of a warehouse, whatever the dialect
      ([merge_statements_replicate]); with soft deletion the result depends on
      where the batches were cut ([soft_delete_depends_on_batches]).
    - Starting ([Config], [Dsn], [Destinations], [Application]): which
      configurations are valid and which of those start ([main_spec]), when a
      subscription is created, and that the DSN of SQL Server reads back to its
      settings exactly when [url.Parse] accepts its host, while the connection
      string of Redshift does not.  Leaving the
      program by the logger flushes what Sentry was told ([Logger]).
    - The buffer ([TableData], [Event], [Columns]): it holds the last row of each
      key with unavailable columns carried over, whatever the order of Go's map
      iterations ([InsertRow_replication_spec], [Save_order_independent]); the
      column list refines a finite map ([columns_refine_map]).
    - Events ([Debezium], [Cdc]): keys without the separators of their format
      round trip, times are the instant their unit says, the values that are
      converted have the shape their field announces and the others are passed
      on, the rows of relational events are characterised column by column, and
      what a connector produces passes the pipeline's validation.
    - The write ([Shared], [Ddl], [Dml]): a merge that reports success sent all
      of its statements, staging tables are dropped on every path, a sweep drops
      exactly the expired tables it lists, columns are added and the cache told, a column is dropped only after it was missing
      for the whole padding, and the statement builders fail exactly on the
      arguments they should refuse.
    - The staging ([Redshift], [Snowflake], [Mssql], [Bigquery], [S3]): what is
      loaded is the buffer, cell by cell, through a file that reads back to it
      where there is one; files are removed and transactions closed; retries are
      bounded.  A compressor of Redshift that fails to close goes unnoticed
      ([gzip_close_error_dropped]).
    - Types and numbers ([Typing], [Decimal], [Retry], [Parquet]): column types
      read back from Snowflake and BigQuery as they are stored; decimals print exactly up to 63
      bits; the backoff is the clamped power without overflow; a Parquet schema
      exists exactly for columns that can be stored.

    ** Conventions

    - An [int] of Go is a [Z] in 64-bit two's complement, wrapped by [wrap64]
      where the code computes with it.  Bytes are [Z]s, strings are Rocq strings
      of bytes; case mapping and white space are those of ASCII.
    - Where Go ranges over a map the model takes the order as an argument or a
      relation ([Rows], [rows_of], [iter]), and the theorems hold for all orders
      or say which they need.
    - Clocks, random draws, the SQL driver, files, S3, BigQuery's client, the
      Parquet writer and the queues' clients are parameters ([SqlStore],
      [Outside], [QueueClient], [PubSubService]); what was asked of
      them is logged in order ([sql_event]).  Times, JSON, base64 and printing of
      floats are the class [GoStd]; the bson and PostGIS libraries are [BsonLib]
      and [GeoLib].  Witnesses instantiate them with concrete functions.
    - What is assumed of a destination beyond its interface is named: that it
      accepts from some point on ([Accepting]), and the meaning of SQL's
      statements ([Sql], where a literal, a partition predicate and a
      warehouse's own functions are parameters).  The state records every write,
      and [applied] and [added] say which tables it may have led to: a merge
      that fails took effect whole or not at all, an append that fails wrote
      some of its rows.
    - Loops without a structural measure take fuel: the retry loops take their
      maximum of attempts, and the batches of BigQuery the number of rows, which
      [Staging.Batch_chunks] proves sufficient for a positive batch size.

    ** What is not modelled

    - Interleavings finer than a table's lock.  The steps of [Process] are what
      one goroutine does under a table's lock (saving a message, flushing a
      table), and the whole of a message or a timer flush at once; a flush
      starts one goroutine per table, each of which touches only that table, its
      own configuration and the destination.
    - A row's time and its column share the pointer to their format.  The code
      changes the shared format only in [MergeColumnsFromDestination], where the
      values are rendered with the column's format afterwards; the model gives
      each its own copy, which differs only in the size estimate and the raw
      printed text of such a value.
    - The interleaving of a CSV writer's flushes with the casts of later rows: a
      staged file is written in one step once all its rows were cast.
    - The link from the values of a buffer to the cells that SQL reads back from
      a staging file: [Convergence] and [SqlMerge] are stated of the same
      [Replication], each at its own type of cell, and the staging theorems say
      how a value is rendered.
    - In [main], the set-up of the logger and of the metrics exporter, which
      [Logger] and [Telemetry] model: neither can stop the start.
    - The getters of records, which only read a field. *)
From Stdlib Require Export ZArith Lia Ascii String.
From stdpp Require Export base tactics option list list_numbers strings gmap sorting.

(** String append computes by [simpl]. *)
#[global] Arguments String.append !_ _ / : simpl nomatch.

Declare Scope go_scope.
Delimit Scope go_scope with go.

(** * Generic tactics *)

(** Case analysis on the scrutinee of the first [match] (or [if]) met in
    the goal or, with the [in] form, in a hypothesis. *)
Ltac split_match :=
  match goal with
  | |- context [match ?x with _ => _ end] => destruct x eqn:?
  end.

Ltac split_match_in H :=
  match type of H with
  | context [match ?x with _ => _ end] => destruct x eqn:?
  end.

(** Turn the boolean string and integer tests of the model into equations. *)
Ltac string_eqs :=
  repeat match goal with
  | H : String.eqb ?a ?b = true |- _ => apply String.eqb_eq in H
  | H : String.eqb ?a ?b = false |- _ => apply String.eqb_neq in H
  | H : negb ?a = true |- _ => apply negb_true_iff in H
  | H : negb ?a = false |- _ => apply negb_false_iff in H
  | H : ?a && ?b = true |- _ => apply andb_true_iff in H as [? ?]
  | H : ?a || ?b = false |- _ => apply orb_false_iff in H as [? ?]
  | H : (?a <? ?b)%Z = true |- _ => apply Z.ltb_lt in H
  | H : (?a <? ?b)%Z = false |- _ => apply Z.ltb_ge in H
  | H : (?a <=? ?b)%Z = true |- _ => apply Z.leb_le in H
  | H : (?a <=? ?b)%Z = false |- _ => apply Z.leb_gt in H
  | H : (?a =? ?b)%Z = true |- _ => apply Z.eqb_eq in H
  | H : (?a =? ?b)%Z = false |- _ => apply Z.eqb_neq in H
  end.

(** * Machine integers: Go's [int] and [int64] are 64-bit two's complement *)

Definition max_int64 : Z := 2 ^ 63 - 1.
Definition min_int64 : Z := - 2 ^ 63.

(** The value of a 64-bit signed computation whose mathematical result is [z]. *)
Definition wrap64 (z : Z) : Z := (z + 2 ^ 63) mod 2 ^ 64 - 2 ^ 63.

Definition in_int64 (z : Z) : bool := (min_int64 <=? z)%Z && (z <=? max_int64)%Z.

Lemma wrap64_id z : (min_int64 <= z <= max_int64)%Z -> wrap64 z = z.
Proof.
  unfold wrap64, min_int64, max_int64. intros H.
  rewrite Z.mod_small; lia.
Qed.

Lemma wrap64_range z : (min_int64 <= wrap64 z <= max_int64)%Z.
Proof.
  unfold wrap64, min_int64, max_int64.
  pose proof (Z.mod_pos_bound (z + 2 ^ 63) (2 ^ 64)). lia.
Qed.

Lemma in_int64_spec z : in_int64 z = true <-> (min_int64 <= z <= max_int64)%Z.
Proof.
  unfold in_int64. rewrite andb_true_iff, !Z.leb_le. tauto.
Qed.

(** * Lists *)

(** The first element satisfying [p]: the model of the repository's
    [for _, x := range xs { if p(x) { return x } }] loops. *)
Fixpoint find_first {A} (p : A -> bool) (l : list A) : option A :=
  match l with
  | [] => None
  | x :: l' => if p x then Some x else find_first p l'
  end.

Lemma find_first_Some {A} (p : A -> bool) l x :
  find_first p l = Some x -> x ∈ l /\ p x = true.
Proof.
  induction l as [|y l IH]; simpl; [done|].
  destruct (p y) eqn:Hp.
  - intros [= ->]. split; [left|done].
  - intros H. destruct (IH H). split; [by right|done].
Qed.

Lemma find_first_None {A} (p : A -> bool) l :
  find_first p l = None <-> (forall x, x ∈ l -> p x = false).
Proof.
  induction l as [|y l IH]; simpl.
  - split; [intros _ x Hx; inversion Hx | done].
  - destruct (p y) eqn:Hp.
    + split; [done|]. intros H. specialize (H y). rewrite H in Hp; [done|left].
    + rewrite IH. split.
      * intros H x [->|Hx]%elem_of_cons; auto.
      * intros H x Hx. apply H. by right.
Qed.

Lemma find_first_app {A} (p : A -> bool) l1 l2 :
  find_first p (l1 ++ l2) =
  match find_first p l1 with Some x => Some x | None => find_first p l2 end.
Proof. induction l1 as [|x l1 IH]; simpl; [done|]. by destruct (p x). Qed.

(** Replace the first element satisfying [p]. *)
Fixpoint update_first {A} (p : A -> bool) (y : A) (l : list A) : list A :=
  match l with
  | [] => []
  | x :: l' => if p x then y :: l' else x :: update_first p y l'
  end.

(** Remove the first element satisfying [p]. *)
Fixpoint remove_first {A} (p : A -> bool) (l : list A) : list A :=
  match l with
  | [] => []
  | x :: l' => if p x then l' else x :: remove_first p l'
  end.

Lemma remove_first_sublist {A} (p : A -> bool) l : sublist (remove_first p l) l.
Proof.
  induction l as [|x l IH]; simpl; [constructor|].
  destruct (p x); [apply sublist_cons; reflexivity | by apply sublist_skip].
Qed.

Lemma length_update_first {A} (p : A -> bool) y l :
  length (update_first p y l) = length l.
Proof. induction l as [|x l IH]; simpl; [done|]. destruct (p x); simpl; congruence. Qed.

Lemma filter_sublist {A} (p : A -> bool) l : sublist (List.filter p l) l.
Proof.
  induction l as [|x l IH]; simpl; [constructor|].
  destruct (p x); [by apply sublist_skip | by apply sublist_cons].
Qed.

Lemma filter_filter_andb {A} (p q : A -> bool) l :
  List.filter p (List.filter q l) = List.filter (fun x => q x && p x) l.
Proof.
  induction l as [|x l IH]; simpl; [done|].
  destruct (q x); simpl; [destruct (p x); by rewrite IH | done].
Qed.

Lemma prefix_map_inv {A B} (f : A -> B) l l1 :
  l1 `prefix_of` map f l -> exists l', l1 = map f l' /\ l' `prefix_of` l.
Proof.
  intros [k Hk]. apply map_eq_app in Hk as (l' & l2 & -> & <- & _).
  exists l'. split; [done | by exists l2].
Qed.

(** Left fold over a Z-valued measure. *)
Definition sum_of {A} (f : A -> Z) (l : list A) : Z :=
  foldr (fun x acc => (f x + acc)%Z) 0%Z l.

Lemma sum_of_app {A} (f : A -> Z) l1 l2 :
  sum_of f (l1 ++ l2) = (sum_of f l1 + sum_of f l2)%Z.
Proof. induction l1 as [|x l1 IH]; simpl; [done|]. fold (sum_of f (l1 ++ l2)). rewrite IH. unfold sum_of; simpl. lia. Qed.

#[export] Instance sum_of_proper {A} (f : A -> Z) :
  Proper ((≡ₚ) ==> (=)) (sum_of f).
Proof.
  intros l1 l2 H. unfold sum_of. induction H; simpl; try lia.
Qed.

Create HintDb transfer.
#[export] Hint Resolve remove_first_sublist filter_sublist : transfer.

