(* ===== verification/GoLang.v ===== *)
(** What the modelled code uses of the Go language and of its [strings],
    [strconv] and [errors] packages: a result type with Go's three outcomes
    (a value, an error value, a panic), error values with their wrap chain,
    and byte strings.  Case mapping and white space are those of ASCII, the
    range in which identifiers of the repository live. *)
From Stdlib Require Import DecimalString DecimalN.
From S2P Require Import Prelude.
Local Open Scope string_scope.
Local Open Scope list_scope.

(** * Error values *)

(** The system errors the repository tests for with [errors.Is]. *)
Inductive errno := ECONNRESET | ECONNREFUSED | EOTHER (text : string).

(** An error is a message ([errors.New], [fmt.Errorf] without [%w]), a
    system error, or a wrapped error with the text around it. *)
Inductive error :=
| ErrNew (msg : string)
| ErrSys (no : errno)
| ErrWrap (before : string) (inner : error) (after : string).

#[export] Instance errno_eq_dec : EqDecision errno.
Proof. solve_decision. Defined.
#[export] Instance error_eq_dec : EqDecision error.
Proof. solve_decision. Defined.

Definition errno_text (no : errno) : string :=
  match no with
  | ECONNRESET => "connection reset by peer"
  | ECONNREFUSED => "connection refused"
  | EOTHER text => text
  end.

(** [err.Error()] *)
Fixpoint error_text (e : error) : string :=
  match e with
  | ErrNew msg => msg
  | ErrSys no => errno_text no
  | ErrWrap before inner after => before +:+ error_text inner +:+ after
  end.

(** [errors.Is(err, syscall.X)] *)
Fixpoint errors_is (e : error) (no : errno) : bool :=
  match e with
  | ErrNew _ => false
  | ErrSys no' => bool_decide (no' = no)
  | ErrWrap _ inner _ => errors_is inner no
  end.

(** * Outcomes *)

Inductive result (A : Type) :=
| Ok (a : A)
| Err (e : error)
| Panic (why : string).
Arguments Ok {A} a.
Arguments Err {A} e.
Arguments Panic {A} why.

#[export] Instance result_eq_dec `{EqDecision A} : EqDecision (result A).
Proof. solve_decision. Defined.

#[export] Instance result_ret : MRet result := @Ok.
#[export] Instance result_bind : MBind result := fun A B f r =>
  match r with
  | Ok a => f a
  | Err e => Err e
  | Panic w => Panic w
  end.
#[export] Instance result_fmap : FMap result := fun A B f r =>
  match r with
  | Ok a => Ok (f a)
  | Err e => Err e
  | Panic w => Panic w
  end.

Definition errorf {A} (msg : string) : result A := Err (ErrNew msg).

(** [return ..., fmt.Errorf("before%wafter", err)] on the error path of [r]. *)
Definition wrap_err {A} (before after : string) (r : result A) : result A :=
  match r with
  | Ok a => Ok a
  | Err e => Err (ErrWrap before e after)
  | Panic w => Panic w
  end.

Definition is_ok {A} (r : result A) : bool :=
  match r with Ok _ => true | _ => false end.

Definition is_err {A} (r : result A) : bool :=
  match r with Err _ => true | _ => false end.

Definition is_panic {A} (r : result A) : bool :=
  match r with Panic _ => true | _ => false end.

Lemma bind_Ok {A B} (f : A -> result B) r b :
  (r ≫= f) = Ok b <-> exists a, r = Ok a /\ f a = Ok b.
Proof. destruct r; simpl; split; naive_solver. Qed.

(** [mapM] that stops at the first error, as [for] loops returning early do. *)
Fixpoint traverse {A B} (f : A -> result B) (l : list A) : result (list B) :=
  match l with
  | [] => Ok []
  | x :: l' => y ← f x; ys ← traverse f l'; Ok (y :: ys)
  end.

Lemma traverse_Ok {A B} (f : A -> result B) l ys :
  traverse f l = Ok ys <-> Forall2 (fun x y => f x = Ok y) l ys.
Proof.
  revert ys; induction l as [|x l IH]; intros ys; simpl.
  - split; [intros [= <-]; constructor | by inversion 1].
  - rewrite bind_Ok. setoid_rewrite bind_Ok. split.
    + intros (y & Hy & ys' & Hys & [= <-]). constructor; [done|by apply IH].
    + inversion 1; subst. eexists; split; [done|]. eexists; split; [by apply IH|done].
Qed.

(** * Byte strings *)

Definition is_ascii_upper (c : ascii) : bool :=
  let n := nat_of_ascii c in (65 <=? n)%nat && (n <=? 90)%nat.
Definition is_ascii_lower (c : ascii) : bool :=
  let n := nat_of_ascii c in (97 <=? n)%nat && (n <=? 122)%nat.

Definition ascii_to_lower (c : ascii) : ascii :=
  if is_ascii_upper c then ascii_of_nat (nat_of_ascii c + 32) else c.
Definition ascii_to_upper (c : ascii) : ascii :=
  if is_ascii_lower c then ascii_of_nat (nat_of_ascii c - 32) else c.

Fixpoint map_string (f : ascii -> ascii) (s : string) : string :=
  match s with
  | EmptyString => EmptyString
  | String c s' => String (f c) (map_string f s')
  end.

(** [strings.ToLower], [strings.ToUpper] *)
Definition to_lower : string -> string := map_string ascii_to_lower.
Definition to_upper : string -> string := map_string ascii_to_upper.

(** [strings.HasPrefix] *)
Fixpoint has_prefix (s p : string) {struct p} : bool :=
  match p, s with
  | EmptyString, _ => true
  | String c p', String d s' => Ascii.eqb c d && has_prefix s' p'
  | String _ _, EmptyString => false
  end.

(** [strings.TrimPrefix] *)
Fixpoint drop_string (n : nat) (s : string) : string :=
  match n, s with
  | S n', String _ s' => drop_string n' s'
  | _, _ => s
  end.
Fixpoint take_string (n : nat) (s : string) : string :=
  match n, s with
  | S n', String c s' => String c (take_string n' s')
  | _, _ => EmptyString
  end.
Definition trim_prefix (s p : string) : string :=
  if has_prefix s p then drop_string (String.length p) s else s.

(** [strings.HasSuffix], [strings.TrimSuffix] *)
Definition has_suffix (s p : string) : bool :=
  (String.length p <=? String.length s)%nat &&
  String.eqb (drop_string (String.length s - String.length p) s) p.
Definition trim_suffix (s p : string) : string :=
  if has_suffix s p then take_string (String.length s - String.length p) s else s.

(** [strings.Contains] *)
Fixpoint contains (s sub : string) : bool :=
  has_prefix s sub ||
  match s with
  | EmptyString => false
  | String _ s' => contains s' sub
  end.

(** [strings.Index]; [None] stands for -1. *)
Fixpoint index_of (s sub : string) : option nat :=
  if has_prefix s sub then Some 0%nat
  else match s with
       | EmptyString => None
       | String _ s' => S <$> index_of s' sub
       end.

(** [strings.Split] for a one-byte separator: never the empty list. *)
Fixpoint split_on (c : ascii) (s : string) : list string :=
  match s with
  | EmptyString => [EmptyString]
  | String d s' =>
      if Ascii.eqb d c then EmptyString :: split_on c s'
      else match split_on c s' with
           | [] => [String d EmptyString]
           | w :: ws => String d w :: ws
           end
  end.

(** [strings.Join] *)
Fixpoint join (sep : string) (l : list string) : string :=
  match l with
  | [] => EmptyString
  | [x] => x
  | x :: l' => x +:+ sep +:+ join sep l'
  end.

(** [strings.ReplaceAll] for a one-byte pattern. *)
Fixpoint replace_all (s : string) (c : ascii) (by_ : string) : string :=
  match s with
  | EmptyString => EmptyString
  | String d s' =>
      if Ascii.eqb d c then by_ +:+ replace_all s' c by_
      else String d (replace_all s' c by_)
  end.

(** [string(b)] *)
Definition string_of_bytes (b : list Z) : string :=
  foldr (fun c s => String (ascii_of_nat (Z.to_nat c)) s) EmptyString b.
(** [[]byte(s)] *)
Fixpoint bytes_of_string (s : string) : list Z :=
  match s with EmptyString => [] | String c s' => Z.of_nat (nat_of_ascii c) :: bytes_of_string s' end.

(** A one-byte string; the double quote; [%q] for strings without escapes. *)
Definition str1 (c : ascii) : string := String c EmptyString.
Definition dquote : string := str1 "034".
Definition quote (s : string) : string := dquote +:+ s +:+ dquote.
Definition newline : string := str1 "010".

(** [strings.TrimSpace] *)
Definition is_space (c : ascii) : bool :=
  let n := nat_of_ascii c in ((9 <=? n)%nat && (n <=? 13)%nat) || (n =? 32)%nat.
Fixpoint trim_left (s : string) : string :=
  match s with
  | EmptyString => EmptyString
  | String c s' => if is_space c then trim_left s' else s
  end.
Fixpoint trim_right (s : string) : string :=
  match s with
  | EmptyString => EmptyString
  | String c s' =>
      let r := trim_right s' in
      if String.eqb r EmptyString && is_space c then EmptyString else String c r
  end.
Definition trim_space (s : string) : string := trim_right (trim_left s).

(** [slices.Contains] on strings *)
Definition mem_string (l : list string) (s : string) : bool :=
  existsb (String.eqb s) l.

(** Number of occurrences of a byte. *)
Fixpoint count_char (c : ascii) (s : string) : nat :=
  match s with
  | EmptyString => 0%nat
  | String d s' => ((if Ascii.eqb d c then 1 else 0) + count_char c s')%nat
  end.

(** * strconv *)

(** [strconv.Itoa], [%d] *)
Definition itoa (z : Z) : string :=
  if (z <? 0)%Z
  then String "-" (NilZero.string_of_uint (N.to_uint (Z.to_N (- z))))
  else NilZero.string_of_uint (N.to_uint (Z.to_N z)).

Definition parse_digits (s : string) : option Z :=
  (fun d => Z.of_N (N.of_uint d)) <$> NilZero.uint_of_string s.

Definition signed_digits (s : string) : option Z :=
  match s with
  | String "-" s' => Z.opp <$> parse_digits s'
  | String "+" s' => parse_digits s'
  | _ => parse_digits s
  end.

(** [strconv.Atoi]: optional sign, decimal digits, 64-bit range. *)
Definition atoi (s : string) : result Z :=
  match signed_digits s with
  | None => errorf ("strconv.Atoi: parsing " +:+ quote s +:+ ": invalid syntax")
  | Some z =>
      if in_int64 z then Ok z
      else errorf ("strconv.Atoi: parsing " +:+ quote s +:+ ": value out of range")
  end.

(** * Lemmas on strings *)

Lemma string_app_assoc (a b c : string) : a +:+ (b +:+ c) = (a +:+ b) +:+ c.
Proof. induction a as [|x a IH]; simpl; [done|]. by rewrite IH. Qed.

Lemma string_app_nil_r (a : string) : a +:+ EmptyString = a.
Proof. induction a as [|x a IH]; simpl; [done|]. by rewrite IH. Qed.

Lemma string_length_app (a b : string) :
  String.length (a +:+ b) = (String.length a + String.length b)%nat.
Proof. induction a as [|x a IH]; simpl; congruence. Qed.

Lemma has_prefix_app s t : has_prefix (s +:+ t) s = true.
Proof. induction s as [|c s IH]; simpl; [done|]. by rewrite Ascii.eqb_refl. Qed.

Lemma drop_string_app s t : drop_string (String.length s) (s +:+ t) = t.
Proof. induction s as [|c s IH]; simpl; [by destruct t|by rewrite IH]. Qed.

Lemma take_string_app s t : take_string (String.length s) (s +:+ t) = s.
Proof. induction s as [|c s IH]; simpl; [by destruct t|by rewrite IH]. Qed.

Lemma trim_prefix_app s t : trim_prefix (s +:+ t) s = t.
Proof. unfold trim_prefix. by rewrite has_prefix_app, drop_string_app. Qed.

Lemma has_suffix_app s t : has_suffix (s +:+ t) t = true.
Proof.
  unfold has_suffix. rewrite string_length_app, andb_true_iff.
  split; [apply Nat.leb_le; lia|].
  replace (String.length s + String.length t - String.length t)%nat with (String.length s) by lia.
  rewrite drop_string_app. apply String.eqb_refl.
Qed.

Lemma trim_suffix_app s t : trim_suffix (s +:+ t) t = s.
Proof.
  unfold trim_suffix. rewrite has_suffix_app, string_length_app.
  replace (String.length s + String.length t - String.length t)%nat with (String.length s) by lia.
  apply take_string_app.
Qed.

Lemma contains_app_l s t sub : contains s sub = true -> contains (s +:+ t) sub = true.
Proof.
  assert (Hp : forall p s, has_prefix s p = true -> has_prefix (s +:+ t) p = true).
  { induction p as [|c p IHp]; intros [|d s']; simpl; try done.
    rewrite !andb_true_iff. intros [? ?]; split; auto. }
  induction s as [|c s IH].
  - simpl. rewrite orb_false_r. intros H. destruct sub; [|done]. by destruct t.
  - intros H. cbn [contains] in H. change (String c s +:+ t) with (String c (s +:+ t)).
    cbn [contains]. apply orb_true_iff in H as [H|H].
    + apply Hp in H. change (String c s +:+ t) with (String c (s +:+ t)) in H. by rewrite H.
    + rewrite IH by done. apply orb_true_r.
Qed.

Lemma contains_app_r s t sub : contains t sub = true -> contains (s +:+ t) sub = true.
Proof.
  intros H. induction s as [|c s IH]; [done|].
  change (String c s +:+ t) with (String c (s +:+ t)). cbn [contains].
  rewrite IH. apply orb_true_r.
Qed.

Lemma contains_self s : contains s s = true.
Proof.
  destruct s as [|c s]; [done|]. cbn [contains].
  pose proof (has_prefix_app (String c s) EmptyString) as H.
  rewrite string_app_nil_r in H. by rewrite H.
Qed.

Lemma ascii_to_lower_idem c : ascii_to_lower (ascii_to_lower c) = ascii_to_lower c.
Proof. destruct c as [[] [] [] [] [] [] [] []]; vm_compute; reflexivity. Qed.

Lemma map_string_app f s t : map_string f (s +:+ t) = map_string f s +:+ map_string f t.
Proof. induction s as [|c s IH]; simpl; [done|]. by rewrite IH. Qed.

Lemma to_lower_idem s : to_lower (to_lower s) = to_lower s.
Proof.
  unfold to_lower. induction s as [|c s IH]; simpl; [done|].
  by rewrite ascii_to_lower_idem, IH.
Qed.

Lemma to_lower_app s t : to_lower (s +:+ t) = to_lower s +:+ to_lower t.
Proof. apply map_string_app. Qed.

Lemma to_lower_empty s : to_lower s = EmptyString <-> s = EmptyString.
Proof. split; [by destruct s|by intros ->]. Qed.

(** ** Split and join *)

Lemma split_on_nonempty c s : split_on c s <> [].
Proof.
  destruct s as [|d s]; simpl; [done|].
  destruct (Ascii.eqb d c); [done|]. by destruct (split_on c s).
Qed.

Lemma split_on_no_sep c s : count_char c s = 0%nat -> split_on c s = [s].
Proof.
  induction s as [|d s IH]; simpl; [done|].
  destruct (Ascii.eqb d c); [lia|]. intros H. by rewrite IH.
Qed.

Lemma split_on_app c s t :
  count_char c s = 0%nat ->
  split_on c (s +:+ String c t) = s :: split_on c t.
Proof.
  induction s as [|d s IH]; simpl.
  - by rewrite Ascii.eqb_refl.
  - destruct (Ascii.eqb d c); [lia|]. intros H. by rewrite IH.
Qed.

(** Splitting what was joined gives the parts back, if none holds the separator. *)
Lemma split_join c l :
  l <> [] -> Forall (fun s => count_char c s = 0%nat) l ->
  split_on c (join (str1 c) l) = l.
Proof.
  intros Hne Hl. destruct Hl as [|x l Hx Hl]; [done|]. clear Hne.
  revert x Hx. induction Hl as [|y l Hy Hl IH]; intros x Hx.
  - by apply split_on_no_sep.
  - change (join (str1 c) (x :: y :: l)) with (x +:+ String c (join (str1 c) (y :: l))).
    rewrite split_on_app by done. by rewrite IH.
Qed.

Lemma join_split c s : join (str1 c) (split_on c s) = s.
Proof.
  induction s as [|d s IH]; simpl; [done|].
  pose proof (split_on_nonempty c s) as Hne.
  destruct (Ascii.eqb d c) eqn:Hd.
  - apply Ascii.eqb_eq in Hd as ->. rewrite <- IH at 2.
    destruct (split_on c s); [done|reflexivity].
  - rewrite <- IH at 2. destruct (split_on c s) as [|w [|w' ws]]; [done|reflexivity..].
Qed.

Lemma split_on_last_app c s t :
  count_char c t = 0%nat ->
  List.last (split_on c (s +:+ String c t)) EmptyString = t.
Proof.
  intros Ht. induction s as [|d s IH]; simpl.
  - rewrite Ascii.eqb_refl, split_on_no_sep by done. reflexivity.
  - pose proof (split_on_nonempty c (s +:+ String c t)) as Hne.
    destruct (Ascii.eqb d c) eqn:Hd.
    + destruct (split_on c (s +:+ String c t)); [done|]. apply IH.
    + assert (Hlen : (2 <= length (split_on c (s +:+ String c t)))%nat).
      { clear IH Hne Hd. induction s as [|e s IHs]; simpl.
        - rewrite Ascii.eqb_refl, split_on_no_sep by done. simpl. lia.
        - destruct (Ascii.eqb e c); simpl; [lia|].
          destruct (split_on c (s +:+ String c t)); simpl in *; lia. }
      destruct (split_on c (s +:+ String c t)) as [|w [|w' ws]]; simpl in *; try lia.
      apply IH.
Qed.

Lemma length_split_on_app c s t :
  (2 <= length (split_on c (s +:+ String c t)))%nat.
Proof.
  induction s as [|d s IH]; simpl.
  - rewrite Ascii.eqb_refl. simpl. pose proof (split_on_nonempty c t).
    destruct (split_on c t); simpl; [done|lia].
  - destruct (Ascii.eqb d c); simpl; [lia|].
    destruct (split_on c (s +:+ String c t)); simpl in *; lia.
Qed.

(** ** Replacement *)

Lemma count_char_app c s t : count_char c (s +:+ t) = (count_char c s + count_char c t)%nat.
Proof. induction s as [|d s IH]; simpl; lia. Qed.

Lemma replace_all_removes c by_ s :
  count_char c by_ = 0%nat -> count_char c (replace_all s c by_) = 0%nat.
Proof.
  intros Hb. induction s as [|d s IH]; simpl; [done|].
  destruct (Ascii.eqb d c) eqn:Hd; [rewrite count_char_app; lia|].
  cbn [count_char]. by rewrite Hd.
Qed.

Lemma replace_all_id c by_ s : count_char c s = 0%nat -> replace_all s c by_ = s.
Proof.
  induction s as [|d s IH]; simpl; [done|].
  destruct (Ascii.eqb d c); [lia|]. intros. by rewrite IH.
Qed.

Lemma contains_str1 c s : contains s (str1 c) = negb (count_char c s =? 0)%nat.
Proof.
  unfold str1. induction s as [|d s IH]; simpl; [done|].
  rewrite IH, Ascii.eqb_sym. by destruct (Ascii.eqb d c), s.
Qed.

(** ** Decimal numerals *)

Lemma parse_digits_to_uint n :
  parse_digits (NilZero.string_of_uint (N.to_uint n)) = Some (Z.of_N n).
Proof.
  unfold parse_digits. rewrite NilZero.usu; simpl.
  - by rewrite DecimalN.Unsigned.of_to.
  - destruct n as [|p]; simpl; [done|]. apply DecimalPos.Unsigned.to_uint_nonnil.
Qed.

Definition is_digit (c : ascii) : bool :=
  let n := nat_of_ascii c in (48 <=? n)%nat && (n <=? 57)%nat.

Fixpoint all_chars (p : ascii -> bool) (s : string) : bool :=
  match s with
  | EmptyString => true
  | String c s' => p c && all_chars p s'
  end.

Lemma string_of_uint_digits d : all_chars is_digit (NilZero.string_of_uint d) = true.
Proof.
  destruct d; [reflexivity|..];
  unfold NilZero.string_of_uint; simpl;
  match goal with |- context [NilEmpty.string_of_uint ?u] => induction u; simpl; auto end.
Qed.

Lemma all_chars_count p c s :
  all_chars p s = true -> p c = false -> count_char c s = 0%nat.
Proof.
  intros Hs Hc. induction s as [|d s IH]; simpl in *; [done|].
  apply andb_true_iff in Hs as [Hd Hs]. rewrite IH by done.
  destruct (Ascii.eqb d c) eqn:E; [|done]. apply Ascii.eqb_eq in E. congruence.
Qed.

Lemma itoa_count c z : is_digit c = false -> c <> "-"%char -> count_char c (itoa z) = 0%nat.
Proof.
  intros Hc Hm. unfold itoa.
  assert (forall n, count_char c (NilZero.string_of_uint (N.to_uint n)) = 0%nat) as H.
  { intros n. eapply all_chars_count; [apply string_of_uint_digits|done]. }
  destruct (z <? 0)%Z; [|apply H].
  cbn [count_char]. rewrite H. destruct (Ascii.eqb "-" c) eqn:E; [|done].
  apply Ascii.eqb_eq in E. congruence.
Qed.

Lemma signed_digits_itoa z : signed_digits (itoa z) = Some z.
Proof.
  unfold itoa. destruct (Z.ltb_spec z 0).
  - cbn [signed_digits]. rewrite parse_digits_to_uint. simpl. f_equal. lia.
  - pose proof (parse_digits_to_uint (Z.to_N z)) as Hp.
    pose proof (string_of_uint_digits (N.to_uint (Z.to_N z))) as Hd.
    rewrite Z2N.id in Hp by lia.
    destruct (NilZero.string_of_uint (N.to_uint (Z.to_N z))) as [|c s]; [done|].
    simpl in Hd. apply andb_true_iff in Hd as [Hd _].
    unfold signed_digits. repeat split_match; try done; subst; vm_compute in Hd; done.
Qed.

(** Parsing a printed integer gives it back, in the 64-bit range. *)
Lemma atoi_itoa z : (min_int64 <= z <= max_int64)%Z -> atoi (itoa z) = Ok z.
Proof.
  intros H. unfold atoi. rewrite signed_digits_itoa.
  apply in_int64_spec in H. by rewrite H.
Qed.

Lemma atoi_range s z : atoi s = Ok z -> (min_int64 <= z <= max_int64)%Z.
Proof.
  unfold atoi. destruct (signed_digits s); [|done].
  destruct (in_int64 z0) eqn:E; [|done]. intros [= ->]. by apply in_int64_spec.
Qed.

Lemma trim_space_digits s :
  all_chars (fun c => negb (is_space c)) s = true -> trim_space s = s.
Proof.
  intros H. unfold trim_space.
  assert (Hl : trim_left s = s).
  { destruct s as [|c s]; [done|]. simpl in *. apply andb_true_iff in H as [H _].
    apply negb_true_iff in H. by rewrite H. }
  rewrite Hl. clear Hl. induction s as [|c s IH]; simpl in *; [done|].
  apply andb_true_iff in H as [Hc H]. rewrite IH by done.
  apply negb_true_iff in Hc. rewrite Hc. by rewrite andb_false_r.
Qed.

Lemma all_chars_impl (p q : ascii -> bool) s :
  (forall c, p c = true -> q c = true) -> all_chars p s = true -> all_chars q s = true.
Proof.
  intros Hpq. induction s as [|c s IH]; simpl; [done|].
  rewrite !andb_true_iff. intros [? ?]; auto.
Qed.

Definition is_signed_digit (c : ascii) : bool := is_digit c || Ascii.eqb c "-".

Lemma itoa_chars z : all_chars is_signed_digit (itoa z) = true.
Proof.
  assert (H : forall d, all_chars is_signed_digit (NilZero.string_of_uint d) = true).
  { intros d. eapply all_chars_impl; [|apply string_of_uint_digits].
    intros c Hc. unfold is_signed_digit. by rewrite Hc. }
  unfold itoa. destruct (z <? 0)%Z; [|apply H]. simpl. apply H.
Qed.

Lemma signed_digit_not_space c : is_signed_digit c = true -> negb (is_space c) = true.
Proof. destruct c as [[] [] [] [] [] [] [] []]; vm_compute; done. Qed.

Lemma signed_digit_lower c : is_signed_digit c = true -> ascii_to_lower c = c.
Proof. destruct c as [[] [] [] [] [] [] [] []]; vm_compute; done. Qed.

Lemma map_string_id f s :
  all_chars is_signed_digit s = true ->
  (forall c, is_signed_digit c = true -> f c = c) -> map_string f s = s.
Proof.
  intros Hs Hf. induction s as [|c s IH]; simpl in *; [done|].
  apply andb_true_iff in Hs as [? ?]. by rewrite Hf, IH.
Qed.

Lemma to_lower_itoa z : to_lower (itoa z) = itoa z.
Proof. apply map_string_id; [apply itoa_chars|apply signed_digit_lower]. Qed.

Lemma trim_space_itoa z : trim_space (itoa z) = itoa z.
Proof.
  apply trim_space_digits. eapply all_chars_impl; [apply signed_digit_not_space|apply itoa_chars].
Qed.

#[export] Hint Resolve atoi_itoa contains_self : transfer.

(** * Guards *)

Lemma existsb_empty_false l :
  existsb (fun s => String.eqb s EmptyString) l = false <-> Forall (fun s => s <> EmptyString) l.
Proof.
  induction l as [|s l IH]; simpl; [by split|].
  rewrite orb_false_iff, IH, Forall_cons, String.eqb_neq. done.
Qed.

Lemma mem_string_spec l s : mem_string l s = true <-> s ∈ l.
Proof.
  unfold mem_string. rewrite existsb_exists. split.
  - intros (x & Hx%list_elem_of_In & ->%String.eqb_eq). done.
  - intros H%list_elem_of_In. exists s. by rewrite String.eqb_refl.
Qed.

(** A guard [if b then error else r]: it succeeds when the test fails. *)
Lemma guard_ok {A} (b : bool) msg (r : result A) (a : A) :
  (if b then errorf msg else r) = Ok a <-> b = false /\ r = Ok a.
Proof. destruct b; simpl; naive_solver. Qed.

Lemma wrap_err_ok {A} b a (r : result A) x : wrap_err b a r = Ok x <-> r = Ok x.
Proof. by destruct r. Qed.

Lemma seq_ok {A} (r : result unit) (k : result A) x : (r ;; k) = Ok x <-> r = Ok tt /\ k = Ok x.
Proof. destruct r as [[]| |]; simpl; naive_solver. Qed.

Lemma exists_Ok_tt (P : Prop) : (P /\ Ok tt = Ok tt) <-> P.
Proof. tauto. Qed.

Lemma string_of_bytes_of_string s : string_of_bytes (bytes_of_string s) = s.
Proof. induction s as [|c s IH]; simpl; [done|]. by rewrite Nat2Z.id, ascii_nat_embedding, IH. Qed.
