(* ===== verification/Constants.v ===== *)
(** Constants of [lib/config/constants]: the marker columns, the reserved
    keywords of each destination, and the enumerations that select behaviour
    (destination, queue, column operation).  An enumeration is a Go string
    type, so each has a constructor for any other string. *)
From S2P Require Import Prelude GoLang.
Local Open Scope string_scope.
Local Open Scope list_scope.

Definition ToastUnavailableValuePlaceholder : string := "__debezium_unavailable_value".
Definition DebeziumTopicRoutingKey : string := "__dbz__physicalTableIdentifier".
Definition HistoryModeSuffix : string := "__history".
Definition ArtiePrefix : string := "__artie".
Definition DeleteColumnMarker : string := ArtiePrefix +:+ "_delete".
Definition UpdateColumnMarker : string := ArtiePrefix +:+ "_updated_at".
Definition DatabaseUpdatedColumnMarker : string := ArtiePrefix +:+ "_db_updated_at".
Definition OperationColumnMarker : string := ArtiePrefix +:+ "_operation".
Definition ExceededValueMarker : string := ArtiePrefix +:+ "_exceeded_value".

(** [time.Duration] is a number of nanoseconds. *)
Definition Millisecond : Z := 1000000.
Definition Second : Z := 1000 * Millisecond.
Definition Minute : Z := 60 * Second.
Definition Hour : Z := 60 * Minute.
Definition DeletionConfidencePadding : Z := 4 * Hour.
Definition TemporaryTableTTL : Z := 6 * Hour.

Definition DBZPostgresFormat : string := "debezium.postgres".
Definition DBZPostgresAltFormat : string := "debezium.postgres.wal2json".
Definition DBZMongoFormat : string := "debezium.mongodb".
Definition DBZMySQLFormat : string := "debezium.mysql".

Definition ReservedKeywords : list string :=
  ["all"; "alter"; "and"; "any"; "as"; "between"; "by"; "case"; "cast";
  "check"; "column"; "connect"; "create"; "current"; "delete"; "distinct";
  "drop"; "else"; "exists"; "following"; "for"; "from"; "grant"; "group";
  "having"; "in"; "insert"; "intersect"; "into"; "is"; "like"; "not"; "null";
  "of"; "on"; "or"; "order"; "revoke"; "row"; "rows"; "sample"; "select";
  "set"; "some"; "start"; "table"; "tablesample"; "then"; "to"; "trigger";
  "union"; "unique"; "update"; "values"; "whenever"; "where"; "with"].

Definition RedshiftReservedKeywords : list string :=
  ["aes128"; "aes256"; "all"; "allowoverwrite"; "analyse"; "analyze"; "and";
  "any"; "array"; "as"; "asc"; "authorization"; "az64"; "backup"; "between";
  "binary"; "blanksasnull"; "both"; "bytedict"; "bzip2"; "case"; "cast";
  "check"; "collate"; "column"; "connect"; "constraint"; "create";
  "credentials"; "cross"; "current_date"; "current_time";
  "current_timestamp"; "current_user"; "current_user_id"; "default";
  "deferrable"; "deflate"; "defrag"; "delta"; "delta32k"; "desc"; "disable";
  "distinct"; "do"; "else"; "emptyasnull"; "enable"; "encode"; "encrypt";
  "encryption"; "end"; "except"; "explicit"; "false"; "for"; "foreign";
  "freeze"; "from"; "full"; "globaldict256"; "globaldict64k"; "grant";
  "group"; "gzip"; "having"; "identity"; "ignore"; "ilike"; "in";
  "initially"; "inner"; "intersect"; "interval"; "into"; "is"; "isnull";
  "join"; "language"; "leading"; "left"; "like"; "limit"; "localtime";
  "localtimestamp"; "lun"; "luns"; "lzo"; "lzop"; "minus"; "mostly16";
  "mostly32"; "mostly8"; "natural"; "new"; "not"; "notnull"; "null"; "nulls";
  "off"; "offline"; "offset"; "oid"; "old"; "on"; "only"; "open"; "or";
  "order"; "outer"; "overlaps"; "parallel"; "partition"; "percent";
  "permissions"; "pivot"; "placing"; "primary"; "raw"; "readratio";
  "recover"; "references"; "rejectlog"; "resort"; "respect"; "restore";
  "right"; "select"; "session_user"; "similar"; "snapshot"; "some";
  "sysdate"; "system"; "start"; "table"; "tag"; "tdes"; "text255"; "text32k";
  "then"; "timestamp"; "to"; "top"; "trailing"; "true"; "truncatecolumns";
  "union"; "unique"; "unnest"; "unpivot"; "user"; "using"; "verbose";
  "wallet"; "when"; "where"; "with"; "without"].

Definition MSSQLReservedKeywords : list string :=
  ["add"; "external"; "procedure"; "all"; "fetch"; "public"; "alter"; "file";
  "raiserror"; "and"; "fillfactor"; "read"; "any"; "for"; "readtext"; "as";
  "foreign"; "reconfigure"; "asc"; "freetext"; "references"; "authorization";
  "freetexttable"; "replication"; "backup"; "from"; "restore"; "begin";
  "full"; "restrict"; "between"; "function"; "return"; "break"; "goto";
  "revert"; "browse"; "grant"; "revoke"; "bulk"; "group"; "right"; "by";
  "having"; "rollback"; "cascade"; "holdlock"; "rowcount"; "case";
  "identity"; "rowguidcol"; "check"; "identity_insert"; "rule"; "checkpoint";
  "identitycol"; "save"; "close"; "if"; "schema"; "clustered"; "in";
  "securityaudit"; "coalesce"; "index"; "select"; "collate"; "inner";
  "semantickeyphrasetable"; "column"; "insert";
  "semanticsimilaritydetailstable"; "commit"; "intersect";
  "semanticsimilaritytable"; "compute"; "into"; "session_user"; "constraint";
  "is"; "set"; "contains"; "join"; "setuser"; "containstable"; "key";
  "shutdown"; "continue"; "kill"; "some"; "convert"; "left"; "statistics";
  "create"; "like"; "system_user"; "cross"; "lineno"; "table"; "current";
  "load"; "tablesample"; "current_date"; "merge"; "textsize"; "current_time";
  "national"; "then"; "current_timestamp"; "nocheck"; "to"; "current_user";
  "nonclustered"; "top"; "cursor"; "not"; "tran"; "database"; "null";
  "transaction"; "dbcc"; "nullif"; "trigger"; "deallocate"; "of"; "truncate";
  "declare"; "off"; "try_convert"; "default"; "offsets"; "tsequal"; "delete";
  "on"; "union"; "deny"; "open"; "unique"; "desc"; "opendatasource";
  "unpivot"; "disk"; "openquery"; "update"; "distinct"; "openrowset";
  "updatetext"; "distributed"; "openxml"; "use"; "double"; "option"; "user";
  "drop"; "or"; "values"; "dump"; "order"; "varying"; "else"; "outer";
  "view"; "end"; "over"; "waitfor"; "errlvl"; "percent"; "when"; "escape";
  "pivot"; "where"; "except"; "plan"; "while"; "exec"; "precision"; "with";
  "execute"; "primary"; "within group"; "exists"; "print"; "writetext";
  "exit"; "proc"].

Definition StrPrecisionCol : string := "character_maximum_length".

(** * Enumerations *)

Inductive ColumnOperation := Add | Delete.

Definition ColumnOperation_string (op : ColumnOperation) : string :=
  match op with Add => "add" | Delete => "drop" end.

Inductive QueueKind := Kafka | PubSub | OtherQueue (s : string).

Inductive DestinationKind :=
| Snowflake | Test | BigQuery | Redshift | S3 | MSSQL | OtherDest (s : string).

Definition DestinationKind_string (d : DestinationKind) : string :=
  match d with
  | Snowflake => "snowflake"
  | Test => "test"
  | BigQuery => "bigquery"
  | Redshift => "redshift"
  | S3 => "s3"
  | MSSQL => "mssql"
  | OtherDest s => s
  end.

#[export] Instance ColumnOperation_eq_dec : EqDecision ColumnOperation.
Proof. solve_decision. Defined.
#[export] Instance QueueKind_eq_dec : EqDecision QueueKind.
Proof. solve_decision. Defined.
#[export] Instance DestinationKind_eq_dec : EqDecision DestinationKind.
Proof. solve_decision. Defined.

Definition ValidDestinations : list DestinationKind :=
  [BigQuery; Snowflake; Redshift; S3; MSSQL; Test].

Definition IsValidDestination (destination : DestinationKind) : bool :=
  existsb (fun validDest => bool_decide (destination = validDest)) ValidDestinations.

Definition ParquetFormat : string := "parquet".
Definition IsValidS3OutputFormat (format : string) : bool := String.eqb format ParquetFormat.

(** [config.Mode] *)
Inductive Mode := History | Replication | OtherMode (s : string).

Definition Mode_String (m : Mode) : string :=
  match m with
  | History => "history"
  | Replication => "replication"
  | OtherMode s => s
  end.

#[export] Instance Mode_eq_dec : EqDecision Mode.
Proof. solve_decision. Defined.
