(* ===== verification/StringUtil.v ===== *)
(** Leaf helpers: [lib/stringutil], [lib/array], [lib/numbers] and
    [lib/sql/escape.go]. *)
From S2P Require Import Prelude GoLang Constants.
Local Open Scope string_scope.
Local Open Scope list_scope.

(** * lib/stringutil *)

Definition CapitalizeFirstLetter (s : string) : string :=
  match s with
  | EmptyString => s
  | String c s' => to_upper (str1 c) +:+ s'
  end.

(** The right-most non-empty value wins. *)
Definition Override (vals : list string) : string :=
  foldl (fun retVal val => if negb (String.eqb val EmptyString) then val else retVal)
        EmptyString vals.

(** [Wrap] after [fmt.Sprint] has rendered the value. *)
Definition Wrap (printed : string) (noQuotes : bool) : string :=
  let colVal := replace_all printed "\" "\\" in
  if noQuotes then colVal
  else "'" +:+ replace_all colVal "'" "\'" +:+ "'".

Definition Empty (vals : list string) : bool :=
  existsb (fun val => String.eqb val EmptyString) vals.

Definition EscapeSpaces (col : string) : bool * string :=
  (contains col " ", replace_all col " " "__").

(** [Random(length)] draws from this alphabet; the draws are the argument. *)
Definition charset : string :=
  "abcdefghijklmnopqrstuvwxyzABCDEFGHIJKLMNOPQRSTUVWXYZ0123456789".

Definition stringWithCharset (draws : list nat) : string :=
  foldr (fun i s => match String.get (i mod String.length charset)%nat charset with
                    | Some c => String c s
                    | None => s
                    end) EmptyString draws.

(** * lib/array *)

Definition StringsJoinAddSingleQuotes (values : list string) : string :=
  join "," (map (fun value => "'" +:+ value +:+ "'") values).

Definition StringsJoinAddPrefix (Vals : list string) (Separator Prefix Suffix : string) : string :=
  join Separator (map (fun val => Prefix +:+ val +:+ Suffix) Vals).

(** [array.Empty] *)
Definition array_Empty (l : list string) : bool :=
  existsb (fun v => String.eqb v EmptyString) l.

(** * lib/numbers *)

Definition BetweenEq (start end_ number : Z) : bool :=
  (start <=? number)%Z && (number <=? end_)%Z.

(** * lib/sql/escape.go *)

Record NameArgs := mkNameArgs { na_Escape : bool; na_DestKind : DestinationKind }.

Definition symbolsToEscape : list string := [":"].

Definition reservedKeywords (kind : DestinationKind) : list string :=
  match kind with
  | Redshift => RedshiftReservedKeywords
  | MSSQL => MSSQLReservedKeywords
  | _ => ReservedKeywords
  end.

Definition needsEscaping (kind : DestinationKind) (name : string) : bool :=
  mem_string (reservedKeywords kind) name
  || existsb (fun symbol => contains name symbol) symbolsToEscape
  || is_ok (atoi name).

(** [sql.EscapeName]; [None] is the nil [*NameArgs]. *)
Definition EscapeName (name : string) (uppercaseEscNames : bool) (args : option NameArgs) : string :=
  match args with
  | None => name
  | Some args =>
      if na_Escape args && needsEscaping (na_DestKind args) name then
        let name := if uppercaseEscNames then to_upper name else name in
        match na_DestKind args with
        | BigQuery => "`" +:+ name +:+ "`"
        | _ => dquote +:+ name +:+ dquote
        end
      else name
  end.

(** * Lemmas *)

Lemma Override_last vals v :
  v <> EmptyString -> Override (vals ++ [v]) = v.
Proof.
  intros Hv. unfold Override. rewrite foldl_app. simpl.
  apply String.eqb_neq in Hv. by rewrite Hv.
Qed.

Lemma Override_skip vals : Override (vals ++ [EmptyString]) = Override vals.
Proof. unfold Override. by rewrite foldl_app. Qed.

Lemma EscapeSpaces_no_space col : count_char " " (snd (EscapeSpaces col)) = 0%nat.
Proof. apply replace_all_removes. reflexivity. Qed.

Lemma EscapeSpaces_unchanged col :
  fst (EscapeSpaces col) = false -> snd (EscapeSpaces col) = col.
Proof.
  unfold EscapeSpaces. simpl. change " " with (str1 " "). rewrite contains_str1, negb_false_iff.
  intros H. apply Nat.eqb_eq in H. by apply replace_all_id.
Qed.

Lemma EscapeName_plain name up args :
  needsEscaping (na_DestKind args) name = false -> EscapeName name up (Some args) = name.
Proof. intros H. unfold EscapeName. rewrite H. by rewrite andb_false_r. Qed.

Lemma EscapeName_noescape name up kind :
  EscapeName name up (Some (mkNameArgs false kind)) = name.
Proof. reflexivity. Qed.

Lemma BetweenEq_spec a b n : BetweenEq a b n = true <-> (a <= n <= b)%Z.
Proof. unfold BetweenEq. rewrite andb_true_iff, !Z.leb_le. tauto. Qed.
