(* ===== verification/Decimal.v ===== *)
(** Decimals: [lib/typing/decimal] and the Kafka Connect wire format of
    [lib/debezium/decimal.go].  A [big.Int] is a [Z]; a finite [big.Float] is
    a mantissa, a binary exponent and a precision, with the round-to-nearest-
    even rounding of [math/big]; bytes are 8-bit [Z]s. *)
From S2P Require Import Prelude GoLang StringUtil.
Local Open Scope string_scope.
Local Open Scope list_scope.
Local Open Scope Z_scope.

(** * math/big *)

Record bigfloat := mkFloat { bf_prec : Z; bf_mant : Z; bf_exp : Z }.

#[export] Instance bigfloat_eq_dec : EqDecision bigfloat.
Proof. solve_decision. Defined.

Definition bit_len (n : Z) : Z := if n =? 0 then 0 else Z.log2 (Z.abs n) + 1.

(** [new(big.Float).SetInt(n)] *)
Definition float_SetInt (n : Z) : bigfloat := mkFloat (Z.max (bit_len n) 64) n 0.

(** [n / d] rounded to the nearest integer, ties to even ([0 <= n], [0 < d]). *)
Definition div_round_even (n d : Z) : Z :=
  let q := n / d in
  let r := n mod d in
  if 2 * r <? d then q
  else if d <? 2 * r then q + 1
  else if Z.even q then q else q + 1.

(** [n / 2^e] or [n * 2^-e], with numerator and denominator kept apart. *)
Definition scale_num (n e : Z) : Z := if e <? 0 then n * 2 ^ (- e) else n.
Definition scale_den (d e : Z) : Z := if e <? 0 then d else d * 2 ^ e.

(** The exponent of the [p]-bit approximation of [n / d] ([0 < n], [0 < d]). *)
Definition quo_exp (p n d : Z) : Z :=
  let k := Z.log2 n - Z.log2 d in
  if scale_den d k <=? scale_num n k then k - p + 1 else k - p.

(** [n / d] rounded to [p] bits. *)
Definition round_quo (p n d : Z) : bigfloat :=
  if n =? 0 then mkFloat p 0 0
  else let e := quo_exp p (Z.abs n) d in
       mkFloat p (Z.sgn n * div_round_even (scale_num (Z.abs n) e) (scale_den d e)) e.

(** [z.Quo(x, y)] for an integral [x] and a positive integral [y]. *)
Definition float_Quo_int (x : bigfloat) (y : Z) : bigfloat :=
  round_quo (bf_prec x) (bf_mant x * 2 ^ bf_exp x) y.

(** [z.Mul(z, y)] for an integral [y]: rounded to the precision of [z]. *)
Definition float_Mul_int (x : bigfloat) (y : Z) : bigfloat :=
  if bf_exp x <? 0
  then round_quo (bf_prec x) (bf_mant x * y) (2 ^ (- bf_exp x))
  else round_quo (bf_prec x) (bf_mant x * y * 2 ^ bf_exp x) 1.

(** [x.Int(nil)] truncates toward zero. *)
Definition float_Int (x : bigfloat) : Z :=
  if bf_exp x <? 0 then Z.quot (bf_mant x) (2 ^ (- bf_exp x))
  else bf_mant x * 2 ^ bf_exp x.

(** The [scale] fractional digits of [n / 10^scale]. *)
Fixpoint fixed_digits (scale : nat) (n : Z) : string :=
  match scale with
  | O => EmptyString
  | S k => itoa (n / 10 ^ Z.of_nat k mod 10) +:+ fixed_digits k n
  end.

Definition fixed_text (scale : nat) (n : Z) : string :=
  itoa (n / 10 ^ Z.of_nat scale) +:+
  match scale with O => EmptyString | _ => "." +:+ fixed_digits scale n end.

(** [x.Text('f', scale)] for [scale >= 0]. *)
Definition float_Text (x : bigfloat) (scale : nat) : string :=
  (if bf_mant x <? 0 then "-" else EmptyString) +:+
  fixed_text scale
    (div_round_even (scale_den (Z.abs (bf_mant x) * 10 ^ Z.of_nat scale) (bf_exp x))
                    (scale_num 1 (bf_exp x))).

(** * lib/typing/decimal *)

Record Decimal := mkDecimal {
  d_scale : Z;
  d_precision : option Z;
  d_value : option bigfloat
}.

#[export] Instance Decimal_eq_dec : EqDecision Decimal.
Proof. solve_decision. Defined.

Definition DefaultScale : Z := 5.
Definition PrecisionNotSpecified : Z := -1.
Definition MaxPrecisionBeforeString : Z := 38.

Definition NewDecimal (precision : option Z) (scale : Z) (value : option bigfloat) : Decimal :=
  let precision :=
    match precision with
    | Some p => if (p <? scale) && negb (p =? -1) then Some (scale + 1) else Some p
    | None => None
    end in
  mkDecimal scale precision value.

(** [d.value.Text('f', d.scale)]; a nil [*big.Float] panics.  A negative scale
    selects Go's shortest format, which is the argument. *)
Definition Decimal_String (shortest : bigfloat -> string) (d : Decimal) : result string :=
  match d_value d with
  | None => Panic "nil *big.Float"
  | Some x => Ok (if d_scale d <? 0 then shortest x else float_Text x (Z.to_nat (d_scale d)))
  end.

(** [Value()] yields a string for the precisions no destination stores. *)
Definition Decimal_is_string (d : Decimal) : bool :=
  match d_precision d with
  | Some p => (MaxPrecisionBeforeString <? p) || (p =? -1)
  | None => false
  end.

Definition isNumeric (d : Decimal) : bool :=
  match d_precision d with
  | None => false
  | Some p =>
      if p =? PrecisionNotSpecified then false
      else if negb (BetweenEq 0 9 (d_scale d)) then false
      else BetweenEq (Z.max 1 (d_scale d)) (d_scale d + 29) p
  end.

Definition isBigNumeric (d : Decimal) : bool :=
  match d_precision d with
  | None => false
  | Some p =>
      if p =? -1 then false
      else if negb (BetweenEq 0 38 (d_scale d)) then false
      else BetweenEq (Z.max 1 (d_scale d)) (d_scale d + 38) p
  end.

Definition numeric_text (name : string) (p s : Z) : string :=
  name +:+ "(" +:+ itoa p +:+ ", " +:+ itoa s +:+ ")".

Definition toKind (d : Decimal) (maxPrecision : Z) (exceededKind : string) : string :=
  let precision := default maxPrecision (d_precision d) in
  if (maxPrecision <? precision) || (precision =? -1) then exceededKind
  else numeric_text "NUMERIC" precision (d_scale d).

Definition SnowflakeKind (d : Decimal) : string := toKind d MaxPrecisionBeforeString "STRING".
Definition MsSQLKind (d : Decimal) : string := toKind d MaxPrecisionBeforeString "TEXT".
Definition RedshiftKind (d : Decimal) : string := toKind d MaxPrecisionBeforeString "TEXT".

Definition BigQueryKind (d : Decimal) : string :=
  if isNumeric d then numeric_text "NUMERIC" (default 0 (d_precision d)) (d_scale d)
  else if isBigNumeric d then numeric_text "BIGNUMERIC" (default 0 (d_precision d)) (d_scale d)
  else "STRING".

(** * lib/debezium/decimal.go *)

(** [big.Int.SetBytes]: big-endian, unsigned. *)
Definition set_bytes (data : list Z) : Z := foldl (fun acc b => acc * 256 + b) 0 data.

(** [big.Int.Bytes]: the minimal big-endian representation of [|n|]. *)
Fixpoint le_bytes (fuel : nat) (n : Z) : list Z :=
  match fuel with
  | O => []
  | S fuel => if n =? 0 then [] else n mod 256 :: le_bytes fuel (n / 256)
  end.
Definition bytes_of (n : Z) : list Z := rev (le_bytes (Z.to_nat (bit_len n)) n).

(** [^b] on a byte *)
Definition byte_not (b : Z) : Z := Z.lxor b 255.

Definition top_bit (data : list Z) : bool :=
  match data with
  | [] => false
  | b :: _ => negb (Z.land b 128 =? 0)
  end.

(** The part of [EncodeDecimal] after the scaled integer is known. *)
Definition encode_int (n : Z) : list Z :=
  if n <? 0 then
    let data := map byte_not (bytes_of (- n)) in
    let data := bytes_of (set_bytes data + 1) in
    if top_bit data then data else 255 :: data
  else
    let data := bytes_of n in
    if top_bit data then 0 :: data else data.

(** [EncodeDecimal]; [SetString] of [math/big] is the argument.  A negative
    exponent makes [big.Int.Exp] return 1. *)
Definition EncodeDecimal (SetString : string -> option bigfloat) (value : string) (scale : Z)
  : result (list Z) :=
  let scaledValue := if scale <? 0 then 1 else 10 ^ scale in
  match SetString value with
  | None => errorf ("unable to use '" +:+ value +:+ "' as a floating-point number")
  | Some f => Ok (encode_int (float_Int (float_Mul_int f scaledValue)))
  end.

(** The integer [DecodeDecimal] reads, with what it leaves in the caller's slice. *)
Definition decode_int (data : list Z) : Z * list Z :=
  match data with
  | b :: _ =>
      if 128 <=? b then
        let data := map byte_not data in
        (- (set_bytes data + 1), data)
      else (set_bytes data, data)
  | [] => (set_bytes data, data)
  end.

Definition DecodeDecimal (data : list Z) (precision : option Z) (scale : Z) : Decimal :=
  let bigFloat := float_SetInt (fst (decode_int data)) in
  let divisorInt := if scale <? 0 then 1 else 10 ^ scale in
  NewDecimal precision scale (Some (float_Quo_int bigFloat divisorInt)).

(** * Big-endian byte strings *)

Definition is_byte (b : Z) : Prop := 0 <= b < 256.

Fixpoint le_val (l : list Z) : Z :=
  match l with [] => 0 | b :: l' => b + 256 * le_val l' end.

Lemma set_bytes_rev l : set_bytes (rev l) = le_val l.
Proof.
  unfold set_bytes. induction l as [|b l IH]; simpl; [done|].
  rewrite foldl_app, IH. simpl. lia.
Qed.

Lemma foldl_bytes acc l :
  foldl (fun acc b => acc * 256 + b) acc l = acc * 256 ^ Z.of_nat (length l) + set_bytes l.
Proof.
  unfold set_bytes. revert acc. induction l as [|b l IH]; intros acc; [simpl; lia|].
  cbn [foldl length]. rewrite IH, (IH (0 * 256 + b)).
  rewrite Nat2Z.inj_succ, Z.pow_succ_r by lia. lia.
Qed.

Lemma set_bytes_cons b l :
  set_bytes (b :: l) = b * 256 ^ Z.of_nat (length l) + set_bytes l.
Proof. unfold set_bytes at 1. cbn [foldl]. rewrite foldl_bytes. lia. Qed.

Lemma set_bytes_bound l : Forall is_byte l -> 0 <= set_bytes l < 256 ^ Z.of_nat (length l).
Proof.
  induction 1 as [|b l Hb Hl IH]; [done|].
  rewrite set_bytes_cons. cbn [length]. rewrite Nat2Z.inj_succ, Z.pow_succ_r by lia.
  unfold is_byte in Hb. nia.
Qed.


Lemma byte_not_sub b : is_byte b -> byte_not b = 255 - b.
Proof.
  intros Hb. unfold is_byte in Hb.
  assert (Hall : forallb (fun x => byte_not x =? 255 - x) (map Z.of_nat (seq 0 256)) = true)
    by (vm_compute; reflexivity).
  rewrite forallb_forall in Hall. apply Z.eqb_eq, Hall.
  apply in_map_iff. exists (Z.to_nat b). split; [lia|]. apply in_seq. lia.
Qed.

Lemma byte_not_byte b : is_byte b -> is_byte (byte_not b).
Proof. intros Hb. rewrite byte_not_sub by done. unfold is_byte in *; lia. Qed.

Lemma Forall_byte_not l : Forall is_byte l -> Forall is_byte (map byte_not l).
Proof. induction 1; simpl; constructor; auto using byte_not_byte. Qed.

(** Complementing every byte is [256^len - 1 - n]. *)
Lemma set_bytes_not l :
  Forall is_byte l ->
  set_bytes (map byte_not l) = 256 ^ Z.of_nat (length l) - 1 - set_bytes l.
Proof.
  induction 1 as [|b l Hb Hl IH]; [done|].
  cbn [map]. rewrite !set_bytes_cons, length_map, IH, byte_not_sub by done.
  cbn [length]. rewrite Nat2Z.inj_succ, Z.pow_succ_r by lia. lia.
Qed.

Lemma le_bytes_spec fuel n :
  0 <= n < 256 ^ Z.of_nat fuel ->
  le_val (le_bytes fuel n) = n /\ Forall is_byte (le_bytes fuel n) /\
  (n <> 0 -> 256 ^ (Z.of_nat (length (le_bytes fuel n)) - 1) <= n).
Proof.
  revert n; induction fuel as [|fuel IH]; intros n Hn; simpl.
  - repeat split; [simpl in Hn; lia|constructor|simpl in Hn; lia].
  - destruct (Z.eqb_spec n 0) as [->|Hne]; [repeat split; [constructor|lia]|].
    rewrite Nat2Z.inj_succ, Z.pow_succ_r in Hn by lia.
    pose proof (Z.mod_pos_bound n 256 ltac:(lia)).
    pose proof (Z.div_mod n 256 ltac:(lia)).
    destruct (IH (n / 256)) as (Hv & Hb & Hlen).
    { split; [apply Z.div_pos; lia|]. apply Z.div_lt_upper_bound; lia. }
    cbn [le_val]. rewrite Hv. repeat split; [lia|constructor; [done|done]|].
    intros _. cbn [length]. rewrite Nat2Z.inj_succ.
    replace (Z.succ (Z.of_nat (length (le_bytes fuel (n / 256)))) - 1)
      with (Z.of_nat (length (le_bytes fuel (n / 256)))) by lia.
    destruct (Z.eq_dec (n / 256) 0) as [E|E].
    + rewrite E in *. destruct fuel; simpl; lia.
    + specialize (Hlen E).
      set (k := Z.of_nat (length (le_bytes fuel (n / 256)))) in *.
      assert (0 <= k) by lia.
      destruct (Z.eq_dec k 0) as [->|]; [lia|].
      replace k with (Z.succ (k - 1)) by lia. rewrite Z.pow_succ_r by lia. lia.
Qed.

Lemma bit_len_bound n : 0 <= n -> n < 256 ^ Z.of_nat (Z.to_nat (bit_len n)).
Proof.
  intros Hn. unfold bit_len. destruct (Z.eqb_spec n 0) as [->|Hne]; [simpl; lia|].
  rewrite Z.abs_eq by done. pose proof (Z.log2_nonneg n).
  rewrite Z2Nat.id by lia. pose proof (Z.log2_spec n ltac:(lia)) as [_ H2].
  eapply Z.lt_le_trans; [exact H2|]. apply Z.pow_le_mono_l. lia.
Qed.

Section BytesOf.
Context (n : Z) (Hn : 0 <= n).

Lemma set_bytes_of : set_bytes (bytes_of n) = n.
Proof.
  unfold bytes_of. rewrite set_bytes_rev.
  apply le_bytes_spec. split; [done|]. by apply bit_len_bound.
Qed.

Lemma bytes_of_bytes : Forall is_byte (bytes_of n).
Proof.
  unfold bytes_of. apply Forall_rev. apply le_bytes_spec. split; [done|].
  by apply bit_len_bound.
Qed.

Lemma bytes_of_lower :
  n <> 0 -> 256 ^ (Z.of_nat (length (bytes_of n)) - 1) <= n.
Proof.
  unfold bytes_of. rewrite length_rev. apply le_bytes_spec. split; [done|].
  by apply bit_len_bound.
Qed.

Lemma bytes_of_upper : n < 256 ^ Z.of_nat (length (bytes_of n)).
Proof.
  rewrite <- set_bytes_of at 1. apply set_bytes_bound, bytes_of_bytes.
Qed.
End BytesOf.

Lemma top_bit_spec b l :
  is_byte b -> top_bit (b :: l) = (128 <=? b).
Proof.
  intros Hb. unfold is_byte in Hb. simpl.
  assert (Hall : forallb (fun x => Bool.eqb (negb (Z.land x 128 =? 0)) (128 <=? x))
                   (map Z.of_nat (seq 0 256)) = true) by (vm_compute; reflexivity).
  rewrite forallb_forall in Hall. apply Bool.eqb_true_iff, Hall.
  apply in_map_iff. exists (Z.to_nat b). split; [lia|]. apply in_seq. lia.
Qed.

(** * The integer part of the wire format *)

Lemma decode_int_value data :
  Forall is_byte data ->
  fst (decode_int data) =
    if top_bit data then set_bytes data - 256 ^ Z.of_nat (length data) else set_bytes data.
Proof.
  intros Hd. destruct Hd as [|b l Hb Hl]; [done|].
  rewrite top_bit_spec by done. unfold decode_int.
  destruct (128 <=? b); [|done]. cbn [fst].
  rewrite (set_bytes_not (b :: l)) by (by constructor). lia.
Qed.

(** The two's complement of [m] in the width of its magnitude. *)
Definition complement (m : Z) : Z := 256 ^ Z.of_nat (length (bytes_of m)) - m.

Lemma complement_pos m : 0 <= m -> 0 < complement m.
Proof. intros Hm. unfold complement. pose proof (bytes_of_upper m Hm). lia. Qed.

Lemma top_bit_half data :
  Forall is_byte data -> data <> [] ->
  top_bit data = (128 * 256 ^ (Z.of_nat (length data) - 1) <=? set_bytes data).
Proof.
  intros Hd Hne. destruct Hd as [|b l Hb Hl]; [done|].
  rewrite top_bit_spec, set_bytes_cons by done. cbn [length].
  replace (Z.of_nat (S (length l)) - 1) with (Z.of_nat (length l)) by lia.
  pose proof (set_bytes_bound l Hl). set (w := 256 ^ Z.of_nat (length l)) in *.
  apply eq_iff_eq_true. rewrite !Z.leb_le. unfold is_byte in Hb. nia.
Qed.

(** What decoding an encoding yields: the integer, off by the bytes that
    [big.Int.Bytes] dropped from the complement. *)
Lemma decode_encode_int n :
  fst (decode_int (encode_int n)) =
    if n <? 0
    then 256 ^ Z.of_nat (length (bytes_of (- n)))
         - 256 ^ Z.of_nat (length (bytes_of (complement (- n)))) + n
    else n.
Proof.
  unfold encode_int. destruct (Z.ltb_spec n 0) as [Hn|Hn].
  - rewrite set_bytes_not by (apply bytes_of_bytes; lia).
    rewrite set_bytes_of by lia.
    replace (256 ^ Z.of_nat (length (bytes_of (- n))) - 1 - - n + 1) with (complement (- n))
      by (unfold complement; lia).
    pose proof (complement_pos (- n) ltac:(lia)) as Hc.
    pose proof (bytes_of_bytes (complement (- n)) ltac:(lia)) as Hb.
    pose proof (set_bytes_of (complement (- n)) ltac:(lia)) as Hv.
    assert (Hcn : complement (- n) = 256 ^ Z.of_nat (length (bytes_of (- n))) + n)
      by (unfold complement; lia).
    destruct (top_bit (bytes_of (complement (- n)))) eqn:Ht.
    + rewrite decode_int_value, Ht, Hv by done. lia.
    + rewrite decode_int_value by (constructor; [unfold is_byte; lia|done]).
      change (top_bit (255 :: _)) with true. cbv iota.
      rewrite set_bytes_cons, Hv. cbn [length]. rewrite Nat2Z.inj_succ, Z.pow_succ_r by lia. lia.
  - pose proof (bytes_of_bytes n Hn) as Hb. pose proof (set_bytes_of n Hn) as Hv.
    destruct (top_bit (bytes_of n)) eqn:Ht.
    + rewrite decode_int_value by (constructor; [unfold is_byte; lia|done]).
      change (top_bit (0 :: _)) with false. cbv iota.
      rewrite set_bytes_cons, Hv. lia.
    + by rewrite decode_int_value, Ht, Hv.
Qed.

(** The integers whose encoding has no leading byte dropped. *)
Definition encodable (n : Z) : bool :=
  (0 <=? n) || (- n <=? 255 * 256 ^ (Z.of_nat (length (bytes_of (- n))) - 1)).

Lemma length_bytes_of_between n k :
  0 <= n -> 0 < k -> 256 ^ (k - 1) <= n < 256 ^ k -> Z.of_nat (length (bytes_of n)) = k.
Proof.
  intros Hn Hk [Hlo Hhi].
  assert (n <> 0) by (pose proof (Z.pow_pos_nonneg 256 (k - 1)); lia).
  pose proof (bytes_of_lower n Hn ltac:(done)) as H1.
  pose proof (bytes_of_upper n Hn) as H2.
  set (j := Z.of_nat (length (bytes_of n))) in *.
  destruct (Z.lt_trichotomy j k) as [Hjk|[Hjk|Hjk]]; [|done|].
  - pose proof (Z.pow_le_mono_r 256 j (k - 1)). lia.
  - pose proof (Z.pow_le_mono_r 256 k (j - 1)). lia.
Qed.

Lemma length_complement m :
  0 < m ->
  (length (bytes_of (complement m)) = length (bytes_of m)) <->
  m <= 255 * 256 ^ (Z.of_nat (length (bytes_of m)) - 1).
Proof.
  intros Hm. pose proof (complement_pos m ltac:(lia)) as Hc.
  pose proof (bytes_of_lower m ltac:(lia) ltac:(lia)) as Hlo.
  pose proof (bytes_of_upper m ltac:(lia)) as Hup.
  set (k := Z.of_nat (length (bytes_of m))) in *.
  assert (Hk : 0 < k).
  { destruct (Z.eq_dec k 0) as [E|]; [rewrite E in Hup; simpl in Hup; lia|lia]. }
  assert (Hpow : 256 ^ k = 256 * 256 ^ (k - 1))
    by (replace k with (Z.succ (k - 1)) at 1 by lia; rewrite Z.pow_succ_r by lia; done).
  assert (Hdef : complement m = 256 ^ k - m) by done.
  split.
  - intros E. pose proof (bytes_of_lower (complement m) ltac:(lia) ltac:(lia)) as H.
    rewrite E in H. fold k in H. lia.
  - intros Hle. apply Nat2Z.inj. fold k. apply length_bytes_of_between; [lia|lia|lia].
Qed.

(** C38. Encoding an integer as a Kafka Connect decimal and decoding it gives
    the integer back exactly when [EncodeDecimal] drops no leading byte of the
    two's complement; outside [encodable] the value read differs. *)
Theorem encode_decode_roundtrip n :
  fst (decode_int (encode_int n)) = n <-> encodable n = true.
Proof.
  rewrite decode_encode_int. unfold encodable. rewrite orb_true_iff, !Z.leb_le.
  destruct (Z.ltb_spec n 0) as [Hn|Hn]; [|split; [by left|done]].
  rewrite <- length_complement by lia. split.
  - intros H. right.
    assert (E : 256 ^ Z.of_nat (length (bytes_of (- n))) =
                256 ^ Z.of_nat (length (bytes_of (complement (- n))))) by lia.
    apply Z.pow_inj_r in E; lia.
  - intros [?|E]; [lia|]. rewrite E. lia.
Qed.

(** * Exactness of the printed value *)

(** The decimal rendering of [n / 10^scale]. *)
Definition decimal_text (scale : nat) (n : Z) : string :=
  (if n <? 0 then "-" else EmptyString) +:+ fixed_text scale (Z.abs n).

Lemma div_round_even_unique a b n :
  0 < b -> 2 * Z.abs (a - n * b) < b -> div_round_even a b = n.
Proof.
  intros Hb H. unfold div_round_even.
  pose proof (Z.div_mod a b ltac:(lia)) as Hdm.
  pose proof (Z.mod_pos_bound a b Hb) as Hr.
  set (q := a / b) in *. set (r := a mod b) in *.
  destruct (Z.ltb_spec (2 * r) b) as [E|E].
  - assert (Hq : -1 < n - q < 1) by nia. lia.
  - destruct (Z.ltb_spec b (2 * r)).
    + assert (Hq : -1 < n - q - 1 < 1) by nia. lia.
    + assert (Hq : 2 * r = b) by lia.
      assert (E2 : 2 * (a - n * b) = (2 * (q - n) + 1) * b) by nia.
      assert (H2 : Z.abs (2 * (a - n * b)) < b) by lia.
      rewrite E2, Z.abs_mul, (Z.abs_eq b) in H2 by lia.
      assert (1 <= Z.abs (2 * (q - n) + 1)) by lia. nia.
Qed.

Lemma div_round_even_error a b :
  0 < b -> 2 * Z.abs (div_round_even a b * b - a) <= b.
Proof.
  intros Hb. unfold div_round_even.
  pose proof (Z.div_mod a b ltac:(lia)) as Hdm.
  pose proof (Z.mod_pos_bound a b Hb) as Hr.
  set (q := a / b) in *. set (r := a mod b) in *.
  repeat case_match; string_eqs; nia.
Qed.

Lemma div_round_even_nonneg a b : 0 <= a -> 0 < b -> 0 <= div_round_even a b.
Proof.
  intros Ha Hb. unfold div_round_even. pose proof (Z.div_pos a b Ha Hb).
  repeat case_match; lia.
Qed.

Lemma scale_den_pos d k : 0 < d -> 0 < scale_den d k.
Proof.
  intros Hd. unfold scale_den. destruct (Z.ltb_spec k 0); [done|].
  pose proof (Z.pow_pos_nonneg 2 k). nia.
Qed.

(** [scale_den d k <= scale_num n k] says [d * 2^k <= n]. *)
Lemma scale_le_shift d n k j :
  0 <= j -> scale_den d k <= scale_num n k -> scale_den d (k - j) * 2 ^ j <= scale_num n (k - j).
Proof.
  intros Hj. unfold scale_den, scale_num.
  destruct (Z.ltb_spec k 0), (Z.ltb_spec (k - j) 0); intros Hle; try lia.
  - replace (- (k - j)) with (- k + j) by lia. rewrite Z.pow_add_r by lia.
    pose proof (Z.pow_pos_nonneg 2 j). nia.
  - replace j with (k + - (k - j)) at 1 by lia. rewrite Z.pow_add_r by lia.
    pose proof (Z.pow_pos_nonneg 2 (- (k - j))). nia.
  - replace k with ((k - j) + j) in Hle by lia. rewrite Z.pow_add_r in Hle by lia.
    replace (k - j + j) with k in Hle by lia. nia.
Qed.

Section Quotient.
Context (p N D : Z) (Hp : 1 < p) (HN : 0 < N) (HD : 0 < D).
Let e := quo_exp p N D.

Lemma log2_scale : scale_den D (Z.log2 N - Z.log2 D - 1) <= scale_num N (Z.log2 N - Z.log2 D - 1).
Proof.
  pose proof (Z.log2_spec N HN) as [HN1 _]. pose proof (Z.log2_spec D HD) as [_ HD2].
  pose proof (Z.log2_nonneg N). pose proof (Z.log2_nonneg D).
  unfold scale_den, scale_num. set (k := Z.log2 N - Z.log2 D - 1).
  assert (Ek : Z.log2 N = Z.log2 D + 1 + k) by (unfold k; lia).
  destruct (Z.ltb_spec k 0).
  - assert (Hpw : 2 ^ Z.succ (Z.log2 D) = 2 ^ Z.log2 N * 2 ^ (- k)).
    { rewrite <- Z.pow_add_r by lia. f_equal. lia. }
    pose proof (Z.pow_pos_nonneg 2 (- k)). nia.
  - assert (Hpw : 2 ^ Z.log2 N = 2 ^ Z.succ (Z.log2 D) * 2 ^ k).
    { rewrite <- Z.pow_add_r by lia. f_equal. lia. }
    pose proof (Z.pow_pos_nonneg 2 k). nia.
Qed.

(** The exponent leaves [p] significant bits in the quotient. *)
Lemma quo_exp_normal : scale_den D e * 2 ^ (p - 1) <= scale_num N e.
Proof.
  unfold e, quo_exp. set (k := Z.log2 N - Z.log2 D).
  destruct (Z.leb_spec (scale_den D k) (scale_num N k)) as [H|_].
  - replace (k - p + 1) with (k - (p - 1)) by lia. apply scale_le_shift; [lia|done].
  - replace (k - p) with (k - 1 - (p - 1)) by lia.
    apply scale_le_shift; [lia|apply log2_scale].
Qed.

(** Rounding the [p]-bit quotient of [N / D], multiplied back by [D], to an
    integer gives [N], when [N] has fewer than [p] bits. *)
Lemma quotient_rounds_back :
  N < 2 ^ (p - 1) ->
  div_round_even
    (scale_den (div_round_even (scale_num N e) (scale_den D e) * D) e) (scale_num 1 e) = N.
Proof.
  intros Hlt. pose proof quo_exp_normal as Hn.
  pose proof (scale_den_pos D e HD) as Hd.
  pose proof (div_round_even_error (scale_num N e) (scale_den D e) Hd) as He.
  set (m := div_round_even (scale_num N e) (scale_den D e)) in *.
  unfold scale_den, scale_num in *.
  destruct (Z.ltb_spec e 0) as [E|E].
  - pose proof (Z.pow_pos_nonneg 2 (- e) ltac:(lia) ltac:(lia)).
    pose proof (Z.pow_pos_nonneg 2 (p - 1) ltac:(lia) ltac:(lia)).
    apply div_round_even_unique; [lia|].
    assert (D < 2 ^ (- e)) by nia. lia.
  - pose proof (Z.pow_pos_nonneg 2 e ltac:(lia) ltac:(lia)).
    pose proof (Z.pow_pos_nonneg 2 (p - 1) ltac:(lia) ltac:(lia)).
    exfalso. assert (1 <= D * 2 ^ e) by nia. nia.
Qed.
End Quotient.

Lemma div_round_even_0 d : 0 < d -> div_round_even 0 d = 0.
Proof. intros Hd. apply div_round_even_unique; lia. Qed.

Lemma scale_num_nonneg n e : 0 <= n -> 0 <= scale_num n e.
Proof.
  intros Hn. unfold scale_num. destruct (Z.ltb_spec e 0); [|done].
  apply Z.mul_nonneg_nonneg; [done|apply Z.pow_nonneg; lia].
Qed.

Lemma scale_den_0 e : scale_den 0 e = 0.
Proof. unfold scale_den. by destruct (e <? 0). Qed.

Lemma scale_num_pos n e : 0 < n -> 0 < scale_num n e.
Proof.
  intros Hn. unfold scale_num. destruct (Z.ltb_spec e 0); [|done].
  apply Z.mul_pos_pos; [done|apply Z.pow_pos_nonneg; lia].
Qed.

(** Printing the rounded quotient of a non-zero [n] by [10^scale]. *)
Lemma round_quo_Text p n scale :
  1 < p -> Z.abs n < 2 ^ (p - 1) ->
  float_Text (round_quo p n (10 ^ Z.of_nat scale)) scale = decimal_text scale n.
Proof.
  intros Hp Hlt. unfold round_quo, decimal_text.
  pose proof (Z.pow_pos_nonneg 10 (Z.of_nat scale) ltac:(lia) ltac:(lia)) as HD.
  destruct (Z.eqb_spec n 0) as [->|Hne]; [unfold float_Text; simpl; rewrite ?Z.mul_0_l; done|].
  set (e := quo_exp p (Z.abs n) (10 ^ Z.of_nat scale)). unfold float_Text. cbn [bf_mant bf_exp].
  set (m := div_round_even (scale_num (Z.abs n) e) (scale_den (10 ^ Z.of_nat scale) e)).
  assert (Hm : 0 <= m).
  { apply div_round_even_nonneg; [by apply scale_num_nonneg; lia|by apply scale_den_pos]. }
  pose proof (quotient_rounds_back p (Z.abs n) _ Hp ltac:(lia) HD Hlt) as Hq. fold e m in Hq.
  assert (Hm0 : m <> 0).
  { intros Hz. rewrite Hz, Z.mul_0_l, scale_den_0, div_round_even_0 in Hq; [lia|].
    apply scale_num_pos; lia. }
  replace (Z.abs (Z.sgn n * m)) with m by lia. rewrite Hq.
  replace (Z.sgn n * m <? 0) with (n <? 0); [done|].
  apply eq_iff_eq_true. rewrite !Z.ltb_lt. nia.
Qed.

(** A decimal read off the wire prints exactly: for an unscaled value of
    magnitude below 2^63 and a non-negative scale, [DecodeDecimal] followed by
    [Decimal.String] renders [value / 10^scale] digit by digit, whatever the
    precision. *)
Theorem DecodeDecimal_String_exact data precision scale shortest :
  Z.abs (fst (decode_int data)) < 2 ^ 63 -> 0 <= scale ->
  Decimal_String shortest (DecodeDecimal data precision scale) =
    Ok (decimal_text (Z.to_nat scale) (fst (decode_int data))).
Proof.
  set (n := fst (decode_int data)). intros Hlt Hs.
  unfold DecodeDecimal, Decimal_String, NewDecimal. fold n. cbn [d_value d_scale].
  apply Z.ltb_ge in Hs as Hs'. rewrite Hs'. f_equal.
  unfold float_Quo_int, float_SetInt. cbn [bf_mant bf_prec bf_exp].
  rewrite Z.pow_0_r, Z.mul_1_r. rewrite <- (Z2Nat.id scale) at 1 by done.
  apply round_quo_Text; [lia|].
  eapply Z.lt_le_trans; [exact Hlt|]. apply Z.pow_le_mono_r; lia.
Qed.

Lemma DecodeDecimal_String_exact_witness :
  Decimal_String (fun _ => EmptyString) (DecodeDecimal [254; 29; 192] (Some 10) 3) =
    Ok "-123.456".
Proof.
  apply (DecodeDecimal_String_exact [254; 29; 192] (Some 10) 3 (fun _ => EmptyString));
    [vm_compute; reflexivity|lia].
Defined.

(** Beyond that range the 64-bit quotient is not precise enough: a
    20-digit unscaled value with five decimals is printed with a wrong last
    digit, although the type is meant to lose no precision. *)
Theorem DecodeDecimal_String_inexact :
  Decimal_String (fun _ => EmptyString)
    (DecodeDecimal (encode_int 18446744073708551612) (Some 20) 5)
  <> Ok (decimal_text 5 18446744073708551612).
Proof. vm_compute. discriminate. Qed.
