(* ===== verification/Values.v ===== *)
(** Go's [any] as it flows through the pipeline: the dynamic types that rows,
    keys and default values hold, [lib/typing/ext] times, the operations of
    the Go standard library the model takes as given ([GoStd]), rendering with
    [fmt.Sprint], and [lib/size], [lib/maputil]. *)
From Stdlib Require Import SpecFloat.
From S2P Require Import Prelude GoLang Constants StringUtil Decimal.
Local Open Scope string_scope.
Local Open Scope list_scope.
Local Open Scope Z_scope.

(** * lib/typing/ext *)

Inductive ExtendedTimeKindType := DateTimeKindType | DateKindType | TimeKindType | NoTimeKind.

Record NestedKind := mkNested { nk_Type : ExtendedTimeKindType; nk_Format : string }.

(** A [time.Time]: nanoseconds since the epoch, and the offset of its zone. *)
Record gotime := mkTime { t_ns : Z; t_offset : Z }.

Record ExtendedTime := mkExt { et_Time : gotime; et_NestedKind : NestedKind }.

#[export] Instance ExtendedTimeKindType_eq_dec : EqDecision ExtendedTimeKindType.
Proof. solve_decision. Defined.
#[export] Instance NestedKind_eq_dec : EqDecision NestedKind.
Proof. solve_decision. Defined.
#[export] Instance gotime_eq_dec : EqDecision gotime.
Proof. solve_decision. Defined.
#[export] Instance ExtendedTime_eq_dec : EqDecision ExtendedTime.
Proof. solve_decision. Defined.

Definition BigQueryDateTimeFormat : string := "2006-01-02 15:04:05.999999".
Definition ISO8601 : string := "2006-01-02T15:04:05-07:00".
Definition PostgresDateFormat : string := "2006-01-02".
Definition PostgresTimeFormat : string := "15:04:05.999999-07".
Definition AdditionalTimeFormat : string := "15:04:05.999999Z07".
Definition PostgresTimeFormatNoTZ : string := "15:04:05.999999".
Definition RFC3339Nano : string := "2006-01-02T15:04:05.999999999Z07:00".

Definition supportedDateTimeLayouts : list string :=
  [RFC3339Nano; ISO8601;
   "01/02 03:04:05PM '06 -0700"; (* time.Layout *)
   "Mon Jan _2 15:04:05 2006"; (* time.ANSIC *)
   "Mon Jan _2 15:04:05 MST 2006"; (* time.UnixDate *)
   "Mon Jan 02 15:04:05 -0700 2006"; (* time.RubyDate *)
   "02 Jan 06 15:04 MST"; (* time.RFC822 *)
   "02 Jan 06 15:04 -0700"; (* time.RFC822Z *)
   "Monday, 02-Jan-06 15:04:05 MST"; (* time.RFC850 *)
   "Mon, 02 Jan 2006 15:04:05 MST"; (* time.RFC1123 *)
   "Mon, 02 Jan 2006 15:04:05 -0700"; (* time.RFC1123Z *)
   "2006-01-02T15:04:05Z07:00" (* time.RFC3339 *)].

Definition supportedDateFormats : list string := [PostgresDateFormat].
Definition supportedTimeFormats : list string :=
  [PostgresTimeFormat; PostgresTimeFormatNoTZ; AdditionalTimeFormat].

(** * Dynamic values *)

Inductive int_kind :=
| KInt | KInt8 | KInt16 | KInt32 | KInt64 | KUint | KUint8 | KUint16 | KUint32 | KUint64 | KUintptr.

Inductive value :=
| VNil
| VString (s : string)
| VBytes (b : list Z)
| VBool (b : bool)
| VInt (k : int_kind) (z : Z)
| VFloat32 (f : spec_float)
| VFloat64 (f : spec_float)
| VComplex64 (printed : string)
| VComplex128 (printed : string)
| VMap (m : list (string * value))       (* map[string]any, in key order *)
| VSlice (l : list value)                (* []any *)
| VStrings (l : list string)             (* []string *)
| VMaps (l : list (list (string * value)))  (* []map[string]any *)
| VBytesSlice (l : list (list Z))        (* [][]byte *)
| VDecimal (d : Decimal)                 (* *decimal.Decimal *)
| VTime (t : ExtendedTime)               (* *ext.ExtendedTime *)
| VBigFloat (f : bigfloat)               (* *big.Float *)
| VOther (is_slice is_map : bool) (printed : string). (* any other type *)

#[export] Instance int_kind_eq_dec : EqDecision int_kind.
Proof. solve_decision. Defined.

(** [map[string]any] at the top level of an event or a row. *)
Notation row := (gmap string value).

(** * The standard library operations the code relies on *)

Class GoStd := {
  (** [time.Parse(layout, s)] and [t.Format(layout)] *)
  time_Parse : string -> string -> option gotime;
  time_Format : gotime -> string -> string;
  (** [json.Unmarshal] into a [json.RawMessage] and into [any], [json.Marshal] *)
  json_Valid : string -> bool;
  json_Unmarshal : string -> option value;
  json_Marshal : value -> option string;
  (** [base64.StdEncoding] *)
  base64_Decode : string -> option (list Z);
  base64_Encode : list Z -> string;
  (** [fmt.Sprint] of floats, of times, and [Text('f', n)] for [n < 0] *)
  sprint_float : spec_float -> string;
  sprint_time : ExtendedTime -> string;
  float_shortest : bigfloat -> string;
  (** [strconv.ParseFloat(s, 64)] *)
  parse_Float : string -> option spec_float;
  (** [int64(f)] for a float out of range, which Go leaves to the platform *)
  float_Overflow : spec_float -> Z
}.

(** A concrete instance, for evaluating the definitions on examples: no time
    layout and no document parses, floats print as their mantissa. *)
Definition plain_std : GoStd := {|
  time_Parse := fun _ _ => None;
  time_Format := fun t _ => itoa (t_ns t);
  json_Valid := fun _ => false;
  json_Unmarshal := fun _ => None;
  json_Marshal := fun _ => None;
  base64_Decode := fun _ => None;
  base64_Encode := fun b => join "," (map itoa b);
  sprint_float := fun _ => "float";
  sprint_time := fun t => itoa (t_ns (et_Time t));
  float_shortest := fun f => itoa (bf_mant f);
  parse_Float := fun _ => None;
  float_Overflow := fun _ => min_int64
|}.

(** * Structural recursion on values *)

Fixpoint value_size (v : value) : nat :=
  match v with
  | VMap m => S (foldr (fun kv n => (value_size (snd kv) + n)%nat) 0%nat m)
  | VSlice l => S (foldr (fun x n => (value_size x + n)%nat) 0%nat l)
  | VMaps l =>
      S (foldr (fun m n => (S (foldr (fun kv n => (value_size (snd kv) + n)%nat) 0%nat m) + n)%nat)
               0%nat l)
  | _ => 1%nat
  end.

Definition is_nil (v : value) : bool := match v with VNil => true | _ => false end.

(** [sort.Strings], and the entries of a map in key order, as [fmt] prints them *)
Definition sort_strings (l : list string) : list string := merge_sort String.le l.
Definition sorted_entries {A} (m : gmap string A) : list (string * A) :=
  omap (fun k => (fun v => (k, v)) <$> m !! k) (sort_strings (map fst (map_to_list m))).

(** [val == s] for a string constant [s] *)
Definition is_string (v : value) (s : string) : bool :=
  match v with VString s' => String.eqb s' s | _ => false end.

(** * fmt.Sprint *)

Section Sprint.
Context `{GoStd}.

Definition sprint_list (l : list string) : string := "[" +:+ join " " l +:+ "]".
Definition sprint_bytes (b : list Z) : string := sprint_list (map itoa b).

Fixpoint Sprint (v : value) : string :=
  match v with
  | VNil => "<nil>"
  | VString s => s
  | VBytes b => sprint_bytes b
  | VBool b => if b then "true" else "false"
  | VInt _ z => itoa z
  | VFloat32 f | VFloat64 f => sprint_float f
  | VComplex64 p | VComplex128 p => p
  | VMap m => "map[" +:+ join " " (map (fun kv => fst kv +:+ ":" +:+ Sprint (snd kv)) m) +:+ "]"
  | VSlice l => sprint_list (map Sprint l)
  | VStrings l => sprint_list l
  | VMaps l =>
      sprint_list
        (map (fun m => "map[" +:+ join " " (map (fun kv => fst kv +:+ ":" +:+ Sprint (snd kv)) m)
                       +:+ "]") l)
  | VBytesSlice l => sprint_list (map sprint_bytes l)
  | VDecimal d =>
      match Decimal_String float_shortest d with
      | Ok s => s
      | _ => "%!v(PANIC=String method: runtime error: invalid memory address or nil pointer dereference)"
      end
  | VTime t => sprint_time t
  | VBigFloat f => float_shortest f
  | VOther _ _ printed => printed
  end.

(** [d.Value()]: the text for precisions no destination stores, else the
    [*big.Float], which may be a nil pointer inside a non-nil [any]. *)
Definition Decimal_Value (d : Decimal) : result value :=
  if Decimal_is_string d then VString <$> Decimal_String float_shortest d
  else Ok (match d_value d with
           | Some f => VBigFloat f
           | None => VOther false false "<nil>"
           end).

(** * lib/size *)

Fixpoint GetApproxSize (v : value) : Z :=
  match v with
  | VNil => 0
  | VString s => Z.of_nat (String.length s)
  | VBytes b => Z.of_nat (length b)
  | VBool _ => 1
  | VInt (KInt8 | KUint8) _ => 1
  | VInt (KInt16 | KUint16) _ => 2
  | VInt (KInt32 | KUint32) _ | VFloat32 _ => 4
  | VInt _ _ | VFloat64 _ | VComplex64 _ => 8
  | VComplex128 _ => 16
  | VMap m => sum_of (fun kv => GetApproxSize (snd kv)) m
  | VMaps l => sum_of (fun m => sum_of (fun kv => GetApproxSize (snd kv)) m) l
  | VStrings l => sum_of (fun s => Z.of_nat (String.length s)) l
  | VSlice l => sum_of GetApproxSize l
  | VBytesSlice l => sum_of (fun b => Z.of_nat (length b)) l
  | VDecimal _ | VTime _ | VBigFloat _ | VOther _ _ _ => Z.of_nat (String.length (Sprint v))
  end.

(** The size of a row, a [map[string]any]; the sum does not depend on the
    iteration order of the map. *)
Definition row_size (r : row) : Z :=
  sum_of (fun kv => GetApproxSize (snd kv)) (map_to_list r).

(** * lib/maputil *)

Definition GetKeyFromMap (obj : row) (key : string) (defaultValue : value) : value :=
  default defaultValue (obj !! key).

Definition GetIntegerFromMap (obj : row) (key : string) : result Z :=
  if bool_decide (obj = ∅) then errorf "object is empty"
  else match obj !! key with
       | None => errorf ("key: " +:+ key +:+ " does not exist in object")
       | Some v => wrap_err ("key: " +:+ key +:+ " is not type integer: ") EmptyString (atoi (Sprint v))
       end.

(** * lib/typing/ext/parse.go *)

(** [ParseTimeExactMatch]: the parsed time and whether formatting it with the
    same layout gives the string back. *)
Definition ParseTimeExactMatch (layout s : string) : option (gotime * bool) :=
  (fun ts => (ts, String.eqb (time_Format ts layout) s)) <$> time_Parse layout s.

Definition NewExtendedTime (t : gotime) (kind : ExtendedTimeKindType) (originalFormat : string)
  : ExtendedTime :=
  let fmt :=
    if String.eqb originalFormat EmptyString then
      match kind with
      | DateTimeKindType => RFC3339Nano
      | DateKindType => PostgresDateFormat
      | TimeKindType => PostgresTimeFormat
      | NoTimeKind => originalFormat
      end
    else originalFormat in
  mkExt t (mkNested kind fmt).

(** First layout that matches exactly. *)
Fixpoint exact_layout (layouts : list string) (s : string) : option (gotime * string) :=
  match layouts with
  | [] => None
  | layout :: rest =>
      match ParseTimeExactMatch layout s with
      | Some (ts, true) => Some (ts, layout)
      | _ => exact_layout rest s
      end
  end.

(** Last layout that parses: [potentialFormat] after the date-time loop. *)
Definition potential_layout (layouts : list string) (s : string) : option (gotime * string) :=
  foldl (fun acc layout =>
           match time_Parse layout s with Some ts => Some (ts, layout) | None => acc end)
        None layouts.

Definition ParseExtendedDateTime (dtString : string) (additionalDateFormats : list string)
  : result ExtendedTime :=
  match exact_layout supportedDateTimeLayouts dtString with
  | Some (ts, layout) => Ok (NewExtendedTime ts DateTimeKindType layout)
  | None =>
      match exact_layout (supportedDateFormats ++ additionalDateFormats) dtString with
      | Some (ts, layout) => Ok (NewExtendedTime ts DateKindType layout)
      | None =>
          match exact_layout supportedTimeFormats dtString with
          | Some (ts, layout) => Ok (NewExtendedTime ts TimeKindType layout)
          | None =>
              match potential_layout supportedDateTimeLayouts dtString with
              | Some (ts, layout) => Ok (NewExtendedTime ts DateTimeKindType layout)
              | None => errorf ("dtString: " +:+ dtString +:+ " is not supported")
              end
          end
      end
  end.

Definition ParseFromInterface (val : value) (additionalDateFormats : list string)
  : result ExtendedTime :=
  match val with
  | VNil => errorf "val is nil"
  | VTime t => Ok t
  | _ =>
      wrap_err ("failed to cast colVal as time.Time, colVal: " +:+ Sprint val +:+ ", err: ")
               EmptyString (ParseExtendedDateTime (Sprint val) additionalDateFormats)
  end.

(** [e.String(overrideFormat)] *)
Definition ExtendedTime_String (e : ExtendedTime) (overrideFormat : string) : string :=
  if String.eqb overrideFormat EmptyString
  then time_Format (et_Time e) (nk_Format (et_NestedKind e))
  else time_Format (et_Time e) overrideFormat.

(** [e.StringUTC(overrideFormat)] *)
Definition ExtendedTime_StringUTC (e : ExtendedTime) (overrideFormat : string) : string :=
  ExtendedTime_String (mkExt (mkTime (t_ns (et_Time e)) 0) (et_NestedKind e)) overrideFormat.

(** [int64(f)]: truncation toward zero *)
Definition float_trunc (f : spec_float) : option Z :=
  match f with
  | S754_zero _ => Some 0
  | S754_finite neg m e =>
      let n := if 0 <=? e then Zpos m * 2 ^ e else Zpos m / 2 ^ (- e) in
      Some (if neg then - n else n)
  | _ => None
  end.

Definition int64_of_float (f : spec_float) : Z :=
  match float_trunc f with
  | Some z => if in_int64 z then z else float_Overflow f
  | None => float_Overflow f
  end.

(** [fmt]'s [%T] *)
Definition type_name (v : value) : string :=
  match v with
  | VNil => "<nil>"
  | VString _ => "string"
  | VBytes _ => "[]uint8"
  | VBool _ => "bool"
  | VInt k _ =>
      match k with
      | KInt => "int" | KInt8 => "int8" | KInt16 => "int16" | KInt32 => "int32" | KInt64 => "int64"
      | KUint => "uint" | KUint8 => "uint8" | KUint16 => "uint16" | KUint32 => "uint32" | KUint64 => "uint64"
      | KUintptr => "uintptr"
      end
  | VFloat32 _ => "float32"
  | VFloat64 _ => "float64"
  | VComplex64 _ => "complex64"
  | VComplex128 _ => "complex128"
  | VMap _ => "map[string]interface {}"
  | VSlice _ => "[]interface {}"
  | VStrings _ => "[]string"
  | VMaps _ => "[]map[string]interface {}"
  | VBytesSlice _ => "[][]uint8"
  | VDecimal _ => "*decimal.Decimal"
  | VTime _ => "*ext.ExtendedTime"
  | VBigFloat _ => "*big.Float"
  | VOther _ _ _ => "struct {}"
  end.

(** A [map[string]any] held in an [any], as a finite map *)
Definition row_of_map (m : list (string * value)) : row := list_to_map m.

End Sprint.

(** * Civil dates: [time.Time.Year] in UTC *)

(** The year of the day [days] after 1970-01-01, proleptic Gregorian: years
    start in March inside a 400-year era of 146097 days. *)
Definition year_of_days (days : Z) : Z :=
  let z := days + 719468 in
  let doe := z mod 146097 in
  let yoe := (doe - doe / 1460 + doe / 36524 - doe / 146096) / 365 in
  let doy := doe - (365 * yoe + yoe / 4 - yoe / 100) in
  let mp := (5 * doy + 2) / 153 in
  z / 146097 * 400 + yoe + (if mp <? 10 then 0 else 1).

Definition time_Year (t : gotime) : Z := year_of_days ((t_ns t + t_offset t * Second) / (86400 * Second)).

(** [e.IsValid()] *)
Definition ExtendedTime_IsValid (e : ExtendedTime) : bool :=
  negb ((9999 <? time_Year (et_Time e)) || (time_Year (et_Time e) <? 0)).

(** [time.UnixMilli(n)], [time.UnixMicro(n)] in UTC *)
Definition UnixMilli (n : Z) : gotime := mkTime (n * Millisecond) 0.
Definition UnixMicro (n : Z) : gotime := mkTime (n * 1000) 0.

(** [time.UnixMilli(0).AddDate(0, 0, days)]: a [time.Time] counts seconds since
    year 1 in 64 bits. *)
Definition unixToInternal : Z := 62135596800.
Definition epoch_AddDays (days : Z) : gotime :=
  mkTime ((wrap64 (days * 86400 + unixToInternal) - unixToInternal) * Second) 0.

(** A 400-year era has the years 0 to 399, up to the first of January of year 400. *)
Lemma era_years doe :
  0 <= doe < 146097 ->
  let yoe := (doe - doe / 1460 + doe / 36524 - doe / 146096) / 365 in
  let doy := doe - (365 * yoe + yoe / 4 - yoe / 100) in
  let y := yoe + (if (5 * doy + 2) / 153 <? 10 then 0 else 1) in
  0 <= y <= 400 /\ (y = 400 <-> 146037 <= doe).
Proof.
  intros Hd. cbv zeta. destruct (Z.ltb_spec ((5 * (doe - (365 * ((doe - doe / 1460 + doe / 36524 - doe / 146096) / 365) +
    (doe - doe / 1460 + doe / 36524 - doe / 146096) / 365 / 4 -
    (doe - doe / 1460 + doe / 36524 - doe / 146096) / 365 / 100)) + 2) / 153) 10);
  Z.to_euclidean_division_equations; lia.
Qed.

Lemma year_in_range days : 0 <= year_of_days days <= 9999 <-> -719528 <= days < 2932897.
Proof.
  unfold year_of_days. pose proof (Z.mod_pos_bound (days + 719468) 146097 ltac:(lia)) as Hd.
  pose proof (Z.div_mod (days + 719468) 146097 ltac:(lia)) as Hz.
  pose proof (era_years _ Hd) as Hy. cbv zeta in Hy |- *.
  revert Hd Hz Hy. generalize ((days + 719468) mod 146097) as doe. intros doe.
  generalize ((days + 719468) / 146097) as era. intros era.
  generalize ((doe - doe / 1460 + doe / 36524 - doe / 146096) / 365) as yoe. intros yoe.
  destruct (_ <? 10); lia.
Qed.

(** The instants whose year has four digits *)
Definition min_year_ns : Z := -719528 * (86400 * Second).
Definition max_year_ns : Z := 2932897 * (86400 * Second).

Lemma ExtendedTime_IsValid_spec e :
  ExtendedTime_IsValid e = true <->
  min_year_ns <= t_ns (et_Time e) + t_offset (et_Time e) * Second < max_year_ns.
Proof.
  unfold ExtendedTime_IsValid, time_Year.
  rewrite negb_true_iff, orb_false_iff, Z.ltb_ge, Z.ltb_ge.
  rewrite (Logic.and_comm (_ <= 9999)), year_in_range. unfold min_year_ns, max_year_ns.
  assert (Hd : 0 < 86400 * Second) by reflexivity. revert Hd.
  generalize (86400 * Second) as d. intros d Hd.
  generalize (t_ns (et_Time e) + t_offset (et_Time e) * Second) as n. intros n.
  split; intros [H1 H2]; split.
  - pose proof (Z.mul_div_le n d Hd). nia.
  - pose proof (Z.mul_succ_div_gt n d Hd). nia.
  - apply Z.div_le_lower_bound; lia.
  - apply Z.div_lt_upper_bound; lia.
Qed.
