(* ===== verification/Typing.v ===== *)
(** The type system of the pipeline: [lib/typing].  Kinds, the kind of a
    dynamic value, and the translation of a kind to each warehouse's column type
    and back. *)
From S2P Require Import Prelude GoLang Constants StringUtil Decimal Values.
Local Open Scope string_scope.
Local Open Scope list_scope.
Local Open Scope Z_scope.

(** * Kinds *)

(** The values of [KindDetails.Kind]; [KZero] is the zero value of the field. *)
Inductive Kind :=
| KZero | KInvalid | KFloat | KInteger | KEDecimal | KBoolean | KArray | KStruct | KString | KETime.

Definition Kind_string (k : Kind) : string :=
  match k with
  | KZero => EmptyString
  | KInvalid => "invalid"
  | KFloat => "float"
  | KInteger => "int"
  | KEDecimal => "decimal"
  | KBoolean => "bool"
  | KArray => "array"
  | KStruct => "struct"
  | KString => "string"
  | KETime => "extended_time"
  end.

(** The three pointers are options: the code compares kinds only with
    templates whose pointers are nil, where Go's [==] is this equality. *)
Record KindDetails := mkKind {
  kd_Kind : Kind;
  kd_ExtendedTimeDetails : option NestedKind;
  kd_ExtendedDecimalDetails : option Decimal;
  kd_OptionalStringPrecision : option Z
}.

#[export] Instance Kind_eq_dec : EqDecision Kind.
Proof. solve_decision. Defined.
#[export] Instance KindDetails_eq_dec : EqDecision KindDetails.
Proof. solve_decision. Defined.

Definition template (k : Kind) : KindDetails := mkKind k None None None.

Definition Invalid : KindDetails := template KInvalid.
Definition Float : KindDetails := template KFloat.
Definition Integer : KindDetails := template KInteger.
Definition EDecimal : KindDetails := template KEDecimal.
Definition Boolean : KindDetails := template KBoolean.
Definition Array : KindDetails := template KArray.
Definition Struct : KindDetails := template KStruct.
Definition String_ : KindDetails := template KString.
Definition ETime : KindDetails := template KETime.

Definition kind_is (kd : KindDetails) (k : Kind) : bool := bool_decide (kd_Kind kd = k).
Definition kd_eqb (kd kd' : KindDetails) : bool := bool_decide (kd = kd').

Definition with_Kind (kd : KindDetails) (k : Kind) : KindDetails :=
  mkKind k (kd_ExtendedTimeDetails kd) (kd_ExtendedDecimalDetails kd) (kd_OptionalStringPrecision kd).
Definition with_Time (kd : KindDetails) (t : option NestedKind) : KindDetails :=
  mkKind (kd_Kind kd) t (kd_ExtendedDecimalDetails kd) (kd_OptionalStringPrecision kd).
Definition with_Decimal (kd : KindDetails) (d : option Decimal) : KindDetails :=
  mkKind (kd_Kind kd) (kd_ExtendedTimeDetails kd) d (kd_OptionalStringPrecision kd).
Definition with_Precision (kd : KindDetails) (p : option Z) : KindDetails :=
  mkKind (kd_Kind kd) (kd_ExtendedTimeDetails kd) (kd_ExtendedDecimalDetails kd) p.

Definition nested_with_Type (n : NestedKind) (t : ExtendedTimeKindType) : NestedKind :=
  mkNested t (nk_Format n).

Definition NewKindDetailsFromTemplate (details : KindDetails) (t : ExtendedTimeKindType) : KindDetails :=
  let n := default (mkNested NoTimeKind EmptyString) (kd_ExtendedTimeDetails details) in
  with_Time details (Some (nested_with_Type n t)).

(** * Kind of a value *)

Record Settings := mkSettings {
  AdditionalDateFormats : list string;
  CreateAllColumnsIfAvailable : bool
}.

(** First and last byte; a brace or bracket is one byte in UTF-8. *)
Definition first_char (s : string) : option ascii := String.get 0 s.
Definition last_char (s : string) : option ascii := String.get (String.length s - 1) s.

Section ParseValue.
Context `{GoStd}.

Definition IsJSON (str : string) : bool :=
  let str := trim_space str in
  if (String.length str <? 2)%nat then false
  else
    let wrapped (a b : ascii) :=
      bool_decide (first_char str = Some a) && bool_decide (last_char str = Some b) in
    (wrapped "{"%char "}"%char || wrapped "["%char "]"%char)
    && json_Valid str.

(** The type switch of [ParseValue], for a value looked at by itself. *)
Definition ParseValue_switch (settings : Settings) (val : value) : KindDetails :=
  match val with
  | VNil => Invalid
  | VInt KUintptr _ => Invalid
  | VInt _ _ => Integer
  | VFloat32 _ | VFloat64 _ => Float
  | VBool _ => Boolean
  | VString s =>
      let as_json := if IsJSON s then Struct else String_ in
      if contains s ":" || contains s "-" then
        match ParseExtendedDateTime s (AdditionalDateFormats settings) with
        | Ok ek => with_Time ETime (Some (et_NestedKind ek))
        | _ => as_json
        end
      else as_json
  | VDecimal d => with_Decimal EDecimal (Some d)
  | VTime t => with_Time ETime (Some (et_NestedKind t))
  | VBytes _ | VSlice _ | VStrings _ | VMaps _ | VBytesSlice _ => Array
  | VMap _ => Struct
  | VComplex64 _ | VComplex128 _ | VBigFloat _ => Invalid
  | VOther is_slice is_map _ =>
      if is_slice then Array else if is_map then Struct else Invalid
  end.

(** [ParseValue]; a nil schema is the empty map.  The recursive call is made
    with no schema, on a value that is not nil, so it is the type switch. *)
Definition ParseValue (settings : Settings) (key : string)
    (optionalSchema : gmap string KindDetails) (val : value) : KindDetails :=
  if is_nil val && negb (CreateAllColumnsIfAvailable settings) then Invalid
  else match optionalSchema !! key with
       | Some kindDetail =>
           if negb (is_nil val) && (kind_is kindDetail KETime || kind_is kindDetail KEDecimal)
           then ParseValue_switch settings val
           else kindDetail
       | None => ParseValue_switch settings val
       end.
End ParseValue.

(** * lib/typing/numeric.go *)

Definition defaultPrefix : string := "numeric".

Definition ParseNumeric (prefix valString : string) : KindDetails :=
  if negb (has_prefix valString prefix) then Invalid
  else
    let valString := trim_prefix valString (prefix +:+ "(") in
    let valString := trim_suffix valString ")" in
    let parts := split_on "," valString in
    if (length parts =? 0)%nat || (2 <? length parts)%nat then Invalid
    else match traverse (fun part => atoi (trim_space part)) parts with
         | Ok [p; s] =>
             if s =? 0 then Integer
             else with_Decimal EDecimal (Some (NewDecimal (Some p) s None))
         | Ok [_] => Integer
         | _ => Invalid
         end.

(** * Warehouse type to kind *)

Definition time_kind (t : ExtendedTimeKindType) : KindDetails := NewKindDetailsFromTemplate ETime t.

(** The text before the first [sep], unless it is at index 0. *)
Definition before (sep s : string) : string :=
  match index_of s sep with
  | Some (S n) => take_string (S n) s
  | _ => s
  end.

Definition snowflakeTypeToKind (snowflakeType : string) : KindDetails :=
  if (String.length snowflakeType =? 0)%nat then Invalid
  else
    let name := trim_space (before "(" snowflakeType) in
    if String.eqb name "number" then ParseNumeric "number" snowflakeType
    else if String.eqb name "numeric" then ParseNumeric defaultPrefix snowflakeType
    else if String.eqb name "decimal" then EDecimal
    else if mem_string ["float"; "float4"; "float8"; "double"; "double precision"; "real"] name then Float
    else if mem_string ["int"; "integer"; "bigint"; "smallint"; "tinyint"; "byteint"] name then Integer
    else if mem_string ["varchar"; "char"; "character"; "string"; "text"] name then String_
    else if String.eqb name "boolean" then Boolean
    else if mem_string ["variant"; "object"] name then Struct
    else if String.eqb name "array" then Array
    else if mem_string ["datetime"; "timestamp"; "timestamp_ltz"; "timestamp_ntz"; "timestamp_tz"] name
      then time_kind DateTimeKindType
    else if String.eqb name "time" then time_kind TimeKindType
    else if String.eqb name "date" then time_kind DateKindType
    else Invalid.

Definition bigQueryTypeToKind (rawBqType : string) : KindDetails :=
  if (String.length rawBqType =? 0)%nat then Invalid
  else
    let name := trim_space (before "<" (before "(" rawBqType)) in
    if String.eqb name "numeric" then
      if String.eqb rawBqType "numeric" || String.eqb rawBqType "bignumeric" then EDecimal
      else ParseNumeric defaultPrefix rawBqType
    else if String.eqb name "bignumeric" then
      if String.eqb rawBqType "bignumeric" then EDecimal
      else ParseNumeric "bignumeric" rawBqType
    else if mem_string ["decimal"; "float"; "float64"; "bigdecimal"] name then Float
    else if mem_string ["int"; "integer"; "int64"] name then Integer
    else if mem_string ["varchar"; "string"] name then String_
    else if mem_string ["bool"; "boolean"] name then Boolean
    else if mem_string ["struct"; "json"; "record"] name then Struct
    else if String.eqb name "array" then Array
    else if mem_string ["datetime"; "timestamp"] name then time_kind DateTimeKindType
    else if String.eqb name "time" then time_kind TimeKindType
    else if String.eqb name "date" then time_kind DateKindType
    else Invalid.

(** [strconv.Atoi] of the reported precision, nil when it does not parse. *)
Definition atoi_ptr (s : string) : option Z := match atoi s with Ok n => Some n | _ => None end.

Definition redshiftTypeToKind (rawType stringPrecision : string) : KindDetails :=
  if has_prefix rawType "numeric" then ParseNumeric defaultPrefix rawType
  else if contains rawType "character varying" then
    with_Precision String_ (atoi_ptr stringPrecision)
  else if String.eqb rawType "super" then Struct
  else if mem_string ["integer"; "bigint"] rawType then Integer
  else if String.eqb rawType "double precision" then Float
  else if mem_string ["timestamp with time zone"; "timestamp without time zone"] rawType
    then time_kind DateTimeKindType
  else if String.eqb rawType "time without time zone" then time_kind TimeKindType
  else if String.eqb rawType "date" then time_kind DateKindType
  else if String.eqb rawType "boolean" then Boolean
  else Invalid.

Definition mssqlTypeToKind (rawType stringPrecision : string) : KindDetails :=
  if has_prefix rawType "numeric" then ParseNumeric defaultPrefix rawType
  else if mem_string ["char"; "varchar"; "nchar"; "nvarchar"; "ntext"] rawType then
    let strPrecision :=
      match atoi_ptr stringPrecision with
      | Some precision => if precision =? -1 then None else Some precision
      | None => None
      end in
    with_Precision String_ strPrecision
  else if mem_string ["smallint"; "tinyint"; "bigint"; "int"] rawType then Integer
  else if mem_string ["float"; "real"] rawType then Float
  else if mem_string ["datetime"; "datetime2"] rawType then time_kind DateTimeKindType
  else if String.eqb rawType "time" then time_kind TimeKindType
  else if String.eqb rawType "date" then time_kind DateKindType
  else if String.eqb rawType "bit" then Boolean
  else if String.eqb rawType "text" then String_
  else Invalid.

Definition DwhTypeToKind (dwh : DestinationKind) (dwhType stringPrecision : string)
  : result KindDetails :=
  let dwhType := to_lower dwhType in
  match dwh with
  | Snowflake => Ok (snowflakeTypeToKind dwhType)
  | BigQuery => Ok (bigQueryTypeToKind dwhType)
  | Redshift => Ok (redshiftTypeToKind dwhType stringPrecision)
  | MSSQL => Ok (mssqlTypeToKind dwhType stringPrecision)
  | _ => errorf ("unexpected dwh kind, label: " +:+ DestinationKind_string dwh)
  end.

(** * Kind to warehouse type *)

(** Reading [*kd.ExtendedTimeDetails] or calling a method of a nil
    [*decimal.Decimal] panics. *)
Definition with_nested (kd : KindDetails) (f : ExtendedTimeKindType -> string) : result string :=
  match kd_ExtendedTimeDetails kd with
  | Some n => Ok (f (nk_Type n))
  | None => Panic "nil ExtendedTimeDetails"
  end.
Definition with_decimal (kd : KindDetails) (f : Decimal -> string) : result string :=
  match kd_ExtendedDecimalDetails kd with
  | Some d => Ok (f d)
  | None => Panic "nil ExtendedDecimalDetails"
  end.

(** The time case of every destination: a name per nested kind. *)
Definition time_name (kd : KindDetails) (datetime date time : string) : result string :=
  with_nested kd (fun t => match t with
    | DateTimeKindType => datetime
    | DateKindType => date
    | TimeKindType => time
    | NoTimeKind => Kind_string (kd_Kind kd)
    end).

Definition kindToSnowflake (kd : KindDetails) : result string :=
  match kd_Kind kd with
  | KStruct => Ok "variant"
  | KBoolean => Ok "boolean"
  | KETime => time_name kd "timestamp_tz" "date" "time"
  | KEDecimal => with_decimal kd SnowflakeKind
  | k => Ok (Kind_string k)
  end.

Definition kindToBigQuery (kd : KindDetails) : result string :=
  match kd_Kind kd with
  | KFloat => Ok "float64"
  | KArray => Ok "array<string>"
  | KStruct => Ok "json"
  | KETime => time_name kd "timestamp" "date" "time"
  | KEDecimal => with_decimal kd BigQueryKind
  | k => Ok (Kind_string k)
  end.

Definition varchar (p : Z) : string := "VARCHAR(" +:+ itoa p +:+ ")".

Definition kindToRedshift (kd : KindDetails) : result string :=
  match kd_Kind kd with
  | KInteger => Ok "INT8"
  | KStruct => Ok "SUPER"
  | KArray => Ok "VARCHAR(MAX)"
  | KString =>
      Ok (match kd_OptionalStringPrecision kd with
          | Some p => varchar p
          | None => "VARCHAR(MAX)"
          end)
  | KBoolean => Ok "BOOLEAN NULL"
  | KETime => time_name kd "timestamp with time zone" "date" "time"
  | KEDecimal => with_decimal kd RedshiftKind
  | k => Ok (Kind_string k)
  end.

Definition maxVarCharLengthForPrimaryKey : Z := 900.

Definition kindToMSSQL (kd : KindDetails) (isPk : bool) : result string :=
  match kd_Kind kd with
  | KFloat => Ok "float"
  | KInteger => Ok "bigint"
  | KStruct | KArray => Ok "NVARCHAR(MAX)"
  | KString =>
      Ok (match kd_OptionalStringPrecision kd with
          | Some p => varchar (if isPk then Z.min maxVarCharLengthForPrimaryKey p else p)
          | None => if isPk then varchar maxVarCharLengthForPrimaryKey else "VARCHAR(MAX)"
          end)
  | KBoolean => Ok "BIT"
  | KETime => time_name kd "datetime2" "date" "time"
  | KEDecimal => with_decimal kd MsSQLKind
  | k => Ok (Kind_string k)
  end.

Definition KindToDWHType (kd : KindDetails) (dwh : DestinationKind) (isPk : bool) : result string :=
  match dwh with
  | Snowflake => kindToSnowflake kd
  | BigQuery => kindToBigQuery kd
  | Redshift => kindToRedshift kd
  | MSSQL => kindToMSSQL kd isPk
  | _ => Ok EmptyString
  end.

(** * Lemmas *)

Lemma kd_eqb_eq kd kd' : kd_eqb kd kd' = true <-> kd = kd'.
Proof. unfold kd_eqb. by rewrite bool_decide_eq_true. Qed.

(** Comparing with a template looks at the kind and at all three pointers. *)
Lemma kd_eqb_template kd k :
  kd_eqb kd (template k) = true ->
  kd_Kind kd = k /\ kd_ExtendedTimeDetails kd = None /\
  kd_ExtendedDecimalDetails kd = None /\ kd_OptionalStringPrecision kd = None.
Proof. rewrite kd_eqb_eq. by intros ->. Qed.

(** The kinds whose column type every warehouse can name. *)
Definition kind_ready (kd : KindDetails) : bool :=
  match kd_Kind kd with
  | KETime => match kd_ExtendedTimeDetails kd with Some _ => true | None => false end
  | KEDecimal => match kd_ExtendedDecimalDetails kd with Some _ => true | None => false end
  | _ => true
  end.

(** Naming the column type panics exactly for an extended time without
    its details or a decimal without its details, and never returns an error:
    the four warehouses agree on this. *)
Theorem KindToDWHType_panics kd dwh isPk :
  dwh = Snowflake \/ dwh = BigQuery \/ dwh = Redshift \/ dwh = MSSQL ->
  is_panic (KindToDWHType kd dwh isPk) = negb (kind_ready kd) /\
  is_err (KindToDWHType kd dwh isPk) = false.
Proof.
  unfold KindToDWHType, kind_ready.
  destruct kd as [k [n|] [d|] p]; intros [-> | [-> | [-> | ->]]]; destruct k; done.
Qed.

Lemma KindToDWHType_panics_witness :
  is_panic (KindToDWHType EDecimal BigQuery false) = true.
Proof. apply (KindToDWHType_panics EDecimal BigQuery false). right. left. reflexivity. Defined.

(** ** Printed numerics parse back *)

Lemma ParseNumeric_text prefix p s :
  min_int64 <= p <= max_int64 -> min_int64 <= s <= max_int64 ->
  ParseNumeric prefix (numeric_text prefix p s) =
    if s =? 0 then Integer else with_Decimal EDecimal (Some (NewDecimal (Some p) s None)).
Proof.
  intros Hp Hs. unfold ParseNumeric, numeric_text. rewrite has_prefix_app. cbn [negb].
  rewrite string_app_assoc, trim_prefix_app, !string_app_assoc, trim_suffix_app.
  rewrite <- !string_app_assoc. change (", " +:+ itoa s) with (String "," (String " " (itoa s))).
  assert (Hc : forall z, count_char "," (itoa z) = 0%nat) by (intros z; by apply itoa_count).
  rewrite split_on_app, split_on_no_sep by (simpl; done).
  cbn [length Nat.eqb Nat.ltb Nat.leb orb traverse].
  replace (trim_space (String " " (itoa s))) with (trim_space (itoa s)) by reflexivity.
  rewrite !trim_space_itoa, !atoi_itoa by done. reflexivity.
Qed.

Lemma to_lower_numeric_text name p s :
  to_lower (numeric_text name p s) = numeric_text (to_lower name) p s.
Proof. unfold numeric_text. by rewrite !to_lower_app, !to_lower_itoa. Qed.

Lemma snowflake_numeric p s :
  snowflakeTypeToKind (numeric_text "numeric" p s) = ParseNumeric "numeric" (numeric_text "numeric" p s).
Proof. reflexivity. Qed.

Lemma bigquery_numeric p s :
  bigQueryTypeToKind (numeric_text "numeric" p s) = ParseNumeric "numeric" (numeric_text "numeric" p s).
Proof. reflexivity. Qed.

Lemma bigquery_bignumeric p s :
  bigQueryTypeToKind (numeric_text "bignumeric" p s) =
  ParseNumeric "bignumeric" (numeric_text "bignumeric" p s).
Proof. reflexivity. Qed.

(** ** What a warehouse keeps of a kind *)

Definition int64_opt (p : option Z) : Prop :=
  match p with Some p => min_int64 <= p <= max_int64 | None => True end.

Definition decimal_in_range (kd : KindDetails) : Prop :=
  match kd_ExtendedDecimalDetails kd with
  | Some d => min_int64 <= d_scale d <= max_int64 /\ int64_opt (d_precision d)
  | None => True
  end.

(** The kind read back from a numeric column, or from the text column that
    stands for a precision the warehouse has no numeric type for. *)
Definition stored_numeric (numeric : bool) (p s : Z) : KindDetails :=
  if numeric then
    if s =? 0 then Integer else with_Decimal EDecimal (Some (NewDecimal (Some p) s None))
  else String_.

Definition stored_kind (dwh : DestinationKind) (kd : KindDetails) : KindDetails :=
  match kd_Kind kd, kd_ExtendedTimeDetails kd, kd_ExtendedDecimalDetails kd with
  | KETime, Some n, _ => time_kind (nk_Type n)
  | KEDecimal, _, Some d =>
      match dwh with
      | BigQuery => stored_numeric (isNumeric d || isBigNumeric d) (default 0 (d_precision d)) (d_scale d)
      | _ =>
          let p := default MaxPrecisionBeforeString (d_precision d) in
          stored_numeric (negb ((MaxPrecisionBeforeString <? p) || (p =? -1))) p (d_scale d)
      end
  | k, _, _ => template k
  end.

Lemma declared_type_roundtrip kd dwh isPk t stringPrecision :
  dwh = Snowflake \/ dwh = BigQuery ->
  kd_Kind kd <> KZero ->
  (forall n, kd_ExtendedTimeDetails kd = Some n -> nk_Type n <> NoTimeKind) ->
  decimal_in_range kd ->
  KindToDWHType kd dwh isPk = Ok t ->
  DwhTypeToKind dwh t stringPrecision = Ok (stored_kind dwh kd).
Proof.
  intros Hdwh Hk Hn Hd. unfold decimal_in_range in Hd.
  destruct kd as [k n d p]; simpl in *. unfold stored_kind; simpl.
  destruct k; try done;
    try (destruct Hdwh as [-> | ->]; intros [= <-]; destruct n, d; reflexivity).
  - destruct d as [d|]; [|by destruct Hdwh as [-> | ->]]. destruct Hd as [Hs Hp].
    replace (match n with Some _ | None => _ end) with
      (match dwh with
       | BigQuery => stored_numeric (isNumeric d || isBigNumeric d) (default 0 (d_precision d)) (d_scale d)
       | _ => let p := default MaxPrecisionBeforeString (d_precision d) in
          stored_numeric (negb ((MaxPrecisionBeforeString <? p) || (p =? -1))) p (d_scale d)
       end) by (by destruct n).
    assert (Hpr : forall x, min_int64 <= x <= max_int64 ->
      min_int64 <= default x (d_precision d) <= max_int64) by (intros; by destruct (d_precision d)).
    destruct Hdwh as [-> | ->]; cbn; intros [= <-].
    + unfold SnowflakeKind, toKind, stored_numeric.
      destruct (_ || _); cbn [negb]; [reflexivity|].
      rewrite to_lower_numeric_text. unfold DwhTypeToKind.
      change (to_lower "NUMERIC") with "numeric". rewrite snowflake_numeric.
      rewrite ParseNumeric_text; [done| |done]. apply Hpr. vm_compute; split; discriminate.
    + unfold BigQueryKind, stored_numeric.
      destruct (isNumeric d); [|destruct (isBigNumeric d)]; cbn [orb]; [..|reflexivity];
        rewrite to_lower_numeric_text;
        [change (to_lower "NUMERIC") with "numeric"; rewrite bigquery_numeric
        |change (to_lower "BIGNUMERIC") with "bignumeric"; rewrite bigquery_bignumeric];
        (rewrite ParseNumeric_text; [done| |done]; apply Hpr; vm_compute; split; discriminate).
  - destruct n as [n|]; [|by destruct Hdwh as [-> | ->]]. specialize (Hn n eq_refl).
    destruct n as [[] f]; try done; destruct Hdwh as [-> | ->]; intros [= <-]; destruct d; reflexivity.
Qed.

(** C37. What Snowflake and BigQuery store of a column's type is known: the type
    a column is created with, reported back in any letter case, is read as its
    [stored_kind].  That is the same kind, decimals with their precision and
    scale, but for decimals of scale 0, read as integers, and those of a
    precision the warehouse does not support, read as text.  The kind is not the
    unset one, times have a type, and decimals are in the range of an [int].
    Redshift and SQL Server report other names than the declared ones. *)
Theorem column_type_roundtrip kd dwh isPk declared reported stringPrecision :
  dwh = Snowflake \/ dwh = BigQuery ->
  kd_Kind kd <> KZero ->
  (forall n, kd_ExtendedTimeDetails kd = Some n -> nk_Type n <> NoTimeKind) ->
  decimal_in_range kd ->
  KindToDWHType kd dwh isPk = Ok declared ->
  to_lower reported = to_lower declared ->
  DwhTypeToKind dwh reported stringPrecision = Ok (stored_kind dwh kd).
Proof.
  intros Hdwh Hk Hn Hd Ht Hcase.
  rewrite <- (declared_type_roundtrip kd dwh isPk declared stringPrecision) by done.
  unfold DwhTypeToKind. by rewrite Hcase.
Qed.

Lemma column_type_roundtrip_witness :
  DwhTypeToKind BigQuery "BigNumeric(38, 15)" EmptyString =
    Ok (with_Decimal EDecimal (Some (NewDecimal (Some 38) 15 None))).
Proof.
  apply (column_type_roundtrip (with_Decimal EDecimal (Some (NewDecimal (Some 38) 15 None)))
           BigQuery false "BIGNUMERIC(38, 15)"); [by right|done|done| |reflexivity|reflexivity].
  vm_compute. repeat split; discriminate.
Defined.
