(* ===== verification/Columns.v ===== *)
(** In-memory columns: [lib/typing/columns].  A [*Columns] is the list of its
    columns (the mutex serialises the operations); a nil pointer is handled by
    the callers as [None]. *)
From S2P Require Import Prelude GoLang Constants StringUtil Decimal Values Typing.
Local Open Scope string_scope.
Local Open Scope list_scope.

(** [columns.EscapeName]: lower-case, spaces to double underscores. *)
Definition columns_EscapeName (name : string) : string := snd (EscapeSpaces (to_lower name)).

Record Column := mkColumn {
  c_name : string;
  c_primaryKey : bool;
  c_KindDetails : KindDetails;
  c_ToastColumn : bool;
  c_defaultValue : value;
  c_backfilled : bool
}.

Definition NewColumn (name : string) (kd : KindDetails) : Column :=
  mkColumn name false kd false VNil false.

Definition RawName (c : Column) : string := c_name c.

Definition set_name (n : string) (c : Column) : Column :=
  mkColumn n (c_primaryKey c) (c_KindDetails c) (c_ToastColumn c) (c_defaultValue c) (c_backfilled c).
Definition set_kind (kd : KindDetails) (c : Column) : Column :=
  mkColumn (c_name c) (c_primaryKey c) kd (c_ToastColumn c) (c_defaultValue c) (c_backfilled c).
Definition SetBackfilled (b : bool) (c : Column) : Column :=
  mkColumn (c_name c) (c_primaryKey c) (c_KindDetails c) (c_ToastColumn c) (c_defaultValue c) b.
Definition SetDefaultValue (v : value) (c : Column) : Column :=
  mkColumn (c_name c) (c_primaryKey c) (c_KindDetails c) (c_ToastColumn c) v (c_backfilled c).

Definition ToLowerName (c : Column) : Column := set_name (to_lower (c_name c)) c.

Definition ShouldSkip (c : Column) : bool := kind_is (c_KindDetails c) KInvalid.

Definition ShouldBackfill (c : Column) : bool :=
  if c_primaryKey c then false
  else if ShouldSkip c then false
  else negb (is_nil (c_defaultValue c)) && negb (c_backfilled c).

(** [c.Name(uppercaseEscNames, args)] *)
Definition Name (c : Column) (uppercaseEscNames : bool) (args : option NameArgs) : string :=
  EscapeName (c_name c) uppercaseEscNames args.

(** [columns.Wrapper] *)
Record Wrapper := mkWrapper { w_name : string; w_escapedName : string }.
Definition NewWrapper (col : Column) (uppercaseEscNames : bool) (args : option NameArgs) : Wrapper :=
  mkWrapper (c_name col) (Name col uppercaseEscNames args).

(** * Columns *)

Definition name_is (name : string) (c : Column) : bool := String.eqb (c_name c) name.

Definition Columns_EscapeName (cols : list Column) (up : bool) (args : option NameArgs) : list Column :=
  map (fun c => set_name (Name c up args) c) cols.

Definition GetColumn (cols : list Column) (name : string) : option Column :=
  find_first (name_is name) cols.

Definition AddColumn (cols : list Column) (col : Column) : list Column :=
  if String.eqb (c_name col) EmptyString then cols
  else match GetColumn cols (c_name col) with
       | Some _ => cols
       | None => cols ++ [col]
       end.

Definition UpdateColumn (cols : list Column) (updateCol : Column) : list Column :=
  update_first (name_is (c_name updateCol)) updateCol cols.

Definition DeleteColumn (cols : list Column) (name : string) : list Column :=
  remove_first (name_is name) cols.

Record UpsertColumnArg := mkUpsert {
  ua_ToastCol : option bool;
  ua_PrimaryKey : option bool;
  ua_Backfilled : option bool
}.

Definition upsert_fields (arg : UpsertColumnArg) (c : Column) : Column :=
  mkColumn (c_name c)
    (default (c_primaryKey c) (ua_PrimaryKey arg))
    (c_KindDetails c)
    (default (c_ToastColumn c) (ua_ToastCol arg))
    (c_defaultValue c)
    (default (c_backfilled c) (ua_Backfilled arg)).

Definition UpsertColumn (cols : list Column) (colName : string) (arg : UpsertColumnArg) : list Column :=
  if String.eqb colName EmptyString then cols
  else match GetColumn cols colName with
       | Some col => UpdateColumn cols (upsert_fields arg col)
       | None => AddColumn cols (upsert_fields arg (NewColumn colName Invalid))
       end.

(** [GetColumns] on a pointer that may be nil *)
Definition GetColumns (cols : option (list Column)) : list Column := default [] cols.

(** Filters on the whole struct, not only on its kind. *)
Definition GetColumnsToUpdate (cols : option (list Column)) (up : bool) (args : option NameArgs)
  : list string :=
  map (fun c => Name c up args)
      (List.filter (fun c => negb (kd_eqb (c_KindDetails c) Invalid)) (GetColumns cols)).

(** * UPDATE clause *)

Definition processToastStructCol (colName : string) (destKind : DestinationKind) : string :=
  let toast := ToastUnavailableValuePlaceholder in
  let otherwise := ", true) THEN cc." +:+ colName +:+ " ELSE c." +:+ colName +:+ " END" in
  match destKind with
  | BigQuery =>
      colName +:+ "= CASE WHEN COALESCE(TO_JSON_STRING(cc." +:+ colName +:+ ") != '{"
        +:+ quote "key" +:+ ":" +:+ quote toast +:+ "}'" +:+ otherwise
  | Redshift =>
      colName +:+ "= CASE WHEN COALESCE(cc." +:+ colName +:+ " != JSON_PARSE('{"
        +:+ quote "key" +:+ ":" +:+ quote toast +:+ "}')" +:+ otherwise
  | MSSQL =>
      colName +:+ "= CASE WHEN COALESCE(cc." +:+ colName +:+ ", {}) != {'key': '" +:+ toast
        +:+ "'} THEN cc." +:+ colName +:+ " ELSE c." +:+ colName +:+ " END"
  | _ =>
      colName +:+ "= CASE WHEN COALESCE(cc." +:+ colName +:+ " != {'key': '" +:+ toast +:+ "'}"
        +:+ otherwise
  end.

Definition processToastCol (colName : string) (destKind : DestinationKind) : string :=
  let toast := ToastUnavailableValuePlaceholder in
  match destKind with
  | MSSQL =>
      colName +:+ "= CASE WHEN COALESCE(cc." +:+ colName +:+ ", '') != '" +:+ toast
        +:+ "' THEN cc." +:+ colName +:+ " ELSE c." +:+ colName +:+ " END"
  | _ =>
      colName +:+ "= CASE WHEN COALESCE(cc." +:+ colName +:+ " != '" +:+ toast
        +:+ "', true) THEN cc." +:+ colName +:+ " ELSE c." +:+ colName +:+ " END"
  end.

(** The assignment of one column. *)
Definition update_assignment (destKind : DestinationKind) (up : bool) (c : Column) : string :=
  let colName := Name c up (Some (mkNameArgs true destKind)) in
  if c_ToastColumn c then
    if kd_eqb (c_KindDetails c) Struct then processToastStructCol colName destKind
    else processToastCol colName destKind
  else colName +:+ "=cc." +:+ colName.

(** The columns [UpdateQuery] assigns. *)
Definition updated_column (skipDeleteCol : bool) (c : Column) : bool :=
  negb (ShouldSkip c) && negb (skipDeleteCol && String.eqb (RawName c) DeleteColumnMarker).

Definition UpdateQuery (cols : option (list Column)) (destKind : DestinationKind) (up skipDeleteCol : bool)
  : string :=
  join "," (map (update_assignment destKind up)
                (List.filter (updated_column skipDeleteCol) (GetColumns cols))).

(** * Diff *)

Definition shouldSkipColumn (colName : string)
    (softDelete includeArtieUpdatedAt includeDatabaseUpdatedAt : bool) (mode : Mode) : bool :=
  if String.eqb colName DeleteColumnMarker && softDelete then false
  else if String.eqb colName UpdateColumnMarker && includeArtieUpdatedAt then false
  else if String.eqb colName DatabaseUpdatedColumnMarker && includeDatabaseUpdatedAt then false
  else if String.eqb colName OperationColumnMarker && bool_decide (mode = History) then false
  else contains colName ArtiePrefix.

Definition CloneColumns (cols : option (list Column)) : list Column :=
  foldl (fun newCols col => AddColumn newCols (ToLowerName col)) [] (GetColumns cols).

(** The columns of [cols] kept by the final loops of [Diff]. *)
Definition keep_unskipped (skip : string -> bool) (cols : list Column) : list Column :=
  foldl (fun missing col => if skip (RawName col) then missing else AddColumn missing col) [] cols.

Definition Diff (columnsInSource columnsInDestination : option (list Column))
    (softDelete includeArtieUpdatedAt includeDatabaseUpdatedAt : bool) (mode : Mode)
  : list Column * list Column :=
  let src := CloneColumns columnsInSource in
  let targ := CloneColumns columnsInDestination in
  let colsToDelete :=
    List.filter (fun col => match GetColumn targ (RawName col) with Some _ => true | None => false end) src in
  let src := foldl (fun cols col => DeleteColumn cols (RawName col)) src colsToDelete in
  let targ := foldl (fun cols col => DeleteColumn cols (RawName col)) targ colsToDelete in
  let skip name :=
    shouldSkipColumn name softDelete includeArtieUpdatedAt includeDatabaseUpdatedAt mode in
  (keep_unskipped skip targ, keep_unskipped skip src).

(** * Default values *)

Record DefaultValueArgs := mkDefaultArgs { dv_Escape : bool; dv_DestKind : DestinationKind }.

Section Default.
Context `{GoStd}.

Definition DefaultValue (c : Column) (args : option DefaultValueArgs) (additionalDateFmts : list string)
  : result value :=
  match args with
  | None => Ok (c_defaultValue c)
  | Some args =>
      if negb (dv_Escape args) || is_nil (c_defaultValue c) then Ok (c_defaultValue c)
      else
        let wrapped := Wrap (Sprint (c_defaultValue c)) false in
        match kd_Kind (c_KindDetails c) with
        | KStruct | KArray =>
            match dv_DestKind args with
            | BigQuery => Ok (VString ("JSON" +:+ wrapped))
            | Redshift => Ok (VString ("JSON_PARSE(" +:+ wrapped +:+ ")"))
            | Snowflake => Ok (VString wrapped)
            | _ => Ok (c_defaultValue c)
            end
        | KETime =>
            match kd_ExtendedTimeDetails (c_KindDetails c) with
            | None => errorf "column kind details for extended time is nil"
            | Some details =>
                extTime ← wrap_err ("failed to cast colVal as time.Time, colVal: "
                                      +:+ Sprint (c_defaultValue c) +:+ ", err: ") EmptyString
                            (ParseFromInterface (c_defaultValue c) additionalDateFmts);
                match nk_Type details with
                | TimeKindType =>
                    Ok (VString (Wrap (ExtendedTime_String extTime PostgresTimeFormatNoTZ) false))
                | _ => Ok (VString (Wrap (ExtendedTime_String extTime (nk_Format details)) false))
                end
            end
        | KEDecimal =>
            match c_defaultValue c with
            | VDecimal d => Decimal_Value d
            | _ => errorf "colVal is not type *decimal.Decimal"
            end
        | KString => Ok (VString wrapped)
        | _ => Ok (c_defaultValue c)
        end
  end.
End Default.

(** * The map view of a column list *)

Definition columns_map (cols : list Column) : gmap string Column :=
  list_to_map (map (fun c => (c_name c, c)) cols).

(** The well-formedness invariant: names are distinct and not empty. *)
Definition columns_wf (cols : list Column) : Prop :=
  NoDup (map c_name cols) /\ EmptyString ∉ map c_name cols.

(** The operations a [Columns] receives, as data. *)
Inductive columns_op :=
| OpAdd (col : Column)
| OpUpdate (col : Column)
| OpDelete (name : string)
| OpUpsert (name : string) (arg : UpsertColumnArg).

Definition columns_step (cols : list Column) (op : columns_op) : list Column :=
  match op with
  | OpAdd col => AddColumn cols col
  | OpUpdate col => UpdateColumn cols col
  | OpDelete name => DeleteColumn cols name
  | OpUpsert name arg => UpsertColumn cols name arg
  end.

(** What each operation promises, on the finite map. *)
Definition add_spec (m : gmap string Column) (col : Column) : gmap string Column :=
  if decide (c_name col = EmptyString) then m
  else match m !! c_name col with Some _ => m | None => <[c_name col := col]> m end.

Definition columns_step_spec (m : gmap string Column) (op : columns_op) : gmap string Column :=
  match op with
  | OpAdd col => add_spec m col
  | OpUpdate col => if decide (is_Some (m !! c_name col)) then <[c_name col := col]> m else m
  | OpDelete name => delete name m
  | OpUpsert name arg =>
      if decide (name = EmptyString) then m
      else <[name := upsert_fields arg (default (NewColumn name Invalid) (m !! name))]> m
  end.

Lemma name_is_true n c : name_is n c = true <-> c_name c = n.
Proof. apply String.eqb_eq. Qed.

Lemma name_is_false n c : name_is n c = false <-> c_name c <> n.
Proof. apply String.eqb_neq. Qed.

Lemma GetColumn_map cols n : GetColumn cols n = columns_map cols !! n.
Proof.
  unfold GetColumn, columns_map. induction cols as [|c cols IH]; simpl; [done|].
  destruct (name_is n c) eqn:E; [apply name_is_true in E as <- | apply name_is_false in E].
  - by rewrite lookup_insert_eq.
  - by rewrite lookup_insert_ne.
Qed.

Lemma GetColumn_name cols n c : GetColumn cols n = Some c -> c_name c = n.
Proof. intros [_ H]%find_first_Some. by apply name_is_true in H. Qed.

Lemma GetColumn_None cols n : GetColumn cols n = None <-> n ∉ map c_name cols.
Proof.
  unfold GetColumn. rewrite find_first_None. split.
  - intros H (c & -> & Hc)%list_elem_of_fmap. specialize (H c Hc).
    by apply name_is_false in H.
  - intros H c Hc. apply name_is_false. intros <-. by apply H, list_elem_of_fmap_2.
Qed.

Lemma columns_map_app cols c :
  GetColumn cols (c_name c) = None ->
  columns_map (cols ++ [c]) = <[c_name c := c]> (columns_map cols).
Proof.
  intros HN. apply map_eq. intros n. rewrite <- GetColumn_map. unfold GetColumn.
  rewrite find_first_app. fold (GetColumn cols n). simpl.
  destruct (decide (c_name c = n)) as [<- | Hne].
  - rewrite HN, lookup_insert_eq. unfold name_is. by rewrite String.eqb_refl.
  - rewrite lookup_insert_ne, <- GetColumn_map by done.
    unfold name_is. apply String.eqb_neq in Hne as ->. by destruct (GetColumn cols n).
Qed.

Lemma AddColumn_map cols c : columns_map (AddColumn cols c) = add_spec (columns_map cols) c.
Proof.
  unfold AddColumn, add_spec. rewrite <- GetColumn_map.
  destruct (String.eqb_spec (c_name c) EmptyString), (decide (c_name c = EmptyString)); try done.
  destruct (GetColumn cols (c_name c)) eqn:E; [done | by apply columns_map_app].
Qed.

Lemma UpdateColumn_map cols c :
  columns_map (UpdateColumn cols c) =
  if decide (is_Some (columns_map cols !! c_name c))
  then <[c_name c := c]> (columns_map cols) else columns_map cols.
Proof.
  unfold UpdateColumn. induction cols as [|d cols IH].
  - case_decide as H; [|done]. unfold columns_map in H; simpl in H. by destruct H.
  - unfold columns_map in *; simpl in *.
    destruct (name_is (c_name c) d) eqn:E; simpl;
      [apply name_is_true in E | apply name_is_false in E].
    + rewrite E, lookup_insert_eq, decide_True by eauto. by rewrite insert_insert_eq.
    + rewrite lookup_insert_ne by done. rewrite IH. case_decide; [|done].
      by rewrite insert_insert_ne.
Qed.

Lemma DeleteColumn_names cols n :
  NoDup (map c_name cols) ->
  DeleteColumn cols n = List.filter (fun c => negb (name_is n c)) cols.
Proof.
  unfold DeleteColumn. induction cols as [|c cols IH]; simpl; [done|].
  intros [Hc Hnd]%NoDup_cons. destruct (name_is n c) eqn:E; simpl; [|by rewrite IH].
  apply name_is_true in E as <-. symmetry. apply forallb_filter_id, forallb_forall.
  intros d Hd%list_elem_of_In. apply negb_true_iff, name_is_false. intros Hn.
  apply Hc. rewrite <- Hn. by apply list_elem_of_fmap_2.
Qed.

Lemma DeleteColumn_map cols n :
  NoDup (map c_name cols) -> columns_map (DeleteColumn cols n) = delete n (columns_map cols).
Proof.
  intros Hnd. rewrite DeleteColumn_names by done. apply map_eq. intros m.
  rewrite <- GetColumn_map. unfold GetColumn. clear Hnd.
  destruct (decide (n = m)) as [-> | Hne].
  - rewrite lookup_delete_eq. apply find_first_None. intros c Hc.
    apply list_elem_of_In, filter_In in Hc as [_ Hc]. by apply negb_true_iff in Hc.
  - rewrite lookup_delete_ne, <- GetColumn_map by done. unfold GetColumn.
    induction cols as [|c cols IH]; simpl; [done|].
    destruct (name_is n c) eqn:E; simpl; [|by rewrite IH].
    apply name_is_true in E. destruct (name_is m c) eqn:E2; [|done].
    apply name_is_true in E2. congruence.
Qed.

Lemma UpsertColumn_map cols n arg :
  columns_map (UpsertColumn cols n arg) = columns_step_spec (columns_map cols) (OpUpsert n arg).
Proof.
  unfold UpsertColumn; simpl. destruct (String.eqb_spec n EmptyString), (decide (n = EmptyString)); try done.
  destruct (GetColumn cols n) as [col|] eqn:E.
  - rewrite UpdateColumn_map. simpl. pose proof (GetColumn_name _ _ _ E) as ->.
    rewrite GetColumn_map in E. rewrite E. by rewrite decide_True.
  - rewrite AddColumn_map. unfold add_spec; simpl. rewrite decide_False by done.
    rewrite GetColumn_map in E. by rewrite E.
Qed.

(** ** The invariant *)

Lemma AddColumn_wf cols c : columns_wf cols -> columns_wf (AddColumn cols c).
Proof.
  intros [Hnd He]. unfold AddColumn. destruct (String.eqb_spec (c_name c) EmptyString) as [|Hc]; [done|].
  destruct (GetColumn cols (c_name c)) eqn:E; [done|]. apply GetColumn_None in E.
  split; rewrite map_app; simpl.
  - apply NoDup_app. split; [done|]. split; [|apply NoDup_singleton].
    intros x Hx ->%list_elem_of_singleton. done.
  - rewrite elem_of_app, list_elem_of_singleton. naive_solver.
Qed.

Lemma UpdateColumn_names cols c : map c_name (UpdateColumn cols c) = map c_name cols.
Proof.
  unfold UpdateColumn. induction cols as [|d cols IH]; simpl; [done|].
  destruct (name_is (c_name c) d) eqn:E; simpl; [|by rewrite IH].
  apply name_is_true in E. by rewrite E.
Qed.

Lemma sublist_wf cols cols' : sublist cols' cols -> columns_wf cols -> columns_wf cols'.
Proof.
  intros Hs [Hnd He].
  assert (Hs' : sublist (map c_name cols') (map c_name cols)) by by apply (fmap_sublist c_name).
  split; [by eapply sublist_NoDup|].
  intros Hin. apply He. by eapply elem_of_sublist.
Qed.

Lemma columns_step_wf cols op : columns_wf cols -> columns_wf (columns_step cols op).
Proof.
  intros Hwf. destruct op as [c|c|n|n arg]; simpl.
  - by apply AddColumn_wf.
  - unfold columns_wf. by rewrite UpdateColumn_names.
  - eapply sublist_wf; [apply remove_first_sublist|done].
  - unfold UpsertColumn. destruct (String.eqb n EmptyString); [done|].
    destruct (GetColumn cols n); [|by apply AddColumn_wf].
    unfold columns_wf. by rewrite UpdateColumn_names.
Qed.

Lemma columns_step_map cols op :
  columns_wf cols -> columns_map (columns_step cols op) = columns_step_spec (columns_map cols) op.
Proof.
  intros [Hnd _]. destruct op as [c|c|n|n arg]; simpl.
  - apply AddColumn_map.
  - apply UpdateColumn_map.
  - by apply DeleteColumn_map.
  - apply UpsertColumn_map.
Qed.

(** A list of columns built by the operations. *)
Definition run_columns (ops : list columns_op) : list Column := foldl columns_step [] ops.
Definition run_columns_spec (ops : list columns_op) : gmap string Column :=
  foldl columns_step_spec ∅ ops.

Lemma columns_wf_nil : columns_wf [].
Proof. split; [constructor | apply not_elem_of_nil]. Qed.

#[export] Hint Resolve columns_wf_nil columns_step_wf AddColumn_wf : transfer.

(** C26. The column list refines a finite map: after any sequence of
    [AddColumn], [UpdateColumn], [DeleteColumn] and [UpsertColumn], names are
    distinct and not empty, and a lookup answers as in the map obtained by the
    map operations (an existing column is never overwritten by an add, an
    update replaces one existing column as a whole, a delete removes the only
    one).  So the default value of the column that is updated is lost, with or
    without one in the new column, although the comment of [UpdateColumn] says
    that it is kept. *)
Theorem columns_refine_map ops n :
  columns_wf (run_columns ops) /\ GetColumn (run_columns ops) n = run_columns_spec ops !! n.
Proof.
  rewrite GetColumn_map.
  enough (columns_wf (run_columns ops) /\ columns_map (run_columns ops) = run_columns_spec ops)
    as [? ->] by done.
  unfold run_columns, run_columns_spec.
  induction ops as [|op ops [Hwf Heq]] using rev_ind; [split; [apply columns_wf_nil | done]|].
  rewrite !foldl_app; simpl. rewrite <- Heq. auto using columns_step_wf, columns_step_map.
Qed.

(** * CloneColumns and Diff *)

Definition col_in (cols : list Column) (name : string) : bool :=
  existsb (name_is name) cols.

Lemma col_in_spec cols n : col_in cols n = true <-> n ∈ map c_name cols.
Proof.
  unfold col_in. rewrite existsb_exists. split.
  - intros (c & Hc%list_elem_of_In & Hn%name_is_true). subst. by apply list_elem_of_fmap_2.
  - intros (c & -> & Hc)%list_elem_of_fmap. exists c. split; [by apply list_elem_of_In|].
    by apply name_is_true.
Qed.

Lemma GetColumn_col_in cols n :
  match GetColumn cols n with Some _ => true | None => false end = col_in cols n.
Proof.
  destruct (col_in cols n) eqn:E.
  - destruct (GetColumn cols n) eqn:E2; [done|].
    apply GetColumn_None in E2. by apply col_in_spec in E.
  - destruct (GetColumn cols n) eqn:E2; [|done].
    assert (GetColumn cols n = None) as E3; [|congruence].
    apply GetColumn_None. intros H%col_in_spec. congruence.
Qed.

Lemma fold_add_wf (f : Column -> Column) cols acc :
  columns_wf acc -> columns_wf (foldl (fun new col => AddColumn new (f col)) acc cols).
Proof. revert acc. induction cols as [|c cols IH]; simpl; auto using AddColumn_wf. Qed.

Lemma CloneColumns_wf cols : columns_wf (CloneColumns cols).
Proof. apply fold_add_wf, columns_wf_nil. Qed.

(** Adding columns whose names are new appends them. *)
Lemma AddColumn_fresh cols c :
  c_name c <> EmptyString -> c_name c ∉ map c_name cols -> AddColumn cols c = cols ++ [c].
Proof.
  intros Hne Hin. unfold AddColumn. apply String.eqb_neq in Hne as ->.
  apply GetColumn_None in Hin. by rewrite Hin.
Qed.

Lemma wf_app_cons acc c cols :
  columns_wf (acc ++ c :: cols) -> c_name c <> EmptyString /\ c_name c ∉ map c_name acc.
Proof.
  intros [Hnd He]. rewrite map_app in Hnd, He; simpl in *.
  apply NoDup_app in Hnd as (_ & Hd & _).
  split; [intros Hc; apply He; rewrite <- Hc; set_solver | set_solver].
Qed.

Lemma keep_unskipped_filter skip cols :
  columns_wf cols -> keep_unskipped skip cols = List.filter (fun c => negb (skip (c_name c))) cols.
Proof.
  unfold keep_unskipped.
  enough (forall acc, columns_wf (acc ++ cols) ->
    foldl (fun missing col => if skip (RawName col) then missing else AddColumn missing col) acc cols
    = acc ++ List.filter (fun c => negb (skip (c_name c))) cols) as H by (intros; by apply (H [])).
  induction cols as [|c cols IH]; intros acc Hwf; simpl; [by rewrite app_nil_r|].
  unfold RawName at 2. destruct (skip (c_name c)); simpl.
  - apply IH. eapply sublist_wf, Hwf. apply sublist_app; [done | by apply sublist_cons].
  - apply wf_app_cons in Hwf as Hc. destruct Hc as [Hne Hin].
    rewrite AddColumn_fresh by done. rewrite IH by (by rewrite <- app_assoc).
    by rewrite <- app_assoc.
Qed.

Lemma delete_all_filter dels cols :
  NoDup (map c_name cols) ->
  foldl (fun cols col => DeleteColumn cols (RawName col)) cols dels =
  List.filter (fun c => negb (col_in dels (c_name c))) cols.
Proof.
  revert cols. induction dels as [|d dels IH]; intros cols Hnd; simpl.
  - by rewrite (forallb_filter_id _ cols) by (by apply forallb_forall).
  - rewrite DeleteColumn_names by done. rewrite IH.
    + rewrite filter_filter_andb. apply filter_ext. intros c.
      unfold name_is, RawName. rewrite (String.eqb_sym (c_name d)).
      by destruct (String.eqb _ _).
    + eapply sublist_NoDup; [apply Hnd|]. apply (fmap_sublist c_name), filter_sublist.
Qed.

(** One side of [Diff]: the columns of [mine] that [other] lacks and that no
    setting hides. *)
Definition diff_side (skip : string -> bool) (mine other : list Column) : list Column :=
  List.filter (fun c => negb (col_in other (c_name c)) && negb (skip (c_name c))) mine.

Lemma diff_deleted src targ :
  let dels := List.filter (fun col => match GetColumn targ (RawName col) with
                                      | Some _ => true | None => false end) src in
  forall n, col_in dels n = col_in src n && col_in targ n.
Proof.
  intros dels n. subst dels.
  induction src as [|c src IH]; simpl; [done|].
  rewrite GetColumn_col_in. destruct (name_is n c) eqn:E; simpl.
  - apply name_is_true in E as <-. change (RawName c) with (c_name c).
    destruct (col_in targ (c_name c)) eqn:E2; simpl.
    + unfold name_is. by rewrite String.eqb_refl.
    + rewrite IH, andb_false_r. done.
  - destruct (col_in targ (RawName c)); simpl; rewrite ?E; simpl; apply IH.
Qed.

Lemma filter_mine_other (mine other : list Column) (f : string -> bool) :
  (forall n, f n = col_in mine n && col_in other n) ->
  List.filter (fun c => negb (f (c_name c))) mine =
  List.filter (fun c => negb (col_in other (c_name c))) mine.
Proof.
  intros Hf. apply filter_ext_in. intros c Hc%list_elem_of_In. rewrite Hf.
  assert (col_in mine (c_name c) = true) as ->; [|done].
  apply col_in_spec. by apply list_elem_of_fmap_2.
Qed.

(** [Diff] is exact and symmetric: the columns missing in the source are
    the (lower-cased, deduplicated) destination columns that the source lacks
    and that the settings do not hide, in destination order, and those missing
    in the target are the same with the sides swapped. *)
Theorem Diff_spec src dst soft upd dbupd mode :
  let skip name := shouldSkipColumn name soft upd dbupd mode in
  Diff src dst soft upd dbupd mode =
    (diff_side skip (CloneColumns dst) (CloneColumns src),
     diff_side skip (CloneColumns src) (CloneColumns dst)).
Proof.
  cbv zeta. unfold Diff, diff_side.
  pose proof (CloneColumns_wf src) as Hs. pose proof (CloneColumns_wf dst) as Hd.
  pose proof (diff_deleted (CloneColumns src) (CloneColumns dst)) as Hdel. cbv zeta in Hdel.
  rewrite !delete_all_filter by (by destruct Hs, Hd).
  rewrite (filter_mine_other (CloneColumns src) (CloneColumns dst)) by done.
  rewrite (filter_mine_other (CloneColumns dst) (CloneColumns src))
    by (intros n; rewrite Hdel; apply andb_comm).
  rewrite !keep_unskipped_filter, !filter_filter_andb by (eapply sublist_wf; [apply filter_sublist | done]).
  done.
Qed.

(** * Invalid columns with details *)

(** An invalid column with details is treated two ways: a column whose destination type
    is unknown but that carries, say, a time's details is skipped when the
    staging table is created and when rows are updated, yet it is listed in
    the INSERT. *)
Theorem invalid_with_details_mismatch c n :
  c_KindDetails c = with_Time Invalid (Some n) -> c_name c <> DeleteColumnMarker ->
  ShouldSkip c = true /\ updated_column true c = false /\
  GetColumnsToUpdate (Some [c]) false None = [c_name c].
Proof.
  intros Hk Hn. unfold updated_column, ShouldSkip, GetColumnsToUpdate, kd_eqb; simpl. rewrite Hk. done.
Qed.

Lemma invalid_with_details_mismatch_witness :
  GetColumnsToUpdate (Some [NewColumn "at" (with_Time Invalid (Some (mkNested DateKindType PostgresDateFormat)))])
    false None = ["at"].
Proof.
  refine (proj2 (proj2 (invalid_with_details_mismatch
    (NewColumn "at" (with_Time Invalid (Some (mkNested DateKindType PostgresDateFormat))))
    (mkNested DateKindType PostgresDateFormat) _ _))); [reflexivity | discriminate].
Defined.
