(* ===== verification/CastValues.v ===== *)
(** Values on their way to a destination: [lib/typing/values],
    [lib/array.InterfaceToArrayString] and the casts of the destinations'
    clients. *)
From Stdlib Require Import SpecFloat.
From S2P Require Import Prelude GoLang Constants StringUtil Decimal Values Typing Columns.
Local Open Scope string_scope.
Local Open Scope list_scope.
Local Open Scope Z_scope.

(** * lib/typing/values *)

Definition BooleanToBit (val : bool) : Z := if val then 1 else 0.

(** [fmt.Sprintf("%.0f", f)]: rounded to the nearest integer, ties to even *)
Definition float_fixed0 (f : spec_float) : string :=
  match f with
  | S754_zero neg => if neg then "-0" else "0"
  | S754_infinity neg => if neg then "-Inf" else "+Inf"
  | S754_nan => "NaN"
  | S754_finite neg m e =>
      let n := if 0 <=? e then Zpos m * 2 ^ e else div_round_even (Zpos m) (2 ^ (- e)) in
      (if neg then "-" else EmptyString) +:+ itoa n
  end.

(** [reflect.ValueOf(v).Kind() == reflect.Slice], and [String] *)
Definition is_slice_value (v : value) : bool :=
  match v with
  | VBytes _ | VSlice _ | VStrings _ | VMaps _ | VBytesSlice _ => true
  | VOther is_slice _ _ => is_slice
  | _ => false
  end.
Definition is_map_value (v : value) : bool := match v with VMap _ => true | _ => false end.
Definition is_string_value (v : value) : bool := match v with VString _ => true | _ => false end.

(** The stand-in for a struct whose value is unavailable *)
Definition toast_struct : value := VMap [("key", VString ToastUnavailableValuePlaceholder)].

Section Cast.
Context `{GoStd}.

Definition marshal (v : value) : result string :=
  match json_Marshal v with Some s => Ok s | None => errorf "json: unsupported value" end.

Definition cast_time (additionalDateFmts : list string) (colVal : value) : result ExtendedTime :=
  wrap_err ("failed to cast colVal as time.Time, colVal: " +:+ Sprint colVal +:+ ", err: ") EmptyString
    (ParseFromInterface colVal additionalDateFmts).

(** A struct holding the placeholder anywhere becomes the stand-in. *)
Definition toast_value (colVal : value) : value :=
  if contains (Sprint colVal) ToastUnavailableValuePlaceholder then toast_struct else colVal.

Definition ToString (colVal : value) (colKind : Column) (additionalDateFmts : list string) : result string :=
  if is_nil colVal then errorf "colVal is nil"
  else
    match kd_Kind (c_KindDetails colKind) with
    | KETime =>
        extTime ← cast_time additionalDateFmts colVal;
        match kd_ExtendedTimeDetails (c_KindDetails colKind) with
        | None => errorf "column kind details for extended time details is null"
        | Some details =>
            Ok (if bool_decide (nk_Type details = TimeKindType) then ExtendedTime_String extTime PostgresTimeFormatNoTZ
                else ExtendedTime_String extTime (nk_Format details))
        end
    | KString =>
        if is_map_value colVal || is_slice_value colVal then marshal colVal
        else Ok (Wrap (Sprint colVal) true)
    | KStruct =>
        if kd_eqb (c_KindDetails colKind) Struct then
          let colVal := toast_value colVal in
          if is_string_value colVal then Ok (Sprint colVal) else marshal colVal
        else Ok (Sprint colVal)
    | KArray => marshal colVal
    | KInteger =>
        match colVal with
        | VFloat64 f | VFloat32 f => Ok (float_fixed0 f)
        | VBool b => Ok (itoa (BooleanToBit b))
        | _ => Ok (Sprint colVal)
        end
    | KEDecimal =>
        match colVal with
        | VFloat64 _ | VFloat32 _ => Ok (Sprint colVal)
        | VString s => Ok s
        | VDecimal d => Decimal_String float_shortest d
        | _ => errorf ("colVal is not *decimal.Decimal type, type is: " +:+ type_name colVal)
        end
    | _ => Ok (Sprint colVal)
    end.

(** * lib/array.InterfaceToArrayString *)

(** The elements of a slice; a slice of another Go type does not occur in rows. *)
Definition array_elements (v : value) : result (list string) :=
  match v with
  | VBytes b => Ok (map (fun x => Wrap (itoa x) true) b)
  | VSlice l => traverse marshal l
  | VStrings l => Ok (map (fun s => Wrap s true) l)
  | VMaps l => traverse (fun m => marshal (VMap m)) l
  | VBytesSlice l => Ok (map (fun b => Wrap (sprint_bytes b) true) l)
  | _ => errorf "wrong data type"
  end.

Definition InterfaceToArrayString (val : value) (recastAsArray : bool) : result (list string) :=
  if is_nil val then Ok []
  else if is_slice_value val then array_elements val
  else if recastAsArray then array_elements (VSlice [val])
  else errorf "wrong data type".

(** * clients/redshift/cast.go *)

Definition maxRedshiftLength : Z := 65535.

Definition replaceExceededValues (colVal : string) (colKind : Column) : string :=
  let structOrString := kind_is (c_KindDetails colKind) KStruct || kind_is (c_KindDetails colKind) KString in
  if structOrString && (maxRedshiftLength <? Z.of_nat (String.length colVal)) then
    if kind_is (c_KindDetails colKind) KStruct
    then "{" +:+ quote "key" +:+ ":" +:+ quote ExceededValueMarker +:+ "}"
    else ExceededValueMarker
  else colVal.

(** [\N], the NULL of the COPY command *)
Definition redshift_null : string := "\N".

Definition CastColValStaging (skipLgCols : bool) (colVal : value) (colKind : Column) (additionalDateFmts : list string)
  : result string :=
  if is_nil colVal then Ok (if kd_eqb (c_KindDetails colKind) Struct then EmptyString else redshift_null)
  else
    colValString ← ToString colVal colKind additionalDateFmts;
    Ok (if skipLgCols then replaceExceededValues colValString colKind else colValString).

(** * clients/snowflake/staging.go *)

(** [\\N], what NULL_IF names *)
Definition snowflake_null : string := "\\N".

Definition castColValStaging (colVal : value) (colKind : Column) (additionalDateFmts : list string) : result string :=
  if is_nil colVal then Ok snowflake_null else ToString colVal colKind additionalDateFmts.

(** * clients/mssql/values.go *)

(** A cell of a bulk copy: any value, or a [time.Time] *)
Inductive bulk_value := BulkValue (v : value) | BulkTime (t : gotime).

(** [strconv.ParseBool] *)
Definition ParseBool (s : string) : result bool :=
  if mem_string ["1"; "t"; "T"; "TRUE"; "true"; "True"] s then Ok true
  else if mem_string ["0"; "f"; "F"; "FALSE"; "false"; "False"] s then Ok false
  else errorf ("strconv.ParseBool: parsing " +:+ quote s +:+ ": invalid syntax").

Definition ParseFloat (s : string) : result value :=
  match parse_Float s with
  | Some f => Ok (VFloat64 f)
  | None => errorf ("strconv.ParseFloat: parsing " +:+ quote s)
  end.

Definition bound_text (precision : option Z) (s : string) : string :=
  match precision with
  | Some p => if p <? Z.of_nat (String.length s) then ExceededValueMarker else s
  | None => s
  end.

Definition parseValue (colVal : value) (colKind : Column) (additionalDateFmts : list string) : result bulk_value :=
  if is_nil colVal then Ok (BulkValue VNil)
  else
    let colVal := match colVal with VBool b => VInt KInt (BooleanToBit b) | _ => colVal end in
    let colValString := Sprint colVal in
    match kd_Kind (c_KindDetails colKind) with
    | KETime => BulkTime ∘ et_Time <$> cast_time additionalDateFmts colVal
    | KString =>
        s ← (if is_map_value colVal || is_slice_value colVal then marshal colVal else Ok colValString);
        Ok (BulkValue (VString (bound_text (kd_OptionalStringPrecision (c_KindDetails colKind)) s)))
    | KStruct =>
        if kd_eqb (c_KindDetails colKind) Struct then
          let colVal := toast_value colVal in
          if is_string_value colVal then Ok (BulkValue (VString colValString))
          else s ← marshal colVal; Ok (BulkValue (VString s))
        else Ok (BulkValue (VString colValString))
    | KArray => s ← marshal colVal; Ok (BulkValue (VString s))
    | KInteger =>
        if is_string_value colVal then (fun z => BulkValue (VInt KInt z)) <$> atoi colValString
        else Ok (BulkValue colVal)
    | KFloat =>
        if is_string_value colVal then BulkValue <$> ParseFloat colValString else Ok (BulkValue colVal)
    | KBoolean => (fun b => BulkValue (VBool b)) <$> ParseBool colValString
    | KEDecimal =>
        match colVal with
        | VDecimal d => (fun s => BulkValue (VString s)) <$> Decimal_String float_shortest d
        | VFloat64 _ | VFloat32 _ | VString _ => Ok (BulkValue colVal)
        | _ => errorf ("colVal is not *decimal.Decimal type, type is: " +:+ type_name colVal)
        end
    | _ => Ok (BulkValue (VString colValString))
    end.

(** * clients/bigquery/cast.go *)

Definition StreamingTimeFormat : string := "15:04:05".

(** Dates of year 0 are sent as NULL. *)
Definition bigquery_time (extTime : ExtendedTime) (details : NestedKind) (colVal : value) : value :=
  match nk_Type details with
  | DateTimeKindType =>
      if time_Year (et_Time extTime) =? 0 then VNil else VString (ExtendedTime_StringUTC extTime BigQueryDateTimeFormat)
  | DateKindType =>
      if time_Year (et_Time extTime) =? 0 then VNil else VString (ExtendedTime_String extTime PostgresDateFormat)
  | TimeKindType => VString (ExtendedTime_String extTime StreamingTimeFormat)
  | NoTimeKind => VString (Sprint colVal)
  end.

Definition castColVal (colVal : value) (colKind : Column) (additionalDateFmts : list string) : result value :=
  if is_nil colVal then Ok VNil
  else
    match kd_Kind (c_KindDetails colKind) with
    | KEDecimal =>
        match colVal with
        | VDecimal d => Decimal_Value d
        | _ => errorf "colVal is not type *decimal.Decimal"
        end
    | KETime =>
        extTime ← cast_time additionalDateFmts colVal;
        match kd_ExtendedTimeDetails (c_KindDetails colKind) with
        | None => errorf "column kind details for extended time details is null"
        | Some details => Ok (bigquery_time extTime details colVal)
        end
    | KStruct =>
        if kd_eqb (c_KindDetails colKind) Struct && contains (Sprint colVal) ToastUnavailableValuePlaceholder
        then Ok (VString ("{" +:+ quote "key" +:+ ":" +:+ quote ToastUnavailableValuePlaceholder +:+ "}"))
        else Ok (VString (Sprint colVal))
    | KArray =>
        arrayString ← InterfaceToArrayString colVal true;
        Ok (if bool_decide (arrayString = []) then VNil else VStrings arrayString)
    | _ => Ok (VString (Sprint colVal))
    end.

(** * lib/parquetutil/parse_values.go *)

Definition parquet_ParseValue (colVal : value) (colKind : Column) (additionalDateFmts : list string) : result value :=
  if is_nil colVal then Ok VNil
  else
    match kd_Kind (c_KindDetails colKind) with
    | KETime =>
        extTime ← cast_time additionalDateFmts colVal;
        match kd_ExtendedTimeDetails (c_KindDetails colKind) with
        | None => errorf "column kind details for extended time details is null"
        | Some details =>
            Ok (match nk_Type details with
                | DateKindType | TimeKindType => VString (time_Format (et_Time extTime) (nk_Format details))
                | _ => VInt KInt64 (wrap64 (t_ns (et_Time extTime) / Millisecond))
                end)
        end
    | KStruct =>
        if kd_eqb (c_KindDetails colKind) Struct then
          let colVal := toast_value colVal in
          if is_string_value colVal then Ok colVal else VString <$> marshal colVal
        else Ok colVal
    | KArray =>
        arrayString ← InterfaceToArrayString colVal true;
        Ok (if bool_decide (arrayString = []) then VNil else VStrings arrayString)
    | KEDecimal =>
        match colVal with
        | VDecimal d => VString <$> Decimal_String float_shortest d
        | _ => errorf "colVal is not *decimal.Decimal type"
        end
    | _ => Ok colVal
    end.
End Cast.

(** * Bounds *)

Section Bounds.
Context `{GoStd}.

(** With large columns skipped, no text or structure staged for Redshift is
    longer than a Redshift column holds. *)
Theorem CastColValStaging_bound colVal colKind fmts s :
  kind_is (c_KindDetails colKind) KString || kind_is (c_KindDetails colKind) KStruct = true ->
  CastColValStaging true colVal colKind fmts = Ok s -> Z.of_nat (String.length s) <= maxRedshiftLength.
Proof.
  intros Hk. unfold CastColValStaging. destruct (is_nil colVal).
  - destruct (kd_eqb _ _); intros [= <-]; vm_compute; discriminate.
  - destruct (ToString colVal colKind fmts) as [t|e|w]; intros [= <-].
    unfold replaceExceededValues. rewrite orb_comm, Hk. cbn [andb].
    destruct (Z.ltb_spec maxRedshiftLength (Z.of_nat (String.length t))); [|lia].
    destruct (kind_is _ KStruct); vm_compute; discriminate.
Qed.
End Bounds.

Lemma CastColValStaging_bound_witness :
  Z.of_nat (String.length "hello") <= maxRedshiftLength.
Proof.
  apply (CastColValStaging_bound (H := plain_std) (VString "hello") (NewColumn "note" String_) []); reflexivity.
Defined.

(** The marker that replaces a too long text is itself 22 bytes long, and
    nothing shortens it: the text sent to SQL Server fits the precision of its
    column exactly when the value fits, or the precision is at least 22. *)
Theorem bound_text_fits p s :
  Z.of_nat (String.length (bound_text (Some p) s)) <= p <-> Z.of_nat (String.length s) <= p \/ 22 <= p.
Proof.
  unfold bound_text. destruct (Z.ltb_spec p (Z.of_nat (String.length s))); [|lia].
  change (Z.of_nat (String.length ExceededValueMarker)) with 22. lia.
Qed.
