(* ===== verification/Csv.v ===== *)
(** The files Snowflake and Redshift load: [encoding/csv]'s writer with a tab as
    the separator, as the clients use it, and a reader of the format, against
    which the writer is proved. *)
From S2P Require Import Prelude GoLang.
Local Open Scope string_scope.
Local Open Scope list_scope.

Definition tab : ascii := "009".
Definition lf : ascii := "010".
Definition cr : ascii := "013".
Definition quote_char : ascii := "034".

(** * The writer *)

(** [unicode.IsSpace] of the first rune, from its UTF-8 bytes *)
Definition leading_space (s : string) : bool :=
  match s with
  | String a (String b rest) =>
      is_space a ||
      (Ascii.eqb a "194" && (Ascii.eqb b "133" || Ascii.eqb b "160")) ||
      match rest with
      | String c _ =>
          (Ascii.eqb a "225" && Ascii.eqb b "154" && Ascii.eqb c "128") ||
          (Ascii.eqb a "226" && Ascii.eqb b "128" &&
             ((Ascii.leb "128" c && Ascii.leb c "138") || Ascii.eqb c "168" || Ascii.eqb c "169" || Ascii.eqb c "175")) ||
          (Ascii.eqb a "226" && Ascii.eqb b "129" && Ascii.eqb c "159") ||
          (Ascii.eqb a "227" && Ascii.eqb b "128" && Ascii.eqb c "128")
      | EmptyString => false
      end
  | String a EmptyString => is_space a
  | EmptyString => false
  end.

(** A byte that makes the writer quote the field *)
Definition special (c : ascii) : bool :=
  Ascii.eqb c lf || Ascii.eqb c cr || Ascii.eqb c quote_char || Ascii.eqb c tab.

Fixpoint has_special (s : string) : bool :=
  match s with EmptyString => false | String c s' => special c || has_special s' end.

Definition fieldNeedsQuotes (field : string) : bool :=
  if String.eqb field EmptyString then false
  else if String.eqb field "\." then true
  else has_special field || leading_space field.

Definition csv_field (field : string) : string :=
  if fieldNeedsQuotes field then dquote +:+ replace_all field quote_char (dquote +:+ dquote) +:+ dquote else field.

Definition csv_record (record : list string) : string := join (str1 tab) (map csv_field record) +:+ str1 lf.
Definition csv_text (records : list (list string)) : string :=
  foldr (fun r s => csv_record r +:+ s) EmptyString records.

(** * A reader *)

Inductive csv_state := FieldStart | Plain | Quoted | QuoteSeen.

(** [cur]: the field so far; [rec]: the fields of the record so far *)
Fixpoint csv_read (st : csv_state) (cur : string) (rec : list string) (s : string) : option (list (list string)) :=
  match s with
  | EmptyString => match st, rec with FieldStart, [] => Some [] | _, _ => None end
  | String c s' =>
      let next_field := csv_read FieldStart EmptyString (rec ++ [cur]) s' in
      let next_record := cons (rec ++ [cur]) <$> csv_read FieldStart EmptyString [] s' in
      match st with
      | Quoted =>
          if Ascii.eqb c quote_char then csv_read QuoteSeen cur rec s' else csv_read Quoted (cur +:+ str1 c) rec s'
      | _ =>
          if Ascii.eqb c tab then next_field
          else if Ascii.eqb c lf then next_record
          else if Ascii.eqb c quote_char then
            match st with
            | FieldStart => csv_read Quoted cur rec s'
            | QuoteSeen => csv_read Quoted (cur +:+ dquote) rec s'
            | _ => None
            end
          else match st with
               | QuoteSeen => None
               | _ => csv_read Plain (cur +:+ str1 c) rec s'
               end
      end
  end.

Definition csv_parse (s : string) : option (list (list string)) := csv_read FieldStart EmptyString [] s.

(** * Round trip *)

Lemma csv_read_plain t cur rec s :
  has_special t = false -> csv_read Plain cur rec (t +:+ s) = csv_read Plain (cur +:+ t) rec s.
Proof.
  revert cur. induction t as [|c t IH]; intros cur Ht; [by rewrite string_app_nil_r|].
  cbn [has_special] in Ht. apply orb_false_iff in Ht as [Hc Ht]. unfold special in Hc.
  apply orb_false_iff in Hc as [Hc Htab]. apply orb_false_iff in Hc as [Hc Hq]. apply orb_false_iff in Hc as [Hlf _].
  cbn [csv_read String.append]. rewrite Htab, Hlf, Hq, IH by done.
  by rewrite <- string_app_assoc.
Qed.

Lemma csv_read_quoted t cur rec s :
  csv_read Quoted cur rec (replace_all t quote_char (dquote +:+ dquote) +:+ s) = csv_read Quoted (cur +:+ t) rec s.
Proof.
  revert cur. induction t as [|c t IH]; intros cur; [by rewrite string_app_nil_r|].
  cbn [replace_all]. destruct (Ascii.eqb c quote_char) eqn:Hc.
  - apply Ascii.eqb_eq in Hc as ->. rewrite <- string_app_assoc. cbn. rewrite IH.
    by rewrite <- string_app_assoc.
  - cbn [csv_read String.append]. rewrite Hc, IH. by rewrite <- string_app_assoc.
Qed.

(** What follows a complete field *)
Definition csv_close (cur : string) (rec : list string) (s : string) : option (list (list string)) :=
  match s with
  | EmptyString => None
  | String c s' =>
      if Ascii.eqb c tab then csv_read FieldStart EmptyString (rec ++ [cur]) s'
      else if Ascii.eqb c lf then cons (rec ++ [cur]) <$> csv_read FieldStart EmptyString [] s'
      else None
  end.

Lemma csv_read_field f c rec s :
  c = tab \/ c = lf ->
  csv_read FieldStart EmptyString rec (csv_field f +:+ String c s) = csv_close f rec (String c s).
Proof.
  intros Hc. unfold csv_field, fieldNeedsQuotes. destruct (String.eqb_spec f EmptyString) as [->|Hne].
  { by destruct Hc as [-> | ->]. }
  destruct (if String.eqb f "\." then true else _) eqn:Hq.
  - change (csv_read FieldStart EmptyString rec
      ((dquote +:+ replace_all f quote_char (dquote +:+ dquote) +:+ dquote) +:+ String c s)) with
      (csv_read Quoted EmptyString rec ((replace_all f quote_char (dquote +:+ dquote) +:+ dquote) +:+ String c s)).
    rewrite <- string_app_assoc, csv_read_quoted. by destruct Hc as [-> | ->].
  - assert (Hs : has_special f = false) by (revert Hq; destruct (String.eqb f "\."); [done|]; by intros [? _]%orb_false_iff).
    destruct f as [|d f]; [done|]. clear Hq Hne. cbn [has_special] in Hs.
    apply orb_false_iff in Hs as [Hd Hs]. unfold special in Hd.
    apply orb_false_iff in Hd as [Hd Htab]. apply orb_false_iff in Hd as [Hd Hq]. apply orb_false_iff in Hd as [Hlf _].
    cbn [csv_read String.append]. rewrite Htab, Hlf, Hq, csv_read_plain by done.
    by destruct Hc as [-> | ->].
Qed.

Lemma csv_read_record record rec s :
  record <> [] ->
  csv_read FieldStart EmptyString rec (csv_record record +:+ s) =
  cons (rec ++ record) <$> csv_read FieldStart EmptyString [] s.
Proof.
  intros Hne. destruct record as [|f record]; [done|]. clear Hne. unfold csv_record.
  revert f rec. induction record as [|g record IH]; intros f rec.
  - cbn [map join]. rewrite <- string_app_assoc. cbn [String.append str1].
    rewrite csv_read_field by (by right). reflexivity.
  - change (join (str1 tab) (map csv_field (f :: g :: record))) with
      (csv_field f +:+ String tab (join (str1 tab) (map csv_field (g :: record)))).
    rewrite <- !string_app_assoc. cbn [String.append].
    rewrite csv_read_field by (by left). cbn [csv_close]. rewrite Ascii.eqb_refl.
    specialize (IH g (rec ++ [f])). rewrite <- string_app_assoc in IH. rewrite IH.
    by rewrite <- app_assoc.
Qed.

Lemma csv_parse_text records :
  Forall (fun r => r <> []) records -> csv_parse (csv_text records) = Some records.
Proof.
  unfold csv_parse. induction 1 as [|r records Hr _ IH]; [done|]. cbn [csv_text foldr].
  rewrite csv_read_record by done. cbn [app]. unfold csv_text in IH. by rewrite IH.
Qed.
