(* ===== verification/Parquet.v ===== *)
(** Parquet schemas for S3: [lib/typing/parquet.go] and
    [lib/parquetutil/generate_schema.go]. *)
From S2P Require Import Prelude GoLang Constants StringUtil Decimal Values Typing Columns.
Local Open Scope string_scope.
Local Open Scope list_scope.

Record FieldTag := mkFieldTag {
  ft_Name : string;
  ft_InName : option string;
  ft_Type : option string;
  ft_ConvertedType : option string;
  ft_ValueConvertedType : option string;
  ft_RepetitionType : option string;
  ft_Scale : option Z;
  ft_Precision : option Z;
  ft_Length : option Z
}.

Definition tag_part (label : string) (o : option string) : list string :=
  match o with Some s => [label +:+ "=" +:+ s] | None => [] end.

Definition FieldTag_String (f : FieldTag) : string :=
  join ", "
    (["name=" +:+ ft_Name f] ++ tag_part "inname" (ft_InName f) ++ tag_part "type" (ft_Type f) ++
     tag_part "convertedtype" (ft_ConvertedType f) ++ tag_part "valueconvertedtype" (ft_ValueConvertedType f) ++
     ["repetitiontype=" +:+ default "OPTIONAL" (ft_RepetitionType f)] ++
     tag_part "scale" (itoa <$> ft_Scale f) ++ tag_part "precision" (itoa <$> ft_Precision f) ++
     tag_part "length" (itoa <$> ft_Length f)).

(** [typing.Field]: a tag and the fields below it *)
Inductive ParquetField := mkParquetField (tag : string) (fields : list ParquetField).

Definition leaf (colName type : string) (convertedType : option string) (scale precision : option Z) : ParquetField :=
  mkParquetField
    (FieldTag_String (mkFieldTag colName (Some colName) (Some type) convertedType None None scale precision None)) [].

(** [ParquetAnnotation]: no field for a kind without one; a decimal without its
    details is a nil pointer. *)
Definition ParquetAnnotation (k : KindDetails) (colName : string) : result (option ParquetField) :=
  let stringKind :=
    match kd_ExtendedTimeDetails k with
    | Some t => bool_decide (nk_Type t = DateKindType) || bool_decide (nk_Type t = TimeKindType)
    | None => false
    end in
  if kind_is k KString || kind_is k KStruct || stringKind then
    Ok (Some (leaf colName "BYTE_ARRAY" (Some "UTF8") None None))
  else
    match kd_Kind k with
    | KFloat => Ok (Some (leaf colName "FLOAT" None None None))
    | KInteger | KETime => Ok (Some (leaf colName "INT64" None None None))
    | KEDecimal =>
        match kd_ExtendedDecimalDetails k with
        | None => Panic "nil ExtendedDecimalDetails"
        | Some d =>
            match d_precision d with
            | Some p =>
                if (p =? -1)%Z then Ok (Some (leaf colName "BYTE_ARRAY" (Some "UTF8") None None))
                else Ok (Some (leaf colName "BYTE_ARRAY" (Some "DECIMAL") (Some (d_scale d)) (Some p)))
            | None => Ok (Some (leaf colName "BYTE_ARRAY" (Some "UTF8") None None))
            end
        end
    | KBoolean => Ok (Some (leaf colName "BOOLEAN" None None None))
    | KArray =>
        Ok (Some (mkParquetField
          (FieldTag_String (mkFieldTag colName (Some colName) (Some "LIST") None None (Some "REQUIRED") None None None))
          [mkParquetField
             (FieldTag_String (mkFieldTag "element" None (Some "BYTE_ARRAY") (Some "UTF8") None (Some "REQUIRED")
                                 None None None)) []]))
    | _ => Ok None
    end.

Section Schema.
Context `{GoStd}.

(** [json.Marshal] of a [Field]: the two keys in order, [Fields] when not empty *)
Fixpoint marshal_field (f : ParquetField) : result string :=
  match f with
  | mkParquetField tag fields =>
      t ← match json_Marshal (VString tag) with Some s => Ok s | None => errorf "json: unsupported value" end;
      fs ← (fix go l := match l with
                        | [] => Ok []
                        | x :: l' => s ← marshal_field x; ss ← go l'; Ok (s :: ss)
                        end) fields;
      Ok ("{" +:+ quote "Tag" +:+ ":" +:+ t +:+
          (if bool_decide (fields = []) then EmptyString
           else "," +:+ quote "Fields" +:+ ":[" +:+ join "," fs +:+ "]") +:+ "}")
  end.

(** The annotation of each column; a column without one is a nil pointer. *)
Definition column_field (c : Column) : result ParquetField :=
  f ← ParquetAnnotation (c_KindDetails c) (RawName c);
  match f with Some f => Ok f | None => Panic "nil *typing.Field" end.

Definition GenerateJSONSchema (cols : list Column) : result string :=
  fields ← traverse column_field cols;
  marshal_field (mkParquetField
    (FieldTag_String (mkFieldTag "parquet-go-root" None None None None (Some "REQUIRED") None None None)) fields).
End Schema.

(** * Which columns have a schema *)

(** A column Parquet can store: a known kind, and decimals with their details *)
Definition parquet_ready (c : Column) : bool :=
  let k := c_KindDetails c in
  let string_time := match kd_ExtendedTimeDetails k with
                     | Some t => bool_decide (nk_Type t = DateKindType) || bool_decide (nk_Type t = TimeKindType)
                     | None => false
                     end in
  string_time ||
  match kd_Kind k with
  | KInvalid | KZero => false
  | KEDecimal => match kd_ExtendedDecimalDetails k with Some _ => true | None => false end
  | _ => true
  end.

Lemma column_field_spec c :
  if parquet_ready c then exists f, column_field c = Ok f else exists w, column_field c = Panic w.
Proof.
  unfold parquet_ready, column_field, ParquetAnnotation, kind_is.
  destruct (match kd_ExtendedTimeDetails (c_KindDetails c) with Some t => _ | None => false end).
  { rewrite orb_true_r. simpl. by eexists. }
  simpl. destruct (kd_Kind (c_KindDetails c)) eqn:Hk; simpl; try by eexists.
  destruct (kd_ExtendedDecimalDetails (c_KindDetails c)) as [d|]; simpl; [|by eexists].
  destruct (d_precision d) as [p|]; [destruct (p =? -1)%Z|]; by eexists.
Qed.

Lemma column_fields_spec cols :
  if forallb parquet_ready cols then exists fs, traverse column_field cols = Ok fs
  else exists w, traverse column_field cols = Panic w.
Proof.
  induction cols as [|c cols IH]; simpl; [by eexists|].
  pose proof (column_field_spec c) as Hc. destruct (parquet_ready c); simpl.
  - destruct Hc as [f ->]. simpl. destruct (forallb parquet_ready cols).
    + destruct IH as [fs ->]. by eexists.
    + destruct IH as [w ->]. by eexists.
  - destruct Hc as [w ->]. by eexists.
Qed.

Section SchemaFacts.
Context `{GoStd}.
(** [json.Marshal] never fails on a string. *)
Hypothesis marshal_string : forall s, is_Some (json_Marshal (VString s)).

Lemma marshal_field_ok f : exists s, marshal_field f = Ok s.
Proof.
  revert f. fix IH 1. intros [tag fields]. cbn [marshal_field].
  destruct (marshal_string tag) as [t ->]. cbn [mbind result_bind].
  assert (Hfs : exists fs, (fix go l := match l with
                        | [] => Ok []
                        | x :: l' => s ← marshal_field x; ss ← go l'; Ok (s :: ss)
                        end) fields = Ok fs).
  { induction fields as [|x l IHl]; [by eexists|]. destruct (IH x) as [s ->], IHl as [ss ->]. by eexists. }
  destruct Hfs as [fs ->]. by eexists.
Qed.

(** The Parquet schema of a table is generated exactly when every column can
    be stored: it never fails with an error, and it panics precisely when a
    column has an unknown kind (without the details of a date or time) or is
    a decimal without its details. *)
Theorem GenerateJSONSchema_total cols :
  if forallb parquet_ready cols then exists schema, GenerateJSONSchema cols = Ok schema
  else exists w, GenerateJSONSchema cols = Panic w.
Proof.
  unfold GenerateJSONSchema. pose proof (column_fields_spec cols) as Hc.
  destruct (forallb parquet_ready cols); destruct Hc as [x ->]; [apply marshal_field_ok | by eexists].
Qed.
End SchemaFacts.

(** [plain_std] with an encoder that prints strings in quotes *)
Definition quoting_std : GoStd := {|
  time_Parse := fun _ _ => None;
  time_Format := fun t _ => itoa (t_ns t);
  json_Valid := fun _ => false;
  json_Unmarshal := fun _ => None;
  json_Marshal := fun v => match v with VString s => Some (quote s) | _ => None end;
  base64_Decode := fun _ => None;
  base64_Encode := fun b => join "," (map itoa b);
  sprint_float := fun _ => "float";
  sprint_time := fun t => itoa (t_ns (et_Time t));
  float_shortest := fun f => itoa (bf_mant f);
  parse_Float := fun _ => None;
  float_Overflow := fun _ => min_int64
|}.

Lemma GenerateJSONSchema_total_witness :
  let _ := quoting_std in
  exists schema, GenerateJSONSchema [NewColumn "id" Integer; NewColumn "tags" Array] = Ok schema.
Proof.
  exact (GenerateJSONSchema_total (H := quoting_std) (fun s => mk_is_Some _ _ eq_refl)
           [NewColumn "id" Integer; NewColumn "tags" Array]).
Defined.
