(* ===== verification/Kafkalib.v ===== *)
(** Topics and messages: [lib/kafkalib] (topic configuration, the operations it
    skips, BigQuery partition settings) and [lib/artie] (a message of either
    queue). *)
From S2P Require Import Prelude GoLang Constants StringUtil Values.
Local Open Scope string_scope.
Local Open Scope list_scope.

(** * lib/kafkalib/partition *)

Record BigQuerySettings := mkBigQuerySettings {
  PartitionType : string;
  PartitionField : string;
  PartitionBy : string
}.

Definition ValidPartitionTypes : list string := ["time"].
Definition ValidPartitionBy : list string := ["daily"].

Definition BigQuerySettings_Valid (b : option BigQuerySettings) : result unit :=
  match b with
  | None => errorf "bigQuerySettings is nil"
  | Some b =>
      if String.eqb (PartitionType b) EmptyString then errorf "partitionTypes cannot be empty"
      else if String.eqb (PartitionField b) EmptyString then errorf "partitionField cannot be empty"
      else if String.eqb (PartitionBy b) EmptyString then errorf "partitionBy cannot be empty"
      else if negb (mem_string ValidPartitionTypes (PartitionType b))
      then errorf ("partitionType must be one of: [" +:+ join " " ValidPartitionTypes +:+ "]")
      else if negb (mem_string ValidPartitionBy (PartitionBy b))
      then errorf ("partitionBy must be one of: [" +:+ join " " ValidPartitionBy +:+ "]")
      else Ok tt
  end.

(** The text of the last error reads the fields of a pointer [Valid] accepted. *)
Definition GenerateMergeString (b : option BigQuerySettings) (values : list string) : result string :=
  wrap_err "failed to validate bigQuerySettings: " EmptyString (BigQuerySettings_Valid b) ;;
  if bool_decide (values = []) then errorf "values cannot be empty"
  else match b with
       | None => Panic "nil pointer dereference"
       | Some b =>
           if String.eqb (PartitionType b) "time" && String.eqb (PartitionBy b) "daily" then
             Ok ("DATE(c." +:+ PartitionField b +:+ ") IN ("
                   +:+ StringsJoinAddSingleQuotes values +:+ ")")
           else errorf ("unexpected partitionType: " +:+ PartitionType b
                          +:+ " and/or partitionBy: " +:+ PartitionBy b)
       end.

(** * lib/kafkalib/topic.go *)

Record TopicConfig := mkTopicConfig {
  tc_Database : string;
  tc_TableName : string;
  tc_Schema : string;
  tc_Topic : string;
  tc_IdempotentKey : string;
  tc_CDCFormat : string;
  tc_CDCKeyFormat : string;
  tc_DropDeletedColumns : bool;
  tc_SoftDelete : bool;
  tc_SkippedOperations : string;
  tc_IncludeArtieUpdatedAt : bool;
  tc_IncludeDatabaseUpdatedAt : bool;
  tc_BigQueryPartitionSettings : option BigQuerySettings;
  (** nil until [Load] is called *)
  tc_opsToSkipMap : option (gset string)
}.

Definition StringKeyFmt : string := "org.apache.kafka.connect.storage.StringConverter".
Definition JSONKeyFmt : string := "org.apache.kafka.connect.json.JsonConverter".
Definition validKeyFormats : list string := [StringKeyFmt; JSONKeyFmt].

Definition set_opsToSkipMap (m : option (gset string)) (t : TopicConfig) : TopicConfig :=
  mkTopicConfig (tc_Database t) (tc_TableName t) (tc_Schema t) (tc_Topic t) (tc_IdempotentKey t)
    (tc_CDCFormat t) (tc_CDCKeyFormat t) (tc_DropDeletedColumns t) (tc_SoftDelete t)
    (tc_SkippedOperations t) (tc_IncludeArtieUpdatedAt t) (tc_IncludeDatabaseUpdatedAt t)
    (tc_BigQueryPartitionSettings t) m.

(** The operations a comma-separated list names. *)
Definition skipped_operations (s : string) : list string :=
  map (fun op => to_lower (trim_space op)) (split_on "," s).

Definition TopicConfig_Load (t : TopicConfig) : TopicConfig :=
  set_opsToSkipMap (Some (list_to_set (skipped_operations (tc_SkippedOperations t)))) t.

Definition TopicConfig_ShouldSkip (t : TopicConfig) (op : string) : result bool :=
  match tc_opsToSkipMap t with
  | None => Panic "opsToSkipMap is nil, Load() was never called"
  | Some m => Ok (bool_decide (op ∈ m))
  end.

Definition bool_text (b : bool) : string := if b then "true" else "false".

Definition TopicConfig_String (t : TopicConfig) : string :=
  "db=" +:+ tc_Database t +:+ ", schema=" +:+ tc_Schema t +:+ ", tableNameOverride="
    +:+ tc_TableName t +:+ ", topic=" +:+ tc_Topic t +:+ ", idempotentKey=" +:+ tc_IdempotentKey t
    +:+ ", cdcFormat=" +:+ tc_CDCFormat t +:+ ", dropDeletedColumns="
    +:+ bool_text (tc_DropDeletedColumns t) +:+ ", skippedOperations=" +:+ tc_SkippedOperations t.

Definition TopicConfig_Validate (t : TopicConfig) : result unit :=
  if array_Empty [tc_Database t; tc_Schema t; tc_Topic t; tc_CDCFormat t]
  then errorf "database, schema, topic or cdc format is empty"
  else if negb (mem_string validKeyFormats (tc_CDCKeyFormat t))
  then errorf ("invalid cdc key format: " +:+ tc_CDCKeyFormat t)
  else match tc_opsToSkipMap t with
       | None => errorf "opsToSkipMap is nil, call Load() first"
       | Some _ => Ok tt
       end.

(** [GetUniqueDatabaseAndSchema]: the map from keys to pairs, whose values the
    code returns in no particular order. *)
Definition database_schema_map (tcs : list TopicConfig) : gmap string (string * string) :=
  foldl (fun dbMap tc =>
           <[tc_Database tc +:+ "###" +:+ tc_Schema tc := (tc_Database tc, tc_Schema tc)]> dbMap)
        ∅ tcs.
Definition GetUniqueDatabaseAndSchema (tcs : list TopicConfig) (pairs : list (string * string)) : Prop :=
  pairs ≡ₚ map snd (map_to_list (database_schema_map tcs)).

(** * lib/artie/message.go *)

Inductive MessageKind := MKInvalid | MKKafka | MKPubSub.

#[export] Instance MessageKind_eq_dec : EqDecision MessageKind.
Proof. solve_decision. Defined.

(** The fields of [kafka.Message] the code reads. *)
Record KafkaMessage := mkKafkaMessage {
  km_Topic : string;
  km_Partition : Z;
  km_Offset : Z;
  km_HighWaterMark : Z;
  km_Key : list Z;
  km_Value : list Z;
  km_Time : gotime
}.

(** [pubsub.Message], and the wrapper that adds the topic. *)
Record PubSubMessage := mkPubSubMessage {
  pm_OrderingKey : list Z;
  pm_Data : list Z;
  pm_PublishTime : gotime
}.
Record pubsubWrapper := mkPubsubWrapper { pw_topic : string; pw_Message : PubSubMessage }.

Record Message := mkMessage { KafkaMsg : option KafkaMessage; PubSubMsg : option pubsubWrapper }.

Definition NewMessage (kafkaMsg : option KafkaMessage) (pubsubMsg : option PubSubMessage) (topic : string)
  : Message :=
  mkMessage kafkaMsg (mkPubsubWrapper topic <$> pubsubMsg).

Definition Message_Kind (m : Message) : MessageKind :=
  match KafkaMsg m, PubSubMsg m with
  | Some _, _ => MKKafka
  | None, Some _ => MKPubSub
  | None, None => MKInvalid
  end.

(** January 1, year 1 UTC, in nanoseconds since the epoch *)
Definition zero_time : gotime := mkTime (-62135596800 * Second) 0.

Definition PublishTime (m : Message) : gotime :=
  match KafkaMsg m, PubSubMsg m with
  | Some k, _ => km_Time k
  | None, Some p => pm_PublishTime (pw_Message p)
  | None, None => zero_time
  end.

Definition Message_Topic (m : Message) : string :=
  match KafkaMsg m, PubSubMsg m with
  | Some k, _ => km_Topic k
  | None, Some p => pw_topic p
  | None, None => EmptyString
  end.

Definition Message_Partition (m : Message) : string :=
  match KafkaMsg m, PubSubMsg m with
  | Some k, _ => itoa (km_Partition k)
  | None, Some _ => "no_partition"
  | None, None => EmptyString
  end.

Definition Message_Key (m : Message) : list Z :=
  match KafkaMsg m, PubSubMsg m with
  | Some k, _ => km_Key k
  | None, Some p => pm_OrderingKey (pw_Message p)
  | None, None => []
  end.

Definition Message_Value (m : Message) : list Z :=
  match KafkaMsg m, PubSubMsg m with
  | Some k, _ => km_Value k
  | None, Some p => pm_Data (pw_Message p)
  | None, None => []
  end.

(** The value [EmitRowLag] reports, where it reports one. *)
Definition row_lag (m : Message) : option Z :=
  (fun k => wrap64 (km_HighWaterMark k - km_Offset k)) <$> KafkaMsg m.

(** * Lemmas *)

Lemma TopicConfig_Load_idem t : TopicConfig_Load (TopicConfig_Load t) = TopicConfig_Load t.
Proof. by destruct t. Qed.

Lemma ShouldSkip_loaded t op :
  TopicConfig_ShouldSkip (TopicConfig_Load t) op =
  Ok (mem_string (skipped_operations (tc_SkippedOperations t)) op).
Proof.
  unfold TopicConfig_ShouldSkip, TopicConfig_Load; simpl. f_equal.
  apply eq_bool_prop_intro. rewrite bool_decide_spec, elem_of_list_to_set.
  generalize (skipped_operations (tc_SkippedOperations t)) as l. intros l.
  unfold mem_string.
  induction l as [|x l IH]; simpl.
  - split; [intros H; by apply not_elem_of_nil in H | done].
  - rewrite elem_of_cons, IH. destruct (String.eqb_spec op x); simpl; naive_solver.
Qed.
