(* ===== verification/Config.v ===== *)
(** Configuration: [lib/config].  The file system, the YAML package
    and the parser of the flags are parameters; the model has what the code does
    with what they return: the defaults of [readFileToConfig], the validation,
    and the order in which [LoadSettings] applies them.  A topic configuration in the list is never a nil pointer. *)
From S2P Require Import Prelude GoLang Constants StringUtil Values Typing Kafkalib.
Local Open Scope string_scope.
Local Open Scope list_scope.
Local Open Scope Z_scope.

Definition defaultFlushTimeSeconds : Z := 10.
Definition defaultFlushSizeKb : Z := 25 * 1024.
Definition defaultBufferPoolSize : Z := 30000.
Definition bufferPoolSizeMin : Z := 5.
Definition FlushIntervalSecondsMin : Z := 5.
Definition FlushIntervalSecondsMax : Z := 6 * 60 * 60.

Record PubsubConfig := mkPubsubConfig {
  ps_ProjectID : string;
  ps_TopicConfigs : list TopicConfig;
  ps_PathToCredentials : string
}.

Record KafkaConfig := mkKafkaConfig {
  k_BootstrapServer : string;
  k_GroupID : string;
  k_Username : string;
  k_Password : string;
  k_EnableAWSMSKIAM : bool;
  k_TopicConfigs : list TopicConfig
}.

Record S3Settings := mkS3Settings {
  s3_OptionalPrefix : string;
  s3_Bucket : string;
  s3_AwsAccessKeyID : string;
  s3_AwsSecretAccessKey : string;
  s3_OutputFormat : string
}.

Record RedshiftConfig := mkRedshiftConfig {
  rs_Host : string;
  rs_Port : Z;
  rs_Database : string;
  rs_Username : string;
  rs_Password : string;
  rs_Bucket : string;
  rs_OptionalS3Prefix : string;
  rs_CredentialsClause : string;
  rs_SkipLgCols : bool
}.

Record MSSQLConfig := mkMSSQLConfig {
  ms_Host : string;
  ms_Port : Z;
  ms_Username : string;
  ms_Password : string;
  ms_Database : string
}.

Record BigQueryConfig := mkBigQueryConfig {
  bq_PathToCredentials : string;
  bq_DefaultDataset : string;
  bq_ProjectID : string;
  bq_Location : string;
  bq_BatchSize : Z
}.

Record SnowflakeConfig := mkSnowflakeConfig {
  sf_AccountID : string;
  sf_Username : string;
  sf_Password : string;
  sf_Warehouse : string;
  sf_Region : string;
  sf_Host : string;
  sf_Application : string
}.

(** The parts of [Config] the modelled code reads; the error reporting only
    reaches a third-party client, and [Telemetry] takes the metrics settings. *)
Record Config := mkConfig {
  cfg_Mode : Mode;
  cfg_Output : DestinationKind;
  cfg_Queue : QueueKind;
  FlushIntervalSeconds : Z;
  FlushSizeKb : Z;
  BufferRows : Z;
  cfg_Pubsub : option PubsubConfig;
  cfg_Kafka : option KafkaConfig;
  TypingSettings : Settings;
  UppercaseEscapedNames : bool;
  cfg_MSSQL : option MSSQLConfig;
  cfg_BigQuery : option BigQueryConfig;
  cfg_Redshift : option RedshiftConfig;
  cfg_S3 : option S3Settings;
  cfg_Snowflake : option SnowflakeConfig
}.

Definition BootstrapServers (k : KafkaConfig) : list string := split_on "," (k_BootstrapServer k).

Definition Pubsub_String (p : PubsubConfig) : string :=
  "project_id=" +:+ ps_ProjectID p +:+ ", pathToCredentials=" +:+ ps_PathToCredentials p.

Definition Kafka_String (k : KafkaConfig) : string :=
  "bootstrapServer=" +:+ k_BootstrapServer k +:+ ", groupID=" +:+ k_GroupID k +:+ ", user_set="
    +:+ bool_text (negb (String.eqb (k_Username k) EmptyString)) +:+ ", pass_set="
    +:+ bool_text (negb (String.eqb (k_Password k) EmptyString)).

Definition nil_deref {A} : result A := Panic "invalid memory address or nil pointer dereference".

Definition TopicConfigs (c : Config) : result (list TopicConfig) :=
  match cfg_Queue c with
  | Kafka => match cfg_Kafka c with Some k => Ok (k_TopicConfigs k) | None => nil_deref end
  | PubSub => match cfg_Pubsub c with Some p => Ok (ps_TopicConfigs p) | None => nil_deref end
  | OtherQueue s => errorf ("unsupported queue: " +:+ s)
  end.

(** The defaults [readFileToConfig] fills in after parsing. *)
Definition apply_defaults (c : Config) : Config :=
  mkConfig
    (if bool_decide (cfg_Mode c = OtherMode EmptyString) then Replication else cfg_Mode c)
    (cfg_Output c)
    (if bool_decide (cfg_Queue c = OtherQueue EmptyString) then Kafka else cfg_Queue c)
    (if FlushIntervalSeconds c =? 0 then defaultFlushTimeSeconds else FlushIntervalSeconds c)
    (if FlushSizeKb c =? 0 then defaultFlushSizeKb else FlushSizeKb c)
    (if BufferRows c =? 0 then defaultBufferPoolSize else BufferRows c)
    (cfg_Pubsub c) (cfg_Kafka c) (TypingSettings c) (UppercaseEscapedNames c)
    (cfg_MSSQL c) (cfg_BigQuery c) (cfg_Redshift c) (cfg_S3 c) (cfg_Snowflake c).

(** * Validation *)

Definition S3_Validate (s : option S3Settings) : result unit :=
  match s with
  | None => errorf "s3 settings are nil"
  | Some s =>
      if Empty [s3_Bucket s; s3_AwsSecretAccessKey s; s3_AwsAccessKeyID s]
      then errorf "one of s3 settings is empty"
      else if negb (IsValidS3OutputFormat (s3_OutputFormat s))
      then errorf ("invalid s3 output format " +:+ quote (s3_OutputFormat s))
      else Ok tt
  end.

Definition ValidateRedshift (c : Config) : result unit :=
  if negb (bool_decide (cfg_Output c = Redshift))
  then errorf ("output is not redshift, output: " +:+ DestinationKind_string (cfg_Output c))
  else match cfg_Redshift c with
       | None => errorf "redshift cfg is nil"
       | Some r =>
           if Empty [rs_Host r; rs_Database r; rs_Username r; rs_Password r; rs_Bucket r;
                     rs_CredentialsClause r]
           then errorf "one of redshift settings is empty"
           else if rs_Port r <=? 0 then errorf "redshift invalid port" else Ok tt
       end.

Definition ValidateMSSQL (c : Config) : result unit :=
  if negb (bool_decide (cfg_Output c = MSSQL))
  then errorf ("output is not mssql, output: " +:+ DestinationKind_string (cfg_Output c))
  else match cfg_MSSQL c with
       | None => errorf "mssql config is nil"
       | Some m =>
           if Empty [ms_Host m; ms_Username m; ms_Password m; ms_Database m]
           then errorf "one of mssql settings is empty (host, username, password, database)"
           else if ms_Port m <=? 0 then errorf ("invalid mssql port: " +:+ itoa (ms_Port m)) else Ok tt
       end.

(** [LoadDefaultValues] and [DSN] of the BigQuery settings *)
Definition LoadDefaultValues (b : BigQueryConfig) : BigQueryConfig :=
  if bq_BatchSize b =? 0 then
    mkBigQueryConfig (bq_PathToCredentials b) (bq_DefaultDataset b) (bq_ProjectID b) (bq_Location b) 1000
  else b.

Definition BigQuery_DSN (b : BigQueryConfig) : string :=
  if String.eqb (bq_Location b) EmptyString
  then "bigquery://" +:+ bq_ProjectID b +:+ "/" +:+ bq_DefaultDataset b
  else "bigquery://" +:+ bq_ProjectID b +:+ "/" +:+ bq_Location b +:+ "/" +:+ bq_DefaultDataset b.

(** The body of the loop over the topic configurations *)
Definition validate_topic (mode : Mode) (tc : TopicConfig) : result unit :=
  wrap_err "failed to validate topic config: " EmptyString (TopicConfig_Validate tc) ;;
  if bool_decide (mode = History) then
    if tc_DropDeletedColumns tc
    then errorf ("dropDeletedColumns is not supported in history mode, topic: " +:+ TopicConfig_String tc)
    else if negb (tc_IncludeDatabaseUpdatedAt tc)
    then errorf ("includeDatabaseUpdatedAt is required in history mode, topic: " +:+ TopicConfig_String tc)
    else Ok tt
  else Ok tt.

Definition validate_destination (c : Config) : result unit :=
  match cfg_Output c with
  | MSSQL => ValidateMSSQL c
  | Redshift => ValidateRedshift c
  | S3 => S3_Validate (cfg_S3 c)
  | _ => Ok tt
  end.

Definition validate_queue (c : Config) : result unit :=
  match cfg_Queue c with
  | Kafka =>
      match cfg_Kafka c with
      | None => errorf "kafka config is nil"
      | Some k => if array_Empty [k_GroupID k; k_BootstrapServer k]
                  then errorf "kafka group or bootstrap server is empty" else Ok tt
      end
  | PubSub =>
      match cfg_Pubsub c with
      | None => errorf "pubsub config is nil"
      | Some p => if array_Empty [ps_ProjectID p; ps_PathToCredentials p]
                  then errorf "pubsub projectID or pathToCredentials is empty" else Ok tt
      end
  | OtherQueue _ => Ok tt
  end.

Definition Validate (c : Config) : result unit :=
  if FlushSizeKb c <=? 0
  then errorf ("flush size pool has to be a positive number, current value: " +:+ itoa (FlushSizeKb c))
  else if negb (BetweenEq FlushIntervalSecondsMin FlushIntervalSecondsMax (FlushIntervalSeconds c))
  then errorf ("flush interval is outside of our range, seconds: " +:+ itoa (FlushIntervalSeconds c)
                 +:+ ", expected start: " +:+ itoa FlushIntervalSecondsMin
                 +:+ ", end: " +:+ itoa FlushIntervalSecondsMax)
  else if wrap64 (BufferRows c) <? bufferPoolSizeMin
  then errorf ("buffer pool is too small, min value: " +:+ itoa bufferPoolSizeMin
                 +:+ ", actual: " +:+ itoa (wrap64 (BufferRows c)))
  else if negb (IsValidDestination (cfg_Output c))
  then errorf ("invalid destination: " +:+ DestinationKind_string (cfg_Output c))
  else
    validate_destination c ;;
    validate_queue c ;;
    tcs ← wrap_err "failed to retrieve topic configs: " EmptyString (TopicConfigs c);
    if bool_decide (length tcs = 0%nat) then errorf "no topic configs found"
    else traverse (validate_topic (cfg_Mode c)) tcs ;; Ok tt.

(** [tc.Load()] on every topic, through the pointers the configuration holds *)
Definition load_topics (c : Config) : Config :=
  mkConfig (cfg_Mode c) (cfg_Output c) (cfg_Queue c) (FlushIntervalSeconds c) (FlushSizeKb c)
    (BufferRows c)
    (match cfg_Queue c, cfg_Pubsub c with
     | PubSub, Some p => Some (mkPubsubConfig (ps_ProjectID p) (map TopicConfig_Load (ps_TopicConfigs p))
                                 (ps_PathToCredentials p))
     | _, p => p
     end)
    (match cfg_Queue c, cfg_Kafka c with
     | Kafka, Some k => Some (mkKafkaConfig (k_BootstrapServer k) (k_GroupID k) (k_Username k)
                                (k_Password k) (k_EnableAWSMSKIAM k)
                                (map TopicConfig_Load (k_TopicConfigs k)))
     | _, k => k
     end)
    (TypingSettings c) (UppercaseEscapedNames c) (cfg_MSSQL c) (cfg_BigQuery c)
    (cfg_Redshift c) (cfg_S3 c) (cfg_Snowflake c).

(** [LoadSettings] with [loadConfig], once the flags are parsed: from the parsed
    file or its error. *)
Definition LoadSettings (parsed : result Config) : result Config :=
  config ← wrap_err "failed to parse config file: " EmptyString (apply_defaults <$> parsed);
  TopicConfigs config ;;
  let config := load_topics config in
  wrap_err "failed to validate config: " EmptyString (Validate config) ;;
  Ok config.

(** ** The file and the flags *)

Section Files.
(** The file system, the YAML package and the package of the flags, which yields
    the path and whether to be verbose *)
Context {F : Type} (os_Open : string -> result F) (io_ReadAll : F -> result (list Z))
        (yaml_Unmarshal : list Z -> result Config) (flags_ParseArgs : list string -> result (string * bool)).

Definition read_file (pathToConfig : string) : result Config :=
  file ← os_Open pathToConfig;
  bytes ← io_ReadAll file;
  yaml_Unmarshal bytes.

Definition readFileToConfig (pathToConfig : string) : result Config := apply_defaults <$> read_file pathToConfig.

(** [config.Settings]; without [loadConfig] there is no configuration. *)
Record CommandSettings := mkCommandSettings { cs_Config : option Config; VerboseLogging : bool }.

Definition LoadSettings_args (args : list string) (loadConfig : bool) : result CommandSettings :=
  opts ← wrap_err "failed to parse args: " EmptyString (flags_ParseArgs args);
  let '(ConfigFilePath, Verbose) := opts in
  if loadConfig then
    config ← LoadSettings (read_file ConfigFilePath);
    Ok (mkCommandSettings (Some config) Verbose)
  else Ok (mkCommandSettings None Verbose).
End Files.

(** * What a validated configuration guarantees *)

(** The contract of [Validate], as a proposition. *)
Definition topic_valid (mode : Mode) (tc : TopicConfig) : Prop :=
  (Forall (fun s => s <> EmptyString) [tc_Database tc; tc_Schema tc; tc_Topic tc; tc_CDCFormat tc]) /\
  (tc_CDCKeyFormat tc ∈ validKeyFormats) /\ is_Some (tc_opsToSkipMap tc) /\
  (mode = History -> tc_DropDeletedColumns tc = false /\ tc_IncludeDatabaseUpdatedAt tc = true).

Definition destination_valid (c : Config) : Prop :=
  match cfg_Output c with
  | MSSQL => exists m, cfg_MSSQL c = Some m /\ 0 < ms_Port m /\
      Forall (fun s => s <> EmptyString) [ms_Host m; ms_Username m; ms_Password m; ms_Database m]
  | Redshift => exists r, cfg_Redshift c = Some r /\ 0 < rs_Port r /\
      Forall (fun s => s <> EmptyString)
        [rs_Host r; rs_Database r; rs_Username r; rs_Password r; rs_Bucket r; rs_CredentialsClause r]
  | S3 => exists s, cfg_S3 c = Some s /\ s3_OutputFormat s = ParquetFormat /\
      Forall (fun s => s <> EmptyString) [s3_Bucket s; s3_AwsSecretAccessKey s; s3_AwsAccessKeyID s]
  | OtherDest _ => False
  | _ => True
  end.

Definition queue_valid (c : Config) : Prop :=
  exists tcs, tcs <> [] /\ Forall (topic_valid (cfg_Mode c)) tcs /\
  match cfg_Queue c with
  | Kafka => exists k, cfg_Kafka c = Some k /\ k_TopicConfigs k = tcs /\
      Forall (fun s => s <> EmptyString) [k_GroupID k; k_BootstrapServer k]
  | PubSub => exists p, cfg_Pubsub c = Some p /\ ps_TopicConfigs p = tcs /\
      Forall (fun s => s <> EmptyString) [ps_ProjectID p; ps_PathToCredentials p]
  | OtherQueue _ => False
  end.

Definition config_valid (c : Config) : Prop :=
  0 < FlushSizeKb c /\ FlushIntervalSecondsMin <= FlushIntervalSeconds c <= FlushIntervalSecondsMax /\
  bufferPoolSizeMin <= wrap64 (BufferRows c) /\ destination_valid c /\ queue_valid c.

(** * Lemmas *)

Lemma validate_topic_spec mode tc : validate_topic mode tc = Ok tt <-> topic_valid mode tc.
Proof.
  unfold validate_topic, topic_valid, TopicConfig_Validate.
  rewrite seq_ok, wrap_err_ok, !guard_ok, negb_false_iff, mem_string_spec.
  unfold array_Empty. rewrite existsb_empty_false.
  destruct (tc_opsToSkipMap tc) as [m|]; [|split; [intros [(_ & _ & H) _] | intros (_ & _ & [? H] & _)]; done].
  case_bool_decide as Hm.
  - rewrite !guard_ok, negb_false_iff. naive_solver.
  - naive_solver.
Qed.

Lemma validate_topics_spec mode tcs :
  (traverse (validate_topic mode) tcs ;; Ok tt) = Ok tt <-> Forall (topic_valid mode) tcs.
Proof.
  induction tcs as [|tc tcs IH]; simpl; [by split|].
  rewrite Forall_cons, <- validate_topic_spec, <- IH.
  destruct (validate_topic mode tc) as [[]| |]; simpl; [|naive_solver..].
  destruct (traverse _ tcs); simpl; naive_solver.
Qed.

Lemma IsValidDestination_spec d :
  IsValidDestination d = match d with OtherDest _ => false | _ => true end.
Proof. by destruct d. Qed.

Lemma validate_destination_spec c :
  negb (IsValidDestination (cfg_Output c)) = false /\ validate_destination c = Ok tt <->
  destination_valid c.
Proof.
  unfold validate_destination, destination_valid, ValidateMSSQL, ValidateRedshift, S3_Validate, Empty,
    IsValidS3OutputFormat.
  rewrite IsValidDestination_spec.
  destruct (cfg_Output c) eqn:E; cbv beta iota; try (by split); try (split; [by intros [] | done]).
  - rewrite bool_decide_true by done. cbn [negb].
    destruct (cfg_Redshift c) as [r|]; [|naive_solver].
    rewrite !guard_ok, existsb_empty_false, Z.leb_gt. naive_solver.
  - destruct (cfg_S3 c) as [r|]; [|naive_solver].
    rewrite !guard_ok, existsb_empty_false, !negb_false_iff, String.eqb_eq. naive_solver.
  - rewrite bool_decide_true by done. cbn [negb].
    destruct (cfg_MSSQL c) as [m|]; [|naive_solver].
    rewrite !guard_ok, existsb_empty_false, Z.leb_gt. naive_solver.
Qed.

Lemma validate_queue_spec c :
  (validate_queue c ;;
   tcs ← wrap_err "failed to retrieve topic configs: " EmptyString (TopicConfigs c);
   if bool_decide (length tcs = 0%nat) then errorf "no topic configs found"
   else traverse (validate_topic (cfg_Mode c)) tcs ;; Ok tt) = Ok tt <-> queue_valid c.
Proof.
  unfold validate_queue, TopicConfigs, queue_valid, array_Empty.
  assert (Htcs : forall tcs,
    (if bool_decide (length tcs = 0%nat) then errorf "no topic configs found"
     else traverse (validate_topic (cfg_Mode c)) tcs ;; Ok tt) = Ok tt <->
    tcs <> [] /\ Forall (topic_valid (cfg_Mode c)) tcs).
  { intros tcs. rewrite guard_ok, validate_topics_spec, bool_decide_eq_false.
    split; intros [? ?]; (split; [by destruct tcs | done]). }
  rewrite seq_ok. destruct (cfg_Queue c).
  - destruct (cfg_Kafka c) as [k|]; [|naive_solver].
    cbn [wrap_err mbind result_bind]. rewrite Htcs, guard_ok, existsb_empty_false. naive_solver.
  - destruct (cfg_Pubsub c) as [k|]; [|naive_solver].
    cbn [wrap_err mbind result_bind]. rewrite Htcs, guard_ok, existsb_empty_false. naive_solver.
  - naive_solver.
Qed.

(** [Validate] is sound and complete for its contract: it accepts exactly
    the configurations whose thresholds are in range, whose destination has
    its section filled in, whose queue has its section and at least one topic,
    and whose topics are valid, none dropping columns nor missing
    [includeDatabaseUpdatedAt] in history mode. *)
Theorem Validate_iff_valid c : Validate c = Ok tt <-> config_valid c.
Proof.
  unfold Validate, config_valid.
  rewrite !guard_ok, seq_ok, negb_false_iff, BetweenEq_spec, Z.leb_gt, Z.ltb_ge, validate_queue_spec.
  rewrite <- validate_destination_spec. tauto.
Qed.

(** [LoadSettings] asks for the topic configurations before it validates:
    a file that selects a queue (Kafka by default) without that queue's
    section makes the program panic, where [Validate] has an error for it. *)
Theorem LoadSettings_missing_queue_panics c :
  cfg_Queue (apply_defaults c) = Kafka -> cfg_Kafka c = None ->
  is_panic (LoadSettings (Ok c)) = true /\ validate_queue (apply_defaults c) = errorf "kafka config is nil".
Proof.
  intros Hq Hk. unfold LoadSettings, TopicConfigs, validate_queue.
  cbn [fmap result_fmap wrap_err mbind result_bind]. rewrite Hq.
  change (cfg_Kafka (apply_defaults c)) with (cfg_Kafka c). by rewrite Hk.
Qed.

Lemma LoadSettings_missing_queue_panics_witness :
  is_panic (LoadSettings (Ok (mkConfig Replication Snowflake (OtherQueue EmptyString) 0 0 0 None None
                                (mkSettings [] false) false None None None None None))) = true.
Proof.
  refine (proj1 (LoadSettings_missing_queue_panics _ _ _)); reflexivity.
Defined.

Definition example_config : Config :=
  mkConfig Replication Snowflake Kafka 10 100 1000 None None (mkSettings [] false) false None None None None None.
