(* ===== verification/Retry.v ===== *)
(** Retries with backoff: [lib/jitter], [lib/retry] and the retry loop of
    [lib/db].  The retried function is a state transformer, so the theorems
    speak of the calls it receives and of the sleeps between them. *)
From S2P Require Import Prelude GoLang Constants.
Local Open Scope string_scope.
Local Open Scope list_scope.
Local Open Scope Z_scope.

(** * lib/jitter *)

Definition DefaultMaxMs : Z := 3500.

Definition safePowerOfTwo (n : Z) : Z :=
  if n <? 0 then 0
  else if 62 <? n then max_int64
  else wrap64 (Z.shiftl 1 n).

(** Go's [/] truncates towards zero and panics on a zero divisor. *)
Definition computeJitterUpperBoundMs (baseMs maxMs attempts : Z) : result Z :=
  if maxMs <=? 0 then Ok 0
  else
    let powerOfTwo := safePowerOfTwo attempts in
    if baseMs =? 0 then Panic "integer divide by zero"
    else if Z.quot max_int64 baseMs <? powerOfTwo then Ok maxMs
    else Ok (Z.min maxMs (wrap64 (baseMs * powerOfTwo))).

Section Jitter.
(** [rand.Int63n]: the draw of the [attempt]-th call for a bound [n]. *)
Variable Int63n : Z -> Z -> Z.

Definition Jitter (baseMs maxMs attempts : Z) : result Z :=
  upperBoundMs ← computeJitterUpperBoundMs baseMs maxMs attempts;
  if upperBoundMs <=? 0 then Ok 0
  else Ok (wrap64 (Int63n attempts upperBoundMs * Millisecond)).
End Jitter.

(** * lib/retry *)

(** The interface [RetryConfig] *)
Record RetryConfig := mkRetryConfig {
  MaxAttempts : Z;
  SleepDuration : Z -> result Z;
  IsRetryableErr : error -> bool
}.

Definition jitterRetryConfig (Int63n : Z -> Z -> Z) (baseMs maxMs attempts : Z)
    (isRetryableErr : error -> bool) : RetryConfig :=
  mkRetryConfig attempts (fun attempt => Jitter Int63n baseMs maxMs (attempt - 1)) isRetryableErr.

Definition NewJitterRetryConfig (Int63n : Z -> Z -> Z) (baseMs maxMs attempts : Z)
    (isRetryableErr : error -> bool) : result RetryConfig :=
  if baseMs <=? 0 then errorf "jitter baseMs must be >= 0"
  else if maxMs <=? 0 then errorf "jitter maxMs must be >= 0"
  else if attempts <? 1 then errorf "maxAttempts must be >= 1"
  else Ok (jitterRetryConfig Int63n baseMs maxMs attempts isRetryableErr).

Section Retries.
Context {S T : Type}.
(** [f(attempt, err)]: its value, its error if any, and the state after. *)
Variable f : Z -> option error -> S -> T * option error * S.

(** What a run did: the last value and error, the state, and the durations
    slept, latest first. *)
Record outcome := mkOutcome {
  o_value : T; o_err : option error; o_state : S; o_sleeps : list Z
}.

Definition sleepIfNecessary (cfg : RetryConfig) (attempt : Z) (sleeps : list Z) : result (list Z) :=
  if 0 <? attempt then (fun d => d :: sleeps) <$> SleepDuration cfg attempt else Ok sleeps.

(** The loop from [attempt] on; [fuel] is the number of attempts left. *)
Fixpoint retry_loop (cfg : RetryConfig) (fuel : nat) (attempt : Z) (o : outcome) : result outcome :=
  match fuel with
  | O => Ok o
  | Datatypes.S fuel =>
      sleeps ← sleepIfNecessary cfg attempt (o_sleeps o);
      let '(v, err, st) := f attempt (o_err o) (o_state o) in
      let o := mkOutcome v err st sleeps in
      match err with
      | None => Ok o
      | Some e => if IsRetryableErr cfg e then retry_loop cfg fuel (attempt + 1) o else Ok o
      end
  end.

Definition WithRetriesAndResult (cfg : RetryConfig) (zero : T) (st : S) : result outcome :=
  retry_loop cfg (Z.to_nat (MaxAttempts cfg)) 0 (mkOutcome zero None st []).
End Retries.
Arguments mkOutcome {S T}.
Arguments o_value {S T}.
Arguments o_err {S T}.
Arguments o_state {S T}.
Arguments o_sleeps {S T}.
Arguments outcome : clear implicits.

(** [WithRetries] is the loop without a value. *)
Definition WithRetries {S} (f : Z -> option error -> S -> option error * S) (cfg : RetryConfig) (st : S)
  : result (outcome S unit) :=
  WithRetriesAndResult (fun attempt err st => let '(e, st) := f attempt err st in (tt, e, st)) cfg tt st.

(** * lib/db *)

Definition retryableError (e : error) : bool := errors_is e ECONNRESET || errors_is e ECONNREFUSED.

Definition maxAttempts : Z := 5.
Definition sleepBaseMs : Z := 500.

Section Exec.
Context {S T : Type}.
Variable Int63n : Z -> Z -> Z.
(** [s.DB.Exec(query, args)] of the SQL driver *)
Variable DB_Exec : S -> T * option error * S.

Fixpoint exec_loop (fuel : nat) (attempts : Z) (o : outcome S T) : result (outcome S T) :=
  match fuel with
  | O => Ok o
  | Datatypes.S fuel =>
      sleeps ← (if 0 <? attempts
                then (fun d => d :: o_sleeps o) <$> Jitter Int63n sleepBaseMs DefaultMaxMs (attempts - 1)
                else Ok (o_sleeps o));
      let '(res, err, st) := DB_Exec (o_state o) in
      let o := mkOutcome res err st sleeps in
      match err with
      | None => Ok o
      | Some e => if negb (retryableError e) then Ok o else exec_loop fuel (attempts + 1) o
      end
  end.

(** [storeWrapper.Exec]; [zero] is the zero value of the result. *)
Definition Exec (zero : T) (st : S) : result (outcome S T) :=
  exec_loop (Z.to_nat maxAttempts) 0 (mkOutcome zero None st []).
End Exec.

(** * Backoff bounds *)

Lemma safePowerOfTwo_spec n : 0 <= n ->
  safePowerOfTwo n = if n <=? 62 then 2 ^ n else max_int64.
Proof.
  intros Hn. unfold safePowerOfTwo. destruct (Z.ltb_spec n 0), (Z.ltb_spec 62 n), (Z.leb_spec n 62); try lia.
  rewrite Z.shiftl_1_l, wrap64_id; [done|].
  assert (2 ^ n <= 2 ^ 62) by (apply Z.pow_le_mono_r; lia).
  assert (0 < 2 ^ n) by (apply Z.pow_pos_nonneg; lia). unfold min_int64, max_int64. lia.
Qed.

Lemma jitter_bound_exact baseMs maxMs attempts :
  0 < baseMs <= max_int64 -> 0 < maxMs <= max_int64 -> 0 <= attempts ->
  computeJitterUpperBoundMs baseMs maxMs attempts = Ok (Z.min maxMs (baseMs * 2 ^ attempts)).
Proof.
  intros Hb Hm Ha. unfold computeJitterUpperBoundMs.
  destruct (Z.leb_spec maxMs 0); [lia|]. destruct (Z.eqb_spec baseMs 0); [lia|].
  rewrite safePowerOfTwo_spec by done. rewrite Z.quot_div_nonneg by lia.
  destruct (Z.leb_spec attempts 62) as [Hle | Hgt].
  - destruct (Z.ltb_spec (max_int64 / baseMs) (2 ^ attempts)) as [Hlt | Hge].
    + f_equal. assert (max_int64 < baseMs * 2 ^ attempts); [|lia].
      apply Z.nle_gt. intros Hle'. apply Z.div_le_lower_bound in Hle'; lia.
    + assert (baseMs * 2 ^ attempts <= max_int64).
      { etransitivity; [apply Z.mul_le_mono_nonneg_l; [lia | exact Hge]|]. apply Z.mul_div_le. lia. }
      rewrite wrap64_id; [done|]. assert (0 < 2 ^ attempts) by (apply Z.pow_pos_nonneg; lia).
      unfold min_int64. nia.
  - assert (2 ^ 63 <= 2 ^ attempts) by (apply Z.pow_le_mono_r; lia).
    assert (max_int64 < 2 ^ attempts) by (unfold max_int64; lia).
    assert (max_int64 <= max_int64 * baseMs) by nia.
    destruct (Z.ltb_spec (max_int64 / baseMs) max_int64) as [Hlt | Hge].
    + f_equal. nia.
    + assert (baseMs = 1) as -> .
      { destruct (Z.eq_dec baseMs 1); [done|].
        pose proof (Z.mul_div_le max_int64 baseMs). unfold max_int64 in *; nia. }
      rewrite wrap64_id by (unfold min_int64, max_int64; lia). f_equal. lia.
Qed.

(** The documented bound [min(maxMs, baseMs * 2 ** attempt)] is computed
    exactly, for every number of attempts: the overflow check never lets a
    64-bit product wrap, and never caps a product that fits below [maxMs]. *)
Theorem computeJitterUpperBoundMs_exact baseMs maxMs attempts :
  0 < baseMs <= max_int64 -> 0 < maxMs <= max_int64 -> 0 <= attempts ->
  computeJitterUpperBoundMs baseMs maxMs attempts = Ok (Z.min maxMs (baseMs * 2 ^ attempts)).
Proof. exact (jitter_bound_exact baseMs maxMs attempts). Qed.

Lemma computeJitterUpperBoundMs_exact_witness :
  computeJitterUpperBoundMs 500 3500 70 = Ok 3500 /\ computeJitterUpperBoundMs 500 3500 2 = Ok 2000.
Proof.
  split.
  - rewrite (computeJitterUpperBoundMs_exact 500 3500 70) by (unfold max_int64; lia). reflexivity.
  - rewrite (computeJitterUpperBoundMs_exact 500 3500 2) by (unfold max_int64; lia). reflexivity.
Defined.

(** * The retry loop *)

Section RetryFacts.
Context {S T : Type} (f : Z -> option error -> S -> T * option error * S) (cfg : RetryConfig).

(** [attempted n o o']: starting from outcome [o] at attempt [n], the loop
    called [f] at least once, every call but the last failed with an error
    the configuration retries, and the last call produced [o']. *)
Inductive attempted : Z -> outcome S T -> Z -> outcome S T -> Prop :=
| attempted_last n o sleeps v err st :
    sleepIfNecessary cfg n (o_sleeps o) = Ok sleeps ->
    f n (o_err o) (o_state o) = (v, err, st) ->
    attempted n o (n + 1) (mkOutcome v err st sleeps)
| attempted_again n o sleeps v e st m o' :
    sleepIfNecessary cfg n (o_sleeps o) = Ok sleeps ->
    f n (o_err o) (o_state o) = (v, Some e, st) ->
    IsRetryableErr cfg e = true ->
    attempted (n + 1) (mkOutcome v (Some e) st sleeps) m o' ->
    attempted n o m o'.

(** Why the loop stops: success, an error that is not retried, or no
    attempts left. *)
Definition stopped (m : Z) (o : outcome S T) : Prop :=
  match o_err o with
  | None => True
  | Some e => IsRetryableErr cfg e = false \/ m = MaxAttempts cfg
  end.

Lemma retry_loop_attempted fuel n o o' :
  (0 < fuel)%nat -> Z.of_nat fuel = MaxAttempts cfg - n ->
  retry_loop f cfg fuel n o = Ok o' ->
  exists m, attempted n o m o' /\ n < m <= MaxAttempts cfg /\ stopped m o'.
Proof.
  revert n o. induction fuel as [|fuel IH]; intros n o H0 Hf; [lia|]. simpl.
  rewrite bind_Ok. intros (sleeps & Hs & Hrun).
  destruct (f n (o_err o) (o_state o)) as [[v err] st] eqn:Hcall.
  assert (Hlast : attempted n o (n + 1) (mkOutcome v err st sleeps)) by by apply attempted_last.
  destruct err as [e|]; [|injection Hrun as <-; exists (n + 1); repeat split; [done|lia..]].
  destruct (IsRetryableErr cfg e) eqn:Hr.
  - destruct fuel as [|fuel].
    + injection Hrun as <-. exists (n + 1). repeat split; [done|lia..|]. right. lia.
    + apply IH in Hrun as (m & Hm & Hb & Hst); [|lia..].
      exists m. repeat split; [|lia..|done]. by eapply attempted_again.
  - injection Hrun as <-. exists (n + 1). repeat split; [done|lia..|]. by left.
Qed.
End RetryFacts.

(** [WithRetriesAndResult] under a configuration with at least one attempt
    calls the function between one and [MaxAttempts] times; every call but
    the last failed with a retryable error, the last call's value and error
    are the ones returned, and an error is returned only if it is not
    retryable or all attempts were made. *)
Theorem WithRetriesAndResult_spec {S T} (f : Z -> option error -> S -> T * option error * S)
    cfg zero st o :
  1 <= MaxAttempts cfg ->
  WithRetriesAndResult f cfg zero st = Ok o ->
  exists calls, attempted f cfg 0 (mkOutcome zero None st []) calls o /\
    0 < calls <= MaxAttempts cfg /\ stopped cfg calls o.
Proof.
  intros Hmax Hrun. unfold WithRetriesAndResult in Hrun.
  eapply retry_loop_attempted; [| |exact Hrun]; lia.
Qed.

Lemma WithRetriesAndResult_spec_witness :
  exists calls,
    attempted (fun n _ st => (n, (if n =? 2 then None else Some (ErrNew "x")), st + 1))
      (mkRetryConfig 4 (fun _ => Ok 7) (fun _ => true)) 0 (mkOutcome 0 None 0 []) calls
      (mkOutcome 2 None 3 [7; 7]) /\
    0 < calls <= 4 /\ stopped (mkRetryConfig 4 (fun _ => Ok 7) (fun _ => true)) calls (mkOutcome 2 None 3 [7; 7]).
Proof.
  apply (WithRetriesAndResult_spec _ (mkRetryConfig 4 (fun _ => Ok 7) (fun _ => true)) 0 0);
    [simpl; lia | reflexivity].
Defined.

(** ** Sleeps *)

Section JitterFacts.
Variable Int63n : Z -> Z -> Z.
Hypothesis Int63n_range : forall k n, 0 < n -> 0 <= Int63n k n < n.

Lemma Jitter_range baseMs maxMs attempts :
  0 < baseMs <= max_int64 -> 0 < maxMs <= max_int64 / Millisecond -> 0 <= attempts ->
  exists d, Jitter Int63n baseMs maxMs attempts = Ok d /\ 0 <= d < maxMs * Millisecond.
Proof.
  intros Hb Hm Ha. unfold Jitter.
  assert (Hmm : maxMs * Millisecond <= max_int64) by
    (pose proof (Z.mul_div_le max_int64 Millisecond eq_refl); unfold Millisecond in *; lia).
  assert (0 < 2 ^ attempts) by (apply Z.pow_pos_nonneg; lia).
  rewrite jitter_bound_exact by (unfold Millisecond in *; lia). cbn [mbind result_bind].
  set (ub := Z.min maxMs (baseMs * 2 ^ attempts)).
  assert (0 < ub <= maxMs) by (subst ub; nia).
  destruct (Z.leb_spec ub 0); [lia|]. eexists; split; [reflexivity|].
  specialize (Int63n_range attempts ub ltac:(lia)).
  rewrite wrap64_id; unfold min_int64, Millisecond in *; nia.
Qed.

(** The retry loop of a configuration built by [NewJitterRetryConfig] runs
    to an outcome whatever the function does. *)
Lemma retry_loop_total {S T} (f : Z -> option error -> S -> T * option error * S) cfg fuel n o :
  0 <= n -> (forall k, 0 < k -> is_ok (SleepDuration cfg k) = true) ->
  exists o', retry_loop f cfg fuel n o = Ok o'.
Proof.
  revert n o. induction fuel as [|fuel IH]; intros n o Hn Hs; simpl; [by eexists|].
  unfold sleepIfNecessary.
  assert (exists sl, (if 0 <? n then (fun d => d :: o_sleeps o) <$> SleepDuration cfg n
                      else Ok (o_sleeps o)) = Ok sl) as [sl ->].
  { destruct (Z.ltb_spec 0 n) as [Hlt|]; [|by eexists].
    specialize (Hs n Hlt). destruct (SleepDuration cfg n); [by eexists | done..]. }
  simpl. destruct (f n (o_err o) (o_state o)) as [[v [e|]] st]; [|by eexists].
  destruct (IsRetryableErr cfg e); [|by eexists]. apply IH; [lia|done].
Qed.
End JitterFacts.

(** Termination: a configuration [NewJitterRetryConfig] accepts never
    makes the loop panic or diverge, whatever the function returns. *)
Theorem NewJitterRetryConfig_total {S T} Int63n baseMs maxMs n isRetryable cfg
    (f : Z -> option error -> S -> T * option error * S) zero st :
  (forall k n, 0 < n -> 0 <= Int63n k n < n) ->
  baseMs <= max_int64 -> maxMs <= max_int64 / Millisecond ->
  NewJitterRetryConfig Int63n baseMs maxMs n isRetryable = Ok cfg ->
  exists o, WithRetriesAndResult f cfg zero st = Ok o.
Proof.
  unfold NewJitterRetryConfig. intros Hr Hb Hm.
  destruct (Z.leb_spec baseMs 0); [done|]. destruct (Z.leb_spec maxMs 0); [done|].
  destruct (Z.ltb_spec n 1); [done|]. intros [= <-].
  apply retry_loop_total; [lia|]. intros k Hk. simpl.
  destruct (Jitter_range Int63n Hr baseMs maxMs (k - 1)) as (d & -> & _); [lia..|done].
Qed.

Lemma NewJitterRetryConfig_total_witness :
  exists o, WithRetriesAndResult (fun _ _ st => (tt, Some (ErrSys ECONNRESET), st + 1))
              (jitterRetryConfig (fun _ n => n - 1) 500 3500 5 retryableError) tt 0 = Ok o.
Proof.
  eapply (NewJitterRetryConfig_total (fun _ n => n - 1) 500 3500 5 retryableError).
  - intros; lia.
  - unfold max_int64; lia.
  - vm_compute; discriminate.
  - reflexivity.
Defined.

(** The driver's retry loop in [lib/db] is the generic one with five
    attempts, jitter between 0 and 3.5 s, and retries on connection errors
    only. *)
Theorem Exec_is_WithRetries {S T} Int63n (DB_Exec : S -> T * option error * S) zero st :
  Exec Int63n DB_Exec zero st =
  WithRetriesAndResult (fun _ _ st => DB_Exec st)
    (jitterRetryConfig Int63n sleepBaseMs DefaultMaxMs maxAttempts retryableError) zero st.
Proof.
  unfold Exec, WithRetriesAndResult. simpl MaxAttempts.
  generalize (Z.to_nat maxAttempts) as fuel, 0 as n, (mkOutcome zero None st ([] : list Z)) as o.
  induction fuel as [|fuel IH]; intros n o; simpl; [done|].
  unfold sleepIfNecessary; simpl. destruct (0 <? n); simpl.
  - destruct (Jitter _ _ _ _); simpl; [|done..]. destruct (DB_Exec (o_state o)) as [[v [e|]] st']; [|done].
    destruct (retryableError e); simpl; [apply IH | done].
  - destruct (DB_Exec (o_state o)) as [[v [e|]] st']; [|done].
    destruct (retryableError e); simpl; [apply IH | done].
Qed.
