(* ===== verification/TableData.v ===== *)
(** The in-memory buffer of one table: [lib/optimization/table_data.go] and the
    per-table wrapper and database of [models/memory.go].  Rows are stored
    under the text of their primary key in replication mode and appended in
    history mode. *)
From S2P Require Import Prelude GoLang Constants StringUtil Decimal Values Typing Columns Kafkalib Config.
Local Open Scope string_scope.
Local Open Scope list_scope.
Local Open Scope Z_scope.

Record TableData := mkTableData {
  td_mode : Mode;
  td_inMemoryColumns : option (list Column);
  td_rowsData : gmap string row;
  td_rows : list row;
  td_primaryKeys : list string;
  td_TopicConfig : TopicConfig;
  td_PartitionsToLastMessage : gmap string (list Message);
  td_LatestCDCTs : gotime;
  td_approxSize : Z;
  td_containOtherOperations : bool;
  td_containsHardDeletes : bool;
  td_temporaryTableSuffix : string;
  td_name : string
}.

Definition NewTableData (inMemoryColumns : option (list Column)) (mode : Mode) (primaryKeys : list string)
    (topicConfig : TopicConfig) (name : string) : TableData :=
  mkTableData mode inMemoryColumns ∅ [] primaryKeys topicConfig ∅ zero_time 0 false false EmptyString name.

Definition set_inMemoryColumns (cols : option (list Column)) (t : TableData) : TableData :=
  mkTableData (td_mode t) cols (td_rowsData t) (td_rows t) (td_primaryKeys t) (td_TopicConfig t)
    (td_PartitionsToLastMessage t) (td_LatestCDCTs t) (td_approxSize t) (td_containOtherOperations t)
    (td_containsHardDeletes t) (td_temporaryTableSuffix t) (td_name t).

(** The fields [InsertRow] writes *)
Definition set_rows (rowsData : gmap string row) (rows : list row) (size : Z) (other hard : bool)
    (t : TableData) : TableData :=
  mkTableData (td_mode t) (td_inMemoryColumns t) rowsData rows (td_primaryKeys t) (td_TopicConfig t)
    (td_PartitionsToLastMessage t) (td_LatestCDCTs t) size other hard (td_temporaryTableSuffix t) (td_name t).

(** The fields [Save] writes *)
Definition set_progress (msgs : gmap string (list Message)) (ts : gotime) (t : TableData) : TableData :=
  mkTableData (td_mode t) (td_inMemoryColumns t) (td_rowsData t) (td_rows t) (td_primaryKeys t)
    (td_TopicConfig t) msgs ts (td_approxSize t) (td_containOtherOperations t)
    (td_containsHardDeletes t) (td_temporaryTableSuffix t) (td_name t).

Definition set_temporaryTableSuffix (suffix : string) (t : TableData) : TableData :=
  mkTableData (td_mode t) (td_inMemoryColumns t) (td_rowsData t) (td_rows t) (td_primaryKeys t)
    (td_TopicConfig t) (td_PartitionsToLastMessage t) (td_LatestCDCTs t) (td_approxSize t)
    (td_containOtherOperations t) (td_containsHardDeletes t) suffix (td_name t).

Definition PrimaryKeys (t : TableData) (up : bool) (args : option NameArgs) : list Wrapper :=
  map (fun pk => NewWrapper (NewColumn pk Invalid) up args) (td_primaryKeys t).

Definition TableData_Name (t : TableData) (up : bool) (args : option NameArgs) : string :=
  EscapeName (td_name t) up args.

(** A call on a nil [*Columns] locks a nil mutex. *)
Definition AddInMemoryCol (t : TableData) (column : Column) : result TableData :=
  match td_inMemoryColumns t with
  | None => nil_deref
  | Some cols => Ok (set_inMemoryColumns (Some (AddColumn cols column)) t)
  end.

Definition ReadOnlyInMemoryCols (t : TableData) : option (list Column) :=
  (fun inMemory => foldl AddColumn [] inMemory) <$> td_inMemoryColumns t.

(** [NumberOfRows] of a pointer that may be nil *)
Definition NumberOfRows (t : option TableData) : Z :=
  match t with
  | None => 0
  | Some t => if bool_decide (td_mode t = History) then Z.of_nat (length (td_rows t))
              else Z.of_nat (size (td_rowsData t))
  end.

Definition ShouldSkipUpdate (t : TableData) : bool :=
  (NumberOfRows (Some t) =? 0) || bool_decide (ReadOnlyInMemoryCols t = None).

Section InsertRow.
Context `{GoStd}.

(** A TOAST placeholder takes the value of the previous row, if it has one. *)
Definition carry_value (prevRow : row) (key : string) (val : value) : value :=
  if is_string val ToastUnavailableValuePlaceholder then
    match prevRow !! key with Some prevVal => prevVal | None => val end
  else val.

Definition carry_toast (prevRow rowData : row) : row := map_imap (fun k v => Some (carry_value prevRow k v)) rowData.

Definition InsertRow (t : TableData) (pk : string) (rowData : row) (delete : bool) : TableData :=
  if bool_decide (td_mode t = History) then
    set_rows (td_rowsData t) (td_rows t ++ [rowData]) (wrap64 (td_approxSize t + row_size rowData))
      (td_containOtherOperations t) (td_containsHardDeletes t) t
  else
    let '(prevRowSize, rowData) :=
      match td_rowsData t !! pk with
      | Some prevRow => (row_size prevRow, carry_toast prevRow rowData)
      | None => (0, rowData)
      end in
    let newRowSize := row_size rowData in
    set_rows (<[pk := rowData]> (td_rowsData t)) (td_rows t)
      (wrap64 (td_approxSize t + (newRowSize - prevRowSize)))
      (if negb delete && negb (td_containOtherOperations t) then true else td_containOtherOperations t)
      (if negb (td_containsHardDeletes t) && negb (tc_SoftDelete (td_TopicConfig t)) && delete
       then true else td_containsHardDeletes t) t.
End InsertRow.

(** [Rows]: in replication mode the order is that of a map iteration, so the
    model relates the buffer to every list it may return. *)
Definition Rows (t : TableData) (rows : list row) : Prop :=
  if bool_decide (td_mode t = History) then rows = td_rows t
  else rows ≡ₚ map snd (map_to_list (td_rowsData t)).

(** One of the orders, for the executable definitions *)
Definition some_rows (t : TableData) : list row :=
  if bool_decide (td_mode t = History) then td_rows t else map snd (map_to_list (td_rowsData t)).

Record FqNameOpts := mkFqNameOpts { BigQueryProjectID : string; MsSQLSchemaOverride : string }.

Definition ToFqName (t : TableData) (kind : DestinationKind) (escape up : bool) (opts : FqNameOpts) : string :=
  let db := tc_Database (td_TopicConfig t) in
  let schema := tc_Schema (td_TopicConfig t) in
  let name esc := TableData_Name t up (Some (mkNameArgs esc kind)) in
  match kind with
  | S3 => db +:+ "." +:+ schema +:+ "." +:+ name false
  | Redshift => schema +:+ "." +:+ name escape
  | MSSQL => Override [schema; MsSQLSchemaOverride opts] +:+ "." +:+ name escape
  | BigQuery => "`" +:+ BigQueryProjectID opts +:+ "`.`" +:+ db +:+ "`." +:+ name escape
  | _ => db +:+ "." +:+ schema +:+ "." +:+ name escape
  end.

Section DistinctDates.
Context `{GoStd}.

(** [retMap] after the loop over the rows in the order given; the code then
    lists its keys in map order. *)
Fixpoint distinct_dates_set (colName : string) (fmts : list string) (rows : list row)
    (retMap : gset string) : result (gset string) :=
  match rows with
  | [] => Ok retMap
  | r :: rows =>
      match r !! colName with
      | None => errorf ("col: " +:+ colName +:+ " does not exist on row: "
                          +:+ Sprint (VMap (sorted_entries r)))
      | Some val =>
          extTime ← wrap_err ("col: " +:+ colName +:+ " is not a time column, value: " +:+ Sprint val
                                +:+ ", err: ") EmptyString (ParseFromInterface val fmts);
          distinct_dates_set colName fmts rows ({[ExtendedTime_String extTime PostgresDateFormat]} ∪ retMap)
      end
  end.

Definition DistinctDates (t : TableData) (colName : string) (fmts : list string) : result (list string) :=
  elements <$> distinct_dates_set colName fmts (map snd (map_to_list (td_rowsData t))) ∅.
End DistinctDates.

(** [ResetTempTableSuffix] of a pointer that may be nil; [draws] are the
    random choices of the five characters. *)
Definition ResetTempTableSuffix (t : option TableData) (draws : list nat) : option TableData :=
  (fun t => set_temporaryTableSuffix (to_lower (ArtiePrefix +:+ "_" +:+ stringWithCharset draws)) t) <$> t.

(** [now]: the clock, in nanoseconds since the epoch *)
Definition TempTableSuffix (t : TableData) (now : Z) : string :=
  td_temporaryTableSuffix t +:+ "_" +:+ itoa ((now + TemporaryTableTTL) / Second).

Definition ShouldFlush (t : TableData) (cfg : Config) : bool * string :=
  if BufferRows cfg <? NumberOfRows (Some t) then (true, "rows")
  else if wrap64 (FlushSizeKb cfg * 1024) <? td_approxSize t then (true, "size")
  else (false, EmptyString).

(** * MergeColumnsFromDestination *)

(** What an in-memory column takes from the destination's column.  The kind
    details are pointers, owned by the column: no other part of the program
    reads the type or format through another alias. *)
Definition merge_column (inMemoryCol foundColumn : Column) : Column :=
  let foundKind := c_KindDetails foundColumn in
  let shouldSkip := kind_is (c_KindDetails inMemoryCol) KEDecimal && kind_is foundKind KInteger in
  let kd := c_KindDetails inMemoryCol in
  let kd :=
    if shouldSkip then kd
    else
      let kd := with_Kind kd (kd_Kind foundKind) in
      match kd_OptionalStringPrecision foundKind with
      | Some p => with_Precision kd (Some p)
      | None => kd
      end in
  let kd :=
    match kd_ExtendedTimeDetails foundKind with
    | Some n =>
        let mine := default (mkNested NoTimeKind EmptyString) (kd_ExtendedTimeDetails kd) in
        with_Time kd (Some (nested_with_Type mine (nk_Type n)))
    | None => kd
    end in
  let kd :=
    match kd_ExtendedDecimalDetails foundKind, kd_ExtendedDecimalDetails kd with
    | Some d, None => with_Decimal kd (Some d)
    | _, _ => kd
    end in
  SetBackfilled (c_backfilled foundColumn) (set_kind kd inMemoryCol).

(** The destination's column an in-memory column matches *)
Definition found_column (destCols : list Column) (inMemoryCol : Column) : option Column :=
  find_first (fun destCol => String.eqb (RawName destCol) (to_lower (RawName inMemoryCol))) destCols.

Definition merge_columns (destCols cols : list Column) : list Column :=
  foldl (fun acc inMemoryCol =>
           match found_column destCols inMemoryCol with
           | Some foundColumn => UpdateColumn acc (merge_column inMemoryCol foundColumn)
           | None => acc
           end) cols cols.

(** With no in-memory columns [GetColumns] of the nil pointer is empty. *)
Definition MergeColumnsFromDestination (t : option TableData) (destCols : list Column) : option TableData :=
  match t with
  | None => None
  | Some t =>
      if bool_decide (destCols = []) then Some t
      else match td_inMemoryColumns t with
           | None => Some t
           | Some cols => Some (set_inMemoryColumns (Some (merge_columns destCols cols)) t)
           end
  end.

(** * models/memory.go *)

(** [models.TableData]: a buffer that is nil when empty, and the time of the
    last flush.  The mutex is the step granularity of the consumer's model. *)
Record ModelTable := mkModelTable { mt_TableData : option TableData; mt_lastFlushTime : gotime }.

Definition Wipe (t : ModelTable) (now : gotime) : ModelTable := mkModelTable None now.

(** A quarter of a duration is subtracted; [0.25 * float64(cooldown)] rounds to
    a whole number of nanoseconds towards zero, and is exact up to 2^53. *)
Definition ShouldSkipFlush (t : ModelTable) (now : Z) (cooldown : Z) : bool :=
  let cooldown := if Minute <? cooldown then cooldown - cooldown / 4 else cooldown in
  now - t_ns (mt_lastFlushTime t) <? cooldown.

Definition Empty_ (t : ModelTable) : bool := bool_decide (mt_TableData t = None).
Definition SetTableData (t : ModelTable) (td : option TableData) : ModelTable :=
  mkModelTable td (mt_lastFlushTime t).

Notation DatabaseData := (gmap string ModelTable).
Definition NewMemoryDB : DatabaseData := ∅.

(** The table and the database that holds it; a new one has the zero time. *)
Definition GetOrCreateTableData (d : DatabaseData) (tableName : string) : ModelTable * DatabaseData :=
  match d !! tableName with
  | Some table => (table, d)
  | None => let table := mkModelTable None zero_time in (table, <[tableName := table]> d)
  end.

Definition ClearTableConfig (d : DatabaseData) (tableName : string) (now : gotime) : result DatabaseData :=
  match d !! tableName with
  | Some table => Ok (<[tableName := Wipe table now]> d)
  | None => nil_deref
  end.

(** * The contract of [InsertRow] *)

(** The value of column [k] after the rows of one primary key, latest first:
    the latest row decides, and a placeholder defers to the rows before. *)
Fixpoint resolve (rows : list row) (k : string) : option value :=
  match rows with
  | [] => None
  | r :: older =>
      match r !! k with
      | None => None
      | Some v =>
          if is_string v ToastUnavailableValuePlaceholder then
            match resolve older k with Some p => Some p | None => Some v end
          else Some v
      end
  end.

(** A call of [InsertRow] *)
Record insert := mkInsert { i_pk : string; i_row : row; i_delete : bool }.

Section InsertFacts.
Context `{GoStd}.

Definition do_insert (t : TableData) (i : insert) : TableData := InsertRow t (i_pk i) (i_row i) (i_delete i).
Definition run_inserts (t : TableData) (l : list insert) : TableData := foldl do_insert t l.

(** The rows inserted under a key, latest first *)
Definition rows_of (pk : string) (l : list insert) : list row :=
  rev (map i_row (List.filter (fun i => String.eqb (i_pk i) pk) l)).

Definition rows_size (m : gmap string row) : Z := sum_of (fun kv => row_size (snd kv)) (map_to_list m).

Lemma rows_size_insert m pk r :
  rows_size (<[pk := r]> m) =
  rows_size m + (row_size r - match m !! pk with Some p => row_size p | None => 0 end).
Proof.
  unfold rows_size. destruct (m !! pk) as [p|] eqn:E.
  - rewrite <- insert_delete_eq, (map_to_list_insert (delete pk m)) by apply lookup_delete_eq.
    rewrite <- (insert_delete_id m pk p E) at 2.
    rewrite (map_to_list_insert (delete pk m)) by apply lookup_delete_eq.
    unfold sum_of; simpl. lia.
  - rewrite map_to_list_insert by done. unfold sum_of; simpl. lia.
Qed.

Lemma wrap64_add a b : wrap64 (wrap64 a + b) = wrap64 (a + b).
Proof.
  unfold wrap64. f_equal.
  replace ((a + 2 ^ 63) mod 2 ^ 64 - 2 ^ 63 + b + 2 ^ 63) with ((a + 2 ^ 63) mod 2 ^ 64 + b) by lia.
  rewrite Zplus_mod_idemp_l. f_equal. lia.
Qed.

Lemma carry_toast_lookup prev r k : carry_toast prev r !! k = carry_value prev k <$> r !! k.
Proof. unfold carry_toast. rewrite map_lookup_imap. by destruct (r !! k). Qed.

Definition soft (t : TableData) : bool := tc_SoftDelete (td_TopicConfig t).

(** What a replication buffer holds after the inserts [l]. *)
Record replication_inv (l : list insert) (t : TableData) : Prop := {
  ri_mode : td_mode t <> History;
  ri_rows : td_rows t = [];
  ri_keys : forall pk, is_Some (td_rowsData t !! pk) <-> rows_of pk l <> [];
  ri_cells : forall pk k, (r ← td_rowsData t !! pk; r !! k) = resolve (rows_of pk l) k;
  ri_size : td_approxSize t = wrap64 (rows_size (td_rowsData t));
  ri_other : td_containOtherOperations t = existsb (fun i => negb (i_delete i)) l;
  ri_hard : td_containsHardDeletes t = negb (soft t) && existsb i_delete l
}.

Lemma rows_of_app pk l i :
  rows_of pk (l ++ [i]) = if String.eqb (i_pk i) pk then i_row i :: rows_of pk l else rows_of pk l.
Proof.
  unfold rows_of. rewrite List.filter_app, map_app, rev_app_distr. simpl.
  by destruct (String.eqb (i_pk i) pk).
Qed.

Lemma InsertRow_replication t i :
  td_mode t <> History ->
  do_insert t i =
  let prev := td_rowsData t !! i_pk i in
  let r := match prev with Some p => carry_toast p (i_row i) | None => i_row i end in
  set_rows (<[i_pk i := r]> (td_rowsData t)) (td_rows t)
    (wrap64 (td_approxSize t + (row_size r - match prev with Some p => row_size p | None => 0 end)))
    (td_containOtherOperations t || negb (i_delete i))
    (td_containsHardDeletes t || negb (soft t) && i_delete i) t.
Proof.
  intros Hm. unfold do_insert, InsertRow, soft. rewrite bool_decide_false by done.
  destruct (td_rowsData t !! i_pk i); cbv zeta;
    (f_equal; [by destruct (i_delete i), (td_containOtherOperations t)
              | by destruct (i_delete i), (td_containsHardDeletes t), (tc_SoftDelete _)]).
Qed.

Lemma replication_inv_step l t i :
  replication_inv l t -> replication_inv (l ++ [i]) (do_insert t i).
Proof.
  intros [Hm Hr Hk Hc Hs Ho Hh]. rewrite InsertRow_replication by done. cbv zeta.
  split; simpl; try done.
  - intros pk. rewrite rows_of_app. destruct (String.eqb_spec (i_pk i) pk) as [-> | Hne].
    + rewrite lookup_insert_eq. naive_solver.
    + rewrite lookup_insert_ne by done. apply Hk.
  - intros pk k. rewrite rows_of_app. destruct (String.eqb_spec (i_pk i) pk) as [-> | Hne].
    + rewrite lookup_insert_eq. simpl. specialize (Hc pk k).
      destruct (td_rowsData t !! pk) as [p|] eqn:E; simpl in *.
      * rewrite carry_toast_lookup. destruct (i_row i !! k) as [v|]; simpl; [|done].
        unfold carry_value. rewrite Hc. by destruct (is_string v _), (resolve _ k).
      * rewrite <- Hc. destruct (i_row i !! k) as [v|]; [|done]. by destruct (is_string v _).
    + rewrite lookup_insert_ne by done. apply Hc.
  - rewrite Hs, wrap64_add. by rewrite rows_size_insert.
  - rewrite Ho, existsb_app. simpl. by rewrite orb_false_r.
  - unfold soft in *; simpl in *. rewrite Hh, existsb_app. simpl.
    by destruct (tc_SoftDelete _), (existsb _ _), (i_delete i).
Qed.

Lemma NewTableData_inv cols mode pks tc name :
  mode <> History -> replication_inv [] (NewTableData cols mode pks tc name).
Proof.
  intros Hm. split; simpl; try done.
  - intros pk. rewrite lookup_empty. naive_solver.
  - by rewrite andb_false_r.
Qed.

(** C11. In replication mode the buffer holds, after any sequence of inserts,
    one row per primary key with the latest values, a TOAST placeholder
    standing for the last known value of its column; [approxSize] is the
    (64-bit) total size of the rows held, [containOtherOperations] tells
    whether any insert was not a delete and [containsHardDeletes] whether
    one was a delete of a topic without soft deletes. *)
Theorem InsertRow_replication_spec cols mode pks tc name l :
  mode <> History ->
  replication_inv l (run_inserts (NewTableData cols mode pks tc name) l).
Proof.
  intros Hm. induction l as [|i l IH] using rev_ind; [by apply NewTableData_inv|].
  unfold run_inserts. rewrite foldl_app. by apply replication_inv_step.
Qed.

Lemma do_insert_mode t i : td_mode (do_insert t i) = td_mode t.
Proof.
  unfold do_insert, InsertRow. case_bool_decide; [done|]. by destruct (td_rowsData t !! i_pk i).
Qed.

Lemma run_inserts_mode t l : td_mode (run_inserts t l) = td_mode t.
Proof.
  unfold run_inserts. revert t. induction l as [|i l IH]; intros t; simpl; [done|].
  by rewrite IH, do_insert_mode.
Qed.

Lemma history_run t l :
  td_mode t = History ->
  td_rows (run_inserts t l) = td_rows t ++ map i_row l /\
  td_rowsData (run_inserts t l) = td_rowsData t /\
  wrap64 (td_approxSize (run_inserts t l)) = wrap64 (td_approxSize t + sum_of row_size (map i_row l)).
Proof.
  unfold run_inserts. revert t. induction l as [|i l IH]; intros t Hm; simpl.
  - unfold sum_of; simpl. rewrite app_nil_r, Z.add_0_r. done.
  - assert (Hi : do_insert t i = set_rows (td_rowsData t) (td_rows t ++ [i_row i])
      (wrap64 (td_approxSize t + row_size (i_row i)))
      (td_containOtherOperations t) (td_containsHardDeletes t) t).
    { unfold do_insert, InsertRow. by rewrite bool_decide_true. }
    destruct (IH (do_insert t i)) as (-> & -> & ->); [by rewrite Hi|].
    rewrite Hi; simpl. rewrite <- app_assoc, wrap64_add. repeat split. f_equal.
    unfold sum_of; simpl. lia.
Qed.

(** In history mode nothing is merged: the buffer is the sequence of the
    inserted rows, and the row count is their number. *)
Theorem InsertRow_history_spec cols pks tc name l :
  let t := run_inserts (NewTableData cols History pks tc name) l in
  Rows t (map i_row l) /\ NumberOfRows (Some t) = Z.of_nat (length l) /\ td_rowsData t = ∅.
Proof.
  cbv zeta. destruct (history_run (NewTableData cols History pks tc name) l eq_refl) as (Hr & Hd & _).
  unfold Rows, NumberOfRows. rewrite run_inserts_mode, Hr. simpl. by rewrite length_map.
Qed.
End InsertFacts.

Definition example_topic : TopicConfig :=
  TopicConfig_Load (mkTopicConfig "db" EmptyString "public" "orders" EmptyString "debezium.postgres"
                      JSONKeyFmt true false EmptyString false false None None).

(** A second version of row 1 whose TOAST column is unavailable *)
Definition example_inserts : list insert :=
  [mkInsert "id=1" {[ "id" := VInt KInt 1; "doc" := VString "long text" ]} false;
   mkInsert "id=2" {[ "id" := VInt KInt 2 ]} true;
   mkInsert "id=1" {[ "id" := VInt KInt 1; "doc" := VString ToastUnavailableValuePlaceholder ]} false].

Lemma InsertRow_replication_spec_witness :
  let _ := plain_std in
  replication_inv example_inserts
    (run_inserts (NewTableData (Some []) Replication ["id"] example_topic "orders") example_inserts).
Proof. apply (InsertRow_replication_spec (Some []) Replication). discriminate. Defined.

Example resolve_toast : resolve (rows_of "id=1" example_inserts) "doc" = Some (VString "long text").
Proof. reflexivity. Qed.

(** * Merging the destination's columns *)

Lemma merge_column_name c d : c_name (merge_column c d) = c_name c.
Proof. reflexivity. Qed.

Definition merged (destCols : list Column) (c : Column) : Column :=
  match found_column destCols c with Some d => merge_column c d | None => c end.

Lemma merged_name destCols c : c_name (merged destCols c) = c_name c.
Proof. unfold merged. by destruct (found_column destCols c). Qed.

Lemma UpdateColumn_app_fresh l c c' l' :
  c_name c ∉ map c_name l -> c_name c' = c_name c ->
  UpdateColumn (l ++ c :: l') c' = l ++ c' :: l'.
Proof.
  intros Hin Hn. unfold UpdateColumn. induction l as [|d l IH]; simpl.
  - unfold name_is. by rewrite Hn, String.eqb_refl.
  - simpl in Hin. apply not_elem_of_cons in Hin as [Hne Hin].
    destruct (name_is (c_name c') d) eqn:E; [apply name_is_true in E; congruence|].
    by rewrite IH.
Qed.

Lemma merge_columns_map destCols cols :
  columns_wf cols -> merge_columns destCols cols = map (merged destCols) cols.
Proof.
  unfold merge_columns. intros [Hnd _].
  enough (forall done todo, NoDup (map c_name (done ++ todo)) ->
    foldl (fun acc c => match found_column destCols c with
                        | Some d => UpdateColumn acc (merge_column c d) | None => acc end)
      (map (merged destCols) done ++ todo) todo = map (merged destCols) (done ++ todo)) as Hgen
    by (by apply (Hgen [])).
  intros l todo. revert l. induction todo as [|c todo IH]; intros l Hl; simpl; [by rewrite !app_nil_r|].
  assert (Hc : c_name c ∉ map c_name (map (merged destCols) l)).
  { rewrite map_map. rewrite (map_ext _ c_name) by apply merged_name.
    rewrite map_app in Hl. apply NoDup_app in Hl as (_ & Hd & _).
    intros Hin. apply (Hd _ Hin). simpl. left. }
  specialize (IH (l ++ [c])). rewrite <- !app_assoc in IH. simpl in IH.
  rewrite <- IH by exact Hl. rewrite map_app, <- app_assoc. simpl. f_equal.
  assert (Hm : merged destCols c = match found_column destCols c with
                                   | Some d => merge_column c d | None => c end) by done.
  rewrite Hm. destruct (found_column destCols c) as [d|]; [|done].
  apply UpdateColumn_app_fresh; [exact Hc | reflexivity].
Qed.

(** C32. [MergeColumnsFromDestination] keeps the in-memory columns, their names
    and their order, and gives each one that the destination has the
    destination's kind (except a decimal the destination calls an integer),
    string precision, time type, and backfilled mark. *)
Theorem MergeColumnsFromDestination_spec t destCols cols :
  td_inMemoryColumns t = Some cols -> columns_wf cols ->
  exists t', MergeColumnsFromDestination (Some t) destCols = Some t' /\
    td_inMemoryColumns t' = Some (map (merged destCols) cols) /\
    (forall c d, c ∈ cols -> found_column destCols c = Some d ->
       let k := c_KindDetails c in let k' := c_KindDetails (merged destCols c) in
       c_backfilled (merged destCols c) = c_backfilled d /\
       kd_Kind k' = (if kind_is k KEDecimal && kind_is (c_KindDetails d) KInteger then KEDecimal
                     else kd_Kind (c_KindDetails d)) /\
       (forall n, kd_ExtendedTimeDetails (c_KindDetails d) = Some n ->
          nk_Type <$> kd_ExtendedTimeDetails k' = Some (nk_Type n)) /\
       (kd_ExtendedDecimalDetails k <> None ->
          kd_ExtendedDecimalDetails k' = kd_ExtendedDecimalDetails k)).
Proof.
  intros Hcols Hwf.
  exists (set_inMemoryColumns (Some (map (merged destCols) cols)) t).
  assert (Hcells : forall c d, found_column destCols c = Some d -> merged destCols c = merge_column c d)
    by (intros c d Hf; unfold merged; by rewrite Hf).
  split; [|split; [done|]].
  - unfold MergeColumnsFromDestination. case_bool_decide as Hd.
    + subst. unfold merged; simpl. rewrite map_id. destruct t; simpl in *. by rewrite Hcols.
    + rewrite Hcols. by rewrite merge_columns_map.
  - intros c d _ Hf. rewrite (Hcells c d Hf). cbv zeta. unfold merge_column. simpl.
    destruct (c_KindDetails c) as [k tm dc pr], (c_KindDetails d) as [k2 tm2 dc2 pr2]; simpl.
    unfold kind_is; simpl. case_bool_decide; simpl.
    + subst. case_bool_decide; simpl; destruct tm2, pr2, dc2, dc; simpl; naive_solver.
    + destruct tm2, pr2, dc2, dc; simpl; naive_solver.
Qed.

Definition example_columns : list Column :=
  [NewColumn "id" Integer; NewColumn "Price" Float; NewColumn "__artie_delete" Boolean].
Definition example_table : TableData :=
  NewTableData (Some example_columns) Replication ["id"] example_topic "orders".

Lemma MergeColumnsFromDestination_spec_witness :
  exists t', MergeColumnsFromDestination (Some example_table) [NewColumn "price" String_] = Some t' /\
    td_inMemoryColumns t' = Some (map (merged [NewColumn "price" String_]) example_columns) /\
    merged [NewColumn "price" String_] (NewColumn "Price" Float) = NewColumn "Price" String_.
Proof.
  destruct (MergeColumnsFromDestination_spec example_table [NewColumn "price" String_] example_columns)
    as (t' & Ht & Hc & _).
  - reflexivity.
  - split; [|by apply (bool_decide_unpack _); vm_compute].
    apply (bool_decide_unpack _). vm_compute. reflexivity.
  - exists t'. split; [exact Ht | split; [exact Hc | reflexivity]].
Defined.

(** A destination column whose type is a plain [numeric] has the decimal
    kind and no decimal details.  Merging it into an in-memory column that is
    not already a decimal leaves that column unnameable: building the
    temporary table's columns then panics. *)
Theorem merged_plain_numeric_panics c name dwh isPk :
  dwh = BigQuery \/ dwh = Snowflake ->
  kd_ExtendedDecimalDetails (c_KindDetails c) = None -> to_lower (c_name c) = name ->
  exists d, DwhTypeToKind dwh (if bool_decide (dwh = BigQuery) then "NUMERIC" else "DECIMAL") EmptyString = Ok d /\
    is_panic (KindToDWHType (c_KindDetails (merged [NewColumn name d] c)) dwh isPk) = true.
Proof.
  intros Hdwh Hnil <-. exists EDecimal.
  assert (Hm : merged [NewColumn (to_lower (c_name c)) EDecimal] c
               = merge_column c (NewColumn (to_lower (c_name c)) EDecimal)).
  { unfold merged, found_column, find_first, RawName; simpl. by rewrite String.eqb_refl. }
  rewrite Hm. unfold merge_column, kind_is; simpl. rewrite andb_false_r.
  destruct (c_KindDetails c) as [k tm dc pr]; simpl in *. subst dc.
  destruct Hdwh as [-> | ->]; split; reflexivity.
Qed.

Lemma merged_plain_numeric_panics_witness :
  exists d, DwhTypeToKind BigQuery "NUMERIC" EmptyString = Ok d /\
    is_panic (KindToDWHType (c_KindDetails (merged [NewColumn "price" d] (NewColumn "Price" Float)))
                BigQuery false) = true.
Proof.
  apply (merged_plain_numeric_panics (NewColumn "Price" Float) "price" BigQuery false);
    [left; reflexivity | reflexivity | reflexivity].
Defined.

(** * Flushing and names *)

Lemma ReadOnlyInMemoryCols_wf t cols :
  td_inMemoryColumns t = Some cols -> columns_wf cols -> ReadOnlyInMemoryCols t = Some cols.
Proof.
  intros Ht Hwf. unfold ReadOnlyInMemoryCols. rewrite Ht. simpl. f_equal.
  pose proof (keep_unskipped_filter (fun _ => false) cols Hwf) as Hk.
  unfold keep_unskipped in Hk. simpl in Hk.
  rewrite (forallb_filter_id _ cols) in Hk by (by apply forallb_forall). exact Hk.
Qed.
