(* ===== verification/Replication.v ===== *)
(** Replication: what the rows of one table's buffer mean for the table at the
    destination.  A change event is applied to a table row by row; a buffer is
    merged into it at once.  The lemmas relate the two: merging the buffer of a
    stream is applying its events one by one, merging twice is merging once,
    and replaying a stream from an earlier point changes nothing.

    The rows are maps from column names to values of any type with a TOAST
    placeholder and a truth: the values of a buffer ([TableData]) and the cells
    of a table ([SqlMerge]) are instances. *)
From S2P Require Import Prelude GoLang Constants StringUtil Decimal Values Typing Columns Kafkalib Config TableData.
Local Open Scope string_scope.
Local Open Scope list_scope.

(** What replication needs to know of a value *)
Class Replicable (V : Type) := {
  is_toast : V -> bool;
  is_true : V -> bool;
  toast_not_true : forall v, is_toast v = true -> is_true v = false
}.

(** One change: the key of a row and the row *)
Record change (K V : Type) := mkChange { ch_key : K; ch_row : gmap string V }.
Arguments mkChange {K V}.
Arguments ch_key {K V}.
Arguments ch_row {K V}.

Section Replication.
Context {K : Type} `{Countable K} {V : Type} `{Replicable V}.
Notation vrow := (gmap string V).
Notation table := (gmap K vrow).

(** The row is marked as deleted. *)
Definition flagged (r : vrow) : bool :=
  match r !! DeleteColumnMarker with Some v => is_true v | None => false end.

(** A hard-delete table has no column for the marker. *)
Definition live_row (r : vrow) : vrow := delete DeleteColumnMarker r.

(** A placeholder takes the older value of its column, if there is one. *)
Definition carry (old new : vrow) : vrow :=
  map_imap (fun k v => Some (if is_toast v then default v (old !! k) else v)) new.

(** The row of a key after a change: gone when the change is a delete *)
Definition merge_row (old : option vrow) (new : vrow) : option vrow :=
  if flagged new then None
  else Some (match old with Some o => carry o (live_row new) | None => live_row new end).

Definition apply_change (T : table) (c : change K V) : table :=
  partial_alter (fun old => merge_row old (ch_row c)) (ch_key c) T.

(** The table after the changes, one at a time: what the source went through *)
Definition replay (T : table) (l : list (change K V)) : table := foldl apply_change T l.

(** The table after one batch of rows, one per key *)
Definition merge_batch (B T : table) : table :=
  merge (fun new old => match new with Some r => merge_row old r | None => old end) B T.

(** The buffer: the last row of each key, placeholders carried *)
Definition buffer_change (B : table) (c : change K V) : table :=
  <[ch_key c := match B !! ch_key c with Some p => carry p (ch_row c) | None => ch_row c end]> B.

Definition buffered (l : list (change K V)) : table := foldl buffer_change ∅ l.

(** ** Well-formed streams *)

(** A placeholder says that the column did not change: the row before has the
    column and was not deleted. *)
Definition continues (p r : vrow) : Prop :=
  map_Forall (fun k v => is_toast v = true -> flagged p = false /\ is_Some (p !! k)) r.

#[global] Instance continues_dec p r : Decision (continues p r).
Proof. unfold continues. apply _. Defined.

(** The last change of each key *)
Definition last_rows (m : table) (l : list (change K V)) : table :=
  foldl (fun m c => <[ch_key c := ch_row c]> m) m l.

(** Every change continues the change of its key before it; [m] holds the
    changes before the list. *)
Fixpoint stream_ok (m : table) (l : list (change K V)) : Prop :=
  match l with
  | [] => True
  | c :: l => match m !! ch_key c with Some p => continues p (ch_row c) | None => True end /\
              stream_ok (<[ch_key c := ch_row c]> m) l
  end.

#[global] Instance stream_ok_dec l : forall m, Decision (stream_ok m l).
Proof.
  induction l as [|c l IH]; intros m; simpl; [apply _|].
  destruct (m !! ch_key c); apply and_dec; (apply _ || apply IH).
Defined.

Lemma stream_ok_app m l1 l2 : stream_ok m (l1 ++ l2) <-> stream_ok m l1 /\ stream_ok (last_rows m l1) l2.
Proof.
  revert m. induction l1 as [|c l1 IH]; intros m; simpl; [tauto|]. rewrite IH. tauto.
Qed.

Lemma stream_ok_mono l : forall m m', m ⊆ m' -> stream_ok m' l -> stream_ok m l.
Proof.
  induction l as [|c l IH]; intros m m' Hm; simpl; [done|]. intros [Hc Hl]. split.
  - destruct (m !! ch_key c) as [p|] eqn:E; [|done].
    by rewrite (lookup_weaken _ _ _ _ E Hm) in Hc.
  - apply (IH _ (<[ch_key c := ch_row c]> m')); [|done]. by apply insert_mono.
Qed.

(** A stream may be read from any point on. *)
Lemma stream_ok_suffix m l1 l2 : stream_ok m (l1 ++ l2) -> stream_ok ∅ l2.
Proof.
  intros [_ Hl]%stream_ok_app. apply (stream_ok_mono _ _ _ (map_empty_subseteq _) Hl).
Qed.

Lemma stream_ok_prefix m l1 l2 : stream_ok m (l1 ++ l2) -> stream_ok m l1.
Proof. by intros [Hl _]%stream_ok_app. Qed.

(** ** Carrying *)

Lemma carry_lookup old new k :
  carry old new !! k = (fun v => if is_toast v then default v (old !! k) else v) <$> new !! k.
Proof. unfold carry. rewrite map_lookup_imap. by destruct (new !! k). Qed.

Lemma live_row_lookup r k : live_row r !! k = if decide (k = DeleteColumnMarker) then None else r !! k.
Proof.
  unfold live_row. case_decide; [subst; apply lookup_delete_eq | by apply lookup_delete_ne].
Qed.

Lemma carry_self r : carry r r = r.
Proof.
  apply map_eq. intros k. rewrite carry_lookup. destruct (r !! k) as [v|]; simpl; [|done].
  by destruct (is_toast v).
Qed.

Lemma carry_twice o r : carry (carry o r) r = carry o r.
Proof.
  apply map_eq. intros k. rewrite !carry_lookup. destruct (r !! k) as [v|]; simpl; [|done].
  by destruct (is_toast v).
Qed.

Lemma carry_live o r : carry o (live_row r) = live_row (carry o r).
Proof.
  apply map_eq. intros k. rewrite carry_lookup, !live_row_lookup.
  case_decide; [done|]. by rewrite carry_lookup.
Qed.

Lemma live_carry_live p r : live_row (carry (live_row p) r) = live_row (carry p r).
Proof.
  apply map_eq. intros k. rewrite !live_row_lookup. case_decide as Hk; [done|].
  by rewrite !carry_lookup, live_row_lookup, decide_False.
Qed.

Lemma continues_toast p r k v : continues p r -> r !! k = Some v -> is_toast v = true ->
  flagged p = false /\ is_Some (p !! k).
Proof. intros Hc Hk. exact (Hc k v Hk). Qed.

(** Carrying leaves the mark of the newer row. *)
Lemma carry_flagged p r : continues p r -> flagged (carry p r) = flagged r.
Proof.
  intros Hc. unfold flagged at 1 2. rewrite carry_lookup.
  destruct (r !! DeleteColumnMarker) as [v|] eqn:Ev; simpl; [|done].
  destruct (is_toast v) eqn:Et; [|done].
  destruct (continues_toast p r _ v Hc Ev Et) as [Hf [w Hw]].
  rewrite Hw; simpl. rewrite (toast_not_true v Et).
  unfold flagged in Hf. by rewrite Hw in Hf.
Qed.

(** After a deleted row nothing is carried. *)
Lemma continues_deleted o p r : continues p r -> flagged p = true -> carry o r = r.
Proof.
  intros Hc Hf. apply map_eq. intros k. rewrite carry_lookup.
  destruct (r !! k) as [v|] eqn:Ev; simpl; [|done]. destruct (is_toast v) eqn:Et; [|done].
  destruct (continues_toast p r _ v Hc Ev Et). congruence.
Qed.

(** Carrying is associative where the middle row has the columns. *)
Lemma carry_assoc o p r : continues p r -> carry o (carry p r) = carry (carry o p) r.
Proof.
  intros Hc. apply map_eq. intros k. rewrite !carry_lookup.
  destruct (r !! k) as [v|] eqn:Ev; simpl; [|done]. f_equal.
  destruct (is_toast v) eqn:Et; simpl; [|by rewrite Et].
  destruct (continues_toast p r _ v Hc Ev Et) as [_ [w Hw]]. by rewrite Hw.
Qed.

(** ** Merging *)

Lemma merge_batch_lookup B T k :
  merge_batch B T !! k = match B !! k with Some r => merge_row (T !! k) r | None => T !! k end.
Proof. unfold merge_batch. rewrite lookup_merge. by destruct (B !! k), (T !! k). Qed.

Lemma apply_change_lookup T c k :
  apply_change T c !! k = if decide (k = ch_key c) then merge_row (T !! k) (ch_row c) else T !! k.
Proof.
  unfold apply_change. case_decide as Hk; [subst; by rewrite lookup_partial_alter_eq|].
  by rewrite lookup_partial_alter_ne.
Qed.

Lemma merge_batch_empty T : merge_batch ∅ T = T.
Proof. apply map_eq. intros k. by rewrite merge_batch_lookup, lookup_empty. Qed.

(** Two changes of one key are the change of the carried row. *)
Lemma merge_row_carry old p r : continues p r -> merge_row old (carry p r) = merge_row (merge_row old p) r.
Proof.
  intros Hc. unfold merge_row. rewrite carry_flagged by done. destruct (flagged r); [done|].
  destruct (flagged p) eqn:Hf.
  { rewrite (continues_deleted p p r Hc Hf). destruct old; [|done].
    by rewrite carry_live, (continues_deleted _ p r Hc Hf). }
  f_equal. destruct old as [o|]; rewrite !carry_live, live_carry_live; [by rewrite carry_assoc | done].
Qed.

Lemma merge_row_twice old r : merge_row (merge_row old r) r = merge_row old r.
Proof.
  unfold merge_row. destruct (flagged r); [done|]. f_equal.
  destruct old; [apply carry_twice | apply carry_self].
Qed.

(** Merging a batch a second time changes nothing. *)
Lemma merge_batch_twice B T : merge_batch B (merge_batch B T) = merge_batch B T.
Proof.
  apply map_eq. intros k. rewrite !merge_batch_lookup.
  destruct (B !! k); [apply merge_row_twice | done].
Qed.

(** Adding a change to the buffer is applying it after the merge. *)
Lemma merge_buffer_change B T c :
  (forall p, B !! ch_key c = Some p -> continues p (ch_row c)) ->
  merge_batch (buffer_change B c) T = apply_change (merge_batch B T) c.
Proof.
  intros Hc. apply map_eq. intros k.
  rewrite merge_batch_lookup, apply_change_lookup, merge_batch_lookup. unfold buffer_change.
  case_decide as Hk.
  - subst k. rewrite lookup_insert_eq. destruct (B !! ch_key c) as [p|]; [|done].
    apply merge_row_carry. by apply Hc.
  - by rewrite lookup_insert_ne by congruence.
Qed.

(** ** The buffer of a stream *)

(** The rows of a buffer against the last changes of their keys: carrying keeps
    the columns and the mark. *)
Definition tracks (B m : table) : Prop :=
  forall k p, B !! k = Some p ->
    exists r, m !! k = Some r /\ flagged p = flagged r /\ (forall c, is_Some (p !! c) <-> is_Some (r !! c)).

Lemma tracks_empty m : tracks ∅ m.
Proof. intros k p Hp. by rewrite lookup_empty in Hp. Qed.

Lemma tracks_continues B m k p r r' :
  tracks B m -> B !! k = Some p -> m !! k = Some r -> continues r r' -> continues p r'.
Proof.
  intros Ht Hp Hr Hc c v Hv Hto. destruct (Ht k p Hp) as (r0 & Hr0 & Hf & Hd).
  assert (r0 = r) as -> by congruence.
  destruct (continues_toast r r' c v Hc Hv Hto). rewrite Hf, Hd. done.
Qed.

Lemma tracks_step B m c :
  tracks B m -> match m !! ch_key c with Some p => continues p (ch_row c) | None => True end ->
  (forall p, B !! ch_key c = Some p -> continues p (ch_row c)) /\
  tracks (buffer_change B c) (<[ch_key c := ch_row c]> m).
Proof.
  intros Ht Hc.
  assert (Hcont : forall p, B !! ch_key c = Some p -> continues p (ch_row c)).
  { intros p Hp. destruct (Ht _ p Hp) as (r & Hr & _). rewrite Hr in Hc.
    exact (tracks_continues B m _ p r _ Ht Hp Hr Hc). }
  split; [done|]. intros k p. unfold buffer_change. destruct (decide (k = ch_key c)) as [-> | Hk].
  - rewrite !lookup_insert_eq. intros [= <-]. exists (ch_row c). split; [done|].
    destruct (B !! ch_key c) as [p|]; [|done]. rewrite carry_flagged by auto. split; [done|].
    intros x. rewrite carry_lookup. by destruct (ch_row c !! x).
  - rewrite !lookup_insert_ne by congruence. apply Ht.
Qed.

Lemma replay_app T l1 l2 : replay T (l1 ++ l2) = replay (replay T l1) l2.
Proof. apply foldl_app. Qed.

Lemma last_rows_app m l1 l2 : last_rows m (l1 ++ l2) = last_rows (last_rows m l1) l2.
Proof. apply foldl_app. Qed.

(** Merging the buffer of a stream is replaying it. *)
Lemma merge_buffered l T : stream_ok ∅ l -> merge_batch (buffered l) T = replay T l.
Proof.
  intros Hl. enough (merge_batch (buffered l) T = replay T l /\ tracks (buffered l) (last_rows ∅ l)) by tauto.
  induction l as [|c l IH] using rev_ind; [split; [apply merge_batch_empty | apply tracks_empty]|].
  apply stream_ok_app in Hl as [Hl [Hc _]]. destruct (IH Hl) as [IHm IHt].
  unfold buffered. rewrite foldl_app, last_rows_app. simpl. fold (buffered l).
  destruct (tracks_step _ _ c IHt Hc) as [Hcont Htr]. split; [|exact Htr].
  rewrite merge_buffer_change, IHm, replay_app by exact Hcont. reflexivity.
Qed.

(** A stream read again from an earlier point on *)
Lemma replay_again l1 l2 l3 T :
  stream_ok ∅ (l1 ++ l2 ++ l3) -> replay (replay T (l1 ++ l2)) (l2 ++ l3) = replay T (l1 ++ l2 ++ l3).
Proof.
  intros Hs. assert (H2 : stream_ok ∅ l2) by (eapply stream_ok_prefix, stream_ok_suffix, Hs).
  rewrite !replay_app. f_equal. rewrite <- !(merge_buffered l2) by done. apply merge_batch_twice.
Qed.
End Replication.

(** * The buffer of a table *)

Definition value_true (v : value) : bool := match v with VBool b => b | _ => false end.

Lemma placeholder_not_true v : is_string v ToastUnavailableValuePlaceholder = true -> value_true v = false.
Proof. by destruct v. Qed.

#[export] Instance value_replicable : Replicable value := {|
  is_toast v := is_string v ToastUnavailableValuePlaceholder;
  is_true := value_true;
  toast_not_true := placeholder_not_true
|}.

(** What a call of [InsertRow] does to the table *)
Definition change_of (i : insert) : change string value := mkChange (i_pk i) (i_row i).

Lemma carry_toast_carry old new : carry_toast old new = carry old new.
Proof.
  apply map_eq. intros k. rewrite carry_lookup, carry_toast_lookup. destruct (new !! k) as [v|]; [|done].
  simpl. unfold carry_value. destruct (is_string v _); [|done]. by destruct (old !! k).
Qed.

Section Buffer.
Context `{GoStd}.

Lemma InsertRow_buffer t pk r del :
  td_mode t <> History -> td_rowsData (InsertRow t pk r del) = buffer_change (td_rowsData t) (mkChange pk r).
Proof.
  intros Hm. pose proof (InsertRow_replication t (mkInsert pk r del) Hm) as Hi. unfold do_insert in Hi. simpl in Hi.
  rewrite Hi. unfold buffer_change. simpl. destruct (td_rowsData t !! pk); [by rewrite carry_toast_carry | done].
Qed.

Lemma run_inserts_buffer t l :
  td_mode t <> History ->
  td_rowsData (run_inserts t l) = foldl buffer_change (td_rowsData t) (map change_of l).
Proof.
  unfold run_inserts. revert t. induction l as [|i l IH]; intros t Hm; simpl; [done|].
  rewrite IH by (by rewrite do_insert_mode). unfold do_insert at 1. by rewrite (InsertRow_buffer t).
Qed.

Lemma new_table_buffer cols mode pks tc name l :
  mode <> History ->
  td_rowsData (run_inserts (NewTableData cols mode pks tc name) l) = buffered (map change_of l).
Proof. intros Hm. by rewrite run_inserts_buffer. Qed.

(** C12. Buffering loses nothing: merging, with hard deletes, the buffer of a
    stream of inserts in which a placeholder follows its column into any table
    gives the table the stream, applied insert by insert, leads to; so the
    result does not depend on where the stream is cut into batches. *)
Theorem InsertRow_merge_replays cols mode pks tc name l1 l2 T :
  mode <> History -> stream_ok ∅ (map change_of (l1 ++ l2)) ->
  let batch l := td_rowsData (run_inserts (NewTableData cols mode pks tc name) l) in
  merge_batch (batch (l1 ++ l2)) T = replay T (map change_of (l1 ++ l2)) /\
  merge_batch (batch l2) (merge_batch (batch l1) T) = merge_batch (batch (l1 ++ l2)) T.
Proof.
  intros Hm Hs batch. subst batch. cbv beta. rewrite !new_table_buffer, map_app in * by done.
  rewrite (merge_buffered _ T Hs), replay_app.
  rewrite !merge_buffered; [done | by eapply stream_ok_prefix | by eapply stream_ok_suffix].
Qed.

(** C13. A crash after a merge whose offsets were not committed is harmless: the
    restarted process reads the stream again from an earlier offset, and the
    merge of what it buffers leads to the table of the whole stream, for merges
    with hard deletes and streams in which a placeholder follows its column. *)
Theorem InsertRow_redelivery cols mode pks tc name l1 l2 l3 T :
  mode <> History -> stream_ok ∅ (map change_of (l1 ++ l2 ++ l3)) ->
  let batch l := td_rowsData (run_inserts (NewTableData cols mode pks tc name) l) in
  merge_batch (batch (l2 ++ l3)) (merge_batch (batch (l1 ++ l2)) T) = replay T (map change_of (l1 ++ l2 ++ l3)).
Proof.
  intros Hm Hs batch. subst batch. cbv beta. rewrite !new_table_buffer, !map_app in * by done.
  rewrite !merge_buffered; [by apply replay_again | | by eapply stream_ok_suffix].
  rewrite app_assoc in Hs. by eapply stream_ok_prefix.
Qed.
End Buffer.

(** Row 1 is inserted, updated without its document and deleted; row 2 stays. *)
Definition example_stream : list insert :=
  let doc d := {[ "id" := VInt KInt 1; "doc" := VString d; DeleteColumnMarker := VBool false ]} : row in
  [mkInsert "id=1" (doc "long text") false;
   mkInsert "id=2" {[ "id" := VInt KInt 2; DeleteColumnMarker := VBool false ]} false;
   mkInsert "id=1" (doc ToastUnavailableValuePlaceholder) false;
   mkInsert "id=1" {[ "id" := VInt KInt 1; DeleteColumnMarker := VBool true ]} true].

Lemma InsertRow_merge_replays_witness :
  let _ := plain_std in
  let batch l := td_rowsData (run_inserts (NewTableData (Some []) Replication ["id"] example_topic "orders") l) in
  merge_batch (batch (drop 2 example_stream)) (merge_batch (batch (take 2 example_stream)) ∅) =
    {[ "id=2" := {[ "id" := VInt KInt 2 ]} ]}.
Proof.
  intros std. pose proof (InsertRow_merge_replays (Some []) Replication ["id"] example_topic "orders"
    (take 2 example_stream) (drop 2 example_stream) ∅) as Hmerge.
  destruct Hmerge as [_ Hmerge]; [discriminate | apply (bool_decide_unpack _); vm_compute; reflexivity|].
  cbv zeta in *. refine (eq_trans Hmerge _). vm_compute. reflexivity.
Defined.

Lemma InsertRow_redelivery_witness :
  let _ := plain_std in
  let batch l := td_rowsData (run_inserts (NewTableData (Some []) Replication ["id"] example_topic "orders") l) in
  merge_batch (batch (drop 1 example_stream)) (merge_batch (batch (take 3 example_stream)) ∅) =
    {[ "id=2" := {[ "id" := VInt KInt 2 ]} ]}.
Proof.
  intros std. pose proof (InsertRow_redelivery (Some []) Replication ["id"] example_topic "orders"
    (take 1 example_stream) (take 2 (drop 1 example_stream)) (drop 3 example_stream) ∅) as Hmerge.
  cbv zeta in *. refine (eq_trans (Hmerge _ _) _);
    [discriminate | apply (bool_decide_unpack _); vm_compute; reflexivity|].
  vm_compute. reflexivity.
Defined.
