(* ===== verification/Sql.v ===== *)
(** The small part of SQL that the merges of [Dml] are written in: expressions,
    [MERGE], [INSERT .. SELECT], [UPDATE .. FROM] and [DELETE .. IN], with their
    text and their standard meaning on tables that are lists of rows.  The
    meaning of text the code passes on (literals in a warehouse's own syntax,
    partition predicates), of the warehouse's functions and of its ordering are
    parameters.  The lemmas describe a statement by what it does to the row of
    each key. *)
From S2P Require Import Prelude GoLang Constants StringUtil Values Replication.
Local Open Scope string_scope.
Local Open Scope list_scope.
Local Open Scope Z_scope.

(** * Cells and rows *)

Inductive cell := Null | CBool (b : bool) | CInt (z : Z) | CText (s : string).

#[export] Instance cell_eq_dec : EqDecision cell.
Proof. solve_decision. Defined.

#[export] Instance cell_countable : Countable cell.
Proof.
  refine (inj_countable'
    (fun c => match c with Null => inl () | CBool b => inr (inl b) | CInt z => inr (inr (inl z)) | CText s => inr (inr (inr s)) end)
    (fun x => match x with inl () => Null | inr (inl b) => CBool b | inr (inr (inl z)) => CInt z | inr (inr (inr s)) => CText s end) _).
  by intros [].
Defined.

(** A row of a table; a column it lacks is null. *)
Notation trow := (gmap string cell).
Definition cell_of (r : trow) (c : string) : cell := default Null (r !! c).

Definition cell_toast (c : cell) : bool := bool_decide (c = CText ToastUnavailableValuePlaceholder).
(** A flag is a boolean, or a bit in SQL Server. *)
Definition cell_true (c : cell) : bool := bool_decide (c = CBool true \/ c = CInt 1).

Lemma cell_toast_not_true c : cell_toast c = true -> cell_true c = false.
Proof. unfold cell_toast, cell_true. intros ->%bool_decide_eq_true. apply bool_decide_eq_false. by intros [|]. Qed.

#[export] Instance cell_replicable : Replicable cell :=
  {| is_toast := cell_toast; is_true := cell_true; toast_not_true := cell_toast_not_true |}.

(** * Expressions *)

Inductive expr :=
| StagedCol (c : string)                (* a column of the staging table, [cc] *)
| TargetCol (c : string)                (* a column of the target, [c] *)
| TextLit (s : string)
| BoolLit (b : bool)
| IntLit (z : Z)
| RawText (s : string)                  (* text passed on as it is *)
| Call (f : string) (e : expr)
| OrElse (f : string) (e d : expr)      (* COALESCE and IFNULL *)
| Equal (e1 e2 : expr)
| Differ (e1 e2 : expr)
| AtLeast (e1 e2 : expr)
| CaseWhen (test e1 e2 : expr).

Fixpoint print_expr (e : expr) : string :=
  match e with
  | StagedCol c => "cc." +:+ c
  | TargetCol c => "c." +:+ c
  | TextLit s => "'" +:+ s +:+ "'"
  | BoolLit b => if b then "true" else "false"
  | IntLit z => itoa z
  | RawText s => s
  | Call f e => f +:+ "(" +:+ print_expr e +:+ ")"
  | OrElse f e d => f +:+ "(" +:+ print_expr e +:+ ", " +:+ print_expr d +:+ ")"
  | Equal e1 e2 => print_expr e1 +:+ " = " +:+ print_expr e2
  | Differ e1 e2 => print_expr e1 +:+ " != " +:+ print_expr e2
  | AtLeast e1 e2 => print_expr e1 +:+ " >= " +:+ print_expr e2
  | CaseWhen t e1 e2 => " CASE WHEN " +:+ print_expr t +:+ " THEN " +:+ print_expr e1 +:+ " ELSE " +:+ print_expr e2 +:+ " END"
  end.

Class SqlEngine := {
  sql_raw : string -> trow -> trow -> cell;
  sql_call : string -> cell -> cell;
  sql_at_least : cell -> cell -> bool
}.

(** A comparison with null is null. *)
Definition compared (f : cell -> cell -> bool) (a b : cell) : cell :=
  match a, b with Null, _ | _, Null => Null | _, _ => CBool (f a b) end.

Definition cell_eqb (a b : cell) : bool := bool_decide (a = b).

(** * Statements *)

Inductive matched_action := DeleteRow | SetRow (sets : list (string * expr)).

(** [MERGE INTO target c USING source AS cc ON ..]; [ms_break] is what separates
    the two names. *)
Record merge_stmt := mkMergeStmt {
  ms_target : string;
  ms_source : string;
  ms_break : string;
  ms_on : list expr;
  ms_matched : list (list expr * matched_action);
  ms_missing : expr;
  ms_insert : list string
}.

(** The statements a merge is split into where there is no [MERGE] *)
Inductive part_stmt :=
| InsertMissing (target : string) (cols : list string) (source : string) (on : list expr) (key : string)
| UpdateFrom (target : string) (sets : list (string * expr)) (source : string) (on extra : list expr)
| DeleteIn (target : string) (keys : list string) (source : string) (test : expr).

Definition staged_list (cols : list string) : string := join "," (map (fun c => "cc." +:+ c) cols).
Definition print_sets (sets : list (string * expr)) : string :=
  join "," (map (fun ce => fst ce +:+ "=" +:+ print_expr (snd ce)) sets).
Definition print_on (on : list expr) : string := join " and " (map print_expr on).

Definition print_matched (clause : list expr * matched_action) : string :=
  newline +:+ "WHEN MATCHED " +:+ foldr (fun e s => "AND " +:+ print_expr e +:+ " " +:+ s) EmptyString (fst clause)
    +:+ "THEN " +:+ match snd clause with DeleteRow => "DELETE" | SetRow sets => "UPDATE SET " +:+ print_sets sets end.

Definition print_merge (st : merge_stmt) : string :=
  newline +:+ "MERGE INTO " +:+ ms_target st +:+ " c" +:+ ms_break st +:+ "USING " +:+ ms_source st +:+ " AS cc ON "
    +:+ print_on (ms_on st) +:+ foldr (fun cl s => print_matched cl +:+ s) EmptyString (ms_matched st)
    +:+ newline +:+ "WHEN NOT MATCHED AND " +:+ print_expr (ms_missing st)
    +:+ " THEN INSERT (" +:+ join "," (ms_insert st) +:+ ") VALUES (" +:+ staged_list (ms_insert st) +:+ ");".

Definition print_part (p : part_stmt) : string :=
  match p with
  | InsertMissing target cols source on key =>
      "INSERT INTO " +:+ target +:+ " (" +:+ join "," cols +:+ ") SELECT " +:+ staged_list cols +:+ " FROM " +:+ source
        +:+ " as cc LEFT JOIN " +:+ target +:+ " as c on " +:+ print_on on +:+ " WHERE c." +:+ key +:+ " IS NULL;"
  | UpdateFrom target sets source on extra =>
      "UPDATE " +:+ target +:+ " as c SET " +:+ print_sets sets +:+ " FROM " +:+ source +:+ " as cc WHERE "
        +:+ print_on on +:+ foldr (fun e s => " AND " +:+ print_expr e +:+ s) EmptyString extra +:+ ";"
  | DeleteIn target keys source test =>
      "DELETE FROM " +:+ target +:+ " WHERE (" +:+ join "," keys +:+ ") IN (SELECT " +:+ staged_list keys
        +:+ " FROM " +:+ source +:+ " as cc WHERE " +:+ print_expr test +:+ ");"
  end.

(** * Meaning *)

Section Meaning.
Context `{SqlEngine}.

Fixpoint eval (s t : trow) (e : expr) : cell :=
  match e with
  | StagedCol c => cell_of s c
  | TargetCol c => cell_of t c
  | TextLit x => CText x
  | BoolLit b => CBool b
  | IntLit z => CInt z
  | RawText x => sql_raw x s t
  | Call f e => sql_call f (eval s t e)
  | OrElse _ e d => match eval s t e with Null => eval s t d | v => v end
  | Equal e1 e2 => compared cell_eqb (eval s t e1) (eval s t e2)
  | Differ e1 e2 => compared (fun a b => negb (cell_eqb a b)) (eval s t e1) (eval s t e2)
  | AtLeast e1 e2 => compared sql_at_least (eval s t e1) (eval s t e2)
  | CaseWhen c e1 e2 => if cell_eqb (eval s t c) (CBool true) then eval s t e1 else eval s t e2
  end.

(** A condition holds when it is true, not when it is null. *)
Definition holds (s t : trow) (e : expr) : bool := cell_eqb (eval s t e) (CBool true).
Definition all_hold (s t : trow) (l : list expr) : bool := forallb (holds s t) l.

(** The assignments read the old row. *)
Definition set_row (s t : trow) (sets : list (string * expr)) : trow :=
  list_to_map (map (fun ce => (fst ce, eval s t (snd ce))) sets) ∪ t.

(** The first clause whose conditions hold *)
Fixpoint run_matched (s t : trow) (clauses : list (list expr * matched_action)) : option trow :=
  match clauses with
  | [] => Some t
  | (conds, action) :: clauses =>
      if all_hold s t conds then match action with DeleteRow => None | SetRow sets => Some (set_row s t sets) end
      else run_matched s t clauses
  end.

Definition insert_values (s : trow) (cols : list string) : trow := list_to_map (map (fun c => (c, cell_of s c)) cols).

(** A target row that two staged rows match is an error. *)
Definition merge_target (st : merge_stmt) (S : list trow) (t : trow) : option (list trow) :=
  match List.filter (fun s => all_hold s t (ms_on st)) S with
  | [] => Some [t]
  | [s] => Some (option_list (run_matched s t (ms_matched st)))
  | _ => None
  end.

Definition exec_merge (st : merge_stmt) (S T : list trow) : option (list trow) :=
  (fun kept => concat kept ++
     map (fun s => insert_values s (ms_insert st))
       (List.filter (fun s => negb (existsb (fun t => all_hold s t (ms_on st)) T) && holds s ∅ (ms_missing st)) S))
  <$> mapM (merge_target st S) T.

Definition update_target (on : list expr) (sets : list (string * expr)) (S : list trow) (t : trow) : option trow :=
  match List.filter (fun s => all_hold s t on) S with
  | [] => Some t
  | [s] => Some (set_row s t sets)
  | _ => None
  end.

(** The key of a row; two keys are equal when none of their cells is null and
    they are the same. *)
Definition key_of (keys : list string) (r : trow) : list cell := map (cell_of r) keys.
Definition keys_match (k k' : list cell) : bool := bool_decide (Null ∉ k) && bool_decide (k = k').

Definition exec_part (p : part_stmt) (S T : list trow) : option (list trow) :=
  match p with
  | InsertMissing _ cols _ on _ =>
      Some (T ++ map (fun s => insert_values s cols) (List.filter (fun s => negb (existsb (fun t => all_hold s t on) T)) S))
  | UpdateFrom _ sets _ on extra => mapM (update_target (on ++ extra) sets S) T
  | DeleteIn _ keys _ test =>
      Some (List.filter (fun t => negb (existsb (fun s => holds s ∅ test && keys_match (key_of keys s) (key_of keys t)) S)) T)
  end.

Definition exec_parts (ps : list part_stmt) (S T : list trow) : option (list trow) :=
  foldl (fun acc p => T ← acc; exec_part p S T) (Some T) ps.
End Meaning.

(** * Statements by key *)

Section ByKey.
Context `{SqlEngine}.
Context (keys : list string).

(** The keys of the rows are distinct and have no null. *)
Definition keyed (rows : list trow) : Prop :=
  NoDup (map (key_of keys) rows) /\ Forall (fun r => Null ∉ key_of keys r) rows.

Definition as_table (rows : list trow) : gmap (list cell) trow := list_to_map (map (fun r => (key_of keys r, r)) rows).

Lemma as_table_lookup rows k r : keyed rows -> as_table rows !! k = Some r <-> r ∈ rows /\ key_of keys r = k.
Proof.
  intros [Hnd _]. unfold as_table. rewrite <- elem_of_list_to_map by by rewrite map_map.
  rewrite list_elem_of_fmap. naive_solver.
Qed.

Lemma as_table_None rows k : as_table rows !! k = None <-> k ∉ map (key_of keys) rows.
Proof. unfold as_table. rewrite <- not_elem_of_list_to_map. by rewrite map_map. Qed.

Lemma as_table_unique rows r : keyed rows -> r ∈ rows -> as_table rows !! key_of keys r = Some r.
Proof. intros Hk Hr. by apply as_table_lookup. Qed.

(** The rows whose key is given: at most one *)
Lemma filter_key rows k :
  keyed rows -> List.filter (fun r => bool_decide (key_of keys r = k)) rows = option_list (as_table rows !! k).
Proof.
  intros [Hnd _]. unfold as_table. induction rows as [|r rows IH]; [done|].
  apply NoDup_cons in Hnd as [Hr Hnd]. cbn [List.filter map list_to_map foldr]. simpl.
  destruct (decide (key_of keys r = k)) as [Hk | Hk].
  - rewrite bool_decide_true, Hk, lookup_insert_eq by done. simpl. f_equal. rewrite IH by done.
    rewrite not_elem_of_list_to_map_1; [done|]. rewrite <- Hk, map_map. exact Hr.
  - rewrite bool_decide_false, lookup_insert_ne by done. by apply IH.
Qed.

(** A statement that treats each target row by itself, and adds some of the
    staged rows *)
Lemma rowwise S T (g h : trow -> option trow) :
  keyed S -> keyed T ->
  (forall t t', t ∈ T -> g t = Some t' -> key_of keys t' = key_of keys t) ->
  (forall s s', s ∈ S -> h s = Some s' -> key_of keys s' = key_of keys s /\ key_of keys s ∉ map (key_of keys) T) ->
  keyed (omap g T ++ omap h S) /\
  forall k, as_table (omap g T ++ omap h S) !! k =
    match as_table T !! k with Some t => g t | None => as_table S !! k ≫= h end.
Proof.
  intros HS HT Hg Hh.
  assert (Hgen : forall (f : trow -> option trow) rows, keyed rows ->
    (forall r r', r ∈ rows -> f r = Some r' -> key_of keys r' = key_of keys r) ->
    keyed (omap f rows) /\ forall k, k ∈ map (key_of keys) (omap f rows) -> k ∈ map (key_of keys) rows).
  { clear. intros f rows [Hnd Hnn] Hf. split.
    - split; [|apply Forall_forall; intros r (r0 & Hr0 & Hr)%list_elem_of_omap; rewrite (Hf r0 r) by done;
               rewrite Forall_forall in Hnn; by apply Hnn].
      induction rows as [|r rows IH]; [constructor|]. apply NoDup_cons in Hnd as [Hr Hnd].
      apply Forall_cons in Hnn as [_ Hnn]. simpl.
      assert (IH' : NoDup (map (key_of keys) (omap f rows))) by (apply IH; [done..|]; intros; apply Hf; [by right | done]).
      destruct (f r) as [r'|] eqn:Hfr; [|exact IH']. simpl. apply NoDup_cons. split; [|exact IH'].
      rewrite (Hf r r') by (done || left). intros (r2 & Hk & (r0 & Hr0 & Hr2)%list_elem_of_omap)%list_elem_of_fmap.
      apply Hr, list_elem_of_fmap. exists r0. split; [|done]. rewrite Hk. apply Hf; [by right | done].
    - intros k (r2 & -> & (r0 & Hr0 & Hr2)%list_elem_of_omap)%list_elem_of_fmap.
      apply list_elem_of_fmap. exists r0. split; [by apply Hf | done]. }
  destruct (Hgen g T HT Hg) as [[G1 G2] G3].
  destruct (Hgen h S HS (fun s s' Hs Hs' => proj1 (Hh s s' Hs Hs'))) as [[H1 H2] _].
  assert (Hkeyed : keyed (omap g T ++ omap h S)).
  { split; [|by apply Forall_app]. rewrite map_app. apply NoDup_app. split; [done|]. split; [|done].
    intros k Hk (s' & -> & (s & Hs & Hs')%list_elem_of_omap)%list_elem_of_fmap.
    destruct (Hh s s' Hs Hs') as [Heq Hnot]. apply Hnot. rewrite <- Heq. by apply G3. }
  split; [done|]. intros k. apply option_eq. intros r. rewrite as_table_lookup, elem_of_app, !list_elem_of_omap by done.
  destruct (as_table T !! k) as [t|] eqn:Ht.
  - apply as_table_lookup in Ht as [Ht <-]; [|done]. split.
    + intros [[(t2 & Ht2 & Hr) | (s & Hs & Hr)] Hk].
      * rewrite (Hg t2 r Ht2 Hr) in Hk. pose proof (as_table_unique T t2 HT Ht2) as E2.
        rewrite Hk, as_table_unique in E2 by done. congruence.
      * destruct (Hh s r Hs Hr) as [Heq Hnot]. destruct Hnot. rewrite <- Heq, Hk. by apply list_elem_of_fmap_2.
    + intros Hr. split; [left; by exists t | by apply Hg].
  - apply as_table_None in Ht. split.
    + intros [[(t2 & Ht2 & Hr) | (s & Hs & Hr)] Hk].
      * destruct Ht. rewrite <- Hk, (Hg t2 r) by done. by apply list_elem_of_fmap_2.
      * destruct (Hh s r Hs Hr) as [Heq _]. rewrite <- Hk, Heq, as_table_unique by done. exact Hr.
    + intros (s & Hs & Hr)%bind_Some. apply as_table_lookup in Hs as [Hs <-]; [|done].
      split; [right; by exists s | by apply Hh].
Qed.

(** ** Each statement *)

Lemma mapM_Some_map {A B} (f : A -> option B) (g : A -> B) l :
  (forall x, x ∈ l -> f x = Some (g x)) -> mapM f l = Some (map g l).
Proof.
  induction l as [|x l IH]; intros Hf; simpl; [done|]. rewrite Hf by left. simpl.
  rewrite IH by (intros; apply Hf; by right). done.
Qed.

Lemma concat_options {A B} (g : A -> option B) l : concat (map (fun x => option_list (g x)) l) = omap g l.
Proof. induction l as [|x l IH]; simpl; [done|]. rewrite IH. by destruct (g x). Qed.

Lemma map_filter_omap {A B} (p : A -> bool) (f : A -> B) l :
  map f (List.filter p l) = omap (fun x => if p x then Some (f x) else None) l.
Proof. induction l as [|x l IH]; simpl; [done|]. destruct (p x); simpl; by rewrite IH. Qed.

Lemma omap_Some {A} (l : list A) : omap Some l = l.
Proof. induction l as [|x l IH]; [done|]. simpl. f_equal. exact IH. Qed.

Lemma omap_total {A B} (f : A -> B) l : omap (fun x => Some (f x)) l = map f l.
Proof. induction l as [|x l IH]; [done|]. simpl. by f_equal. Qed.

Lemma omap_None {A B} (l : list A) : omap (fun _ => None : option B) l = [].
Proof. by induction l. Qed.

Lemma filter_omap {A} (p : A -> bool) l : List.filter p l = omap (fun x => if p x then Some x else None) l.
Proof. rewrite <- (map_filter_omap p (fun x => x)). by rewrite map_id. Qed.

Section Statements.
Context (S T : list trow) (on : list expr).
Context (HS : keyed S) (HT : keyed T)
        (Hon : forall s t, s ∈ S -> t ∈ T -> all_hold s t on = bool_decide (key_of keys s = key_of keys t)).

Lemma filter_on t : t ∈ T -> List.filter (fun s => all_hold s t on) S = option_list (as_table S !! key_of keys t).
Proof.
  intros Ht. rewrite <- filter_key by done. apply filter_ext_in. intros s Hs%list_elem_of_In. by apply Hon.
Qed.

Lemma exists_on s : s ∈ S -> existsb (fun t => all_hold s t on) T = bool_decide (key_of keys s ∈ map (key_of keys) T).
Proof.
  intros Hs. apply eq_true_iff_eq. rewrite existsb_exists, bool_decide_eq_true, list_elem_of_fmap. split.
  - intros (t & Ht%list_elem_of_In & Hh). rewrite Hon, bool_decide_eq_true in Hh by done. by exists t.
  - intros (t & Hk & Ht). exists t. split; [by apply list_elem_of_In|]. rewrite Hon by done. by apply bool_decide_eq_true.
Qed.

(** The row of the staging table a target row matches, if there is one *)
Lemma staged_row t : t ∈ T -> forall s, as_table S !! key_of keys t = Some s -> s ∈ S /\ key_of keys s = key_of keys t.
Proof. intros _ s Hs. by apply as_table_lookup in Hs. Qed.

(** A merge by key: matched rows go through the clauses, unmatched ones are
    inserted under the condition. *)
Lemma exec_merge_by_key st :
  ms_on st = on ->
  (forall s t t', s ∈ S -> t ∈ T -> key_of keys s = key_of keys t -> run_matched s t (ms_matched st) = Some t' ->
     key_of keys t' = key_of keys t) ->
  (forall s, s ∈ S -> key_of keys (insert_values s (ms_insert st)) = key_of keys s) ->
  exists T', exec_merge st S T = Some T' /\ keyed T' /\ forall k, as_table T' !! k =
    match as_table T !! k with
    | Some t => match as_table S !! k with Some s => run_matched s t (ms_matched st) | None => Some t end
    | None => s ← as_table S !! k; if holds s ∅ (ms_missing st) then Some (insert_values s (ms_insert st)) else None
    end.
Proof.
  intros Hst Hmatched Hins.
  set (g t := match as_table S !! key_of keys t with Some s => run_matched s t (ms_matched st) | None => Some t end).
  set (h s := if negb (existsb (fun t => all_hold s t on) T) && holds s ∅ (ms_missing st)
              then Some (insert_values s (ms_insert st)) else None).
  assert (Hh : forall s s', s ∈ S -> h s = Some s' -> s' = insert_values s (ms_insert st) /\
    key_of keys s ∉ map (key_of keys) T /\ holds s ∅ (ms_missing st) = true).
  { intros s s' Hs. unfold h. rewrite exists_on by done. case_bool_decide; [done|]. simpl.
    destruct (holds s ∅ (ms_missing st)); [by intros [= <-] | done]. }
  destruct (rowwise S T g h HS HT) as [Hk Ht].
  { intros t t' Ht. unfold g. destruct (as_table S !! key_of keys t) as [s|] eqn:Es; [|by intros [= <-]].
    destruct (staged_row t Ht s Es) as [Hs Hks]. by apply Hmatched. }
  { intros s s' Hs (-> & Hnot & _)%Hh; [|done]. by rewrite Hins. }
  exists (omap g T ++ omap h S). split; [|split; [exact Hk|]].
  - unfold exec_merge. rewrite (mapM_Some_map _ (fun t => option_list (g t))).
    + simpl. by rewrite concat_options, map_filter_omap, Hst.
    + intros t Ht'. unfold merge_target, g. rewrite Hst, filter_on by done. by destruct (as_table S !! key_of keys t).
  - intros k. rewrite Ht. destruct (as_table T !! k) as [t|] eqn:Et.
    + apply as_table_lookup in Et as [_ <-]; [|done]. done.
    + destruct (as_table S !! k) as [s|] eqn:Es; [|done]. simpl. apply as_table_lookup in Es as [Hs <-]; [|done].
      unfold h. rewrite exists_on, bool_decide_false by (done || by apply as_table_None). done.
Qed.

Lemma exec_insert_by_key target cols source key :
  (forall s, s ∈ S -> key_of keys (insert_values s cols) = key_of keys s) ->
  exists T', exec_part (InsertMissing target cols source on key) S T = Some T' /\ keyed T' /\ forall k, as_table T' !! k =
    match as_table T !! k with Some t => Some t | None => (fun s => insert_values s cols) <$> as_table S !! k end.
Proof.
  intros Hins.
  set (h s := if negb (existsb (fun t => all_hold s t on) T) then Some (insert_values s cols) else None).
  destruct (rowwise S T Some h HS HT) as [Hk Ht].
  { by intros t t' _ [= <-]. }
  { intros s s' Hs. unfold h. rewrite exists_on by done. case_bool_decide; [done|]. intros [= <-]. by rewrite Hins. }
  exists (omap Some T ++ omap h S). split; [by rewrite omap_Some; simpl; rewrite map_filter_omap|]. split; [exact Hk|].
  intros k. rewrite Ht. destruct (as_table T !! k) as [t|] eqn:Et; [done|].
  destruct (as_table S !! k) as [s|] eqn:Es; [|done]. simpl. apply as_table_lookup in Es as [Hs <-]; [|done].
  unfold h. rewrite exists_on, bool_decide_false by (done || by apply as_table_None). done.
Qed.

Lemma exec_update_by_key target sets source extra :
  (forall s t, s ∈ S -> t ∈ T -> key_of keys s = key_of keys t -> key_of keys (set_row s t sets) = key_of keys t) ->
  exists T', exec_part (UpdateFrom target sets source on extra) S T = Some T' /\ keyed T' /\ forall k, as_table T' !! k =
    match as_table T !! k with
    | Some t => Some match as_table S !! k with Some s => if all_hold s t extra then set_row s t sets else t | None => t end
    | None => None
    end.
Proof.
  intros Hset.
  set (g t := match as_table S !! key_of keys t with Some s => if all_hold s t extra then set_row s t sets else t | None => t end).
  destruct (rowwise S T (fun t => Some (g t)) (fun _ => None) HS HT) as [Hk Ht].
  { intros t t' Ht [= <-]. unfold g. destruct (as_table S !! key_of keys t) as [s|] eqn:Es; [|done].
    destruct (staged_row t Ht s Es) as [Hs Hks]. destruct (all_hold s t extra); [by apply Hset | done]. }
  { done. }
  exists (map g T). rewrite omap_None, app_nil_r in *.
  assert (Hmap : omap (fun t => Some (g t)) T = map g T) by apply omap_total.
  rewrite Hmap in *. split; [|split; [exact Hk|]].
  - simpl. apply mapM_Some_map. intros t Ht'. unfold update_target, g.
    rewrite (filter_ext _ (fun s => all_hold s t on && all_hold s t extra)) by (intros s; apply forallb_app).
    rewrite <- filter_filter_andb, filter_on by done. destruct (as_table S !! key_of keys t) as [s|]; [|done]. simpl.
    by destruct (all_hold s t extra).
  - intros k. rewrite Ht. destruct (as_table T !! k) as [t|] eqn:Et.
    + apply as_table_lookup in Et as [_ <-]; [|done]. done.
    + by destruct (as_table S !! k).
Qed.
End Statements.

Lemma exec_delete_by_key S T target source test :
  keyed S -> keyed T ->
  exists T', exec_part (DeleteIn target keys source test) S T = Some T' /\ keyed T' /\ forall k, as_table T' !! k =
    match as_table T !! k with
    | Some t => match as_table S !! k with Some s => if holds s ∅ test then None else Some t | None => Some t end
    | None => None
    end.
Proof.
  intros HS HT.
  set (doomed t := existsb (fun s => holds s ∅ test && keys_match (key_of keys s) (key_of keys t)) S).
  assert (Hd : forall t, t ∈ T -> doomed t = match as_table S !! key_of keys t with Some s => holds s ∅ test | None => false end).
  { intros t Ht. apply eq_true_iff_eq. unfold doomed. rewrite existsb_exists. unfold keys_match.
    setoid_rewrite <- list_elem_of_In.
    pose proof HS as [_ Hnn]. rewrite Forall_forall in Hnn. split.
    - intros (s & Hs & [Hh [_ Hk%bool_decide_eq_true]%andb_true_iff]%andb_true_iff).
      rewrite <- Hk, as_table_unique by done. exact Hh.
    - destruct (as_table S !! key_of keys t) as [s|] eqn:Es; [|done]. intros Hh.
      apply as_table_lookup in Es as [Hs Hk]; [|done]. exists s. split; [done|].
      rewrite Hh, (bool_decide_true _ (Hnn s Hs)). simpl. by apply bool_decide_eq_true. }
  destruct (rowwise S T (fun t => if negb (doomed t) then Some t else None) (fun _ => None) HS HT) as [Hk Ht].
  { intros t t' _. destruct (doomed t); simpl; [discriminate | by intros [= <-]]. }
  { done. }
  rewrite omap_None, app_nil_r, <- filter_omap in *. eexists. split; [reflexivity|]. split; [exact Hk|].
  intros k. rewrite Ht. destruct (as_table T !! k) as [t|] eqn:Et; [|by destruct (as_table S !! k)].
  apply as_table_lookup in Et as [Ht' <-]; [|done]. rewrite Hd by done.
  destruct (as_table S !! key_of keys t) as [s|]; [by destruct (holds s ∅ test) | done].
Qed.
End ByKey.
