(* ===== verification/Event.v ===== *)
(** From a change event to a buffered row: [lib/cdc] (the event interface) and
    [models/event/event.go].  Go iterates over a map in an arbitrary order, so
    each operation that ranges over a map takes the order of the keys as an
    argument, and the theorems say when it does not matter. *)
From S2P Require Import Prelude GoLang Constants StringUtil Decimal Values Typing Columns Kafkalib Config.
From S2P Require Import TableData.
Local Open Scope string_scope.
Local Open Scope list_scope.
Local Open Scope Z_scope.

(** * The interface [cdc.Event] *)

Record CdcEvent := mkCdcEvent {
  GetExecutionTime : gotime;
  Operation : string;
  DeletePayload : bool;
  GetTableName : string;
  (** the data, at a time [now] of handling it *)
  GetData : gotime -> row -> TopicConfig -> row;
  GetOptionalSchema : gmap string KindDetails;
  GetColumns_ : option (list Column)
}.

(** [cdc.Format] *)
Record Format := mkFormat {
  Labels : list string;
  GetPrimaryKey : list Z -> TopicConfig -> result row;
  GetEventFromBytes : Settings -> list Z -> result CdcEvent
}.

(** [GetFormatParser]: the first format with the label; none is fatal. *)
Definition GetFormatParser (validFormats : list Format) (label : string) : result Format :=
  match find_first (fun f => mem_string (Labels f) label) validFormats with
  | Some f => Ok f
  | None => Panic "Failed to fetch CDC format parser"
  end.

Record Event := mkEvent {
  e_Table : string;
  e_PrimaryKeyMap : row;
  e_Data : row;
  e_OptionalSchema : gmap string KindDetails;
  e_Columns : option (list Column);
  e_ExecutionTime : gotime;
  e_Deleted : bool;
  e_mode : Mode
}.

Definition set_Data (d : row) (e : Event) : Event :=
  mkEvent (e_Table e) (e_PrimaryKeyMap e) d (e_OptionalSchema e) (e_Columns e) (e_ExecutionTime e)
    (e_Deleted e) (e_mode e).

(** The table of a topic in history mode *)
Definition history_table_name (tblName : string) : string :=
  if has_suffix tblName HistoryModeSuffix then tblName else tblName +:+ HistoryModeSuffix.

(** [order]: the primary keys in the order of the iteration *)
Definition tag_primary_keys (cols : list Column) (order : list string) : list Column :=
  foldl (fun cols pk => UpsertColumn cols pk (mkUpsert None (Some true) None)) cols order.

Definition ToMemoryEvent (event : CdcEvent) (now : gotime) (pkMap : row) (order : list string) (tc : TopicConfig)
    (cfgMode : Mode) : Event :=
  let cols := (fun cols => tag_primary_keys cols order) <$> GetColumns_ event in
  let evtData := GetData event now pkMap tc in
  let tblName := Override [GetTableName event; tc_TableName tc] in
  let '(tblName, evtData) :=
    if bool_decide (cfgMode = History) then
      (history_table_name tblName,
       delete DeleteColumnMarker (<[OperationColumnMarker := VString (Operation event)]> evtData))
    else (tblName, evtData) in
  mkEvent tblName pkMap evtData (GetOptionalSchema event) cols (GetExecutionTime event)
    (DeletePayload event) cfgMode.

Definition IsValid (e : Event) : bool :=
  if array_Empty [e_Table e] then false
  else if bool_decide (e_PrimaryKeyMap e = ∅) then false
  else if bool_decide (e_Data e = ∅) then false
  else if bool_decide (e_mode e = History) then true
  else bool_decide (is_Some (e_Data e !! DeleteColumnMarker)).

(** [PrimaryKeys], from the keys in the order of the iteration *)
Definition PrimaryKeys_ (order : list string) : list string := sort_strings order.

Section Save.
Context `{GoStd}.

Definition key_text (pkMap : row) (keys : list string) : string :=
  foldl (fun key pk => key +:+ pk +:+ "=" +:+ Sprint (default VNil (pkMap !! pk))) EmptyString keys.

Definition PrimaryKeyValue (e : Event) (order : list string) : string :=
  key_text (e_PrimaryKeyMap e) (PrimaryKeys_ order).

(** The value a column stores, and whether it is a TOAST placeholder: a map
    that holds the placeholder as a key is rewritten to it. *)
Definition sanitize_value (val : value) : value * bool :=
  if is_string val ToastUnavailableValuePlaceholder then (val, true)
  else match val with
       | VMap m => if existsb (fun kv => String.eqb (fst kv) ToastUnavailableValuePlaceholder) m
                   then (VString ToastUnavailableValuePlaceholder, true) else (val, false)
       | _ => (val, false)
       end.

(** What one entry of the event does to the in-memory columns *)
Definition save_column (settings : Settings) (schema : gmap string KindDetails)
    (cols : list Column) (col newColName : string) (val : value) (toastedCol : bool) : list Column :=
  if toastedCol then UpsertColumn cols newColName (mkUpsert (Some true) None None)
  else match GetColumn cols newColName with
       | None => AddColumn cols (NewColumn newColName (ParseValue settings col schema val))
       | Some retrievedColumn =>
           if kd_eqb (c_KindDetails retrievedColumn) Invalid then
             let kindDetails := ParseValue settings col schema val in
             if negb (kind_is kindDetails KInvalid)
             then UpdateColumn cols (set_kind kindDetails retrievedColumn) else cols
           else cols
       end.

(** The body of the loop over the event's data *)
Definition save_entry (settings : Settings) (schema : gmap string KindDetails)
    (st : list Column * row) (entry : string * value) : list Column * row :=
  let '(cols, sanitizedData) := st in
  let '(col, val) := entry in
  let '(containsSpace, newColName) := EscapeSpaces (to_lower col) in
  let sanitizedData := if containsSpace then <[newColName := val]> sanitizedData else sanitizedData in
  let '(val, toastedCol) := sanitize_value val in
  (save_column settings schema cols col newColName val toastedCol, <[newColName := val]> sanitizedData).

Definition save_entries (settings : Settings) (schema : gmap string KindDetails) (cols : list Column)
    (entries : list (string * value)) : list Column * row :=
  foldl (save_entry settings schema) (cols, ∅) entries.

(** The entries of the data, in the order of the iteration *)
Definition entries_of (d : row) (order : list string) : list (string * value) :=
  omap (fun k => (fun v => (k, v)) <$> d !! k) order.

Definition add_columns (td : TableData) (cols : list Column) : result TableData :=
  foldl (fun td col => td ← td; AddInMemoryCol td col) (Ok td) cols.

(** The message is kept: the latest of the partition, or all of them *)
Definition record_message (msgs : gmap string (list Message)) (message : Message)
  : gmap string (list Message) :=
  let p := Message_Partition message in
  if bool_decide (Message_Kind message = MKKafka) then <[p := [message]]> msgs
  else <[p := default [] (msgs !! p) ++ [message]]> msgs.

(** The buffer the event goes to: a new one, or the table's with the event's
    columns added. *)
Definition event_buffer (cfg : Config) (table : ModelTable) (topicConfig : TopicConfig) (pkOrder : list string)
    (e : Event) : result TableData :=
  match mt_TableData table with
  | None => Ok (NewTableData (Some (default [] (e_Columns e))) (cfg_Mode cfg) (PrimaryKeys_ pkOrder)
                  topicConfig (e_Table e))
  | Some td =>
      match e_Columns e with
      | Some cols => add_columns td (GetColumns (Some cols))
      | None => Ok td
      end
  end.

(** [Save]: the database, the event (its data is replaced), and whether to
    flush and why.  [pkOrder] and [order] are the iteration orders of the
    primary key map and of the data. *)
Definition Save (cfg : Config) (inMemDB : DatabaseData) (topicConfig : option TopicConfig)
    (message : Message) (pkOrder order : list string) (e : Event)
  : result (DatabaseData * Event * (bool * string)) :=
  match topicConfig with
  | None => errorf "topicConfig is missing"
  | Some topicConfig =>
      if negb (IsValid e) then errorf "event not valid"
      else
        let '(table, inMemDB) := GetOrCreateTableData inMemDB (e_Table e) in
        td ← event_buffer cfg table topicConfig pkOrder e;
        match ReadOnlyInMemoryCols td with
        | None => nil_deref
        | Some inMemoryColumns =>
            let '(cols, sanitizedData) :=
              save_entries (TypingSettings cfg) (e_OptionalSchema e) inMemoryColumns
                (entries_of (e_Data e) order) in
            let td := set_inMemoryColumns (Some cols) td in
            let e := set_Data sanitizedData e in
            let td := InsertRow td (PrimaryKeyValue e pkOrder) (e_Data e) (e_Deleted e) in
            let td := set_progress (record_message (td_PartitionsToLastMessage td) message)
                        (e_ExecutionTime e) td in
            Ok (<[e_Table e := SetTableData table (Some td)]> inMemDB, e, ShouldFlush td cfg)
        end
  end.
End Save.

(** * Iteration order *)

(** Two buffers that differ only in the order of their in-memory columns. *)
Definition same_buffer (t t' : TableData) : Prop :=
  set_inMemoryColumns None t = set_inMemoryColumns None t' /\
  columns_map (default [] (td_inMemoryColumns t)) = columns_map (default [] (td_inMemoryColumns t')).

Lemma sort_strings_perm l l' : l ≡ₚ l' -> sort_strings l = sort_strings l'.
Proof.
  intros Hp. unfold sort_strings. apply (Sorted_unique String.le); [apply Sorted_merge_sort, _..|].
  by rewrite !merge_sort_Permutation.
Qed.

Lemma filter_unique {A B} `{EqDecision B} (key : A -> B) l l' b :
  l ≡ₚ l' -> NoDup (map key l) ->
  List.filter (fun x => bool_decide (key x = b)) l = List.filter (fun x => bool_decide (key x = b)) l'.
Proof.
  intros Hp. induction Hp as [|x l l' Hp IH|x y l|l1 l2 l3 Hp1 IH1 Hp2 IH2]; simpl; intros Hnd.
  - done.
  - apply NoDup_cons in Hnd as [_ Hnd]. by rewrite IH.
  - apply NoDup_cons in Hnd as [Hx _]. do 2 case_bool_decide; try done.
    exfalso. apply Hx, elem_of_cons. left. congruence.
  - rewrite IH1 by done. apply IH2. by rewrite <- Hp1.
Qed.

Lemma foldl_filter {A B} (p : B -> bool) (f : A -> B -> A) a l :
  foldl (fun a x => if p x then f a x else a) a l = foldl f a (List.filter p l).
Proof. revert a. induction l as [|x l IH]; intros a; simpl; [done|]. rewrite IH. by destruct (p x). Qed.

Section OrderFacts.
Context `{GoStd}.
Context (settings : Settings) (schema : gmap string KindDetails).

(** The normalised name of an entry *)
Definition norm (entry : string * value) : string := columns_EscapeName (fst entry).

(** What an entry does to the column of its name *)
Definition entry_column (o : option Column) (entry : string * value) : option Column :=
  let '(col, val) := entry in
  let n := norm entry in
  let '(val, toasted) := sanitize_value val in
  if String.eqb n EmptyString then o
  else if toasted then Some (upsert_fields (mkUpsert (Some true) None None) (default (NewColumn n Invalid) o))
  else match o with
       | None => Some (NewColumn n (ParseValue settings col schema val))
       | Some c =>
           let kd := ParseValue settings col schema val in
           Some (if kd_eqb (c_KindDetails c) Invalid && negb (kind_is kd KInvalid) then set_kind kd c else c)
       end.

Lemma save_entry_data st entry :
  snd (save_entry settings schema st entry) = <[norm entry := fst (sanitize_value (snd entry))]> (snd st).
Proof.
  destruct st as [cols d], entry as [k v]. unfold save_entry, norm, columns_EscapeName; simpl.
  destruct (sanitize_value v) as [v' t]; simpl. destruct (contains _ _); [|done].
  by rewrite insert_insert_eq.
Qed.

Lemma save_column_wf cols col n v t :
  columns_wf cols -> columns_wf (save_column settings schema cols col n v t).
Proof.
  intros Hwf. unfold save_column. destruct t; [apply (columns_step_wf _ (OpUpsert _ _) Hwf)|].
  destruct (GetColumn cols n); [|by apply AddColumn_wf].
  destruct (kd_eqb _ _); [|done]. destruct (negb _); [|done].
  apply (columns_step_wf _ (OpUpdate _) Hwf).
Qed.

Lemma save_entry_wf st entry :
  columns_wf (fst st) -> columns_wf (fst (save_entry settings schema st entry)).
Proof.
  destruct st as [cols d], entry as [k v]. unfold save_entry; simpl.
  destruct (sanitize_value v) as [v' t]. simpl. apply save_column_wf.
Qed.

Lemma GetColumn_empty cols : columns_wf cols -> GetColumn cols EmptyString = None.
Proof. intros [_ He]. by apply GetColumn_None. Qed.

Lemma save_entry_column st entry n :
  columns_wf (fst st) ->
  columns_map (fst (save_entry settings schema st entry)) !! n =
  if bool_decide (norm entry = n) then entry_column (columns_map (fst st) !! n) entry
  else columns_map (fst st) !! n.
Proof.
  destruct st as [cols d], entry as [k v]. intros Hwf. unfold save_entry. cbn [fst] in *.
  unfold entry_column. change (EscapeSpaces (to_lower k)) with (contains (to_lower k) " ", norm (k, v)).
  cbv beta iota zeta. generalize (norm (k, v)) as m. intros m.
  destruct (sanitize_value v) as [v' t]. cbn [fst].
  unfold save_column. destruct t; [|rewrite (GetColumn_map cols m)].
  - rewrite UpsertColumn_map. simpl.
    destruct (String.eqb_spec m EmptyString); case_decide; case_bool_decide; subst; try done.
    + by rewrite lookup_insert_eq.
    + by rewrite lookup_insert_ne.
  - destruct (columns_map cols !! m) as [c|] eqn:E.
    + assert (m <> EmptyString).
      { intros ->. rewrite <- GetColumn_map, GetColumn_empty in E; done. }
      destruct (String.eqb_spec m EmptyString); [done|].
      assert (Hc : c_name c = m) by (rewrite <- GetColumn_map in E; by apply GetColumn_name in E).
      assert (Hup : forall kd, columns_map (UpdateColumn cols (set_kind kd c)) =
                               <[m := set_kind kd c]> (columns_map cols)).
      { intros kd. rewrite UpdateColumn_map. simpl. rewrite Hc, E, decide_True; eauto. }
      case_bool_decide; [subst n; rewrite E|];
        (destruct (kd_eqb _ _); [|done || by rewrite E]);
        (destruct (negb _); simpl; [|done || by rewrite E]); rewrite Hup;
        [by rewrite lookup_insert_eq | by rewrite lookup_insert_ne].
    + rewrite AddColumn_map. unfold add_spec; simpl. rewrite E.
      destruct (String.eqb_spec m EmptyString); case_decide; case_bool_decide; subst; try done.
      * by rewrite lookup_insert_eq, E.
      * by rewrite lookup_insert_ne.
Qed.

Lemma save_entries_lookup entries st n :
  columns_wf (fst st) ->
  let final := foldl (save_entry settings schema) st entries in
  let mine := List.filter (fun e => bool_decide (norm e = n)) entries in
  columns_map (fst final) !! n = foldl entry_column (columns_map (fst st) !! n) mine /\
  snd final !! n = foldl (fun _ e => Some (fst (sanitize_value (snd e)))) (snd st !! n) mine.
Proof.
  cbv zeta. rewrite <- !foldl_filter. revert st. induction entries as [|e entries IH]; intros st Hwf; simpl.
  - done.
  - destruct (IH (save_entry settings schema st e)) as [-> ->]; [by apply save_entry_wf|].
    rewrite save_entry_column, save_entry_data by done.
    case_bool_decide; subst; [by rewrite lookup_insert_eq | by rewrite lookup_insert_ne].
Qed.

Lemma save_entries_perm cols entries entries' :
  columns_wf cols -> entries ≡ₚ entries' -> NoDup (map norm entries) ->
  snd (save_entries settings schema cols entries) = snd (save_entries settings schema cols entries') /\
  columns_map (fst (save_entries settings schema cols entries)) =
  columns_map (fst (save_entries settings schema cols entries')).
Proof.
  intros Hwf Hp Hnd. unfold save_entries. split; apply map_eq; intros n;
    pose proof (save_entries_lookup entries (cols, ∅) n Hwf) as [H1 H2];
    pose proof (save_entries_lookup entries' (cols, ∅) n Hwf) as [H1' H2'];
    pose proof (filter_unique norm entries entries' n Hp Hnd) as Hf; congruence.
Qed.

Lemma entries_of_perm d order order' : order ≡ₚ order' -> entries_of d order ≡ₚ entries_of d order'.
Proof. intros Hp. unfold entries_of. by apply omap_Permutation. Qed.

Lemma entries_of_norm d order :
  NoDup (map columns_EscapeName order) -> NoDup (map norm (entries_of d order)).
Proof.
  intros Hnd. eapply sublist_NoDup; [exact Hnd|]. clear Hnd. unfold entries_of.
  induction order as [|k order IH]; simpl; [constructor|].
  destruct (d !! k); simpl; [by apply sublist_skip | by apply sublist_cons].
Qed.
End OrderFacts.

Section SaveFacts.
Context `{GoStd}.

(** Two outcomes of [Save] that no later operation tells apart, except by the
    order of the columns. *)
Definition same_outcome (table : string)
    (r r' : result (DatabaseData * Event * (bool * string))) : Prop :=
  match r, r' with
  | Ok (db, e, flush), Ok (db', e', flush') =>
      e = e' /\ flush = flush' /\ delete table db = delete table db' /\
      exists t t' at_, db !! table = Some (mkModelTable (Some t) at_) /\
        db' !! table = Some (mkModelTable (Some t') at_) /\ same_buffer t t'
  | _, _ => r = r'
  end.

Lemma ReadOnlyInMemoryCols_clone t cols : ReadOnlyInMemoryCols t = Some cols -> columns_wf cols.
Proof.
  unfold ReadOnlyInMemoryCols. destruct (td_inMemoryColumns t) as [l|]; [|done]. intros [= <-].
  apply (fold_add_wf id), columns_wf_nil.
Qed.

Lemma InsertRow_columns t cols pk r del :
  InsertRow (set_inMemoryColumns cols t) pk r del = set_inMemoryColumns cols (InsertRow t pk r del).
Proof.
  unfold InsertRow; simpl. case_bool_decide; [done|]. by destruct (td_rowsData t !! pk).
Qed.

(** C25. [Save] does not depend on the order in which Go iterates over the
    primary key map and over the event's data, provided no two columns of
    the event have the same normalised name: the buffered row, the counters,
    the messages, the flush decision and every column's metadata are the
    same; only the order of the columns may differ. *)
Theorem Save_order_independent cfg db tc msg pkOrder pkOrder' order order' e :
  pkOrder ≡ₚ pkOrder' -> order ≡ₚ order' -> NoDup (map columns_EscapeName order) ->
  same_outcome (e_Table e) (Save cfg db tc msg pkOrder order e) (Save cfg db tc msg pkOrder' order' e).
Proof.
  intros Hpk Ho Hnd. unfold Save. destruct tc as [tc|]; [|done].
  destruct (negb (IsValid e)); [done|].
  destruct (GetOrCreateTableData db (e_Table e)) as [table db1].
  unfold event_buffer, PrimaryKeyValue, PrimaryKeys_. rewrite (sort_strings_perm _ _ Hpk).
  destruct (match mt_TableData table with Some _ => _ | None => _ end) as [td| |]; simpl; [|done..].
  destruct (ReadOnlyInMemoryCols td) as [cols|] eqn:Hcols; [|done].
  apply ReadOnlyInMemoryCols_clone in Hcols as Hwf.
  pose proof (save_entries_perm (TypingSettings cfg) (e_OptionalSchema e) cols
    (entries_of (e_Data e) order) (entries_of (e_Data e) order') Hwf
    (entries_of_perm _ _ _ Ho) (entries_of_norm _ _ Hnd)) as [Hd Hc].
  destruct (save_entries _ _ cols (entries_of _ order)) as [c1 d1].
  destruct (save_entries _ _ cols (entries_of _ order')) as [c2 d2]. simpl in Hd, Hc. subst d2.
  rewrite !InsertRow_columns. simpl. split; [done|]. split; [done|].
  split; [by rewrite !delete_insert_eq|].
  do 3 eexists. split; [by rewrite lookup_insert_eq|]. split; [by rewrite lookup_insert_eq|].
  split; [done | exact Hc].
Qed.

(** The internal row key does not depend on the map's iteration order. *)
Theorem PrimaryKeyValue_deterministic e order order' :
  order ≡ₚ order' -> PrimaryKeyValue e order = PrimaryKeyValue e order'.
Proof. intros Hp. unfold PrimaryKeyValue, PrimaryKeys_. by rewrite (sort_strings_perm _ _ Hp). Qed.
End SaveFacts.

Section Collision.
(** ... but it is not injective: key and value texts are concatenated
    without separators or escapes, so rows whose keys differ can share one
    buffer slot, and the later insert replaces the earlier row. *)
Theorem PrimaryKeyValue_collision `{GoStd} :
  let key a b := mkEvent "t" {[ "a" := VString a; "b" := VString b ]} ∅ ∅ None zero_time false Replication in
  PrimaryKeyValue (key "x" "yb=z") ["a"; "b"] = PrimaryKeyValue (key "xb=y" "z") ["a"; "b"] /\
  key "x" "yb=z" <> key "xb=y" "z".
Proof.
  cbv zeta. split; [reflexivity|]. intros Heq%(f_equal (fun e => e_PrimaryKeyMap e !! "a")). discriminate.
Qed.
End Collision.

(** Two columns that normalise to one name: the last one visited wins. *)
Example Save_order_matters :
  let _ := plain_std in
  let d := {[ "a b" := VInt KInt 1; "a__b" := VInt KInt 2 ]} : row in
  let run order := snd (save_entries (mkSettings [] false) ∅ [] (entries_of d order)) !! "a__b" in
  run ["a b"; "a__b"] = Some (VInt KInt 2) /\ run ["a__b"; "a b"] = Some (VInt KInt 1).
Proof. split; reflexivity. Qed.

Definition example_event : Event :=
  mkEvent "orders" {[ "id" := VInt KInt 1 ]}
    {[ "id" := VInt KInt 1; "Full Name" := VString "x"; DeleteColumnMarker := VBool false ]}
    ∅ None zero_time false Replication.
Definition example_message (offset : Z) : Message :=
  NewMessage (Some (mkKafkaMessage "orders" 0 offset 0 [] [] zero_time)) None EmptyString.

Lemma Save_order_independent_witness :
  let _ := plain_std in
  same_outcome "orders"
    (Save example_config ∅ (Some example_topic) (example_message 1) ["id"]
       ["id"; "Full Name"; DeleteColumnMarker] example_event)
    (Save example_config ∅ (Some example_topic) (example_message 1) ["id"]
       [DeleteColumnMarker; "Full Name"; "id"] example_event).
Proof.
  apply (Save_order_independent (H := plain_std) example_config ∅ (Some example_topic) (example_message 1)).
  - reflexivity.
  - apply (bool_decide_unpack _). vm_compute. reflexivity.
  - apply (bool_decide_unpack _). vm_compute. reflexivity.
Defined.

Lemma PrimaryKeyValue_deterministic_witness :
  let _ := plain_std in
  PrimaryKeyValue example_event ["id"; "x"] = PrimaryKeyValue example_event ["x"; "id"].
Proof.
  apply (PrimaryKeyValue_deterministic (H := plain_std)). constructor.
Defined.

(** * History mode *)

Lemma history_table_name_suffix t : has_suffix (history_table_name t) HistoryModeSuffix = true.
Proof.
  unfold history_table_name. destruct (has_suffix t HistoryModeSuffix) eqn:E; [done|]. apply has_suffix_app.
Qed.

(** An event of a history-mode topic is stored in a table whose name ends
    in the history suffix, added once; its row has the operation and no
    delete marker, and every other column as the event has it. *)
Theorem ToMemoryEvent_history event now pkMap order tc :
  let e := ToMemoryEvent event now pkMap order tc History in
  has_suffix (e_Table e) HistoryModeSuffix = true /\ history_table_name (e_Table e) = e_Table e /\
  e_Data e !! DeleteColumnMarker = None /\
  e_Data e !! OperationColumnMarker = Some (VString (Operation event)) /\
  (forall col, col <> DeleteColumnMarker -> col <> OperationColumnMarker ->
     e_Data e !! col = GetData event now pkMap tc !! col).
Proof.
  unfold ToMemoryEvent. rewrite bool_decide_true by done. simpl.
  set (t := Override _). split; [apply history_table_name_suffix|].
  split; [unfold history_table_name at 1; by rewrite history_table_name_suffix|].
  split; [apply lookup_delete_eq|]. split.
  - rewrite lookup_delete_ne by done. apply lookup_insert_eq.
  - intros col H1 H2. by rewrite lookup_delete_ne, lookup_insert_ne by done.
Qed.

(** * Tables of the same name *)

(** Adding columns changes no other field. *)
Lemma add_columns_field {A} (f : TableData -> A) td cols td' :
  (forall t cols, f (set_inMemoryColumns cols t) = f t) -> add_columns td cols = Ok td' -> f td' = f td.
Proof.
  intros Hf. unfold add_columns.
  enough (Hgen : forall acc, (forall x, acc = Ok x -> f x = f td) ->
    foldl (fun td col => td ← td; AddInMemoryCol td col) acc cols = Ok td' -> f td' = f td)
    by (apply Hgen; by intros x [= <-]).
  induction cols as [|c cols IH]; intros acc Hacc; simpl; [apply Hacc|]. apply IH.
  intros x Hx. apply bind_Ok in Hx as (y & Hy & Hx). unfold AddInMemoryCol in Hx.
  destruct (td_inMemoryColumns y); [|done]. injection Hx as <-. rewrite Hf. exact (Hacc y Hy).
Qed.

(** A topic of another database whose table has the same name *)
Definition example_other_topic : TopicConfig :=
  TopicConfig_Load (mkTopicConfig "archive" "orders" "public" "archive.orders" EmptyString DBZPostgresFormat JSONKeyFmt
                      false true EmptyString false false None None).

(** Buffers are named by the table alone: an event of another topic whose
    table has the same name, in another database or schema, joins the first
    topic's buffer and is written with the first topic's configuration. *)
Theorem same_table_name_shares_buffer `{GoStd} cfg db tc msg pks order e db' e' flush mt td :
  db !! e_Table e = Some mt -> mt_TableData mt = Some td ->
  Save cfg db (Some tc) msg pks order e = Ok (db', e', flush) ->
  exists mt' td', db' !! e_Table e = Some mt' /\ mt_TableData mt' = Some td' /\ td_TopicConfig td' = td_TopicConfig td.
Proof.
  intros Hmt Htd. unfold Save. destruct (negb (IsValid e)); [done|].
  unfold GetOrCreateTableData, event_buffer. rewrite Hmt, Htd.
  destruct (match e_Columns e with Some cols => add_columns td (GetColumns (Some cols)) | None => Ok td end)
    as [td1| |] eqn:E; simpl; [|done..].
  assert (Htc : td_TopicConfig td1 = td_TopicConfig td).
  { destruct (e_Columns e); [by apply (add_columns_field td_TopicConfig) in E | by injection E as <-]. }
  destruct (ReadOnlyInMemoryCols td1) as [cols|]; [|done].
  destruct (save_entries _ _ cols _) as [cols' d]. intros [= <- _ _].
  do 2 eexists. split; [apply lookup_insert_eq|]. split; [reflexivity|]. simpl.
  rewrite <- Htc. unfold InsertRow; simpl. case_bool_decide; [done|].
  by destruct (td_rowsData td1 !! _).
Qed.

Lemma same_table_name_shares_buffer_witness :
  let _ := plain_std in
  exists mt' td', td_TopicConfig td' = example_topic /\ mt_TableData mt' = Some td' /\
    match Save example_config {[ "orders" := mkModelTable (Some example_table) zero_time ]} (Some example_other_topic)
            (example_message 1) ["id"] ["id"; "Full Name"; DeleteColumnMarker] example_event with
    | Ok (db', _, _) => db' !! "orders" = Some mt'
    | _ => False
    end.
Proof.
  cbv zeta.
  destruct (Save (H := plain_std) example_config {[ "orders" := mkModelTable (Some example_table) zero_time ]}
              (Some example_other_topic) (example_message 1) ["id"] ["id"; "Full Name"; DeleteColumnMarker] example_event)
    as [[[db' e'] flush]|e|w] eqn:E; [|exfalso; vm_compute in E; discriminate..].
  destruct (same_table_name_shares_buffer (H := plain_std) example_config
              {[ "orders" := mkModelTable (Some example_table) zero_time ]} example_other_topic (example_message 1) ["id"]
              ["id"; "Full Name"; DeleteColumnMarker] example_event db' e' flush
              (mkModelTable (Some example_table) zero_time) example_table (lookup_singleton_eq _ _) eq_refl E)
    as (mt' & td' & H1 & H2 & H3).
  exists mt', td'. split; [exact H3 | split; [exact H2 | exact H1]].
Defined.
