(* ===== verification/Debezium.v ===== *)
(** Debezium messages: [lib/debezium] (keys, schemas, values) and
    [lib/jsonutil].  [encoding/json] and [encoding/base64] are operations of
    [GoStd]; the PostGIS library that reads geometries is a parameter
    ([GeoLib]). *)
From Stdlib Require Import SpecFloat.
From S2P Require Import Prelude GoLang Constants StringUtil Decimal Values Typing Columns Kafkalib.
Local Open Scope string_scope.
Local Open Scope list_scope.
Local Open Scope Z_scope.

(** * Keys: keys.go *)

Definition stringPrefix : string := "Struct{".
Definition stringSuffix : string := "}".

(** [sanitizePayload]: [order] is the iteration order of the map. *)
Definition sanitize_key (retMap escapedRetMap : row) (key : string) : row :=
  match retMap !! key with
  | Some v => <[columns_EscapeName key := v]> escapedRetMap
  | None => escapedRetMap
  end.
Definition sanitizePayload (retMap : row) (order : list string) : row := foldl (sanitize_key retMap) ∅ order.

(** One [k=v] part: what follows the first [=] is the value. *)
Definition parse_pair (kvPartString : string) : result (string * value) :=
  match split_on "="%char kvPartString with
  | k :: ((_ :: _) as rest) => Ok (k, VString (join "=" rest))
  | _ => errorf ("malformed key value pair: " +:+ quote kvPartString)
  end.

Section Keys.
Context `{GoStd}.
(** The iteration order of a map *)
Variable iter : row -> list string.

Definition parsePartitionKeyString (keyBytes : list Z) : result row :=
  let keyString := string_of_bytes keyBytes in
  if bool_decide (keyBytes = []) then errorf "key is nil"
  else if (String.length keyString <=? String.length (stringPrefix +:+ stringSuffix))%nat then errorf "key is too short"
  else if negb (has_prefix keyString stringPrefix && has_suffix keyString stringSuffix)
  then errorf "incorrect key structure"
  else
    let parsedKeyString := trim_suffix (drop_string (String.length stringPrefix) keyString) stringSuffix in
    pairs ← traverse parse_pair (split_on ","%char parsedKeyString);
    let retMap : row := foldl (fun m kv => <[fst kv := snd kv]> m) ∅ pairs in
    let retMap := delete DebeziumTopicRoutingKey retMap in
    Ok (sanitizePayload retMap (iter retMap)).

(** A key without the envelope is returned as it is; [null] unmarshals to a
    nil map. *)
Definition parsePartitionKeyStruct (keyBytes : list Z) : result row :=
  if bool_decide (keyBytes = []) then errorf "key is nil"
  else
    match json_Unmarshal (string_of_bytes keyBytes) with
    | Some (VMap pkStruct) =>
        let pkStruct := row_of_map pkStruct in
        if bool_decide (pkStruct = ∅) then errorf "key is nil"
        else match pkStruct !! "payload" with
             | None => Ok (sanitizePayload pkStruct (iter pkStruct))
             | Some (VMap payload) =>
                 let pkStruct := delete DebeziumTopicRoutingKey (row_of_map payload) in
                 Ok (sanitizePayload pkStruct (iter pkStruct))
             | Some _ => errorf "key object is malformated"
             end
    | Some VNil => errorf "key is nil"
    | _ => errorf "failed to json unmarshal"
    end.

Definition ParsePartitionKey (key : list Z) (cdcKeyFormat : string) : result row :=
  if String.eqb cdcKeyFormat JSONKeyFmt then parsePartitionKeyStruct key
  else if String.eqb cdcKeyFormat StringKeyFmt then parsePartitionKeyString key
  else errorf ("format: " +:+ cdcKeyFormat +:+ " is not supported").
End Keys.

(** * Field types *)

(** [FieldType] *)
Definition FieldType_String : string := "string".
Definition FieldType_Bytes : string := "bytes".
Definition FieldType_Boolean : string := "boolean".
Definition FieldType_Int16 : string := "int16".
Definition FieldType_Int32 : string := "int32".
Definition FieldType_Int64 : string := "int64".
Definition FieldType_Float : string := "float".
Definition FieldType_Double : string := "double".
Definition FieldType_Struct : string := "struct".
Definition FieldType_Array : string := "array".
Definition FieldType_Map : string := "map".

(** [SupportedDebeziumType] *)
Definition DebeziumJSON : string := "io.debezium.data.Json".
Definition Timestamp : string := "io.debezium.time.Timestamp".
Definition MicroTimestamp : string := "io.debezium.time.MicroTimestamp".
Definition DebeziumDate : string := "io.debezium.time.Date".
Definition DebeziumTime : string := "io.debezium.time.Time".
Definition MicroTime : string := "io.debezium.time.MicroTime".
Definition TimeWithTimezone : string := "io.debezium.time.ZonedTime".
Definition DateTimeWithTimezone : string := "io.debezium.time.ZonedTimestamp".
Definition DateKafkaConnect : string := "org.apache.kafka.connect.data.Date".
Definition TimeKafkaConnect : string := "org.apache.kafka.connect.data.Time".
Definition DateTimeKafkaConnect : string := "org.apache.kafka.connect.data.Timestamp".
Definition KafkaDecimalType : string := "org.apache.kafka.connect.data.Decimal".
Definition KafkaVariableNumericType : string := "io.debezium.data.VariableScaleDecimal".
Definition GeometryPointType : string := "io.debezium.data.geometry.Point".
Definition GeometryType : string := "io.debezium.data.geometry.Geometry".
Definition GeographyType : string := "io.debezium.data.geometry.Geography".
Definition KafkaDecimalPrecisionKey : string := "connect.decimal.precision".

(** * Schemas: schema.go *)

Record Field := mkField {
  f_Type : string;
  f_Optional : bool;
  f_Default : value;
  f_FieldName : string;
  f_DebeziumType : string;
  f_Parameters : row
}.

Record FieldsObject := mkFieldsObject {
  fo_FieldObjectType : string;
  fo_Fields : list Field;
  fo_Optional : bool;
  fo_FieldLabel : string
}.

Record Schema := mkSchema { SchemaType : string; s_FieldsObject : list FieldsObject }.

(** [cdc.After] *)
Definition After_label : string := "after".

Definition GetSchemaFromLabel (s : Schema) (kind : string) : option FieldsObject :=
  find_first (fun fo => String.eqb (fo_FieldLabel fo) kind) (s_FieldsObject s).

Section Fields.
Context `{GoStd}.

Definition GetScaleAndPrecision (f : Field) : result (Z * option Z) :=
  scale ← GetIntegerFromMap (f_Parameters f) "scale";
  match f_Parameters f !! KafkaDecimalPrecisionKey with
  | None => Ok (scale, None)
  | Some _ =>
      precision ← GetIntegerFromMap (f_Parameters f) KafkaDecimalPrecisionKey;
      Ok (scale, Some precision)
  end.

Definition ToKindDetails (f : Field) : KindDetails :=
  if mem_string [Timestamp; MicroTimestamp; DateTimeKafkaConnect; DateTimeWithTimezone] (f_DebeziumType f)
  then NewKindDetailsFromTemplate ETime DateTimeKindType
  else if mem_string [DebeziumDate; DateKafkaConnect] (f_DebeziumType f)
  then NewKindDetailsFromTemplate ETime DateKindType
  else if mem_string [DebeziumTime; MicroTime; TimeKafkaConnect; TimeWithTimezone] (f_DebeziumType f)
  then NewKindDetailsFromTemplate ETime TimeKindType
  else if mem_string [DebeziumJSON; GeometryPointType; GeometryType; GeographyType] (f_DebeziumType f) then Struct
  else if String.eqb (f_DebeziumType f) KafkaDecimalType then
    match GetScaleAndPrecision f with
    | Ok (scale, precision) => with_Decimal EDecimal (Some (NewDecimal precision scale None))
    | _ => Invalid
    end
  else if String.eqb (f_DebeziumType f) KafkaVariableNumericType then
    with_Decimal EDecimal (Some (NewDecimal (Some PrecisionNotSpecified) DefaultScale None))
  else if mem_string [FieldType_Map] (f_Type f) then Struct
  else if mem_string [FieldType_Int16; FieldType_Int32; FieldType_Int64] (f_Type f) then Integer
  else if mem_string [FieldType_Float; FieldType_Double] (f_Type f) then Float
  else if mem_string [FieldType_String; FieldType_Bytes] (f_Type f) then String_
  else if mem_string [FieldType_Struct] (f_Type f) then Struct
  else if mem_string [FieldType_Boolean] (f_Type f) then Boolean
  else if mem_string [FieldType_Array] (f_Type f) then Array
  else Invalid.

Definition IsInteger (f : Field) : bool := kd_eqb (ToKindDetails f) Integer.

(** * Values: types.go, geometry.go, jsonutil *)

Definition toBytes (v : value) : result (list Z) :=
  match v with
  | VBytes b => Ok b
  | _ => match base64_Decode (Sprint v) with
         | Some b => Ok b
         | None => errorf "failed to base64 decode"
         end
  end.

Definition toInt64 (v : value) : result Z :=
  match v with
  | VInt (KInt | KInt16 | KInt32 | KInt64) z => Ok z
  | VFloat64 x => Ok (int64_of_float x)
  | _ => errorf ("failed to cast value '" +:+ Sprint v +:+ "' with type '" +:+ type_name v +:+ "' to int64")
  end.

(** [jsonutil.SanitizePayload]: an error of [json.Marshal] is shadowed, the
    result then is [nil, nil]. *)
Definition SanitizePayload (v : value) : result value :=
  match v with
  | VString s =>
      match json_Unmarshal s with
      | None => errorf "failed to unmarshal"
      | Some obj => Ok (match json_Marshal obj with Some s' => VString s' | None => VNil end)
      end
  | _ => Ok v
  end.

(** [parseGeometryPoint]: the fields of [GeoJSON] in order, [properties] omitted *)
Definition parseGeometryPoint (v : value) : result value :=
  match v with
  | VMap m =>
      match row_of_map m !! "x", row_of_map m !! "y" with
      | None, _ => errorf "x coordinate does not exist"
      | _, None => errorf "y coordinate does not exist"
      | Some x, Some y =>
          match json_Marshal (VSlice [x; y]) with
          | None => errorf "json: error calling MarshalJSON"
          | Some coordinates =>
              Ok (VString ("{" +:+ quote "type" +:+ ":" +:+ quote "Feature" +:+ "," +:+ quote "geometry" +:+ ":{" +:+
                           quote "type" +:+ ":" +:+ quote "Point" +:+ "," +:+ quote "coordinates" +:+ ":" +:+
                           coordinates +:+ "}}"))
          end
      end
  | _ => errorf "value is not map[string]any type"
  end.

Definition Field_DecodeDecimal (f : Field) (encoded : list Z) : result value :=
  sp ← wrap_err "failed to get scale and/or precision: " EmptyString (GetScaleAndPrecision f);
  Ok (VDecimal (DecodeDecimal encoded (snd sp) (fst sp))).

Definition DecodeDebeziumVariableDecimal (v : value) : result value :=
  match v with
  | VMap m =>
      scale ← GetIntegerFromMap (row_of_map m) "scale";
      match row_of_map m !! "value" with
      | None => errorf "encoded value does not exist"
      | Some val =>
          bytes ← toBytes val;
          Ok (VDecimal (DecodeDecimal bytes (Some PrecisionNotSpecified) scale))
      end
  | _ => errorf "value is not map[string]any type"
  end.

(** The time of each Debezium type, before its validity check *)
Definition debezium_time (supportedType : string) (val : Z) : option ExtendedTime :=
  if mem_string [Timestamp; DateTimeKafkaConnect] supportedType
  then Some (NewExtendedTime (UnixMilli val) DateTimeKindType RFC3339Nano)
  else if mem_string [MicroTimestamp] supportedType
  then Some (NewExtendedTime (UnixMicro val) DateTimeKindType RFC3339Nano)
  else if mem_string [DebeziumDate; DateKafkaConnect] supportedType
  then Some (NewExtendedTime (epoch_AddDays val) DateKindType EmptyString)
  else if mem_string [DebeziumTime; TimeKafkaConnect] supportedType
  then Some (NewExtendedTime (UnixMilli val) TimeKindType EmptyString)
  else if mem_string [MicroTime] supportedType
  then Some (NewExtendedTime (UnixMicro val) TimeKindType EmptyString)
  else None.

Definition FromDebeziumTypeToTime (supportedType : string) (val : Z) : result ExtendedTime :=
  match debezium_time supportedType val with
  | None => errorf ("supportedType: " +:+ supportedType +:+ ", val: " +:+ itoa val +:+ " failed to be matched")
  | Some extTime =>
      if ExtendedTime_IsValid extTime then Ok extTime
      else errorf ("extTime is invalid: " +:+ sprint_time extTime)
  end.

Definition debezium_time_types : list string :=
  [Timestamp; MicroTimestamp; DebeziumDate; DebeziumTime; MicroTime; DateKafkaConnect; TimeKafkaConnect;
   DateTimeKafkaConnect].
End Fields.

(** The PostGIS library: [ewkb.Unmarshal] and [geojson.Feature.MarshalJSON] *)
Class GeoLib := {
  geom : Type;
  ewkb_Unmarshal : list Z -> result geom;
  feature_MarshalJSON : geom -> result string
}.

Section Values.
Context `{GoStd} `{GeoLib}.

Definition parseGeometry (v : value) : result value :=
  match v with
  | VMap m =>
      match row_of_map m !! "wkb" with
      | None => errorf "wkb does not exist"
      | Some wkbVal =>
          match base64_Decode (Sprint wkbVal) with
          | None => errorf "error decoding base64"
          | Some wkbBytes =>
              geom ← wrap_err "error unmarshalling WKB bytes: " EmptyString (ewkb_Unmarshal wkbBytes);
              VString <$> wrap_err "error marshalling GeoJSON: " EmptyString (feature_MarshalJSON geom)
          end
      end
  | _ => errorf "value is not map[string]any type"
  end.

(** [f.ParseValue(value)] *)
Definition Field_ParseValue (f : Field) (v : value) : result value :=
  if is_nil v then Ok VNil
  else if IsInteger f then VInt KInt <$> toInt64 v
  else if String.eqb (f_DebeziumType f) DebeziumJSON then
    if is_string v ToastUnavailableValuePlaceholder then Ok v else SanitizePayload v
  else if mem_string [GeometryType; GeographyType] (f_DebeziumType f) then parseGeometry v
  else if String.eqb (f_DebeziumType f) GeometryPointType then parseGeometryPoint v
  else if String.eqb (f_DebeziumType f) KafkaDecimalType then
    bytes ← toBytes v; Field_DecodeDecimal f bytes
  else if String.eqb (f_DebeziumType f) KafkaVariableNumericType then DecodeDebeziumVariableDecimal v
  else if mem_string debezium_time_types (f_DebeziumType f) then
    match parse_Float (Sprint v) with
    | None => errorf "strconv.ParseFloat: parsing failed"
    | Some floatVal => VTime <$> FromDebeziumTypeToTime (f_DebeziumType f) (int64_of_float floatVal)
    end
  else match v with
       | VBytes b => Ok (VString (base64_Encode b))
       | _ => Ok v
       end.
End Values.

(** * String keys: round trip *)

Lemma foldl_insert_app {A} (kvs : list (string * A)) (m : gmap string A) :
  NoDup (map fst kvs) -> (forall k, k ∈ map fst kvs -> m !! k = None) ->
  foldl (fun m kv => <[fst kv := snd kv]> m) m kvs = list_to_map kvs ∪ m.
Proof.
  revert m. induction kvs as [|[k v] kvs IH]; intros m Hnd Hm; simpl.
  { by rewrite (left_id_L ∅ (∪)). }
  apply NoDup_cons in Hnd as [Hk Hnd]. rewrite IH; [|done|].
  - rewrite <- insert_union_r; [by rewrite insert_union_l | by apply not_elem_of_list_to_map].
  - intros k' Hk'. rewrite lookup_insert_ne; [apply Hm; by right | by intros ->].
Qed.

(** Sanitising visits every key once: with names that stay apart, every value
    is found under its escaped name and nothing else is there. *)
Lemma sanitize_fold (m acc : row) order n :
  NoDup (map columns_EscapeName order) ->
  foldl (sanitize_key m) acc order !! n =
  match find_first (fun k => String.eqb (columns_EscapeName k) n && bool_decide (is_Some (m !! k))) order with
  | Some k => m !! k
  | None => acc !! n
  end.
Proof.
  revert acc. induction order as [|k order IH]; intros acc Hnd; simpl; [done|].
  apply NoDup_cons in Hnd as [Hk Hnd]. rewrite IH by done. unfold sanitize_key.
  destruct (m !! k) as [v|] eqn:Hm; simpl.
  - rewrite andb_true_r. destruct (String.eqb_spec (columns_EscapeName k) n) as [<-|Hne].
    + rewrite (proj2 (find_first_None _ _)); [by rewrite lookup_insert_eq|].
      intros x Hx. apply andb_false_iff. left. apply String.eqb_neq. intros Heq. apply Hk.
      rewrite <- Heq. apply list_elem_of_fmap. by exists x.
    + destruct (find_first _ order); [done|]. by rewrite lookup_insert_ne.
  - by rewrite andb_false_r.
Qed.

(** Kafka Connect's text of a key: [Struct{k=v,k1=v1}] *)
Definition struct_text (kvs : list (string * string)) : string :=
  stringPrefix +:+ join "," (map (fun kv => fst kv +:+ "=" +:+ snd kv) kvs) +:+ stringSuffix.

(** The names and values that the text does not confuse: no comma, and no [=] in a name *)
Definition plain_pair (kv : string * string) : Prop :=
  count_char "=" (fst kv) = 0%nat /\ count_char "," (fst kv +:+ "=" +:+ snd kv) = 0%nat.

(** The columns of a key: its fields under their escaped names, but for the
    routing field that Debezium adds *)
Definition key_columns (kvs : list (string * string)) : list (string * string) :=
  map (fun kv => (columns_EscapeName (fst kv), snd kv))
    (List.filter (fun kv => negb (String.eqb (fst kv) DebeziumTopicRoutingKey)) kvs).

Lemma parse_pair_text k v :
  count_char "=" k = 0%nat -> parse_pair (k +:+ "=" +:+ v) = Ok (k, VString v).
Proof.
  intros Hk. unfold parse_pair. change (k +:+ "=" +:+ v) with (k +:+ String "=" v).
  rewrite split_on_app by done.
  pose proof (join_split "=" v) as Hj. pose proof (split_on_nonempty "=" v) as Hne.
  destruct (split_on "=" v) as [|w ws]; [done|]. by do 3 f_equal.
Qed.

Lemma parse_pairs_text kvs :
  Forall plain_pair kvs ->
  traverse parse_pair (map (fun kv => fst kv +:+ "=" +:+ snd kv) kvs) = Ok (map (fun kv => (fst kv, VString (snd kv))) kvs).
Proof.
  induction 1 as [|[k v] kvs (Hk & _) _ IH]; [done|]. cbn [map traverse fst snd]. by rewrite parse_pair_text, IH.
Qed.

Lemma struct_text_parts kvs :
  kvs <> [] ->
  let s := struct_text kvs in
  has_prefix s stringPrefix = true /\ has_suffix s stringSuffix = true /\
  (String.length (stringPrefix +:+ stringSuffix) < String.length s)%nat /\
  trim_suffix (drop_string (String.length stringPrefix) s) stringSuffix =
    join "," (map (fun kv => fst kv +:+ "=" +:+ snd kv) kvs).
Proof.
  intros Hne. cbv zeta. unfold struct_text. split_and!.
  - apply has_prefix_app.
  - rewrite string_app_assoc. apply has_suffix_app.
  - rewrite !string_length_app. destruct kvs as [|[k v] kvs]; [done|].
    cut (0 < String.length (join "," (map (fun kv => fst kv +:+ "=" +:+ snd kv) ((k, v) :: kvs))))%nat; [simpl; lia|].
    destruct kvs as [|kv kvs]; cbn [map join fst snd]; rewrite ?string_length_app; simpl; lia.
  - rewrite drop_string_app. apply trim_suffix_app.
Qed.

(** What is sanitised is found under its escaped name. *)
Lemma sanitizePayload_list (kvs : list (string * value)) order :
  NoDup (map (columns_EscapeName ∘ fst) kvs) -> order ≡ₚ map fst kvs ->
  sanitizePayload (list_to_map kvs) order = list_to_map (map (fun kv => (columns_EscapeName (fst kv), snd kv)) kvs).
Proof.
  intros Hnd Ho. assert (Hesc : NoDup (map columns_EscapeName order)) by (rewrite Ho, map_map; exact Hnd).
  assert (Hfst : NoDup (map fst kvs)).
  { apply (NoDup_fmap_1 columns_EscapeName). change (NoDup (map columns_EscapeName (map fst kvs))). by rewrite map_map. }
  assert (Hnd' : NoDup (map fst (map (fun kv : string * value => (columns_EscapeName (fst kv), snd kv)) kvs))) by by rewrite map_map.
  apply map_eq. intros n. unfold sanitizePayload. rewrite sanitize_fold by done.
  destruct (find_first _ order) as [k|] eqn:Hf.
  - apply find_first_Some in Hf as [Hin [Hk Hs]%andb_true_iff]. apply String.eqb_eq in Hk. subst n.
    apply bool_decide_eq_true in Hs as [v Hv]. rewrite Hv. symmetry. apply elem_of_list_to_map_1; [done|].
    apply elem_of_list_to_map_2 in Hv. apply list_elem_of_fmap. by exists (k, v).
  - rewrite lookup_empty. symmetry. apply not_elem_of_list_to_map_1. rewrite map_map. cbn [fst].
    intros ([k v] & -> & Hin)%list_elem_of_fmap.
    assert (Hk : k ∈ order) by (rewrite Ho; apply list_elem_of_fmap; by exists (k, v)).
    pose proof (proj1 (find_first_None _ _) Hf k Hk) as Hfalse. cbv beta in Hfalse. cbn [fst] in Hfalse.
    rewrite String.eqb_refl, (elem_of_list_to_map_1 _ k v Hfst Hin) in Hfalse. done.
Qed.

(** Deleting a key of a list without repetitions *)
Lemma delete_list_to_map {A} (kvs : list (string * A)) k :
  NoDup (map fst kvs) ->
  delete k (list_to_map kvs : gmap string A) = list_to_map (List.filter (fun kv => negb (String.eqb (fst kv) k)) kvs).
Proof.
  induction kvs as [|[k' v] kvs IH]; intros Hnd; cbn [map list_to_map foldr List.filter fst snd].
  { by rewrite delete_empty. }
  apply NoDup_cons in Hnd as [Hn Hnd]. destruct (String.eqb_spec k' k) as [-> | Hne]; cbn [negb].
  - apply not_elem_of_list_to_map_1 in Hn. rewrite delete_insert_id by done. rewrite <- IH by done. by rewrite delete_id.
  - rewrite delete_insert_ne by done. cbn [list_to_map foldr fst snd]. by rewrite IH.
Qed.

(** C39. A key in the string format is read back: from Kafka Connect's text of
    the pairs [k=v], the parsed primary key has exactly their columns, named
    by the escaped name of each field but the routing field, with their values,
    also for values that contain [=].  The format does not escape its
    separators: names must have no comma and no [=], values no comma
    ([comma_in_value_lost]), and escaped names must differ. *)
Theorem ParsePartitionKey_string_roundtrip `{GoStd} (iter : row -> list string) kvs :
  (forall m, iter m ≡ₚ map fst (map_to_list m)) ->
  kvs <> [] -> NoDup (map fst kvs) -> NoDup (map fst (key_columns kvs)) -> Forall plain_pair kvs ->
  ParsePartitionKey iter (bytes_of_string (struct_text kvs)) StringKeyFmt =
  Ok (list_to_map (map (fun kv => (fst kv, VString (snd kv))) (key_columns kvs))).
Proof.
  intros Hiter Hne Hnd Hesc Hplain. unfold ParsePartitionKey, parsePartitionKeyString.
  rewrite string_of_bytes_of_string.
  destruct (struct_text_parts kvs Hne) as (Hp & Hs & Hlen & Hmid).
  rewrite bool_decide_false by (by intros Heq; rewrite <- (string_of_bytes_of_string (struct_text kvs)), Heq in Hlen;
                                 simpl in Hlen; lia).
  rewrite (proj2 (Nat.leb_gt _ _) Hlen), Hp, Hs, Hmid. change "," with (str1 ",").
  rewrite split_join; [|by destruct kvs | apply Forall_map; eapply Forall_impl; [exact Hplain | by intros ? (_ & ?)]].
  rewrite parse_pairs_text by done. cbn [mbind result_bind negb andb].
  set (l := map _ kvs). assert (Hfst : map fst l = map fst kvs) by (unfold l; by rewrite map_map).
  rewrite (foldl_insert_app _ (∅ : row)); [|by rewrite Hfst | intros; apply lookup_empty].
  rewrite (right_id_L ∅ (∪)), delete_list_to_map by by rewrite Hfst.
  set (l' := List.filter _ l).
  assert (Hl' : l' = map (fun kv => (fst kv, VString (snd kv)))
                       (List.filter (fun kv => negb (String.eqb (fst kv) DebeziumTopicRoutingKey)) kvs)).
  { unfold l', l. clear. induction kvs as [|kv kvs IH]; simpl; [done|]. rewrite IH. by destruct (negb _). }
  assert (Hnd' : NoDup (map fst l')).
  { eapply sublist_NoDup; [|apply (fmap_sublist fst), filter_sublist]. change (NoDup (map fst l)). by rewrite Hfst. }
  rewrite sanitizePayload_list.
  - do 2 f_equal. rewrite Hl'. unfold key_columns. by rewrite !map_map.
  - rewrite Hl', map_map. unfold key_columns in Hesc. by rewrite map_map in Hesc.
  - rewrite Hiter. change (map fst ?x) with (fst <$> x). apply fmap_Permutation. by apply map_to_list_to_map.
Qed.

Definition map_keys (m : row) : list string := map fst (map_to_list m).
Definition example_kvs : list (string * string) :=
  [("Quarter_ID", "1"); ("note", "a=b"); (DebeziumTopicRoutingKey, "db.orders")].

Lemma ParsePartitionKey_string_roundtrip_witness :
  let _ := plain_std in
  ParsePartitionKey map_keys (bytes_of_string (struct_text example_kvs)) StringKeyFmt =
  Ok (list_to_map [("quarter_id", VString "1"); ("note", VString "a=b")]).
Proof.
  apply (ParsePartitionKey_string_roundtrip (H := plain_std) map_keys example_kvs).
  - intros m. reflexivity.
  - discriminate.
  - apply (bool_decide_unpack _). vm_compute. reflexivity.
  - apply (bool_decide_unpack _). vm_compute. reflexivity.
  - repeat constructor; discriminate.
Defined.

(** What follows a comma is taken for another pair. *)
Example comma_in_value_lost :
  let parse s := ParsePartitionKey (H := plain_std) map_keys (bytes_of_string s) StringKeyFmt in
  is_ok (parse (struct_text [("note", "a,b")])) = false /\
  parse (struct_text [("note", "a,id=2")]) = parse (struct_text [("note", "a"); ("id", "2")]).
Proof. split; vm_compute; reflexivity. Qed.

(** * The routing field of keys *)

(** [plain_std] with one document that every text unmarshals to *)
Definition document_std (doc : value) : GoStd := {|
  time_Parse := fun _ _ => None;
  time_Format := fun t _ => itoa (t_ns t);
  json_Valid := fun _ => true;
  json_Unmarshal := fun _ => Some doc;
  json_Marshal := fun _ => None;
  base64_Decode := fun _ => None;
  base64_Encode := fun b => join "," (map itoa b);
  sprint_float := fun _ => "float";
  sprint_time := fun t => itoa (t_ns (et_Time t));
  float_shortest := fun f => itoa (bf_mant f);
  parse_Float := fun _ => None;
  float_Overflow := fun _ => min_int64
|}.

(** The field Debezium adds to route topics is removed from keys, but not from
    JSON keys without the schema envelope. *)
Example unwrapped_key_keeps_routing :
  let parse doc := parsePartitionKeyStruct (H := document_std doc) map_keys [1] in
  parse (VMap [("payload", VMap [(DebeziumTopicRoutingKey, VString "t"); ("id", VString "1")])]) =
    Ok {[ "id" := VString "1" ]} /\
  (x ← parse (VMap [(DebeziumTopicRoutingKey, VString "t"); ("id", VString "1")]);
   Ok (x !! columns_EscapeName DebeziumTopicRoutingKey)) = Ok (Some (VString "t")).
Proof. split; vm_compute; reflexivity. Qed.

(** * Times *)

(** The instant, in nanoseconds since the epoch, and the kind of a value of a
    Debezium time type *)
Definition debezium_instant (supportedType : string) (val : Z) : option (Z * ExtendedTimeKindType) :=
  if mem_string [Timestamp; DateTimeKafkaConnect] supportedType then Some (val * 1000000, DateTimeKindType)
  else if mem_string [MicroTimestamp] supportedType then Some (val * 1000, DateTimeKindType)
  else if mem_string [DebeziumDate; DateKafkaConnect] supportedType then Some (val * 86400000000000, DateKindType)
  else if mem_string [DebeziumTime; TimeKafkaConnect] supportedType then Some (val * 1000000, TimeKindType)
  else if mem_string [MicroTime] supportedType then Some (val * 1000, TimeKindType)
  else None.

Lemma epoch_AddDays_small days : Z.abs days <= 10 ^ 14 -> epoch_AddDays days = mkTime (days * 86400000000000) 0.
Proof.
  intros Hd. unfold epoch_AddDays. rewrite wrap64_id.
  - f_equal. unfold unixToInternal, Second, Millisecond. lia.
  - unfold min_int64, max_int64, unixToInternal. lia.
Qed.

(** The types whose values count days *)
Definition debezium_date_types : list string := [DebeziumDate; DateKafkaConnect].

(** A value that a 64-bit count of seconds can hold: any number of milliseconds
    or microseconds, and a number of days well past the age of the universe. *)
Definition countable_time (t : string) (val : Z) : Prop :=
  min_int64 <= val <= max_int64 /\ (t ∈ debezium_date_types -> Z.abs val <= 10 ^ 14).

Lemma debezium_time_instant t val :
  countable_time t val ->
  debezium_time t val =
  (fun p => NewExtendedTime (mkTime (fst p) 0) (snd p)
              (if bool_decide (snd p = DateTimeKindType) then RFC3339Nano else EmptyString)) <$> debezium_instant t val.
Proof.
  intros [_ Hd]. unfold debezium_time, debezium_instant, UnixMilli, UnixMicro.
  destruct (mem_string [DebeziumDate; DateKafkaConnect] t) eqn:Hdate.
  - rewrite epoch_AddDays_small by by apply Hd, mem_string_spec. repeat case_match; reflexivity.
  - repeat case_match; reflexivity.
Qed.

(** C40. A Debezium time is decoded exactly: any 64-bit count of milliseconds or
    microseconds, and any count of at most 10^14 days, gives the instant it
    counts from the epoch, with its kind, precisely when the year of that
    instant has four digits; every other type or value is an error, never a
    wrong time.  More days may wrap ([date_wraps]). *)
Theorem FromDebeziumTypeToTime_exact `{GoStd} t val e :
  countable_time t val ->
  FromDebeziumTypeToTime t val = Ok e <->
  exists ns kind, debezium_instant t val = Some (ns, kind) /\ min_year_ns <= ns < max_year_ns /\
    e = NewExtendedTime (mkTime ns 0) kind (if bool_decide (kind = DateTimeKindType) then RFC3339Nano else EmptyString).
Proof.
  intros Hv. unfold FromDebeziumTypeToTime. rewrite debezium_time_instant by done.
  destruct (debezium_instant t val) as [[ns kind]|]; simpl; [|split; [done | by intros (? & ? & ? & _)]].
  set (e' := NewExtendedTime _ _ _). pose proof (ExtendedTime_IsValid_spec e') as Hval.
  replace (t_ns (et_Time e') + t_offset (et_Time e') * Second) with ns in Hval by (unfold e'; simpl; lia).
  destruct (ExtendedTime_IsValid e'); split.
  - intros [= <-]. exists ns, kind. split; [done|]. split; [by apply Hval | done].
  - by intros (ns' & kind' & [= <- <-] & _ & ->).
  - done.
  - intros (ns' & kind' & [= <- <-] & Hr & _). by apply Hval in Hr.
Qed.

(** A day, and a time of the year 2024 in microseconds *)
Lemma FromDebeziumTypeToTime_exact_witness :
  let _ := plain_std in
  FromDebeziumTypeToTime DebeziumDate 19800 =
    Ok (NewExtendedTime (mkTime 1710720000000000000 0) DateKindType EmptyString) /\
  FromDebeziumTypeToTime MicroTimestamp 1710720000123456 =
    Ok (NewExtendedTime (mkTime 1710720000123456000 0) DateTimeKindType RFC3339Nano).
Proof.
  assert (Hc : forall t val, Z.abs val <= 10 ^ 14 \/ t = MicroTimestamp /\ Z.abs val <= 10 ^ 18 -> countable_time t val).
  { unfold countable_time, min_int64, max_int64. intros t val [Hv | [-> Hv]]; (split; [lia|]); [lia|].
    intros Hin. apply mem_string_spec in Hin. vm_compute in Hin. discriminate Hin. }
  split.
  - apply (FromDebeziumTypeToTime_exact (H := plain_std)); [apply Hc; left; vm_compute; discriminate|].
    exists 1710720000000000000, DateKindType. split; [reflexivity|]. split; [|reflexivity].
    split; [discriminate | reflexivity].
  - apply (FromDebeziumTypeToTime_exact (H := plain_std)); [apply Hc; right; split; [done | vm_compute; discriminate]|].
    exists 1710720000123456000, DateTimeKindType. split; [reflexivity|]. split; [|reflexivity].
    split; [discriminate | reflexivity].
Defined.

(** 2^57 days are a multiple of 2^64 seconds: the epoch again. *)
Example date_wraps :
  let _ := plain_std in
  FromDebeziumTypeToTime DebeziumDate (2 ^ 57) = Ok (NewExtendedTime (mkTime 0 0) DateKindType EmptyString).
Proof. vm_compute. reflexivity. Qed.

(** * Types of parsed values *)

Ltac in_list H :=
  apply mem_string_spec in H; repeat (apply elem_of_cons in H as [H|H]); try by apply not_elem_of_nil in H.

Section Kinds.
Context `{GoStd} `{GeoLib}.

Lemma ToKindDetails_time f val e :
  debezium_time (f_DebeziumType f) val = Some e ->
  ToKindDetails f = NewKindDetailsFromTemplate ETime (nk_Type (et_NestedKind e)).
Proof.
  unfold debezium_time. intros He.
  repeat match type of He with
  | (if ?b then _ else _) = _ => destruct b eqn:?
  end; try discriminate;
  apply (inj Some) in He as <-;
  match goal with Hm : mem_string _ _ = true |- _ => in_list Hm; unfold ToKindDetails; rewrite Hm; reflexivity end.
Qed.

Lemma IsInteger_kind f : IsInteger f = true -> ToKindDetails f = Integer.
Proof. apply kd_eqb_eq. Qed.

Lemma ToKindDetails_decimal f :
  f_DebeziumType f = KafkaDecimalType ->
  ToKindDetails f = match GetScaleAndPrecision f with
                    | Ok (scale, precision) => with_Decimal EDecimal (Some (NewDecimal precision scale None))
                    | _ => Invalid
                    end.
Proof. intros Hf. unfold ToKindDetails. rewrite Hf. reflexivity. Qed.

Lemma ToKindDetails_variable f :
  f_DebeziumType f = KafkaVariableNumericType ->
  ToKindDetails f = with_Decimal EDecimal (Some (NewDecimal (Some PrecisionNotSpecified) DefaultScale None)).
Proof. intros Hf. unfold ToKindDetails. rewrite Hf. reflexivity. Qed.

Lemma FromDebezium_ok t val e : FromDebeziumTypeToTime t val = Ok e -> debezium_time t val = Some e.
Proof.
  unfold FromDebeziumTypeToTime. destruct (debezium_time t val) as [e'|]; [|done].
  destruct (ExtendedTime_IsValid e'); [|done]. by intros [= ->].
Qed.

(** The decimal types of a field: what the value of the column says of its scale and precision *)
Definition decimal_shape (kd : KindDetails) : option (Z * option Z) :=
  (fun d => (d_scale d, d_precision d)) <$> kd_ExtendedDecimalDetails kd.

Lemma NewDecimal_shape p s v v' :
  (d_scale (NewDecimal p s v), d_precision (NewDecimal p s v)) = (d_scale (NewDecimal p s v'), d_precision (NewDecimal p s v')).
Proof. reflexivity. Qed.

(** The three families of field types whose values change their Go type *)
Definition typed_field (f : Field) : bool :=
  IsInteger f || mem_string (KafkaDecimalType :: KafkaVariableNumericType :: debezium_time_types) (f_DebeziumType f).

Lemma parse_typed f v v' :
  Field_ParseValue f v = Ok v' -> is_nil v = false -> typed_field f = true ->
  (exists z, v' = VInt KInt z /\ ToKindDetails f = Integer) \/
  (exists e val, v' = VTime e /\ debezium_time (f_DebeziumType f) val = Some e) \/
  (exists bytes sp, v' = VDecimal (DecodeDecimal bytes (snd sp) (fst sp)) /\
     ((f_DebeziumType f = KafkaDecimalType /\ GetScaleAndPrecision f = Ok sp) \/
      (f_DebeziumType f = KafkaVariableNumericType /\ snd sp = Some PrecisionNotSpecified))).
Proof.
  unfold Field_ParseValue, typed_field. intros Hp Hnil Ht. rewrite Hnil in Hp. destruct (IsInteger f) eqn:Hi.
  { destruct (toInt64 v) as [z| |]; try discriminate Hp. injection Hp as <-. left. exists z. split; [done|].
    by apply IsInteger_kind. }
  right. change (mem_string (KafkaDecimalType :: KafkaVariableNumericType :: debezium_time_types) (f_DebeziumType f) = true) in Ht.
  apply mem_string_spec in Ht. apply elem_of_cons in Ht as [Hd|Ht]; [|apply elem_of_cons in Ht as [Hd|Ht]].
  - right. rewrite Hd in Hp. change ((bytes ← toBytes v; Field_DecodeDecimal f bytes) = Ok v') in Hp.
    apply bind_Ok in Hp as (bytes & _ & Hp). unfold Field_DecodeDecimal in Hp.
    apply bind_Ok in Hp as (sp & Hsp%wrap_err_ok & Hp). injection Hp as <-. exists bytes, sp. auto.
  - right. rewrite Hd in Hp. change (DecodeDebeziumVariableDecimal v = Ok v') in Hp.
    unfold DecodeDebeziumVariableDecimal in Hp. destruct v as [| | | | | | | | |m| | | | | | | |]; try discriminate Hp.
    apply bind_Ok in Hp as (scale & _ & Hp). destruct (row_of_map m !! "value"); [|discriminate Hp].
    apply bind_Ok in Hp as (bytes & _ & Hp). injection Hp as <-.
    exists bytes, (scale, Some PrecisionNotSpecified). auto.
  - left. assert (Hp' : (x ← (match parse_Float (Sprint v) with None => errorf "strconv.ParseFloat: parsing failed"
                             | Some x => Ok x end);
                        VTime <$> FromDebeziumTypeToTime (f_DebeziumType f) (int64_of_float x)) = Ok v').
    { destruct (parse_Float (Sprint v)); apply mem_string_spec in Ht as Hm; in_list Hm; rewrite Hm in Hp |- *; exact Hp. }
    apply bind_Ok in Hp' as (x & _ & Hp'). destruct (FromDebeziumTypeToTime _ _) as [e| |] eqn:He; try discriminate Hp'.
    injection Hp' as <-. exists e, (int64_of_float x). split; [done|]. by apply FromDebezium_ok.
Qed.

(** The fields whose values [ParseValue] passes on: it rewrites JSON and
    geometries, and turns the typed fields into values of their own. *)
Definition passed_on (f : Field) : bool :=
  negb (typed_field f || mem_string [DebeziumJSON; GeometryType; GeographyType; GeometryPointType] (f_DebeziumType f)).

Lemma parse_passed_on f v v' :
  Field_ParseValue f v = Ok v' -> is_nil v = false -> passed_on f = true ->
  v' = match v with VBytes b => VString (base64_Encode b) | _ => v end.
Proof.
  unfold Field_ParseValue, passed_on, typed_field. intros Hp Hnil [[Hi Hm]%orb_false_iff Hj]%negb_true_iff%orb_false_iff.
  rewrite Hnil, Hi in Hp.
  assert (Hne : forall t l, mem_string l (f_DebeziumType f) = false -> mem_string l t = true -> String.eqb (f_DebeziumType f) t = false).
  { intros t l Hl Ht. apply String.eqb_neq. intros Heq. congruence. }
  assert (Hsub : forall l l', mem_string l' (f_DebeziumType f) = false -> l ⊆ l' -> mem_string l (f_DebeziumType f) = false).
  { intros l l' Hl Hs. apply not_true_iff_false. intros Ht%mem_string_spec%Hs%mem_string_spec. congruence. }
  rewrite (Hne DebeziumJSON _ Hj eq_refl), (Hne GeometryPointType _ Hj eq_refl), (Hne KafkaDecimalType _ Hm eq_refl),
    (Hne KafkaVariableNumericType _ Hm eq_refl), (Hsub [GeometryType; GeographyType] _ Hj), (Hsub debezium_time_types _ Hm) in Hp.
  - by destruct v; injection Hp as <-.
  - intros x Hx. do 2 right. exact Hx.
  - intros x Hx. right. set_solver.
Qed.


Example zoned_time_stays_text f s :
  f_DebeziumType f = DateTimeWithTimezone -> 
  kd_Kind (ToKindDetails f) = KETime /\ passed_on f = true /\ Field_ParseValue f (VString s) = Ok (VString s).
Proof.
  intros Hf.
  assert (Hi : IsInteger f = false) by (unfold IsInteger, ToKindDetails; rewrite Hf; reflexivity).
  unfold passed_on, typed_field, Field_ParseValue. rewrite Hi. unfold ToKindDetails. rewrite Hf. by split_and!.
Qed.
End Kinds.


(** A PostGIS library that reads no geometry *)
Definition no_geo : GeoLib :=
  {| geom := unit; ewkb_Unmarshal := fun _ => errorf "unsupported"; feature_MarshalJSON := fun _ => errorf "unsupported" |}.

Definition example_decimal_field : Field :=
  mkField FieldType_Bytes false VNil "amount" KafkaDecimalType
    {[ "scale" := VString "2"; KafkaDecimalPrecisionKey := VString "5" ]}.

