(* ===== verification/Bson.v ===== *)
(** MongoDB's extended JSON: [lib/typing/mongo/bson.go].  The bson library
    parses a document and prints it again; the repository tells it how to print
    dates, object ids, binaries, decimals and timestamps.  The literals that are
    not JSON are replaced in the text before. *)
From Stdlib Require Import SpecFloat.
From S2P Require Import Prelude GoLang Constants StringUtil Decimal Values.
Local Open Scope string_scope.
Local Open Scope list_scope.
Local Open Scope Z_scope.

(** * The library's data *)

(** The values of package [primitive] that have an encoder of their own.  A
    [DateTime] is a number of milliseconds, a [Timestamp] of seconds. *)
Inductive primitive :=
| PDateTime (ms : Z)
| PObjectID (oid : list Z)
| PBinary (subtype : Z) (data : list Z)
| PDecimal128 (h l : Z)
| PTimestamp (t i : Z).

(** What an encoder writes *)
Inductive written := WriteDouble (f : spec_float) | WriteString (s : string).

(** An encoder takes a [reflect.Value], which may be the invalid one. *)
Definition encoder : Type := option primitive -> result written.

(** The encoders of a registry, by type *)
Record registry := mkRegistry {
  enc_DateTime : encoder;
  enc_ObjectID : encoder;
  enc_Binary : encoder;
  enc_Decimal128 : encoder;
  enc_Timestamp : encoder
}.

(** Third-party code: the bson library and [uuid] *)
Class BsonLib := {
  bson_D : Type;
  UnmarshalExtJSON : string -> result bson_D;
  MarshalExtJSONWithRegistry : registry -> bson_D -> result string;
  MarshalExtJSON : row -> result string;
  decimal128_String : Z -> Z -> string;
  uuid : Type;
  uuid_FromBytes : list Z -> result uuid;
  uuid_String : uuid -> string
}.

(** * Encoders *)

(** [hex.EncodeToString] *)
Definition hex_digit (d : Z) : ascii := nth (Z.to_nat d) (list_ascii_of_string "0123456789abcdef") "0"%char.
Definition hex_byte (b : Z) : string := str1 (hex_digit (Z.shiftr b 4)) +:+ str1 (hex_digit (Z.land b 15)).
Definition Hex (bytes : list Z) : string := foldr (fun b s => hex_byte b +:+ s) EmptyString bytes.

Section Encoders.
Context `{GoStd} `{BsonLib}.

Definition ValueEncoderError {A} (name : string) : result A := errorf (name +:+ " can only encode valid values").

Definition decimalEncodeValue (val : option primitive) : result written :=
  match val with
  | Some (PDecimal128 h l) =>
      match parse_Float (decimal128_String h l) with
      | Some parsedFloat => Ok (WriteDouble parsedFloat)
      | None => errorf ("strconv.ParseFloat: parsing " +:+ quote (decimal128_String h l))
      end
  | _ => ValueEncoderError "Decimal128EncodeValue"
  end.

(** [time.Unix(0, int64(ints)*1000000).UTC()]: the product is a 64-bit one. *)
Definition dateTimeEncodeValue (val : option primitive) : result written :=
  match val with
  | Some (PDateTime ms) =>
      ints ← atoi (itoa ms);
      Ok (WriteString (time_Format (mkTime (wrap64 (ints * 1000000)) 0) ISO8601))
  | _ => ValueEncoderError "DateTimeEncodeValue"
  end.

Definition objectIDEncodeValue (val : option primitive) : result written :=
  match val with
  | Some (PObjectID oid) => Ok (WriteString (Hex oid))
  | _ => ValueEncoderError "ObjectIDEncodeValue"
  end.

Definition binaryEncodeValue (val : option primitive) : result written :=
  match val with
  | Some (PBinary _ data) =>
      parsedUUID ← uuid_FromBytes data;
      Ok (WriteString (uuid_String parsedUUID))
  | _ => ValueEncoderError "ObjectIDEncodeValue"
  end.

Definition timestampEncodeValue (val : option primitive) : result written :=
  match val with
  | Some (PTimestamp t _) => Ok (WriteString (time_Format (mkTime (t * Second) 0) ISO8601))
  | _ => ValueEncoderError "ObjectIDEncodeValue"
  end.

Definition createCustomRegistry : registry :=
  mkRegistry dateTimeEncodeValue objectIDEncodeValue binaryEncodeValue decimalEncodeValue timestampEncodeValue.
End Encoders.

(** * Literals that are not JSON *)

(** The word characters of a regular expression's [\b] *)
Definition is_word (c : ascii) : bool :=
  (Ascii.leb "0" c && Ascii.leb c "9") || (Ascii.leb "A" c && Ascii.leb c "Z") ||
  (Ascii.leb "a" c && Ascii.leb c "z") || Ascii.eqb c "_".

Definition word_at (o : option ascii) : bool := match o with Some c => is_word c | None => false end.
Definition head_char (s : string) : option ascii := String.get 0 s.

(** [lit] with a word boundary on both sides, at the head of [s] *)
Definition bare_literal (lit : string) (prev : option ascii) (s : string) : bool :=
  has_prefix s lit && negb (Bool.eqb (word_at prev) (word_at (head_char lit))) &&
  negb (word_at (head_char (drop_string (String.length lit) s))).

(** The alternatives of the pattern in order: the length of the match and
    whether it is quoted.  [-] and the quote are no word characters, so the
    boundary after them always holds. *)
Definition match_literal (prev : option ascii) (s : string) : option (nat * bool) :=
  if bare_literal "NaN" prev s then Some (3%nat, false)
  else if has_prefix s (quote "NaN") then Some (5%nat, true)
  else if has_prefix s "-Infinity" && negb (word_at (head_char (drop_string 9 s))) then Some (9%nat, false)
  else if has_prefix s (quote "-Infinity") then Some (11%nat, true)
  else if bare_literal "Infinity" prev s then Some (8%nat, false)
  else if has_prefix s (quote "Infinity") then Some (10%nat, true)
  else None.

(** [re.ReplaceAllStringFunc]: a scan for the leftmost matches *)
Fixpoint escape_literals_from (fuel : nat) (prev : option ascii) (s : string) : string :=
  match fuel with
  | O => s
  | S fuel =>
      match s with
      | EmptyString => EmptyString
      | String c s' =>
          match match_literal prev s with
          | None => String c (escape_literals_from fuel (Some c) s')
          | Some (n, quoted) =>
              let rest := drop_string n s in
              let m := take_string n s in
              (if quoted then m else "null") +:+
              escape_literals_from fuel (String.get (n - 1) s) rest
          end
      end
  end.
Definition escape_literals (s : string) : string := escape_literals_from (String.length s) None s.

(** * Documents *)

Section Documents.
Context `{GoStd} `{BsonLib}.

Definition JSONEToMap (val : string) : result row :=
  bsonDoc ← wrap_err "failed to unmarshal ext json: " EmptyString (UnmarshalExtJSON (escape_literals val));
  bytes ← MarshalExtJSONWithRegistry createCustomRegistry bsonDoc;
  match json_Unmarshal bytes with
  | Some (VMap m) => Ok (row_of_map m)
  | Some VNil => Ok ∅
  | _ => errorf "json: cannot unmarshal into Go value of type map[string]interface {}"
  end.
End Documents.

(** The literals JSON does not have are replaced; quoted ones are kept, but a
    literal that is a word inside a longer string is replaced too. *)
Example escape_literals_examples :
  escape_literals "{a: NaN, b: -Infinity, c: Infinity}" = "{a: null, b: null, c: null}" /\
  escape_literals (quote "NaN" +:+ "," +:+ quote "-Infinity" +:+ ",NaNs") = quote "NaN" +:+ "," +:+ quote "-Infinity" +:+ ",NaNs" /\
  escape_literals (quote "to Infinity and beyond") = quote "to null and beyond".
Proof. repeat split. Qed.

(** * What the encoders print *)

Section EncoderFacts.
Context `{GoStd} `{BsonLib}.

(** C35. A date is printed as the instant it stands for exactly when its
    nanoseconds fit 64 bits; outside, which is before 1677 or after 2262, the
    product wraps around and another instant is printed. *)
Theorem dateTimeEncodeValue_exact ms :
  min_int64 <= ms <= max_int64 ->
  exists t, dateTimeEncodeValue (Some (PDateTime ms)) = Ok (WriteString (time_Format t ISO8601)) /\
    (t = UnixMilli ms <-> -9223372036854 <= ms <= 9223372036854).
Proof.
  intros Hms. unfold dateTimeEncodeValue. rewrite atoi_itoa by done. cbn [mbind result_bind].
  eexists. split; [reflexivity|]. unfold UnixMilli. change Millisecond with 1000000. split.
  - intros [= Ht]. pose proof (wrap64_range (ms * 1000000)) as Hr. rewrite Ht in Hr.
    unfold min_int64, max_int64 in Hr. lia.
  - intros Hr. rewrite wrap64_id; [done|]. unfold min_int64, max_int64. lia.
Qed.

(** [uuid.FromBytes] accepts 16 bytes, and nothing else. *)
Hypothesis uuid_length : forall data, is_ok (uuid_FromBytes data) = Nat.eqb (length data) 16.

(** A binary value is printed only when it has the size of a UUID, whatever its
    subtype: any other binary makes its document fail. *)
Lemma binaryEncodeValue_uuid_only subtype data :
  is_ok (binaryEncodeValue (Some (PBinary subtype data))) = Nat.eqb (length data) 16.
Proof. rewrite <- uuid_length. unfold binaryEncodeValue. by destruct (uuid_FromBytes data). Qed.
End EncoderFacts.

(** Libraries for the examples: a document is its text, printed unchanged *)
Definition text_bson : BsonLib := {|
  bson_D := string;
  UnmarshalExtJSON := fun s => Ok s;
  MarshalExtJSONWithRegistry := fun _ s => Ok s;
  MarshalExtJSON := fun _ => Ok EmptyString;
  decimal128_String := fun h l => itoa l;
  uuid := list Z;
  uuid_FromBytes := fun b => if Nat.eqb (length b) 16 then Ok b else errorf "invalid UUID";
  uuid_String := Hex
|}.

Lemma dateTimeEncodeValue_exact_witness :
  exists t, dateTimeEncodeValue (H := plain_std) (Some (PDateTime 1700000000000)) = Ok (WriteString (itoa (t_ns t))) /\
    t = UnixMilli 1700000000000.
Proof.
  destruct (dateTimeEncodeValue_exact (H := plain_std) 1700000000000 ltac:(split; discriminate)) as (t & Ht & Hexact).
  exists t. split; [exact Ht|]. apply Hexact. lia.
Defined.

(** The last day of year 9999, the usual "never": printed as a day of 1816 *)
Example far_date_wraps :
  dateTimeEncodeValue (H := plain_std) (Some (PDateTime 253402214400000)) = Ok (WriteString (itoa (-4852202631933722624))).
Proof. vm_compute. reflexivity. Qed.
