(* ===== verification/Cdc.v ===== *)
(** CDC events: [lib/cdc].  The relational connectors (PostgreSQL, MySQL) and
    MongoDB, as [cdc.Event]s and [cdc.Format]s.  Unmarshalling into the payload
    structs ([encoding/json]) is a parameter; MongoDB's extended JSON is converted
    by [Bson]. *)
From S2P Require Import Prelude GoLang Constants StringUtil Decimal Values Typing Columns Kafkalib Config TableData.
From S2P Require Import Event Debezium Bson.
Local Open Scope string_scope.
Local Open Scope list_scope.
Local Open Scope Z_scope.

(** * Payloads *)

(** [util.SchemaEventPayload]; a nil map is the empty one. *)
Record RelationalPayload := mkRelational {
  rp_Schema : Schema;
  rp_Before : row;
  rp_After : row;
  rp_TsMs : Z;
  rp_Table : string;
  rp_Operation : string
}.

(** [mongo.SchemaEventPayload] as it is unmarshalled, and its [afterMap] *)
Record MongoPayload := mkMongo {
  mp_Schema : Schema;
  mp_Before : option string;
  mp_After : option string;
  mp_TsMs : Z;
  mp_Collection : string;
  mp_Operation : string
}.

(** * Relational events: cdc/util *)

Section Relational.
Context `{GoStd} `{GeoLib}.

Definition execution_time (TsMs : Z) : gotime := UnixMilli TsMs.

(** The column of a field: its default value parsed, or as it is *)
Definition field_column (f : Field) : Column :=
  SetDefaultValue (match Field_ParseValue f (f_Default f) with Ok v => v | _ => f_Default f end)
    (NewColumn (columns_EscapeName (f_FieldName f)) Invalid).

Definition relational_GetColumns (s : RelationalPayload) : option (list Column) :=
  (fun fo => foldl AddColumn [] (map field_column (fo_Fields fo))) <$> GetSchemaFromLabel (rp_Schema s) After_label.

(** The fields whose type is unknown are left out. *)
Definition schema_entry (schema : gmap string KindDetails) (f : Field) : gmap string KindDetails :=
  if kd_eqb (ToKindDetails f) Invalid then schema else <[f_FieldName f := ToKindDetails f]> schema.

Definition relational_GetOptionalSchema (s : RelationalPayload) : gmap string KindDetails :=
  match GetSchemaFromLabel (rp_Schema s) After_label with
  | None => ∅
  | Some fo => foldl schema_entry ∅ (fo_Fields fo)
  end.

(** The row of a delete: the keys and the marker; a key of that name wins. *)
Definition deleted_row (pkMap : row) (tc : TopicConfig) (ts : gotime) : row :=
  let retMap := pkMap ∪ {[ DeleteColumnMarker := VBool true ]} in
  if String.eqb (tc_IdempotentKey tc) EmptyString then retMap
  else <[tc_IdempotentKey tc := VString (time_Format ts ISO8601)]> retMap.

(** The columns with the times of the update *)
Definition stamp (now ts : gotime) (tc : TopicConfig) (retMap : row) : row :=
  let retMap := if tc_IncludeArtieUpdatedAt tc
                then <[UpdateColumnMarker := VString (time_Format now ISO8601)]> retMap else retMap in
  if tc_IncludeDatabaseUpdatedAt tc
  then <[DatabaseUpdatedColumnMarker := VString (time_Format ts ISO8601)]> retMap else retMap.

(** A field's value is parsed in place; what does not parse stays. *)
Definition parse_field (retMap : row) (f : Field) : row :=
  match retMap !! f_FieldName f with
  | None => retMap
  | Some v => match Field_ParseValue f v with
              | Ok val => <[f_FieldName f := val]> retMap
              | _ => retMap
              end
  end.

(** [GetData] before the fields are parsed *)
Definition raw_data (s : RelationalPayload) (now : gotime) (pkMap : row) (tc : TopicConfig) : row :=
  stamp now (execution_time (rp_TsMs s)) tc
    (if bool_decide (rp_After s = ∅) then deleted_row pkMap tc (execution_time (rp_TsMs s))
     else <[DeleteColumnMarker := VBool false]> (rp_After s)).

(** [GetData] fills the payload's own map; it is called once per event. *)
Definition relational_GetData (s : RelationalPayload) (now : gotime) (pkMap : row) (tc : TopicConfig) : row :=
  match GetSchemaFromLabel (rp_Schema s) After_label with
  | None => raw_data s now pkMap tc
  | Some fo => foldl parse_field (raw_data s now pkMap tc) (fo_Fields fo)
  end.

Definition relational_event (s : RelationalPayload) : CdcEvent :=
  mkCdcEvent (execution_time (rp_TsMs s)) (rp_Operation s) (String.eqb (rp_Operation s) "d") (rp_Table s)
    (relational_GetData s) (relational_GetOptionalSchema s) (relational_GetColumns s).
End Relational.

(** * MongoDB events *)

Section Mongo.
Context `{GoStd} `{BsonLib}.
Variable iter : row -> list string.

(** A nested object becomes its JSON text. *)
Definition flatten_entry (settings : Settings) (after : result row) (key : string) : result row :=
  after ← after;
  match after !! key with
  | None => Ok after
  | Some v =>
      if kd_eqb (ParseValue settings key ∅ v) Struct then
        match json_Marshal v with
        | None => errorf "failed to marshal"
        | Some s => Ok (<[key := VString s]> after)
        end
      else Ok after
  end.
Definition flatten_structs (settings : Settings) (after : row) : result row :=
  foldl (flatten_entry settings) (Ok after) (iter after).

(** [GetEventFromBytes] once the payload is unmarshalled: the two maps *)
Definition mongo_maps (settings : Settings) (p : MongoPayload) : result (row * row) :=
  before ← (match mp_Before p with None => Ok ∅ | Some s => JSONEToMap s end);
  after ← (match mp_After p with
           | None => Ok ∅
           | Some s => m ← wrap_err "failed to call mongo JSONEToMap: " EmptyString (JSONEToMap s);
                       flatten_structs settings m
           end);
  Ok (before, after).

(** A key part that is itself a JSON object is passed along as one; [null]
    gives a nil map. *)
Definition nested_key (kvMap : row) (k : string) : row :=
  match kvMap !! k with
  | None => kvMap
  | Some v =>
      match json_Unmarshal (Sprint v) with
      | Some (VMap obj) => <[k := VMap obj]> kvMap
      | Some VNil => <[k := VMap []]> kvMap
      | _ => kvMap
      end
  end.

Definition rename_id (kvMap : row) : row :=
  match kvMap !! "id" with
  | Some v => delete "id" (<["_id" := v]> kvMap)
  | None => kvMap
  end.

Definition mongo_GetPrimaryKey (key : list Z) (tc : TopicConfig) : result row :=
  kvMap ← ParsePartitionKey iter key (tc_CDCKeyFormat tc);
  kvMapBytes ← MarshalExtJSON (foldl nested_key kvMap (iter kvMap));
  kvMap ← JSONEToMap kvMapBytes;
  Ok (rename_id kvMap).

Definition mongo_GetColumns (p : MongoPayload) : option (list Column) :=
  (fun fo => foldl AddColumn [] (map (fun f => NewColumn (columns_EscapeName (f_FieldName f)) Invalid) (fo_Fields fo)))
    <$> GetSchemaFromLabel (mp_Schema p) After_label.

(** The keys are written over the document: Debezium renames [_id] in the key. *)
Definition mongo_GetData (p : MongoPayload) (afterMap : row) (now : gotime) (pkMap : row) (tc : TopicConfig) : row :=
  stamp now (execution_time (mp_TsMs p)) tc
    (if bool_decide (afterMap = ∅) then deleted_row pkMap tc (execution_time (mp_TsMs p))
     else <[DeleteColumnMarker := VBool false]> (pkMap ∪ afterMap)).

Definition mongo_event (p : MongoPayload) (afterMap : row) : CdcEvent :=
  mkCdcEvent (execution_time (mp_TsMs p)) (mp_Operation p) (String.eqb (mp_Operation p) "d") (mp_Collection p)
    (mongo_GetData p afterMap) ∅ (mongo_GetColumns p).
End Mongo.

(** * Formats *)

Section Formats.
Context `{GoStd} `{GeoLib} `{BsonLib}.
Variables (iter : row -> list string)
          (Unmarshal_relational : string -> result RelationalPayload)
          (Unmarshal_mongo : string -> result MongoPayload).

Definition relational_GetEventFromBytes (_ : Settings) (bytes : list Z) : result CdcEvent :=
  if bool_decide (bytes = []) then errorf "empty message"
  else relational_event <$> Unmarshal_relational (string_of_bytes bytes).

Definition relational_GetPrimaryKey (key : list Z) (tc : TopicConfig) : result row :=
  ParsePartitionKey iter key (tc_CDCKeyFormat tc).

Definition postgres_Debezium : Format :=
  mkFormat [DBZPostgresFormat; DBZPostgresAltFormat] relational_GetPrimaryKey relational_GetEventFromBytes.
Definition mysql_Debezium : Format :=
  mkFormat [DBZMySQLFormat] relational_GetPrimaryKey relational_GetEventFromBytes.

Definition mongo_GetEventFromBytes (settings : Settings) (bytes : list Z) : result CdcEvent :=
  if bool_decide (bytes = []) then errorf "empty message"
  else
    p ← wrap_err "failed to unmarshal json: " EmptyString (Unmarshal_mongo (string_of_bytes bytes));
    maps ← mongo_maps iter settings p;
    Ok (mongo_event p (snd maps)).
Definition mongo_Debezium : Format :=
  mkFormat [DBZMongoFormat] (mongo_GetPrimaryKey iter) mongo_GetEventFromBytes.

Definition validFormats : list Format := [postgres_Debezium; mongo_Debezium; mysql_Debezium].
End Formats.

(** * Rows of relational events *)

Section RelationalFacts.
Context `{GoStd} `{GeoLib}.

Lemma parse_field_lookup (m : row) f k :
  parse_field m f !! k =
  if String.eqb (f_FieldName f) k
  then (fun v => match Field_ParseValue f v with Ok v' => v' | _ => v end) <$> m !! k
  else m !! k.
Proof.
  unfold parse_field. destruct (String.eqb_spec (f_FieldName f) k) as [<-|Hne].
  - destruct (m !! f_FieldName f) as [v|] eqn:Hm; [|by rewrite Hm].
    cbn [fmap option_fmap option_map]. destruct (Field_ParseValue f v); [apply lookup_insert_eq | exact Hm..].
  - destruct (m !! f_FieldName f); [|done]. destruct (Field_ParseValue f _); try done. by rewrite lookup_insert_ne.
Qed.

Lemma parse_fields_lookup fields (m : row) k :
  NoDup (map f_FieldName fields) ->
  foldl parse_field m fields !! k =
  match find_first (fun f => String.eqb (f_FieldName f) k) fields with
  | Some f => (fun v => match Field_ParseValue f v with Ok v' => v' | _ => v end) <$> m !! k
  | None => m !! k
  end.
Proof.
  revert m. induction fields as [|f fields IH]; intros m Hnd; simpl; [done|].
  apply NoDup_cons in Hnd as [Hf Hnd]. rewrite IH, parse_field_lookup by done.
  destruct (String.eqb_spec (f_FieldName f) k) as [<-|Hne]; [|done].
  rewrite (proj2 (find_first_None _ _)); [done|]. intros f' Hf'. apply String.eqb_neq. intros Heq.
  apply Hf. rewrite <- Heq. apply list_elem_of_fmap. by exists f'.
Qed.

Lemma stamp_lookup now ts tc m k :
  stamp now ts tc m !! k =
  match (if tc_IncludeDatabaseUpdatedAt tc && String.eqb k DatabaseUpdatedColumnMarker
         then Some (VString (time_Format ts ISO8601))
         else if tc_IncludeArtieUpdatedAt tc && String.eqb k UpdateColumnMarker
              then Some (VString (time_Format now ISO8601)) else None) with
  | Some v => Some v
  | None => m !! k
  end.
Proof.
  assert (Hone : forall (b : bool) key (v : value) (r : row),
    (if b then <[key := v]> r else r) !! k = if b && String.eqb k key then Some v else r !! k).
  { intros [] key v r; [|done]. destruct (String.eqb_spec k key) as [->|Hne]; [apply lookup_insert_eq|].
    by rewrite lookup_insert_ne. }
  unfold stamp. rewrite !Hone. by repeat case_match.
Qed.

Lemma stamp_other now ts tc m k :
  k <> UpdateColumnMarker -> k <> DatabaseUpdatedColumnMarker -> stamp now ts tc m !! k = m !! k.
Proof.
  intros Hu%String.eqb_neq Hd%String.eqb_neq. by rewrite stamp_lookup, Hu, Hd, !andb_false_r.
Qed.

Lemma deleted_row_lookup pkMap tc ts k :
  deleted_row pkMap tc ts !! k =
  if String.eqb k (tc_IdempotentKey tc) && negb (String.eqb k EmptyString) then Some (VString (time_Format ts ISO8601))
  else match pkMap !! k with
       | Some v => Some v
       | None => if String.eqb k DeleteColumnMarker then Some (VBool true) else None
       end.
Proof.
  unfold deleted_row.
  assert (Hu : (pkMap ∪ {[DeleteColumnMarker := VBool true]} : row) !! k =
    match pkMap !! k with Some v => Some v | None => if String.eqb k DeleteColumnMarker then Some (VBool true) else None end).
  { rewrite lookup_union, lookup_singleton. destruct (pkMap !! k); simpl.
    - by destruct (decide (DeleteColumnMarker = k)).
    - destruct (String.eqb_spec k DeleteColumnMarker) as [->|Hne]; by case_decide. }
  destruct (String.eqb_spec (tc_IdempotentKey tc) EmptyString) as [He|He].
  - rewrite He. by destruct (String.eqb k EmptyString).
  - destruct (String.eqb_spec k (tc_IdempotentKey tc)) as [-> | Hk]; [|by rewrite lookup_insert_ne].
    rewrite (proj2 (String.eqb_neq _ _) He). apply lookup_insert_eq.
Qed.

(** C27. The row of a relational event, column by column.  The update times are
    stamped when the topic asks for them: Artie's with the time of the call,
    the database's with that of the event.  Otherwise, an event with an [after]
    image gives its columns and a delete marker of false; one without gives the
    primary key, a delete marker of true unless the key has that column, and the
    idempotent key, when the topic has one, with the time of the event.
    Whatever the column, its value is then parsed by the field of that name, or
    left as it came when there is no field or it does not parse. *)
Theorem relational_GetData_spec s now pkMap tc fo k :
  GetSchemaFromLabel (rp_Schema s) After_label = Some fo -> NoDup (map f_FieldName (fo_Fields fo)) ->
  let time t := VString (time_Format t ISO8601) in
  let stamped :=
    if tc_IncludeDatabaseUpdatedAt tc && String.eqb k DatabaseUpdatedColumnMarker
    then Some (time (execution_time (rp_TsMs s)))
    else if tc_IncludeArtieUpdatedAt tc && String.eqb k UpdateColumnMarker then Some (time now) else None in
  let key_row :=
    if String.eqb k (tc_IdempotentKey tc) && negb (String.eqb k EmptyString) then Some (time (execution_time (rp_TsMs s)))
    else match pkMap !! k with
         | Some v => Some v
         | None => if String.eqb k DeleteColumnMarker then Some (VBool true) else None
         end in
  let image := if String.eqb k DeleteColumnMarker then Some (VBool false) else rp_After s !! k in
  let parsed v := match find_first (fun f => String.eqb (f_FieldName f) k) (fo_Fields fo) with
                  | Some f => match Field_ParseValue f v with Ok v' => v' | _ => v end
                  | None => v
                  end in
  relational_GetData s now pkMap tc !! k =
    parsed <$> (match stamped with
                | Some v => Some v
                | None => if bool_decide (rp_After s = ∅) then key_row else image
                end).
Proof.
  intros Hfo Hnd. cbv zeta. unfold relational_GetData. rewrite Hfo, parse_fields_lookup by done.
  match goal with |- _ = _ <$> ?x => assert (Hraw : raw_data s now pkMap tc !! k = x) end.
  { unfold raw_data. rewrite stamp_lookup. destruct (_ && _); [done|]. destruct (_ && _); [done|].
    case_bool_decide; [apply deleted_row_lookup|].
    destruct (String.eqb_spec k DeleteColumnMarker) as [->|Hne]; [apply lookup_insert_eq | by rewrite lookup_insert_ne]. }
  rewrite Hraw. destruct (find_first _ (fo_Fields fo)); [done|].
  by match goal with |- ?x = _ => destruct x end.
Qed.

Lemma deleted_row_marker pkMap tc ts : is_Some (deleted_row pkMap tc ts !! DeleteColumnMarker).
Proof.
  unfold deleted_row.
  assert (Hu : is_Some ((pkMap ∪ {[DeleteColumnMarker := VBool true]} : row) !! DeleteColumnMarker))
    by (apply lookup_union_is_Some; right; by rewrite lookup_singleton_eq).
  case_match; [done|]. apply lookup_insert_is_Some'. by right.
Qed.

Lemma GetData_has_marker s now pkMap tc : is_Some (relational_GetData s now pkMap tc !! DeleteColumnMarker).
Proof.
  unfold relational_GetData.
  assert (Hraw : is_Some (raw_data s now pkMap tc !! DeleteColumnMarker)).
  { unfold raw_data. rewrite stamp_other by discriminate.
    case_bool_decide; [apply deleted_row_marker | by rewrite lookup_insert_eq]. }
  destruct (GetSchemaFromLabel _ _) as [fo|]; [|done].
  generalize dependent (raw_data s now pkMap tc). induction (fo_Fields fo) as [|f fields IH]; intros m Hm; simpl; [done|].
  apply IH. rewrite parse_field_lookup. case_match; [by apply fmap_is_Some | done].
Qed.
End RelationalFacts.

(** * Events the buffer accepts *)

Section Accepted.
Context `{GoStd} `{GeoLib}.

Lemma IsValid_row e :
  is_Some (e_Data e !! (if bool_decide (e_mode e = History) then OperationColumnMarker else DeleteColumnMarker)) ->
  IsValid e = negb (String.eqb (e_Table e) EmptyString) && negb (bool_decide (e_PrimaryKeyMap e = ∅)).
Proof.
  intros Hrow. unfold IsValid, array_Empty. cbn [existsb]. rewrite orb_false_r.
  destruct (String.eqb (e_Table e) EmptyString); [done|].
  destruct (bool_decide (e_PrimaryKeyMap e = ∅)); [done|].
  rewrite bool_decide_false by (intros He; rewrite He, lookup_empty in Hrow; by destruct Hrow).
  destruct (bool_decide (e_mode e = History)); [done|]. by rewrite bool_decide_true.
Qed.

Lemma ToMemoryEvent_valid event now pkMap order tc mode :
  is_Some (GetData event now pkMap tc !! DeleteColumnMarker) ->
  let e := ToMemoryEvent event now pkMap order tc mode in
  IsValid e = negb (String.eqb (e_Table e) EmptyString) && negb (bool_decide (pkMap = ∅)).
Proof.
  intros Hmark. cbv zeta. rewrite IsValid_row; unfold ToMemoryEvent; destruct mode; try done.
  change (is_Some (delete DeleteColumnMarker
    (<[OperationColumnMarker := VString (Operation event)]> (GetData event now pkMap tc)) !! OperationColumnMarker)).
  rewrite lookup_delete_ne by discriminate. by rewrite lookup_insert_eq.
Qed.

Lemma mongo_has_marker p after now pkMap tc : is_Some (mongo_GetData p after now pkMap tc !! DeleteColumnMarker).
Proof.
  unfold mongo_GetData. rewrite stamp_other by discriminate.
  case_bool_decide; [apply deleted_row_marker | by rewrite lookup_insert_eq].
Qed.

(** No event is lost between the connector and the buffer: every relational
    or MongoDB event, whatever its payload, schema and mode, is one [Save]
    accepts, precisely when it names a table and its key is not empty. *)
Theorem connector_events_valid s p after now pkMap order tc mode :
  let valid e := IsValid e = negb (String.eqb (e_Table e) EmptyString) && negb (bool_decide (pkMap = ∅)) in
  valid (ToMemoryEvent (relational_event s) now pkMap order tc mode) /\
  valid (ToMemoryEvent (mongo_event p after) now pkMap order tc mode).
Proof.
  cbv zeta. split; apply ToMemoryEvent_valid; [apply GetData_has_marker | apply mongo_has_marker].
Qed.
End Accepted.

(** * Examples *)

Definition example_payload : RelationalPayload :=
  mkRelational (mkSchema "struct" [mkFieldsObject "struct"
                  [mkField FieldType_Int32 false VNil "id" EmptyString ∅; example_decimal_field] false After_label])
    ∅ {[ "id" := VInt KInt32 7; "amount" := VBytes [4; 210] ]} 0 "orders" "u".

Lemma relational_GetData_spec_witness :
  let _ := plain_std in
  let _ := no_geo in
  relational_GetData example_payload zero_time {[ "id" := VInt KInt 7 ]} example_topic !! "amount" =
    Some (VDecimal (DecodeDecimal [4; 210] (Some 5) 2)).
Proof.
  cbv zeta.
  rewrite (relational_GetData_spec (H := plain_std) (H0 := no_geo) example_payload zero_time
             {[ "id" := VInt KInt 7 ]} example_topic _ "amount" eq_refl
             ltac:(apply (bool_decide_unpack _); vm_compute; reflexivity)).
  vm_compute. reflexivity.
Defined.


(** Every label of the constants has its parser, any other label is fatal. *)
Example format_parsers :
  let _ := plain_std in
  let _ := no_geo in
  let _ : BsonLib := text_bson in
  let formats := validFormats map_keys (fun _ => Ok example_payload) (fun _ => errorf "no document") in
  map (fun l => Labels <$> GetFormatParser formats l)
    [DBZPostgresFormat; DBZPostgresAltFormat; DBZMySQLFormat; DBZMongoFormat; "csv"] =
  [Ok [DBZPostgresFormat; DBZPostgresAltFormat]; Ok [DBZPostgresFormat; DBZPostgresAltFormat]; Ok [DBZMySQLFormat];
   Ok [DBZMongoFormat]; Panic "Failed to fetch CDC format parser"].
Proof. reflexivity. Qed.
