(* ===== verification/Effects.v ===== *)
(** Stateful Go code as state passing: a computation maps a state to an outcome
    and a state, errors and panics included, so that what a failing call left
    behind is kept. *)
From S2P Require Import Prelude GoLang.
Local Open Scope list_scope.

Definition go (S A : Type) : Type := S -> result A * S.

#[export] Instance go_ret {S} : MRet (go S) := fun A a st => (Ok a, st).
#[export] Instance go_bind {S} : MBind (go S) := fun A B f m st =>
  match m st with
  | (Ok a, st') => f a st'
  | (Err e, st') => (Err e, st')
  | (Panic w, st') => (Panic w, st')
  end.

Section Go.
Context {S : Type}.

Definition lift {A} (r : result A) : go S A := fun st => (r, st).
Definition gets {A} (f : S -> A) : go S A := fun st => (Ok (f st), st).
Definition modify (f : S -> S) : go S unit := fun st => (Ok tt, f st).

(** [if err := m; err != nil { ... }]: the error as a value *)
Definition attempt {A} (m : go S A) : go S (result A) := fun st =>
  match m st with
  | (Panic w, st') => (Panic w, st')
  | (r, st') => (Ok r, st')
  end.

Definition wrap_go {A} (before after : string) (m : go S A) : go S A := fun st =>
  let '(r, st') := m st in (wrap_err before after r, st').

(** [defer cleanup()] registered before [m]: it runs whether [m] returns,
    fails or panics; a panic of its own replaces the outcome. *)
Definition deferred {A} (cleanup : go S unit) (m : go S A) : go S A := fun st =>
  let '(r, st1) := m st in
  match cleanup st1 with
  | (Panic w, st2) => (Panic w, st2)
  | (_, st2) => (r, st2)
  end.

(** A variable of a function that a deferred closure reads: the body runs with
    the variable beside the state, and the closure after it, whether it
    returned, failed or panicked. *)
Definition scoped {X A} (m : go S A) : go (X * S) A := fun '(x, st) => let '(r, st') := m st in (r, (x, st')).
Definition set_local {X} (x : X) : go (X * S) unit := fun '(_, st) => (Ok tt, (x, st)).
Definition with_local {X A} (x0 : X) (closure : X -> go S unit) (m : go (X * S) A) : go S A := fun st =>
  let '(r, (x, st1)) := m (x0, st) in
  match closure x st1 with
  | (Panic w, st2) => (Panic w, st2)
  | (_, st2) => (r, st2)
  end.

(** A [for] loop that returns at the first error *)
Fixpoint for_each {A} (f : A -> go S unit) (l : list A) : go S unit :=
  match l with
  | [] => mret tt
  | x :: l' => f x ;; for_each f l'
  end.

(** A [for] loop that collects what its body appends *)
Fixpoint collect {A B} (f : A -> go S (list B)) (l : list A) : go S (list B) :=
  match l with
  | [] => mret []
  | x :: l' => ys ← f x; zs ← collect f l'; mret (ys ++ zs)
  end.
End Go.

(** * Lemmas *)

Section GoFacts.
Context {S : Type}.

Lemma go_bind_Ok {A B} (f : A -> go S B) (m : go S A) st b st' :
  (m ≫= f) st = (Ok b, st') <-> exists a st1, m st = (Ok a, st1) /\ f a st1 = (Ok b, st').
Proof.
  unfold mbind, go_bind. destruct (m st) as [[a|e|w] st1]; split; try naive_solver.
Qed.

Lemma go_bind_run {A B} (f : A -> go S B) (m : go S A) st :
  (m ≫= f) st = match m st with
                 | (Ok a, st1) => f a st1
                 | (Err e, st1) => (Err e, st1)
                 | (Panic w, st1) => (Panic w, st1)
                 end.
Proof. reflexivity. Qed.

Lemma lift_bind {A B} (r : result A) (f : A -> go S B) st :
  (lift r ≫= f) st = match r with Ok a => f a st | Err e => (Err e, st) | Panic w => (Panic w, st) end.
Proof. by destruct r. Qed.

Lemma wrap_lift {A} b a (r : result A) : wrap_go b a (lift r) = (lift (wrap_err b a r) : go S A).
Proof. reflexivity. Qed.

Lemma wrap_go_Ok {A} b a (m : go S A) st x st' :
  wrap_go b a m st = (Ok x, st') <-> m st = (Ok x, st').
Proof. unfold wrap_go. destruct (m st) as [[y|e|w] st1]; simpl; naive_solver. Qed.

(** A successful run of a deferred clean-up: the body succeeded and the
    clean-up ran after it. *)
Lemma deferred_Ok {A} c (m : go S A) st x st' :
  deferred c m st = (Ok x, st') -> exists st1, m st = (Ok x, st1) /\ st' = snd (c st1).
Proof.
  unfold deferred. destruct (m st) as [r st1]. destruct (c st1) as [[u|e|w] st2] eqn:E; intros [= -> <-];
    exists st1; by rewrite E.
Qed.

(** [P] holds of the states before and after a run, whatever its outcome. *)
Definition preserves (P : S -> S -> Prop) {A} (m : go S A) : Prop := forall st, P st (snd (m st)).

Section Preserves.
Context (P : S -> S -> Prop) `{!PreOrder P}.

Lemma preserves_ret {A} (a : A) : preserves P (mret a).
Proof. intros st. reflexivity. Qed.

Lemma preserves_lift {A} (r : result A) : preserves P (lift r).
Proof. intros st. reflexivity. Qed.

Lemma preserves_gets {A} (f : S -> A) : preserves P (gets f).
Proof. intros st. reflexivity. Qed.

Lemma preserves_bind {A B} (f : A -> go S B) m :
  preserves P m -> (forall a, preserves P (f a)) -> preserves P (m ≫= f).
Proof.
  intros Hm Hf st. rewrite go_bind_run. specialize (Hm st).
  destruct (m st) as [[a|e|w] st1]; [|done..]. etransitivity; [exact Hm | apply Hf].
Qed.

Lemma preserves_wrap {A} b a (m : go S A) : preserves P m -> preserves P (wrap_go b a m).
Proof. intros Hm st. unfold wrap_go. specialize (Hm st). by destruct (m st). Qed.

Lemma preserves_attempt {A} (m : go S A) : preserves P m -> preserves P (attempt m).
Proof. intros Hm st. unfold attempt. specialize (Hm st). by destruct (m st) as [[| |] ?]. Qed.

Lemma preserves_deferred {A} (c : go S unit) (m : go S A) :
  preserves P c -> preserves P m -> preserves P (deferred c m).
Proof.
  intros Hc Hm st. unfold deferred. specialize (Hm st). destruct (m st) as [r st1].
  specialize (Hc st1). destruct (c st1) as [[| |] st2]; (etransitivity; [exact Hm | exact Hc]).
Qed.

Lemma preserves_for_each {A} (f : A -> go S unit) l :
  (forall x, x ∈ l -> preserves P (f x)) -> preserves P (for_each f l).
Proof.
  induction l as [|x l IH]; simpl; intros Hf; [apply preserves_ret|].
  apply preserves_bind; [apply Hf; left | intros _; apply IH; intros y Hy; apply Hf; by right].
Qed.

Lemma preserves_collect {A B} (f : A -> go S (list B)) l :
  (forall x, x ∈ l -> preserves P (f x)) -> preserves P (collect f l).
Proof.
  induction l as [|x l IH]; simpl; intros Hf; [apply preserves_ret|].
  apply preserves_bind; [apply Hf; left|]. intros ys.
  apply preserves_bind; [apply IH; intros y Hy; apply Hf; by right | intros; apply preserves_ret].
Qed.
End Preserves.
End GoFacts.

(** ** Local variables *)

Section Locals.
Context {S X : Type} (P : S -> S -> Prop) `{!PreOrder P}.

(** A relation of states, beside a local variable *)
Definition on_state (x y : X * S) : Prop := P (snd x) (snd y).
#[global] Instance on_state_preorder : PreOrder on_state.
Proof. split; [intros [x st]; unfold on_state; reflexivity|]. intros a b c H1 H2. unfold on_state in *. by transitivity (snd b). Qed.

Lemma preserves_with_local {A} (x0 : X) closure (m : go (X * S) A) :
  (forall x, preserves P (closure x)) -> preserves on_state m -> preserves P (with_local x0 closure m).
Proof.
  intros Hc Hm st. unfold with_local. specialize (Hm (x0, st)). destruct (m (x0, st)) as [r [x st1]].
  specialize (Hc x st1). unfold on_state in Hm. cbn in Hm.
  destruct (closure x st1) as [[| |] st2]; (etransitivity; [exact Hm | exact Hc]).
Qed.

Lemma preserves_scoped {A} (m : go S A) : preserves P m -> preserves on_state (scoped m).
Proof. intros Hm [x st]. unfold scoped. specialize (Hm st). by destruct (m st). Qed.

Lemma preserves_set_local (x : X) : preserves on_state (set_local x).
Proof. intros [y st]. unfold on_state. simpl. reflexivity. Qed.

Lemma scoped_run {A} (m : go S A) (x : X) st : scoped m (x, st) = (fst (m st), (x, snd (m st))).
Proof. unfold scoped. by destruct (m st). Qed.
End Locals.

(** [preserve] proves that a run preserves a preorder by following the structure
    of the computation; the leaves are the lemmas of the database [preserve]. *)
Create HintDb preserve.

Ltac preserve :=
  repeat first
    [ progress intros
    | solve [eauto 2 with preserve nocore]
    | apply preserves_ret; apply _
    | apply preserves_lift; apply _
    | apply preserves_gets; apply _
    | apply preserves_wrap
    | apply preserves_attempt
    | apply preserves_deferred; [apply _| |]
    | apply preserves_scoped
    | apply preserves_set_local; apply _
    | apply preserves_for_each; [apply _|]
    | apply preserves_collect; [apply _|]
    | apply preserves_bind; [apply _| |]
    | match goal with |- preserves _ (match ?x with _ => _ end) => destruct x eqn:? end ].
