(* ===== verification/Logger.v ===== *)
(** Logging: [lib/logger/log.go].  A logger is the list of the places a record
    goes to, each with its least level; the terminal handler and the Sentry
    client are third-party code, of which the model keeps what is asked of
    them, in order.  Leaving the program, by [os.Exit] or by a panic, is the
    outcome of a computation. *)
From S2P Require Import Prelude GoLang Effects.
Local Open Scope string_scope.
Local Open Scope list_scope.
Local Open Scope Z_scope.

(** [slog]'s levels *)
Inductive level := LevelDebug | LevelInfo | LevelWarn | LevelError.
Definition level_value (l : level) : Z :=
  match l with LevelDebug => -4 | LevelInfo => 0 | LevelWarn => 4 | LevelError => 8 end.

(** What a handler writes to, with its least level *)
Inductive handler :=
| TintHandler (Level : level) (NoColor : bool)
| SentryHandler (Level : level).

Definition handler_level (h : handler) : level := match h with TintHandler l _ => l | SentryHandler l => l end.

(** What is asked of the outside *)
Inductive log_event :=
| Record_ (h : handler) (l : level) (msg : string)
| SentryInit (dsn : string)
| SentryFlush (timeout : Z)
| Exit (code : Z).

(** The default logger of [slog], [handlersToTerminate], and the events *)
Record logging := mkLogging {
  lg_default : list handler;
  handlersToTerminate : list Z;          (* each flushes Sentry with this timeout *)
  lg_events : list log_event
}.

Definition happened (e : log_event) : go logging unit :=
  modify (fun st => mkLogging (lg_default st) (handlersToTerminate st) (lg_events st ++ [e])).

Definition enabled (l : level) (h : handler) : bool := level_value (handler_level h) <=? level_value l.

Definition log_to (logger : list handler) (l : level) (msg : string) : go logging unit :=
  for_each (fun h => happened (Record_ h l msg)) (List.filter (enabled l) logger).

(** [slog.Error] and the others *)
Definition slog (l : level) (msg : string) : go logging unit := fun st => log_to (lg_default st) l msg st.

Definition SetDefault (logger : list handler) : go logging unit :=
  modify (fun st => mkLogging logger (handlersToTerminate st) (lg_events st)).

Definition add_handler (timeout : Z) : go logging unit :=
  modify (fun st => mkLogging (lg_default st) (handlersToTerminate st ++ [timeout]) (lg_events st)).

Section Logger.
(** [sentry.Init], and whether the standard error is a terminal *)
Context (sentry_Init : string -> option error) (IsTerminal : bool).

Definition NewLogger (verbose : bool) (sentryCfg : option string) : go logging (list handler) :=
  let tint := TintHandler (if verbose then LevelDebug else LevelInfo) (negb IsTerminal) in
  match sentryCfg with
  | Some dsn =>
      if String.eqb dsn EmptyString then mret [tint]
      else
        happened (SentryInit dsn) ;;
        match sentry_Init dsn with
        | Some _ => log_to [tint] LevelWarn "Failed to enable Sentry output" ;; mret [tint]
        | None =>
            log_to [tint] LevelInfo "Sentry logger enabled" ;;
            add_handler (2 * 1000000000) ;;
            mret [tint; SentryHandler LevelError]
        end
  | None => mret [tint]
  end.

Definition runHandlers : go logging unit := fun st =>
  for_each (fun timeout => happened (SentryFlush timeout)) (handlersToTerminate st) st.

Definition Fatal (msg : string) : go logging unit :=
  slog LevelError msg ;; runHandlers ;; happened (Exit 1) ;; lift (Panic ("exit: " +:+ msg)).

Definition Panic_ (msg : string) : go logging unit :=
  slog LevelError msg ;; runHandlers ;; lift (Panic msg).

(** [main]'s first lines: the logger becomes the default one. *)
Definition setup (verbose : bool) (sentryCfg : option string) : go logging unit :=
  logger ← NewLogger verbose sentryCfg; SetDefault logger.

(** ** What the loggers do *)

Lemma happened_all {A} (f : A -> log_event) l : forall st,
  for_each (fun x => happened (f x)) l st =
  (Ok tt, mkLogging (lg_default st) (handlersToTerminate st) (lg_events st ++ map f l)).
Proof.
  induction l as [|x l IH]; intros st; cbn [for_each map]; [destruct st; by rewrite app_nil_r|].
  rewrite go_bind_run. unfold happened at 1, modify. rewrite IH. simpl. by rewrite <- app_assoc.
Qed.

Lemma slog_run l msg st :
  slog l msg st = (Ok tt, mkLogging (lg_default st) (handlersToTerminate st)
                     (lg_events st ++ map (fun h => Record_ h l msg) (List.filter (enabled l) (lg_default st)))).
Proof. apply (happened_all (fun h => Record_ h l msg)). Qed.

Lemma runHandlers_run st :
  runHandlers st = (Ok tt, mkLogging (lg_default st) (handlersToTerminate st)
                             (lg_events st ++ map SentryFlush (handlersToTerminate st))).
Proof. apply happened_all. Qed.

(** The last record reaches the handlers before the program ends: both ways of
    leaving it write the message to every handler, then flush what is to be
    flushed, and end with that message. *)
Theorem leaving_flushes msg st :
  let written := lg_events st ++ map (fun h => Record_ h LevelError msg) (lg_default st) ++
                   map SentryFlush (handlersToTerminate st) in
  fst (Fatal msg st) = Panic ("exit: " +:+ msg) /\ lg_events (snd (Fatal msg st)) = written ++ [Exit 1] /\
  fst (Panic_ msg st) = Panic msg /\ lg_events (snd (Panic_ msg st)) = written.
Proof.
  cbv zeta. assert (Hall : List.filter (enabled LevelError) (lg_default st) = lg_default st).
  { apply forallb_filter_id, forallb_forall. by intros [[] |[]] _. }
  unfold Fatal, Panic_. rewrite !go_bind_run, slog_run, Hall. cbv iota beta.
  rewrite !go_bind_run, runHandlers_run. simpl. by rewrite <- !app_assoc.
Qed.

(** After [setup] an error reaches Sentry exactly when it is configured and its
    client starts, and then it is flushed within two seconds before the program
    ends; the terminal shows it in any case. *)
Theorem errors_reach_sentry verbose sentryCfg st msg :
  handlersToTerminate st = [] ->
  let st' := snd (setup verbose sentryCfg st) in
  let started := match sentryCfg with
                 | Some dsn => negb (String.eqb dsn EmptyString) && bool_decide (sentry_Init dsn = None)
                 | None => false
                 end in
  exists tint, lg_events (snd (Panic_ msg st')) = lg_events st' ++ Record_ tint LevelError msg ::
    (if started then [Record_ (SentryHandler LevelError) LevelError msg; SentryFlush 2000000000] else []).
Proof.
  intros Hh. cbv zeta. destruct (leaving_flushes msg (snd (setup verbose sentryCfg st))) as (_ & _ & _ & ->).
  exists (TintHandler (if verbose then LevelDebug else LevelInfo) (negb IsTerminal)). f_equal.
  unfold setup, NewLogger. destruct sentryCfg as [dsn|]; [|simpl; by rewrite Hh].
  destruct (String.eqb dsn EmptyString); [simpl; by rewrite Hh|].
  destruct (sentry_Init dsn) eqn:Hi; [rewrite bool_decide_false by done | rewrite bool_decide_true by done];
    simpl; destruct verbose; simpl; by rewrite Hh.
Qed.
End Logger.
