(* ===== verification/TableConfig.v ===== *)
(** What is known of a destination table: [lib/destination/types].  A table
    configuration is shared through the cache of the destination, so the
    operations that change it are state transformers of the configuration, and
    the clients name it by its key. *)
From S2P Require Import Prelude GoLang Constants StringUtil Decimal Values Typing Columns.
Local Open Scope string_scope.
Local Open Scope list_scope.
Local Open Scope Z_scope.

Record DwhTableConfig := mkDwhTableConfig {
  dc_columns : list Column;
  dc_columnsToDelete : gmap string Z;   (* column -> when to delete, in ns *)
  dc_createTable : bool;
  dc_dropDeletedColumns : bool
}.

Definition NewDwhTableConfig (cols : list Column) (colsToDelete : gmap string Z)
    (createTable dropDeletedColumns : bool) : DwhTableConfig :=
  mkDwhTableConfig cols colsToDelete createTable dropDeletedColumns.

Definition set_dc_columns (cols : list Column) (d : DwhTableConfig) : DwhTableConfig :=
  mkDwhTableConfig cols (dc_columnsToDelete d) (dc_createTable d) (dc_dropDeletedColumns d).
Definition set_columnsToDelete (m : gmap string Z) (d : DwhTableConfig) : DwhTableConfig :=
  mkDwhTableConfig (dc_columns d) m (dc_createTable d) (dc_dropDeletedColumns d).
Definition set_createTable (b : bool) (d : DwhTableConfig) : DwhTableConfig :=
  mkDwhTableConfig (dc_columns d) (dc_columnsToDelete d) b (dc_dropDeletedColumns d).

Definition MutateInMemoryColumns (createTable : bool) (columnOp : ColumnOperation) (cols : list Column)
    (d : DwhTableConfig) : DwhTableConfig :=
  match columnOp with
  | Add =>
      set_createTable createTable
        (foldl (fun d col =>
                  set_columnsToDelete (delete (RawName col) (dc_columnsToDelete d))
                    (set_dc_columns (AddColumn (dc_columns d) col) d)) d cols)
  | Delete =>
      foldl (fun d col =>
               set_columnsToDelete (delete (RawName col) (dc_columnsToDelete d))
                 (set_dc_columns (DeleteColumn (dc_columns d) (RawName col)) d)) d cols
  end.

Definition AuditColumnsToDelete (colsToDelete : list Column) (d : DwhTableConfig) : DwhTableConfig :=
  if negb (dc_dropDeletedColumns d) then d
  else set_columnsToDelete
         (filter (fun '(colName, _) => existsb (fun col => String.eqb (RawName col) colName) colsToDelete = true)
                 (dc_columnsToDelete d)) d.

Definition AddColumnsToDelete (colName : string) (ts : Z) (d : DwhTableConfig) : DwhTableConfig :=
  set_columnsToDelete (<[colName := ts]> (dc_columnsToDelete d)) d.

(** [ShouldDeleteColumn] of a configuration that exists: the answer, and the
    configuration, where a column seen missing for the first time is scheduled. *)
Definition ShouldDeleteColumn (colName : string) (cdcTime now : Z) (containOtherOperations : bool)
    (d : DwhTableConfig) : bool * DwhTableConfig :=
  if negb containOtherOperations then (false, d)
  else if negb (dc_dropDeletedColumns d) then (false, d)
  else match dc_columnsToDelete d !! colName with
       | Some ts => (ts <? cdcTime, d)
       | None => (false, AddColumnsToDelete colName (now + DeletionConfidencePadding) d)
       end.

(** * Options passed to a merge or an append *)

Record MergeOpts := mkMergeOpts {
  UseMergeParts : bool;
  SubQueryDedupe : bool;
  AdditionalEqualityStrings : list string;
  RetryColBackfill : bool
}.

Record AppendOpts := mkAppendOpts { TempTableName : string; AdditionalCopyClause : string }.

Definition AppendOpts_Validate (a : AppendOpts) : result unit :=
  if String.eqb (TempTableName a) EmptyString then errorf "temp table name is required" else Ok tt.

(** * Lemmas *)

Lemma Mutate_Add_columns create cols d :
  dc_columns (MutateInMemoryColumns create Add cols d) = foldl AddColumn (dc_columns d) cols.
Proof.
  unfold MutateInMemoryColumns; simpl. revert d.
  induction cols as [|c cols IH]; intros d; simpl; [done|]. by rewrite IH.
Qed.

Lemma Mutate_Add_deletes create cols d n :
  dc_columnsToDelete (MutateInMemoryColumns create Add cols d) !! n =
  if bool_decide (n ∈ map RawName cols) then None else dc_columnsToDelete d !! n.
Proof.
  unfold MutateInMemoryColumns; simpl. revert d.
  induction cols as [|c cols IH]; intros d; simpl; [done|].
  rewrite IH; simpl. destruct (decide (n ∈ map RawName cols)) as [Hin | Hin].
  - rewrite !bool_decide_true; [done | by right | done].
  - rewrite (bool_decide_false (n ∈ map RawName cols)) by done.
    destruct (decide (RawName c = n)) as [-> | Hne].
    + by rewrite lookup_delete_eq, bool_decide_true by left.
    + rewrite lookup_delete_ne, bool_decide_false by (try done; intros [->|]%elem_of_cons; done). done.
Qed.

Lemma foldl_AddColumn_GetColumn cols0 cols n :
  is_Some (GetColumn (foldl AddColumn cols0 cols) n) <->
  is_Some (GetColumn cols0 n) \/ (n <> EmptyString /\ n ∈ map c_name cols).
Proof.
  revert cols0. induction cols as [|c cols IH]; intros cols0; simpl.
  - split; [by left | intros [?|[_ Hn]]; [done | by apply not_elem_of_nil in Hn]].
  - rewrite IH, !GetColumn_map, AddColumn_map, elem_of_cons. unfold add_spec.
    case_decide as He; [naive_solver congruence|].
    destruct (columns_map cols0 !! c_name c) eqn:E; [naive_solver|].
    destruct (decide (c_name c = n)) as [<- | Hne].
    + rewrite lookup_insert_eq. naive_solver.
    + rewrite lookup_insert_ne by done. naive_solver.
Qed.
