(* ===== verification/Warehouse.v ===== *)
(** The interfaces a destination implements: [lib/db.Store] (the SQL driver and
    the clock) and [destination.DataWarehouse], and the state its operations
    share: the database, the cache of table configurations, the buffered table
    being written, and the statements executed so far. *)
From S2P Require Import Prelude GoLang Constants StringUtil Decimal Values Typing Columns Kafkalib.
From S2P Require Import TableData Effects TableConfig CastValues.
Local Open Scope string_scope.
Local Open Scope list_scope.
Local Open Scope Z_scope.

(** A row of a query result: column names and the scanned values, in order *)
Definition sqlrow : Type := list (string * value).

(** The database driver: third-party code, with the clock of the process.  [D]
    is the state of the outside world. *)
Class SqlStore (D : Type) := {
  Label : DestinationKind;
  driver_Exec : string -> D -> option error * D;
  driver_Query : string -> list string -> D -> result (list sqlrow) * D;
  driver_Begin : D -> option error * D;
  driver_TxExec : string -> D -> option error * D;
  driver_Commit : D -> option error * D;
  IsRetryableError : error -> bool;
  Now : D -> Z
}.

(** What the clients do besides SQL: files, objects in S3, bulk copies, streamed
    rows, Parquet files, connections, the environment *)
Inductive outside_call :=
| CreateFile (path : string)
| WriteFile (path content : string)
| GzipWrite (path content : string)      (* into the compressor over the file *)
| GzipClose (path : string)              (* what it still holds, and the footer *)
| CloseFile (path : string)
| RemoveFile (path : string)
| LoadAwsConfig
| OpenFile (path : string)
| PutObject (bucket key path : string)
| PrepareBulk (table : string) (columns : list string)
| BulkRow (cells : list bulk_value)
| BulkEnd
| Rollback
| CloseStmt
| NewClient
| CloseClient
| PutRows (dataset table : string) (rows : list row)
| ParquetWriter (path schema : string)
| ParquetRow (json : string)
| ParquetStop
| SqlOpen (driverName dsn : string)
| SqlPing
| Setenv (key val : string)
| NewPubSubClient (projectID credentials : string).

(** Third-party code and the operating system *)
Class Outside (D : Type) := { outside : outside_call -> D -> option error * D }.

(** What was sent to the database and the outside world, in order *)
Inductive sql_event := SqlExec (q : string) | SqlQuery (q : string) | SqlTx (q : string)
                     | SqlBegin | SqlCommit | OutsideCall (c : outside_call).

Record env (D : Type) := mkEnv {
  env_db : D;
  env_configs : gmap string DwhTableConfig;
  env_td : TableData;
  env_log : list sql_event
}.
Arguments mkEnv {D}.
Arguments env_db {D}.
Arguments env_configs {D}.
Arguments env_td {D}.
Arguments env_log {D}.

Section Ops.
Context {D : Type} `{SqlStore D}.

Definition driver_call {A} (ev : sql_event) (call : D -> A * D) : go (env D) A := fun st =>
  let '(r, db) := call (env_db st) in
  (Ok r, mkEnv db (env_configs st) (env_td st) (env_log st ++ [ev])).

Definition fail_if (e : option error) : result unit :=
  match e with None => Ok tt | Some e => Err e end.

Definition Exec (q : string) : go (env D) unit := driver_call (SqlExec q) (driver_Exec q) ≫= (lift ∘ fail_if).
Definition Query (q : string) (args : list string) : go (env D) (list sqlrow) :=
  driver_call (SqlQuery q) (driver_Query q args) ≫= lift.
Definition Begin : go (env D) unit := driver_call SqlBegin driver_Begin ≫= (lift ∘ fail_if).
Definition TxExec (q : string) : go (env D) unit := driver_call (SqlTx q) (driver_TxExec q) ≫= (lift ∘ fail_if).
Definition TxCommit : go (env D) unit := driver_call SqlCommit driver_Commit ≫= (lift ∘ fail_if).

Definition call_outside `{Outside D} (c : outside_call) : go (env D) unit :=
  driver_call (OutsideCall c) (outside c) ≫= (lift ∘ fail_if).

(** [logger.Panic] on the error of a call *)
Definition panic_on_error (why : string) (m : go (env D) unit) : go (env D) unit :=
  r ← attempt m;
  lift (match r with Err _ => Panic why | _ => Ok tt end).

(** [db.Open] *)
Definition db_Open `{Outside D} (driverName dsn : string) : go (env D) unit :=
  panic_on_error "Failed to start a SQL client" (call_outside (SqlOpen driverName dsn)) ;;
  panic_on_error "Failed to validate the DB connection" (call_outside SqlPing).

Definition time_now : go (env D) Z := gets (fun st => Now (env_db st)).

(** The configuration a key names; a missing one is a nil pointer. *)
Definition config_of (fqName : string) : go (env D) DwhTableConfig := fun st =>
  match env_configs st !! fqName with
  | Some c => (Ok c, st)
  | None => (Panic "nil table config", st)
  end.

Definition put_config (fqName : string) (c : DwhTableConfig) : go (env D) unit :=
  modify (fun st => mkEnv (env_db st) (<[fqName := c]> (env_configs st)) (env_td st) (env_log st)).

Definition on_config (fqName : string) (f : DwhTableConfig -> DwhTableConfig) : go (env D) unit :=
  c ← config_of fqName; put_config fqName (f c).

Definition table_data : go (env D) TableData := gets env_td.
Definition put_table_data (t : TableData) : go (env D) unit :=
  modify (fun st => mkEnv (env_db st) (env_configs st) t (env_log st)).
End Ops.

(** The part of [destination.DataWarehouse] the shared merge and append use.
    [GetTableConfig] returns the key of the configuration in the cache. *)
Class DataWarehouse (D : Type) `{SqlStore D} := {
  ToFullyQualifiedName : TableData -> bool -> string;
  GetTableConfig : TableData -> go (env D) string;
  PrepareTemporaryTable : string -> string -> string -> bool -> go (env D) unit
}.

(** A driver for examples: every call succeeds, queries return no rows, and the
    clock is the state. *)
Definition quiet_store (label : DestinationKind) : SqlStore Z := {|
  Label := label;
  driver_Exec := fun _ d => (None, d);
  driver_Query := fun _ _ d => (Ok [], d);
  driver_Begin := fun d => (None, d);
  driver_TxExec := fun _ d => (None, d);
  driver_Commit := fun d => (None, d);
  IsRetryableError := fun _ => false;
  Now := fun d => d
|}.

(** The same for the rest of the world *)
Definition quiet_outside : Outside Z := {| outside := fun _ d => (None, d) |}.

(** * The log only grows *)

Section Log.
Context {D : Type} `{SqlStore D}.

(** Every statement a run adds to the log satisfies [ok]. *)
Definition logs (ok : sql_event -> Prop) (st st' : env D) : Prop :=
  exists evs, env_log st' = env_log st ++ evs /\ Forall ok evs.

#[global] Instance logs_preorder ok : PreOrder (logs ok).
Proof.
  split.
  - intros st. exists []. by rewrite app_nil_r.
  - intros s1 s2 s3 (e1 & H1 & F1) (e2 & H2 & F2). exists (e1 ++ e2).
    rewrite H2, H1, app_assoc. split; [done | by apply Forall_app].
Qed.

Lemma logs_driver_call {A} ok ev (call : D -> A * D) : ok ev -> preserves (logs ok) (driver_call ev call).
Proof.
  intros Hok st. unfold driver_call. destruct (call (env_db st)). exists [ev]. simpl.
  split; [done | by constructor].
Qed.

Lemma logs_Exec ok q : ok (SqlExec q) -> preserves (logs ok) (Exec q).
Proof. intros Hok. unfold Exec, Query. preserve. by apply logs_driver_call. Qed.

Lemma logs_Query ok q args : ok (SqlQuery q) -> preserves (logs ok) (Query q args).
Proof. intros Hok. unfold Exec, Query. preserve. by apply logs_driver_call. Qed.

Lemma logs_call_outside `{Outside D} ok c : ok (OutsideCall c) -> preserves (logs ok) (call_outside c).
Proof. intros Hok. unfold call_outside. preserve. by apply logs_driver_call. Qed.

Lemma logs_config_of ok k : preserves (logs ok) (config_of k).
Proof. intros st. unfold config_of. destruct (env_configs st !! k); reflexivity. Qed.

Lemma logs_put_config ok k c : preserves (logs ok) (put_config k c).
Proof. intros st. exists []. by rewrite app_nil_r. Qed.

Lemma logs_on_config ok k f : preserves (logs ok) (on_config k f).
Proof. unfold on_config. apply preserves_bind; [apply _ | apply logs_config_of | intros; apply logs_put_config]. Qed.

Lemma logs_put_table_data ok t : preserves (logs ok) (put_table_data t).
Proof. intros st. exists []. by rewrite app_nil_r. Qed.

Lemma Exec_run q st :
  Exec q st = (fail_if (fst (driver_Exec q (env_db st))),
               mkEnv (snd (driver_Exec q (env_db st))) (env_configs st) (env_td st) (env_log st ++ [SqlExec q])).
Proof.
  unfold Exec. rewrite go_bind_run. unfold driver_call. by destruct (driver_Exec q (env_db st)).
Qed.

Lemma call_outside_log `{Outside D} c st :
  env_log (snd (call_outside c st)) = env_log st ++ [OutsideCall c].
Proof. unfold call_outside. rewrite go_bind_run. unfold driver_call. by destruct (outside c (env_db st)). Qed.

Lemma call_outside_no_panic `{Outside D} c st w : fst (call_outside c st) <> Panic w.
Proof.
  unfold call_outside. rewrite go_bind_run. unfold driver_call.
  destruct (outside c (env_db st)) as [[e|] db]; done.
Qed.

Lemma panic_on_error_run why (m : go (env D) unit) st :
  panic_on_error why m st =
    match m st with (Err _, st') => (Panic why, st') | (r, st') => (r, st') end.
Proof. unfold panic_on_error. rewrite go_bind_run. unfold attempt. by destruct (m st) as [[[]| |] st']. Qed.

Lemma panic_on_error_no_err why (m : go (env D) unit) st e : fst (panic_on_error why m st) <> Err e.
Proof. rewrite panic_on_error_run. by destruct (m st) as [[[]| |] st']. Qed.

Lemma db_Open_no_err `{Outside D} driverName dsn st e : fst (db_Open driverName dsn st) <> Err e.
Proof.
  unfold db_Open. rewrite go_bind_run.
  pose proof (panic_on_error_no_err "Failed to start a SQL client" (call_outside (SqlOpen driverName dsn)) st) as Ho.
  destruct (panic_on_error _ (call_outside (SqlOpen driverName dsn)) st) as [[[]|e'|w] st1];
    [apply panic_on_error_no_err | by destruct (Ho e') | done].
Qed.

Lemma Exec_log q st : env_log (snd (Exec q st)) = env_log st ++ [SqlExec q].
Proof. by rewrite Exec_run. Qed.

Lemma Begin_log st : env_log (snd (Begin st)) = env_log st ++ [SqlBegin].
Proof. unfold Begin. rewrite go_bind_run. unfold driver_call. by destruct (driver_Begin (env_db st)). Qed.

Lemma TxCommit_log st : env_log (snd (TxCommit st)) = env_log st ++ [SqlCommit].
Proof. unfold TxCommit. rewrite go_bind_run. unfold driver_call. by destruct (driver_Commit (env_db st)). Qed.

(** A run of a step with a known log, when it succeeded *)
Lemma logged {A} (m : go (env D) A) evs st a st' :
  (forall st, env_log (snd (m st)) = env_log st ++ evs) -> m st = (Ok a, st') -> env_log st' = env_log st ++ evs.
Proof. intros Hm Hrun. specialize (Hm st). by rewrite Hrun in Hm. Qed.
End Log.

#[export] Hint Resolve logs_config_of logs_put_config logs_on_config logs_put_table_data : preserve.

(** * The buffered table is left alone *)

Section KeepsTd.
Context {D : Type} `{SqlStore D}.

Definition keeps_td (st st' : env D) : Prop := env_td st' = env_td st.

#[global] Instance keeps_td_preorder : PreOrder keeps_td.
Proof. split; [done | intros a b c H1 H2; unfold keeps_td in *; congruence]. Qed.

Lemma keeps_td_driver_call {A} ev (call : D -> A * D) : preserves keeps_td (driver_call ev call).
Proof. intros st. unfold driver_call. by destruct (call (env_db st)). Qed.
Lemma keeps_td_config_of k : preserves keeps_td (config_of k).
Proof. intros st. unfold config_of. by destruct (env_configs st !! k). Qed.
Lemma keeps_td_put_config k c : preserves keeps_td (put_config k c).
Proof. intros st. reflexivity. Qed.
#[local] Hint Resolve keeps_td_driver_call keeps_td_config_of keeps_td_put_config : preserve.

Lemma keeps_td_Exec q : preserves keeps_td (Exec q).
Proof. unfold Exec. preserve. Qed.
Lemma keeps_td_Query q args : preserves keeps_td (Query q args).
Proof. unfold Query. preserve. Qed.
Lemma keeps_td_Begin : preserves keeps_td Begin.
Proof. unfold Begin. preserve. Qed.
Lemma keeps_td_TxExec q : preserves keeps_td (TxExec q).
Proof. unfold TxExec. preserve. Qed.
Lemma keeps_td_TxCommit : preserves keeps_td TxCommit.
Proof. unfold TxCommit. preserve. Qed.
Lemma keeps_td_call_outside `{Outside D} c : preserves keeps_td (call_outside c).
Proof. unfold call_outside. preserve. Qed.
Lemma keeps_td_on_config k f : preserves keeps_td (on_config k f).
Proof. unfold on_config. preserve. Qed.
Lemma keeps_td_panic_on_error why m : preserves keeps_td m -> preserves keeps_td (panic_on_error why m).
Proof. intros Hm. unfold panic_on_error. by preserve. Qed.
Lemma keeps_td_db_Open `{Outside D} driverName dsn : preserves keeps_td (db_Open driverName dsn).
Proof. unfold db_Open, panic_on_error, call_outside. preserve. Qed.
End KeepsTd.

#[export] Hint Resolve keeps_td_config_of keeps_td_put_config keeps_td_Exec keeps_td_Query keeps_td_Begin
  keeps_td_TxExec keeps_td_TxCommit keeps_td_call_outside keeps_td_on_config keeps_td_db_Open : preserve.
