(* ===== verification/Ddl.v ===== *)
(** Data definition: [lib/destination/ddl].  Creating and altering tables,
    dropping temporary ones, and deciding from a table's name whether its time
    to live has passed. *)
From S2P Require Import Prelude GoLang Constants StringUtil Decimal Values Typing Columns Kafkalib.
From S2P Require Import TableData Effects TableConfig Warehouse.
Local Open Scope string_scope.
Local Open Scope list_scope.
Local Open Scope Z_scope.

(** * Names *)

(** [now] in nanoseconds; a name whose last part is not a number is kept. *)
Definition ShouldDeleteFromName (name : string) (now : Z) : bool :=
  let nameParts := split_on "_" name in
  if (length nameParts <? 2)%nat then false
  else match atoi (List.last nameParts EmptyString) with
       | Ok unix => unix * Second <? now
       | _ => false
       end.

Definition ColumnAlreadyExistErr (err : error) (kind : DestinationKind) : bool :=
  match kind with
  | BigQuery => contains (error_text err) "Column already exists"
  | Snowflake | Redshift => contains (error_text err) "already exists"
  | MSSQL =>
      contains (error_text err) "Column names in each table must be unique"
      || contains (error_text err) "There is already an object named"
  | _ => false
  end.

Definition drop_statement (fqTableName : string) : string := "DROP TABLE IF EXISTS " +:+ fqTableName.

(** * AlterTable *)

Record AlterTableArgs := mkAlterTableArgs {
  a_Tc : string;                 (* the key of the table configuration *)
  a_ContainOtherOperations : bool;
  a_FqTableName : string;
  a_CreateTable : bool;
  a_TemporaryTable : bool;
  a_UppercaseEscNames : option bool;
  a_ColumnOp : ColumnOperation;
  a_Mode : Mode;
  a_CdcTime : gotime
}.

Definition AlterTableArgs_Validate (a : AlterTableArgs) : result unit :=
  if bool_decide (a_ColumnOp a = Delete) && a_CreateTable a
  then errorf "incompatible operation - cannot drop columns and create table at the same time"
  else if negb (bool_decide (a_Mode a = History) || bool_decide (a_Mode a = Replication))
  then errorf ("unexpected mode: " +:+ Mode_String (a_Mode a))
  else if a_TemporaryTable a && negb (a_CreateTable a)
  then errorf "incompatible operation - we should not be altering temporary tables, only create"
  else if bool_decide (a_UppercaseEscNames a = None)
  then errorf "uppercaseEscNames cannot be nil"
  else Ok tt.

(** What one column contributes: its SQL part, and its name if it is a key *)
Record alteration := mkAlteration { al_col : Column; al_part : string; al_pk : option string }.

Definition bqLayout : string := "2006-01-02 15:04:05 MST".

Section Ddl.
Context {D : Type} `{SqlStore D} `{GoStd}.

Definition DropTemporaryTable (fqTableName : string) (shouldReturnError : bool) : go (env D) unit :=
  if contains (to_lower fqTableName) ArtiePrefix then
    r ← attempt (Exec (drop_statement fqTableName));
    match r with
    | Err e => if shouldReturnError then lift (Err (ErrWrap "failed to drop temp table: " e EmptyString))
               else mret tt
    | _ => mret tt
    end
  else mret tt.

(** [Tc.ShouldDeleteColumn] on the shared configuration *)
Definition should_delete (a : AlterTableArgs) (colName : string) : go (env D) bool :=
  tc ← config_of (a_Tc a);
  now ← time_now;
  let '(del, tc) := ShouldDeleteColumn colName (t_ns (a_CdcTime a)) now (a_ContainOtherOperations a) tc in
  put_config (a_Tc a) tc ;;
  mret del.

Definition escaped_name (up : bool) (col : Column) : string := Name col up (Some (mkNameArgs true Label)).

(** The body of the loop over the columns *)
Definition alter_column (a : AlterTableArgs) (up : bool) (col : Column) : go (env D) (list alteration) :=
  if ShouldSkip col then mret []
  else
    let colName := escaped_name up col in
    match a_ColumnOp a with
    | Add =>
        kind ← lift (KindToDWHType (c_KindDetails col) Label (c_primaryKey col));
        let pk := if c_primaryKey col && negb (bool_decide (a_Mode a = History)) then Some colName else None in
        mret [mkAlteration col (colName +:+ " " +:+ kind) pk]
    | Delete =>
        del ← should_delete a (RawName col);
        if negb (del : bool) then mret [] else mret [mkAlteration col colName None]
    end.

(** The SQL parts: one per altered column, then the primary key *)
Definition sql_parts (alts : list alteration) : list string :=
  let pkCols := omap al_pk alts in
  map al_part alts ++
  (if bool_decide (pkCols = []) then []
   else ["PRIMARY KEY (" +:+ join ", " pkCols +:+ ")"
           +:+ (if bool_decide (Label = BigQuery) then " NOT ENFORCED" else EmptyString)]).

Definition create_query (a : AlterTableArgs) (parts : list string) (now : Z) : result string :=
  let cols := " (" +:+ join "," parts +:+ ")" in
  if a_TemporaryTable a then
    match Label with
    | MSSQL => Ok ("CREATE TABLE " +:+ a_FqTableName a +:+ cols +:+ ";")
    | Redshift => Ok ("CREATE TABLE IF NOT EXISTS " +:+ a_FqTableName a +:+ cols +:+ ";")
    | BigQuery =>
        Ok ("CREATE TABLE IF NOT EXISTS " +:+ a_FqTableName a +:+ cols
              +:+ " OPTIONS (expiration_timestamp = TIMESTAMP("
              +:+ quote (time_Format (mkTime (now + TemporaryTableTTL) 0) bqLayout) +:+ "))")
    | Snowflake =>
        Ok ("CREATE TABLE IF NOT EXISTS " +:+ a_FqTableName a +:+ cols
              +:+ " STAGE_COPY_OPTIONS = ( PURGE = TRUE ) STAGE_FILE_FORMAT = ( TYPE = 'csv' FIELD_DELIMITER= '\t' FIELD_OPTIONALLY_ENCLOSED_BY='"
              +:+ dquote +:+ "' NULL_IF='\\N' EMPTY_FIELD_AS_NULL=FALSE)")
    | l => errorf ("unexpected dwh: " +:+ DestinationKind_string l +:+ " trying to create a temporary table")
    end
  else
    match Label with
    | MSSQL => Ok ("CREATE TABLE " +:+ a_FqTableName a +:+ cols)
    | _ => Ok ("CREATE TABLE IF NOT EXISTS " +:+ a_FqTableName a +:+ cols)
    end.

Definition alter_query (a : AlterTableArgs) (part : string) : string :=
  match Label with
  | MSSQL => "ALTER TABLE " +:+ a_FqTableName a +:+ " " +:+ ColumnOperation_string (a_ColumnOp a) +:+ " " +:+ part
  | _ => "ALTER TABLE " +:+ a_FqTableName a +:+ " " +:+ ColumnOperation_string (a_ColumnOp a)
           +:+ " COLUMN " +:+ part
  end.

(** Execute a statement; an error that says the object is already there is
    no error. *)
Definition exec_ddl (q : string) : go (env D) unit :=
  r ← attempt (Exec q);
  match r with
  | Err e => if ColumnAlreadyExistErr e Label then mret tt else lift (Err e)
  | _ => mret tt
  end.

Definition AlterTable (a : AlterTableArgs) (cols : list Column) : go (env D) unit :=
  lift (AlterTableArgs_Validate a) ;;
  match cols, a_UppercaseEscNames a with
  | [], _ => mret tt
  | _, None => lift (Panic "nil UppercaseEscNames")
  | _, Some up =>
      alts ← collect (alter_column a up) cols;
      (if a_CreateTable a then
         now ← time_now;
         q ← lift (create_query a (sql_parts alts) now);
         exec_ddl q
       else
         for_each (fun part => let q := alter_query a part in
                               wrap_go ("failed to apply ddl, sql: " +:+ q +:+ ", err: ") EmptyString (exec_ddl q))
                  (sql_parts alts)) ;;
      on_config (a_Tc a) (MutateInMemoryColumns false (a_ColumnOp a) (map al_col alts))
  end.
End Ddl.

Section DdlKeeps.
Context {D : Type} `{SqlStore D} `{GoStd}.

Lemma keeps_td_exec_ddl q : preserves keeps_td (exec_ddl q).
Proof. unfold exec_ddl. preserve. Qed.
#[local] Hint Resolve keeps_td_exec_ddl : preserve.

Lemma keeps_td_AlterTable a cols : preserves keeps_td (AlterTable a cols).
Proof. unfold AlterTable, alter_column, should_delete, time_now. preserve. Qed.
End DdlKeeps.

#[export] Hint Resolve keeps_td_AlterTable : preserve.

(** * Temporary table names *)

(** A temporary table is garbage collected exactly when its time to live
    has passed: the name built at [created] is kept until the expiry second
    in its suffix, and deleted at any time after it. *)
Theorem temp_table_expiry td base created now :
  min_int64 <= (created + TemporaryTableTTL) / Second <= max_int64 ->
  ShouldDeleteFromName (base +:+ "_" +:+ TempTableSuffix td created) now =
  ((created + TemporaryTableTTL) / Second * Second <? now).
Proof.
  intros Hr. unfold ShouldDeleteFromName, TempTableSuffix.
  set (u := (created + TemporaryTableTTL) / Second) in *.
  replace (base +:+ "_" +:+ td_temporaryTableSuffix td +:+ "_" +:+ itoa u)
    with ((base +:+ "_" +:+ td_temporaryTableSuffix td) +:+ String "_" (itoa u))
    by (rewrite <- !string_app_assoc; reflexivity).
  rewrite split_on_last_app by (by apply itoa_count).
  pose proof (length_split_on_app "_" (base +:+ "_" +:+ td_temporaryTableSuffix td) (itoa u)) as Hlen.
  destruct (Nat.ltb_spec (length (split_on "_" ((base +:+ "_" +:+ td_temporaryTableSuffix td) +:+ String "_" (itoa u)))) 2);
    [lia|].
  by rewrite atoi_itoa.
Qed.

Lemma temp_table_expiry_witness :
  ShouldDeleteFromName ("orders_" +:+ TempTableSuffix (NewTableData None Replication [] example_topic "orders") (1000 * Second))
    (22600 * Second) = false.
Proof.
  refine (temp_table_expiry (NewTableData None Replication [] example_topic "orders") "orders" (1000 * Second) (22600 * Second) _).
  split; vm_compute; discriminate.
Defined.

(** * Statements *)

Section DdlFacts.
Context {D : Type} `{SqlStore D} `{GoStd}.

Lemma DropTemporaryTable_run fq b st :
  env_log (snd (DropTemporaryTable fq b st)) =
    env_log st ++ (if contains (to_lower fq) ArtiePrefix then [SqlExec (drop_statement fq)] else []) /\
  env_configs (snd (DropTemporaryTable fq b st)) = env_configs st /\
  (b = false -> is_ok (fst (DropTemporaryTable fq b st)) = true).
Proof.
  unfold DropTemporaryTable. destruct (contains _ _); [|simpl; by rewrite app_nil_r].
  rewrite go_bind_run. unfold attempt. rewrite Exec_run.
  destruct (fst (driver_Exec _ _)) as [e|]; simpl; [|done]. by destruct b.
Qed.

(** [DropTemporaryTable] sends at most one statement, a drop of the
    table it was given, and none unless the name holds the Artie prefix. *)
Theorem DropTemporaryTable_safe fq b st :
  env_log (snd (DropTemporaryTable fq b st)) =
    env_log st ++ (if contains (to_lower fq) ArtiePrefix then [SqlExec (drop_statement fq)] else []) /\
  env_configs (snd (DropTemporaryTable fq b st)) = env_configs st /\
  (b = false -> is_ok (fst (DropTemporaryTable fq b st)) = true).
Proof. apply DropTemporaryTable_run. Qed.

Lemma exec_ddl_configs q st : env_configs (snd (exec_ddl q st)) = env_configs st.
Proof.
  unfold exec_ddl. rewrite go_bind_run. unfold attempt. rewrite Exec_run.
  destruct (fst (driver_Exec _ _)) as [e|]; simpl; [|done]. by destruct (ColumnAlreadyExistErr e Label).
Qed.

Lemma exec_ddl_log q st : env_log (snd (exec_ddl q st)) = env_log st ++ [SqlExec q].
Proof.
  unfold exec_ddl. rewrite go_bind_run. unfold attempt. rewrite Exec_run.
  destruct (fst (driver_Exec _ _)) as [e|]; simpl; [|done]. by destruct (ColumnAlreadyExistErr e Label).
Qed.

Lemma logs_exec_ddl (ok : sql_event -> Prop) q : ok (SqlExec q) -> preserves (logs ok) (exec_ddl q).
Proof. intros Hok st. exists [SqlExec q]. rewrite exec_ddl_log. split; [done | by constructor]. Qed.

(** ** The statement loop *)

(** Statements are sent in order, and the first failure stops the loop. *)
Lemma for_each_statements {A} (q : A -> string) w l st :
  exists sent, env_log (snd (for_each (fun x => wrap_go (w x) EmptyString (exec_ddl (q x))) l st))
                 = env_log st ++ map (SqlExec ∘ q) sent /\
    sent `prefix_of` l /\
    (is_ok (fst (for_each (fun x => wrap_go (w x) EmptyString (exec_ddl (q x))) l st)) = true -> sent = l) /\
    env_configs (snd (for_each (fun x => wrap_go (w x) EmptyString (exec_ddl (q x))) l st)) = env_configs st.
Proof.
  revert st. induction l as [|x l IH]; intros st; cbn [for_each].
  - exists []. simpl. rewrite app_nil_r. repeat split; [apply prefix_nil].
  - rewrite go_bind_run. unfold wrap_go at 1 3 5.
    pose proof (exec_ddl_log (q x) st) as Hl. pose proof (exec_ddl_configs (q x) st) as Hc.
    destruct (exec_ddl (q x) st) as [r st1]. simpl in Hl, Hc.
    destruct r as [[]|e|p]; cbn [wrap_err].
    + destruct (IH st1) as (sent & H1 & H2 & H3 & H4). exists (x :: sent).
      rewrite H1, Hl, <- app_assoc. split; [done|]. split; [by apply prefix_cons|].
      split; [intros Hok; by rewrite H3 | by rewrite H4].
    + exists [x]. simpl. repeat split; [done | by apply prefix_cons, prefix_nil | done | done].
    + exists [x]. simpl. repeat split; [done | by apply prefix_cons, prefix_nil | done | done].
Qed.
End DdlFacts.

(** * Dropping columns *)

(** Whether a missing column is dropped now: the table says so, the batch is
    not made of deletes only, and the batch is past the scheduled time. *)
Definition drop_now (cdcTime : Z) (containOther : bool) (tc : DwhTableConfig) (col : Column) : bool :=
  containOther && dc_dropDeletedColumns tc &&
  match dc_columnsToDelete tc !! RawName col with Some ts => ts <? cdcTime | None => false end.

(** The schedule after a pass over the missing columns *)
Definition schedule (cdcTime now : Z) (containOther : bool) (cols : list Column) (tc : DwhTableConfig)
  : DwhTableConfig :=
  foldl (fun tc col => if ShouldSkip col then tc
                       else snd (ShouldDeleteColumn (RawName col) cdcTime now containOther tc)) tc cols.

Lemma ShouldDeleteColumn_answer n cdc now other tc :
  fst (ShouldDeleteColumn n cdc now other tc) =
  other && dc_dropDeletedColumns tc &&
  match dc_columnsToDelete tc !! n with Some ts => ts <? cdc | None => false end.
Proof.
  unfold ShouldDeleteColumn. destruct other, (dc_dropDeletedColumns tc); simpl; try done.
  by destruct (dc_columnsToDelete tc !! n).
Qed.

Lemma ShouldDeleteColumn_config n cdc now other tc :
  let tc' := snd (ShouldDeleteColumn n cdc now other tc) in
  dc_columns tc' = dc_columns tc /\ dc_createTable tc' = dc_createTable tc /\
  dc_dropDeletedColumns tc' = dc_dropDeletedColumns tc /\
  forall m, dc_columnsToDelete tc' !! m =
    match dc_columnsToDelete tc !! m with
    | Some ts => Some ts
    | None => if other && dc_dropDeletedColumns tc && bool_decide (m = n)
              then Some (now + DeletionConfidencePadding) else None
    end.
Proof.
  unfold ShouldDeleteColumn. destruct other, (dc_dropDeletedColumns tc) eqn:Ed; simpl.
  - destruct (dc_columnsToDelete tc !! n) as [ts|] eqn:E; simpl; rewrite ?Ed; repeat split; intros m.
    + destruct (dc_columnsToDelete tc !! m) eqn:Em; [done|]. case_bool_decide; [congruence|done].
    + case_bool_decide; subst; [by rewrite lookup_insert_eq, E|].
      rewrite lookup_insert_ne by done. by destruct (dc_columnsToDelete tc !! m).
  - repeat split; try done. intros m. by destruct (dc_columnsToDelete tc !! m).
  - repeat split; try done. intros m. by destruct (dc_columnsToDelete tc !! m).
  - repeat split; try done. intros m. by destruct (dc_columnsToDelete tc !! m).
Qed.

Lemma schedule_spec cdc now other cols tc :
  let tc' := schedule cdc now other cols tc in
  dc_columns tc' = dc_columns tc /\ dc_createTable tc' = dc_createTable tc /\
  dc_dropDeletedColumns tc' = dc_dropDeletedColumns tc /\
  forall m, dc_columnsToDelete tc' !! m =
    match dc_columnsToDelete tc !! m with
    | Some ts => Some ts
    | None => if other && dc_dropDeletedColumns tc
                 && existsb (fun c => negb (ShouldSkip c) && bool_decide (m = RawName c)) cols
              then Some (now + DeletionConfidencePadding) else None
    end.
Proof.
  unfold schedule. revert tc. induction cols as [|c cols IH]; intros tc; simpl.
  - repeat split. intros m. rewrite andb_false_r. by destruct (dc_columnsToDelete tc !! m).
  - destruct (ShouldSkip c); simpl.
    + apply IH.
    + destruct (ShouldDeleteColumn_config (RawName c) cdc now other tc) as (H1 & H2 & H3 & H4).
      destruct (IH (snd (ShouldDeleteColumn (RawName c) cdc now other tc))) as (J1 & J2 & J3 & J4).
      rewrite J1, J2, J3, H1, H2, H3. repeat split. intros m. rewrite J4, H4, H3.
      destruct (dc_columnsToDelete tc !! m); [done|].
      destruct (other && dc_dropDeletedColumns tc); simpl; [|done].
      by destruct (bool_decide (m = RawName c)).
Qed.

Section DropFacts.
Context {D : Type} `{SqlStore D} `{GoStd}.

Definition dropped_columns (a : AlterTableArgs) (tc : DwhTableConfig) (cols : list Column) : list Column :=
  List.filter (fun c => negb (ShouldSkip c) && drop_now (t_ns (a_CdcTime a)) (a_ContainOtherOperations a) tc c) cols.

Lemma drop_now_ext cdc other tc tc' c :
  dc_dropDeletedColumns tc' = dc_dropDeletedColumns tc ->
  dc_columnsToDelete tc' !! RawName c = dc_columnsToDelete tc !! RawName c ->
  drop_now cdc other tc' c = drop_now cdc other tc c.
Proof. unfold drop_now. by intros -> ->. Qed.

Definition with_config (k : string) (tc : DwhTableConfig) (st : env D) : env D :=
  mkEnv (env_db st) (<[k := tc]> (env_configs st)) (env_td st) (env_log st).

Lemma with_config_id k tc st : env_configs st !! k = Some tc -> with_config k tc st = st.
Proof. intros Hk. unfold with_config. rewrite insert_id by done. by destruct st. Qed.

Lemma should_delete_run a n st tc :
  env_configs st !! a_Tc a = Some tc ->
  should_delete a n st =
    let '(del, tc') := ShouldDeleteColumn n (t_ns (a_CdcTime a)) (Now (env_db st)) (a_ContainOtherOperations a) tc in
    (Ok del, with_config (a_Tc a) tc' st).
Proof.
  intros Hk. unfold should_delete. rewrite go_bind_run. unfold config_of. rewrite Hk.
  rewrite go_bind_run. cbn. by destruct (ShouldDeleteColumn _ _ _ _ _).
Qed.

Lemma dropped_columns_ext a tc tc' cols :
  dc_dropDeletedColumns tc' = dc_dropDeletedColumns tc ->
  (forall c, c ∈ cols -> dc_columnsToDelete tc' !! RawName c = dc_columnsToDelete tc !! RawName c) ->
  dropped_columns a tc' cols = dropped_columns a tc cols.
Proof.
  intros Hd Hm. unfold dropped_columns. apply filter_ext_in. intros c Hc%list_elem_of_In.
  by rewrite (drop_now_ext _ _ tc tc') by auto.
Qed.

(** Collecting the columns to drop only touches the schedule. *)
Lemma collect_drops a up cols st tc :
  a_ColumnOp a = Delete -> NoDup (map c_name cols) -> env_configs st !! a_Tc a = Some tc ->
  collect (alter_column a up) cols st =
    (Ok (map (fun c => mkAlteration c (escaped_name up c) None) (dropped_columns a tc cols)),
     with_config (a_Tc a) (schedule (t_ns (a_CdcTime a)) (Now (env_db st)) (a_ContainOtherOperations a) cols tc) st).
Proof.
  intros Hop. revert st tc. induction cols as [|c cols IH]; intros st tc Hnd Hk; cbn [collect].
  - unfold schedule; simpl. by rewrite with_config_id.
  - apply NoDup_cons in Hnd as [Hc Hnd]. rewrite go_bind_run. unfold alter_column at 1.
    unfold dropped_columns, schedule; simpl. destruct (ShouldSkip c); simpl.
    + rewrite go_bind_run, (IH st tc) by done. done.
    + rewrite Hop, go_bind_run, (should_delete_run a (RawName c) st tc) by done.
      pose proof (ShouldDeleteColumn_answer (RawName c) (t_ns (a_CdcTime a)) (Now (env_db st))
                    (a_ContainOtherOperations a) tc) as Ha.
      pose proof (ShouldDeleteColumn_config (RawName c) (t_ns (a_CdcTime a)) (Now (env_db st))
                    (a_ContainOtherOperations a) tc) as (_ & _ & Hd & Hm).
      destruct (ShouldDeleteColumn _ _ _ _ tc) as [del tc1]. simpl in Ha, Hd, Hm.
      fold (drop_now (t_ns (a_CdcTime a)) (a_ContainOtherOperations a) tc c) in Ha. rewrite <- Ha.
      assert (Hrest : dropped_columns a tc1 cols = dropped_columns a tc cols).
      { apply dropped_columns_ext; [done|]. intros c' Hc'. rewrite Hm.
        destruct (dc_columnsToDelete tc !! RawName c'); [done|].
        rewrite (bool_decide_false (RawName c' = RawName c)), andb_false_r; [done|].
        intros Heq. apply Hc. unfold RawName in Heq. rewrite <- Heq. by apply list_elem_of_fmap_2. }
      specialize (IH (with_config (a_Tc a) tc1 st) tc1 Hnd (lookup_insert_eq _ _ _)).
      fold (dropped_columns a tc cols). rewrite <- Hrest.
      assert (Hfin : forall tc2, with_config (a_Tc a) tc2 (with_config (a_Tc a) tc1 st) = with_config (a_Tc a) tc2 st).
      { intros tc2. unfold with_config; simpl. by rewrite insert_insert_eq. }
      destruct del; cbn; rewrite go_bind_run, IH; cbn; by rewrite Hfin.
Qed.

Lemma sql_parts_no_pk (alts : list alteration) :
  (forall x, x ∈ alts -> al_pk x = None) -> sql_parts alts = map al_part alts.
Proof.
  intros Hn. unfold sql_parts. assert (omap al_pk alts = []) as ->; [|simpl; by rewrite app_nil_r].
  induction alts as [|x alts IH]; [done|]. simpl. rewrite (Hn x) by left. apply IH.
  intros y Hy. apply Hn. by right.
Qed.

Lemma AlterTable_drop_run a up cols st tc :
  a_ColumnOp a = Delete -> a_CreateTable a = false -> a_UppercaseEscNames a = Some up ->
  NoDup (map c_name cols) -> env_configs st !! a_Tc a = Some tc ->
  let drops := dropped_columns a tc cols in
  let r := AlterTable a cols st in
  exists sent, env_log (snd r) = env_log st ++ map (fun c => SqlExec (alter_query a (escaped_name up c))) sent /\
    sent `prefix_of` drops /\
    (is_ok (fst r) = true -> cols <> [] -> sent = drops /\
       env_configs (snd r) !! a_Tc a = Some
         (MutateInMemoryColumns false Delete drops
            (schedule (t_ns (a_CdcTime a)) (Now (env_db st)) (a_ContainOtherOperations a) cols tc))).
Proof.
  intros Hop Hct Hup Hnd Hk drops r.
  assert (Hr : r = AlterTable a cols st) by done. clearbody r.
  unfold AlterTable in Hr. rewrite go_bind_run in Hr. unfold lift at 1 in Hr.
  assert (Hnone : snd r = st -> (is_ok (fst r) = true -> cols = []) -> exists sent,
    env_log (snd r) = env_log st ++ map (fun c => SqlExec (alter_query a (escaped_name up c))) sent /\
    sent `prefix_of` drops /\ (is_ok (fst r) = true -> cols <> [] -> sent = drops /\
       env_configs (snd r) !! a_Tc a = Some (MutateInMemoryColumns false Delete drops
            (schedule (t_ns (a_CdcTime a)) (Now (env_db st)) (a_ContainOtherOperations a) cols tc)))).
  { intros -> Hc. exists []. simpl. rewrite app_nil_r. split; [done|].
    split; [apply prefix_nil|]. intros Hok Hne. by destruct (Hne (Hc Hok)). }
  destruct (AlterTableArgs_Validate a) as [[]|e|w]; [|by apply Hnone; subst r..].
  destruct cols as [|c0 cols]; [by apply Hnone; subst r|]. clear Hnone.
  rewrite Hup, go_bind_run, (collect_drops a up (c0 :: cols) st tc), Hct in Hr by done.
  fold drops in Hr. set (st1 := with_config _ _ st) in Hr.
  rewrite go_bind_run, sql_parts_no_pk in Hr by (by intros x (c & -> & _)%list_elem_of_fmap).
  rewrite map_map in Hr. cbn [al_part] in Hr.
  pose proof (for_each_statements (alter_query a)
    (fun part => "failed to apply ddl, sql: " +:+ alter_query a part +:+ ", err: ")
    (map (escaped_name up) drops) st1) as (sent & H1 & H2 & H3 & H4).
  match type of H1 with context [snd ?run] => set (loop := run) in H1, H3, H4 end.
  match type of Hr with context [let '(r, st') := ?run in _] => change run with loop in Hr end.
  clearbody loop. destruct loop as [r2 st2]. simpl in H1, H3, H4.
  destruct (prefix_map_inv _ _ _ H2) as (cs & -> & Hpre). exists cs.
  rewrite map_map in H1. cbv iota beta in Hr. destruct r2 as [[]|e|w]; [|subst r; simpl; split; [exact H1 | by split]..].
  specialize (H3 eq_refl).
  assert (cs = drops) as ->.
  { apply prefix_length_eq; [done|]. apply (f_equal length) in H3. rewrite !length_map in H3. lia. }
  unfold on_config in Hr. rewrite go_bind_run in Hr. unfold config_of in Hr.
  rewrite H4 in Hr. subst st1. cbn [with_config env_configs] in Hr. rewrite lookup_insert_eq in Hr.
  rewrite map_map in Hr. cbn [al_col] in Hr. rewrite map_id, Hop in Hr. subst r. simpl.
  split; [exact H1|]. split; [done|]. intros _ _. split; [done | apply lookup_insert_eq].
Qed.

(** C21. Dropping columns is safe: of the columns missing in the source,
    [AlterTable] drops (in order, stopping at the first error) exactly those
    that the table's settings allow, in a batch with something else than
    deletes, and whose scheduled time the batch is past; a column seen
    missing for the first time is only scheduled, four hours from now. *)
Theorem AlterTable_drop_safe a up cols st tc :
  a_ColumnOp a = Delete -> a_CreateTable a = false -> a_UppercaseEscNames a = Some up ->
  NoDup (map c_name cols) -> env_configs st !! a_Tc a = Some tc ->
  let drops := dropped_columns a tc cols in
  let r := AlterTable a cols st in
  exists sent, env_log (snd r) = env_log st ++ map (fun c => SqlExec (alter_query a (escaped_name up c))) sent /\
    sent `prefix_of` drops /\
    (is_ok (fst r) = true -> cols <> [] -> sent = drops /\
       env_configs (snd r) !! a_Tc a = Some
         (MutateInMemoryColumns false Delete drops
            (schedule (t_ns (a_CdcTime a)) (Now (env_db st)) (a_ContainOtherOperations a) cols tc))).
Proof. apply AlterTable_drop_run. Qed.
End DropFacts.

Definition example_drop_args : AlterTableArgs :=
  mkAlterTableArgs "t" true "db.public.orders" false false (Some false) Delete Replication (mkTime 100 0).
Definition example_env : env Z :=
  mkEnv 50 {[ "t" := mkDwhTableConfig [NewColumn "old" String_; NewColumn "newer" String_] {[ "old" := 99 ]} false true ]}
    (NewTableData None Replication [] example_topic "orders") [].

Lemma AlterTable_drop_safe_witness :
  let _ := quiet_store Snowflake in let _ := plain_std in
  env_log (snd (AlterTable example_drop_args [NewColumn "old" String_; NewColumn "newer" String_] example_env)) =
    [SqlExec "ALTER TABLE db.public.orders drop COLUMN old"].
Proof.
  assert (Hnd : NoDup (map c_name [NewColumn "old" String_; NewColumn "newer" String_]))
    by (apply (bool_decide_unpack _); vm_compute; reflexivity).
  destruct (AlterTable_drop_safe (H := quiet_store Snowflake) (H0 := plain_std) example_drop_args false
              [NewColumn "old" String_; NewColumn "newer" String_] example_env
              (mkDwhTableConfig [NewColumn "old" String_; NewColumn "newer" String_] {[ "old" := 99 ]} false true)
              eq_refl eq_refl eq_refl Hnd eq_refl)
    as (sent & Hlog & _ & Hok).
  cbv zeta. rewrite Hlog. destruct Hok as [-> _]; [reflexivity | discriminate | reflexivity].
Defined.

(** * A column's way out, over many batches *)

(** One batch's view of the schedule: the clock, the time of the batch's last
    change, whether it holds other things than deletes, and the columns that
    the destination has and the batch lacks. *)
Record round := mkRound { r_now : Z; r_cdc : Z; r_other : bool; r_missing : list Column }.

(** The columns a round drops, and the configuration after it: the scheduling
    pass, the drops, and the audit that forgets columns seen again. *)
Definition round_drops (r : round) (tc : DwhTableConfig) : list Column :=
  List.filter (fun c => negb (ShouldSkip c) && drop_now (r_cdc r) (r_other r) tc c) (r_missing r).
Definition run_round (r : round) (tc : DwhTableConfig) : DwhTableConfig :=
  AuditColumnsToDelete (r_missing r)
    (MutateInMemoryColumns false Delete (round_drops r tc)
       (schedule (r_cdc r) (r_now r) (r_other r) (r_missing r) tc)).

Definition missing_in (n : string) (r : round) : Prop := n ∈ map RawName (r_missing r).

(** [n] has been missing since a round whose clock plus four hours is [ts]. *)
Definition waiting (rounds : list round) (n : string) (ts : Z) : Prop :=
  exists recent first older, rounds = recent ++ first :: older /\
    ts = r_now first + DeletionConfidencePadding /\ Forall (missing_in n) (recent ++ [first]).

Lemma Mutate_Delete_deletes create cols d n :
  dc_columnsToDelete (MutateInMemoryColumns create Delete cols d) !! n =
    (if bool_decide (n ∈ map RawName cols) then None else dc_columnsToDelete d !! n) /\
  dc_dropDeletedColumns (MutateInMemoryColumns create Delete cols d) = dc_dropDeletedColumns d.
Proof.
  unfold MutateInMemoryColumns; simpl. revert d.
  induction cols as [|c cols IH]; intros d; simpl; [done|].
  match goal with |- context [foldl ?f ?d1 cols] => destruct (IH d1) as [-> ->] end. simpl.
  split; [|done]. destruct (decide (n ∈ map RawName cols)) as [Hin | Hin].
  - rewrite !bool_decide_true; [done | by right | done].
  - rewrite (bool_decide_false (n ∈ map RawName cols)) by done.
    destruct (decide (RawName c = n)) as [-> | Hne].
    + by rewrite lookup_delete_eq, bool_decide_true by left.
    + rewrite lookup_delete_ne, bool_decide_false by (try done; intros [->|]%elem_of_cons; done). done.
Qed.

Lemma Audit_lookup missing d n ts :
  dc_dropDeletedColumns d = true ->
  dc_columnsToDelete (AuditColumnsToDelete missing d) !! n = Some ts ->
  dc_columnsToDelete d !! n = Some ts /\ n ∈ map RawName missing.
Proof.
  intros Hd. unfold AuditColumnsToDelete. rewrite Hd. simpl.
  intros [Hl Hf]%map_lookup_filter_Some. split; [done|].
  apply existsb_exists in Hf as (c & Hc%list_elem_of_In & Heq%String.eqb_eq). subst.
  by apply list_elem_of_fmap_2.
Qed.

(** The invariant of the schedule along the rounds, latest first *)
Definition schedule_inv (rounds : list round) (tc : DwhTableConfig) : Prop :=
  dc_dropDeletedColumns tc = true /\
  forall n ts, dc_columnsToDelete tc !! n = Some ts -> waiting rounds n ts.

Lemma run_round_inv rounds r tc :
  schedule_inv rounds tc -> schedule_inv (r :: rounds) (run_round r tc).
Proof.
  intros [Hd Hw]. unfold run_round.
  destruct (schedule_spec (r_cdc r) (r_now r) (r_other r) (r_missing r) tc) as (_ & _ & Hsd & Hs).
  set (tc1 := schedule _ _ _ _ _) in *.
  assert (Hd1 : dc_dropDeletedColumns (MutateInMemoryColumns false Delete (round_drops r tc) tc1) = true).
  { rewrite (proj2 (Mutate_Delete_deletes _ _ _ EmptyString)), Hsd. done. }
  split; [unfold AuditColumnsToDelete; by rewrite Hd1|].
  intros n ts [Hl Hin]%Audit_lookup; [|done].
  rewrite (proj1 (Mutate_Delete_deletes _ _ _ n)) in Hl. case_bool_decide; [done|].
  rewrite Hs in Hl. destruct (dc_columnsToDelete tc !! n) as [ts0|] eqn:E.
  - injection Hl as ->. destruct (Hw n ts E) as (recent & first & older & -> & -> & Hall).
    exists (r :: recent), first, older. split; [done|]. split; [done|]. simpl. by constructor.
  - destruct (r_other r && _ && _); [|done]. injection Hl as <-.
    exists [], r, rounds. split; [done|]. split; [done|]. by constructor.
Qed.

(** C22. Over any sequence of batches on a table whose schedule starts empty, a
    column is dropped in a batch only if that batch holds other things than
    deletes, and the column has been missing in every batch since one whose
    clock, plus the four-hour padding, is before this batch's changes. *)
Theorem dropped_only_after_padding rounds tc0 r c :
  dc_dropDeletedColumns tc0 = true -> dc_columnsToDelete tc0 = ∅ ->
  c ∈ round_drops r (foldr run_round tc0 rounds) ->
  r_other r = true /\ missing_in (RawName c) r /\
  exists recent first older, rounds = recent ++ first :: older /\
    Forall (missing_in (RawName c)) (recent ++ [first]) /\
    r_now first + DeletionConfidencePadding < r_cdc r.
Proof.
  intros Hd0 Hm0 Hc.
  assert (Hinv : schedule_inv rounds (foldr run_round tc0 rounds)).
  { clear Hc. induction rounds as [|r' rounds IH]; simpl; [|by apply run_round_inv].
    split; [done|]. intros n ts. rewrite Hm0, lookup_empty. done. }
  apply list_elem_of_In, filter_In in Hc as [Hin%list_elem_of_In Hdrop].
  unfold drop_now in Hdrop. string_eqs. destruct Hinv as [_ Hw].
  destruct (dc_columnsToDelete _ !! RawName c) as [ts|] eqn:E; [|done]. string_eqs.
  destruct (Hw _ _ E) as (recent & first & older & -> & -> & Hall).
  split; [done|]. split; [by apply list_elem_of_fmap_2|]. by exists recent, first, older.
Qed.

Lemma dropped_only_after_padding_witness :
  let missing := [NewColumn "old" String_] in
  let tc0 := mkDwhTableConfig missing ∅ false true in
  let r0 := mkRound 0 (5 * Hour) true missing in
  exists recent first older, [r0] = recent ++ first :: older /\
    Forall (missing_in "old") (recent ++ [first]) /\ r_now first + DeletionConfidencePadding < 5 * Hour.
Proof.
  intros missing tc0 r0.
  destruct (dropped_only_after_padding [r0] tc0 r0 (NewColumn "old" String_)) as (_ & _ & H).
  - reflexivity.
  - reflexivity.
  - assert (E : round_drops r0 (foldr run_round tc0 [r0]) = missing) by (vm_compute; reflexivity).
    rewrite E. left.
  - exact H.
Defined.

(** * Adding columns *)

Section AddFacts.
Context {D : Type} `{SqlStore D} `{GoStd}.

Definition to_add (cols : list Column) : list Column := List.filter (fun c => negb (ShouldSkip c)) cols.

(** The contribution of an added column *)
Definition add_alteration (a : AlterTableArgs) (up : bool) (col : Column) : result alteration :=
  kind ← KindToDWHType (c_KindDetails col) Label (c_primaryKey col);
  Ok (mkAlteration col (escaped_name up col +:+ " " +:+ kind)
        (if c_primaryKey col && negb (bool_decide (a_Mode a = History)) then Some (escaped_name up col) else None)).

Lemma collect_adds a up cols st :
  a_ColumnOp a = Add ->
  collect (alter_column a up) cols st = (traverse (add_alteration a up) (to_add cols), st).
Proof.
  intros Hop. unfold to_add. induction cols as [|c cols IH]; cbn [collect]; [done|].
  rewrite go_bind_run. unfold alter_column at 1. simpl. destruct (ShouldSkip c); simpl.
  - rewrite go_bind_run, IH. simpl. by destruct (traverse _ _).
  - rewrite Hop, go_bind_run. unfold lift.
    assert (Hc : add_alteration a up c = (KindToDWHType (c_KindDetails c) Label (c_primaryKey c) ≫= fun kind =>
      Ok (mkAlteration c (escaped_name up c +:+ " " +:+ kind)
            (if c_primaryKey c && negb (bool_decide (a_Mode a = History)) then Some (escaped_name up c) else None))))
      by reflexivity.
    rewrite Hc. destruct (KindToDWHType _ _ _) as [k|e|w]; simpl; [|done..].
    rewrite go_bind_run, IH. by destruct (traverse _ _).
Qed.

Lemma add_alteration_cols a up cols alts :
  traverse (add_alteration a up) cols = Ok alts -> map al_col alts = cols.
Proof.
  intros Ht%traverse_Ok. induction Ht as [|c x cols alts Hx Ht IH]; [done|]. simpl. f_equal; [|done].
  unfold add_alteration in Hx. destruct (KindToDWHType _ _ _); [by injection Hx as <- | done..].
Qed.

Lemma Mutate_Add_create create cols d : dc_createTable (MutateInMemoryColumns create Add cols d) = create.
Proof. reflexivity. Qed.

Lemma AlterTable_add_run a up cols st tc :
  a_ColumnOp a = Add -> a_UppercaseEscNames a = Some up -> cols <> [] ->
  env_configs st !! a_Tc a = Some tc ->
  let r := AlterTable a cols st in
  is_ok (fst r) = true ->
  exists alts, traverse (add_alteration a up) (to_add cols) = Ok alts /\
    env_log (snd r) = env_log st ++
      (if a_CreateTable a
       then match create_query a (sql_parts alts) (Now (env_db st)) with Ok q => [SqlExec q] | _ => [] end
       else map (fun part => SqlExec (alter_query a part)) (sql_parts alts)) /\
    env_configs (snd r) !! a_Tc a = Some (MutateInMemoryColumns false Add (to_add cols) tc).
Proof.
  intros Hop Hup Hne Hk r. assert (Hr : r = AlterTable a cols st) by done. clearbody r.
  unfold AlterTable in Hr. rewrite go_bind_run in Hr. unfold lift at 1 in Hr.
  destruct (AlterTableArgs_Validate a) as [[]|e|w]; [|by subst r..].
  destruct cols as [|c0 cols0]; [done|]. set (cols := c0 :: cols0) in *.
  rewrite Hup, go_bind_run, (collect_adds a up cols st Hop) in Hr.
  destruct (traverse (add_alteration a up) (to_add cols)) as [alts|e|w] eqn:Ht; [|by subst r..].
  apply add_alteration_cols in Ht as Hcols.
  intros Hok. exists alts. split; [done|].
  assert (Hcfg : forall st1 : env D, env_configs st1 = env_configs st ->
    on_config (a_Tc a) (MutateInMemoryColumns false (a_ColumnOp a) (map al_col alts)) st1 =
    (Ok tt, with_config (a_Tc a) (MutateInMemoryColumns false Add (to_add cols) tc) st1)).
  { intros st1 Hst1. unfold on_config. rewrite go_bind_run. unfold config_of. by rewrite Hst1, Hk, Hop, Hcols. }
  destruct (a_CreateTable a).
  - rewrite go_bind_run in Hr. unfold time_now, gets in Hr. rewrite go_bind_run in Hr. unfold lift in Hr.
    rewrite go_bind_run in Hr. destruct (create_query a (sql_parts alts) (Now (env_db st))) as [q|e|w];
      [|by subst r..].
    pose proof (exec_ddl_log q st) as Hl. pose proof (exec_ddl_configs q st) as Hc.
    destruct (exec_ddl q st) as [[[]|e|w] st1]; [|by subst r..].
    simpl in Hl, Hc. rewrite Hcfg in Hr by done. subst r. simpl.
    split; [exact Hl|]. apply lookup_insert_eq.
  - rewrite go_bind_run in Hr.
    pose proof (for_each_statements (alter_query a)
      (fun part => "failed to apply ddl, sql: " +:+ alter_query a part +:+ ", err: ") (sql_parts alts) st)
      as (sent & H1 & _ & H3 & H4).
    match type of H1 with context [snd ?run] => set (loop := run) in H1, H3, H4 end.
    match type of Hr with context [let '(r, st') := ?run in _] => change run with loop in Hr end.
    clearbody loop. destruct loop as [[[]|e|w] st1]; [|by subst r..].
    simpl in H1, H3, H4. specialize (H3 eq_refl). subst sent.
    rewrite Hcfg in Hr by done. subst r. simpl.
    split; [exact H1|]. apply lookup_insert_eq.
Qed.

(** C23. When [AlterTable] succeeds in adding columns, it has sent one
    statement that creates the table with all of them, or one statement per
    column in order (and one more for the primary key), skipping the columns
    of unknown kind; afterwards the table is known to exist and to have all
    these columns, none of which is scheduled for deletion any more. *)
Theorem AlterTable_add_spec a up cols st tc :
  a_ColumnOp a = Add -> a_UppercaseEscNames a = Some up -> cols <> [] ->
  env_configs st !! a_Tc a = Some tc ->
  let r := AlterTable a cols st in
  is_ok (fst r) = true ->
  exists alts tc', traverse (add_alteration a up) (to_add cols) = Ok alts /\
    env_log (snd r) = env_log st ++
      (if a_CreateTable a
       then match create_query a (sql_parts alts) (Now (env_db st)) with Ok q => [SqlExec q] | _ => [] end
       else map (fun part => SqlExec (alter_query a part)) (sql_parts alts)) /\
    env_configs (snd r) !! a_Tc a = Some tc' /\ dc_createTable tc' = false /\
    forall c, c ∈ to_add cols ->
      (c_name c <> EmptyString -> is_Some (GetColumn (dc_columns tc') (c_name c))) /\
      dc_columnsToDelete tc' !! c_name c = None.
Proof.
  intros Hop Hup Hne Hk r Hok.
  destruct (AlterTable_add_run a up cols st tc Hop Hup Hne Hk Hok) as (alts & Ht & Hl & Hc).
  exists alts, (MutateInMemoryColumns false Add (to_add cols) tc). do 4 (split; [done|]).
  intros c Hin. rewrite Mutate_Add_columns, Mutate_Add_deletes, foldl_AddColumn_GetColumn.
  assert (c_name c ∈ map c_name (to_add cols)) by by apply list_elem_of_fmap_2.
  split; [by right|]. by rewrite bool_decide_true.
Qed.
End AddFacts.

Definition example_add_args (create : bool) : AlterTableArgs :=
  mkAlterTableArgs "t" true "db.public.orders" create false (Some false) Add Replication (mkTime 100 0).

Lemma AlterTable_add_spec_witness :
  let _ := quiet_store Snowflake in let _ := plain_std in
  exists tc', env_configs (snd (AlterTable (example_add_args false) [NewColumn "old" String_; NewColumn "x" Integer] example_env))
                !! "t" = Some tc' /\ dc_columnsToDelete tc' !! "old" = None.
Proof.
  destruct (AlterTable_add_spec (H := quiet_store Snowflake) (H0 := plain_std) (example_add_args false) false
              [NewColumn "old" String_; NewColumn "x" Integer] example_env
              (mkDwhTableConfig [NewColumn "old" String_; NewColumn "newer" String_] {[ "old" := 99 ]} false true)
              eq_refl eq_refl ltac:(discriminate) eq_refl eq_refl)
    as (alts & tc' & _ & _ & Hk & _ & Hall).
  exists tc'. split; [exact Hk|]. apply (proj2 (Hall (NewColumn "old" String_) (list_elem_of_here _ _))).
Defined.

(** Adding a primary key column to a table that exists sends a statement that
    adds a column named after the clause itself. *)
Example add_primary_key_column :
  let _ := quiet_store Snowflake in let _ := plain_std in
  env_log (snd (AlterTable (example_add_args false)
    (UpsertColumn [NewColumn "id" Integer] "id" (mkUpsert None (Some true) None)) example_env)) =
  [SqlExec "ALTER TABLE db.public.orders add COLUMN id int";
   SqlExec "ALTER TABLE db.public.orders add COLUMN PRIMARY KEY (id)"].
Proof. reflexivity. Qed.
