(* ===== verification/Dml.v ===== *)
(** Data manipulation: [lib/destination/dml/merge.go], the statements that merge
    a staging table into the target.  The printed statements are built from the
    lists the code computes (equality clauses, columns, assignments), so the
    theorems speak of these lists. *)
From S2P Require Import Prelude GoLang Constants StringUtil Decimal Values Typing Columns Config.
Local Open Scope string_scope.
Local Open Scope list_scope.

Record MergeArgument := mkMergeArgument {
  ma_FqTableName : string;
  ma_SubQuery : string;
  ma_IdempotentKey : string;
  ma_PrimaryKeys : list Wrapper;
  ma_AdditionalEqualityStrings : list string;
  ma_Columns : option (list Column);
  ma_DestKind : DestinationKind;
  ma_SoftDelete : bool;
  ma_ContainsHardDeletes : option bool;
  ma_UppercaseEscNames : option bool
}.

Definition MergeArgument_Valid (m : option MergeArgument) : result unit :=
  match m with
  | None => errorf "merge argument is nil"
  | Some m =>
      if bool_decide (length (ma_PrimaryKeys m) = 0%nat) then errorf "merge argument does not contain primary keys"
      else if bool_decide (length (GetColumns (ma_Columns m)) = 0%nat) then errorf "columns cannot be empty"
      else if Empty [ma_FqTableName m; ma_SubQuery m]
      then errorf "one of these arguments is empty: fqTableName, subQuery"
      else if bool_decide (ma_UppercaseEscNames m = None) then errorf "uppercaseEscNames cannot be nil"
      else if negb (IsValidDestination (ma_DestKind m))
      then errorf ("invalid destination: " +:+ DestinationKind_string (ma_DestKind m))
      else Ok tt
  end.

Definition uppercase (m : MergeArgument) : bool := default false (ma_UppercaseEscNames m).

Definition idempotent_clause (m : MergeArgument) (before after : string) : string :=
  if String.eqb (ma_IdempotentKey m) EmptyString then EmptyString
  else before +:+ "cc." +:+ ma_IdempotentKey m +:+ " >= c." +:+ ma_IdempotentKey m +:+ after.

Definition equality_sql (pk : Wrapper) : string :=
  "c." +:+ w_escapedName pk +:+ " = cc." +:+ w_escapedName pk.

Definition merge_cols (m : MergeArgument) : list string :=
  GetColumnsToUpdate (ma_Columns m) (uppercase m) (Some (mkNameArgs true (ma_DestKind m))).

(** The first delete marker removed from the columns, if there is one *)
Definition remove_marker (cols : list string) : option (list string) :=
  if mem_string cols DeleteColumnMarker
  then Some (remove_first (String.eqb DeleteColumnMarker) cols) else None.

Definition cc_list (cols : list string) : string := StringsJoinAddPrefix cols "," "cc." EmptyString.

Definition insert_part (m : MergeArgument) (cols : list string) (equality : string) (pk : Wrapper) : string :=
  "INSERT INTO " +:+ ma_FqTableName m +:+ " (" +:+ join "," cols +:+ ") SELECT " +:+ cc_list cols +:+ " FROM "
    +:+ ma_SubQuery m +:+ " as cc LEFT JOIN " +:+ ma_FqTableName m +:+ " as c on " +:+ equality
    +:+ " WHERE c." +:+ w_escapedName pk +:+ " IS NULL;".

Definition update_part (m : MergeArgument) (skipDeleteCol : bool) (equality extra : string) : string :=
  "UPDATE " +:+ ma_FqTableName m +:+ " as c SET "
    +:+ UpdateQuery (ma_Columns m) (ma_DestKind m) (uppercase m) skipDeleteCol +:+ " FROM " +:+ ma_SubQuery m
    +:+ " as cc WHERE " +:+ equality +:+ idempotent_clause m " AND " EmptyString +:+ extra +:+ ";".

Definition delete_part (m : MergeArgument) : string :=
  let pks := map w_escapedName (ma_PrimaryKeys m) in
  "DELETE FROM " +:+ ma_FqTableName m +:+ " WHERE (" +:+ join "," pks +:+ ") IN (SELECT " +:+ cc_list pks
    +:+ " FROM " +:+ ma_SubQuery m +:+ " as cc WHERE cc." +:+ DeleteColumnMarker +:+ " = true);".

Definition no_marker {A} : result A := errorf "artie delete flag doesn't exist".

(** [GetParts]; [Valid] has checked that a primary key exists. *)
Definition GetParts (m : MergeArgument) : result (list string) :=
  MergeArgument_Valid (Some m) ;;
  if negb (bool_decide (ma_DestKind m = Redshift)) then errorf "err - this is meant for redshift only"
  else match ma_ContainsHardDeletes m, ma_PrimaryKeys m with
       | None, _ => errorf "containsHardDeletes cannot be nil"
       | _, [] => Panic "index out of range"
       | Some hardDeletes, pk :: _ =>
           let equality := join " and " (map equality_sql (ma_PrimaryKeys m)) in
           let cols := merge_cols m in
           if ma_SoftDelete m then
             Ok [insert_part m cols equality pk; update_part m false equality EmptyString]
           else match remove_marker cols with
                | None => no_marker
                | Some cols =>
                    Ok ([insert_part m cols equality pk;
                         update_part m true equality (" AND COALESCE(cc." +:+ DeleteColumnMarker +:+ ", false) = false")]
                        ++ (if hardDeletes then [delete_part m] else []))
                end
       end.

(** The equality of one key in [GetStatement]; BigQuery compares two JSON
    objects by their text. *)
Definition pk_equality (m : MergeArgument) (pk : Wrapper) : result string :=
  match GetColumn (GetColumns (ma_Columns m)) (w_name pk) with
  | None => errorf ("column: " +:+ w_name pk +:+ " does not exist in columnToType")
  | Some pkCol =>
      if bool_decide (ma_DestKind m = BigQuery) && kind_is (c_KindDetails pkCol) KStruct
      then Ok ("TO_JSON_STRING(c." +:+ w_escapedName pk +:+ ") = TO_JSON_STRING(cc." +:+ w_escapedName pk +:+ ")")
      else Ok (equality_sql pk)
  end.

Definition insert_clause (condition : string) (cols : list string) : string :=
  "WHEN NOT MATCHED AND " +:+ condition +:+ " THEN INSERT (" +:+ join "," cols +:+ ") VALUES (" +:+ cc_list cols +:+ ");".

Definition GetStatement (m : MergeArgument) : result string :=
  MergeArgument_Valid (Some m) ;;
  equality ← traverse (pk_equality m) (ma_PrimaryKeys m);
  let '(subQuery, equality) :=
    if bool_decide (ma_DestKind m = BigQuery)
    then (ma_SubQuery m, equality ++ ma_AdditionalEqualityStrings m)
    else ("( " +:+ ma_SubQuery m +:+ " )", equality) in
  let on := join " and " equality in
  let cols := merge_cols m in
  let idem := idempotent_clause m "AND " " " in
  let head := newline +:+ "MERGE INTO " +:+ ma_FqTableName m +:+ " c USING " +:+ subQuery +:+ " AS cc ON " +:+ on in
  let live := "IFNULL(cc." +:+ DeleteColumnMarker +:+ ", false) = false" in
  let update skip := UpdateQuery (ma_Columns m) (ma_DestKind m) (uppercase m) skip in
  if ma_SoftDelete m then
    Ok (head +:+ newline +:+ "WHEN MATCHED " +:+ idem +:+ "THEN UPDATE SET " +:+ update false +:+ newline
          +:+ insert_clause live cols)
  else match remove_marker cols with
       | None => no_marker
       | Some cols =>
           Ok (head +:+ newline +:+ "WHEN MATCHED AND cc." +:+ DeleteColumnMarker +:+ " THEN DELETE" +:+ newline
                 +:+ "WHEN MATCHED AND " +:+ live +:+ " " +:+ idem +:+ "THEN UPDATE SET " +:+ update true +:+ newline
                 +:+ insert_clause live cols)
       end.

Definition GetMSSQLStatement (m : MergeArgument) : result string :=
  MergeArgument_Valid (Some m) ;;
  let on := join " and " (map equality_sql (ma_PrimaryKeys m)) in
  let cols := merge_cols m in
  let idem := idempotent_clause m "AND " " " in
  let head := newline +:+ "MERGE INTO " +:+ ma_FqTableName m +:+ " c" +:+ newline +:+ "USING " +:+ ma_SubQuery m
                +:+ " AS cc ON " +:+ on in
  let live (dflt : string) := "COALESCE(cc." +:+ DeleteColumnMarker +:+ ", " +:+ dflt +:+ ") = 0" in
  let update skip := UpdateQuery (ma_Columns m) (ma_DestKind m) (uppercase m) skip in
  if ma_SoftDelete m then
    Ok (head +:+ newline +:+ "WHEN MATCHED " +:+ idem +:+ "THEN UPDATE SET " +:+ update false +:+ newline
          +:+ insert_clause (live "0") cols)
  else match remove_marker cols with
       | None => no_marker
       | Some cols =>
           Ok (head +:+ newline +:+ "WHEN MATCHED AND cc." +:+ DeleteColumnMarker +:+ " = 1 THEN DELETE" +:+ newline
                 +:+ "WHEN MATCHED AND " +:+ live "0" +:+ " " +:+ idem +:+ "THEN UPDATE SET " +:+ update true +:+ newline
                 +:+ insert_clause (live "1") cols)
       end.

(** * When a statement is built *)

Definition argument_valid (m : MergeArgument) : Prop :=
  ma_PrimaryKeys m <> [] /\ GetColumns (ma_Columns m) <> [] /\ ma_FqTableName m <> EmptyString /\
  ma_SubQuery m <> EmptyString /\ is_Some (ma_UppercaseEscNames m) /\ IsValidDestination (ma_DestKind m) = true.

(** A hard delete needs the delete marker among the columns. *)
Definition deletes_known (m : MergeArgument) : Prop :=
  ma_SoftDelete m = true \/ DeleteColumnMarker ∈ merge_cols m.

Lemma length_zero_iff {A} (l : list A) : bool_decide (length l = 0%nat) = false <-> l <> [].
Proof. rewrite bool_decide_eq_false. by destruct l. Qed.

Lemma MergeArgument_Valid_spec m : MergeArgument_Valid (Some m) = Ok tt <-> argument_valid m.
Proof.
  unfold MergeArgument_Valid, argument_valid, Empty.
  rewrite !guard_ok, !length_zero_iff, existsb_empty_false, !Forall_cons, bool_decide_eq_false,
    negb_false_iff, <- not_eq_None_Some. naive_solver.
Qed.

Lemma Valid_bind {A} m (k : result A) :
  is_ok (MergeArgument_Valid (Some m) ;; k) = true <-> argument_valid m /\ is_ok k = true.
Proof.
  rewrite <- MergeArgument_Valid_spec.
  destruct (MergeArgument_Valid (Some m)) as [[]| |]; simpl; naive_solver.
Qed.

Lemma remove_marker_is_some cols : is_Some (remove_marker cols) <-> DeleteColumnMarker ∈ cols.
Proof.
  rewrite <- mem_string_spec. unfold remove_marker.
  destruct (mem_string cols DeleteColumnMarker); [naive_solver|].
  split; [by intros [] | done].
Qed.

Lemma soft_or_marker {A} m (a : result A) (f : list string -> result A) :
  is_ok a = true -> (forall c, is_ok (f c) = true) ->
  is_ok (if ma_SoftDelete m then a else match remove_marker (merge_cols m) with
                                        | None => no_marker | Some c => f c end) = true
  <-> deletes_known m.
Proof.
  intros Ha Hf. unfold deletes_known. rewrite <- remove_marker_is_some.
  destruct (ma_SoftDelete m); [split; [by left | done]|].
  destruct (remove_marker (merge_cols m)) as [c|]; simpl; [rewrite Hf; naive_solver|].
  split; [done | by intros [|[]]].
Qed.

Lemma pk_equality_ok m pk :
  is_ok (pk_equality m pk) = bool_decide (is_Some (GetColumn (GetColumns (ma_Columns m)) (w_name pk))).
Proof.
  unfold pk_equality. destruct (GetColumn _ _) as [c|]; [|done].
  rewrite (bool_decide_true (is_Some (Some c))) by eauto. by destruct (_ && _).
Qed.

Lemma traverse_is_ok {A B} (f : A -> result B) l :
  is_ok (traverse f l) = true <-> Forall (fun x => is_ok (f x) = true) l.
Proof.
  induction l as [|x l IH]; simpl; [by split|]. rewrite Forall_cons, <- IH.
  destruct (f x); simpl; [|naive_solver..]. destruct (traverse f l); simpl; naive_solver.
Qed.

(** C24. The three builders fail exactly on the arguments they should refuse: an
    invalid argument, a hard-delete merge whose columns lack the delete
    marker, for [GetStatement] a primary key without a column, and for
    [GetParts] another destination than Redshift or an unknown
    [ContainsHardDeletes]. *)
Theorem statements_ok_iff m :
  (is_ok (GetStatement m) = true <->
     argument_valid m /\ deletes_known m /\
     Forall (fun pk => is_Some (GetColumn (GetColumns (ma_Columns m)) (w_name pk))) (ma_PrimaryKeys m)) /\
  (is_ok (GetMSSQLStatement m) = true <-> argument_valid m /\ deletes_known m) /\
  (is_ok (GetParts m) = true <->
     argument_valid m /\ deletes_known m /\ ma_DestKind m = Redshift /\ is_Some (ma_ContainsHardDeletes m)).
Proof.
  split; [|split].
  - unfold GetStatement. rewrite Valid_bind.
    transitivity (argument_valid m /\ deletes_known m /\ is_ok (traverse (pk_equality m) (ma_PrimaryKeys m)) = true).
    + destruct (traverse _ _) as [eqs| |]; simpl; [|naive_solver..].
      destruct (bool_decide _); rewrite soft_or_marker; naive_solver.
    + rewrite traverse_is_ok. setoid_rewrite pk_equality_ok. by setoid_rewrite bool_decide_eq_true.
  - unfold GetMSSQLStatement. rewrite Valid_bind. cbv zeta. rewrite soft_or_marker; naive_solver.
  - unfold GetParts. rewrite Valid_bind.
    split.
    + intros [Hv Hok]. destruct (bool_decide (ma_DestKind m = Redshift)) eqn:Ed; [|done].
      apply bool_decide_eq_true in Ed. simpl in Hok.
      destruct (ma_ContainsHardDeletes m) as [h|]; [|done].
      destruct (ma_PrimaryKeys m) as [|pk pks]; [done|].
      rewrite soft_or_marker in Hok; naive_solver.
    + intros (Hv & Hd & Hr & h & Hh). split; [done|]. rewrite bool_decide_true, Hh by done. simpl.
      destruct Hv as [Hpk _]. destruct (ma_PrimaryKeys m) as [|pk pks]; [done|].
      rewrite soft_or_marker; naive_solver.
Qed.

(** * Which columns a statement writes *)

(** The marker is no reserved word, so it is never quoted, and a quoted name
    is never the marker. *)
Lemma marker_plain kind : needsEscaping kind DeleteColumnMarker = false.
Proof. by destruct kind. Qed.

Lemma Name_marker c up kind :
  Name c up (Some (mkNameArgs true kind)) = DeleteColumnMarker <-> c_name c = DeleteColumnMarker.
Proof.
  unfold Name. split.
  - unfold EscapeName; simpl. destruct (needsEscaping kind (c_name c)); [|done]. by destruct kind.
  - intros ->. apply EscapeName_plain. apply marker_plain.
Qed.

(** Every column of unknown kind carries no details: what the event side of the
    pipeline produces. *)
Definition invalid_bare (cols : list Column) : Prop :=
  Forall (fun c => ShouldSkip c = true -> c_KindDetails c = Invalid) cols.

Lemma kd_eqb_Invalid cols c :
  invalid_bare cols -> c ∈ cols -> kd_eqb (c_KindDetails c) Invalid = ShouldSkip c.
Proof.
  intros Hb Hc. unfold invalid_bare in Hb. rewrite Forall_forall in Hb. specialize (Hb c Hc).
  unfold kd_eqb, ShouldSkip, kind_is in *. destruct (decide (kd_Kind (c_KindDetails c) = KInvalid)) as [Hk | Hk].
  - rewrite (bool_decide_true _ Hk) in *. rewrite Hb by done. done.
  - rewrite (bool_decide_false _ Hk). apply bool_decide_false. intros Heq. by rewrite Heq in Hk.
Qed.

Lemma GetColumnsToUpdate_bare cols up args :
  invalid_bare cols ->
  GetColumnsToUpdate (Some cols) up args = map (fun c => Name c up args) (List.filter (fun c => negb (ShouldSkip c)) cols).
Proof.
  intros Hb. unfold GetColumnsToUpdate, GetColumns. simpl. f_equal. apply filter_ext_in.
  intros c Hc%list_elem_of_In. by rewrite (kd_eqb_Invalid cols).
Qed.

(** Removing the first marker from the names removes the column of that name. *)
Lemma remove_first_marker cols up kind :
  NoDup (map c_name cols) ->
  remove_first (String.eqb DeleteColumnMarker) (map (fun c => Name c up (Some (mkNameArgs true kind))) cols) =
  map (fun c => Name c up (Some (mkNameArgs true kind)))
      (List.filter (fun c => negb (String.eqb (c_name c) DeleteColumnMarker)) cols).
Proof.
  induction cols as [|c cols IH]; intros Hnd; [done|].
  apply NoDup_cons in Hnd as [Hc Hnd]. cbn [map remove_first List.filter].
  destruct (String.eqb_spec (c_name c) DeleteColumnMarker) as [He | Hne]; cbn [negb map].
  - assert (Name c up (Some (mkNameArgs true kind)) = DeleteColumnMarker) as -> by by apply Name_marker.
    rewrite String.eqb_refl. f_equal. symmetry. apply forallb_filter_id, forallb_forall.
    intros d Hd%list_elem_of_In. apply negb_true_iff, String.eqb_neq. intros Hdm.
    apply Hc. rewrite He, <- Hdm. by apply list_elem_of_fmap_2.
  - destruct (String.eqb_spec DeleteColumnMarker (Name c up (Some (mkNameArgs true kind)))) as [Heq | _].
    + by apply eq_sym, Name_marker in Heq.
    + by rewrite IH.
Qed.

(** The statements of a merge agree on the columns: on a well-formed column
    list where unknown kinds carry no details, a hard-delete merge inserts and
    updates exactly the columns of known kind other than the delete marker,
    and a soft-delete merge all columns of known kind. *)
Theorem merge_columns_agree m cols :
  ma_Columns m = Some cols -> columns_wf cols -> invalid_bare cols ->
  let name c := Name c (uppercase m) (Some (mkNameArgs true (ma_DestKind m))) in
  merge_cols m = map name (List.filter (updated_column false) cols) /\
  (forall ins, remove_marker (merge_cols m) = Some ins ->
     ins = map name (List.filter (updated_column true) cols) /\ DeleteColumnMarker ∉ ins).
Proof.
  intros Hc [Hnd _] Hb name. unfold merge_cols. rewrite Hc, (GetColumnsToUpdate_bare cols) by done.
  assert (Hf : List.filter (updated_column false) cols = List.filter (fun c => negb (ShouldSkip c)) cols).
  { apply filter_ext. intros c. unfold updated_column. simpl. by rewrite andb_true_r. }
  split; [by rewrite Hf|]. intros ins. unfold remove_marker.
  destruct (mem_string _ _); [|done]. intros Hins. apply (inj Some) in Hins as <-. rewrite remove_first_marker.
  - rewrite filter_filter_andb. split; [done|].
    intros (c & Hn & Hin%list_elem_of_In)%list_elem_of_fmap. apply filter_In in Hin as [_ Hin].
    symmetry in Hn. apply Name_marker in Hn. rewrite Hn, String.eqb_refl, andb_false_r in Hin. done.
  - eapply sublist_NoDup; [exact Hnd|]. apply (fmap_sublist c_name), filter_sublist.
Qed.

Definition example_merge (cols : list Column) (soft : bool) : MergeArgument :=
  mkMergeArgument "db.public.orders" "tmp" EmptyString [mkWrapper "id" "id"] [] (Some cols) Snowflake soft
    (Some true) (Some false).
Definition example_merge_columns : list Column :=
  [NewColumn "id" Integer; NewColumn "start" String_; NewColumn "ghost" Invalid; NewColumn DeleteColumnMarker Boolean].

Lemma merge_columns_agree_witness :
  merge_cols (example_merge example_merge_columns false) = ["id"; quote "start"; DeleteColumnMarker] /\
  (["id"; quote "start"] = map (fun c => Name c false (Some (mkNameArgs true Snowflake)))
                             (List.filter (updated_column true) example_merge_columns)).
Proof.
  assert (Hwf : columns_wf example_merge_columns)
    by (split; apply (bool_decide_unpack _); vm_compute; reflexivity).
  assert (Hb : invalid_bare example_merge_columns)
    by (repeat constructor; intros Hs; vm_compute in Hs; first [discriminate | reflexivity]).
  destruct (merge_columns_agree (example_merge example_merge_columns false) example_merge_columns eq_refl Hwf Hb)
    as [H1 H2].
  split; [exact H1|]. apply (H2 ["id"; quote "start"] eq_refl).
Defined.
