(* ===== verification/SqlMerge.v ===== *)
(** What the merge statements of [Dml] say and do.  The text of each builder is
    the text of a statement in the SQL of [Sql]; and running the statement on a
    staging table and a target is merging a batch as [Replication] does. *)
From S2P Require Import Prelude GoLang Constants StringUtil Decimal Values Typing Columns Replication Sql Dml.
Local Open Scope string_scope.
Local Open Scope list_scope.
Local Open Scope Z_scope.

(** * The statements as syntax *)

(** That a placeholder of a structure, or of another value, was not staged *)
Definition struct_test (kind : DestinationKind) (n : string) : expr :=
  let toast := ToastUnavailableValuePlaceholder in
  let json := "{" +:+ quote "key" +:+ ":" +:+ quote toast +:+ "}" in
  let object := RawText ("{'key': '" +:+ toast +:+ "'}") in
  match kind with
  | BigQuery => OrElse "COALESCE" (Differ (Call "TO_JSON_STRING" (StagedCol n)) (TextLit json)) (BoolLit true)
  | Redshift => OrElse "COALESCE" (Differ (StagedCol n) (Call "JSON_PARSE" (TextLit json))) (BoolLit true)
  | MSSQL => Differ (OrElse "COALESCE" (StagedCol n) (RawText "{}")) object
  | _ => OrElse "COALESCE" (Differ (StagedCol n) object) (BoolLit true)
  end.

Definition text_test (kind : DestinationKind) (n : string) : expr :=
  let toast := TextLit ToastUnavailableValuePlaceholder in
  match kind with
  | MSSQL => Differ (OrElse "COALESCE" (StagedCol n) (TextLit EmptyString)) toast
  | _ => OrElse "COALESCE" (Differ (StagedCol n) toast) (BoolLit true)
  end.

Definition column_name (m : MergeArgument) (c : Column) : string :=
  Name c (uppercase m) (Some (mkNameArgs true (ma_DestKind m))).

Definition assignment (m : MergeArgument) (c : Column) : string * expr :=
  let n := column_name m c in
  (n, if c_ToastColumn c then
        CaseWhen (if kd_eqb (c_KindDetails c) Struct then struct_test (ma_DestKind m) n else text_test (ma_DestKind m) n)
          (StagedCol n) (TargetCol n)
      else StagedCol n).

Definition assignments (m : MergeArgument) (skipDeleteCol : bool) : list (string * expr) :=
  map (assignment m) (List.filter (updated_column skipDeleteCol) (GetColumns (ma_Columns m))).

Definition key_equal (pk : Wrapper) : expr := Equal (TargetCol (w_escapedName pk)) (StagedCol (w_escapedName pk)).

(** The equality of one key in [GetStatement] *)
Definition key_equal_json (m : MergeArgument) (pk : Wrapper) : result expr :=
  match GetColumn (GetColumns (ma_Columns m)) (w_name pk) with
  | None => errorf ("column: " +:+ w_name pk +:+ " does not exist in columnToType")
  | Some pkCol =>
      Ok (if bool_decide (ma_DestKind m = BigQuery) && kind_is (c_KindDetails pkCol) KStruct
          then Equal (Call "TO_JSON_STRING" (TargetCol (w_escapedName pk))) (Call "TO_JSON_STRING" (StagedCol (w_escapedName pk)))
          else key_equal pk)
  end.

Definition newer (m : MergeArgument) : list expr :=
  if String.eqb (ma_IdempotentKey m) EmptyString then []
  else [AtLeast (StagedCol (ma_IdempotentKey m)) (TargetCol (ma_IdempotentKey m))].

Definition marker : expr := StagedCol DeleteColumnMarker.
Definition not_deleted (f : string) (dflt no : expr) : expr := Equal (OrElse f marker dflt) no.

(** The clauses of a [MERGE]; [deleted] is the test of a delete, [live] those of
    an update and of an insert. *)
Definition merge_with (m : MergeArgument) (source brk : string) (on : list expr) (deleted live live_insert : expr)
  : result merge_stmt :=
  let cols := merge_cols m in
  if ma_SoftDelete m then
    Ok (mkMergeStmt (ma_FqTableName m) source brk on [(newer m, SetRow (assignments m false))] live cols)
  else match remove_marker cols with
       | None => no_marker
       | Some cols =>
           Ok (mkMergeStmt (ma_FqTableName m) source brk on
                 [([deleted], DeleteRow); (live :: newer m, SetRow (assignments m true))] live_insert cols)
       end.

Definition merge_of (m : MergeArgument) : result merge_stmt :=
  MergeArgument_Valid (Some m) ;;
  on ← traverse (key_equal_json m) (ma_PrimaryKeys m);
  let live := not_deleted "IFNULL" (BoolLit false) (BoolLit false) in
  if bool_decide (ma_DestKind m = BigQuery)
  then merge_with m (ma_SubQuery m) " " (on ++ map RawText (ma_AdditionalEqualityStrings m)) marker live live
  else merge_with m ("( " +:+ ma_SubQuery m +:+ " )") " " on marker live live.

Definition mssql_merge_of (m : MergeArgument) : result merge_stmt :=
  MergeArgument_Valid (Some m) ;;
  let live n := not_deleted "COALESCE" (IntLit n) (IntLit 0) in
  merge_with m (ma_SubQuery m) newline (map key_equal (ma_PrimaryKeys m)) (Equal marker (IntLit 1)) (live 0)
    (if ma_SoftDelete m then live 0 else live 1).

Definition parts_of (m : MergeArgument) : result (list part_stmt) :=
  MergeArgument_Valid (Some m) ;;
  if negb (bool_decide (ma_DestKind m = Redshift)) then errorf "err - this is meant for redshift only"
  else match ma_ContainsHardDeletes m, ma_PrimaryKeys m with
       | None, _ => errorf "containsHardDeletes cannot be nil"
       | _, [] => Panic "index out of range"
       | Some hardDeletes, pk :: _ =>
           let on := map key_equal (ma_PrimaryKeys m) in
           let insert cols := InsertMissing (ma_FqTableName m) cols (ma_SubQuery m) on (w_escapedName pk) in
           let update skip extra := UpdateFrom (ma_FqTableName m) (assignments m skip) (ma_SubQuery m) on (newer m ++ extra) in
           if ma_SoftDelete m then Ok [insert (merge_cols m); update false []]
           else match remove_marker (merge_cols m) with
                | None => no_marker
                | Some cols =>
                    Ok ([insert cols; update true [not_deleted "COALESCE" (BoolLit false) (BoolLit false)]] ++
                        (if hardDeletes then [DeleteIn (ma_FqTableName m) (map w_escapedName (ma_PrimaryKeys m))
                                                (ma_SubQuery m) (Equal marker (BoolLit true))] else []))
                end
       end.

(** * The text is the text of the syntax *)

Ltac same_text := cbn [print_expr]; rewrite <- ?string_app_assoc; simpl; rewrite <- ?string_app_assoc; simpl; try reflexivity.

Lemma print_assignment m c :
  fst (assignment m c) +:+ "=" +:+ print_expr (snd (assignment m c)) = update_assignment (ma_DestKind m) (uppercase m) c.
Proof.
  unfold update_assignment, assignment, column_name. simpl. destruct (c_ToastColumn c); [|same_text].
  unfold processToastStructCol, processToastCol, struct_test, text_test.
  destruct (kd_eqb _ _); destruct (ma_DestKind m); same_text.
Qed.

Lemma print_assignments m skip :
  print_sets (assignments m skip) = UpdateQuery (ma_Columns m) (ma_DestKind m) (uppercase m) skip.
Proof.
  unfold print_sets, assignments, UpdateQuery. rewrite map_map. f_equal. apply map_ext. apply print_assignment.
Qed.

Lemma print_key_equal pk : print_expr (key_equal pk) = equality_sql pk.
Proof. unfold key_equal, equality_sql. same_text. Qed.

Lemma print_keys pks : map print_expr (map key_equal pks) = map equality_sql pks.
Proof. rewrite map_map. apply map_ext, print_key_equal. Qed.

Lemma staged_list_cc cols : staged_list cols = cc_list cols.
Proof.
  unfold staged_list, cc_list, StringsJoinAddPrefix. f_equal. apply map_ext. intros c. by rewrite string_app_nil_r.
Qed.

Lemma print_key_json m pk : pk_equality m pk = print_expr <$> key_equal_json m pk.
Proof.
  unfold pk_equality, key_equal_json. destruct (GetColumn _ _) as [c|]; [|done].
  destruct (_ && _); simpl; f_equal; same_text.
Qed.

Lemma traverse_fmap {A B C} (f : A -> result C) (g : B -> C) (h : A -> result B) l :
  (forall x, f x = g <$> h x) -> traverse f l = map g <$> traverse h l.
Proof.
  intros Hf. induction l as [|x l IH]; [done|]. simpl. rewrite Hf, IH.
  destruct (h x); simpl; [|done..]. by destruct (traverse h l).
Qed.

(** The idempotency clause, in the form each builder prints it *)
Lemma print_newer m : idempotent_clause m "AND " " " = foldr (fun e s => "AND " +:+ print_expr e +:+ " " +:+ s) EmptyString (newer m).
Proof. unfold idempotent_clause, newer. destruct (String.eqb _ _); [done|]. simpl. same_text. Qed.

Lemma print_newer_part m extra :
  idempotent_clause m " AND " EmptyString +:+ foldr (fun e s => " AND " +:+ print_expr e +:+ s) EmptyString extra =
  foldr (fun e s => " AND " +:+ print_expr e +:+ s) EmptyString (newer m ++ extra).
Proof. unfold idempotent_clause, newer. destruct (String.eqb _ _); [done|]. simpl. same_text. Qed.

(** The builders print SQL: each returns the text of the statement its syntax
    denotes, and fails where it does. *)
Lemma GetStatement_print m : GetStatement m = print_merge <$> merge_of m.
Proof.
  unfold GetStatement, merge_of. destruct (MergeArgument_Valid (Some m)) as [[]| |]; simpl; [|done..].
  rewrite (traverse_fmap _ _ _ _ (print_key_json m)). destruct (traverse (key_equal_json m) (ma_PrimaryKeys m)) as [on| |]; simpl; [|done..].
  destruct (bool_decide (ma_DestKind m = BigQuery)); unfold merge_with; destruct (ma_SoftDelete m); simpl;
    try (destruct (remove_marker (merge_cols m)) as [cols|]; [|done]); simpl; f_equal; unfold print_merge, insert_clause; simpl;
    rewrite !print_assignments, !staged_list_cc, <- ?print_newer; unfold print_on; rewrite ?map_app, ?map_map, ?map_id.
  all: same_text.
Qed.

Lemma GetMSSQLStatement_print m : GetMSSQLStatement m = print_merge <$> mssql_merge_of m.
Proof.
  unfold GetMSSQLStatement, mssql_merge_of. destruct (MergeArgument_Valid (Some m)) as [[]| |]; simpl; [|done..].
  unfold merge_with; destruct (ma_SoftDelete m); simpl;
    try (destruct (remove_marker (merge_cols m)) as [cols|]; [|done]); simpl; f_equal; unfold print_merge, insert_clause; simpl;
    rewrite !print_assignments, !staged_list_cc, <- ?print_newer; unfold print_on; rewrite print_keys; same_text.
Qed.

Lemma GetParts_print m : GetParts m = map print_part <$> parts_of m.
Proof.
  unfold GetParts, parts_of. destruct (MergeArgument_Valid (Some m)) as [[]| |]; simpl; [|done..].
  destruct (negb _); [done|]. destruct (ma_ContainsHardDeletes m) as [h|]; [|done].
  destruct (ma_PrimaryKeys m) as [|pk pks] eqn:Hpks; [done|]. rewrite <- Hpks.
  assert (Hi : forall cols, print_part (InsertMissing (ma_FqTableName m) cols (ma_SubQuery m) (map key_equal (ma_PrimaryKeys m))
                              (w_escapedName pk)) = insert_part m cols (join " and " (map equality_sql (ma_PrimaryKeys m))) pk).
  { intros cols. unfold insert_part. simpl. unfold print_on. rewrite print_keys, staged_list_cc. same_text. }
  assert (Hu : forall skip extra, print_part (UpdateFrom (ma_FqTableName m) (assignments m skip) (ma_SubQuery m)
                                    (map key_equal (ma_PrimaryKeys m)) (newer m ++ extra)) =
               update_part m skip (join " and " (map equality_sql (ma_PrimaryKeys m)))
                 (foldr (fun e s => " AND " +:+ print_expr e +:+ s) EmptyString extra)).
  { intros skip extra. unfold update_part. simpl. unfold print_on.
    rewrite print_keys, print_assignments, <- print_newer_part. same_text. }
  assert (Hd : print_part (DeleteIn (ma_FqTableName m) (map w_escapedName (ma_PrimaryKeys m)) (ma_SubQuery m)
                             (Equal marker (BoolLit true))) = delete_part m).
  { unfold delete_part. simpl. rewrite staged_list_cc. same_text. }
  specialize (Hu true [not_deleted "COALESCE" (BoolLit false) (BoolLit false)]) as Hu1. specialize (Hu false []) as Hu0.
  cbv zeta. cbv [result_fmap fmap]. destruct (ma_SoftDelete m).
  { cbn [map]. by rewrite Hi, Hu0. }
  destruct (remove_marker (merge_cols m)) as [cols|]; [|done].
  destruct h; cbn [map app]; rewrite Hi, Hu1, ?Hd; simpl; do 3 f_equal; same_text.
Qed.

Lemma equal_holds a b : a <> Null -> cell_eqb (compared cell_eqb b a) (CBool true) = bool_decide (a = b).
Proof.
  intros Ha. unfold cell_eqb. destruct a, b; simpl; unfold cell_eqb; try done; repeat case_bool_decide; congruence.
Qed.

(** * What the statements do *)

Section Meaning.
Context `{SqlEngine}.
Context (m : MergeArgument) (cols : list Column).

(** The names of the columns a statement writes, with or without the marker *)
Definition names (skip : bool) : list string := map (column_name m) (List.filter (updated_column skip) cols).
Definition key_names : list string := map w_escapedName (ma_PrimaryKeys m).

(** The mark of a staged row *)
Definition flag_cell (b : bool) : cell :=
  if bool_decide (ma_DestKind m = MSSQL) then CInt (if b then 1 else 0) else CBool b.

(** What the pipeline gives a builder: a well-formed column list with the
    marker, keys among the columns, structures that are whole.  A merge by an
    idempotency key is left aside, since it drops changes on purpose. *)
Record merge_fits : Prop := {
  mf_columns : ma_Columns m = Some cols;
  mf_wf : columns_wf cols;
  mf_bare : invalid_bare cols;
  mf_distinct : NoDup (names false);
  mf_marker : DeleteColumnMarker ∈ names false;
  mf_whole : forall c, c ∈ cols -> c_ToastColumn c = true -> kd_eqb (c_KindDetails c) Struct = false;
  mf_keys : forall k, k ∈ key_names -> k ∈ names true;
  mf_key_kinds : ma_DestKind m = BigQuery -> forall pk c, pk ∈ ma_PrimaryKeys m ->
    GetColumn cols (w_name pk) = Some c -> kind_is (c_KindDetails c) KStruct = false;
  mf_newer : ma_IdempotentKey m = EmptyString
}.

(** A staged row has every column and a mark; a placeholder is in a column known
    to have them. *)
Record staged_fits (s : trow) : Prop := {
  sf_columns : forall c, is_Some (s !! c) <-> c ∈ names false;
  sf_flag : exists b, s !! DeleteColumnMarker = Some (flag_cell b);
  sf_toast : forall c v, c ∈ cols -> s !! column_name m c = Some v -> cell_toast v = true -> c_ToastColumn c = true
}.

Definition target_fits (t : trow) : Prop := forall c, is_Some (t !! c) <-> c ∈ names (negb (ma_SoftDelete m)).

(** The row of a key after a batch: a hard delete removes it; a soft delete is
    a change like others, but a deleted row that was never there is only kept
    by Redshift. *)
Definition batch_row (old : option trow) (new : trow) : option trow :=
  if ma_SoftDelete m then
    match old with
    | Some o => Some (carry o new)
    | None => if flagged new && negb (bool_decide (ma_DestKind m = Redshift)) then None else Some new
    end
  else merge_row old new.

Definition merge_rows (B T : gmap (list cell) trow) : gmap (list cell) trow :=
  merge (fun new old => match new with Some s => batch_row old s | None => old end) B T.

Lemma merge_rows_lookup B T k :
  merge_rows B T !! k = match B !! k with Some s => batch_row (T !! k) s | None => T !! k end.
Proof. unfold merge_rows. rewrite lookup_merge. by destruct (B !! k), (T !! k). Qed.

Lemma merge_rows_hard B T : ma_SoftDelete m = false -> merge_rows B T = merge_batch B T.
Proof.
  intros Hs. apply map_eq. intros k. rewrite merge_rows_lookup, merge_batch_lookup. unfold batch_row. by rewrite Hs.
Qed.

Section Rows.
Context (Hfit : merge_fits).

Lemma names_merge_cols : merge_cols m = names false.
Proof.
  unfold merge_cols. rewrite (mf_columns Hfit), GetColumnsToUpdate_bare by apply Hfit. unfold names. f_equal.
  apply filter_ext. intros c. unfold updated_column. simpl. by rewrite andb_true_r.
Qed.

Lemma names_marker : remove_marker (merge_cols m) = Some (names true).
Proof.
  rewrite names_merge_cols. unfold remove_marker.
  rewrite (proj2 (mem_string_spec _ _)) by exact (mf_marker Hfit). f_equal. unfold names.
  replace (List.filter (updated_column false) cols) with (List.filter (fun c => negb (ShouldSkip c)) cols)
    by (apply filter_ext; intros c; unfold updated_column; simpl; by rewrite andb_true_r).
  unfold column_name. rewrite remove_first_marker; [by rewrite filter_filter_andb|].
  eapply sublist_NoDup; [exact (proj1 (mf_wf Hfit))|]. apply (fmap_sublist c_name), filter_sublist.
Qed.

Lemma elem_names skip n : n ∈ names skip <-> exists c, n = column_name m c /\ c ∈ cols /\ updated_column skip c = true.
Proof.
  unfold names. rewrite list_elem_of_fmap. setoid_rewrite list_elem_of_In. setoid_rewrite filter_In. naive_solver.
Qed.

Lemma column_name_marker c : column_name m c = DeleteColumnMarker <-> RawName c = DeleteColumnMarker.
Proof. apply Name_marker. Qed.

(** The names without the marker are the names that are not the marker. *)
Lemma names_true n : n ∈ names true <-> n ∈ names false /\ n <> DeleteColumnMarker.
Proof.
  rewrite !elem_names. unfold updated_column. split.
  - intros (c & -> & Hc & Hu). apply andb_true_iff in Hu as [Hk Hn]. simpl in Hn.
    split; [exists c; rewrite Hk; done|]. rewrite column_name_marker. intros He. by rewrite He in Hn.
  - intros [(c & -> & Hc & Hu) Hn]. exists c. apply andb_true_iff in Hu as [Hk _]. rewrite Hk. split_and!; [done..|].
    rewrite column_name_marker in Hn. by apply String.eqb_neq in Hn as ->.
Qed.

Lemma names_distinct skip : NoDup (names skip).
Proof.
  destruct skip; [|apply Hfit]. eapply sublist_NoDup; [exact (mf_distinct Hfit)|]. unfold names. apply fmap_sublist.
  replace (List.filter (updated_column true) cols)
    with (List.filter (updated_column true) (List.filter (updated_column false) cols)); [apply filter_sublist|].
  rewrite filter_filter_andb. apply filter_ext. intros c. unfold updated_column.
  destruct (negb (ShouldSkip c)); [by rewrite andb_true_l | done].
Qed.

(** What is written of a staged row *)
Definition written (skip : bool) (s : trow) : trow := if skip then live_row s else s.

Lemma written_lookup skip s n : staged_fits s -> is_Some (written skip s !! n) <-> n ∈ names skip.
Proof.
  intros Hs. destruct skip; simpl; [|apply Hs]. rewrite names_true, <- (sf_columns s Hs), live_row_lookup.
  case_decide as Hn; [subst; split; [by intros [] | by intros []] | tauto].
Qed.

Lemma written_value skip s n : n ∈ names skip -> written skip s !! n = s !! n.
Proof.
  intros Hn. destruct skip; [|done]. simpl. rewrite live_row_lookup, decide_False; [done|]. by apply names_true in Hn as [_ Hn].
Qed.

(** ** Assigning and inserting *)

Lemma eval_assignment s t c :
  staged_fits s -> c ∈ cols ->
  eval s t (snd (assignment m c)) = if cell_toast (cell_of s (column_name m c)) then
    (if c_ToastColumn c then cell_of t (column_name m c) else cell_of s (column_name m c)) else cell_of s (column_name m c).
Proof.
  intros Hs Hc. unfold assignment. simpl. destruct (c_ToastColumn c) eqn:Et; [|by destruct (cell_toast _)].
  rewrite (mf_whole Hfit c Hc Et). unfold text_test, cell_toast, cell_eqb.
  destruct (cell_of s (column_name m c)) as [|b|z|x] eqn:Ex; simpl;
    destruct (ma_DestKind m); simpl; rewrite ?Ex; simpl; unfold cell_eqb; rewrite ?Ex; repeat case_bool_decide; simpl in *; congruence.
Qed.

(** Assigning every column is carrying the written row over the old one. *)
Lemma set_row_carry skip s t :
  staged_fits s -> (forall n, is_Some (t !! n) <-> n ∈ names skip) ->
  set_row s t (assignments m skip) = carry t (written skip s).
Proof.
  intros Hs Ht. unfold set_row, assignments. rewrite (mf_columns Hfit), map_map. simpl.
  set (sets := map _ _). assert (Hnames : fst <$> sets = names skip) by exact (map_map _ _ _).
  apply map_eq. intros n. rewrite lookup_union, carry_lookup.
  destruct (decide (n ∈ names skip)) as [Hn | Hn].
  - rewrite written_value by done. apply elem_names in Hn as Hc. destruct Hc as (c & -> & Hc & Hu).
    rewrite (elem_of_list_to_map_1 sets (column_name m c) (eval s t (snd (assignment m c)))).
    + rewrite eval_assignment by done. destruct (proj2 (Ht _) Hn) as [o Ho].
      assert (Hw : is_Some (s !! column_name m c)) by (rewrite <- (written_value skip) by done; by apply written_lookup).
      destruct Hw as [v Hv]. unfold cell_of. rewrite Hv, Ho. simpl. unfold is_toast; simpl.
      destruct (cell_toast v) eqn:Etoast; [|done]. by rewrite (sf_toast s Hs c v Hc Hv Etoast).
    + rewrite Hnames. apply names_distinct.
    + unfold sets. apply list_elem_of_fmap. exists c. split; [done|]. by apply list_elem_of_In, filter_In; split; [apply list_elem_of_In|].
  - rewrite not_elem_of_list_to_map_1 by by rewrite Hnames.
    assert (Hnone : forall r : trow, (is_Some (r !! n) <-> n ∈ names skip) -> r !! n = None)
      by (intros r Hr; apply eq_None_not_Some; by rewrite Hr).
    rewrite (Hnone t (Ht n)), (Hnone (written skip s) (written_lookup skip s n Hs)). done.
Qed.

Lemma insert_values_lookup s l n : insert_values s l !! n = if decide (n ∈ l) then Some (cell_of s n) else None.
Proof.
  unfold insert_values. induction l as [|c l IH]; [done|]. cbn [map list_to_map foldr]. simpl.
  destruct (decide (n = c)) as [-> | Hn].
  - rewrite lookup_insert_eq, decide_True by left. done.
  - rewrite lookup_insert_ne, IH by done. destruct (decide (n ∈ l)) as [Hl | Hl].
    + by rewrite decide_True by by right.
    + rewrite decide_False; [done|]. intros [|]%elem_of_cons; done.
Qed.

Lemma insert_values_written skip s : staged_fits s -> insert_values s (names skip) = written skip s.
Proof.
  intros Hs. apply map_eq. intros n. rewrite insert_values_lookup. case_decide as Hn.
  - rewrite written_value by done. assert (Hw : is_Some (s !! n)).
    { rewrite <- (written_value skip) by done. by apply written_lookup. }
    destruct Hw as [v Hv]. unfold cell_of. by rewrite Hv.
  - symmetry. apply eq_None_not_Some. by rewrite written_lookup.
Qed.

(** ** Keys *)

Lemma key_of_written skip s : staged_fits s -> key_of key_names (written skip s) = key_of key_names s.
Proof.
  intros Hs. unfold key_of. apply map_ext_in. intros k Hk%list_elem_of_In. unfold cell_of.
  rewrite written_value; [done|]. apply (mf_keys Hfit) in Hk. destruct skip; [done|]. by apply names_true in Hk as [Hk _].
Qed.

Lemma key_of_carry skip s t :
  staged_fits s -> key_of key_names s = key_of key_names t -> key_of key_names (carry t (written skip s)) = key_of key_names t.
Proof.
  intros Hs Hkey. rewrite <- Hkey. unfold key_of. apply map_ext_in. intros k Hk%list_elem_of_In.
  assert (Hcell : cell_of s k = cell_of t k).
  { unfold key_of in Hkey. apply list_elem_of_In in Hk. revert Hk Hkey. clear. induction key_names as [|x l IH]; [done|].
    simpl. intros [-> | Hk] [= E1 E2]; [done | by apply IH]. }
  unfold cell_of at 1. rewrite carry_lookup, written_value.
  2: { apply (mf_keys Hfit) in Hk. destruct skip; [done|]. by apply names_true in Hk as [Hk _]. }
  unfold cell_of in *. destruct (s !! k) as [v|]; simpl in *; [|done]. destruct (cell_toast v); [|done].
  rewrite Hcell. by destruct (t !! k).
Qed.

Lemma keys_hold s t :
  Null ∉ key_of key_names s ->
  all_hold s t (map key_equal (ma_PrimaryKeys m)) = bool_decide (key_of key_names s = key_of key_names t).
Proof.
  unfold key_of, key_names. rewrite !map_map. induction (ma_PrimaryKeys m) as [|pk pks IH]; simpl; [done|].
  intros [Hn Hnn]%not_elem_of_cons. unfold all_hold in *. simpl. rewrite IH by done. unfold holds at 1. simpl.
  rewrite equal_holds by congruence. apply eq_true_iff_eq.
  rewrite andb_true_iff, !bool_decide_eq_true. naive_solver congruence.
Qed.

(** Without structures among the keys, [GetStatement] compares them as they are. *)
Lemma keys_json_plain pks : forall on, pks ⊆ ma_PrimaryKeys m ->
  traverse (key_equal_json m) pks = Ok on -> on = map key_equal pks.
Proof.
  pose proof (mf_key_kinds Hfit) as Hkind.
  induction pks as [|pk pks IH]; intros on Hsub; cbn [traverse]; [by intros [= <-]|].
  destruct (key_equal_json m pk) as [e| |] eqn:He; [|done..]. simpl.
  destruct (traverse (key_equal_json m) pks) as [on'| |]; simpl; [|done..]. intros [= <-].
  rewrite (IH on') by (done || (intros x Hx; apply Hsub; by right)). f_equal.
  unfold key_equal_json in He. rewrite (mf_columns Hfit) in He. simpl in He.
  destruct (GetColumn cols (w_name pk)) as [c|] eqn:Hc; [|done]. injection He as <-.
  case_bool_decide as Hd; simpl; [|done]. by rewrite (Hkind Hd pk c (Hsub pk ltac:(left)) Hc).
Qed.

(** ** The mark *)

Lemma flag_true s b : s !! DeleteColumnMarker = Some (flag_cell b) -> flagged s = b.
Proof.
  intros Hf. unfold flagged. rewrite Hf. unfold flag_cell, is_true; simpl. unfold cell_true.
  destruct (bool_decide (ma_DestKind m = MSSQL)), b; reflexivity.
Qed.

Lemma marked_holds s t b :
  s !! DeleteColumnMarker = Some (flag_cell b) ->
  (ma_DestKind m <> MSSQL ->
     holds s t marker = b /\ holds s t (Equal marker (BoolLit true)) = b /\
     forall f, holds s t (not_deleted f (BoolLit false) (BoolLit false)) = negb b) /\
  (ma_DestKind m = MSSQL ->
     holds s t (Equal marker (IntLit 1)) = b /\ forall f n, holds s t (not_deleted f (IntLit n) (IntLit 0)) = negb b).
Proof.
  intros Hf. assert (Hc : cell_of s DeleteColumnMarker = flag_cell b) by (unfold cell_of; by rewrite Hf).
  unfold flag_cell in Hc. split; intros Hk; [rewrite bool_decide_false in Hc by done | rewrite bool_decide_true in Hc by done];
    unfold holds; simpl; rewrite Hc; destruct b; simpl; auto.
Qed.

(** ** The statements on tables *)

Section Tables.
Context (S T : list trow).
Context (HS : keyed key_names S) (HT : keyed key_names T).
Context (Hstaged : forall s, s ∈ S -> staged_fits s) (Htarget : forall t, t ∈ T -> target_fits t).
(** Partition predicates of BigQuery do not part rows of one key. *)
Context (Hparts : forall e s t, e ∈ ma_AdditionalEqualityStrings m -> s ∈ S -> t ∈ T ->
           key_of key_names s = key_of key_names t -> sql_raw e s t = CBool true).

Lemma staged_key_not_null s : s ∈ S -> Null ∉ key_of key_names s.
Proof. destruct HS as [_ Hnn]. rewrite Forall_forall in Hnn. apply Hnn. Qed.

Lemma keys_and_parts_hold s t :
  s ∈ S -> t ∈ T ->
  all_hold s t (map key_equal (ma_PrimaryKeys m) ++ map RawText (ma_AdditionalEqualityStrings m)) =
  bool_decide (key_of key_names s = key_of key_names t).
Proof.
  intros Hs Ht. unfold all_hold. rewrite forallb_app.
  pose proof (keys_hold s t (staged_key_not_null s Hs)) as Hk. unfold all_hold in Hk. rewrite Hk.
  case_bool_decide as Heq; [|done]. rewrite andb_true_l. apply forallb_forall.
  intros e (x & <- & Hx%list_elem_of_In)%in_map_iff. unfold holds. simpl. by rewrite (Hparts x s t).
Qed.

Lemma newer_nil : newer m = [].
Proof. unfold newer. by rewrite (mf_newer Hfit). Qed.

(** A [MERGE] whose tests tell the marked rows is the merge of the batch. *)
Lemma merge_with_runs source brk on deleted live live_insert st :
  merge_with m source brk on deleted live live_insert = Ok st ->
  (forall s t, s ∈ S -> holds s t deleted = flagged s /\ holds s t live = negb (flagged s) /\
                        holds s t live_insert = negb (flagged s)) ->
  (forall s t, s ∈ S -> t ∈ T -> all_hold s t on = bool_decide (key_of key_names s = key_of key_names t)) ->
  (ma_SoftDelete m = true -> live_insert = live /\ ma_DestKind m <> Redshift) ->
  exists T', exec_merge st S T = Some T' /\ keyed key_names T' /\
    as_table key_names T' = merge_rows (as_table key_names S) (as_table key_names T).
Proof.
  intros Hst Htests Hon Hsoft. set (skip := negb (ma_SoftDelete m)).
  assert (Hrow : forall s t, s ∈ S -> t ∈ T -> run_matched s t (ms_matched st) = batch_row (Some t) s /\
                   (forall t', batch_row (Some t) s = Some t' -> t' = carry t (written skip s))).
  { intros s t Hs Ht. destruct (Htests s t Hs) as (Hd & Hl & _). unfold merge_with in Hst. rewrite newer_nil in Hst.
    unfold batch_row, merge_row, skip. pose proof (Htarget t Ht) as Hft. unfold target_fits in Hft.
    destruct (ma_SoftDelete m).
    - injection Hst as <-. simpl. rewrite (set_row_carry false) by auto. split; [done|]. by intros ? [= <-].
    - rewrite names_marker in Hst. injection Hst as <-. simpl. rewrite Hd, Hl, andb_true_r.
      destruct (flagged s); simpl; [done|]. rewrite (set_row_carry true) by auto. split; [done|]. by intros ? [= <-]. }
  assert (Hins : forall s, s ∈ S -> insert_values s (ms_insert st) = written skip s).
  { intros s Hs. unfold merge_with in Hst. unfold skip. destruct (ma_SoftDelete m).
    - injection Hst as <-. simpl. rewrite names_merge_cols. by apply (insert_values_written false), Hstaged.
    - rewrite names_marker in Hst. injection Hst as <-. by apply (insert_values_written true), Hstaged. }
  assert (Hmissing : forall s, s ∈ S -> holds s ∅ (ms_missing st) = negb (flagged s)).
  { intros s Hs. destruct (Htests s ∅ Hs) as (_ & Hl & Hi). unfold merge_with in Hst. destruct (ma_SoftDelete m) eqn:Es.
    - injection Hst as <-. exact Hl.
    - rewrite names_marker in Hst. injection Hst as <-. exact Hi. }
  destruct (exec_merge_by_key key_names S T on HS HT Hon st) as (T' & Hrun & Hkeyed & Hlook).
  - unfold merge_with in Hst. destruct (ma_SoftDelete m); [by injection Hst as <-|]. rewrite names_marker in Hst. by injection Hst as <-.
  - intros s t t' Hs Ht Hkey. destruct (Hrow s t Hs Ht) as [-> Hcarry]. intros Ht'%Hcarry. subst t'. by apply key_of_carry; [apply Hstaged|].
  - intros s Hs. rewrite Hins by done. by apply key_of_written, Hstaged.
  - exists T'. split; [done|]. split; [done|]. apply map_eq. intros k. rewrite Hlook, merge_rows_lookup.
    destruct (as_table key_names S !! k) as [s|] eqn:Es; [|by destruct (as_table key_names T !! k)].
    apply as_table_lookup in Es as [Hs Hk]; [|done].
    destruct (as_table key_names T !! k) as [t|] eqn:Et.
    + apply as_table_lookup in Et as [Ht _]; [|done]. by apply Hrow.
    + simpl. rewrite Hmissing, Hins by done. unfold batch_row, merge_row, skip, written. destruct (ma_SoftDelete m) eqn:Esd; simpl.
      * destruct (Hsoft eq_refl) as [_ Hr]. rewrite bool_decide_false by done. by destruct (flagged s).
      * by destruct (flagged s).
Qed.

(** The insert and the update of a split merge: every staged row is written over
    what was there, or added. *)
Lemma insert_update_run skip target source key extra :
  skip = negb (ma_SoftDelete m) ->
  exists T', exec_parts [InsertMissing target (names skip) source (map key_equal (ma_PrimaryKeys m)) key;
                         UpdateFrom target (assignments m skip) source (map key_equal (ma_PrimaryKeys m)) extra] S T = Some T' /\
    keyed key_names T' /\
    forall k, as_table key_names T' !! k =
      match as_table key_names T !! k, as_table key_names S !! k with
      | Some t, Some s => Some (if all_hold s t extra then carry t (written skip s) else t)
      | Some t, None => Some t
      | None, Some s => Some (written skip s)
      | None, None => None
      end.
Proof.
  intros Hskip. set (on := map key_equal (ma_PrimaryKeys m)).
  assert (Hon : forall s t, s ∈ S -> all_hold s t on = bool_decide (key_of key_names s = key_of key_names t))
    by (intros s t Hs; apply keys_hold, staged_key_not_null, Hs).
  destruct (exec_insert_by_key key_names S T on HS HT (fun s t Hs _ => Hon s t Hs) target (names skip) source key)
    as (T1 & Hrun1 & Hk1 & Hl1).
  { intros s Hs. rewrite insert_values_written by (apply Hstaged, Hs). apply key_of_written, Hstaged, Hs. }
  assert (Hfits1 : forall t, t ∈ T1 -> forall n, is_Some (t !! n) <-> n ∈ names skip).
  { intros t Ht n. pose proof (as_table_unique _ T1 t Hk1 Ht) as Hu. rewrite Hl1 in Hu.
    destruct (as_table key_names T !! key_of key_names t) as [t0|] eqn:Et.
    - injection Hu as <-. apply as_table_lookup in Et as [Ht0 _]; [|done]. rewrite Hskip. by apply Htarget.
    - destruct (as_table key_names S !! key_of key_names t) as [s|] eqn:Es; [|done]. injection Hu as <-.
      apply as_table_lookup in Es as [Hs _]; [|done]. rewrite insert_values_written by (apply Hstaged, Hs).
      by apply written_lookup, Hstaged. }
  assert (Hset : forall s t, s ∈ S -> t ∈ T1 -> set_row s t (assignments m skip) = carry t (written skip s))
    by (intros s t Hs Ht; apply set_row_carry; auto).
  destruct (exec_update_by_key key_names S T1 on HS Hk1 (fun s t Hs _ => Hon s t Hs) target (assignments m skip) source extra)
    as (T2 & Hrun2 & Hk2 & Hl2).
  { intros s t Hs Ht Hkey. rewrite Hset by done. by apply key_of_carry; [apply Hstaged|]. }
  exists T2. split; [|split; [exact Hk2|]].
  { unfold exec_parts. cbn [foldl mbind option_bind]. rewrite Hrun1. exact Hrun2. }
  intros k. rewrite Hl2. pose proof (Hl1 k) as Hl1k. rewrite Hl1.
  destruct (as_table key_names T !! k) as [t|] eqn:Et.
  - destruct (as_table key_names S !! k) as [s|] eqn:Es; [|done]. apply as_table_lookup in Es as [Hs _]; [|done].
    apply as_table_lookup in Hl1k as [Ht1 _]; [|done]. by rewrite Hset.
  - destruct (as_table key_names S !! k) as [s|] eqn:Es; [|done]. simpl in *. apply as_table_lookup in Es as [Hs _]; [|done].
    apply as_table_lookup in Hl1k as [Ht1 _]; [|done]. rewrite Hset by done.
    rewrite insert_values_written by (apply Hstaged, Hs). destruct (all_hold s _ extra); [by rewrite carry_self | done].
Qed.

Lemma parts_run ps :
  parts_of m = Ok ps ->
  (ma_SoftDelete m = false -> ma_ContainsHardDeletes m = Some false -> forall s, s ∈ S -> flagged s = false) ->
  exists T', exec_parts ps S T = Some T' /\ keyed key_names T' /\
    as_table key_names T' = merge_rows (as_table key_names S) (as_table key_names T).
Proof.
  unfold parts_of. destruct (MergeArgument_Valid (Some m)) as [[]| |]; simpl; [|done..].
  destruct (bool_decide (ma_DestKind m = Redshift)) eqn:Hr; [|done]. simpl. pose proof Hr as Hkind. apply bool_decide_eq_true in Hkind.
  destruct (ma_ContainsHardDeletes m) as [hard|] eqn:Hh; [|done].
  destruct (ma_PrimaryKeys m) as [|pk pks] eqn:Hpks; [done|]. rewrite <- Hpks, newer_nil. intros Hps Hcontains.
  assert (Hflag : forall s t, s ∈ S -> holds s t (not_deleted "COALESCE" (BoolLit false) (BoolLit false)) = negb (flagged s) /\
                                       holds s t (Equal marker (BoolLit true)) = flagged s).
  { intros s t Hs. destruct (sf_flag s (Hstaged s Hs)) as [b Hb]. rewrite (flag_true s b Hb).
    destruct (proj1 (marked_holds s t b Hb)) as (_ & E1 & E2); [by rewrite Hkind|]. by rewrite E1, E2. }
  destruct (ma_SoftDelete m) eqn:Hsoft.
  - injection Hps as <-. rewrite names_merge_cols.
    destruct (insert_update_run false (ma_FqTableName m) (ma_SubQuery m) (w_escapedName pk) []) as (T' & Hrun & Hk & Hl); [by rewrite Hsoft|].
    exists T'. split; [exact Hrun|]. split; [exact Hk|]. apply map_eq. intros k. rewrite Hl, merge_rows_lookup.
    unfold batch_row. rewrite Hsoft, Hr. simpl. 
    destruct (as_table key_names T !! k), (as_table key_names S !! k) as [s|]; try done. by rewrite andb_false_r.
  - rewrite names_marker in Hps. simpl in Hps. set (live := not_deleted _ _ _) in *.
    destruct (insert_update_run true (ma_FqTableName m) (ma_SubQuery m) (w_escapedName pk) [live]) as (T1 & Hrun & Hk & Hl); [by rewrite Hsoft|].
    assert (Hall : forall s t, s ∈ S -> all_hold s t [live] = negb (flagged s)).
    { intros s t Hs. unfold all_hold. simpl. rewrite andb_true_r. by apply Hflag. }
    destruct hard; injection Hps as <-.
    + destruct (exec_delete_by_key key_names S T1 (ma_FqTableName m) (ma_SubQuery m) (Equal marker (BoolLit true)) HS Hk) as (T2 & Hrun2 & Hk2 & Hl2).
      exists T2. split; [|split; [exact Hk2|]].
      { unfold exec_parts in *. cbn [foldl app] in *. rewrite Hrun. exact Hrun2. }
      apply map_eq. intros k. rewrite Hl2, Hl, merge_rows_lookup. unfold batch_row, merge_row. rewrite Hsoft.
      destruct (as_table key_names S !! k) as [s|] eqn:Es; [|by destruct (as_table key_names T !! k)].
      apply as_table_lookup in Es as [Hs _]; [|done].
      destruct (as_table key_names T !! k); rewrite (proj2 (Hflag s ∅ Hs)), ?Hall by done; by destruct (flagged s).
    + exists T1. split; [exact Hrun|]. split; [exact Hk|]. apply map_eq. intros k. rewrite Hl, merge_rows_lookup.
      unfold batch_row, merge_row. rewrite Hsoft.
      destruct (as_table key_names S !! k) as [s|] eqn:Es; [|by destruct (as_table key_names T !! k)].
      apply as_table_lookup in Es as [Hs _]; [|done]. rewrite (Hcontains eq_refl eq_refl s Hs).
      destruct (as_table key_names T !! k); [rewrite Hall by done; by rewrite (Hcontains eq_refl eq_refl s Hs) | done].
Qed.
End Tables.
End Rows.

(** What a builder's statement is run on *)
Record tables_fit (S T : list trow) : Prop := {
  tf_staged_keys : keyed key_names S;
  tf_target_keys : keyed key_names T;
  tf_staged : forall s, s ∈ S -> staged_fits s;
  tf_target : forall t, t ∈ T -> target_fits t;
  tf_parts : forall e s t, e ∈ ma_AdditionalEqualityStrings m -> s ∈ S -> t ∈ T ->
    key_of key_names s = key_of key_names t -> sql_raw e s t = CBool true;
  tf_contains : ma_SoftDelete m = false -> ma_ContainsHardDeletes m = Some false -> forall s, s ∈ S -> flagged s = false
}.

(** The target after the statement is the target before, merged with the staging
    table. *)
Definition replicates (S T : list trow) (after : option (list trow)) : Prop :=
  exists T', after = Some T' /\ keyed key_names T' /\
    as_table key_names T' = merge_rows (as_table key_names S) (as_table key_names T).

(** C4. The merge statements do what replication asks of them.  The text of each
    builder is the text of a statement that runs without error on a staging
    table and a target of distinct keys, and leaves the target merged with the
    staged rows: with hard deletes, exactly the merge of the batch
    ([merge_rows_hard]): marked rows gone, new rows added, placeholders
    keeping the old value; with soft deletes, marked rows that were
    there stay, with their mark.  [merge_fits] leaves out arguments with an idempotent key. *)
Theorem merge_statements_replicate S T :
  merge_fits -> tables_fit S T ->
  (ma_DestKind m <> Redshift -> ma_DestKind m <> MSSQL -> forall text, GetStatement m = Ok text ->
     exists st, merge_of m = Ok st /\ text = print_merge st /\ replicates S T (exec_merge st S T)) /\
  (ma_DestKind m = MSSQL -> forall text, GetMSSQLStatement m = Ok text ->
     exists st, mssql_merge_of m = Ok st /\ text = print_merge st /\ replicates S T (exec_merge st S T)) /\
  (forall texts, GetParts m = Ok texts ->
     exists ps, parts_of m = Ok ps /\ texts = map print_part ps /\ replicates S T (exec_parts ps S T)).
Proof.
  intros Hfit [HS HT Hstaged Htarget Hparts Hcontains].
  split_and!.
  - intros Hr Hk text. rewrite GetStatement_print. destruct (merge_of m) as [st| |] eqn:Hst; [|done..].
    intros [= <-]. exists st. split; [done|]. split; [done|]. unfold merge_of in Hst.
    destruct (MergeArgument_Valid (Some m)) as [[]| |]; simpl in Hst; [|done..].
    destruct (traverse (key_equal_json m) (ma_PrimaryKeys m)) as [on| |] eqn:Hon; simpl in Hst; [|done..].
    assert (Hkeys : on = map key_equal (ma_PrimaryKeys m)) by by apply keys_json_plain in Hon.
    assert (Htests : forall s t, s ∈ S -> holds s t marker = flagged s /\
      holds s t (not_deleted "IFNULL" (BoolLit false) (BoolLit false)) = negb (flagged s)).
    { intros s t Hs. destruct (sf_flag s (Hstaged s Hs)) as [b Hb]. rewrite (flag_true s b Hb).
      destruct (proj1 (marked_holds s t b Hb) Hk) as (E1 & _ & E2). by rewrite E1, E2. }
    destruct (bool_decide (ma_DestKind m = BigQuery)); subst on.
    + eapply merge_with_runs; [done.. | exact Hst | | |by split].
      * intros s t Hs. destruct (Htests s t Hs) as [-> ->]. done.
      * intros s t Hs Ht. by apply (keys_and_parts_hold S T).
    + eapply merge_with_runs; [done.. | exact Hst | | |by split].
      * intros s t Hs. destruct (Htests s t Hs) as [-> ->]. done.
      * intros s t Hs _. by apply keys_hold, (staged_key_not_null S).
  - intros Hk text. rewrite GetMSSQLStatement_print. destruct (mssql_merge_of m) as [st| |] eqn:Hst; [|done..].
    intros [= <-]. exists st. split; [done|]. split; [done|]. unfold mssql_merge_of in Hst.
    destruct (MergeArgument_Valid (Some m)) as [[]| |]; simpl in Hst; [|done..].
    eapply merge_with_runs; [done.. | exact Hst | | |].
    + intros s t Hs. destruct (sf_flag s (Hstaged s Hs)) as [b Hb]. rewrite (flag_true s b Hb).
      destruct (proj2 (marked_holds s t b Hb) Hk) as [-> E2]. destruct (ma_SoftDelete m); by rewrite !E2.
    + intros s t Hs _. by apply keys_hold, (staged_key_not_null S).
    + intros ->. split; [done | by rewrite Hk].
  - intros texts. rewrite GetParts_print. destruct (parts_of m) as [ps| |] eqn:Hps; [|done..].
    intros [= <-]. exists ps. split; [done|]. split; [done|]. by apply parts_run.
Qed.
End Meaning.

(** * An example *)

Definition plain_engine : SqlEngine := {|
  sql_raw := fun _ _ _ => CBool true;
  sql_call := fun _ c => c;
  sql_at_least := fun a b => match a, b with CInt x, CInt y => y <=? x | _, _ => true end
|}.

(** The columns of a row: a sequence is one way to state a domain *)
Lemma row_columns (r : trow) (l : list string) : dom r = list_to_set (C := gset string) l -> forall c, is_Some (r !! c) <-> c ∈ l.
Proof. intros Hd c. rewrite <- elem_of_dom, Hd. apply elem_of_list_to_set. Qed.

Definition orders_columns : list Column :=
  [NewColumn "id" Integer; upsert_fields (mkUpsert (Some true) None None) (NewColumn "doc" String_);
   NewColumn DeleteColumnMarker Boolean].
Definition orders_merge (kind : DestinationKind) (soft : bool) : MergeArgument :=
  mkMergeArgument "db.public.orders" "tmp" EmptyString [mkWrapper "id" "id"] [] (Some orders_columns) kind soft
    (Some true) (Some false).

Definition order_row (id : Z) (doc : cell) : trow := {[ "id" := CInt id; "doc" := doc ]}.
Definition staged_order (id : Z) (doc : cell) (deleted : bool) : trow :=
  <[DeleteColumnMarker := CBool deleted]> (order_row id doc).

(** Order 1 changes and its document did not, order 2 is deleted, 3 is new. *)
Definition staged_orders : list trow :=
  [staged_order 1 (CText ToastUnavailableValuePlaceholder) false; staged_order 2 Null true; staged_order 3 (CText "new") false].
Definition target_orders : list trow := [order_row 1 (CText "long text"); order_row 2 (CText "short")].

Lemma orders_fit : merge_fits (orders_merge Snowflake false) orders_columns.
Proof.
  split.
  - reflexivity.
  - split; apply (bool_decide_unpack _); vm_compute; reflexivity.
  - repeat constructor; intros Hs; vm_compute in Hs; first [discriminate | reflexivity].
  - apply (bool_decide_unpack _); vm_compute; reflexivity.
  - apply (bool_decide_unpack _); vm_compute; reflexivity.
  - intros c Hc. unfold orders_columns in Hc. repeat (apply elem_of_cons in Hc as [-> | Hc]; [vm_compute; done|]).
    by apply not_elem_of_nil in Hc.
  - intros k Hk%list_elem_of_singleton. subst k. apply (bool_decide_unpack _); vm_compute; reflexivity.
  - discriminate.
  - reflexivity.
Qed.

Lemma staged_order_fits id doc deleted :
  staged_fits (orders_merge Snowflake false) orders_columns (staged_order id doc deleted).
Proof.
  split.
  - apply row_columns. vm_compute. reflexivity.
  - by exists deleted.
  - intros c v Hc Hv ->%bool_decide_eq_true. unfold orders_columns in Hc. revert Hv.
    repeat (apply elem_of_cons in Hc as [-> | Hc]; [vm_compute; first [reflexivity | discriminate]|]).
    by apply not_elem_of_nil in Hc.
Qed.

Lemma orders_tables_fit :
  let _ := plain_engine in tables_fit (orders_merge Snowflake false) orders_columns staged_orders target_orders.
Proof.
  split.
  1, 2: split; apply (bool_decide_unpack _); vm_compute; reflexivity.
  - intros s Hs. unfold staged_orders in Hs.
    repeat (apply elem_of_cons in Hs as [-> | Hs]; [apply staged_order_fits|]). by apply not_elem_of_nil in Hs.
  - intros t Ht. unfold target_orders in Ht.
    repeat (apply elem_of_cons in Ht as [-> | Ht]; [unfold target_fits; apply row_columns; vm_compute; reflexivity|]). by apply not_elem_of_nil in Ht.
  - intros e s t He. by apply not_elem_of_nil in He.
  - intros _ Hh. discriminate Hh.
Qed.

Lemma merge_statements_replicate_witness :
  let _ := plain_engine in
  exists st T', GetStatement (orders_merge Snowflake false) = Ok (print_merge st) /\
    exec_merge st staged_orders target_orders = Some T' /\
    as_table ["id"] T' =
      {[ [CInt 1] := order_row 1 (CText "long text"); [CInt 3] := order_row 3 (CText "new") ]}.
Proof.
  cbv zeta. pose proof (merge_statements_replicate (H := plain_engine) (orders_merge Snowflake false) orders_columns
    staged_orders target_orders orders_fit orders_tables_fit) as [Hs _].
  destruct (GetStatement (orders_merge Snowflake false)) as [text| |] eqn:Hg; [|vm_compute in Hg; discriminate Hg..].
  destruct (Hs ltac:(discriminate) ltac:(discriminate) text eq_refl) as (st & _ & -> & T' & Hrun & _ & Ht).
  exists st, T'. split; [reflexivity|]. split; [exact Hrun|]. refine (eq_trans Ht _). vm_compute. reflexivity.
Defined.

(** ** Soft deletes *)

(** With soft deletes the outcome depends on where the changes are cut: a row
    that is inserted and deleted within one batch is never written, while the
    same changes in two batches leave a row marked as deleted; and Redshift's
    statements write it either way. *)
Theorem soft_delete_depends_on_batches :
  let inserted := staged_order 1 (CText "new") false in
  let deleted := staged_order 1 (CText "new") true in
  let batch rows := buffered (map (fun r => mkChange (key_of ["id"] r) r) rows) in
  let outcome kind batches := foldl (fun T rows => merge_rows (orders_merge kind true) (batch rows) T) ∅ batches in
  outcome Snowflake [[inserted; deleted]] = ∅ /\
  outcome Snowflake [[inserted]; [deleted]] = as_table ["id"] [deleted] /\
  outcome Redshift [[inserted; deleted]] = as_table ["id"] [deleted].
Proof. cbv zeta. split; [|split]; vm_compute; reflexivity. Qed.
