(* ===== verification/Shared.v ===== *)
(** What every SQL destination shares: [clients/shared].  Reading a table's
    configuration, backfilling a column, appending and merging a buffered
    table, and sweeping expired temporary tables, all against the interface
    [DataWarehouse]. *)
From S2P Require Import Prelude GoLang Constants StringUtil Decimal Values Typing Columns Kafkalib Config Retry.
From S2P Require Import TableData Effects TableConfig Warehouse Ddl Dml.
Local Open Scope string_scope.
Local Open Scope list_scope.
Local Open Scope Z_scope.

Definition SnowflakeTableDoesNotExistErr (err : error) : bool :=
  contains (error_text err) "does not exist or not authorized".

Record GetTableCfgArgs := mkGetTableCfgArgs {
  g_FqName : string;
  g_Query : string;
  g_Args : list string;
  g_ColumnNameLabel : string;
  g_ColumnTypeLabel : string;
  g_ColumnDescLabel : string;
  g_EmptyCommentValue : option string;
  g_DropDeletedColumns : bool
}.

Definition ShouldParseComment (g : GetTableCfgArgs) (comment : string) : bool :=
  negb (bool_decide (g_EmptyCommentValue g = Some comment)).

Definition backfilled_comment : string := "{" +:+ quote "backfilled" +:+ ": true}".
Definition backfillMaxRetries : nat := Z.to_nat 1000.

Section Shared.
Context {D : Type} `{SqlStore D} `{GoStd}.

(** ** Table configuration *)

(** [json.Unmarshal] of a lower-cased comment into [constants.ColComment] *)
Definition parse_comment (comment : string) : result bool :=
  match json_Unmarshal comment with
  | Some VNil => Ok false
  | Some (VMap m) =>
      match find_first (fun kv => String.eqb (fst kv) "backfilled") m with
      | None | Some (_, VNil) => Ok false
      | Some (_, VBool b) => Ok b
      | Some _ => errorf "failed to unmarshal comment: json: cannot unmarshal into Go struct field"
      end
  | _ => errorf "failed to unmarshal comment: invalid JSON"
  end.

(** The last value of a column label, lower-cased; the empty string when the
    query did not return the label, as for a missing key of a Go map. *)
Definition labelled (r : sqlrow) (label : string) : option string :=
  foldl (fun acc kv => if String.eqb (to_lower (fst kv)) label then Some (to_lower (Sprint (snd kv))) else acc) None r.

Definition row_column (g : GetTableCfgArgs) (r : sqlrow) : result Column :=
  kindDetails ← wrap_err "failed to get kind details: " EmptyString
    (DwhTypeToKind Label (default EmptyString (labelled r (g_ColumnTypeLabel g)))
                   (default EmptyString (labelled r StrPrecisionCol)));
  let col := NewColumn (default EmptyString (labelled r (g_ColumnNameLabel g))) kindDetails in
  match labelled r (g_ColumnDescLabel g) with
  | Some comment =>
      if ShouldParseComment g comment then
        b ← parse_comment comment; Ok (SetBackfilled b col)
      else Ok col
  | None => Ok col
  end.

(** The rows of the description; a Snowflake table that does not exist has
    none. *)
Definition describe_rows (g : GetTableCfgArgs) : go (env D) (list sqlrow) :=
  rows ← attempt (Query (g_Query g) (g_Args g));
  match rows with
  | Ok rows => mret rows
  | Panic w => lift (Panic w)
  | Err e =>
      match Label with
      | Snowflake => if SnowflakeTableDoesNotExistErr e then mret []
                     else lift (Err (ErrWrap "failed to query snowflake, err: " e (", query: " +:+ g_Query g)))
      | l => lift (Err (ErrWrap ("failed to query " +:+ DestinationKind_string l +:+ ", err: ") e EmptyString))
      end
  end.

(** [GetTableConfig]: the configuration is cached under the table's name. *)
Definition GetTableConfig_shared (g : GetTableCfgArgs) : go (env D) string :=
  cached ← gets (fun st => env_configs st !! g_FqName g);
  match cached with
  | Some _ => mret (g_FqName g)
  | None =>
      rows ← describe_rows g;
      described ← lift (traverse (row_column g) rows);
      let cols := foldl AddColumn [] described in
      put_config (g_FqName g)
        (NewDwhTableConfig cols ∅ (bool_decide (length cols = 0%nat)) (g_DropDeletedColumns g)) ;;
      mret (g_FqName g)
  end.

(** ** Backfill *)

Definition BackfillColumn (cfg : Config) (column : Column) (fqTableName : string) : go (env D) unit :=
  if negb (ShouldBackfill column) then mret tt
  else if bool_decide (Label = MSSQL) then mret tt
  else
    defaultVal ← wrap_go "failed to escape default value: " EmptyString
      (lift (DefaultValue column (Some (mkDefaultArgs true Label)) (AdditionalDateFormats (TypingSettings cfg))));
    let escapedCol := escaped_name (UppercaseEscapedNames cfg) column in
    let additionalEscapedCol :=
      if String.eqb escapedCol "default" && bool_decide (Label = Snowflake) then quote "DEFAULT" else escapedCol in
    let query := "UPDATE " +:+ fqTableName +:+ " SET " +:+ escapedCol +:+ " = " +:+ Sprint defaultVal
                   +:+ " WHERE " +:+ additionalEscapedCol +:+ " IS NULL;" in
    wrap_go "failed to backfill, err: " (", query: " +:+ query) (Exec query) ;;
    Exec (match Label with
          | BigQuery => "ALTER TABLE " +:+ fqTableName +:+ " ALTER COLUMN " +:+ escapedCol
                          +:+ " SET OPTIONS (description=`" +:+ backfilled_comment +:+ "`);"
          | _ => "COMMENT ON COLUMN " +:+ fqTableName +:+ "." +:+ escapedCol +:+ " IS '"
                   +:+ backfilled_comment +:+ "';"
          end).

(** The retry loop around a backfill, with the attempts left; a retryable
    error sleeps, and the last error is returned. *)
Fixpoint backfill_loop (Int63n : Z -> Z -> Z) (cfg : Config) (opts : MergeOpts) (key fqName : string)
    (col : Column) (left_ : nat) (attempts : Z) (last : option error) : go (env D) (option error) :=
  match left_ with
  | O => mret last
  | Datatypes.S left_ =>
      r ← attempt (BackfillColumn cfg col fqName);
      match r with
      | Err e =>
          if RetryColBackfill opts && IsRetryableError e then
            lift (Jitter Int63n 1500 DefaultMaxMs attempts) ;;
            backfill_loop Int63n cfg opts key fqName col left_ (attempts + 1) (Some e)
          else mret (Some e)
      | _ =>
          on_config key (fun tc => set_dc_columns
            (UpsertColumn (dc_columns tc) (RawName col) (mkUpsert None None (Some true))) tc) ;;
          mret None
      end
  end.

Definition backfill_column (Int63n : Z -> Z -> Z) (cfg : Config) (opts : MergeOpts) (key fqName : string)
    (col : Column) : go (env D) unit :=
  if ShouldSkip col then mret tt
  else
    err ← backfill_loop Int63n cfg opts key fqName col backfillMaxRetries 0 None;
    match err with
    | None => mret tt
    | Some e => lift (Err (ErrWrap ("failed to backfill col: " +:+ RawName col +:+ ", default value: "
                                      +:+ Sprint (c_defaultValue col) +:+ ", err: ") e EmptyString))
    end.

(** ** Merge and append *)

Definition alter_args (key fqName : string) (createTable : bool) (op : ColumnOperation) (containOther : bool)
    (cfg : Config) (td : TableData) : AlterTableArgs :=
  mkAlterTableArgs key containOther fqName createTable false (Some (UppercaseEscapedNames cfg)) op (td_mode td)
    (td_LatestCDCTs td).

Definition table_diff (td : TableData) (tc : DwhTableConfig) : list Column * list Column :=
  let topic := td_TopicConfig td in
  Diff (ReadOnlyInMemoryCols td) (Some (dc_columns tc)) (tc_SoftDelete topic) (tc_IncludeArtieUpdatedAt topic)
    (tc_IncludeDatabaseUpdatedAt topic) (td_mode td).

(** The columns the destination lacks are added, those the batch lacks are
    dropped or scheduled, and the schedule is audited. *)
Definition alter_destination (cfg : Config) (key fqName : string) (td : TableData) : go (env D) unit :=
  tc ← config_of key;
  let '(srcKeysMissing, targetKeysMissing) := table_diff td tc in
  wrap_go "failed to alter table: " EmptyString
    (AlterTable (alter_args key fqName (dc_createTable tc) Add false cfg td) targetKeysMissing) ;;
  wrap_go "failed to apply alter table: " EmptyString
    (AlterTable (alter_args key fqName false Delete (td_containOtherOperations td) cfg td) srcKeysMissing) ;;
  on_config key (AuditColumnsToDelete srcKeysMissing).

(** [tableData.MergeColumnsFromDestination(tableConfig.Columns().GetColumns()...)] *)
Definition merge_destination_columns (key : string) : go (env D) unit :=
  tc ← config_of key;
  td ← table_data;
  match MergeColumnsFromDestination (Some td) (dc_columns tc) with
  | Some td => put_table_data td
  | None => mret tt
  end.

Context `{!DataWarehouse D}.

(** Up to the loaded staging table: the key of the configuration, the names
    of the table and of the staging table. *)
Definition stage (cfg : Config) : go (env D) (string * string * string) :=
  td ← table_data;
  key ← wrap_go "failed to get table config: " EmptyString (GetTableConfig td);
  let fqName := ToFullyQualifiedName td true in
  alter_destination cfg key fqName td ;;
  merge_destination_columns key ;;
  td ← table_data;
  now ← time_now;
  let temporaryTableName := ToFullyQualifiedName td false +:+ "_" +:+ TempTableSuffix td now in
  wrap_go "failed to prepare temporary table: " EmptyString
    (PrepareTemporaryTable key temporaryTableName EmptyString true) ;;
  mret (key, fqName, temporaryTableName).

Definition merge_argument (cfg : Config) (opts : MergeOpts) (td : TableData) (fqName temporaryTableName : string)
  : MergeArgument :=
  let up := UppercaseEscapedNames cfg in
  mkMergeArgument fqName
    (if SubQueryDedupe opts then "( SELECT DISTINCT * FROM " +:+ temporaryTableName +:+ " )" else temporaryTableName)
    (tc_IdempotentKey (td_TopicConfig td))
    (PrimaryKeys td up (Some (mkNameArgs true Label)))
    (AdditionalEqualityStrings opts)
    (ReadOnlyInMemoryCols td)
    Label (tc_SoftDelete (td_TopicConfig td)) (Some (td_containsHardDeletes td)) (Some up).

(** The statements of the merge, in one transaction or as one statement; a
    failure inside the transaction returns without a rollback. *)
Definition execute_merge (opts : MergeOpts) (arg : MergeArgument) : go (env D) unit :=
  let generate {A} (r : result A) := wrap_go "failed to generate merge statement: " EmptyString (lift r) in
  if UseMergeParts opts then
    mergeParts ← generate (GetParts arg);
    wrap_go "failed to start tx: " EmptyString Begin ;;
    for_each (fun q => wrap_go ("failed to merge, query: " +:+ q +:+ ", err: ") EmptyString (TxExec q)) mergeParts ;;
    wrap_go ("failed to merge, parts: [" +:+ join " " mergeParts +:+ "], err: ") EmptyString TxCommit
  else if bool_decide (Label = MSSQL) then
    mergeQuery ← generate (GetMSSQLStatement arg);
    wrap_go "failed to execute merge: " EmptyString (Exec mergeQuery)
  else
    mergeQuery ← generate (GetStatement arg);
    Exec mergeQuery.

Definition finish (Int63n : Z -> Z -> Z) (cfg : Config) (opts : MergeOpts) (names : string * string * string)
  : go (env D) unit :=
  let '(key, fqName, temporaryTableName) := names in
  td ← table_data;
  for_each (backfill_column Int63n cfg opts key fqName) (GetColumns (ReadOnlyInMemoryCols td)) ;;
  execute_merge opts (merge_argument cfg opts td fqName temporaryTableName).

Definition Merge (Int63n : Z -> Z -> Z) (cfg : Config) (opts : MergeOpts) : go (env D) unit :=
  td ← table_data;
  if ShouldSkipUpdate td then mret tt
  else
    names ← stage cfg;
    deferred (DropTemporaryTable (snd names) false) (finish Int63n cfg opts names).

Definition Append (cfg : Config) (opts : AppendOpts) : go (env D) unit :=
  wrap_go "failed to validate append options: " EmptyString (lift (AppendOpts_Validate opts)) ;;
  td ← table_data;
  if ShouldSkipUpdate td then mret tt
  else
    let fqName := ToFullyQualifiedName td true in
    key ← GetTableConfig td;
    tc ← config_of key;
    AlterTable (alter_args key fqName (dc_createTable tc) Add false cfg td) (snd (table_diff td tc)) ;;
    merge_destination_columns key ;;
    PrepareTemporaryTable key (TempTableName opts) (AdditionalCopyClause opts) false.
End Shared.

(** ** Sweep *)

Section Sweep.
Context {D : Type} `{SqlStore D} `{GoStd}.

(** [rows.Scan] of a row into two strings *)
Definition scan_string (v : value) : result string :=
  match v with
  | VString s => Ok s
  | VInt _ z => Ok (itoa z)
  | VNil => errorf "sql: Scan error: converting NULL to string is unsupported"
  | _ => errorf "sql: Scan error: unsupported Scan"
  end.

Definition scan2 (r : sqlrow) : result (string * string) :=
  match r with
  | [(_, a); (_, b)] => a ← scan_string a; b ← scan_string b; Ok (a, b)
  | _ => errorf "sql: expected destination arguments in Scan"
  end.

Definition qualified (pair : string * string) (tableSchema tableName : string) : string :=
  fst pair +:+ "." +:+ tableSchema +:+ "." +:+ tableName.

Definition sweep_row (pair : string * string) (r : sqlrow) : go (env D) unit :=
  names ← lift (scan2 r);
  let '(tableSchema, tableName) := names in
  now ← time_now;
  if ShouldDeleteFromName tableName now
  then DropTemporaryTable (qualified pair tableSchema tableName) true
  else mret tt.

(** [pairs]: the result of [GetUniqueDatabaseAndSchema] *)
Definition Sweep (pairs : list (string * string)) (getQueryFunc : string * string -> string * list string)
  : go (env D) unit :=
  for_each (fun pair => let '(query, args) := getQueryFunc pair in
                        rows ← Query query args;
                        for_each (sweep_row pair) rows) pairs.

(** *** What a sweep did *)

(** The calls of a sweep, each with the state of the world it was made in *)
Inductive db_call := CallExec (q : string) | CallQuery (q : string) (args : list string).

Definition call_event (dc : D * db_call) : sql_event :=
  match snd dc with CallExec q => SqlExec q | CallQuery q _ => SqlQuery q end.

Definition after_call (c : db_call) (d : D) : D :=
  match c with CallExec q => snd (driver_Exec q d) | CallQuery q args => snd (driver_Query q args d) end.

Fixpoint called (d : D) (l : list (D * db_call)) (d' : D) : Prop :=
  match l with
  | [] => d' = d
  | (d0, c) :: l => d0 = d /\ called (after_call c d) l d'
  end.

(** The run from [st] to [st'] made the calls [l]. *)
Definition made (st st' : env D) (l : list (D * db_call)) : Prop :=
  env_log st' = env_log st ++ map call_event l /\ called (env_db st) l (env_db st').

(** A state the world was in between the calls *)
Definition passed (d0 : D) (l : list (D * db_call)) (d : D) : Prop := exists l1 l2, l = l1 ++ l2 /\ called d0 l1 d.

Lemma called_app d l1 d1 l2 d2 : called d l1 d1 -> called d1 l2 d2 -> called d (l1 ++ l2) d2.
Proof. revert d. induction l1 as [|[d0 c] l1 IH]; simpl; intros d; [by intros ->|]. intros [-> H1] H2. split; auto. Qed.

Lemma made_nil st : made st st [].
Proof. split; [by rewrite app_nil_r | done]. Qed.

Lemma made_app st st1 st2 l1 l2 : made st st1 l1 -> made st1 st2 l2 -> made st st2 (l1 ++ l2).
Proof.
  intros [L1 C1] [L2 C2]. split; [by rewrite L2, L1, map_app, app_assoc | by eapply called_app].
Qed.

Lemma passed_app d l1 d1 l2 d' : called d l1 d1 -> passed d1 l2 d' -> passed d (l1 ++ l2) d'.
Proof. intros H1 (a & b & -> & H2). exists (l1 ++ a), b. split; [by rewrite app_assoc | by eapply called_app]. Qed.

Lemma passed_more d l1 l2 d' : passed d l1 d' -> passed d (l1 ++ l2) d'.
Proof. intros (a & b & -> & H1). exists a, (b ++ l2). by rewrite app_assoc. Qed.

Section Listings.
Context (getQueryFunc : string * string -> string * list string).

Definition listing (pair : string * string) : db_call :=
  CallQuery (fst (getQueryFunc pair)) (snd (getQueryFunc pair)).

(** A row that the listing of [pair], made in the state [d], returned *)
Definition lists (pair : string * string) (d : D) (r : sqlrow) : Prop :=
  exists rows, fst (driver_Query (fst (getQueryFunc pair)) (snd (getQueryFunc pair)) d) = Ok rows /\ r ∈ rows.

(** The row names a temporary table that has expired in the state [d]; [q] drops it. *)
Definition expired_drop (pair : string * string) (r : sqlrow) (d : D) (q : string) : Prop :=
  exists tableSchema tableName, scan2 r = Ok (tableSchema, tableName) /\
    ShouldDeleteFromName tableName (Now d) = true /\
    contains (to_lower (qualified pair tableSchema tableName)) ArtiePrefix = true /\
    q = drop_statement (qualified pair tableSchema tableName).

(** Every query is a listing, and every statement drops a table that a listing
    made before returned, and that had expired when the statement was sent. *)
Definition sweep_calls (pairs : list (string * string)) (l : list (D * db_call)) : Prop :=
  forall before d c after, l = before ++ (d, c) :: after ->
    match c with
    | CallQuery _ _ => exists pair, pair ∈ pairs /\ c = listing pair
    | CallExec q => exists pair dq r, pair ∈ pairs /\ (dq, listing pair) ∈ before /\ lists pair dq r /\ expired_drop pair r d q
    end.

(** The row was looked at in a state the sweep passed, and its table dropped
    there if it had expired. *)
Definition row_swept (pair : string * string) (d0 : D) (l : list (D * db_call)) (r : sqlrow) : Prop :=
  is_ok (scan2 r) = true /\ exists d, passed d0 l d /\ forall q, expired_drop pair r d q -> (d, CallExec q) ∈ l.

Lemma row_swept_app pair d l1 d1 l2 r : called d l1 d1 -> row_swept pair d1 l2 r -> row_swept pair d (l1 ++ l2) r.
Proof.
  intros H1 (Hs & d' & Hp & Hq). split; [done|]. exists d'. split; [by eapply passed_app|].
  intros q He. apply elem_of_app. right. by apply Hq.
Qed.

Lemma row_swept_more pair d l1 l2 r : row_swept pair d l1 r -> row_swept pair d (l1 ++ l2) r.
Proof.
  intros (Hs & d' & Hp & Hq). split; [done|]. exists d'. split; [by apply passed_more|].
  intros q He. apply elem_of_app. left. by apply Hq.
Qed.

Lemma sweep_row_made pair r st :
  let '(res, st') := sweep_row pair r st in
  exists l, made st st' l /\
    (forall d c, (d, c) ∈ l -> exists q, c = CallExec q /\ expired_drop pair r d q) /\
    (res = Ok tt -> row_swept pair (env_db st) l r).
Proof.
  unfold sweep_row. rewrite lift_bind. destruct (scan2 r) as [[tableSchema tableName]|e|w] eqn:Hscan.
  2-3: exists []; split_and!; [apply made_nil | by intros d c Hd%not_elem_of_nil | done].
  assert (Hnone : (forall q, ~ expired_drop pair r (env_db st) q) ->
    exists l, made st st l /\ (forall d c, (d, c) ∈ l -> exists q, c = CallExec q /\ expired_drop pair r d q) /\
      (Ok tt = Ok tt -> row_swept pair (env_db st) l r)).
  { intros Hn. exists []. split_and!; [apply made_nil | by intros d c Hd%not_elem_of_nil|]. intros _.
    unfold row_swept. rewrite Hscan. split; [done|]. exists (env_db st).
    split; [by exists [], []|]. intros q Hq. by destruct (Hn q). }
  unfold time_now, gets. rewrite go_bind_run. destruct (ShouldDeleteFromName tableName (Now (env_db st))) eqn:Hdel.
  2: { apply Hnone. intros q (s' & t' & E & Hd & _). rewrite Hscan in E. injection E as <- <-. congruence. }
  unfold DropTemporaryTable. destruct (contains (to_lower (qualified pair tableSchema tableName)) ArtiePrefix) eqn:Hpre.
  2: { apply Hnone. intros q (s' & t' & E & _ & Hc & _). rewrite Hscan in E. injection E as <- <-. congruence. }
  clear Hnone. set (q := drop_statement (qualified pair tableSchema tableName)). rewrite go_bind_run. unfold attempt. rewrite Exec_run.
  assert (Hex : expired_drop pair r (env_db st) q) by by exists tableSchema, tableName.
  set (st' := mkEnv _ _ _ _).
  assert (Hm : made st st' [(env_db st, CallExec q)]) by (split; [done | by split]).
  destruct (fail_if (fst (driver_Exec q (env_db st)))) as [[]|e|w]; exists [(env_db st, CallExec q)].
  all: split_and!; [exact Hm | intros d c Hd; apply list_elem_of_singleton in Hd; injection Hd as -> ->; by exists q|].
  all: intros _; unfold row_swept; rewrite Hscan; split; [done|]; exists (env_db st); split; [by exists [], [(env_db st, CallExec q)]|].
  all: intros q' (s' & t' & E & _ & _ & ->); rewrite Hscan in E; injection E as <- <-; by left.
Qed.

Lemma sweep_rows_made pair rows st :
  let '(res, st') := for_each (sweep_row pair) rows st in
  exists l, made st st' l /\
    (forall d c, (d, c) ∈ l -> exists q r, c = CallExec q /\ r ∈ rows /\ expired_drop pair r d q) /\
    (res = Ok tt -> forall r, r ∈ rows -> row_swept pair (env_db st) l r).
Proof.
  revert st. induction rows as [|r rows IH]; intros st; cbn [for_each].
  { exists []. split_and!; [apply made_nil | by intros d c Hd%not_elem_of_nil | by intros _ r Hr%not_elem_of_nil]. }
  rewrite go_bind_run. pose proof (sweep_row_made pair r st) as H1.
  destruct (sweep_row pair r st) as [res st1]. destruct H1 as (l1 & M1 & J1 & S1).
  assert (J1' : forall d c, (d, c) ∈ l1 -> exists q r', c = CallExec q /\ r' ∈ r :: rows /\ expired_drop pair r' d q).
  { intros d c (q & -> & He)%J1. exists q, r. split_and!; [done | by left | done]. }
  destruct res as [[]|e|w]; [|by exists l1..]. specialize (IH st1).
  destruct (for_each (sweep_row pair) rows st1) as [res st2]. destruct IH as (l2 & M2 & J2 & S2).
  exists (l1 ++ l2). split_and!.
  - by eapply made_app.
  - intros d c [Hd | (q & r' & -> & Hr & He)%J2]%elem_of_app; [by apply J1'|]. exists q, r'. split_and!; [done | by right | done].
  - intros Hres r' [-> | Hr]%elem_of_cons; [by apply row_swept_more, S1|]. eapply row_swept_app; [apply M1 | by apply S2].
Qed.

Lemma sweep_calls_app pairs l1 l2 : sweep_calls pairs l1 -> sweep_calls pairs l2 -> sweep_calls pairs (l1 ++ l2).
Proof.
  intros H1 H2 before d c after Heq. apply app_eq_app in Heq as (k & [[-> Heq] | [-> Heq]]).
  - destruct k as [|x k]; simpl in Heq.
    + specialize (H2 [] d c after (eq_sym Heq)). destruct c; [|done].
      destruct H2 as (pair & dq & r & _ & Hn & _). by apply not_elem_of_nil in Hn.
    + injection Heq as <- ->. by eapply H1.
  - specialize (H2 k d c after Heq). destruct c; [|done]. destruct H2 as (pair & dq & r & Hp & Hin & Hr).
    exists pair, dq, r. split_and!; [done | apply elem_of_app; by right | apply Hr..].
Qed.

(** The listing of one pair, and its rows *)
Definition sweep_pair (pair : string * string) : go (env D) unit :=
  let '(query, args) := getQueryFunc pair in rows ← Query query args; for_each (sweep_row pair) rows.

Definition pair_swept (pair : string * string) (d0 : D) (l : list (D * db_call)) : Prop :=
  exists dq rows, (dq, listing pair) ∈ l /\
    fst (driver_Query (fst (getQueryFunc pair)) (snd (getQueryFunc pair)) dq) = Ok rows /\
    forall r, r ∈ rows -> row_swept pair d0 l r.

Lemma sweep_pair_made pair st :
  let '(res, st') := sweep_pair pair st in
  exists l, made st st' l /\ sweep_calls [pair] l /\ (res = Ok tt -> pair_swept pair (env_db st) l).
Proof.
  unfold sweep_pair. destruct (getQueryFunc pair) as [query args] eqn:Hq. rewrite go_bind_run. unfold Query.
  rewrite go_bind_run. unfold driver_call, lift. set (first := (env_db st, listing pair)).
  destruct (driver_Query query args (env_db st)) as [listed d1] eqn:Hl. cbv beta iota.
  set (st1 := mkEnv d1 _ _ _).
  assert (Hafter : after_call (listing pair) (env_db st) = d1) by (unfold listing; rewrite Hq; simpl; by rewrite Hl).
  assert (M1 : made st st1 [first]).
  { split; [unfold first, listing; rewrite Hq; reflexivity|]. split; [done|]. exact (eq_sym Hafter). }
  assert (C1 : sweep_calls [pair] [first]).
  { intros before d c after Heq. destruct before as [|x [|y before]]; [|discriminate Heq..].
    injection Heq as <- <- <-. exists pair. split; [by left | done]. }
  destruct listed as [rows|e|w]; [|by exists [first]..].
  pose proof (sweep_rows_made pair rows st1) as H2. destruct (for_each _ rows st1) as [res st2].
  destruct H2 as (l & M2 & J & S). exists (first :: l). change (first :: l) with ([first] ++ l).
  split; [by eapply made_app|]. split.
  - intros before d c after Heq. destruct before as [|x before].
    { injection Heq as <- <- <-. exists pair. split; [by left | done]. }
    injection Heq as <- ->. destruct (J d c ltac:(apply elem_of_app; right; by left)) as (q & r & -> & Hr & He).
    exists pair, (env_db st), r. split_and!; [by left | by left | | done]. unfold lists. rewrite Hq. simpl. rewrite Hl. by exists rows.
  - intros Hres. exists (env_db st), rows. split; [by left|]. split; [rewrite Hq; simpl; by rewrite Hl|].
    intros r Hr. eapply row_swept_app; [apply M1 | by apply S].
Qed.

(** C33. A sweep drops what it should and nothing else.  Every statement it sends
    drops a table that a listing it made before returned, whose name holds the
    Artie prefix and a time that had passed when the statement was sent; its
    queries are the listings.  A sweep that succeeds listed every database and
    schema, and looked at every row in a state it passed, dropping its table
    there and then when it had expired. *)
Theorem Sweep_safe pairs st :
  let '(res, st') := Sweep pairs getQueryFunc st in
  exists l, made st st' l /\ sweep_calls pairs l /\
    (res = Ok tt -> forall pair, pair ∈ pairs -> pair_swept pair (env_db st) l).
Proof.
  revert st. induction pairs as [|pair pairs IH]; intros st.
  { exists []. split_and!; [apply made_nil | by intros [] | by intros _ r Hr%not_elem_of_nil]. }
  change (Sweep (pair :: pairs) getQueryFunc) with (sweep_pair pair ;; Sweep pairs getQueryFunc). rewrite go_bind_run.
  pose proof (sweep_pair_made pair st) as H1. destruct (sweep_pair pair st) as [res st1].
  destruct H1 as (l1 & M1 & C1 & S1).
  assert (Hmore : forall ps l, ps ⊆ pair :: pairs -> sweep_calls ps l -> sweep_calls (pair :: pairs) l).
  { intros ps l Hps Hc before d c after Heq. specialize (Hc before d c after Heq). destruct c; naive_solver. }
  assert (C1' : sweep_calls (pair :: pairs) l1) by (apply (Hmore [pair]); [set_solver | done]).
  destruct res as [[]|e|w]; [|by exists l1..]. specialize (IH st1).
  destruct (Sweep pairs getQueryFunc st1) as [res st2]. destruct IH as (l2 & M2 & C2 & S2).
  exists (l1 ++ l2). split; [by eapply made_app|].
  split; [apply sweep_calls_app; [done | apply (Hmore pairs); [set_solver | done]]|].
  intros Hres p [-> | Hp]%elem_of_cons.
  - destruct (S1 eq_refl) as (dq & rows & Hin & Hl & Hrows). exists dq, rows.
    split_and!; [apply elem_of_app; by left | done | intros r Hr; by apply row_swept_more, Hrows].
  - destruct (S2 Hres p Hp) as (dq & rows & Hin & Hl & Hrows). exists dq, rows.
    split_and!; [apply elem_of_app; by right | done | intros r Hr; eapply row_swept_app; [apply M1 | by apply Hrows]].
Qed.
End Listings.
End Sweep.

(** * The contract of a destination *)

(** What the merge relies on: the two operations leave the buffered table
    alone, only add statements to the log, and [GetTableConfig] names a
    configuration that exists. *)
Class DataWarehouseLaws (D : Type) `{DataWarehouse D} := {
  GetTableConfig_td : forall td st, env_td (snd (GetTableConfig td st)) = env_td st;
  GetTableConfig_some : forall td st key st', GetTableConfig td st = (Ok key, st') -> is_Some (env_configs st' !! key);
  Prepare_td : forall key t c b st, env_td (snd (PrepareTemporaryTable key t c b st)) = env_td st
}.

Section SharedConfig.
Context {D : Type} `{SqlStore D} `{GoStd}.

Lemma keeps_td_GetTableConfig_shared g : preserves keeps_td (GetTableConfig_shared g).
Proof. unfold GetTableConfig_shared, describe_rows. preserve. Qed.

Lemma GetTableConfig_shared_some g st key st' :
  GetTableConfig_shared g st = (Ok key, st') -> is_Some (env_configs st' !! key).
Proof.
  unfold GetTableConfig_shared, gets. rewrite go_bind_run.
  destruct (env_configs st !! g_FqName g) as [c|] eqn:Hc.
  - intros [= <- <-]. by rewrite Hc.
  - rewrite go_bind_run. destruct (describe_rows g st) as [[rows|e|w] st1]; [|done..].
    rewrite go_bind_run. unfold lift. destruct (traverse (row_column g) rows) as [cols|e|w]; [|done..].
    rewrite go_bind_run. intros [= <- <-]. simpl. rewrite lookup_insert_eq. by eexists.
Qed.
End SharedConfig.

#[export] Hint Resolve keeps_td_GetTableConfig_shared : preserve.

(** The buffer is the same but for its in-memory columns, which stay there. *)
Definition same_rows (t t' : TableData) : Prop :=
  set_inMemoryColumns None t = set_inMemoryColumns None t' /\
  (is_Some (td_inMemoryColumns t) <-> is_Some (td_inMemoryColumns t')).

#[export] Instance same_rows_equiv : Equivalence same_rows.
Proof.
  unfold same_rows. split; [done | intros a b [H1 H2]; split; [congruence | tauto]
               | intros a b c [H1 H2] [H3 H4]; split; [congruence | tauto]].
Qed.

Lemma same_rows_suffix t t' : same_rows t t' -> td_temporaryTableSuffix t' = td_temporaryTableSuffix t.
Proof. intros [Heq _]. by apply (f_equal td_temporaryTableSuffix) in Heq. Qed.

Lemma MergeColumns_same_rows t destCols t' :
  MergeColumnsFromDestination (Some t) destCols = Some t' -> same_rows t t'.
Proof.
  unfold MergeColumnsFromDestination, same_rows. case_bool_decide; [by intros [= <-]|].
  destruct (td_inMemoryColumns t) eqn:E; intros [= <-]; simpl; by rewrite ?E.
Qed.

Section MergeFacts.
Context {D : Type} `{SqlStore D} `{GoStd} `{!DataWarehouse D} `{!DataWarehouseLaws D}.

(** The state before and after hold the same buffered rows. *)
Definition keeps_rows (st st' : env D) : Prop := same_rows (env_td st) (env_td st').

#[global] Instance keeps_rows_preorder : PreOrder keeps_rows.
Proof. split; [intros st; by unfold keeps_rows | intros a b c H1 H2; unfold keeps_rows in *; by etransitivity]. Qed.

Lemma keeps_of_td {A} (m : go (env D) A) : preserves keeps_td m -> preserves keeps_rows m.
Proof. intros Hm st. unfold keeps_rows. by rewrite (Hm st). Qed.

Lemma keeps_config_of k : preserves keeps_rows (config_of k).
Proof. apply keeps_of_td. preserve. Qed.
Lemma keeps_put_config k c : preserves keeps_rows (put_config k c).
Proof. apply keeps_of_td. preserve. Qed.
Lemma keeps_on_config k f : preserves keeps_rows (on_config k f).
Proof. apply keeps_of_td. preserve. Qed.
Lemma keeps_Exec q : preserves keeps_rows (Exec q).
Proof. apply keeps_of_td. preserve. Qed.
Lemma keeps_TxExec q : preserves keeps_rows (TxExec q).
Proof. apply keeps_of_td. preserve. Qed.
Lemma keeps_Begin : preserves keeps_rows Begin.
Proof. apply keeps_of_td. preserve. Qed.
Lemma keeps_Commit : preserves keeps_rows TxCommit.
Proof. apply keeps_of_td. preserve. Qed.
Lemma keeps_AlterTable a cols : preserves keeps_rows (AlterTable a cols).
Proof. apply keeps_of_td. preserve. Qed.
Lemma keeps_GetTableConfig td : preserves keeps_rows (GetTableConfig td).
Proof. apply keeps_of_td. intros st. apply GetTableConfig_td. Qed.
Lemma keeps_Prepare key t c b : preserves keeps_rows (PrepareTemporaryTable key t c b).
Proof. apply keeps_of_td. intros st. apply Prepare_td. Qed.

#[local] Hint Resolve keeps_config_of keeps_put_config keeps_on_config keeps_Exec keeps_TxExec keeps_Begin
  keeps_Commit keeps_AlterTable keeps_GetTableConfig keeps_Prepare : preserve.

Lemma keeps_merge_columns key : preserves keeps_rows (merge_destination_columns key).
Proof.
  apply preserves_bind; [apply _ | apply keeps_config_of |]. intros tc st.
  unfold table_data, gets. rewrite go_bind_run.
  destruct (MergeColumnsFromDestination (Some (env_td st)) _) as [td'|] eqn:E; [|reflexivity].
  apply (MergeColumns_same_rows _ _ _ E).
Qed.
#[local] Hint Resolve keeps_merge_columns : preserve.

Lemma keeps_stage cfg : preserves keeps_rows (stage cfg).
Proof. unfold stage, alter_destination, table_data, time_now. preserve. Qed.

Lemma stage_names cfg st names st1 :
  stage cfg st = (Ok names, st1) ->
  exists td base now, same_rows (env_td st) td /\ snd names = base +:+ "_" +:+ TempTableSuffix td now.
Proof.
  unfold stage, table_data, gets. rewrite !go_bind_run.
  pose proof (preserves_wrap keeps_rows "failed to get table config: " EmptyString
                (GetTableConfig (env_td st)) (keeps_GetTableConfig _) st) as H1.
  destruct (wrap_go _ _ (GetTableConfig (env_td st)) st) as [[key|e|w] sa]; [|done..].
  rewrite go_bind_run.
  assert (H2 : preserves keeps_rows (alter_destination cfg key (ToFullyQualifiedName (env_td st) true) (env_td st)))
    by (unfold alter_destination; preserve).
  specialize (H2 sa).
  destruct (alter_destination _ _ _ _ sa) as [[[]|e|w] sb]; [|done..]. rewrite go_bind_run.
  pose proof (keeps_merge_columns key sb) as H3.
  destruct (merge_destination_columns key sb) as [[[]|e|w] sc]; [|done..].
  unfold time_now, gets. rewrite !go_bind_run.
  destruct (wrap_go _ _ _ sc) as [[[]|e|w] sd]; [|done..].
  intros [= <- <-]. simpl. do 3 eexists. split; [|reflexivity].
  unfold keeps_rows in *. simpl in *. by rewrite H1, H2.
Qed.

(** A buffer whose temporary suffix was set *)
Definition suffix_set (t : TableData) : Prop :=
  exists draws, td_temporaryTableSuffix t = to_lower (ArtiePrefix +:+ "_" +:+ stringWithCharset draws).

Lemma ResetTempTableSuffix_set t draws t' : ResetTempTableSuffix (Some t) draws = Some t' -> suffix_set t'.
Proof. intros [= <-]. by exists draws. Qed.

Lemma temp_name_has_prefix td base now :
  suffix_set td -> contains (to_lower (base +:+ "_" +:+ TempTableSuffix td now)) ArtiePrefix = true.
Proof.
  intros [draws Hs]. unfold TempTableSuffix. rewrite Hs, !to_lower_app.
  apply contains_app_r, contains_app_r, contains_app_l, contains_app_l. exact (contains_self ArtiePrefix).
Qed.

Lemma Merge_run Int63n cfg opts st :
  ShouldSkipUpdate (env_td st) = false ->
  Merge Int63n cfg opts st =
    match stage cfg st with
    | (Ok names, st1) => deferred (DropTemporaryTable (snd names) false) (finish Int63n cfg opts names) st1
    | (Err e, st1) => (Err e, st1)
    | (Panic w, st1) => (Panic w, st1)
    end.
Proof. intros Hs. unfold Merge, table_data, gets. rewrite go_bind_run, Hs. apply go_bind_run. Qed.

(** C15. The staging table never outlives a merge: whenever it was prepared,
    the last statement of the merge drops it, whether the rest succeeds,
    fails or panics, and the merge's own outcome is the one reported. *)
Theorem Merge_drops_staging Int63n cfg opts st names st1 :
  ShouldSkipUpdate (env_td st) = false -> suffix_set (env_td st) -> stage cfg st = (Ok names, st1) ->
  exists evs, env_log (snd (Merge Int63n cfg opts st)) = evs ++ [SqlExec (drop_statement (snd names))] /\
    fst (Merge Int63n cfg opts st) = fst (finish Int63n cfg opts names st1).
Proof.
  intros Hs Hsuf Hst. rewrite Merge_run, Hst by done.
  destruct (stage_names cfg st names st1 Hst) as (td & base & now & Hrows & Hn).
  assert (Hc : contains (to_lower (snd names)) ArtiePrefix = true).
  { rewrite Hn. apply temp_name_has_prefix. unfold suffix_set in *. by rewrite (same_rows_suffix _ _ Hrows). }
  unfold deferred. destruct (finish Int63n cfg opts names st1) as [r st2].
  destruct (DropTemporaryTable_run (snd names) false st2) as (Hl & _ & Hok). specialize (Hok eq_refl).
  rewrite Hc in Hl. exists (env_log st2).
  destruct (DropTemporaryTable (snd names) false st2) as [[[]|e|w] st3]; done.
Qed.

(** What the execution of the merge sends when it succeeds *)
Definition merge_statements (opts : MergeOpts) (arg : MergeArgument) (evs : list sql_event) : Prop :=
  if UseMergeParts opts then
    exists parts, GetParts arg = Ok parts /\ evs = SqlBegin :: map SqlTx parts ++ [SqlCommit]
  else if bool_decide (Label = MSSQL) then exists q, GetMSSQLStatement arg = Ok q /\ evs = [SqlExec q]
  else exists q, GetStatement arg = Ok q /\ evs = [SqlExec q].

Lemma driver_log {A} ev (call : D -> A * D) (k : A -> result unit) b a st :
  env_log (snd (wrap_go b a (driver_call ev call ≫= (lift ∘ k)) st)) = env_log st ++ [ev].
Proof.
  unfold wrap_go. rewrite go_bind_run. unfold driver_call. destruct (call (env_db st)) as [x db].
  unfold compose, lift. by destruct (wrap_err b a (k x)).
Qed.

Lemma tx_log w qs st st' :
  for_each (fun q => wrap_go (w q) EmptyString (TxExec q)) qs st = (Ok tt, st') ->
  env_log st' = env_log st ++ map SqlTx qs.
Proof.
  revert st. induction qs as [|q qs IH]; intros st; cbn [for_each].
  - intros [= <-]. by rewrite app_nil_r.
  - rewrite go_bind_run. pose proof (driver_log (SqlTx q) (driver_TxExec q) fail_if (w q) EmptyString st) as Hl.
    fold (TxExec q) in Hl. destruct (wrap_go (w q) EmptyString (TxExec q) st) as [[[]|e|p] st1]; [|done..].
    intros Hrun%IH. simpl in Hl. rewrite Hrun, Hl, <- app_assoc. done.
Qed.

Lemma execute_merge_ok opts arg st st' :
  execute_merge opts arg st = (Ok tt, st') ->
  exists evs, merge_statements opts arg evs /\ env_log st' = env_log st ++ evs.
Proof.
  unfold execute_merge, merge_statements. cbv zeta. destruct (UseMergeParts opts).
  - rewrite go_bind_run. unfold wrap_go at 1, lift.
    destruct (GetParts arg) as [parts|e|p]; cbn [wrap_err]; [|done..].
    rewrite go_bind_run. pose proof (driver_log SqlBegin driver_Begin fail_if "failed to start tx: " EmptyString st) as Hb.
    fold Begin in Hb. destruct (wrap_go _ _ Begin st) as [[[]|e|p] st1]; [|done..].
    rewrite go_bind_run. destruct (for_each _ parts st1) as [[[]|e|p] st2] eqn:Hfe; [|done..].
    apply tx_log in Hfe. intros Hc.
    pose proof (driver_log SqlCommit driver_Commit fail_if
      ("failed to merge, parts: [" +:+ join " " parts +:+ "], err: ") EmptyString st2) as Hcl.
    fold TxCommit in Hcl. rewrite Hc in Hcl. simpl in Hb, Hcl. eexists; split; [by eexists|].
    rewrite Hcl, Hfe, Hb, <- !app_assoc. done.
  - destruct (bool_decide (Label = MSSQL)).
    + rewrite go_bind_run. unfold wrap_go at 1, lift.
      destruct (GetMSSQLStatement arg) as [q|e|p]; simpl; [|done..]. intros Hc.
      pose proof (driver_log (SqlExec q) (driver_Exec q) fail_if "failed to execute merge: " EmptyString st) as Hl.
      fold (Exec q) in Hl. rewrite Hc in Hl. eexists; split; [by eexists|]. done.
    + rewrite go_bind_run. unfold wrap_go, lift.
      destruct (GetStatement arg) as [q|e|p]; simpl; [|done..]. rewrite Exec_run. intros [= _ <-].
      eexists; split; [by eexists|]. done.
Qed.

(** C14. A merge that reports success has sent the complete merge: after the
    staging table was loaded and the defaults backfilled, the generated
    statement, or the generated parts inside one committed transaction, and
    then only the drop of the staging table. *)
Theorem Merge_success_complete Int63n cfg opts st st' :
  ShouldSkipUpdate (env_td st) = false -> suffix_set (env_td st) ->
  Merge Int63n cfg opts st = (Ok tt, st') ->
  exists names st1 st2 evs,
    stage cfg st = (Ok names, st1) /\
    for_each (backfill_column Int63n cfg opts (fst (fst names)) (snd (fst names)))
             (GetColumns (ReadOnlyInMemoryCols (env_td st1))) st1 = (Ok tt, st2) /\
    merge_statements opts (merge_argument cfg opts (env_td st1) (snd (fst names)) (snd names)) evs /\
    env_log st' = env_log st2 ++ evs ++ [SqlExec (drop_statement (snd names))].
Proof.
  intros Hs Hsuf. rewrite Merge_run by done.
  destruct (stage cfg st) as [[names|e|w] st1] eqn:Hst; [|done..].
  destruct (stage_names cfg st names st1 Hst) as (td & base & now & Hrows & Hn).
  assert (Hc : contains (to_lower (snd names)) ArtiePrefix = true).
  { rewrite Hn. apply temp_name_has_prefix. unfold suffix_set in *. by rewrite (same_rows_suffix _ _ Hrows). }
  intros Hrun. exists names, st1. unfold deferred in Hrun.
  destruct names as [[key fqName] tmp]. simpl in Hc, Hrun |- *.
  unfold finish, table_data, gets in Hrun. rewrite !go_bind_run in Hrun.
  destruct (for_each _ _ st1) as [[[]|e|w] st2] eqn:Hbf; simpl in Hrun.
  - destruct (execute_merge opts _ st2) as [[[]|e|w] st3] eqn:Hex.
    + apply execute_merge_ok in Hex as (evs & Hev & Hlog). exists st2, evs.
      split; [done|]. split; [done|]. split; [done|].
      destruct (DropTemporaryTable_run tmp false st3) as (Hl & _ & Hok). specialize (Hok eq_refl).
      rewrite Hc in Hl. destruct (DropTemporaryTable tmp false st3) as [[[]|e|w] st4]; [|done..].
      injection Hrun as <-. simpl in Hl. by rewrite Hl, Hlog, <- app_assoc.
    + by destruct (DropTemporaryTable tmp false st3) as [[[]|e'|w] st4].
    + by destruct (DropTemporaryTable tmp false st3) as [[[]|e'|w'] st4].
  - by destruct (DropTemporaryTable tmp false st2) as [[[]|e'|w] st4].
  - by destruct (DropTemporaryTable tmp false st2) as [[[]|e'|w'] st4].
Qed.

Lemma keeps_BackfillColumn cfg c fq : preserves keeps_rows (BackfillColumn cfg c fq).
Proof. unfold BackfillColumn. preserve. Qed.
#[local] Hint Resolve keeps_BackfillColumn : preserve.

Lemma keeps_backfill_loop Int63n cfg opts key fq c n k e :
  preserves keeps_rows (backfill_loop Int63n cfg opts key fq c n k e).
Proof. revert k e. induction n as [|n IH]; intros k e; cbn [backfill_loop]; preserve. Qed.
#[local] Hint Resolve keeps_backfill_loop : preserve.

#[local] Hint Resolve keeps_stage : preserve.

Lemma Merge_Append_keep_rows Int63n cfg opts aopts :
  preserves keeps_rows (Merge Int63n cfg opts) /\ preserves keeps_rows (Append cfg aopts).
Proof.
  split.
  - unfold Merge, finish, execute_merge, backfill_column, DropTemporaryTable, table_data. preserve.
  - unfold Append, table_data. preserve.
Qed.

(** Whatever happens in a merge or an append, the rows, counters and
    messages buffered for the table are as before: a failed write can be
    tried again with the same data. *)
Theorem Merge_keeps_buffer Int63n cfg opts aopts :
  preserves keeps_rows (Merge Int63n cfg opts) /\ preserves keeps_rows (Append cfg aopts).
Proof. apply Merge_Append_keep_rows. Qed.
End MergeFacts.

(** * The schedule of dropped columns, in a merge *)

Section RoundFacts.
Context {D : Type} `{SqlStore D} `{GoStd}.

Lemma Diff_source_missing_NoDup src dst soft upd dbupd mode :
  NoDup (map c_name (fst (Diff src dst soft upd dbupd mode))).
Proof.
  unfold Diff; simpl. unfold keep_unskipped.
  match goal with |- context [foldl ?f [] ?l] => generalize l as cols end. intros cols.
  enough (forall acc, columns_wf acc -> columns_wf (foldl (fun missing col =>
    if shouldSkipColumn (RawName col) soft upd dbupd mode then missing else AddColumn missing col) acc cols)) as Hwf
    by apply (Hwf [] columns_wf_nil).
  induction cols as [|c cols IH]; intros acc Hacc; simpl; [done|].
  apply IH. destruct (shouldSkipColumn _ _ _ _ _); [done | by apply AddColumn_wf].
Qed.

(** The configuration after the columns the destination lacks were added *)
Definition after_add (cols : list Column) (tc : DwhTableConfig) : DwhTableConfig :=
  match cols with [] => tc | _ => MutateInMemoryColumns false Add (to_add cols) tc end.

Lemma AlterTable_nil a st : fst (AlterTable a [] st) = Ok tt -> snd (AlterTable a [] st) = st.
Proof. unfold AlterTable. rewrite go_bind_run. unfold lift. by destruct (AlterTableArgs_Validate a) as [[]| |]. Qed.

(** The part of a merge that alters the destination is one round of the
    drop schedule: with the columns the destination lacks added, the
    columns the batch lacks are dropped or scheduled and the schedule
    audited, exactly as [run_round] says. *)
Theorem alter_destination_round cfg key fqName td st st' tc :
  env_configs st !! key = Some tc ->
  alter_destination cfg key fqName td st = (Ok tt, st') ->
  exists now, env_configs st' !! key = Some
    (run_round (mkRound now (t_ns (td_LatestCDCTs td)) (td_containOtherOperations td) (fst (table_diff td tc)))
       (after_add (snd (table_diff td tc)) tc)).
Proof.
  intros Hk. unfold alter_destination. rewrite go_bind_run. unfold config_of. rewrite Hk.
  pose proof (Diff_source_missing_NoDup (ReadOnlyInMemoryCols td) (Some (dc_columns tc))
    (tc_SoftDelete (td_TopicConfig td)) (tc_IncludeArtieUpdatedAt (td_TopicConfig td))
    (tc_IncludeDatabaseUpdatedAt (td_TopicConfig td)) (td_mode td)) as Hnd.
  fold (table_diff td tc) in Hnd. destruct (table_diff td tc) as [src targ]. simpl in Hnd |- *.
  rewrite go_bind_run. unfold wrap_go at 1.
  destruct (AlterTable (alter_args key fqName (dc_createTable tc) Add false cfg td) targ st) as [r1 st1] eqn:H1.
  destruct r1 as [[]|e|w]; cbn [wrap_err]; [|done..].
  assert (Hk1 : env_configs st1 !! key = Some (after_add targ tc)).
  { destruct targ as [|c targ].
    - pose proof (AlterTable_nil (alter_args key fqName (dc_createTable tc) Add false cfg td) st) as Hn.
      rewrite H1 in Hn. simpl in Hn. by rewrite Hn.
    - destruct (AlterTable_add_run (alter_args key fqName (dc_createTable tc) Add false cfg td)
        (UppercaseEscapedNames cfg) (c :: targ) st tc) as (_ & _ & _ & Hcfg); try done; by rewrite H1 in *. }
  rewrite go_bind_run. unfold wrap_go.
  destruct (AlterTable (alter_args key fqName false Delete _ cfg td) src st1) as [r2 st2] eqn:H2.
  destruct r2 as [[]|e|w]; cbn [wrap_err]; [|done..]. intros Hrun.
  exists (Now (env_db st1)).
  set (r := mkRound _ _ _ src). set (tc1 := after_add targ tc) in *.
  assert (Hk2 : env_configs st2 !! key = Some (MutateInMemoryColumns false Delete (round_drops r tc1)
    (schedule (r_cdc r) (r_now r) (r_other r) src tc1))).
  { destruct src as [|c src].
    - pose proof (AlterTable_nil (alter_args key fqName false Delete (td_containOtherOperations td) cfg td) st1) as Hn.
      rewrite H2 in Hn. simpl in Hn. rewrite Hn by done. by destruct tc1.
    - destruct (AlterTable_drop_run (alter_args key fqName false Delete (td_containOtherOperations td) cfg td)
        (UppercaseEscapedNames cfg) (c :: src) st1 tc1) as (sent & _ & _ & Hok); try done.
      rewrite H2 in Hok. destruct Hok as [_ Hcfg]; done. }
  unfold on_config in Hrun. rewrite go_bind_run in Hrun. unfold config_of in Hrun.
  rewrite Hk2 in Hrun. injection Hrun as <-. simpl. apply lookup_insert_eq.
Qed.

(** The cache works: once a table's configuration was read, reading it
    again sends nothing and answers with the same key and state. *)
Theorem GetTableConfig_cached g st key st' :
  GetTableConfig_shared g st = (Ok key, st') -> GetTableConfig_shared g st' = (Ok key, st').
Proof.
  unfold GetTableConfig_shared, gets. rewrite !go_bind_run.
  destruct (env_configs st !! g_FqName g) as [c|] eqn:Hc.
  - intros [= <- <-]. by rewrite Hc.
  - rewrite !go_bind_run. destruct (describe_rows g st) as [[rows|e|w] st1]; [|done..].
    rewrite go_bind_run. unfold lift. destruct (traverse (row_column g) rows) as [cols|e|w]; [|done..].
    rewrite go_bind_run. intros [= <- <-]. simpl. by rewrite lookup_insert_eq.
Qed.
End RoundFacts.

(** * An example destination *)

Section Example.
#[local] Instance example_store : SqlStore Z := quiet_store Snowflake.
#[local] Instance example_std : GoStd := plain_std.

Definition example_cfg_args (td : TableData) : GetTableCfgArgs :=
  mkGetTableCfgArgs (ToFqName td Snowflake true false (mkFqNameOpts EmptyString EmptyString)) "DESC TABLE" []
    "name" "type" "comment" None (tc_DropDeletedColumns (td_TopicConfig td)).

#[local] Instance example_dwh : DataWarehouse Z := {
  ToFullyQualifiedName := fun td escape => ToFqName td Snowflake escape false (mkFqNameOpts EmptyString EmptyString);
  GetTableConfig := fun td => GetTableConfig_shared (example_cfg_args td);
  PrepareTemporaryTable := fun key tmp _ _ =>
    td ← table_data;
    AlterTable (mkAlterTableArgs key false tmp true true (Some false) Add (td_mode td) zero_time)
      (GetColumns (ReadOnlyInMemoryCols td))
}.

#[local] Instance example_laws : DataWarehouseLaws Z.
Proof.
  split.
  - intros td st. unfold GetTableConfig, example_dwh, GetTableConfig_shared, gets. rewrite go_bind_run.
    destruct (env_configs st !! _); reflexivity.
  - intros td st key st'. unfold GetTableConfig, example_dwh, GetTableConfig_shared, gets. rewrite go_bind_run.
    destruct (env_configs st !! _) eqn:E; intros [= <- <-]; [by eexists|].
    eexists. apply lookup_insert_eq.
  - intros key tmp c b st. unfold PrepareTemporaryTable, example_dwh, table_data, gets. rewrite go_bind_run.
    apply keeps_td_AlterTable.
Qed.

Definition example_merge_columns : list Column := [NewColumn "id" Integer; NewColumn DeleteColumnMarker Boolean].
Definition example_merge_table : TableData :=
  let td := default example_table (ResetTempTableSuffix
              (Some (set_inMemoryColumns (Some example_merge_columns) example_table)) [1; 2; 3; 4; 5]%nat) in
  InsertRow td "id=1" {[ "id" := VInt KInt 1 ]} false.
Definition example_merge_env : env Z := mkEnv 0 ∅ example_merge_table [].
Definition example_opts : MergeOpts := mkMergeOpts false false [] false.

Lemma example_suffix : suffix_set example_merge_table.
Proof. exists [1; 2; 3; 4; 5]%nat. reflexivity. Qed.

Lemma Merge_drops_staging_witness :
  exists tmp evs, env_log (snd (Merge (fun _ _ => 0) example_config example_opts example_merge_env))
    = evs ++ [SqlExec (drop_statement tmp)].
Proof.
  destruct (stage example_config example_merge_env) as [[names|e|w] st1] eqn:E;
    [|exfalso; vm_compute in E; discriminate..].
  destruct (Merge_drops_staging (fun _ _ => 0) example_config example_opts example_merge_env names st1
              eq_refl example_suffix E) as (evs & Hlog & _).
  exists (snd names), evs. exact Hlog.
Defined.

Lemma Merge_success_complete_witness :
  exists names st1 evs, stage example_config example_merge_env = (Ok names, st1) /\
    merge_statements example_opts
      (merge_argument example_config example_opts (env_td st1) (snd (fst names)) (snd names)) evs.
Proof.
  destruct (Merge (fun _ _ => 0) example_config example_opts example_merge_env) as [[[]|e|w] st'] eqn:E;
    [|exfalso; vm_compute in E; discriminate..].
  destruct (Merge_success_complete (fun _ _ => 0) example_config example_opts example_merge_env st'
              eq_refl example_suffix E) as (names & st1 & st2 & evs & Hst & _ & Hev & _).
  exists names, st1, evs. split; [exact Hst | exact Hev].
Defined.

Lemma Merge_keeps_buffer_witness :
  same_rows example_merge_table
    (env_td (snd (Merge (fun _ _ => 0) example_config example_opts example_merge_env))).
Proof.
  exact (proj1 (Merge_keeps_buffer (fun _ _ => 0) example_config example_opts (mkAppendOpts EmptyString EmptyString))
           example_merge_env).
Defined.

Lemma alter_destination_round_witness :
  exists st' now, alter_destination example_config "t" "db.public.orders" example_table example_env = (Ok tt, st') /\
    env_configs st' !! "t" = Some
      (run_round (mkRound now (t_ns zero_time) false
         (fst (table_diff example_table (mkDwhTableConfig [NewColumn "old" String_; NewColumn "newer" String_]
                                           {[ "old" := 99 ]} false true))))
         (after_add (snd (table_diff example_table (mkDwhTableConfig [NewColumn "old" String_; NewColumn "newer" String_]
                                           {[ "old" := 99 ]} false true)))
            (mkDwhTableConfig [NewColumn "old" String_; NewColumn "newer" String_] {[ "old" := 99 ]} false true))).
Proof.
  destruct (alter_destination example_config "t" "db.public.orders" example_table example_env)
    as [[[]|e|w] st'] eqn:E; [|exfalso; vm_compute in E; discriminate..].
  destruct (alter_destination_round example_config "t" "db.public.orders" example_table example_env st'
              (mkDwhTableConfig [NewColumn "old" String_; NewColumn "newer" String_] {[ "old" := 99 ]} false true)
              eq_refl E) as (now & Hk).
  exists st', now. split; [reflexivity | exact Hk].
Defined.

Lemma GetTableConfig_cached_witness :
  exists key st', GetTableConfig_shared (example_cfg_args example_table) example_merge_env = (Ok key, st') /\
    GetTableConfig_shared (example_cfg_args example_table) st' = (Ok key, st').
Proof.
  destruct (GetTableConfig_shared (example_cfg_args example_table) example_merge_env) as [[key|e|w] st'] eqn:E;
    [|exfalso; vm_compute in E; discriminate..].
  exists key, st'. split; [reflexivity|].
  apply (GetTableConfig_cached (example_cfg_args example_table) example_merge_env key st' E).
Defined.
End Example.
