(* ===== verification/Staging.v ===== *)
(** What the warehouse clients share when they stage a buffer: casting its rows
    column by column, the temporary table, the upload to S3, and BigQuery's
    batches.  [rows_of] is the order in which Go iterates over the rows. *)
From S2P Require Import Prelude GoLang Constants StringUtil Decimal Values Typing Columns CastValues Csv Config Kafkalib.
From S2P Require Import TableData Effects TableConfig Warehouse Ddl Dml Shared.
Local Open Scope string_scope.
Local Open Scope list_scope.
Local Open Scope Z_scope.

(** * Casting rows *)

(** [col, _ := cols.GetColumn(name)]: the zero column when there is none *)
Definition column_or_zero (cols : list Column) (name : string) : Column :=
  default (NewColumn EmptyString (template KZero)) (GetColumn cols name).

(** The columns of a staged row, by name *)
Definition staged_columns (cols : option (list Column)) (up : bool) : list string := GetColumnsToUpdate cols up None.

Definition cast_row {A} (cast : value -> Column -> result A) (cols : option (list Column)) (up : bool) (r : row)
  : result (list A) :=
  traverse (fun col => cast (default VNil (r !! col)) (column_or_zero (default [] cols) col)) (staged_columns cols up).

Definition cast_rows {A} (cast : value -> Column -> result A) (cols : option (list Column)) (up : bool) (rows : list row)
  : result (list (list A)) := traverse (cast_row cast cols up) rows.

(** The columns with a cell in a staged row *)
Definition valid_columns (cols : list Column) : list Column :=
  List.filter (fun c => negb (kd_eqb (c_KindDetails c) Invalid)) cols.

Lemma staged_columns_names cols up : staged_columns (Some cols) up = map c_name (valid_columns cols).
Proof. reflexivity. Qed.

Lemma valid_columns_in cols c : c ∈ valid_columns cols -> c ∈ cols.
Proof. intros [Hc _]%list_elem_of_In%filter_In. by apply list_elem_of_In. Qed.

Lemma column_or_zero_in cols c : columns_wf cols -> c ∈ cols -> column_or_zero cols (c_name c) = c.
Proof.
  intros [Hnd _] Hc. unfold column_or_zero, GetColumn.
  destruct (find_first (name_is (c_name c)) cols) as [c'|] eqn:Hf.
  - apply find_first_Some in Hf as [Hc' Hn]. unfold name_is in Hn. apply String.eqb_eq in Hn. simpl.
    apply list_elem_of_lookup in Hc as [i Hi]. apply list_elem_of_lookup in Hc' as [j Hj].
    assert (i = j) as ->; [|congruence].
    apply (NoDup_lookup (map c_name cols) i j (c_name c)); [done | |]; rewrite list_lookup_fmap, ?Hi, ?Hj;
      cbn; congruence.
  - pose proof (proj1 (find_first_None _ _) Hf c Hc) as Hn. unfold name_is in Hn. by rewrite String.eqb_refl in Hn.
Qed.

(** A row was cast cell by cell: one cell per staged column, from the row's
    value (NULL when the row has none) and the type of that very column. *)
Definition cells_of {A} (cast : value -> Column -> result A) (cols : list Column) (r : row) (cells : list A) : Prop :=
  Forall2 (fun c cell => cast (default VNil (r !! c_name c)) c = Ok cell) (valid_columns cols) cells.

Lemma cast_row_cells {A} (cast : value -> Column -> result A) cols up r cells :
  columns_wf cols -> cast_row cast (Some cols) up r = Ok cells <-> cells_of cast cols r cells.
Proof.
  intros Hwf. unfold cast_row, cells_of. rewrite traverse_Ok, staged_columns_names. cbn [default].
  pose proof (valid_columns_in cols) as Hsub. revert Hsub. generalize (valid_columns cols) as l. intros l Hsub.
  assert (Hcol : forall c, c ∈ l -> column_or_zero cols (c_name c) = c)
    by (intros c Hc; apply column_or_zero_in; auto). clear Hsub.
  revert cells. induction l as [|c l IH]; intros cells; simpl.
  - split; intros Hf; inversion Hf; constructor.
  - split; intros Hf; inversion Hf as [|? cell ? cells' Hc Hl]; subst; (constructor; [|apply IH; [|done]]);
      try (intros c' Hc'; apply Hcol; by right); specialize (Hcol c ltac:(left)); congruence.
Qed.

Lemma cast_rows_cells {A} (cast : value -> Column -> result A) cols up rows records :
  columns_wf cols -> cast_rows cast (Some cols) up rows = Ok records -> Forall2 (cells_of cast cols) rows records.
Proof.
  intros Hwf Hr%traverse_Ok. apply (Forall2_impl _ _ _ _ Hr). intros r cells. by apply cast_row_cells.
Qed.

(** The staged file reads back as one record per row, each with the cells of
    its row. *)
Definition staged_text (cast : value -> Column -> result string) (cols : list Column) (rows : list row)
    (text : string) : Prop :=
  exists records, csv_parse text = Some records /\ Forall2 (cells_of cast cols) rows records.

Lemma cast_rows_text cast cols up rows records :
  columns_wf cols -> valid_columns cols <> [] -> cast_rows cast (Some cols) up rows = Ok records ->
  staged_text cast cols rows (csv_text records).
Proof.
  intros Hwf Hne Hr%cast_rows_cells; [|done]. exists records. split; [|done]. apply csv_parse_text.
  clear up Hwf. induction Hr as [|r cells rows records Hc Hr IH]; constructor; [|exact IH].
  intros ->. unfold cells_of in Hc. by inversion Hc.
Qed.

Lemma ReadOnlyInMemoryCols_Some_wf td cols : ReadOnlyInMemoryCols td = Some cols -> columns_wf cols.
Proof.
  unfold ReadOnlyInMemoryCols. destruct (td_inMemoryColumns td) as [l|]; [|done]. intros [= <-].
  assert (Hwf : forall acc, columns_wf acc -> columns_wf (foldl AddColumn acc l)).
  { induction l as [|c l IH]; intros acc Ha; [done|]. apply IH. by apply AddColumn_wf. }
  apply Hwf, columns_wf_nil.
Qed.

(** Every client embeds [db.Store] and adds its own label. *)
Definition with_label {D} (label : DestinationKind) (base : SqlStore D) : SqlStore D := {|
  Label := label;
  driver_Exec := @driver_Exec D base;
  driver_Query := @driver_Query D base;
  driver_Begin := @driver_Begin D base;
  driver_TxExec := @driver_TxExec D base;
  driver_Commit := @driver_Commit D base;
  IsRetryableError := @IsRetryableError D base;
  Now := @Now D base
|}.

(** * The temporary table *)

Section Temp.
Context {D : Type} `{SqlStore D} `{Outside D} `{GoStd}.

Definition temp_table_args (cfg : Config) (key tempTableName : string) (td : TableData) : AlterTableArgs :=
mkAlterTableArgs key false tempTableName true true (Some (UppercaseEscapedNames cfg)) Add (td_mode td) zero_time.

Definition create_temp_table (cfg : Config) (key tempTableName : string) (td : TableData) : go (env D) unit :=
wrap_go "failed to create temp table: " EmptyString
  (AlterTable (temp_table_args cfg key tempTableName td) (GetColumns (ReadOnlyInMemoryCols td))).

(** The file of a staged table: created, filled with the cast rows, and closed
  whatever happened.  The rows reach the file when the buffered writer is
  flushed, which [WriteFile] stands for; [flush_err] prefixes its error. *)
Definition write_csv_file (path flush_err : string) (cast : value -> Column -> result string) (cfg : Config)
  (rows : list row) (td : TableData) : go (env D) string :=
call_outside (CreateFile path) ;;
deferred (call_outside (CloseFile path))
  (records ← lift (cast_rows cast (ReadOnlyInMemoryCols td) (UppercaseEscapedNames cfg) rows);
   wrap_go flush_err EmptyString (call_outside (WriteFile path (csv_text records))) ;;
   mret path).

(** [os.RemoveAll(fp)]: a failure is only logged *)
Definition remove_file (path : string) : go (env D) unit := attempt (call_outside (RemoveFile path)) ;; mret tt.

(** [filepath.Base], the name [Stat] reports *)
Definition base_name (filePath : string) : string := List.last (split_on "/" filePath) EmptyString.

(** [s3lib.UploadLocalFileToS3]: the object is named after the file. *)
Definition object_key (prefix filePath : string) : string :=
if String.eqb prefix EmptyString then base_name filePath else prefix +:+ "/" +:+ base_name filePath.

Definition UploadLocalFileToS3 (bucket prefix filePath : string) : go (env D) string :=
wrap_go "failed loading s3 config: " EmptyString (call_outside LoadAwsConfig) ;;
call_outside (OpenFile filePath) ;;
deferred (call_outside (CloseFile filePath))
  (let key := object_key prefix filePath in
   call_outside (PutObject bucket key filePath) ;;
   mret ("s3://" +:+ bucket +:+ "/" +:+ key)).

(** ** Their effect *)

Lemma keeps_td_create_temp_table cfg key tmp td : preserves keeps_td (create_temp_table cfg key tmp td).
Proof. unfold create_temp_table. preserve. Qed.

Lemma keeps_td_write_csv_file path fe cast cfg rows td : preserves keeps_td (write_csv_file path fe cast cfg rows td).
Proof. unfold write_csv_file. preserve. Qed.

Lemma keeps_td_remove_file path : preserves keeps_td (remove_file path).
Proof. unfold remove_file. preserve. Qed.

Lemma keeps_td_UploadLocalFileToS3 bucket prefix path : preserves keeps_td (UploadLocalFileToS3 bucket prefix path).
Proof. unfold UploadLocalFileToS3. preserve. Qed.

Lemma call_outside_ok c st st' :
call_outside c st = (Ok tt, st') -> env_log st' = env_log st ++ [OutsideCall c].
Proof. apply logged, call_outside_log. Qed.

Lemma Exec_ok q st st' : Exec q st = (Ok tt, st') -> env_log st' = env_log st ++ [SqlExec q].
Proof. apply logged, Exec_log. Qed.

Lemma remove_file_run path st :
fst (remove_file path st) = Ok tt /\ env_log (snd (remove_file path st)) = env_log st ++ [OutsideCall (RemoveFile path)].
Proof.
unfold remove_file. rewrite go_bind_run. unfold attempt. pose proof (call_outside_log (RemoveFile path) st) as Hl.
pose proof (call_outside_no_panic (RemoveFile path) st) as Hp.
destruct (call_outside (RemoveFile path) st) as [[[]|e|w] st1]; simpl in *; [done | done|]. by destruct (Hp w).
Qed.

(** What writing the staged file did, when it succeeded *)
Lemma write_csv_file_ok path fe cast cfg rows td st fp st' :
write_csv_file path fe cast cfg rows td st = (Ok fp, st') ->
fp = path /\ exists records, cast_rows cast (ReadOnlyInMemoryCols td) (UppercaseEscapedNames cfg) rows = Ok records /\
    env_log st' = env_log st ++ map OutsideCall [CreateFile path; WriteFile path (csv_text records); CloseFile path].
Proof.
intros ([] & st1 & E1%call_outside_ok & (st2 & E2 & ->)%deferred_Ok)%go_bind_Ok.
apply go_bind_Ok in E2 as (records & st3 & E3 & ([] & st4 & E4%wrap_go_Ok%call_outside_ok & E5)%go_bind_Ok).
injection E3 as Hr <-. injection E5 as <- <-. split; [done|]. exists records. split; [done|].
rewrite call_outside_log, E4, E1, <- !app_assoc. done.
Qed.

Lemma UploadLocalFileToS3_ok bucket prefix path st uri st' :
UploadLocalFileToS3 bucket prefix path st = (Ok uri, st') ->
uri = "s3://" +:+ bucket +:+ "/" +:+ object_key prefix path /\
  env_log st' = env_log st ++ map OutsideCall
  [LoadAwsConfig; OpenFile path; PutObject bucket (object_key prefix path) path; CloseFile path].
Proof.
intros ([] & st1 & E1%wrap_go_Ok%call_outside_ok & ([] & st2 & E2%call_outside_ok & (st3 & E3 & ->)%deferred_Ok)%go_bind_Ok)%go_bind_Ok.
apply go_bind_Ok in E3 as ([] & st4 & E4%call_outside_ok & E5). injection E5 as <- <-. split; [done|].
rewrite call_outside_log, E4, E2, E1, <- !app_assoc. done.
Qed.
End Temp.

#[export] Hint Resolve keeps_td_create_temp_table keeps_td_write_csv_file keeps_td_remove_file
  keeps_td_UploadLocalFileToS3 : preserve.

(** A cached configuration and a buffered table, for the examples of the clients *)
Definition example_stage_env : env Z :=
  mkEnv 0 {[ "orders" := NewDwhTableConfig [] ∅ true false ]} example_merge_table [].
Definition example_stage_columns : list Column := foldl AddColumn [] example_merge_columns.

Lemma example_stage_valid : valid_columns example_stage_columns <> [].
Proof. intros Hn. vm_compute in Hn. discriminate Hn. Qed.

(** * BigQuery batches: clients/bigquery/batch.go *)

Record Batch (A : Type) := mkBatch { b_rows : list A; b_chunkSize : Z; b_iteratorIdx : Z }.
Arguments mkBatch {A}.
Arguments b_rows {A}.
Arguments b_chunkSize {A}.
Arguments b_iteratorIdx {A}.

Section Batch.
Context {A : Type}.

Definition NewBatch (rows : list A) (chunkSize : Z) : Batch A := mkBatch rows chunkSize 0.
Definition HasNext (b : Batch A) : bool := b_iteratorIdx b <? Z.of_nat (length (b_rows b)).

(** The next chunk and the advanced batch; Go panics on a slice whose bounds are negative. *)
Definition NextChunk (b : Batch A) : result (list A) * Batch A :=
let start := b_iteratorIdx b in
let idx := wrap64 (b_iteratorIdx b + b_chunkSize b) in
let n := Z.of_nat (length (b_rows b)) in
let end_ := if n <? idx then n else idx in
let b := mkBatch (b_rows b) (b_chunkSize b) idx in
if end_ <? start then (Ok [], b)
else if start <? 0 then (Panic "slice bounds out of range", b)
else (Ok (take (Z.to_nat (end_ - start)) (drop (Z.to_nat start) (b_rows b))), b).

(** [for batch.HasNext() { chunk := batch.NextChunk() }], for at most [fuel]
  rounds; [None] when that is not enough *)
Fixpoint chunks (fuel : nat) (b : Batch A) : option (list (result (list A))) :=
if HasNext b then
  match fuel with
  | O => None
  | S fuel => let '(chunk, b) := NextChunk b in cons chunk <$> chunks fuel b
  end
else Some [].

Lemma chunks_from rows size (done_ : nat) :
0 < size -> Z.of_nat (length rows) + size <= max_int64 -> (done_ <= length rows)%nat ->
forall fuel idx, (length rows - done_ <= fuel)%nat ->
(idx = Z.of_nat done_ \/ (done_ = length rows /\ Z.of_nat (length rows) <= idx)) ->
exists cs, chunks fuel (mkBatch rows size idx) = Some (map Ok cs) /\
  concat cs = drop done_ rows /\ Forall (fun c => c <> [] /\ Z.of_nat (length c) <= size) cs.
Proof.
intros Hsize Hmax Hdone fuel. revert done_ Hdone.
induction fuel as [|fuel IH]; intros done_ Hdone idx Hfuel Hidx.
- assert (done_ = length rows) as -> by lia. exists []. cbn [chunks]. unfold HasNext. simpl.
  rewrite (proj2 (Z.ltb_ge _ _)) by lia. rewrite drop_all. done.
- destruct (decide (done_ = length rows)) as [->|Hlt].
  { exists []. cbn [chunks]. unfold HasNext. simpl. rewrite (proj2 (Z.ltb_ge _ _)) by lia. rewrite drop_all. done. }
  destruct Hidx as [->|[? _]]; [|done]. cbn [chunks]. unfold HasNext, NextChunk. cbn [b_rows b_chunkSize b_iteratorIdx].
  rewrite (proj2 (Z.ltb_lt _ _)) by lia. rewrite wrap64_id by (unfold min_int64; lia).
  set (e := if Z.of_nat (length rows) <? Z.of_nat done_ + size then Z.of_nat (length rows) else Z.of_nat done_ + size).
  assert (He : e = Z.min (Z.of_nat (length rows)) (Z.of_nat done_ + size)) by (unfold e; destruct (Z.ltb_spec (Z.of_nat (length rows)) (Z.of_nat done_ + size)); lia).
  rewrite (proj2 (Z.ltb_ge e _)) by lia. rewrite (proj2 (Z.ltb_ge _ 0)) by lia. rewrite Nat2Z.id.
  set (k := Z.to_nat (e - Z.of_nat done_)).
  destruct (IH (done_ + k)%nat ltac:(lia) (Z.of_nat done_ + size) ltac:(lia)
              ltac:(destruct (decide (Z.of_nat done_ + size < Z.of_nat (length rows))); [left | right]; lia))
    as (cs & Hcs & Hcat & Hall).
  exists (take k (drop done_ rows) :: cs). rewrite Hcs. split; [done|]. split.
  + cbn [concat]. rewrite Hcat, <- drop_drop. apply take_drop.
  + constructor; [|done]. rewrite length_take, length_drop. split; [|lia].
    intros Hnil%(f_equal length). rewrite length_take, length_drop in Hnil. simpl in Hnil. lia.
Qed.

(** With a chunk size that is not positive the loop does not end without a
    panic: the index stays where it is, or goes down until it wraps around and
    the next slice has a negative bound. *)
Lemma chunks_stuck rows size fuel cs idx :
  rows <> [] -> min_int64 <= size <= 0 -> min_int64 <= idx <= 0 ->
  chunks fuel (mkBatch rows size idx) <> Some (map Ok cs).
Proof.
  intros Hne Hsize. assert (Hpos : 0 < Z.of_nat (length rows)) by (destruct rows; [done | cbn [length]; lia]).
  revert cs idx. induction fuel as [|fuel IH]; intros cs idx Hidx; cbn [chunks]; unfold HasNext; cbn [b_rows b_iteratorIdx];
    rewrite (proj2 (Z.ltb_lt _ _)) by lia; [done|].
  unfold NextChunk. cbn [b_rows b_chunkSize b_iteratorIdx]. set (idx' := wrap64 (idx + size)).
  destruct (decide (min_int64 <= idx + size)) as [Hin | Hout].
  - assert (idx' = idx + size) as -> by (apply wrap64_id; unfold min_int64, max_int64 in *; lia).
    rewrite (proj2 (Z.ltb_ge (Z.of_nat (length rows)) _)) by lia.
    assert (Hnext : forall chunk cs, cons chunk <$> chunks fuel (mkBatch rows size (idx + size)) <> Some (map Ok cs)).
    { intros chunk cs'. destruct (chunks fuel _) as [l|] eqn:Hl; [|done]. destruct cs' as [|c cs']; [done|].
      intros [= _ ->]. by apply (IH cs' (idx + size)); [lia|]. }
    destruct (_ <? idx); [apply Hnext|]. destruct (idx <? 0); apply Hnext.
  - assert (Hidx' : 0 <= idx') by (unfold idx', wrap64, min_int64 in *; rewrite <- (Z.mod_add _ 1), Z.mod_small; lia).
    rewrite (proj2 (Z.ltb_ge _ idx)) by (case_match; lia). rewrite (proj2 (Z.ltb_lt idx 0)) by lia.
    destruct (chunks fuel _) as [l|]; [|done]. by destruct cs.
Qed.

(** C36. Batches cover the rows exactly once, when the chunk size is positive: if
    it does not overflow the index, the loop ends within one round per row, its
    chunks in order are the rows, and none is empty or larger than the chunk
    size.  Without rows it ends at once; otherwise, with a chunk size that is
    not positive, which validation does not refuse, it never ends without a
    panic, however many rounds it is given. *)
Theorem Batch_chunks rows size :
  min_int64 <= size -> Z.of_nat (length rows) + size <= max_int64 ->
  (0 < size -> exists cs, chunks (length rows) (NewBatch rows size) = Some (map Ok cs) /\
     concat cs = rows /\ Forall (fun c => c <> [] /\ Z.of_nat (length c) <= size) cs) /\
  ((exists fuel cs, chunks fuel (NewBatch rows size) = Some (map Ok cs)) <-> 0 < size \/ rows = []).
Proof.
  intros Hsize Hm.
  assert (Hpos : 0 < size -> exists cs, chunks (length rows) (NewBatch rows size) = Some (map Ok cs) /\
     concat cs = rows /\ Forall (fun c => c <> [] /\ Z.of_nat (length c) <= size) cs).
  { intros Hs. destruct (chunks_from rows size 0%nat Hs Hm ltac:(lia) (length rows) 0 ltac:(lia) ltac:(by left)) as (cs & ?).
    by exists cs. }
  split; [exact Hpos|]. split.
  - intros (fuel & cs & Hf). destruct (decide (0 < size)) as [|Hz]; [by left | right].
    destruct rows as [|r rows]; [done|]. exfalso. by apply (chunks_stuck (r :: rows) size fuel cs 0) in Hf; try lia.
  - intros [Hs | ->].
    + destruct (Hpos Hs) as (cs & Hc & _). by exists (length rows), cs.
    + by exists 0%nat, [].
Qed.
End Batch.

Lemma Batch_chunks_witness :
  (exists cs, chunks 5 (NewBatch [1; 2; 3; 4; 5] 2) = Some (map Ok cs) /\ concat cs = [1; 2; 3; 4; 5]) /\
  ~ exists fuel cs, chunks fuel (NewBatch [1; 2; 3; 4; 5] (-1)) = Some (map Ok cs).
Proof.
  split.
  - destruct (Batch_chunks [1; 2; 3; 4; 5] 2 ltac:(discriminate) ltac:(discriminate)) as [Hc _].
    destruct (Hc ltac:(lia)) as (cs & H1 & H2 & _). exists cs. split; [exact H1 | exact H2].
  - intros He. destruct (Batch_chunks [1; 2; 3; 4; 5] (-1) ltac:(discriminate) ltac:(discriminate)) as [_ [Hz _]].
    destruct (Hz He) as [Hlt | Hnil]; [lia | discriminate Hnil].
Defined.
