(* ===== verification/Consumer.v ===== *)
(** The consumer: [processes/consumer] and [processes/pool].  A message is
    parsed, saved in its table's buffer, and flushed when the buffer is full; a
    timer flushes every table.  The state carries the history the theorems
    speak of: which messages were saved in which table, which are part of a
    successful write, and which were committed or acknowledged, in order; and
    every buffer that was handed to the destination, with whether the write
    reported success.

    The unit of interleaving is what one table lock protects: saving one
    message, or writing, committing and clearing one table. *)
From S2P Require Import Prelude GoLang Constants StringUtil Decimal Values Typing Columns Kafkalib Config Retry.
From S2P Require Import TableData Event Effects TableConfig Warehouse Ddl Dml Shared.
Local Open Scope string_scope.
Local Open Scope list_scope.
Local Open Scope Z_scope.

(** * Interfaces *)

(** [destination.Baseline], and the queue's side of a commit.  A write may
    change the buffer's column metadata, even when it fails. *)
Class Baseline (W : Type) := {
  base_Merge : TableData -> W -> result unit * TableData * W;
  base_Append : TableData -> W -> result unit * TableData * W;
  (** [CommitMessages] of the topic's reader, and [Ack] *)
  queue_Commit : KafkaMessage -> W -> option error * W;
  queue_Ack : pubsubWrapper -> W -> W
}.

Class BaselineLaws (W : Type) `{Baseline W} := {
  Merge_same_rows : forall td w, same_rows td (snd (fst (base_Merge td w)));
  Append_same_rows : forall td w, same_rows td (snd (fst (base_Append td w)))
}.

Definition TcFmtMap := gmap string (TopicConfig * Format).

(** * State *)

(** A buffer handed to the destination, as it was, and whether the write
    reported success *)
Record write := mkWrite { wr_buffer : TableData; wr_ok : bool }.

Record cstate (W : Type) := mkCState {
  cs_db : DatabaseData;
  cs_world : W;
  (** history: the messages saved, per table since its last successful flush and
      overall, those written and committed, and the writes *)
  cs_saved : gmap string (list Message);
  cs_all : list (string * Message);
  cs_written : list Message;
  cs_committed : list Message;
  cs_writes : list write
}.
Arguments mkCState {W}.
Arguments cs_db {W}.
Arguments cs_world {W}.
Arguments cs_saved {W}.
Arguments cs_all {W}.
Arguments cs_written {W}.
Arguments cs_committed {W}.
Arguments cs_writes {W}.

Definition saved_of {W} (t : string) (st : cstate W) : list Message := default [] (cs_saved st !! t).

Section Consumer.
Context {W : Type} `{Baseline W} `{GoStd}.
(** The iteration orders of the maps, and the topics that have a reader *)
Variables (iter : row -> list string) (iter_parts : gmap string (list Message) -> list string)
          (iter_tables : DatabaseData -> list string) (has_reader : string -> bool).

Definition set_db (db : DatabaseData) (st : cstate W) : cstate W :=
  mkCState db (cs_world st) (cs_saved st) (cs_all st) (cs_written st) (cs_committed st) (cs_writes st).
Definition set_world (w : W) (st : cstate W) : cstate W :=
  mkCState (cs_db st) w (cs_saved st) (cs_all st) (cs_written st) (cs_committed st) (cs_writes st).

(** ** History *)

Definition record_saved (t : string) (m : Message) (st : cstate W) : cstate W :=
  mkCState (cs_db st) (cs_world st) (<[t := saved_of t st ++ [m]]> (cs_saved st)) (cs_all st ++ [(t, m)])
    (cs_written st) (cs_committed st) (cs_writes st).
Definition record_written (t : string) (st : cstate W) : cstate W :=
  mkCState (cs_db st) (cs_world st) (cs_saved st) (cs_all st) (cs_written st ++ saved_of t st) (cs_committed st) (cs_writes st).
Definition record_committed (m : Message) (w : W) (st : cstate W) : cstate W :=
  mkCState (cs_db st) w (cs_saved st) (cs_all st) (cs_written st) (cs_committed st ++ [m]) (cs_writes st).
Definition record_cleared (t : string) (st : cstate W) : cstate W :=
  mkCState (cs_db st) (cs_world st) (<[t := []]> (cs_saved st)) (cs_all st) (cs_written st) (cs_committed st) (cs_writes st).
Definition record_write (td : TableData) (ok : bool) (w : W) (st : cstate W) : cstate W :=
  mkCState (cs_db st) w (cs_saved st) (cs_all st) (cs_written st) (cs_committed st) (cs_writes st ++ [mkWrite td ok]).

(** ** Commit *)

Definition commit_message (topic : string) (m : Message) : go (cstate W) unit :=
  (match KafkaMsg m with
   | None => mret tt
   | Some k =>
       if negb (has_reader topic) then lift nil_deref
       else fun st =>
         match queue_Commit k (cs_world st) with
         | (Some e, w) => (Err e, set_world w st)
         | (None, w) => (Ok tt, record_committed m w st)
         end
   end) ;;
  match PubSubMsg m with
  | None => mret tt
  | Some p => modify (fun st => record_committed m (queue_Ack p (cs_world st)) st)
  end.

Definition commitOffset (topic : string) (partitionsToOffset : gmap string (list Message)) : go (cstate W) unit :=
  for_each (fun p => for_each (commit_message topic) (default [] (partitionsToOffset !! p)))
           (iter_parts partitionsToOffset).

(** ** Flush *)

Definition put_table (t : string) (td : TableData) : go (cstate W) unit :=
  modify (fun st => set_db (match cs_db st !! t with
                            | Some mt => <[t := SetTableData mt (Some td)]> (cs_db st)
                            | None => cs_db st
                            end) st).

(** [dest.Append] or [dest.Merge], with the buffer as the write leaves it *)
Definition write_table (t : string) (td : TableData) : go (cstate W) unit := fun st =>
  let '(r, td', w) := if bool_decide (td_mode td = History)
                      then base_Append td (cs_world st) else base_Merge td (cs_world st) in
  (r, snd (put_table t td' (record_write td (is_ok r) w st))).

Definition clear_table (t : string) (now : gotime) : go (cstate W) unit := fun st =>
  match ClearTableConfig (cs_db st) t now with
  | Ok db => (Ok tt, record_cleared t (set_db db st))
  | Err e => (Err e, st)
  | Panic w => (Panic w, st)
  end.

(** The buffer of a table as the lock holder sees it *)
Definition buffer_of (t : string) : go (cstate W) (option TableData) :=
  gets (fun st => cs_db st !! t ≫= mt_TableData).

(** The body of the flush goroutine of one table *)
Definition flush_table (cooldown : option Z) (now : gotime) (draws : list nat) (t : string) : go (cstate W) unit :=
  table ← gets (fun st => cs_db st !! t);
  match table with
  | None => mret tt
  | Some table =>
      if match cooldown with Some c => ShouldSkipFlush table (t_ns now) c | None => false end then mret tt
      else match mt_TableData table with
           | None => mret tt
           | Some td =>
               let td := default td (ResetTempTableSuffix (Some td) draws) in
               put_table t td ;;
               r ← attempt (write_table t td);
               match r with
               | Ok _ =>
                   modify (record_written t) ;;
                   td ← buffer_of t;
                   match td with
                   | None => mret tt
                   | Some td =>
                       c ← attempt (commitOffset (tc_Topic (td_TopicConfig td)) (td_PartitionsToLastMessage td));
                       match c with Ok _ => clear_table t now | _ => mret tt end
                   end
               | _ => mret tt
               end
           end
  end.

(** [Flush]; the empty string selects every table. *)
Definition Flush (specificTable : string) (cooldown : option Z) (now : gotime) (draws : list nat)
  : go (cstate W) unit :=
  db ← gets cs_db;
  if negb (String.eqb specificTable EmptyString) && bool_decide (db !! specificTable = None)
  then lift (errorf ("table " +:+ specificTable +:+ " does not exist in the in-memory database"))
  else for_each (flush_table cooldown now draws)
         (List.filter (fun t => String.eqb specificTable EmptyString || String.eqb t specificTable) (iter_tables db)).

(** ** Process *)

(** [Save] on the shared database *)
Definition save_event (cfg : Config) (tc : TopicConfig) (msg : Message) (evt : Event)
  : go (cstate W) (bool * string) := fun st =>
  match Save cfg (cs_db st) (Some tc) msg (iter (e_PrimaryKeyMap evt)) (iter (e_Data evt)) evt with
  | Ok (db, _, flush) => (Ok flush, record_saved (e_Table evt) msg (set_db db st))
  | Err e => (Err e, st)
  | Panic w => (Panic w, st)
  end.

(** [process]: the table the event went to *)
Definition process (cfg : Config) (formats : option TcFmtMap) (now : gotime) (draws : list nat) (msg : Message)
  : go (cstate W) string :=
  match formats with
  | None => lift (errorf "failed to process, topicConfig is nil")
  | Some formats =>
      match formats !! Message_Topic msg with
      | None => lift (errorf ("failed to get topic name: " +:+ Message_Topic msg))
      | Some (tc, fmt) =>
          pkMap ← wrap_go "cannot unmarshall key: " EmptyString (lift (GetPrimaryKey fmt (Message_Key msg) tc));
          event ← wrap_go "cannot unmarshall event: " EmptyString
            (lift (GetEventFromBytes fmt (TypingSettings cfg) (Message_Value msg)));
          let evt := ToMemoryEvent event now pkMap (iter pkMap) tc (cfg_Mode cfg) in
          skip ← lift (TopicConfig_ShouldSkip tc (Operation event));
          if skip : bool then mret (e_Table evt)
          else
            flush ← wrap_go "event failed to save: " EmptyString (save_event cfg tc msg evt);
            (if flush.1 : bool then Flush (e_Table evt) None now draws else mret tt) ;;
            mret (e_Table evt)
      end
  end.

(** The body of the Kafka reader's loop: a tombstone is skipped, and a
    message that fails to process is skipped too. *)
Definition consume (cfg : Config) (formats : TcFmtMap) (now : gotime) (draws : list nat) (m : Message)
  : go (cstate W) unit :=
  if bool_decide (KafkaMsg m <> None) && bool_decide (length (Message_Value m) = 0%nat) then mret tt
  else attempt (process cfg (Some formats) now draws m) ;; mret tt.

(** What the process does, one step at a time *)
Inductive action :=
| Consume (now : gotime) (draws : list nat) (m : Message)
| PoolFlush (now : gotime) (draws : list nat) (interval : Z).

Definition act (cfg : Config) (formats : TcFmtMap) (a : action) : go (cstate W) unit :=
  match a with
  | Consume now draws m => consume cfg formats now draws m
  | PoolFlush now draws interval => attempt (Flush EmptyString (Some interval) now draws) ;; mret tt
  end.

Definition run_actions (cfg : Config) (formats : TcFmtMap) (l : list action) : go (cstate W) unit :=
  for_each (act cfg formats) l.
End Consumer.
Arguments Consume now draws m.

(** * What [Save] does to the buffers *)

Section SaveEffect.
Context `{GoStd}.

(** The messages a table's buffer holds, the empty map when there is none *)
Definition buffered_messages (db : DatabaseData) (t : string) : gmap string (list Message) :=
  match db !! t ≫= mt_TableData with Some td => td_PartitionsToLastMessage td | None => ∅ end.


Lemma InsertRow_messages t pk r del :
  td_PartitionsToLastMessage (InsertRow t pk r del) = td_PartitionsToLastMessage t.
Proof. unfold InsertRow. case_bool_decide; [done|]. by destruct (td_rowsData t !! pk). Qed.

Lemma event_buffer_messages cfg table tc pks e td :
  event_buffer cfg table tc pks e = Ok td ->
  td_PartitionsToLastMessage td =
    match mt_TableData table with Some td => td_PartitionsToLastMessage td | None => ∅ end.
Proof.
  unfold event_buffer. destruct (mt_TableData table) as [td0|].
  - destruct (e_Columns e); [by apply (add_columns_field td_PartitionsToLastMessage) | by intros [= <-]].
  - by intros [= <-].
Qed.

Lemma event_buffer_topic cfg table tc pks e td :
  event_buffer cfg table tc pks e = Ok td ->
  td_TopicConfig td = match mt_TableData table with Some td => td_TopicConfig td | None => tc end.
Proof.
  unfold event_buffer. destruct (mt_TableData table) as [td0|].
  - destruct (e_Columns e); [by apply (add_columns_field td_TopicConfig) | by intros [= <-]].
  - by intros [= <-].
Qed.

Lemma InsertRow_topic t pk r del : td_TopicConfig (InsertRow t pk r del) = td_TopicConfig t.
Proof. unfold InsertRow. case_bool_decide; [done|]. by destruct (td_rowsData t !! pk). Qed.

(** A save only writes its event's table, which then has a buffer: the message
    is added to the old one's, and its topic is the old one's. *)
Lemma Save_table cfg db tc msg pks order e db' e' flush :
  Save cfg db (Some tc) msg pks order e = Ok (db', e', flush) ->
  (forall t, t <> e_Table e -> db' !! t = db !! t) /\
  exists mt td, db' !! e_Table e = Some mt /\ mt_TableData mt = Some td /\
    td_PartitionsToLastMessage td = record_message (buffered_messages db (e_Table e)) msg /\
    mt_lastFlushTime mt = match db !! e_Table e with Some mt => mt_lastFlushTime mt | None => zero_time end /\
    td_TopicConfig td = match db !! e_Table e ≫= mt_TableData with Some td => td_TopicConfig td | None => tc end.
Proof.
  unfold Save. destruct (negb (IsValid e)); [done|]. unfold GetOrCreateTableData.
  set (found := match db !! e_Table e with Some table => (table, db) | None => _ end).
  assert (Hdb : (forall t, t <> e_Table e -> snd found !! t = db !! t) /\
    buffered_messages db (e_Table e) =
      match mt_TableData (fst found) with Some td => td_PartitionsToLastMessage td | None => ∅ end /\
    mt_lastFlushTime (fst found) = match db !! e_Table e with Some mt => mt_lastFlushTime mt | None => zero_time end /\
    mt_TableData (fst found) = db !! e_Table e ≫= mt_TableData).
  { subst found. unfold buffered_messages. destruct (db !! e_Table e) as [mt|]; simpl; [done|].
    split; [|done]. intros t Ht. by rewrite lookup_insert_ne. }
  destruct found as [table db1]. simpl in Hdb. destruct Hdb as (Hne & Hbm & Hlast & Htd0).
  destruct (event_buffer cfg table tc pks e) as [td| |] eqn:Htd; simpl; [|done..].
  destruct (ReadOnlyInMemoryCols td) as [cols|]; [|done].
  destruct (save_entries _ _ cols _) as [cols' d]. intros [= <- <- _].
  split.
  - intros t Ht. rewrite lookup_insert_ne by done. by apply Hne.
  - do 2 eexists. split; [apply lookup_insert_eq|]. split; [reflexivity|]. simpl.
    rewrite InsertRow_messages, InsertRow_topic. simpl.
    by rewrite (event_buffer_messages _ _ _ _ _ _ Htd), (event_buffer_topic _ _ _ _ _ _ Htd), Hbm, <- Htd0.
Qed.

Lemma Save_effect cfg db tc msg pks order e db' e' flush :
  Save cfg db (Some tc) msg pks order e = Ok (db', e', flush) ->
  (forall t, t <> e_Table e -> db' !! t = db !! t) /\
  exists mt td, db' !! e_Table e = Some mt /\ mt_TableData mt = Some td /\
    td_PartitionsToLastMessage td = record_message (buffered_messages db (e_Table e)) msg.
Proof. intros (Hne & mt & td & Hmt & Htd & Hp & _)%Save_table. split; [done|]. by exists mt, td. Qed.
End SaveEffect.

(** * The commit invariant *)

Lemma record_message_members l p m :
  m ∈ default [] (foldl record_message ∅ l !! p) -> m ∈ l.
Proof.
  induction l as [|m0 l IH] using rev_ind; simpl; [rewrite lookup_empty; by intros ?%not_elem_of_nil|].
  rewrite foldl_app. simpl. set (msgs := foldl record_message ∅ l) in *. unfold record_message.
  rewrite elem_of_app, list_elem_of_singleton.
  case_bool_decide; (destruct (decide (Message_Partition m0 = p)) as [<- | Hp];
    [rewrite lookup_insert_eq; simpl | rewrite lookup_insert_ne by done; auto]).
  - intros ->%list_elem_of_singleton. by right.
  - rewrite elem_of_app, list_elem_of_singleton. naive_solver.
Qed.

Section Invariant.
Context {W : Type}.

(** A committed message was saved in some table after messages that are all
    part of a successful write, as it is itself. *)
Definition commit_covered (st : cstate W) (m : Message) : Prop :=
  exists t pre post, cs_all st = pre ++ (t, m) :: post /\ m ∈ cs_written st /\
    forall m', (t, m') ∈ pre -> m' ∈ cs_written st.

Record consumer_inv (st : cstate W) : Prop := {
  ci_messages : forall t, buffered_messages (cs_db st) t = foldl record_message ∅ (saved_of t st);
  ci_empty : forall t, (cs_db st !! t ≫= mt_TableData) = None -> saved_of t st = [];
  ci_all : forall t m, (t, m) ∈ cs_all st -> m ∈ cs_written st \/ m ∈ saved_of t st;
  ci_saved : forall t m, m ∈ saved_of t st -> (t, m) ∈ cs_all st;
  ci_committed : forall m, m ∈ cs_committed st -> commit_covered st m
}.

(** [Inv] is kept by a run *)
Definition keeps_inv (st st' : cstate W) : Prop := consumer_inv st -> consumer_inv st'.

#[global] Instance keeps_inv_preorder : PreOrder keeps_inv.
Proof. split; [intros st Hs; exact Hs | intros a b c H1 H2 Ha; auto]. Qed.

Lemma saved_of_insert (st : cstate W) t t' l db (w : W) a wr c ws :
  saved_of t' (mkCState db w (<[t := l]> (cs_saved st)) a wr c ws) = if decide (t = t') then l else saved_of t' st.
Proof.
  unfold saved_of; simpl. case_decide; [subst; by rewrite lookup_insert_eq | by rewrite lookup_insert_ne].
Qed.

Lemma commit_covered_mono st st' m more wmore :
  cs_all st' = cs_all st ++ more -> cs_written st' = cs_written st ++ wmore ->
  commit_covered st m -> commit_covered st' m.
Proof.
  intros Ha Hw (t & pre & post & Heq & Hm & Hpre). exists t, pre, (post ++ more).
  rewrite Ha, Hw, Heq, <- app_assoc. split; [done|]. setoid_rewrite elem_of_app. naive_solver.
Qed.

(** Replacing a buffer by one with the same messages keeps the invariant. *)
Lemma record_write_inv st td ok w : consumer_inv st -> consumer_inv (record_write td ok w st).
Proof. by intros [H1 H2 H3 H4 H5]. Qed.

Lemma set_buffer_inv st t mt td td' w :
  cs_db st !! t = Some mt -> mt_TableData mt = Some td ->
  td_PartitionsToLastMessage td' = td_PartitionsToLastMessage td ->
  consumer_inv st -> consumer_inv (set_db (<[t := SetTableData mt (Some td')]> (cs_db st)) (set_world w st)).
Proof.
  intros Hmt Htd Hp [H1 H2 H3 H4 H5]. split; try done.
  - intros t'. specialize (H1 t'). unfold buffered_messages in *. simpl.
    destruct (decide (t = t')) as [<- | Hne]; [|by rewrite lookup_insert_ne].
    rewrite lookup_insert_eq. rewrite Hmt in H1. simpl in *. rewrite Htd in H1. by rewrite Hp.
  - intros t'. simpl. destruct (decide (t = t')) as [<- | Hne]; [by rewrite lookup_insert_eq|].
    rewrite lookup_insert_ne by done. apply H2.
Qed.

Lemma record_written_inv st t : consumer_inv st -> consumer_inv (record_written t st).
Proof.
  intros [H1 H2 H3 H4 H5]. split; try done.
  - intros t' m Hin. simpl. rewrite elem_of_app. destruct (H3 t' m Hin); auto.
  - intros m Hm. eapply (commit_covered_mono st _ m []); [simpl; by rewrite app_nil_r | done | by apply H5].
Qed.

Lemma record_committed_inv st t m w :
  m ∈ saved_of t st -> (forall m', m' ∈ saved_of t st -> m' ∈ cs_written st) ->
  consumer_inv st -> consumer_inv (record_committed m w st).
Proof.
  intros Hm Hw [H1 H2 H3 H4 H5]. split; try done. intros m'. simpl.
  rewrite elem_of_app, list_elem_of_singleton. intros [Hc | ->]; [by apply H5|].
  apply H4 in Hm as Hall. apply list_elem_of_split in Hall as (pre & post & Heq). exists t, pre, post. simpl.
  split; [done|]. split; [auto|]. intros m2 Hm2.
  destruct (H3 t m2) as [?|?]; [rewrite Heq; apply elem_of_app; by left | done | auto].
Qed.

Lemma clear_inv st t mt now :
  cs_db st !! t = Some mt -> (forall m', m' ∈ saved_of t st -> m' ∈ cs_written st) ->
  consumer_inv st -> consumer_inv (record_cleared t (set_db (<[t := Wipe mt now]> (cs_db st)) st)).
Proof.
  intros Hmt Hw [H1 H2 H3 H4 H5]. unfold record_cleared. split; simpl.
  - intros t'. rewrite saved_of_insert. unfold buffered_messages. case_decide; subst.
    + by rewrite lookup_insert_eq.
    + rewrite lookup_insert_ne by done. apply H1.
  - intros t'. rewrite saved_of_insert. case_decide; [done|]. rewrite lookup_insert_ne by done. apply H2.
  - intros t' m Hin. rewrite saved_of_insert. destruct (H3 t' m Hin) as [?|Hs]; [by left|].
    case_decide; [subst; left; auto | by right].
  - intros t' m. rewrite saved_of_insert. case_decide; [by intros ?%not_elem_of_nil | apply H4].
  - exact H5.
Qed.

Lemma record_saved_inv `{GoStd} st t msg db' :
  (forall t', t' <> t -> db' !! t' = cs_db st !! t') ->
  (exists mt td, db' !! t = Some mt /\ mt_TableData mt = Some td /\
     td_PartitionsToLastMessage td = record_message (buffered_messages (cs_db st) t) msg) ->
  consumer_inv st -> consumer_inv (record_saved t msg (set_db db' st)).
Proof.
  intros Hne (mt & td & Hmt & Htd & Hp) [H1 H2 H3 H4 H5]. unfold record_saved. split; simpl.
  - intros t'. rewrite saved_of_insert. unfold buffered_messages. case_decide as Ht; subst.
    + rewrite Hmt. simpl. rewrite Htd, Hp, foldl_app. simpl. by rewrite H1.
    + rewrite Hne by done. apply H1.
  - intros t'. rewrite saved_of_insert. case_decide as Ht; subst.
    + rewrite Hmt. simpl. by rewrite Htd.
    + rewrite Hne by done. apply H2.
  - intros t' m. rewrite saved_of_insert, elem_of_app, list_elem_of_singleton.
    intros [Hin | [= -> ->]].
    + destruct (H3 t' m Hin) as [?|Hs]; [by left|]. right. case_decide; [|done]. subst.
      apply elem_of_app. by left.
    + right. rewrite decide_True by done. apply elem_of_app. right. by apply list_elem_of_singleton.
  - intros t' m. rewrite saved_of_insert, elem_of_app, list_elem_of_singleton. case_decide as Ht; subst.
    + rewrite elem_of_app, list_elem_of_singleton. intros [Hs | ->]; [left; auto | by right].
    + intros Hs. left. auto.
  - intros m Hm. eapply (commit_covered_mono st _ m _ []); [done | simpl; by rewrite app_nil_r | by apply H5].
Qed.
End Invariant.

(** * At least once *)

Section AtLeastOnce.
Context {W : Type} `{Baseline W} `{!BaselineLaws W} `{GoStd}.
Variables (iter : row -> list string) (iter_parts : gmap string (list Message) -> list string)
          (iter_tables : DatabaseData -> list string) (has_reader : string -> bool).

(** While the buffered messages of [t] are committed: the invariant, and that
    all of them are part of a write. *)
Definition committing (t : string) (st : cstate W) : Prop :=
  consumer_inv st /\ forall m, m ∈ saved_of t st -> m ∈ cs_written st.

Definition keeps_committing (t : string) (st st' : cstate W) : Prop :=
  committing t st -> committing t st' /\ saved_of t st' = saved_of t st /\ cs_db st' = cs_db st.

#[global] Instance keeps_committing_preorder t : PreOrder (keeps_committing t).
Proof.
  split; [intros st Hs; done|]. intros a b c H1 H2 Ha.
  destruct (H1 Ha) as (Hb & Hs1 & Hd1). destruct (H2 Hb) as (Hc & Hs2 & Hd2).
  split; [done|]. by rewrite Hs2, Hd2.
Qed.

Lemma set_world_committing t w (st : cstate W) : keeps_committing t st (set_world w st).
Proof. intros [[H1 H2 H3 H4 H5] Hw]. by repeat split. Qed.

Lemma commit_message_step t topic m (st : cstate W) :
  m ∈ saved_of t st -> keeps_committing t st (snd (commit_message has_reader topic m st)).
Proof.
  intros Hm. unfold commit_message. rewrite go_bind_run.
  assert (Hone : forall st1 w, m ∈ saved_of t st1 -> keeps_committing t st1 (record_committed m w st1)).
  { intros st1 w Hm1 [Hi Hw]. split; [split; [by eapply record_committed_inv | done] | done]. }
  assert (Hack : forall st1, m ∈ saved_of t st1 -> keeps_committing t st1
    (snd ((match PubSubMsg m with
           | Some p => modify (fun st => record_committed m (queue_Ack p (cs_world st)) st)
           | None => mret tt end : go (cstate W) unit) st1))).
  { intros st1 Hm1. destruct (PubSubMsg m) as [p|]; [by apply Hone | reflexivity]. }
  destruct (KafkaMsg m) as [k|]; [|by apply Hack].
  destruct (negb (has_reader topic)); [reflexivity|].
  destruct (queue_Commit k (cs_world st)) as [[e|] w]; [apply set_world_committing|].
  etransitivity; [by apply (Hone st w) | by apply Hack].
Qed.

Lemma commit_list_step t topic msgs (st : cstate W) :
  (forall m, m ∈ msgs -> m ∈ saved_of t st) -> committing t st ->
  keeps_committing t st (snd (for_each (commit_message has_reader topic) msgs st)).
Proof.
  revert st. induction msgs as [|m msgs IH]; intros st Hm Hc; cbn [for_each]; [reflexivity|].
  rewrite go_bind_run. pose proof (commit_message_step t topic m st (Hm m ltac:(left))) as H1.
  destruct (commit_message has_reader topic m st) as [[[]|e|w] st1]; [|exact H1..]. simpl in H1.
  destruct (H1 Hc) as (Hc1 & Hs1 & _). etransitivity; [exact H1|]. apply IH; [|done].
  intros m' Hm'. rewrite Hs1. apply Hm. by right.
Qed.

Lemma commitOffset_step t topic parts (st : cstate W) :
  parts = foldl record_message ∅ (saved_of t st) -> committing t st ->
  keeps_committing t st (snd (commitOffset iter_parts has_reader topic parts st)).
Proof.
  intros Hp Hc. unfold commitOffset. generalize (iter_parts parts) as ps. intros ps.
  revert st Hp Hc. induction ps as [|p ps IH]; intros st Hp Hc; cbn [for_each]; [reflexivity|].
  rewrite go_bind_run.
  assert (H1 : keeps_committing t st (snd (for_each (commit_message has_reader topic) (default [] (parts !! p)) st))).
  { apply commit_list_step; [|done]. intros m Hm. subst parts. by eapply record_message_members. }
  destruct (for_each _ (default [] (parts !! p)) st) as [[[]|e|w] st1]; [|exact H1..]. simpl in H1.
  destruct (H1 Hc) as (Hc1 & Hs1 & _). etransitivity; [exact H1|]. apply IH; [by rewrite Hs1 | done].
Qed.

Lemma keeps_flush_table cooldown now draws t :
  preserves keeps_inv (flush_table iter_parts has_reader cooldown now draws t : go (cstate W) unit).
Proof.
  intros st Hi. unfold flush_table, gets. rewrite go_bind_run.
  destruct (cs_db st !! t) as [mt|] eqn:Hmt; [|exact Hi].
  destruct (match cooldown with Some c => _ | None => false end); [exact Hi|].
  destruct (mt_TableData mt) as [td|] eqn:Htd; [|exact Hi].
  set (td1 := default td _). rewrite go_bind_run.
  assert (Hp1 : td_PartitionsToLastMessage td1 = td_PartitionsToLastMessage td) by reflexivity.
  set (st1 := snd (put_table t td1 st)).
  assert (Hst1 : st1 = set_db (<[t := SetTableData mt (Some td1)]> (cs_db st)) (set_world (cs_world st) st)).
  { subst st1. unfold put_table, modify. simpl. rewrite Hmt. by destruct st. }
  assert (Hi1 : consumer_inv st1) by (rewrite Hst1; by eapply set_buffer_inv).
  change (put_table t td1 st) with (Ok tt, st1 : cstate W). cbv iota beta.
  assert (Hmt1 : cs_db st1 !! t = Some (SetTableData mt (Some td1))) by (rewrite Hst1; apply lookup_insert_eq).
  clearbody st1.
  rewrite go_bind_run. unfold attempt at 1, write_table.
  set (res := if bool_decide (td_mode td1 = History) then _ else _).
  assert (Hrows : same_rows td1 (snd (fst res))).
  { subst res. case_bool_decide; [apply Append_same_rows | apply Merge_same_rows]. }
  destruct res as [[r td2] w]. simpl in Hrows.
  assert (Hp2 : td_PartitionsToLastMessage td2 = td_PartitionsToLastMessage td1)
    by by apply proj1, (f_equal td_PartitionsToLastMessage) in Hrows.
  set (stw := record_write td1 (is_ok r) w st1). set (st2 := snd (put_table t td2 stw)).
  assert (Hst2 : st2 = set_db (<[t := SetTableData (SetTableData mt (Some td1)) (Some td2)]> (cs_db st1)) stw).
  { subst st2. unfold put_table, modify. simpl. by rewrite Hmt1. }
  assert (Hi2 : consumer_inv st2).
  { rewrite Hst2. apply (set_buffer_inv stw t (SetTableData mt (Some td1)) td1 td2 w); [done..|].
    by apply record_write_inv. }
  assert (Hmt2 : cs_db st2 !! t = Some (SetTableData (SetTableData mt (Some td1)) (Some td2)))
    by (rewrite Hst2; apply lookup_insert_eq).
  clearbody st2. destruct r as [[]|e|p]; [|exact Hi2..].
  rewrite go_bind_run. unfold modify at 1. cbv iota beta. set (st3 := record_written t st2).
  assert (Hi3 : consumer_inv st3) by by apply record_written_inv.
  assert (Hc3 : committing t st3) by (split; [done | intros m Hm; simpl; apply elem_of_app; by right]).
  rewrite go_bind_run. unfold buffer_of, gets. cbv iota beta.
  change (cs_db st3) with (cs_db st2). rewrite Hmt2. simpl.
  rewrite go_bind_run. unfold attempt at 1.
  assert (Hparts : td_PartitionsToLastMessage td2 = foldl record_message ∅ (saved_of t st3)).
  { rewrite <- (ci_messages st3 Hi3 t). unfold buffered_messages. change (cs_db st3) with (cs_db st2).
    by rewrite Hmt2. }
  pose proof (commitOffset_step t (tc_Topic (td_TopicConfig td2)) _ st3 Hparts Hc3 Hc3) as (Hc4 & Hs4 & Hd4).
  destruct (commitOffset iter_parts has_reader _ _ st3) as [[[]|e|p] st4]; simpl in Hc4, Hs4, Hd4; [|apply Hc4..].
  unfold clear_table, ClearTableConfig. rewrite Hd4. change (cs_db st3) with (cs_db st2). rewrite Hmt2. simpl.
  replace (cs_db st2) with (cs_db st4) by done. destruct Hc4 as [Hi4 Hw4].
  eapply clear_inv; [|done..]. by rewrite Hd4.
Qed.

#[local] Hint Resolve keeps_flush_table : preserve.

Lemma keeps_Flush specific cooldown now draws :
  preserves keeps_inv (Flush iter_parts iter_tables has_reader specific cooldown now draws : go (cstate W) unit).
Proof. unfold Flush. preserve. Qed.

Lemma keeps_save_event cfg tc msg evt :
  preserves keeps_inv (save_event iter cfg tc msg evt : go (cstate W) _).
Proof.
  intros st Hi. unfold save_event.
  destruct (Save cfg (cs_db st) (Some tc) msg _ _ evt) as [[[db e'] fl]|e|w] eqn:HS; [|exact Hi..].
  destruct (Save_effect _ _ _ _ _ _ _ _ _ _ HS) as [Hne Hmt]. by apply record_saved_inv.
Qed.

#[local] Hint Resolve keeps_Flush keeps_save_event : preserve.

Lemma keeps_act cfg formats a :
  preserves keeps_inv (act iter iter_parts iter_tables has_reader cfg formats a : go (cstate W) unit).
Proof. unfold act, consume, process. preserve. Qed.

Lemma empty_inv w : consumer_inv (mkCState (W := W) NewMemoryDB w ∅ [] [] [] []).
Proof.
  split; unfold buffered_messages, saved_of; simpl.
  - intros t. by rewrite !lookup_empty.
  - intros t _. by rewrite lookup_empty.
  - intros t m Hin. by apply not_elem_of_nil in Hin.
  - intros t m Hin. rewrite lookup_empty in Hin. by apply not_elem_of_nil in Hin.
  - intros m Hin. by apply not_elem_of_nil in Hin.
Qed.

Lemma keeps_run_actions cfg formats l :
  preserves keeps_inv (run_actions iter iter_parts iter_tables has_reader cfg formats l : go (cstate W) unit).
Proof. apply preserves_for_each; [apply _|]. intros a _. apply keeps_act. Qed.

(** C8. At least once: in any run of the consumer, whatever fails, a message is
    committed or acknowledged only once it, and every message saved in its
    table before it, is part of a write that the destination reported as
    successful. *)
Theorem commit_after_write cfg formats l w :
  let st := snd (run_actions iter iter_parts iter_tables has_reader cfg formats l
                   (mkCState NewMemoryDB w ∅ [] [] [] [])) in
  Forall (commit_covered st) (cs_committed st).
Proof.
  cbv zeta. apply Forall_forall. intros m Hm.
  pose proof (keeps_run_actions cfg formats l (mkCState NewMemoryDB w ∅ [] [] [] []) (empty_inv w)) as Hi.
  by apply (ci_committed _ Hi).
Qed.

(** Nothing saved is forgotten: in any run, every message saved in a
    table is part of a successful write or still among the messages the
    table's buffer stands for, and a table without a buffer has none. *)
Theorem saved_not_lost cfg formats l w :
  let st := snd (run_actions iter iter_parts iter_tables has_reader cfg formats l
                   (mkCState NewMemoryDB w ∅ [] [] [] [])) in
  forall t m, (t, m) ∈ cs_all st ->
    m ∈ cs_written st \/ (m ∈ saved_of t st /\ exists mt td, cs_db st !! t = Some mt /\ mt_TableData mt = Some td).
Proof.
  cbv zeta.
  pose proof (keeps_run_actions cfg formats l (mkCState NewMemoryDB w ∅ [] [] [] []) (empty_inv w)) as Hi.
  set (st := snd _) in *. intros t m Hin. destruct (ci_all _ Hi t m Hin) as [Hw | Hs]; [by left|].
  right. split; [done|]. pose proof (ci_empty _ Hi t) as He.
  destruct (cs_db st !! t) as [mt|]; [|by rewrite He in Hs; [apply not_elem_of_nil in Hs|]].
  destruct (mt_TableData mt) as [td|] eqn:Htd; [by exists mt, td|].
  simpl in He. by rewrite He in Hs; [apply not_elem_of_nil in Hs|].
Qed.
End AtLeastOnce.

(** * Example runs *)

Section ExampleRuns.
#[local] Instance run_std : GoStd := plain_std.

(** A destination that accepts every write *)
#[local] Instance accepting : Baseline unit := {
  base_Merge := fun td w => (Ok tt, td, w);
  base_Append := fun td w => (Ok tt, td, w);
  queue_Commit := fun _ w => (None, w);
  queue_Ack := fun _ w => w
}.
#[local] Instance accepting_laws : BaselineLaws unit.
Proof. by split. Qed.

(** A routed topic: the first byte of a message selects its table, and the
    first byte of its key is the primary key. *)
Definition routed_format : Format := mkFormat ["routed"]
  (fun key _ => Ok {[ "id" := VInt KInt (hd 0 key) ]})
  (fun _ value => Ok (mkCdcEvent zero_time "c" false (if hd 0 value =? 1 then "a" else "b")
     (fun _ pk _ => <[DeleteColumnMarker := VBool false]> pk) ∅ None)).

Definition routed_message (offset table pk : Z) : Message :=
  NewMessage (Some (mkKafkaMessage "events" 0 offset 0 [pk] [table] zero_time)) None EmptyString.
Definition routed_topic : TopicConfig :=
  TopicConfig_Load (mkTopicConfig "db" EmptyString "public" "events" EmptyString "routed" JSONKeyFmt
                      false false EmptyString false false None None).
Definition keys_of {A} (m : gmap string A) : list string := map fst (map_to_list m).
Definition two_rows_config : Config :=
  mkConfig Replication Snowflake Kafka 10 100 1 None None (mkSettings [] false) false None None None None None.
Definition offsets (l : list Message) : list Z := omap (fun m => km_Offset <$> KafkaMsg m) l.

Definition routed_run (l : list action) : cstate unit :=
  snd (run_actions keys_of keys_of keys_of (fun _ => true) two_rows_config {[ "events" := (routed_topic, routed_format) ]}
         l (mkCState NewMemoryDB tt ∅ [] [] [] [])).

Definition consumed (offset table pk : Z) : action := Consume zero_time [] (routed_message offset table pk).

Lemma commit_after_write_witness :
  let st := routed_run [consumed 1 2 1; consumed 2 2 2] in
  Forall (commit_covered st) (cs_committed st) /\ offsets (cs_committed st) = [2].
Proof.
  split; [|vm_compute; reflexivity].
  apply (commit_after_write (H := accepting) (BaselineLaws0 := accepting_laws) (H0 := plain_std) keys_of keys_of keys_of
           (fun _ => true) two_rows_config {[ "events" := (routed_topic, routed_format) ]}
           [consumed 1 2 1; consumed 2 2 2] tt).
Defined.

Lemma saved_not_lost_witness :
  let st := routed_run [consumed 1 1 1] in
  routed_message 1 1 1 ∈ cs_written st \/ (routed_message 1 1 1 ∈ saved_of "a" st /\
    exists mt td, cs_db st !! "a" = Some mt /\ mt_TableData mt = Some td).
Proof.
  apply (saved_not_lost (H := accepting) (BaselineLaws0 := accepting_laws) (H0 := plain_std) keys_of keys_of keys_of
           (fun _ => true) two_rows_config {[ "events" := (routed_topic, routed_format) ]} [consumed 1 1 1] tt "a").
  vm_compute. left.
Defined.

(** The guarantee is per table, not per partition: when one topic feeds
    several tables, flushing one commits an offset above a message that is
    only buffered for another.  Here offset 3 is committed and offset 1, of
    the same partition, is in no write: a restart resumes after it. *)
Theorem routed_topic_commits_past_unwritten :
  let st := routed_run [consumed 1 1 1; consumed 2 2 1; consumed 3 2 2] in
  map (fun '(t, m) => (t, offsets [m])) (cs_all st) = [("a", [1]); ("b", [2]); ("b", [3])] /\
  offsets (cs_written st) = [2; 3] /\ offsets (cs_committed st) = [3] /\ offsets (saved_of "a" st) = [1].
Proof. vm_compute. repeat split. Qed.
End ExampleRuns.
