(* ===== verification/Telemetry.v ===== *)
(** Telemetry: [lib/telemetry/metrics] (the Datadog client, its settings), what
    [lib/artie/message.go] and [processes/consumer] report, of a message
    and of a flush.  The
    statsd client and the YAML package are parameters. *)
From Stdlib Require Import SpecFloat.
From S2P Require Import Prelude GoLang Constants StringUtil Decimal Values Typing Columns Kafkalib Config.
From S2P Require Import TableData Event Effects TableConfig Warehouse Shared Consumer.
Local Open Scope string_scope.
Local Open Scope list_scope.
Local Open Scope Z_scope.

(** * Metrics *)

(** The tags of a metric, a [map[string]string] *)
Notation tags := (gmap string string).

(** What is asked of a [base.Client] *)
Inductive metric :=
| Timing (name : string) (value : Z) (t : tags)
| Incr (name : string) (t : tags)
| Count (name : string) (value : Z) (t : tags)
| Gauge (name : string) (value : Z) (t : tags)
| GaugeWithSample (name : string) (value : Z) (t : tags) (sample : spec_float).

(** What the statsd client is asked to send *)
Record statsd_call := mkStatsd { sd_metric : metric; sd_tags : list string; sd_rate : spec_float }.

(** * Datadog *)

Definition sf_one : spec_float := S754_finite false 4503599627370496 (-52).
Definition sf_half : spec_float := S754_finite false 4503599627370496 (-53).
Definition sf_zero : spec_float := S754_zero false.

Definition Tags : string := "tags".
Definition Sampling : string := "sampling".
Definition DefaultSampleRate : spec_float := sf_one.
Definition Namespace : string := "namespace".
Definition DefaultNamespace : string := "transfer.".
Definition DatadogAddr : string := "addr".
Definition DefaultAddr : string := "127.0.0.1:8125".

(** Third-party code: the YAML package, on lists of strings, and statsd *)
Class TelemetryLib := {
  yaml_Marshal : value -> option string;
  yaml_Unmarshal_strings : string -> option (list string);
  statsd_New : string -> result unit
}.

Section Datadog.
Context `{GoStd} `{TelemetryLib}.

Definition getSampleRate (val : value) : spec_float :=
  match parse_Float (Sprint val) with
  | None => DefaultSampleRate
  | Some floatVal =>
      if SFltb sf_one floatVal || SFleb floatVal sf_zero then DefaultSampleRate else floatVal
  end.

Definition getTags (v : value) : list string :=
  match v with
  | VNil => []
  | _ => match yaml_Marshal v with
         | None => []
         | Some yamlBytes => default [] (yaml_Unmarshal_strings yamlBytes)
         end
  end.

(** [order]: the tags in the order of the iteration *)
Definition toDatadogTags (order : list (string * string)) : list string :=
  map (fun kv => fst kv +:+ ":" +:+ snd kv) order.

Record statsClient := mkStatsClient {
  client_Addr : string;
  client_Namespace : string;
  client_Tags : list string;
  client_rate : spec_float
}.

(** [getenv]: the environment *)
Definition NewDatadogClient (getenv : string -> string) (settings : row) : result statsClient :=
  let address := Sprint (GetKeyFromMap settings DatadogAddr (VString DefaultAddr)) in
  let host := getenv "TELEMETRY_HOST" in
  let port := getenv "TELEMETRY_PORT" in
  let address := if negb (Empty [host; port]) then host +:+ ":" +:+ port else address in
  statsd_New address ;;
  Ok (mkStatsClient address
        (Sprint (GetKeyFromMap settings Namespace (VString DefaultNamespace)))
        (getTags (GetKeyFromMap settings Tags (VStrings [])))
        (getSampleRate (GetKeyFromMap settings Sampling (VInt KInt 1)))).

(** The methods of the client: every metric with the client's rate, but for the
    gauge that brings its own *)
Definition send (order : tags -> list (string * string)) (s : statsClient) (m : metric) : statsd_call :=
  match m with
  | Timing _ _ t | Incr _ t | Count _ _ t | Gauge _ _ t => mkStatsd m (toDatadogTags (order t)) (client_rate s)
  | GaugeWithSample _ _ t sample => mkStatsd m (toDatadogTags (order t)) sample
  end.

(** ** The exporter *)

Definition ExporterKind : Type := string.
Definition Datadog : ExporterKind := "datadog".
Definition supportedExporterKinds : list ExporterKind := [Datadog].

Fixpoint exporterKindValid_in (kinds : list ExporterKind) (kind : ExporterKind) (valid : bool) : bool :=
  match kinds with
  | [] => valid
  | k :: kinds => let valid := String.eqb kind k in if valid then valid else exporterKindValid_in kinds kind valid
  end.
Definition exporterKindValid (kind : ExporterKind) : bool := exporterKindValid_in supportedExporterKinds kind false.

(** The provider that sends nothing, or the Datadog client *)
Inductive exporter := NullMetricsProvider | DatadogExporter (s : statsClient).

Definition LoadExporter (getenv : string -> string) (kind : ExporterKind) (ddSettings : row) : exporter :=
  if String.eqb kind Datadog then
    match NewDatadogClient getenv ddSettings with
    | Ok statsClient => DatadogExporter statsClient
    | _ => NullMetricsProvider
    end
  else NullMetricsProvider.

Definition emit (order : tags -> list (string * string)) (e : exporter) (m : metric) : list statsd_call :=
  match e with NullMetricsProvider => [] | DatadogExporter s => [send order s m] end.
End Datadog.

(** * What is reported of a message *)

Definition message_tags (m : Message) (mode : Mode) (groupID table : string) : tags :=
  <["partition" := Message_Partition m]> (<["table" := table]> (<["topic" := Message_Topic m]>
    (<["groupID" := groupID]> {[ "mode" := Mode_String mode ]}))).

Definition EmitRowLag (m : Message) (mode : Mode) (groupID table : string) : option metric :=
  match row_lag m with
  | None => None
  | Some lag => Some (GaugeWithSample "row.lag" lag (message_tags m mode groupID table) sf_half)
  end.

Definition EmitIngestionLag (now : Z) (m : Message) (mode : Mode) (groupID table : string) : metric :=
  Timing "ingestion.lag" (wrap64 (now - t_ns (PublishTime m))) (message_tags m mode groupID table).

Section ProcessTags.
Context {W : Type} `{Baseline W} `{GoStd}.
Context (iter : row -> list string) (iter_parts : gmap string (list Message) -> list string)
        (iter_tables : DatabaseData -> list string) (has_reader : string -> bool).

(** The tags [process] reports its duration with; the report is deferred, so
    that it is made on every path. *)
Definition process_tags (cfg : Config) (formats : TcFmtMap) (groupID : string) (now : gotime) (draws : list nat)
    (msg : Message) (st : cstate W) : tags :=
  let tags := <["what" := "success"]> (<["topic" := Message_Topic msg]> (<["groupID" := groupID]>
                {[ "mode" := Mode_String (cfg_Mode cfg) ]})) in
  match formats !! Message_Topic msg with
  | None => <["what" := "failed_topic_lookup"]> tags
  | Some (tc, fmt) =>
      let tags := <["schema" := tc_Schema tc]> (<["database" := tc_Database tc]> tags) in
      match GetPrimaryKey fmt (Message_Key msg) tc with
      | Err _ => <["what" := "marshall_pk_err"]> tags
      | Panic _ => tags
      | Ok pkMap =>
          match GetEventFromBytes fmt (TypingSettings cfg) (Message_Value msg) with
          | Err _ => <["what" := "marshall_value_err"]> tags
          | Panic _ => tags
          | Ok event =>
              let evt := ToMemoryEvent event now pkMap (iter pkMap) tc (cfg_Mode cfg) in
              let tags := <["table" := e_Table evt]> (<["op" := Operation event]> tags) in
              match TopicConfig_ShouldSkip tc (Operation event) with
              | Ok true => <["skipped" := "yes"]> tags
              | Ok false =>
                  match save_event iter cfg tc msg evt st with
                  | (Err _, _) => <["what" := "save_fail"]> tags
                  | (Panic _, _) => tags
                  | (Ok flush, st1) =>
                      if flush.1 : bool then
                        match Flush iter_parts iter_tables has_reader (e_Table evt) None now draws st1 with
                        | (Err _, _) => <["what" := "flush_fail"]> tags
                        | _ => tags
                        end
                      else tags
                  end
              | _ => tags
              end
          end
      end
  end.

(** The report of [process] is truthful: it says success exactly when the
    message was processed, skipped by its operation or ended in a panic, never
    when an error is returned. *)
Theorem process_tags_truthful cfg formats groupID now draws msg (st : cstate W) :
  process_tags cfg formats groupID now draws msg st !! "what" = Some "success" <->
  is_err (fst (process iter iter_parts iter_tables has_reader cfg (Some formats) now draws msg st)) = false.
Proof.
  unfold process_tags, process.
  destruct (formats !! Message_Topic msg) as [[tc fmt]|]; [|by rewrite lookup_insert_eq].
  rewrite !wrap_lift, lift_bind.
  destruct (GetPrimaryKey fmt _ tc) as [pkMap|e|w]; cbn [wrap_err]; [|by rewrite lookup_insert_eq | done].
  rewrite lift_bind.
  destruct (GetEventFromBytes fmt _ _) as [event|e|w]; cbn [wrap_err]; [|by rewrite lookup_insert_eq | done].
  cbv zeta. set (evt := ToMemoryEvent _ _ _ _ _ _). rewrite lift_bind. unfold TopicConfig_ShouldSkip.
  destruct (tc_opsToSkipMap tc) as [ops|]; [|done]. destruct (bool_decide (Operation event ∈ ops)); [done|].
  rewrite go_bind_run. unfold wrap_go at 1.
  destruct (save_event iter cfg tc msg evt st) as [[flush|e|w] st1]; cbn [wrap_err]; [|by rewrite lookup_insert_eq | done].
  rewrite go_bind_run. destruct flush.1; [|done].
  destruct (Flush iter_parts iter_tables has_reader (e_Table evt) None now draws st1) as [[[]|e|w] st2];
    [done | by rewrite lookup_insert_eq | done].
Qed.
End ProcessTags.

(** * What is reported of a flush *)

Section FlushReport.
Context {W : Type} `{Baseline W} `{GoStd}.
Context (iter_parts : gmap string (list Message) -> list string) (has_reader : string -> bool).
(** [dest.IsRetryableError] *)
Context (IsRetryableError : error -> bool).

Definition flush_tags (t reason : string) (td : TableData) : tags :=
  <["what" := "success"]> (<["mode" := Mode_String (td_mode td)]> (<["table" := t]>
    (<["database" := tc_Database (td_TopicConfig td)]> (<["schema" := tc_Schema (td_TopicConfig td)]>
    {[ "reason" := reason ]})))).

(** The flush of one table, with the tags its duration is reported with; a flush
    that returns early reports nothing. *)
Definition flush_table_report (reason : string) (cooldown : option Z) (now : gotime) (draws : list nat) (t : string)
  : go (cstate W) (option tags) :=
  table ← gets (fun st => cs_db st !! t);
  match table with
  | None => mret None
  | Some table =>
      if match cooldown with Some c => ShouldSkipFlush table (t_ns now) c | None => false end then mret None
      else match mt_TableData table with
           | None => mret None
           | Some td =>
               let td := default td (ResetTempTableSuffix (Some td) draws) in
               put_table t td ;;
               let tags := flush_tags t reason td in
               r ← attempt (write_table t td);
               match r with
               | Ok _ =>
                   modify (record_written t) ;;
                   td ← buffer_of t;
                   match td with
                   | None => mret (Some tags)
                   | Some td =>
                       c ← attempt (commitOffset iter_parts has_reader (tc_Topic (td_TopicConfig td)) (td_PartitionsToLastMessage td));
                       match c with
                       | Ok _ => clear_table t now ;; mret (Some tags)
                       | _ => mret (Some (<["what" := "commit_fail"]> tags))
                       end
                   end
               | Err err =>
                   mret (Some (<["retryable" := if IsRetryableError err then "true" else "false"]>
                                (<["what" := "merge_fail"]> tags)))
               | Panic _ => mret (Some tags)
               end
           end
  end.

(** Reporting changes nothing: the state and the outcome are those of the flush. *)
Lemma flush_table_report_state reason cooldown now draws t (st : cstate W) :
  flush_table iter_parts has_reader cooldown now draws t st =
  match flush_table_report reason cooldown now draws t st with
  | (Ok _, st') => (Ok tt, st')
  | (Err e, st') => (Err e, st')
  | (Panic w, st') => (Panic w, st')
  end.
Proof.
  unfold flush_table, flush_table_report, gets. rewrite !go_bind_run. destruct (cs_db st !! t) as [mt|]; [|done].
  destruct (match cooldown with Some c => _ | None => false end); [done|].
  destruct (mt_TableData mt) as [td|]; [|done]. rewrite !go_bind_run.
  change (put_table t ?x st) with (Ok tt, snd (put_table t x st)).
  set (td1 := default td _). change (put_table t td1 st) with (Ok tt, snd (put_table t td1 st)). cbv iota beta zeta.
  rewrite !go_bind_run. unfold attempt. destruct (write_table t td1 _) as [[[]|e|w] st2]; [|done..].
  rewrite !go_bind_run. unfold modify, buffer_of, gets. rewrite !go_bind_run.
  destruct (cs_db _ !! t ≫= mt_TableData) as [td2|]; [|done]. rewrite !go_bind_run.
  destruct (commitOffset _ _ _ _ _) as [[[]|e|w] st3]; [|done..]. rewrite !go_bind_run.
  by destruct (clear_table t now st3) as [[[]|e|w] st4].
Qed.

(** Committing touches neither the buffers nor what was saved and written. *)
Definition keeps_buffers (st st' : cstate W) : Prop :=
  cs_db st' = cs_db st /\ cs_saved st' = cs_saved st /\ cs_written st' = cs_written st.
#[local] Instance keeps_buffers_preorder : PreOrder keeps_buffers.
Proof. split; [done | intros a b c (?&?&?) (?&?&?); split_and!; congruence]. Qed.

Lemma keeps_buffers_commit topic parts :
  preserves keeps_buffers (commitOffset iter_parts has_reader topic parts : go (cstate W) unit).
Proof. unfold commitOffset, commit_message. preserve; intros st; [by destruct (queue_Commit _ _) as [[e|] w] | done]. Qed.

Lemma put_table_run t td mt (st : cstate W) :
  cs_db st !! t = Some mt ->
  put_table t td st = (Ok tt, set_db (<[t := SetTableData mt (Some td)]> (cs_db st)) st).
Proof. intros Hmt. unfold put_table, modify. by rewrite Hmt. Qed.

(** The report of a flush is truthful: success means that the table was written
    and has no buffer left, a failed commit that it was written and is still
    buffered, a failed merge that nothing was recorded as written or
    committed. *)
Theorem flush_report_truthful reason cooldown now draws t (st st' : cstate W) tags :
  flush_table_report reason cooldown now draws t st = (Ok (Some tags), st') ->
  match tags !! "what" with
  | Some what =>
      (what = "success" /\ (cs_db st' !! t ≫= mt_TableData) = None /\ saved_of t st ⊆ cs_written st') \/
      (what = "commit_fail" /\ is_Some (cs_db st' !! t ≫= mt_TableData) /\ saved_of t st ⊆ cs_written st') \/
      (what = "merge_fail" /\ cs_written st' = cs_written st /\ cs_committed st' = cs_committed st)
  | None => False
  end.
Proof.
  unfold flush_table_report, gets. rewrite go_bind_run. destruct (cs_db st !! t) as [mt|] eqn:Hmt; [|done].
  destruct (match cooldown with Some c => _ | None => false end); [done|].
  destruct (mt_TableData mt) as [td|]; [|done]. set (td1 := default td _). rewrite go_bind_run, (put_table_run t td1 mt) by done.
  cbv iota beta zeta. rewrite go_bind_run. unfold attempt at 1, write_table.
  set (st1 := set_db _ st). set (res := if bool_decide _ then _ else _). destruct res as [[r td2] w].
  rewrite (put_table_run t td2 (SetTableData mt (Some td1)) (record_write td1 (is_ok r) w st1)) by apply lookup_insert_eq. cbn [snd].
  set (st2 := set_db _ (record_write _ _ w st1)).
  assert (Hmt2 : cs_db st2 !! t = Some (SetTableData mt (Some td2))) by apply lookup_insert_eq.
  destruct r as [[]|e|why]; [| |done].
  2: { unfold mret, go_ret. intros [= <- <-]. rewrite lookup_insert_ne, lookup_insert_eq by done. by right; right. }
  rewrite go_bind_run. unfold modify. cbv iota beta. set (st3 := record_written t st2).
  assert (Hmt3 : cs_db st3 !! t = Some (SetTableData mt (Some td2))) by exact Hmt2.
  assert (Hw3 : saved_of t st ⊆ cs_written st3) by (intros m Hm; apply elem_of_app; by right).
  rewrite go_bind_run. unfold buffer_of, gets. cbv beta iota. rewrite Hmt3. simpl. rewrite go_bind_run. unfold attempt.
  pose proof (keeps_buffers_commit (tc_Topic (td_TopicConfig td2)) (td_PartitionsToLastMessage td2) st3) as (Hd & Hs & Hw).
  destruct (commitOffset _ _ _ _ st3) as [[[]|e|why] st4]; cbn [snd] in Hd, Hs, Hw; [| |done].
  - rewrite go_bind_run. unfold clear_table, ClearTableConfig. rewrite Hd, Hmt3. unfold mret, go_ret. intros [= <- <-].
    unfold flush_tags. rewrite lookup_insert_eq. left. simpl. rewrite lookup_insert_eq, Hw. done.
  - unfold mret, go_ret. intros [= <- <-]. rewrite lookup_insert_eq. right; left. rewrite Hd, Hmt3, Hw. simpl. split; [done|]. by split.
Qed.
End FlushReport.

(** * Lemmas *)

Lemma exporterKindValid_spec kind : exporterKindValid kind = true <-> kind = Datadog.
Proof. unfold exporterKindValid. simpl. destruct (String.eqb_spec kind Datadog); naive_solver. Qed.

Lemma compare_flip (k m : positive) :
  (match Pos.compare_cont Eq k m with Lt => true | _ => false end) = false ->
  (match Pos.compare_cont Eq m k with Gt => false | _ => true end) = true.
Proof.
  pose proof (Pos.compare_antisym m k) as Ha. unfold Pos.compare in Ha. rewrite Ha. by destruct (Pos.compare_cont Eq m k).
Qed.

(** A finite float that is not greater than one is at most one. *)
Lemma not_above_one m e : SFltb sf_one (S754_finite false m e) = false -> SFleb (S754_finite false m e) sf_one = true.
Proof.
  unfold SFltb, SFleb, SFcompare, sf_one. generalize 4503599627370496%positive as k. intros k.
  rewrite (Z.compare_antisym (-52) e). destruct (Z.compare (-52) e); [apply compare_flip | done | done].
Qed.

Section Rates.
Context `{GoStd}.

(** A sample rate is in (0, 1], whatever the settings hold, unless they spell
    out that it is not a number: both comparisons of the check are false of
    NaN, which is then the rate. *)
Theorem getSampleRate_range val :
  let rate := getSampleRate val in
  (rate = S754_nan /\ parse_Float (Sprint val) = Some S754_nan) \/
  (SFltb sf_zero rate = true /\ SFleb rate sf_one = true).
Proof.
  cbv zeta. unfold getSampleRate. destruct (parse_Float (Sprint val)) as [f|]; [|by right].
  destruct (SFltb sf_one f || SFleb f sf_zero) eqn:Hout; [by right|].
  apply orb_false_iff in Hout as [H1 H2]. destruct f as [s | s | | s m e]; [done | by destruct s | by left | right].
  destruct s; [done|]. split; [reflexivity | by apply not_above_one].
Qed.
End Rates.
