(* ===== verification/Drain.v ===== *)
(** What the consumer achieves, beside what it never does ([Consumer]): once the
    destination and the queue accept, one round of flushes writes and commits
    everything that was saved; and a message is skipped only for one of the
    reasons the code names. *)
From S2P Require Import Prelude GoLang Constants StringUtil Decimal Values Typing Columns Kafkalib Config.
From S2P Require Import TableData Event Effects TableConfig Warehouse Shared Consumer.
Local Open Scope string_scope.
Local Open Scope list_scope.
Local Open Scope Z_scope.

(** * Acceptance *)

(** From the worlds in [good] on, every write and every commit succeeds. *)
Record Accepting {W} `{Baseline W} (good : W -> Prop) : Prop := mkAccepting {
  acc_Merge : forall td w, good w -> fst (fst (base_Merge td w)) = Ok tt /\ good (snd (base_Merge td w));
  acc_Append : forall td w, good w -> fst (fst (base_Append td w)) = Ok tt /\ good (snd (base_Append td w));
  acc_Commit : forall k w, good w -> fst (queue_Commit k w) = None /\ good (snd (queue_Commit k w));
  acc_Ack : forall p w, good w -> good (queue_Ack p w)
}.

(** A Kafka message can be committed only through the reader of its topic. *)
Definition ready (has_reader : string -> bool) (topic : string) (m : Message) : Prop :=
  has_reader topic = true \/ KafkaMsg m = None.

Definition readable (has_reader : string -> bool) (td : TableData) : Prop :=
  forall p m, m ∈ default [] (td_PartitionsToLastMessage td !! p) -> ready has_reader (tc_Topic (td_TopicConfig td)) m.

(** A message of one of the two queues *)
Definition queue_message (m : Message) : Prop := Message_Kind m <> MKInvalid.

(** A timer does not skip the table: its cool-down has passed. *)
Definition due (cooldown : option Z) (now : gotime) (mt : ModelTable) : Prop :=
  match cooldown with Some c => ShouldSkipFlush mt (t_ns now) c = false | None => True end.

(** A table the timer can flush: it is due, and its messages can be committed. *)
Definition flushable (has_reader : string -> bool) (cooldown : option Z) (now : gotime) (mt : ModelTable) : Prop :=
  due cooldown now mt /\ forall td, mt_TableData mt = Some td -> readable has_reader td.

(** The tables a flush goes through are those of the database, each once. *)
Definition covers (iter_tables : DatabaseData -> list string) : Prop :=
  forall db, iter_tables db ≡ₚ map fst (map_to_list db).

Definition covers_parts (iter_parts : gmap string (list Message) -> list string) : Prop :=
  forall parts, iter_parts parts ≡ₚ map fst (map_to_list parts).

(** * Committing *)

Section Commit.
Context {W : Type} `{Baseline W} (has_reader : string -> bool) (good : W -> Prop) (Hacc : Accepting good).

(** Only the world and the commits of a state have moved on. *)
Definition only_commits (st st' : cstate W) : Prop :=
  cs_db st' = cs_db st /\ cs_saved st' = cs_saved st /\ cs_all st' = cs_all st /\ cs_written st' = cs_written st /\
  cs_committed st ⊆ cs_committed st'.

#[global] Instance only_commits_preorder : PreOrder only_commits.
Proof.
  split; [intros st; by split_and! | intros a b c (?&?&?&?&?) (?&?&?&?&?); split_and!; try congruence].
  by etransitivity.
Qed.

Lemma only_commits_record m w (st : cstate W) : only_commits st (record_committed m w st).
Proof. split_and!; try done. simpl. intros x Hx. apply elem_of_app. by left. Qed.

Lemma commit_message_accepted topic m (st : cstate W) :
  good (cs_world st) -> ready has_reader topic m ->
  exists st', commit_message has_reader topic m st = (Ok tt, st') /\ only_commits st st' /\ good (cs_world st') /\
    (queue_message m -> m ∈ cs_committed st').
Proof.
  intros Hg Hready. unfold commit_message, queue_message, Message_Kind.
  destruct (KafkaMsg m) as [k|] eqn:Hk.
  - destruct Hready as [-> | Hn]; [|by rewrite Hk in Hn]. cbn [negb].
    rewrite go_bind_run. destruct (acc_Commit _ Hacc k (cs_world st) Hg) as [Hc Hg'].
    destruct (queue_Commit k (cs_world st)) as [[e|] w]; [done|].
    pose proof (only_commits_record m w st) as H1.
    assert (Hm : m ∈ cs_committed (record_committed m w st)) by (simpl; apply elem_of_app; right; by left).
    destruct (PubSubMsg m) as [p|]; unfold modify; eexists; (split; [reflexivity|]); [|done].
    split; [etransitivity; [exact H1 | apply only_commits_record]|]. split; [by apply (acc_Ack _ Hacc)|].
    intros _. simpl. apply elem_of_app. right. by left.
  - destruct (PubSubMsg m) as [p|]; unfold modify; eexists; (split; [reflexivity|]).
    + split; [apply only_commits_record|]. split; [by apply (acc_Ack _ Hacc)|].
      intros _. simpl. apply elem_of_app. right. by left.
    + split; [reflexivity | done].
Qed.

Lemma commit_messages_accepted topic msgs (st : cstate W) :
  good (cs_world st) -> (forall m, m ∈ msgs -> ready has_reader topic m) ->
  exists st', for_each (commit_message has_reader topic) msgs st = (Ok tt, st') /\ only_commits st st' /\
    good (cs_world st') /\ forall m, m ∈ msgs -> queue_message m -> m ∈ cs_committed st'.
Proof.
  revert st. induction msgs as [|m msgs IH]; intros st Hg Hready; cbn [for_each].
  { exists st. split_and!; [done..|]. intros m Hm. by apply not_elem_of_nil in Hm. }
  destruct (commit_message_accepted topic m st Hg (Hready m ltac:(left))) as (st1 & Hrun & Honly & Hg1 & Hm).
  rewrite go_bind_run, Hrun. destruct (IH st1 Hg1 ltac:(intros x Hx; apply Hready; by right)) as (st2 & Hrun2 & Honly2 & Hg2 & Hms).
  exists st2. split; [done|]. split; [by etransitivity|]. split; [done|]. intros m' [->|Hm']%elem_of_cons Hq; [|by apply Hms].
  apply (proj2 (proj2 (proj2 (proj2 Honly2)))). by apply Hm.
Qed.

Variable iter_parts : gmap string (list Message) -> list string.
Hypothesis Hparts : covers_parts iter_parts.

Lemma commitOffset_accepted topic parts (st : cstate W) :
  good (cs_world st) -> (forall p m, m ∈ default [] (parts !! p) -> ready has_reader topic m) ->
  exists st', commitOffset iter_parts has_reader topic parts st = (Ok tt, st') /\ only_commits st st' /\
    good (cs_world st') /\ forall p m, m ∈ default [] (parts !! p) -> queue_message m -> m ∈ cs_committed st'.
Proof.
  intros Hg Hready. unfold commitOffset.
  assert (Hall : forall p, is_Some (parts !! p) -> p ∈ iter_parts parts).
  { intros p [l Hl]. rewrite (Hparts parts : _ ≡ₚ _). apply list_elem_of_fmap. exists (p, l). split; [done|]. by apply elem_of_map_to_list. }
  assert (Hgen : forall ps, exists st', for_each (fun p => for_each (commit_message has_reader topic) (default [] (parts !! p))) ps st
      = (Ok tt, st') /\ only_commits st st' /\
      good (cs_world st') /\ forall p m, p ∈ ps -> m ∈ default [] (parts !! p) -> queue_message m -> m ∈ cs_committed st').
  { clear Hall. intros ps. revert st Hg. induction ps as [|p ps IH]; intros st Hg; cbn [for_each].
    { exists st. split_and!; [done..|]. intros p m Hp. by apply not_elem_of_nil in Hp. }
    destruct (commit_messages_accepted topic (default [] (parts !! p)) st Hg (Hready p)) as (st1 & Hrun & Honly & Hg1 & Hm).
    rewrite go_bind_run, Hrun. destruct (IH st1 Hg1) as (st2 & Hrun2 & Honly2 & Hg2 & Hms).
    exists st2. split; [done|]. split; [by etransitivity|]. split; [done|].
    intros p' m [->|Hp]%elem_of_cons Hin Hq; [|by eapply Hms].
    apply (proj2 (proj2 (proj2 (proj2 Honly2)))). by apply Hm. }
  destruct (Hgen (iter_parts parts)) as (st' & Hrun & Honly & Hg' & Hm). exists st'. split; [done|]. split; [done|]. split; [done|].
  intros p m Hin. apply (Hm p); [|done]. apply Hall. destruct (parts !! p); [by eexists|].
  by apply not_elem_of_nil in Hin.
Qed.
End Commit.

(** * Draining a table *)

Section Drain.
Context {W : Type} `{Baseline W} `{!BaselineLaws W} `{GoStd}.
Context (iter_parts : gmap string (list Message) -> list string) (iter_tables : DatabaseData -> list string)
        (has_reader : string -> bool).
Context (good : W -> Prop) (Hacc : Accepting good) (Hparts : covers_parts iter_parts) (Htables : covers iter_tables).

(** What one flush of [t] does when the destination accepts: its buffer is
    gone, what it held is written and committed, and nothing else changed. *)
Record drained (t : string) (st st' : cstate W) : Prop := mkDrained {
  dr_good : good (cs_world st');
  dr_empty : (cs_db st' !! t ≫= mt_TableData) = None;
  dr_saved : saved_of t st' = [];
  dr_others : forall t', t' <> t -> cs_db st' !! t' = cs_db st !! t' /\ saved_of t' st' = saved_of t' st;
  dr_all : cs_all st' = cs_all st;
  dr_written : cs_written st ⊆ cs_written st' /\ saved_of t st ⊆ cs_written st';
  dr_committed : cs_committed st ⊆ cs_committed st' /\
    forall p m, m ∈ default [] (foldl record_message ∅ (saved_of t st) !! p) -> queue_message m -> m ∈ cs_committed st'
}.

Lemma write_accepted t td (st : cstate W) mt :
  good (cs_world st) -> cs_db st !! t = Some mt -> consumer_inv st ->
  exists td' w, write_table t td st =
      (Ok tt, set_db (<[t := SetTableData mt (Some td')]> (cs_db st)) (record_write td true w st)) /\
    same_rows td td' /\ good w.
Proof.
  intros Hg Hmt Hi. unfold write_table.
  set (res := if bool_decide (td_mode td = History) then _ else _).
  assert (Hres : (fst (fst res) = Ok tt /\ good (snd res)) /\ same_rows td (snd (fst res))).
  { subst res. case_bool_decide; [split; [by apply (acc_Append _ Hacc) | apply Append_same_rows]
                                 | split; [by apply (acc_Merge _ Hacc) | apply Merge_same_rows]]. }
  destruct res as [[r td'] w]. simpl in Hres. destruct Hres as [[-> Hw] Hrows]. exists td', w. split; [|done].
  unfold put_table, modify. simpl. by rewrite Hmt.
Qed.

Lemma flush_table_accepted cooldown now draws t (st : cstate W) :
  good (cs_world st) -> consumer_inv st ->
  (forall mt, cs_db st !! t = Some mt -> flushable has_reader cooldown now mt) ->
  exists st', flush_table iter_parts has_reader cooldown now draws t st = (Ok tt, st') /\ drained t st st'.
Proof.
  intros Hg Hi Hdue. unfold flush_table, gets. rewrite go_bind_run.
  assert (Hnone : (cs_db st !! t ≫= mt_TableData) = None -> drained t st st).
  { intros Hn. pose proof (ci_empty _ Hi t Hn) as Hs. split; try done.
    - split; [done|]. rewrite Hs. intros m Hm. by apply not_elem_of_nil in Hm.
    - split; [done|]. intros p m Hm. rewrite Hs in Hm. by apply not_elem_of_nil in Hm. }
  destruct (cs_db st !! t) as [mt|] eqn:Hmt; [|exists st; split; [done | by apply Hnone]].
  destruct (Hdue mt eq_refl) as [Hd Hread]. clear Hdue. rename Hd into Hdue. unfold due in Hdue.
  replace (match cooldown with Some c => ShouldSkipFlush mt (t_ns now) c | None => false end) with false
    by (destruct cooldown; [by rewrite Hdue | done]).
  destruct (mt_TableData mt) as [td|] eqn:Htd; [|exists st; split; [done | apply Hnone; by simpl]].
  simpl. rewrite go_bind_run. unfold put_table at 1, modify at 1. rewrite Hmt. cbv iota beta.
  set (td1 := set_temporaryTableSuffix _ td). set (mt1 := SetTableData mt (Some td1)).
  set (st1 := set_db _ st).
  assert (Hmt1 : cs_db st1 !! t = Some mt1) by apply lookup_insert_eq.
  assert (Hi1 : consumer_inv st1).
  { subst st1. replace st with (set_world (cs_world st) st) at 2 by by destruct st.
    by apply (set_buffer_inv st t mt td td1). }
  destruct (write_accepted t td1 st1 mt1 Hg Hmt1 Hi1) as (td2 & w & Hw & Hrows & Hgw).
  rewrite go_bind_run. unfold attempt at 1. rewrite Hw. clear Hw.
  set (st2 := set_db _ (record_write _ _ w st1)). rewrite go_bind_run. unfold modify at 1. cbv iota beta.
  set (st3 := record_written t st2). rewrite go_bind_run. unfold buffer_of, gets.
  assert (Hmt3 : cs_db st3 !! t = Some (SetTableData mt1 (Some td2))) by apply lookup_insert_eq.
  rewrite Hmt3. simpl. rewrite go_bind_run. unfold attempt at 1.
  assert (Hready : readable has_reader td2).
  { intros p m. specialize (Hread td eq_refl p m).
    pose proof (f_equal td_PartitionsToLastMessage (proj1 Hrows)) as Hp. pose proof (f_equal td_TopicConfig (proj1 Hrows)) as Htc.
    simpl in Hp, Htc. by rewrite <- Hp, <- Htc. }
  destruct (commitOffset_accepted has_reader good Hacc iter_parts Hparts (tc_Topic (td_TopicConfig td2))
              (td_PartitionsToLastMessage td2) st3 Hgw Hready) as (st4 & Hc & (Hdb & Hsv & Hal & Hwr & Hcm) & Hg4 & Hcommitted).
  rewrite Hc. unfold clear_table, ClearTableConfig. rewrite Hdb, Hmt3.
  eexists. split; [reflexivity|].
  assert (Hmsgs : td_PartitionsToLastMessage td2 = foldl record_message ∅ (saved_of t st)).
  { apply proj1, (f_equal td_PartitionsToLastMessage) in Hrows. simpl in Hrows. rewrite <- Hrows.
    rewrite <- (ci_messages _ Hi t). unfold buffered_messages. rewrite Hmt. simpl. by rewrite Htd. }
  split; unfold saved_of; simpl.
  - exact Hg4.
  - by rewrite lookup_insert_eq.
  - by rewrite lookup_insert_eq.
  - intros t' Ht. rewrite !lookup_insert_ne, Hsv by done. done.
  - by rewrite Hal.
  - rewrite Hwr. simpl. split; intros m Hm; apply elem_of_app; [by left | by right].
  - split; [exact Hcm|]. intros p m Hm Hq. apply (Hcommitted p); [|done]. by rewrite Hmsgs.
Qed.

Lemma flush_tables_accepted cooldown now draws l : forall (st : cstate W),
  NoDup l -> good (cs_world st) -> consumer_inv st -> (forall t mt, t ∈ l -> cs_db st !! t = Some mt -> flushable has_reader cooldown now mt) ->
  exists st', for_each (flush_table iter_parts has_reader cooldown now draws) l st = (Ok tt, st') /\
    (forall t, t ∈ l -> (cs_db st' !! t ≫= mt_TableData) = None /\ saved_of t st' = []) /\
    (forall t, t ∉ l -> cs_db st' !! t = cs_db st !! t /\ saved_of t st' = saved_of t st) /\
    cs_written st ⊆ cs_written st' /\ cs_committed st ⊆ cs_committed st' /\ cs_all st' = cs_all st /\
    (forall t, t ∈ l -> saved_of t st ⊆ cs_written st') /\
    (forall t p m, t ∈ l -> m ∈ default [] (foldl record_message ∅ (saved_of t st) !! p) -> queue_message m ->
      m ∈ cs_committed st').
Proof.
  induction l as [|t l IH]; intros st Hnd Hg Hi Hdue; cbn [for_each].
  { exists st. split_and!; try done; intros ? *; by intros ?%not_elem_of_nil. }
  apply NoDup_cons in Hnd as [Ht Hnd].
  destruct (flush_table_accepted cooldown now draws t st Hg Hi) as (st1 & Hrun & [D0 D1 D2 D3 D4 [D5 D6] [D7 D8]]).
  { intros mt. apply Hdue. left. }
  pose proof (keeps_flush_table iter_parts has_reader cooldown now draws t st Hi) as Hi1. rewrite Hrun in Hi1.
  rewrite go_bind_run, Hrun.
  assert (Hothers : forall t', t' ∈ l -> cs_db st1 !! t' = cs_db st !! t' /\ saved_of t' st1 = saved_of t' st)
    by (intros t' Ht'; apply D3; intros ->; done).
  destruct (IH st1 Hnd D0 Hi1) as (st2 & Hrun2 & F1 & F2 & F3 & F4 & F5 & F6 & F7).
  { intros t' mt Ht' Hmt. apply (Hdue t'); [by right|]. by rewrite <- (proj1 (Hothers t' Ht')). }
  exists st2. split; [exact Hrun2|]. split_and!.
  - intros t' [->|Ht']%elem_of_cons; [|by apply F1]. destruct (F2 t Ht) as [Hd Hs]. by rewrite Hd, Hs.
  - intros t' Hn. apply not_elem_of_cons in Hn as [Hne Hn]. destruct (F2 t' Hn) as [Hd Hs]. destruct (D3 t' Hne) as [Hd' Hs'].
    by rewrite Hd, Hs.
  - by transitivity (cs_written st1).
  - by transitivity (cs_committed st1).
  - by rewrite F5.
  - intros t' [->|Ht']%elem_of_cons; [by transitivity (cs_written st1)|].
    rewrite <- (proj2 (Hothers t' Ht')). by apply F6.
  - intros t' p m [->|Ht']%elem_of_cons Hm Hq; [apply F4; by eapply D8|].
    rewrite <- (proj2 (Hothers t' Ht')) in Hm. by eapply F7.
Qed.
End Drain.

(** * The last message of a partition *)

Lemma record_message_last l m :
  m ∈ l -> exists pre m' post, l = pre ++ m' :: post /\ (m = m' \/ m ∈ pre) /\
    Message_Partition m' = Message_Partition m /\ m' ∈ default [] (foldl record_message ∅ l !! Message_Partition m).
Proof.
  induction l as [|x l IH] using rev_ind; [by intros ?%not_elem_of_nil|]. intros Hm.
  rewrite foldl_app. cbn [foldl]. set (msgs := foldl record_message ∅ l) in *.
  destruct (decide (Message_Partition x = Message_Partition m)) as [Hx | Hx].
  - exists l, x, []. split; [done|]. split; [|split; [done|]].
    + apply elem_of_app in Hm as [Hm | Hm%list_elem_of_singleton]; auto.
    + unfold record_message. rewrite Hx. case_bool_decide; rewrite lookup_insert_eq; simpl; [by left|].
      apply elem_of_app. right. by left.
  - apply elem_of_app in Hm as [Hm | ->%list_elem_of_singleton]; [|done].
    destruct (IH Hm) as (pre & m' & post & -> & Hpre & Hp & Hin). exists pre, m', (post ++ [x]).
    split; [by rewrite <- app_assoc|]. split; [done|]. split; [done|].
    unfold record_message. case_bool_decide; by rewrite lookup_insert_ne.
Qed.

Lemma itoa_nonempty z : itoa z <> EmptyString.
Proof. intros He. pose proof (signed_digits_itoa z) as Ha. rewrite He in Ha. discriminate Ha. Qed.

(** A partition tells whether a message comes from a queue. *)
Lemma queue_message_partition m : queue_message m <-> Message_Partition m <> EmptyString.
Proof.
  unfold queue_message, Message_Kind, Message_Partition.
  destruct (KafkaMsg m) as [k|]; [split; [intros _; apply itoa_nonempty | done]|].
  by destruct (PubSubMsg m).
Qed.

(** * One round of flushes *)

Section Liveness.
Context {W : Type} `{Baseline W} `{!BaselineLaws W} `{GoStd}.
Context (iter : row -> list string) (iter_parts : gmap string (list Message) -> list string)
        (iter_tables : DatabaseData -> list string) (has_reader : string -> bool).

(** One timer flush of tables that can be flushed succeeds; afterwards no table
    has a buffer, every message ever saved is part of a successful write, and
    for every message that was still buffered a message of its partition at or
    after it is committed. *)
Lemma Flush_drains good cooldown now draws (st : cstate W) :
  Accepting good -> good (cs_world st) -> covers_parts iter_parts -> covers iter_tables -> consumer_inv st ->
  (forall t mt, cs_db st !! t = Some mt -> flushable has_reader cooldown now mt) ->
  exists st', Flush iter_parts iter_tables has_reader EmptyString cooldown now draws st = (Ok tt, st') /\
    (forall t, (cs_db st' !! t ≫= mt_TableData) = None /\ saved_of t st' = []) /\
    (forall t m, (t, m) ∈ cs_all st -> m ∈ cs_written st') /\
    (forall t m, m ∈ saved_of t st -> queue_message m ->
      exists pre m' post, saved_of t st = pre ++ m' :: post /\ (m = m' \/ m ∈ pre) /\
        Message_Partition m' = Message_Partition m /\ m' ∈ cs_committed st').
Proof.
  intros Hacc Hg Hparts Htables Hi Hdue.
  unfold Flush, gets. rewrite go_bind_run. cbn [String.eqb negb andb].
  rewrite forallb_filter_id by (apply forallb_forall; done).
  assert (Hin : forall t, t ∈ iter_tables (cs_db st) <-> is_Some (cs_db st !! t)).
  { intros t. rewrite (Htables (cs_db st) : _ ≡ₚ _), list_elem_of_fmap. split.
    - intros ([t' mt] & -> & Ht%elem_of_map_to_list). by exists mt.
    - intros [mt Ht]. exists (t, mt). split; [done|]. by apply elem_of_map_to_list. }
  destruct (flush_tables_accepted iter_parts has_reader good Hacc Hparts cooldown now draws (iter_tables (cs_db st)) st)
    as (st' & Hrun & F1 & F2 & F3 & F4 & F5 & F6 & F7); [| done | done | eauto |].
  { rewrite (Htables (cs_db st) : _ ≡ₚ _). apply NoDup_fst_map_to_list. }
  assert (Hout : forall t, t ∉ iter_tables (cs_db st) -> cs_db st !! t = None /\ saved_of t st = []).
  { intros t Ht. assert (Hn : cs_db st !! t = None) by (apply eq_None_not_Some; by rewrite <- Hin).
    split; [done|]. apply (ci_empty _ Hi t). by rewrite Hn. }
  exists st'. split; [exact Hrun|]. split_and!.
  - intros t. destruct (decide (t ∈ iter_tables (cs_db st))) as [Ht | Ht]; [by apply F1|].
    destruct (F2 t Ht) as [-> ->]. destruct (Hout t Ht) as [-> ->]. done.
  - intros t m Hm. destruct (ci_all _ Hi t m Hm) as [Hw | Hs]; [by apply F3|].
    destruct (decide (t ∈ iter_tables (cs_db st))) as [Ht | Ht]; [by apply (F6 t Ht)|].
    rewrite (proj2 (Hout t Ht)) in Hs. by apply not_elem_of_nil in Hs.
  - intros t m Hm Hq. destruct (record_message_last _ m Hm) as (pre & m' & post & Heq & Hpre & Hp & Hlast).
    exists pre, m', post. split_and!; try done.
    destruct (decide (t ∈ iter_tables (cs_db st))) as [Ht | Ht];
      [|rewrite (proj2 (Hout t Ht)) in Hm; by apply not_elem_of_nil in Hm].
    apply (F7 t _ m' Ht Hlast). apply queue_message_partition. rewrite Hp. by apply queue_message_partition.
Qed.
End Liveness.

Lemma example_accepts : Accepting (H := accepting) (fun _ => True).
Proof. by split. Qed.

(** * Why a message is skipped *)

Section Skips.
Context {W : Type} `{Baseline W} `{GoStd}.
Context (iter : row -> list string) (iter_parts : gmap string (list Message) -> list string)
        (iter_tables : DatabaseData -> list string) (has_reader : string -> bool).

(** The event a message stands for: its topic is known, its key and its value
    are parsed, and its operation is not skipped. *)
Definition message_event (cfg : Config) (formats : TcFmtMap) (now : gotime) (msg : Message)
  : option (TopicConfig * Event) :=
  match formats !! Message_Topic msg with
  | None => None
  | Some (tc, fmt) =>
      match GetPrimaryKey fmt (Message_Key msg) tc, GetEventFromBytes fmt (TypingSettings cfg) (Message_Value msg) with
      | Ok pkMap, Ok event =>
          match TopicConfig_ShouldSkip tc (Operation event) with
          | Ok false => Some (tc, ToMemoryEvent event now pkMap (iter pkMap) tc (cfg_Mode cfg))
          | _ => None
          end
      | _, _ => None
      end
  end.

(** A Kafka message without a value *)
Definition tombstone (msg : Message) : bool :=
  bool_decide (KafkaMsg msg <> None) && bool_decide (length (Message_Value msg) = 0%nat).

(** The history a flush leaves alone *)
Definition same_saved (st st' : cstate W) : Prop := cs_all st' = cs_all st.
#[local] Instance same_saved_preorder : PreOrder same_saved.
Proof. split; [done | intros a b c H1 H2; unfold same_saved in *; congruence]. Qed.

Lemma same_saved_commit topic parts : preserves same_saved (commitOffset iter_parts has_reader topic parts : go (cstate W) unit).
Proof.
  unfold commitOffset, commit_message. preserve.
  - intros st. by destruct (queue_Commit _ _) as [[e|] w].
  - intros st. done.
Qed.

Lemma same_saved_put_table t td : preserves same_saved (put_table t td : go (cstate W) unit).
Proof. intros st. reflexivity. Qed.

Lemma same_saved_write_table t td : preserves same_saved (write_table t td : go (cstate W) unit).
Proof. intros st. unfold write_table. by destruct (if bool_decide _ then _ else _) as [[r td'] w]. Qed.

Lemma same_saved_clear_table t now : preserves same_saved (clear_table t now : go (cstate W) unit).
Proof. intros st. unfold clear_table. by destruct (ClearTableConfig _ _ _). Qed.

Lemma same_saved_record_written t : preserves same_saved (modify (record_written t) : go (cstate W) unit).
Proof. intros st. reflexivity. Qed.

#[local] Hint Resolve same_saved_commit same_saved_put_table same_saved_write_table same_saved_clear_table
  same_saved_record_written : preserve.

Lemma same_saved_Flush specific cooldown now draws :
  preserves same_saved (Flush iter_parts iter_tables has_reader specific cooldown now draws : go (cstate W) unit).
Proof.
  unfold Flush, flush_table, buffer_of. preserve.
Qed.

(** C10. A message is skipped for a named reason only: it is saved in the table of
    its event, as the next message of the history, unless it is a tombstone,
    its topic is unknown, its key or value does not parse, its operation is
    skipped, or the event does not save; a skipped message changes nothing. *)
Theorem consume_saves cfg formats now draws msg (st : cstate W) :
  let st' := snd (consume iter iter_parts iter_tables has_reader cfg formats now draws msg st) in
  match (if tombstone msg then None else message_event cfg formats now msg) with
  | Some (tc, evt) =>
      match Save cfg (cs_db st) (Some tc) msg (iter (e_PrimaryKeyMap evt)) (iter (e_Data evt)) evt with
      | Ok _ => cs_all st' = cs_all st ++ [(e_Table evt, msg)]
      | _ => st' = st
      end
  | None => st' = st
  end.
Proof.
  cbv zeta. unfold consume. fold (tombstone msg). destruct (tombstone msg); [done|].
  rewrite go_bind_run. unfold attempt, process, message_event.
  destruct (formats !! Message_Topic msg) as [[tc fmt]|]; [|done]. rewrite !wrap_lift, lift_bind.
  destruct (GetPrimaryKey fmt _ tc) as [pkMap|e|w]; cbn [wrap_err]; [|done..]. rewrite lift_bind.
  destruct (GetEventFromBytes fmt _ _) as [event|e|w]; cbn [wrap_err]; [|done..]. cbv zeta. rewrite lift_bind.
  destruct (TopicConfig_ShouldSkip tc (Operation event)) as [[|]|e|w]; [done| |done..].
  set (evt := ToMemoryEvent _ _ _ _ _ _). rewrite go_bind_run. unfold wrap_go, save_event. cbv beta.
  destruct (Save cfg _ _ _ _ _ evt) as [[[db e'] flush]|e|w]; cbn [wrap_err]; [|done..].
  rewrite go_bind_run. set (st1 := record_saved _ _ _).
  set (m := (if flush.1 : bool then Flush iter_parts iter_tables has_reader (e_Table evt) None now draws
             else mret tt) : go (cstate W) unit).
  assert (Hf : cs_all (snd (m st1)) = cs_all st1).
  { subst m. destruct flush.1; [apply same_saved_Flush | done]. }
  clearbody m. destruct (m st1) as [[[]|e|w] st2]; exact Hf.
Qed.
End Skips.
