(* ===== verification/Process.v ===== *)
(** The running process: [processes/consumer/kafka.go], [pubsub.go] and
    [processes/pool].  Readers and subscribers feed the consumer, a ticker
    flushes it; the state machine below interleaves them in every order.  It is
    stated against the interface [Baseline], and instantiated in [Application]. *)
From S2P Require Import Prelude GoLang Constants StringUtil Decimal Values Typing Columns Kafkalib Config.
From S2P Require Import TableData Event Effects TableConfig Warehouse Shared Consumer Drain.
Local Open Scope string_scope.
Local Open Scope list_scope.
Local Open Scope Z_scope.

(** * Topics and their formats *)

Definition TcFmtMap_Add (topic : string) (tcFmt : TopicConfig * Format) (t : TcFmtMap) : TcFmtMap :=
  <[topic := tcFmt]> t.
Definition GetTopicFmt (topic : string) (t : TcFmtMap) : option (TopicConfig * Format) := t !! topic.

(** The loop of [StartConsumer] and [StartSubscriber] over the topics *)
Fixpoint add_topics (validFormats : list Format) (tcFmtMap : TcFmtMap) (tcs : list TopicConfig) : result TcFmtMap :=
  match tcs with
  | [] => Ok tcFmtMap
  | tc :: tcs =>
      fmt ← GetFormatParser validFormats (tc_CDCFormat tc);
      add_topics validFormats (TcFmtMap_Add (tc_Topic tc) (tc, fmt) tcFmtMap) tcs
  end.

(** The last configuration of a topic *)
Definition last_config (topic : string) (tcs : list TopicConfig) : option TopicConfig :=
  last (List.filter (fun tc => String.eqb (tc_Topic tc) topic) tcs).

Lemma last_config_cons topic tc tcs :
  last_config topic (tc :: tcs) =
    match last_config topic tcs with
    | Some tc' => Some tc'
    | None => if String.eqb (tc_Topic tc) topic then Some tc else None
    end.
Proof.
  unfold last_config. cbn [List.filter]. destruct (String.eqb (tc_Topic tc) topic); [|by destruct (last _)].
  by rewrite last_cons.
Qed.

Lemma add_topics_lookup validFormats tcs : forall t0 t topic,
  add_topics validFormats t0 tcs = Ok t ->
  t !! topic = match last_config topic tcs with
               | Some tc => match GetFormatParser validFormats (tc_CDCFormat tc) with
                            | Ok fmt => Some (tc, fmt) | _ => None end
               | None => t0 !! topic
               end.
Proof.
  induction tcs as [|tc tcs IH]; intros t0 t topic; cbn [add_topics]; [by intros [= <-]|].
  destruct (GetFormatParser validFormats (tc_CDCFormat tc)) as [fmt| |] eqn:Hf; [|done..].
  intros Hrec. rewrite (IH _ _ topic Hrec), last_config_cons. destruct (last_config topic tcs); [done|].
  unfold TcFmtMap_Add. destruct (String.eqb_spec (tc_Topic tc) topic) as [<- | Hne].
  - rewrite Hf. apply lookup_insert_eq.
  - by apply lookup_insert_ne.
Qed.

Lemma last_config_topic topic tcs tc : last_config topic tcs = Some tc -> tc_Topic tc = topic /\ tc ∈ tcs.
Proof.
  unfold last_config. intros Hl%last_Some_elem_of. apply list_elem_of_In, filter_In in Hl as [Hin Ht].
  split; [by apply String.eqb_eq | by apply list_elem_of_In].
Qed.

(** A map is built exactly when every topic's format is known. *)
Lemma add_topics_total validFormats tcs : forall t0,
  if forallb (fun tc => is_ok (GetFormatParser validFormats (tc_CDCFormat tc))) tcs
  then exists t, add_topics validFormats t0 tcs = Ok t else exists w, add_topics validFormats t0 tcs = Panic w.
Proof.
  induction tcs as [|tc tcs IH]; intros t0; cbn [add_topics forallb]; [by eexists|].
  unfold GetFormatParser. destruct (find_first _ validFormats) as [fmt|]; simpl; [apply IH|].
  by eexists.
Qed.

(** Entries carry the configuration of their own topic. *)
Definition formats_wf (formats : TcFmtMap) : Prop :=
  forall topic tc fmt, formats !! topic = Some (tc, fmt) -> tc_Topic tc = topic.

Lemma add_topics_wf validFormats tcs t : add_topics validFormats ∅ tcs = Ok t -> formats_wf t.
Proof.
  intros Ha topic tc fmt. rewrite (add_topics_lookup _ _ _ _ topic Ha).
  destruct (last_config topic tcs) as [tc'|] eqn:Hl; [|done].
  destruct (GetFormatParser _ _); [|done..]. intros [= <- _]. by apply last_config_topic in Hl as [-> _].
Qed.

(** * The process *)

(** [TopicToConsumer]: the topics whose reader has been added *)
Definition TopicToConsumer : Type := gset string.
Definition NewTopicToConsumer : TopicToConsumer := ∅.
Definition TopicToConsumer_Add (topic : string) (t : TopicToConsumer) : TopicToConsumer := {[topic]} ∪ t.
(** [Get] returns a nil consumer for other topics. *)
Definition TopicToConsumer_Get (t : TopicToConsumer) (topic : string) : bool := bool_decide (topic ∈ t).

Lemma TopicToConsumer_Add_mono topic topic' (t : TopicToConsumer) : topic' ∈ t -> topic' ∈ TopicToConsumer_Add topic t.
Proof. intros Ht. unfold TopicToConsumer_Add, TopicToConsumer in *. set_solver. Qed.

Lemma TopicToConsumer_Add_self topic (t : TopicToConsumer) : topic ∈ TopicToConsumer_Add topic t.
Proof. unfold TopicToConsumer_Add, TopicToConsumer in *. set_solver. Qed.

Record app (W : Type) := mkApp {
  app_readers : TopicToConsumer;
  app_state : cstate W;
  app_panic : option string
}.
Arguments mkApp {W}.
Arguments app_readers {W}.
Arguments app_state {W}.
Arguments app_panic {W}.

(** What can happen next: a topic's goroutine makes its reader, a fetch
    returns, a subscription delivers or gives up, the ticker ticks.  The last two
    are parts of the others, each under the lock of its table: a message is
    saved and its flush still to come, one goroutine of a flush runs. *)
Inductive happening :=
| ReaderStarts (topic : string)
| Fetched (topic : string) (fetched : result KafkaMessage) (now : gotime) (draws : list nat)
| Delivered (topic : string) (m : PubSubMessage) (now : gotime) (draws : list nat)
| ReceiveFailed (topic : string) (err : error)
| Tick (now : gotime) (draws : list nat)
| Saved (topic : string) (m : Message) (now : gotime)
| FlushedOne (t : string) (cooldown : option Z) (now : gotime) (draws : list nat).

Definition happened_by (T : Z) (h : happening) : Prop :=
  match h with
  | ReaderStarts _ | ReceiveFailed _ _ => True
  | Fetched _ _ now _ | Delivered _ _ now _ | Tick now _ | Saved _ _ now | FlushedOne _ _ now _ => t_ns now <= T
  end.

Section Process.
Context {W : Type} `{Baseline W} `{GoStd}.
Context (iter : row -> list string) (iter_parts : gmap string (list Message) -> list string)
        (iter_tables : DatabaseData -> list string) (cfg : Config) (formats : TcFmtMap).

(** The body of a reader's loop: a failed fetch is logged, and the next one
    tried. *)
Definition kafka_iteration (readers : TopicToConsumer) (fetched : result KafkaMessage) (now : gotime)
    (draws : list nat) : go (cstate W) unit :=
  match fetched with
  | Ok kafkaMsg =>
      consume iter iter_parts iter_tables (TopicToConsumer_Get readers) cfg formats now draws
        (NewMessage (Some kafkaMsg) None (km_Topic kafkaMsg))
  | _ => mret tt
  end.

(** The function a subscription calls with each message *)
Definition receive (readers : TopicToConsumer) (topic : string) (pubsubMsg : PubSubMessage) (now : gotime)
    (draws : list nat) : go (cstate W) unit :=
  attempt (process iter iter_parts iter_tables (TopicToConsumer_Get readers) cfg (Some formats) now draws
             (NewMessage None (Some pubsubMsg) topic)) ;;
  mret tt.

(** [process] up to the flush: the table of the event, and whether to flush it *)
Definition process_save (now : gotime) (msg : Message) : go (cstate W) (string * bool) :=
  match GetTopicFmt (Message_Topic msg) formats with
  | None => lift (errorf ("failed to get topic name: " +:+ Message_Topic msg))
  | Some (tc, fmt) =>
      pkMap ← wrap_go "cannot unmarshall key: " EmptyString (lift (GetPrimaryKey fmt (Message_Key msg) tc));
      event ← wrap_go "cannot unmarshall event: " EmptyString
        (lift (GetEventFromBytes fmt (TypingSettings cfg) (Message_Value msg)));
      let evt := ToMemoryEvent event now pkMap (iter pkMap) tc (cfg_Mode cfg) in
      skip ← lift (TopicConfig_ShouldSkip tc (Operation event));
      if skip : bool then mret (e_Table evt, false)
      else
        flush ← wrap_go "event failed to save: " EmptyString (save_event iter cfg tc msg evt);
        mret (e_Table evt, flush.1)
  end.

(** A message of the topic, on either queue; Kafka's tombstones are skipped. *)
Definition arrives (readers : TopicToConsumer) (topic : string) (msg : Message) : Prop :=
  match cfg_Queue cfg with
  | Kafka => topic ∈ readers /\ exists k, msg = NewMessage (Some k) None topic /\ km_Topic k = topic /\ km_Value k <> []
  | PubSub => exists m, msg = NewMessage None (Some m) topic
  | OtherQueue _ => False
  end.

(** The duration [main] starts the pool with *)
Definition pool_interval : Z := wrap64 (FlushIntervalSeconds cfg * Second).

(** The body of [StartPool]'s loop *)
Definition pool_tick (readers : TopicToConsumer) (now : gotime) (draws : list nat) : go (cstate W) unit :=
  attempt (Flush iter_parts iter_tables (TopicToConsumer_Get readers) EmptyString (Some pool_interval) now draws) ;;
  mret tt.

Definition topic_names : list string :=
  match TopicConfigs cfg with Ok tcs => map tc_Topic tcs | _ => [] end.

(** One goroutine's step; a panic ends the process. *)
Definition run (m : TopicToConsumer -> go (cstate W) unit) (a : app W) : app W :=
  let '(r, st) := m (app_readers a) (app_state a) in
  mkApp (app_readers a) st (match r with Panic w => Some w | _ => None end).

(** A reader fetches messages of its own topic. *)
Inductive step (a : app W) : happening -> app W -> Prop :=
| step_reader topic :
    app_panic a = None -> cfg_Queue cfg = Kafka -> topic ∈ topic_names ->
    step a (ReaderStarts topic) (mkApp (TopicToConsumer_Add topic (app_readers a)) (app_state a) None)
| step_fetch topic fetched now draws :
    app_panic a = None -> cfg_Queue cfg = Kafka -> topic ∈ app_readers a ->
    (forall k, fetched = Ok k -> km_Topic k = topic) ->
    step a (Fetched topic fetched now draws) (run (fun rs => kafka_iteration rs fetched now draws) a)
| step_receive topic m now draws :
    app_panic a = None -> cfg_Queue cfg = PubSub -> topic ∈ topic_names ->
    step a (Delivered topic m now draws) (run (fun rs => receive rs topic m now draws) a)
| step_receive_failed topic err :
    app_panic a = None -> cfg_Queue cfg = PubSub -> topic ∈ topic_names ->
    step a (ReceiveFailed topic err) (mkApp (app_readers a) (app_state a) (Some "Sub receive error"))
| step_tick now draws :
    app_panic a = None -> step a (Tick now draws) (run (fun rs => pool_tick rs now draws) a)
| step_save topic msg now :
    app_panic a = None -> arrives (app_readers a) topic msg ->
    step a (Saved topic msg now) (run (fun _ => attempt (process_save now msg) ;; mret tt) a)
| step_flush t cooldown now draws :
    app_panic a = None ->
    step a (FlushedOne t cooldown now draws)
      (run (fun rs => flush_table iter_parts (TopicToConsumer_Get rs) cooldown now draws t) a).

Definition initial (w : W) : app W := mkApp NewTopicToConsumer (mkCState NewMemoryDB w ∅ [] [] [] []) None.

(** [process] is its first part, and then the flush. *)
Lemma process_parts readers now draws msg (st : cstate W) :
  process iter iter_parts iter_tables (TopicToConsumer_Get readers) cfg (Some formats) now draws msg st =
  match process_save now msg st with
  | (Ok (table, flush), st1) =>
      ((if flush then Flush iter_parts iter_tables (TopicToConsumer_Get readers) table None now draws else mret tt) ;;
       mret table) st1
  | (Err e, st1) => (Err e, st1)
  | (Panic w, st1) => (Panic w, st1)
  end.
Proof.
  unfold process, process_save, GetTopicFmt. destruct (formats !! Message_Topic msg) as [[tc fmt]|]; [|done].
  rewrite !wrap_lift, !lift_bind. destruct (wrap_err _ _ (GetPrimaryKey fmt _ tc)) as [pkMap| |]; [|done..].
  rewrite !lift_bind. destruct (wrap_err _ _ (GetEventFromBytes fmt _ _)) as [event| |]; [|done..].
  cbv zeta. rewrite !lift_bind. destruct (TopicConfig_ShouldSkip tc (Operation event)) as [[|]| |]; [done| |done..].
  rewrite !go_bind_run. by destruct (wrap_go _ _ (save_event _ _ _ _ _) st) as [[flush| |] st1].
Qed.

(** The states the process can be in, with everything it did done by [T] *)
Inductive reachable (T : Z) (w : W) : app W -> Prop :=
| reach_initial : reachable T w (initial w)
| reach_step a h a' : reachable T w a -> step a h a' -> happened_by T h -> reachable T w a'.
End Process.
Arguments Tick now draws.

(** * What the tables hold *)

Section Tables.
Context {W : Type} `{Baseline W} `{!BaselineLaws W} `{GoStd}.
Context (iter : row -> list string) (iter_parts : gmap string (list Message) -> list string)
        (iter_tables : DatabaseData -> list string) (has_reader : string -> bool).
(** What holds of the buffers' topics and of the messages, and the time *)
Context (P : TopicConfig -> Prop) (M : Message -> Prop) (T : Z) (HT : t_ns zero_time <= T).

Record tables_inv (st : cstate W) : Prop := {
  ti_flushed : forall t mt, cs_db st !! t = Some mt -> t_ns (mt_lastFlushTime mt) <= T;
  ti_topic : forall t mt td, cs_db st !! t = Some mt -> mt_TableData mt = Some td -> P (td_TopicConfig td);
  ti_messages : forall t m, (t, m) ∈ cs_all st -> M m
}.

Definition keeps_tables (st st' : cstate W) : Prop := tables_inv st -> tables_inv st'.
#[local] Instance keeps_tables_preorder : PreOrder keeps_tables.
Proof. split; [intros st Hs; exact Hs | intros a b c E1 E2 Ha; auto]. Qed.

Lemma same_tables (st st' : cstate W) : cs_db st' = cs_db st -> cs_all st' = cs_all st -> keeps_tables st st'.
Proof. intros Hd Ha [I1 I2 I3]. split; [rewrite Hd | rewrite Hd | rewrite Ha]; done. Qed.

(** A table is replaced. *)
Lemma insert_tables t mt (st : cstate W) db :
  (forall t', t' <> t -> db !! t' = cs_db st !! t') -> db !! t = Some mt -> t_ns (mt_lastFlushTime mt) <= T ->
  (forall td, mt_TableData mt = Some td -> P (td_TopicConfig td)) -> keeps_tables st (set_db db st).
Proof.
  intros Hne Hmt Hl Htd [I1 I2 I3]. split; simpl; [| |done].
  - intros t' mt'. destruct (decide (t' = t)) as [-> | Ht]; [rewrite Hmt; by intros [= <-] | rewrite Hne by done; apply I1].
  - intros t' mt' td. destruct (decide (t' = t)) as [-> | Ht]; [rewrite Hmt; intros [= <-]; apply Htd|].
    rewrite Hne by done. apply I2.
Qed.

Lemma put_table_tables t td (st : cstate W) :
  P (td_TopicConfig td) -> keeps_tables st (snd (put_table t td st)).
Proof.
  intros HP Hi. unfold put_table, modify. simpl. destruct (cs_db st !! t) as [mt|] eqn:Hmt; [|by destruct st].
  pose proof (ti_flushed _ Hi t mt Hmt) as Hl. revert Hi. apply (insert_tables t (SetTableData mt (Some td))).
  - intros t' Ht. by apply lookup_insert_ne.
  - apply lookup_insert_eq.
  - exact Hl.
  - by intros td' [= <-].
Qed.

Lemma write_table_tables t td (st : cstate W) :
  P (td_TopicConfig td) -> keeps_tables st (snd (write_table t td st)).
Proof.
  intros HP. unfold write_table. set (res := if bool_decide (td_mode td = History) then _ else _).
  assert (Hrows : same_rows td (snd (fst res))).
  { subst res. case_bool_decide; [apply Append_same_rows | apply Merge_same_rows]. }
  destruct res as [[r td'] w]. cbn [fst snd] in *. transitivity (record_write td (is_ok r) w st); [by apply same_tables|].
  apply put_table_tables.
  apply proj1, (f_equal td_TopicConfig) in Hrows. simpl in Hrows. by rewrite <- Hrows.
Qed.

Lemma clear_table_tables t now : t_ns now <= T -> preserves keeps_tables (clear_table t now : go (cstate W) unit).
Proof.
  intros Hnow st. unfold clear_table, ClearTableConfig. destruct (cs_db st !! t) as [mt|] eqn:Hmt; [|reflexivity].
  transitivity (set_db (<[t := Wipe mt now]> (cs_db st)) st); [|by apply same_tables].
  apply (insert_tables t (Wipe mt now)); [| apply lookup_insert_eq | done | done].
  intros t' Ht. by apply lookup_insert_ne.
Qed.

Lemma commit_tables topic parts : preserves keeps_tables (commitOffset iter_parts has_reader topic parts : go (cstate W) unit).
Proof.
  unfold commitOffset, commit_message. preserve.
  - intros st. destruct (queue_Commit _ _) as [[e|] w]; by apply same_tables.
  - intros st. by apply same_tables.
Qed.

Lemma record_written_tables t : preserves keeps_tables (modify (record_written t) : go (cstate W) unit).
Proof. intros st. by apply same_tables. Qed.

#[local] Hint Resolve clear_table_tables commit_tables record_written_tables : preserve.

Lemma flush_table_tables cooldown now draws t :
  t_ns now <= T -> preserves keeps_tables (flush_table iter_parts has_reader cooldown now draws t : go (cstate W) unit).
Proof.
  intros Hnow st Hi. unfold flush_table, gets. rewrite go_bind_run.
  destruct (cs_db st !! t) as [mt|] eqn:Hmt; [|exact Hi].
  destruct (match cooldown with Some c => _ | None => false end); [exact Hi|].
  destruct (mt_TableData mt) as [td|] eqn:Htd; [|exact Hi].
  pose proof (ti_topic _ Hi t mt td Hmt Htd) as HP. set (td1 := default td _).
  change (P (td_TopicConfig td1)) in HP.
  rewrite go_bind_run. pose proof (put_table_tables t td1 st HP Hi) as Hi1.
  change (put_table t td1 st) with (Ok tt, snd (put_table t td1 st)). cbv iota beta.
  set (st1 := snd (put_table t td1 st)) in *. clearbody st1. rewrite go_bind_run. unfold attempt at 1.
  pose proof (write_table_tables t td1 st1 HP Hi1) as Hi2.
  destruct (write_table t td1 st1) as [[[]|e|w] st2]; [|exact Hi2..]. simpl in Hi2.
  match goal with |- tables_inv (snd (?m st2)) => assert (Hk : preserves keeps_tables m) end.
  { unfold buffer_of. preserve. }
  exact (Hk st2 Hi2).
Qed.

Lemma Flush_tables specific cooldown now draws :
  t_ns now <= T ->
  preserves keeps_tables (Flush iter_parts iter_tables has_reader specific cooldown now draws : go (cstate W) unit).
Proof.
  intros Hnow. pose proof (fun t => flush_table_tables cooldown now draws t Hnow) as Hf. unfold Flush. preserve.
Qed.

Lemma save_event_tables cfg tc msg evt :
  P tc -> M msg -> preserves keeps_tables (save_event iter cfg tc msg evt : go (cstate W) _).
Proof.
  intros HP HM st Hi. unfold save_event.
  destruct (Save cfg (cs_db st) (Some tc) msg _ _ evt) as [[[db e'] fl]|e|w] eqn:HS; [|exact Hi..].
  destruct (Save_table _ _ _ _ _ _ _ _ _ _ HS) as (Hne & mt & td & Hmt & Htd & _ & Hl & Htc). simpl.
  assert (Hi1 : tables_inv (set_db db st)).
  { pose proof Hi as Hi0. revert Hi0. apply (insert_tables (e_Table evt) mt); [done | done | |].
    - rewrite Hl. destruct (cs_db st !! e_Table evt) as [mt0|] eqn:Hmt0; [by eapply ti_flushed | done].
    - rewrite Htd. intros td' [= <-]. rewrite Htc. destruct (cs_db st !! e_Table evt) as [mt0|] eqn:Hmt0; [|done].
      simpl. destruct (mt_TableData mt0) as [td0|] eqn:Htd0; [by eapply ti_topic | done]. }
  destruct Hi1 as [I1 I2 I3]. split; [exact I1 | exact I2|]. simpl. intros t m.
  rewrite elem_of_app, list_elem_of_singleton. intros [Hm | [= -> ->]]; [by eapply I3 | done].
Qed.

Lemma process_tables cfg formats now draws msg :
  t_ns now <= T -> M msg -> (forall tc fmt, formats !! Message_Topic msg = Some (tc, fmt) -> P tc) ->
  preserves keeps_tables
    (process iter iter_parts iter_tables has_reader cfg (Some formats) now draws msg : go (cstate W) string).
Proof.
  intros Hnow HM HP. unfold process.
  destruct (formats !! Message_Topic msg) as [[tc fmt]|]; [|preserve]. specialize (HP tc fmt eq_refl).
  pose proof (fun evt => save_event_tables cfg tc msg evt HP HM) as Hsave.
  pose proof (fun s => Flush_tables s None now draws Hnow) as Hflush. preserve.
Qed.
End Tables.

(** * Invariants of the process *)

Section Reachable.
Context {W : Type} `{Baseline W} `{!BaselineLaws W} `{GoStd}.
Context (iter : row -> list string) (iter_parts : gmap string (list Message) -> list string)
        (iter_tables : DatabaseData -> list string) (cfg : Config) (formats : TcFmtMap).
Context (Hformats : formats_wf formats).

(** With Kafka, the topic of a buffer has its reader. *)
Definition has_its_reader (readers : TopicToConsumer) (tc : TopicConfig) : Prop :=
  cfg_Queue cfg = Kafka -> tc_Topic tc ∈ readers.

Definition from_queue (m : Message) : Prop := cfg_Queue cfg = PubSub -> KafkaMsg m = None.

Record app_inv (T : Z) (a : app W) : Prop := {
  ai_consumer : consumer_inv (app_state a);
  ai_tables : tables_inv (has_its_reader (app_readers a)) from_queue T (app_state a)
}.

Lemma tables_inv_mono (P Q : TopicConfig -> Prop) M T (st : cstate W) :
  (forall tc, P tc -> Q tc) -> tables_inv P M T st -> tables_inv Q M T st.
Proof. intros HPQ [I1 I2 I3]. split; eauto. Qed.

(** A delivered message is consumed like a fetched one. *)
Lemma receive_act readers topic m now draws :
  receive iter iter_parts iter_tables cfg formats readers topic m now draws =
  act (W := W) iter iter_parts iter_tables (TopicToConsumer_Get readers) cfg formats
    (Consume now draws (NewMessage None (Some m) topic)).
Proof. reflexivity. Qed.

(** A step's computation keeps both invariants. *)
Definition keeps_app (T : Z) (readers : TopicToConsumer) (m : go (cstate W) unit) : Prop :=
  preserves keeps_inv m /\ preserves (keeps_tables (has_its_reader readers) from_queue T) m.

Lemma run_inv T m a : keeps_app T (app_readers a) (m (app_readers a)) -> app_inv T a -> app_inv T (run m a).
Proof.
  intros [K1 K2] [I1 I2]. unfold run. specialize (K1 (app_state a) I1). specialize (K2 (app_state a) I2).
  destruct (m (app_readers a) (app_state a)) as [r st]. by split.
Qed.

Lemma keeps_app_consume T readers now draws msg :
  t_ns zero_time <= T -> t_ns now <= T -> from_queue msg ->
  (cfg_Queue cfg = Kafka -> Message_Topic msg ∈ readers) ->
  keeps_app T readers (act iter iter_parts iter_tables (TopicToConsumer_Get readers) cfg formats (Consume now draws msg)).
Proof.
  intros HT Hnow HM Hr. split; [apply keeps_act|]. unfold act, consume.
  assert (Hp : preserves (keeps_tables (has_its_reader readers) from_queue T)
    (process iter iter_parts iter_tables (TopicToConsumer_Get readers) cfg (Some formats) now draws msg : go (cstate W) _)).
  { apply process_tables; [done..|]. intros tc fmt Hf Hq. rewrite (Hformats _ _ _ Hf). by apply Hr. }
  pose proof (keeps_tables_preorder (W := W) (has_its_reader readers) from_queue T). preserve.
Qed.

Lemma keeps_app_tick T readers now draws :
  t_ns now <= T -> keeps_app T readers (pool_tick iter_parts iter_tables cfg readers now draws).
Proof.
  intros Hnow. split; [exact (keeps_act iter iter_parts iter_tables _ cfg formats (PoolFlush now draws (pool_interval cfg)))|].
  unfold pool_tick. pose proof (keeps_tables_preorder (W := W) (has_its_reader readers) from_queue T).
  pose proof (Flush_tables iter_parts iter_tables (TopicToConsumer_Get readers) (has_its_reader readers) from_queue T
                EmptyString (Some (pool_interval cfg)) now draws Hnow) as Hf. preserve.
Qed.

Lemma keeps_app_save T readers topic now msg :
  t_ns zero_time <= T -> arrives cfg readers topic msg ->
  keeps_app T readers (attempt (process_save iter cfg formats now msg) ;; mret tt).
Proof.
  intros HT Ha.
  assert (Hmsg : from_queue msg /\ (cfg_Queue cfg = Kafka -> Message_Topic msg ∈ readers)).
  { unfold arrives, from_queue in *. destruct (cfg_Queue cfg); [| |done].
    - destruct Ha as (Ht & k & -> & Hk & _). split; [done|]. intros _. unfold Message_Topic. simpl. by rewrite Hk.
    - by destruct Ha as [m ->]. }
  destruct Hmsg as [HM Hr]. unfold process_save, GetTopicFmt. pose proof (fun tc fmt => Hformats (Message_Topic msg) tc fmt) as Hf.
  destruct (formats !! Message_Topic msg) as [[tc fmt]|].
  2: { split; apply preserves_bind; try apply _; try (apply preserves_attempt; try apply _; apply preserves_lift);
       try (intros; apply preserves_ret); try apply _; apply keeps_tables_preorder. }
  assert (HP : has_its_reader readers tc) by (intros Hq; rewrite (Hf tc fmt eq_refl); by apply Hr).
  split.
  - pose proof (fun evt => keeps_save_event (W := W) iter cfg tc msg evt) as Hs. preserve.
  - pose proof (keeps_tables_preorder (W := W) (has_its_reader readers) from_queue T).
    pose proof (fun evt => save_event_tables (W := W) iter (has_its_reader readers) from_queue T HT cfg tc msg evt HP HM) as Hs. preserve.
Qed.

Lemma step_inv T a h a' :
  t_ns zero_time <= T -> step iter iter_parts iter_tables cfg formats a h a' -> happened_by T h -> app_inv T a -> app_inv T a'.
Proof.
  intros HT Hs Hh Hi.
  destruct Hs as [topic _ _ _ | topic fetched now draws _ Hq Hr Hk | topic m now draws _ Hq _ | topic err _ _ _ | now draws _ | topic msg now _ Ha | t cooldown now draws _].
  - destruct Hi as [I1 I2]. split; [exact I1|]. eapply tables_inv_mono; [|exact I2]. intros tc Htc Hq.
    exact (TopicToConsumer_Add_mono topic _ _ (Htc Hq)).
  - apply run_inv; [|done]. unfold kafka_iteration. destruct fetched as [k|e|w].
    + apply (keeps_app_consume T (app_readers a) now draws (NewMessage (Some k) None (km_Topic k))); [done | done | |].
      * intros Hp. congruence.
      * intros _. unfold Message_Topic. simpl. by rewrite (Hk k eq_refl).
    + split; apply preserves_ret; [apply _ | apply keeps_tables_preorder].
    + split; apply preserves_ret; [apply _ | apply keeps_tables_preorder].
  - apply run_inv; [|done]. rewrite receive_act. apply keeps_app_consume; [done | done | done |]. intros Hk. congruence.
  - destruct Hi as [I1 I2]. by split.
  - apply run_inv; [|done]. by apply keeps_app_tick.
  - apply run_inv; [|done]. by apply (keeps_app_save T (app_readers a) topic).
  - apply run_inv; [|done]. split; [apply keeps_flush_table | by apply flush_table_tables].
Qed.

Lemma reachable_inv T w a :
  t_ns zero_time <= T -> reachable iter iter_parts iter_tables cfg formats T w a -> app_inv T a.
Proof.
  intros HT. induction 1 as [|a h a' _ IH Hs Hh]; [|by eapply step_inv].
  split; [apply empty_inv|]. split; simpl.
  - intros t mt Hmt. discriminate Hmt.
  - intros t mt td Hmt. discriminate Hmt.
  - intros t m Hm. by apply not_elem_of_nil in Hm.
Qed.

(** The queues the process serves *)
Definition supported : Prop := cfg_Queue cfg = Kafka \/ cfg_Queue cfg = PubSub.

Lemma buffers_readable T a t mt td :
  supported -> app_inv T a -> cs_db (app_state a) !! t = Some mt -> mt_TableData mt = Some td ->
  readable (TopicToConsumer_Get (app_readers a)) td.
Proof.
  intros [Hq | Hq] [I1 [_ I2 I3]] Hmt Htd p m Hm.
  - left. apply bool_decide_true. by eapply I2.
  - right. apply (I3 t m); [|done]. apply (ci_saved _ I1).
    assert (Hp : td_PartitionsToLastMessage td = foldl record_message ∅ (saved_of t (app_state a))).
    { rewrite <- (ci_messages _ I1 t). unfold buffered_messages. by rewrite Hmt; simpl; rewrite Htd. }
    rewrite Hp in Hm. by eapply record_message_members.
Qed.

Lemma commit_message_no_panic has_reader topic m (st : cstate W) why :
  ready has_reader topic m -> fst (commit_message has_reader topic m st) <> Panic why.
Proof.
  intros Hr. unfold commit_message. rewrite go_bind_run.
  destruct (KafkaMsg m) as [k|] eqn:Hk; [|by destruct (PubSubMsg m)].
  destruct Hr as [-> | Hn]; [|congruence]. cbn [negb].
  destruct (queue_Commit k (cs_world st)) as [[e|] w]; [done|]. by destruct (PubSubMsg m).
Qed.

Lemma for_each_no_panic {S A} (f : A -> go S unit) l why :
  (forall x st, x ∈ l -> fst (f x st) <> Panic why) -> forall st, fst (for_each f l st) <> Panic why.
Proof.
  induction l as [|x l IH]; intros Hf st; cbn [for_each]; [done|]. rewrite go_bind_run.
  pose proof (Hf x st ltac:(left)) as Hx. destruct (f x st) as [[[]|e|w] st1]; [|done|done].
  apply IH. intros y st' Hy. apply Hf. by right.
Qed.

(** C9. A commit always has a reader: whatever the goroutines did before, in
    whatever order, committing the messages of a table's buffer never
    dereferences the nil consumer of a topic without a reader. *)
Theorem commit_never_panics T w a t mt td st why :
  supported -> t_ns zero_time <= T -> reachable iter iter_parts iter_tables cfg formats T w a ->
  cs_db (app_state a) !! t = Some mt -> mt_TableData mt = Some td ->
  fst (commitOffset iter_parts (TopicToConsumer_Get (app_readers a)) (tc_Topic (td_TopicConfig td))
         (td_PartitionsToLastMessage td) (st : cstate W)) <> Panic why.
Proof.
  intros Hq HT Hr%reachable_inv Hmt Htd; [|done].
  pose proof (buffers_readable T a t mt td Hq Hr Hmt Htd) as Hread.
  apply for_each_no_panic. intros p st1 _. apply for_each_no_panic. intros m st2 Hm.
  apply commit_message_no_panic. by eapply Hread.
Qed.

(** One tick, an interval after everything done so far: its run *)
Lemma pool_tick_drains good T w a now draws :
  Accepting good -> good (cs_world (app_state a)) -> covers_parts iter_parts -> covers iter_tables -> supported -> t_ns zero_time <= T ->
  reachable iter iter_parts iter_tables cfg formats T w a -> T + pool_interval cfg <= t_ns now ->
  exists st', pool_tick iter_parts iter_tables cfg (app_readers a) now draws (app_state a) = (Ok tt, st') /\
    (forall t, (cs_db st' !! t ≫= mt_TableData) = None) /\
    (forall t m, (t, m) ∈ cs_all (app_state a) -> m ∈ cs_written st') /\
    (forall t m, m ∈ saved_of t (app_state a) -> queue_message m ->
      exists pre m' post, saved_of t (app_state a) = pre ++ m' :: post /\ (m = m' \/ m ∈ pre) /\
        Message_Partition m' = Message_Partition m /\ m' ∈ cs_committed st').
Proof.
  intros Hacc Hg Hparts Htables Hq HT Hr Hnow. apply reachable_inv in Hr; [|done].
  destruct (Flush_drains iter_parts iter_tables (TopicToConsumer_Get (app_readers a)) good (Some (pool_interval cfg)) now draws
              (app_state a) Hacc Hg Hparts Htables (ai_consumer _ _ Hr)) as (st' & Hrun & Hempty & Hw & Hc).
  { intros t mt Hmt. split; [|intros td Htd; by eapply buffers_readable].
    pose proof (ti_flushed _ _ _ _ (ai_tables _ _ Hr) t mt Hmt) as Hl. unfold due, ShouldSkipFlush.
    apply Z.ltb_ge. destruct (Z.ltb_spec Minute (pool_interval cfg)) as [Hm | Hm]; [|lia].
    pose proof (Z.div_pos (pool_interval cfg) 4 ltac:(assert (0 < Minute) by done; lia) eq_refl). lia. }
  exists st'. split; [|split; [intros t; apply Hempty | split; [exact Hw | exact Hc]]].
  unfold pool_tick. rewrite go_bind_run. unfold attempt. by rewrite Hrun.
Qed.

(** C6. Everything saved gets out: in any state the process can reach, whatever
    failed before, the first tick at least one interval after everything done
    so far flushes every table when the destination and the queue accept from now on: no
    buffer is left, every message ever saved is part of a successful write,
    and for every message that was still buffered a message of its partition
    at or after it is committed. *)
Theorem Tick_drains good T w a now draws :
  Accepting good -> good (cs_world (app_state a)) -> covers_parts iter_parts -> covers iter_tables -> supported -> t_ns zero_time <= T ->
  reachable iter iter_parts iter_tables cfg formats T w a -> app_panic a = None ->
  T + pool_interval cfg <= t_ns now ->
  exists a', step iter iter_parts iter_tables cfg formats a (Tick now draws) a' /\ app_panic a' = None /\
    (forall t, (cs_db (app_state a') !! t ≫= mt_TableData) = None) /\
    (forall t m, (t, m) ∈ cs_all (app_state a) -> m ∈ cs_written (app_state a')) /\
    (forall t m, m ∈ saved_of t (app_state a) -> queue_message m ->
      exists pre m' post, saved_of t (app_state a) = pre ++ m' :: post /\ (m = m' \/ m ∈ pre) /\
        Message_Partition m' = Message_Partition m /\ m' ∈ cs_committed (app_state a')).
Proof.
  intros Hacc Hg Hparts Htables Hq HT Hr Hpanic Hnow.
  destruct (pool_tick_drains good T w a now draws) as (st' & Hrun & Hst); [done..|].
  eexists. split; [by apply step_tick|]. unfold run. rewrite Hrun. simpl. split; [done | exact Hst].
Qed.
End Reachable.

(** * The ticker and short intervals *)

Section ShortIntervals.
Context {W : Type} `{Baseline W}.

(** With an interval of a minute or less nothing is taken off the cool-down, so
    that a table whose flush ended after a tick's instant, as every flush that
    takes time does, is skipped by the next tick: such a table is flushed by
    the timer every second interval. *)
Theorem short_interval_skips iter_parts has_reader cfg (tick now : gotime) draws t mt (st : cstate W) :
  FlushIntervalSecondsMin <= FlushIntervalSeconds cfg <= 60 ->
  cs_db st !! t = Some mt -> t_ns tick < t_ns (mt_lastFlushTime mt) -> t_ns now = t_ns tick + pool_interval cfg ->
  flush_table iter_parts has_reader (Some (pool_interval cfg)) now draws t st = (Ok tt, st).
Proof.
  unfold FlushIntervalSecondsMin. intros Hi Hmt Hl Hnow. unfold flush_table, gets. rewrite go_bind_run, Hmt.
  assert (Hp : pool_interval cfg = FlushIntervalSeconds cfg * 1000000000).
  { unfold pool_interval. change Second with 1000000000. apply wrap64_id. unfold min_int64, max_int64. lia. }
  replace (ShouldSkipFlush mt (t_ns now) (pool_interval cfg)) with true; [done|].
  unfold ShouldSkipFlush. change Minute with 60000000000.
  replace (60000000000 <? pool_interval cfg) with false by (symmetry; apply Z.ltb_ge; lia).
  symmetry. apply Z.ltb_lt. lia.
Qed.
End ShortIntervals.

(** * An example run *)

Section Example.
#[local] Existing Instance accepting.
#[local] Existing Instance accepting_laws.
#[local] Instance process_std : GoStd := plain_std.

(** Buffers of three rows, a routed topic, a flush every ten seconds *)
Definition process_config : Config :=
  mkConfig Replication Snowflake Kafka 10 100 3 None (Some (mkKafkaConfig "localhost:9092" "group" EmptyString EmptyString
    false [routed_topic])) (mkSettings [] false) false None None None None None.

Definition process_formats : TcFmtMap := {[ "events" := (routed_topic, routed_format) ]}.
Definition kafka_message (offset table pk : Z) : KafkaMessage := mkKafkaMessage "events" 0 offset 0 [pk] [table] zero_time.

(** The reader starts and fetches one message. *)
Definition one_fetched : app unit :=
  run (fun rs => kafka_iteration keys_of keys_of keys_of process_config process_formats rs
                   (Ok (kafka_message 1 1 1)) (mkTime 0 0) [])
    (mkApp (TopicToConsumer_Add "events" NewTopicToConsumer) (app_state (initial tt)) None).

Lemma process_formats_wf : formats_wf process_formats.
Proof. 
  intros topic tc fmt Hf. unfold process_formats, TcFmtMap in Hf.
  apply lookup_singleton_Some in Hf as [<- [= <- <-]]. reflexivity.
Qed.

Lemma one_fetched_reachable : reachable keys_of keys_of keys_of process_config process_formats 0 tt one_fetched.
Proof.
  eapply (reach_step _ _ _ _ _ _ _ _ (Fetched "events" (Ok (kafka_message 1 1 1)) (mkTime 0 0) [])); [|apply step_fetch|].
  - eapply (reach_step _ _ _ _ _ _ _ _ (ReaderStarts "events")); [apply reach_initial | apply step_reader | done].
    + done.
    + done.
    + left.
  - done.
  - done.
  - apply TopicToConsumer_Add_self.
  - by intros k [= <-].
  - simpl. lia.
Qed.

Lemma Tick_drains_witness :
  exists a', step keys_of keys_of keys_of process_config process_formats one_fetched (Tick (mkTime (10 * Second) 0) []) a' /\
    NewMessage (Some (kafka_message 1 1 1)) None "events" ∈ cs_written (app_state a').
Proof.
  destruct (Tick_drains keys_of keys_of keys_of process_config process_formats process_formats_wf (fun _ => True) 0 tt one_fetched
    (mkTime (10 * Second) 0) [] example_accepts I (fun parts => Permutation_refl _) (fun db => Permutation_refl _)
    (or_introl eq_refl) ltac:(vm_compute; discriminate) one_fetched_reachable eq_refl ltac:(vm_compute; discriminate))
    as (a' & Hstep & _ & _ & Hw & _).
  exists a'. split; [exact Hstep|]. apply (Hw "a"). vm_compute. left.
Defined.

Lemma commit_never_panics_witness :
  match cs_db (app_state one_fetched) !! "a" ≫= mt_TableData with
  | Some td => is_panic (fst (commitOffset keys_of (TopicToConsumer_Get (app_readers one_fetched))
                           (tc_Topic (td_TopicConfig td)) (td_PartitionsToLastMessage td) (app_state one_fetched))) = false
  | None => False
  end.
Proof.
  destruct (cs_db (app_state one_fetched) !! "a") as [mt|] eqn:Hmt; [|vm_compute in Hmt; discriminate]. simpl.
  destruct (mt_TableData mt) as [td|] eqn:Htd.
  - pose proof (fun why => commit_never_panics keys_of keys_of keys_of process_config process_formats process_formats_wf 0 tt
      one_fetched "a" mt td (app_state one_fetched) why (or_introl eq_refl) ltac:(vm_compute; discriminate)
      one_fetched_reachable Hmt Htd) as Hno.
    destruct (fst (commitOffset _ _ _ _ _)) as [u|e|w]; [done | done | by destruct (Hno w)].
  - vm_compute in Hmt. injection Hmt as <-. discriminate Htd.
Defined.

Lemma short_interval_skips_witness :
  let st : cstate unit := mkCState {[ "a" := mkModelTable None (mkTime 1 0) ]} tt ∅ [] [] [] [] in
  flush_table keys_of (fun _ => true) (Some (pool_interval process_config)) (mkTime (10 * Second) 0) [] "a" st = (Ok tt, st).
Proof.
  cbv zeta.
  exact (short_interval_skips keys_of (fun _ => true) process_config (mkTime 0 0) (mkTime (10 * Second) 0) [] "a"
    (mkModelTable None (mkTime 1 0)) (mkCState {[ "a" := mkModelTable None (mkTime 1 0) ]} tt ∅ [] [] [] [])
    ltac:(vm_compute; split; discriminate) eq_refl ltac:(reflexivity) eq_refl).
Defined.
End Example.
