(* ===== verification/Changes.v ===== *)
(** Changes: what the process does to one table.  A message that is saved adds a
    change to the buffer of its event's table; a flush hands the buffer of one
    table to the destination and clears it when the write and the commit
    succeeded.  So a property of a table's messages, its buffer and the writes
    made of it holds in every reachable state when it holds at the start and
    these two keep it ([reachable_told]).  [Convergence] and [Histories] are
    instances. *)
From S2P Require Import Prelude GoLang Constants StringUtil Decimal Values Typing Columns Kafkalib Config Retry.
From S2P Require Import TableData Replication Event Effects TableConfig Warehouse Ddl Dml Shared Consumer Drain Process.
Local Open Scope string_scope.
Local Open Scope list_scope.
Local Open Scope Z_scope.

(** * The change a message stands for *)

Section Changes.
Context `{GoStd}.
Context (iter : row -> list string) (cfg : Config) (formats : TcFmtMap).

(** The row [Save] inserts: names normalised, placeholders recognised *)
Definition saved_row (e : Event) : row :=
  foldl (fun d entry => <[norm entry := fst (sanitize_value (snd entry))]> d) ∅ (entries_of (e_Data e) (iter (e_Data e))).

Definition event_change (e : Event) : change string value :=
  mkChange (PrimaryKeyValue e (iter (e_PrimaryKeyMap e))) (saved_row e).

(** The message, processed at some time, is this change of the table [t]. *)
Definition is_change (t : string) (msg : Message) (c : change string value) : Prop :=
  exists now tc e, message_event iter cfg formats now msg = Some (tc, e) /\ e_Table e = t /\ c = event_change e.

Lemma save_entries_row settings schema cols entries :
  snd (save_entries settings schema cols entries) =
  foldl (fun d entry => <[norm entry := fst (sanitize_value (snd entry))]> d) ∅ entries.
Proof.
  unfold save_entries. generalize (∅ : row). revert cols.
  induction entries as [|en entries IH]; intros cols d; cbn [foldl]; [done|].
  rewrite <- (save_entry_data settings schema (cols, d) en : _ = <[_ := _]> d).
  destruct (save_entry settings schema (cols, d) en) as [cols' d']. apply IH.
Qed.

(** ** Buffers *)

Definition buffer_at (db : DatabaseData) (t : string) : option TableData := db !! t ≫= mt_TableData.

(** What holds of the buffer of a table *)
Definition buffer_wf (t : string) (td : TableData) : Prop :=
  td_mode td = cfg_Mode cfg /\ td_name td = t /\ is_Some (td_inMemoryColumns td).

Definition buffers_wf (db : DatabaseData) : Prop := forall t td, buffer_at db t = Some td -> buffer_wf t td.

Definition same_content (td td' : TableData) : Prop := td_rowsData td' = td_rowsData td /\ td_rows td' = td_rows td.

(** The buffer an event is saved in: that of its table, or an empty one *)
Definition continues_buffer (old : option TableData) (td : TableData) : Prop :=
  match old with Some td0 => same_content td0 td | None => td_rowsData td = ∅ /\ td_rows td = [] end.

Lemma event_buffer_continues table tc pks e td :
  (forall td, mt_TableData table = Some td -> buffer_wf (e_Table e) td) ->
  event_buffer cfg table tc pks e = Ok td ->
  td_mode td = cfg_Mode cfg /\ td_name td = e_Table e /\ continues_buffer (mt_TableData table) td.
Proof.
  intros Hwf. unfold event_buffer. destruct (mt_TableData table) as [td0|]; [|by intros [= <-]].
  destruct (Hwf td0 eq_refl) as (H1 & H2 & _). destruct (e_Columns e) as [cols|]; [|by intros [= <-]].
  intros Htd. unfold continues_buffer, same_content.
  rewrite (add_columns_field td_mode _ _ _ (fun _ _ => eq_refl) Htd).
  rewrite (add_columns_field td_name _ _ _ (fun _ _ => eq_refl) Htd).
  rewrite (add_columns_field td_rowsData _ _ _ (fun _ _ => eq_refl) Htd).
  by rewrite (add_columns_field td_rows _ _ _ (fun _ _ => eq_refl) Htd).
Qed.

Lemma InsertRow_fields t pk r del :
  td_mode (InsertRow t pk r del) = td_mode t /\ td_name (InsertRow t pk r del) = td_name t /\
  td_inMemoryColumns (InsertRow t pk r del) = td_inMemoryColumns t.
Proof. unfold InsertRow. case_bool_decide; [done|]. by destruct (td_rowsData t !! pk). Qed.

Lemma InsertRow_content t t' pk r del :
  td_mode t' = td_mode t -> same_content t t' -> same_content (InsertRow t pk r del) (InsertRow t' pk r del).
Proof.
  intros Hm [H1 H2]. unfold InsertRow. rewrite Hm, H1, H2.
  case_bool_decide; [done|]. by destruct (td_rowsData t !! pk).
Qed.

(** A save inserts the event's change in the buffer of the event's table. *)
Lemma Save_inserts db tc msg e db' e' flush :
  buffers_wf db -> Save cfg db (Some tc) msg (iter (e_PrimaryKeyMap e)) (iter (e_Data e)) e = Ok (db', e', flush) ->
  (forall t, t <> e_Table e -> buffer_at db' t = buffer_at db t) /\
  exists td0 td del, buffer_at db' (e_Table e) = Some td /\ buffer_wf (e_Table e) td /\
    td_mode td0 = cfg_Mode cfg /\ continues_buffer (buffer_at db (e_Table e)) td0 /\
    same_content (InsertRow td0 (ch_key (event_change e)) (ch_row (event_change e)) del) td.
Proof.
  intros Hwf HS. destruct (Save_effect _ _ _ _ _ _ _ _ _ _ HS) as (Hne & _).
  split; [intros t Ht; unfold buffer_at; by rewrite Hne|].
  unfold Save in HS. destruct (negb (IsValid e)); [done|]. destruct (GetOrCreateTableData db (e_Table e)) as [table db1] eqn:Hg.
  assert (Htable : mt_TableData table = buffer_at db (e_Table e)).
  { unfold buffer_at, GetOrCreateTableData in *. destruct (db !! e_Table e); by injection Hg as <- <-. }
  destruct (event_buffer cfg table tc (iter (e_PrimaryKeyMap e)) e) as [td0| |] eqn:Htd; simpl in HS; [|done..].
  apply event_buffer_continues in Htd as (Hmode & Hname & Hold); [|intros td Htd0; apply Hwf; congruence].
  destruct (ReadOnlyInMemoryCols td0) as [cols|]; [|done].
  destruct (save_entries _ _ cols _) as [cols' d] eqn:Hd. injection HS as <- _ _.
  apply (f_equal snd) in Hd. rewrite save_entries_row in Hd. simpl in Hd. subst d.
  exists td0. eexists. exists (e_Deleted e). unfold buffer_at at 1. rewrite lookup_insert_eq.
  split; [reflexivity|]. rewrite <- Htable.
  match goal with |- buffer_wf _ (set_progress _ _ (InsertRow ?x ?k ?r ?d)) /\ _ =>
    destruct (InsertRow_fields x k r d) as (E1 & E2 & E3); pose proof (InsertRow_content td0 x k r d eq_refl (conj eq_refl eq_refl)) as E4 end.
  split; [unfold buffer_wf; simpl in *; rewrite E1, E2, E3; eauto|].
  split_and!; [done | done | exact E4].
Qed.
End Changes.

(** * Flushing one table *)

(** What one watches of a buffer: its content, and what a change does to it *)
Record observation (V : Type) := mkObservation {
  ob_content : TableData -> V;
  ob_empty : V;
  ob_put : V -> change string value -> V
}.
Arguments mkObservation {V}.
Arguments ob_content {V}.
Arguments ob_empty {V}.
Arguments ob_put {V}.

(** The content is a matter of the rows, and inserting a row puts a change. *)
Record observed {V} `{GoStd} (cfg : Config) (o : observation V) : Prop := {
  od_content : forall td td', same_content td td' -> ob_content o td' = ob_content o td;
  od_empty : forall td, td_rowsData td = ∅ -> td_rows td = [] -> ob_content o td = ob_empty o;
  od_put : forall td pk r del, td_mode td = cfg_Mode cfg ->
    ob_content o (InsertRow td pk r del) = ob_put o (ob_content o td) (mkChange pk r)
}.

(** The writes of a table, each with whether it reported success *)
Definition writes_of {W V} (o : observation V) (t : string) (st : cstate W) : list (V * bool) :=
  map (fun w => (ob_content o (wr_buffer w), wr_ok w))
    (List.filter (fun w => String.eqb (td_name (wr_buffer w)) t) (cs_writes st)).

(** What a flush does to the buffer and the writes of its table: nothing, a
    write that fails, a write whose commit fails, or both succeed. *)
Inductive table_flush {V} (o : observation V) (v : V) (ws : list (V * bool)) : V -> list (V * bool) -> Prop :=
| flush_nothing : table_flush o v ws v ws
| flush_written ok : table_flush o v ws v (ws ++ [(v, ok)])
| flush_done : table_flush o v ws (ob_empty o) (ws ++ [(v, true)]).

Section Flushes.
Context {W : Type} `{Baseline W} `{!BaselineLaws W} `{GoStd} (cfg : Config) {V : Type} (o : observation V).
Context (Hob : observed cfg o).

Definition content_of (otd : option TableData) : V :=
  match otd with Some td => ob_content o td | None => ob_empty o end.

Notation buffer st t := (buffer_at (cs_db st) t).
Notation content st t := (content_of (buffer st t)).

(** Every write was of a buffer of the configured mode, with its columns: one
    that has rows is not skipped. *)
Definition write_wf (w : write) : Prop :=
  td_mode (wr_buffer w) = cfg_Mode cfg /\ is_Some (td_inMemoryColumns (wr_buffer w)).

(** Only the table [t] changes. *)
Record only (t : string) (st st' : cstate W) : Prop := {
  on_all : cs_all st' = cs_all st;
  on_buffer : forall t', t' <> t -> buffer st' t' = buffer st t';
  on_writes : forall t', t' <> t -> writes_of o t' st' = writes_of o t' st;
  on_wf : Forall write_wf (cs_writes st) -> Forall write_wf (cs_writes st')
}.
#[local] Instance only_preorder t : PreOrder (only t).
Proof.
  split; [done|]. intros a b c [A1 A2 A3 A4] [B1 B2 B3 B4].
  split; [congruence | intros t' Ht; by rewrite B2, A2 | intros t' Ht; by rewrite B3, A3 | auto].
Qed.

(** The queue's side of a flush changes no table. *)
Definition same_tables (st st' : cstate W) : Prop :=
  cs_db st' = cs_db st /\ cs_all st' = cs_all st /\ cs_writes st' = cs_writes st.
#[local] Instance same_tables_preorder : PreOrder same_tables.
Proof. split; [done|]. intros a b c (A1 & A2 & A3) (B1 & B2 & B3). split_and!; congruence. Qed.

Lemma same_tables_only t st st' : same_tables st st' -> only t st st'.
Proof. intros (Hd & Ha & Hw). unfold writes_of. split; rewrite ?Hd, ?Hw; auto. intros t' _. unfold writes_of. by rewrite Hw. Qed.

Lemma commit_same_tables iter_parts has_reader topic parts :
  preserves same_tables (commitOffset iter_parts has_reader topic parts : go (cstate W) unit).
Proof.
  unfold commitOffset, commit_message. preserve.
  - intros st. by destruct (queue_Commit _ _) as [[e|] w].
  - by intros st.
Qed.

Lemma put_table_only t td (st : cstate W) :
  is_Some (cs_db st !! t) -> only t st (snd (put_table t td st)) /\ buffer (snd (put_table t td st)) t = Some td.
Proof.
  intros [mt Hmt]. unfold put_table, modify. simpl. rewrite Hmt. split.
  - split; simpl; [done | | done | done]. intros t' Ht. unfold buffer_at; simpl. by rewrite lookup_insert_ne.
  - unfold buffer_at; simpl. by rewrite lookup_insert_eq.
Qed.

Lemma record_write_writes t td ok w (st : cstate W) :
  td_name td = t -> buffer_wf cfg t td ->
  only t st (record_write td ok w st) /\
  writes_of o t (record_write td ok w st) = writes_of o t st ++ [(ob_content o td, ok)].
Proof.
  intros Ht (Hm & _ & Hc). unfold writes_of; simpl. split.
  - split; simpl; [done | done | | by intros Hf; apply Forall_app; split; [|constructor]].
    intros t' Hne. unfold writes_of; simpl. rewrite List.filter_app. simpl.
    rewrite (proj2 (String.eqb_neq _ _)) by congruence. by rewrite app_nil_r.
  - rewrite List.filter_app, map_app. simpl. rewrite (proj2 (String.eqb_eq _ _) Ht). done.
Qed.

(** A write is recorded, and leaves the content of the buffer. *)
Lemma write_table_only t td (st : cstate W) :
  is_Some (cs_db st !! t) -> buffer_wf cfg t td ->
  let '(r, st') := write_table t td st in
  only t st st' /\ writes_of o t st' = writes_of o t st ++ [(ob_content o td, is_ok r)] /\
  exists td', buffer st' t = Some td' /\ buffer_wf cfg t td' /\ ob_content o td' = ob_content o td.
Proof.
  intros Hmt Hwf. pose proof Hwf as (Hm & Hname & Hcols). unfold write_table. set (res := if bool_decide _ then _ else _).
  assert (Hrows : same_rows td (snd (fst res)))
    by (subst res; case_bool_decide; [apply Append_same_rows | apply Merge_same_rows]).
  destruct res as [[r td'] w]. cbn [fst snd] in Hrows.
  destruct (record_write_writes t td (is_ok r) w st Hname Hwf) as [K1 Hws].
  destruct (put_table_only t td' (record_write td (is_ok r) w st) Hmt) as [K2 Hb].
  split; [etransitivity; [exact K1 | exact K2]|]. split; [exact Hws|].
  exists td'. split; [exact Hb|]. destruct Hrows as [Hrows [Hc _]].
  pose proof (f_equal td_mode Hrows) as E1. pose proof (f_equal td_name Hrows) as E2.
  pose proof (f_equal td_rowsData Hrows) as E3. pose proof (f_equal td_rows Hrows) as E4. simpl in *.
  split; [split_and!; [congruence.. | auto]|]. by apply (od_content _ _ Hob).
Qed.

Lemma clear_table_only t now (st : cstate W) :
  is_Some (buffer st t) ->
  only t st (snd (clear_table t now st)) /\ buffer (snd (clear_table t now st)) t = None /\
  writes_of o t (snd (clear_table t now st)) = writes_of o t st.
Proof.
  unfold clear_table, ClearTableConfig, buffer_at. intros Hb.
  destruct (cs_db st !! t) as [mt|] eqn:Hmt; [|by destruct Hb]. simpl. split_and!; [|by rewrite lookup_insert_eq | done].
  split; simpl; [done | | done | done]. intros t' Ht. unfold buffer_at; simpl. by rewrite lookup_insert_ne.
Qed.

(** The effect of a flush of one table *)
Definition flushed (t : string) (st st' : cstate W) : Prop :=
  only t st st' /\ (forall td, buffer st' t = Some td -> buffer_wf cfg t td) /\
  table_flush o (content st t) (writes_of o t st) (content st' t) (writes_of o t st').

Context (iter_parts : gmap string (list Message) -> list string) (has_reader : string -> bool).

(** What [flush_table] does once its write succeeded: the commit, and the
    clearing when the commit succeeds *)
Definition after_write (now : gotime) (t : string) : go (cstate W) unit :=
  modify (record_written t) ;;
  td ← buffer_of t;
  match td with
  | None => mret tt
  | Some td =>
      c ← attempt (commitOffset iter_parts has_reader (tc_Topic (td_TopicConfig td)) (td_PartitionsToLastMessage td));
      match c with Ok _ => clear_table t now | _ => mret tt end
  end.

Lemma after_write_only now t td (st : cstate W) r st' :
  buffer st t = Some td -> after_write now t st = (r, st') ->
  only t st st' /\ writes_of o t st' = writes_of o t st /\ (buffer st' t = Some td \/ buffer st' t = None).
Proof.
  intros Hb. unfold after_write. rewrite go_bind_run. unfold modify.
  set (st1 := record_written t st). assert (K1 : same_tables st st1) by done.
  change (buffer st t) with (buffer st1 t) in Hb. clearbody st1. cbv iota beta.
  rewrite go_bind_run. change (buffer_of t st1) with (Ok (buffer st1 t), st1). rewrite Hb.
  cbv iota beta. rewrite go_bind_run. unfold attempt at 1.
  pose proof (commit_same_tables iter_parts has_reader (tc_Topic (td_TopicConfig td)) (td_PartitionsToLastMessage td) st1) as K2.
  destruct (commitOffset _ _ _ _ st1) as [c st2]. cbn [snd] in K2. assert (K : same_tables st st2) by by transitivity st1.
  rewrite <- (f_equal (fun db => buffer_at db t) (proj1 K2)) in Hb. clear K1 K2.
  assert (Hws : writes_of o t st2 = writes_of o t st) by (unfold writes_of; by rewrite (proj2 (proj2 K))).
  destruct c as [[]|e|p]; [|intros [= _ <-]; split_and!; [by apply same_tables_only | done | by left]..].
  destruct (clear_table_only t now st2 ltac:(by rewrite Hb)) as (K3 & B3 & P3).
  intros Hrun. rewrite Hrun in *. cbn [snd] in *. split_and!; [| by rewrite P3 |by right].
  etransitivity; [by apply same_tables_only | exact K3].
Qed.

Lemma flush_table_flushed cooldown now draws t (st : cstate W) :
  buffers_wf cfg (cs_db st) -> flushed t st (snd (flush_table iter_parts has_reader cooldown now draws t st)).
Proof.
  intros Hwf. assert (Hsame : flushed t st st) by (split_and!; [done | apply Hwf | constructor]).
  unfold flush_table, gets. rewrite go_bind_run. destruct (cs_db st !! t) as [mt|] eqn:Hmt; [|exact Hsame].
  destruct (match cooldown with Some c => _ | None => false end); [exact Hsame|].
  destruct (mt_TableData mt) as [td|] eqn:Htd; [|exact Hsame].
  assert (Hold : buffer st t = Some td) by (unfold buffer_at; by rewrite Hmt).
  set (td1 := default td _). assert (Hw1 : buffer_wf cfg t td1) by exact (Hwf t td Hold).
  assert (Hc1 : ob_content o td1 = ob_content o td) by by apply (od_content _ _ Hob).
  rewrite go_bind_run. destruct (put_table_only t td1 st ltac:(by eexists)) as [K1 B1].
  change (put_table t td1 st) with (Ok tt, snd (put_table t td1 st)). cbv iota beta.
  assert (Hmt1 : is_Some (cs_db (snd (put_table t td1 st)) !! t))
    by (unfold put_table, modify; simpl; rewrite Hmt, lookup_insert_eq; by eexists).
  assert (Hp1 : writes_of o t (snd (put_table t td1 st)) = writes_of o t st) by done.
  set (st1 := snd (put_table t td1 st)) in *. clearbody st1 td1. rewrite go_bind_run. unfold attempt at 1.
  unfold flushed. rewrite Hold. cbn [content_of]. rewrite <- Hc1, <- Hp1.
  pose proof (write_table_only t td1 st1 Hmt1 Hw1) as Hwr.
  destruct (write_table t td1 st1) as [r st2]. destruct Hwr as (K2 & Hws & (td2 & B2 & Hw2 & Hc2)).
  rewrite <- Hc2 in *. destruct r as [[]|e|p].
  2-3: cbn; split_and!; [by transitivity st1 | by rewrite B2; intros ? [= <-] | rewrite B2, Hws; by constructor].
  change (only t st (snd (after_write now t st2)) /\
    (forall td, buffer (snd (after_write now t st2)) t = Some td -> buffer_wf cfg t td) /\
    table_flush o (ob_content o td2) (writes_of o t st1) (content (snd (after_write now t st2)) t)
      (writes_of o t (snd (after_write now t st2)))).
  destruct (after_write now t st2) as [r st3] eqn:Hrun. apply (after_write_only now t td2) in Hrun as (K3 & P3 & B3); [|done].
  cbn [snd].
  split_and!; [by transitivity st1; [|transitivity st2] | intros td3; destruct B3 as [-> | ->]; by intros [= <-]|].
  rewrite P3, Hws. destruct B3 as [-> | ->]; [by apply flush_written | by apply flush_done].
Qed.
End Flushes.

(** * Every reachable state *)

(** Whatever a save of a message and a flush of a table preserve, a step of the
    process preserves. *)
Section Steps.
Context {W : Type} `{Baseline W} `{GoStd}.
Context (iter : row -> list string) (iter_parts : gmap string (list Message) -> list string)
        (iter_tables : DatabaseData -> list string) (cfg : Config) (formats : TcFmtMap).
Context (K : relation (cstate W)) `{!PreOrder K}.
Context (Hsave : forall now msg, preserves K (process_save iter cfg formats now msg))
        (Hflush : forall has_reader cooldown now draws t,
           preserves K (flush_table iter_parts has_reader cooldown now draws t : go (cstate W) unit)).

Lemma Flush_preserves has_reader specific cooldown now draws :
  preserves K (Flush iter_parts iter_tables has_reader specific cooldown now draws : go (cstate W) unit).
Proof. pose proof (Hflush has_reader cooldown now draws). unfold Flush. preserve. Qed.

Lemma process_preserves readers now draws msg :
  preserves K (process iter iter_parts iter_tables (TopicToConsumer_Get readers) cfg (Some formats) now draws msg).
Proof.
  intros st. rewrite process_parts. pose proof (Hsave now msg st) as Hs.
  destruct (process_save iter cfg formats now msg st) as [[[table flush]|e|w] st1]; [|exact Hs..].
  etransitivity; [exact Hs|].
  match goal with |- K _ (snd (?m st1)) => enough (preserves K m) as Hp by apply Hp end.
  apply preserves_bind; [apply _| |intros; apply preserves_ret, _]. destruct flush; [|apply preserves_ret, _].
  apply Flush_preserves.
Qed.

Lemma pool_tick_preserves readers now draws :
  preserves K (pool_tick iter_parts iter_tables cfg readers now draws : go (cstate W) unit).
Proof. pose proof (fun s c => Flush_preserves (TopicToConsumer_Get readers) s c now draws). unfold pool_tick. preserve. Qed.

Lemma run_preserves (m : TopicToConsumer -> go (cstate W) unit) a :
  preserves K (m (app_readers a)) -> K (app_state a) (app_state (run m a)).
Proof. intros Hm. unfold run. specialize (Hm (app_state a)). by destruct (m (app_readers a) (app_state a)). Qed.

Lemma step_preserves a h a' :
  step iter iter_parts iter_tables cfg formats a h a' -> K (app_state a) (app_state a').
Proof.
  intros Hs. destruct Hs; try reflexivity; apply run_preserves.
  - unfold kafka_iteration, consume. pose proof (process_preserves (app_readers a) now draws). preserve.
  - unfold receive. pose proof (process_preserves (app_readers a) now draws). preserve.
  - apply pool_tick_preserves.
  - pose proof (Hsave now msg). preserve.
  - apply Hflush.
Qed.
End Steps.

(** What a process has reached it has reached later on. *)
Lemma reachable_mono {W} `{Baseline W} `{GoStd} iter iter_parts iter_tables cfg formats T T' (w : W) a :
  T <= T' -> reachable iter iter_parts iter_tables cfg formats T w a -> reachable iter iter_parts iter_tables cfg formats T' w a.
Proof.
  intros HT. induction 1 as [|a h a' _ IH Hs Hh]; [constructor|]. eapply reach_step; [exact IH | exact Hs|].
  destruct h; simpl in *; lia || done.
Qed.

(** Two steps that reach the states of the examples *)
Lemma reader_reachable {W} `{Baseline W} `{GoStd} iter iter_parts iter_tables cfg formats T (w : W) topic a :
  cfg_Queue cfg = Kafka -> topic ∈ topic_names cfg -> app_panic a = None ->
  reachable iter iter_parts iter_tables cfg formats T w a ->
  reachable iter iter_parts iter_tables cfg formats T w
    (mkApp (TopicToConsumer_Add topic (app_readers a)) (app_state a) None).
Proof. intros Hq Ht Hp Ha. eapply reach_step with (h := ReaderStarts topic); [exact Ha | by apply step_reader | done]. Qed.

Lemma fetched_reachable {W} `{Baseline W} `{GoStd} iter iter_parts iter_tables cfg formats T (w : W) k now draws a :
  cfg_Queue cfg = Kafka -> app_panic a = None -> km_Topic k ∈ app_readers a -> t_ns now <= T ->
  reachable iter iter_parts iter_tables cfg formats T w a ->
  reachable iter iter_parts iter_tables cfg formats T w
    (run (fun rs => kafka_iteration iter iter_parts iter_tables cfg formats rs (Ok k) now draws) a).
Proof.
  intros Hq Hp Hk Hnow Ha. eapply reach_step with (h := Fetched (km_Topic k) (Ok k) now draws); [exact Ha | | exact Hnow].
  apply step_fetch; [done.. |]. by intros ? [= <-].
Qed.

(** The messages saved in a table, in order *)
Definition messages_of {W} (t : string) (st : cstate W) : list Message :=
  map snd (List.filter (fun tm => String.eqb (fst tm) t) (cs_all st)).

Section Told.
Context {W : Type} `{Baseline W} `{!BaselineLaws W} `{GoStd}.
Context (iter : row -> list string) (iter_parts : gmap string (list Message) -> list string)
        (iter_tables : DatabaseData -> list string) (cfg : Config) (formats : TcFmtMap).
Context {V : Type} (o : observation V) (Hob : observed cfg o).

(** A property of a table: its messages, its buffer and its writes *)
Context (J : string -> list Message -> V -> list (V * bool) -> Prop).
Context (Jstart : forall t, J t [] (ob_empty o) [])
        (Jflush : forall t ms v ws v' ws', J t ms v ws -> table_flush o v ws v' ws' -> J t ms v' ws')
        (Jsave : forall t ms v ws msg c, J t ms v ws -> is_change iter cfg formats t msg c -> J t (ms ++ [msg]) (ob_put o v c) ws).

Notation content st t := (content_of o (buffer_at (cs_db st) t)).

Record told (st : cstate W) : Prop := {
  to_wf : buffers_wf cfg (cs_db st);
  to_writes : Forall (write_wf cfg) (cs_writes st);
  to_table : forall t, J t (messages_of t st) (content st t) (writes_of o t st)
}.

Definition keeps_told (st st' : cstate W) : Prop := told st -> told st'.
#[local] Instance keeps_told_preorder : PreOrder keeps_told.
Proof. split; [intros st Hs; exact Hs | intros a b c H1 H2 Ha; auto]. Qed.

Lemma flush_table_told has_reader cooldown now draws t :
  preserves keeps_told (flush_table iter_parts has_reader cooldown now draws t : go (cstate W) unit).
Proof.
  intros st [Hwf Hws Ht].
  destruct (flush_table_flushed cfg o Hob iter_parts has_reader cooldown now draws t st Hwf) as ([K1 K2 K3 K4] & Hw & Hf).
  split; [|by apply K4|]; intros t'; unfold messages_of; rewrite ?K1; destruct (decide (t' = t)) as [-> | Hne].
  - exact Hw.
  - rewrite K2 by done. apply Hwf.
  - eapply Jflush; [apply Ht | exact Hf].
  - rewrite K2, K3 by done. apply Ht.
Qed.

Lemma save_event_told tc msg evt :
  is_change iter cfg formats (e_Table evt) msg (event_change iter evt) ->
  preserves keeps_told (save_event iter cfg tc msg evt : go (cstate W) _).
Proof.
  intros Hc st [Hwf Hws Ht]. unfold save_event.
  destruct (Save cfg (cs_db st) (Some tc) msg _ _ evt) as [[[db e'] fl]|e|w] eqn:HS; [|by split..].
  destruct (Save_inserts iter cfg (cs_db st) tc msg evt db e' fl Hwf HS) as (Hne & td0 & td & del & Htd & Hw & Hm & Hold & Hins).
  split; [|exact Hws|]; simpl; intros t; destruct (decide (t = e_Table evt)) as [-> | Hdiff].
  - rewrite Htd. by intros ? [= <-].
  - rewrite Hne by done. apply Hwf.
  - unfold messages_of. simpl. rewrite List.filter_app, map_app. simpl. rewrite String.eqb_refl. simpl. rewrite Htd. simpl.
    rewrite (od_content _ _ Hob _ _ Hins), (od_put _ _ Hob) by done.
    replace (ob_content o td0) with (content st (e_Table evt)); [by apply Jsave|].
    destruct (buffer_at (cs_db st) (e_Table evt)) as [td1|]; simpl in *.
    + symmetry. by apply (od_content _ _ Hob).
    + symmetry. destruct Hold. by apply (od_empty _ _ Hob).
  - unfold messages_of. simpl. rewrite List.filter_app, map_app. simpl. rewrite (proj2 (String.eqb_neq _ _)) by done.
    simpl. rewrite app_nil_r, Hne by done. apply Ht.
Qed.

Lemma process_save_told now msg : preserves keeps_told (process_save iter cfg formats now msg : go (cstate W) _).
Proof.
  unfold process_save, GetTopicFmt.
  pose proof (fun tc e => save_event_told tc msg e) as Hsave. unfold is_change, message_event in Hsave.
  destruct (formats !! Message_Topic msg) as [[tc fmt]|]; [|preserve]. intros st.
  rewrite !wrap_lift, lift_bind. destruct (GetPrimaryKey fmt _ tc) as [pkMap| |]; simpl; [|reflexivity..].
  rewrite lift_bind. destruct (GetEventFromBytes fmt _ _) as [event| |]; simpl; [|reflexivity..].
  rewrite lift_bind. destruct (TopicConfig_ShouldSkip tc (Operation event)) as [[|]| |]; [reflexivity| |reflexivity..].
  match goal with |- keeps_told st (snd (?m st)) => enough (preserves keeps_told m) as Hp by apply Hp end.
  apply preserves_bind; [apply _| |intros; apply preserves_ret, _]. apply preserves_wrap. apply Hsave. eauto 6.
Qed.

Lemma step_told a h a' :
  step iter iter_parts iter_tables cfg formats a h a' -> told (app_state a) -> told (app_state a').
Proof. apply (step_preserves iter iter_parts iter_tables cfg formats keeps_told); [apply process_save_told | apply flush_table_told]. Qed.

(** A property of a table that saves and flushes keep holds in every state the
    process can reach. *)
Lemma reachable_told until w0 a : reachable iter iter_parts iter_tables cfg formats until w0 a -> told (app_state a).
Proof.
  induction 1 as [|a h a' _ IH Hs _]; [|by eapply step_told].
  split; simpl; [intros t td Htd; discriminate Htd | constructor | intros t; apply Jstart].
Qed.
End Told.

Lemma pool_tick_same_saved {W} `{Baseline W} `{!BaselineLaws W} `{GoStd} iter_parts iter_tables cfg readers now draws (st : cstate W) :
  cs_all (snd (pool_tick iter_parts iter_tables cfg readers now draws st)) = cs_all st.
Proof.
  unfold pool_tick. rewrite go_bind_run. unfold attempt.
  pose proof (same_saved_Flush iter_parts iter_tables (TopicToConsumer_Get readers) EmptyString
    (Some (pool_interval cfg)) now draws st) as Hs.
  by destruct (Flush _ _ _ _ _ _ _ st) as [[[]|e|w] st'].
Qed.
