(* ===== verification/Convergence.v ===== *)
(** Convergence: what the destination's tables become in replication mode.  The
    state records every buffer handed to the destination and whether the write
    reported success.  A table to which the successful writes were applied, as
    merges with hard deletes, and any of the failed ones, is the table that the
    saved changes, applied one by one, lead to: however the messages were cut
    into batches and whichever flushes failed.  Nothing is assumed of the
    destination; [SqlMerge] shows what its statements do. *)
From S2P Require Import Prelude GoLang Constants StringUtil Decimal Values Typing Columns Kafkalib Config Retry.
From S2P Require Import TableData Replication Event Effects TableConfig Warehouse Ddl Dml Shared Consumer Drain Process Changes.
Local Open Scope string_scope.
Local Open Scope list_scope.
Local Open Scope Z_scope.

(** What a table may be after its writes: one that reported success was applied,
    one that failed may have been. *)
Inductive applied {K} `{Countable K} {V} `{Replicable V} :
  list (gmap K (gmap string V) * bool) -> gmap K (gmap string V) -> gmap K (gmap string V) -> Prop :=
| applied_nil : forall T, applied [] T T
| applied_write : forall B ok ws T T', applied ws (merge_batch B T) T' -> applied ((B, ok) :: ws) T T'
| applied_lost : forall B ws T T', applied ws T T' -> applied ((B, false) :: ws) T T'.

Section Applied.
Context {K} `{Countable K} {V} `{Replicable V}.
Implicit Types (ws : list (gmap K (gmap string V) * bool)) (T : gmap K (gmap string V)).

Lemma applied_none T T' : applied [] T T' <-> T' = T.
Proof. split; [by inversion 1 | intros ->; constructor]. Qed.

Lemma applied_cons B ok ws T T' :
  applied ((B, ok) :: ws) T T' <-> applied ws (merge_batch B T) T' \/ ok = false /\ applied ws T T'.
Proof.
  split; [inversion 1; auto|]. intros [Ha | [-> Ha]]; by constructor.
Qed.

Lemma applied_snoc ws B ok T T' :
  applied (ws ++ [(B, ok)]) T T' <-> exists T1, applied ws T T1 /\ (T' = merge_batch B T1 \/ ok = false /\ T' = T1).
Proof.
  revert T. induction ws as [|[B' ok'] ws IH]; intros T; simpl.
  - rewrite applied_cons, !applied_none. setoid_rewrite applied_none. naive_solver.
  - rewrite applied_cons, !IH. setoid_rewrite applied_cons. naive_solver.
Qed.
End Applied.

(** * The invariant of the process *)

(** The rows of a buffer *)
Definition buffer_rows (db : DatabaseData) (t : string) : gmap string row :=
  match buffer_at db t with Some td => td_rowsData td | None => ∅ end.

Section Converges.
Context {W : Type} `{Baseline W} `{!BaselineLaws W} `{GoStd}.
Context (iter : row -> list string) (iter_parts : gmap string (list Message) -> list string)
        (iter_tables : DatabaseData -> list string) (cfg : Config) (formats : TcFmtMap) (w0 : W).
Context (Hmode : cfg_Mode cfg <> History).

Notation rows st t := (buffer_rows (cs_db st) t).

(** Of a buffer one watches the rows. *)
Definition replicated : observation (gmap string row) :=
  {| ob_content := td_rowsData; ob_empty := ∅; ob_put := buffer_change |}.

Lemma replicated_observed : observed cfg replicated.
Proof.
  split; simpl.
  - by intros td td' [E _].
  - done.
  - intros td pk r del Hm. apply InsertRow_buffer. congruence.
Qed.

(** The table's history: each saved message is a change, and a table to which
    the writes were applied is, once the buffer is merged too, the replay of
    the changes. *)
Definition replayed (t : string) (ms : list Message) (v : gmap string row) (ws : list (gmap string row * bool)) : Prop :=
  exists l, Forall2 (is_change iter cfg formats t) ms l /\
    (stream_ok ∅ l -> (forall T0 T, applied ws T0 T -> merge_batch v T = replay T0 l) /\ tracks v (last_rows ∅ l)).

Lemma replayed_flush t ms v ws v' ws' :
  replayed t ms v ws -> table_flush replicated v ws v' ws' -> replayed t ms v' ws'.
Proof.
  intros (l & Hl & Hs) Hf. exists l. split; [exact Hl|]. intros Hok. destruct (Hs Hok) as [Hr Htr].
  destruct Hf as [|ok|]; (split; [|first [exact Htr | apply tracks_empty]]); [exact Hr|..];
    intros T0 T (T1 & Ha & HT)%applied_snoc; rewrite <- (Hr _ _ Ha).
  - destruct HT as [-> | [_ ->]]; [apply merge_batch_twice | done].
  - destruct HT as [-> | [? _]]; [|done]. apply merge_batch_empty.
Qed.

Lemma replayed_save t ms v ws msg c :
  replayed t ms v ws -> is_change iter cfg formats t msg c -> replayed t (ms ++ [msg]) (buffer_change v c) ws.
Proof.
  intros (l & Hl & Hs) Hc. exists (l ++ [c]). split; [by apply Forall2_app; [exact Hl | constructor]|].
  intros [Hok [Hcont _]]%stream_ok_app. destruct (Hs Hok) as [Hr Htr].
  destruct (tracks_step _ _ _ Htr Hcont) as [Hb Htr']. rewrite last_rows_app. split; [|exact Htr'].
  intros T0 T Ha. rewrite merge_buffer_change by exact Hb. rewrite replay_app. simpl. by rewrite (Hr _ _ Ha).
Qed.

Lemma reachable_replayed until a :
  reachable iter iter_parts iter_tables cfg formats until w0 a ->
  Forall (write_wf cfg) (cs_writes (app_state a)) /\
  forall t, replayed t (messages_of t (app_state a)) (rows (app_state a) t) (writes_of replicated t (app_state a)).
Proof.
  intros Hr. destruct (reachable_told iter iter_parts iter_tables cfg formats replicated replicated_observed replayed) with until w0 a
    as [_ Hw Ht]; [| exact replayed_flush | exact replayed_save | exact Hr | by split].
  intros t. exists []. split; [constructor|]. intros _. split; [|apply tracks_empty].
  intros T0 T Ha. inversion Ha; subst. apply merge_batch_empty.
Qed.

(** C2. What the destination is given converges to the source.  In replication
    mode, in every state the process can reach, take any table and apply to it
    the writes made of it so far, as merges with hard deletes: all that reported
    success, and any of those that failed.  Merged with the rows still
    buffered, it is the replay of the changes of the messages saved in the
    table, one at a time and in order; without a buffer, it is that replay as
    it is.  No write was of a buffer that a merge skips for lack of columns.
    The changes are what the messages were parsed into, and are assumed to form
    a stream in which a placeholder follows its column. *)
Theorem destination_converges until a t :
  reachable iter iter_parts iter_tables cfg formats until w0 a ->
  Forall (write_wf cfg) (cs_writes (app_state a)) /\
  exists l, Forall2 (is_change iter cfg formats t) (messages_of t (app_state a)) l /\
    (stream_ok ∅ l -> forall T0 T, applied (writes_of replicated t (app_state a)) T0 T ->
       merge_batch (rows (app_state a) t) T = replay T0 l /\
       (buffer_at (cs_db (app_state a)) t = None -> T = replay T0 l)).
Proof.
  intros Hr. destruct (reachable_replayed until a Hr) as [Hw Ht]. split; [exact Hw|].
  destruct (Ht t) as (l & Hl & Hs). exists l. split; [exact Hl|].
  intros Hok T0 T Ha. destruct (Hs Hok) as [Hm _]. specialize (Hm T0 T Ha). split; [exact Hm|]. intros Hn.
  rewrite <- Hm. unfold buffer_rows. by rewrite Hn, merge_batch_empty.
Qed.

(** C3. Once the destination and the queue accept, the tables catch up: at the
    first tick an interval after everything done so far, every table to which
    the successful writes and any of the failed ones were applied, as merges
    with hard deletes, is the replay of the changes of all messages saved in
    it, whatever failed before. *)
Theorem Tick_converges good until a now draws :
  Accepting good -> good (cs_world (app_state a)) -> covers_parts iter_parts -> covers iter_tables -> supported cfg -> formats_wf formats ->
  t_ns zero_time <= until -> reachable iter iter_parts iter_tables cfg formats until w0 a -> app_panic a = None ->
  until + pool_interval cfg <= t_ns now ->
  exists a', step iter iter_parts iter_tables cfg formats a (Tick now draws) a' /\ app_panic a' = None /\
    forall t, exists l, Forall2 (is_change iter cfg formats t) (messages_of t (app_state a)) l /\
      (stream_ok ∅ l -> forall T0 T, applied (writes_of replicated t (app_state a')) T0 T -> T = replay T0 l).
Proof.
  intros Hacc Hg Hparts Htables Hq Hf Hu Hr Hpanic Hnow.
  destruct (pool_tick_drains iter iter_parts iter_tables cfg formats Hf good until w0 a now draws) as (st' & Hrun & Hempty & _);
    [done..|].
  assert (Hstep : step iter iter_parts iter_tables cfg formats a (Tick now draws) (mkApp (app_readers a) st' None)).
  { replace (mkApp (app_readers a) st' None)
      with (run (fun rs => pool_tick iter_parts iter_tables cfg rs now draws) a) by (unfold run; by rewrite Hrun).
    by apply step_tick. }
  exists (mkApp (app_readers a) st' None). split; [exact Hstep|]. split; [done|]. intros t.
  assert (Hr' : reachable iter iter_parts iter_tables cfg formats (Z.max until (t_ns now)) w0 (mkApp (app_readers a) st' None)).
  { eapply reach_step; [eapply reachable_mono; [|exact Hr]; lia | exact Hstep | simpl; lia]. }
  destruct (proj2 (reachable_replayed _ _ Hr') t) as (l & Hl & Hs). exists l. simpl in *. split.
  - pose proof (pool_tick_same_saved iter_parts iter_tables cfg (app_readers a) now draws (app_state a)) as Ha.
    rewrite Hrun in Ha. unfold messages_of in *. by rewrite <- Ha.
  - intros Hok T0 T Ha. destruct (Hs Hok) as [Hm _]. rewrite <- (Hm T0 T Ha).
    unfold buffer_rows, buffer_at. by rewrite Hempty, merge_batch_empty.
Qed.
End Converges.

(** * A destination that fails *)

(** Tables in memory, and what the next merges do: whether one reports success,
    and, when it does not, whether it took effect all the same. *)
Record flaky := mkFlaky { fl_tables : gmap string (gmap string row); fl_outcomes : list (bool * bool) }.

Definition flaky_table (w : flaky) (t : string) : gmap string row := default ∅ (fl_tables w !! t).

Definition flaky_written (td : TableData) (w : flaky) : gmap string (gmap string row) :=
  <[td_name td := merge_batch (td_rowsData td) (flaky_table w (td_name td))]> (fl_tables w).

#[local] Instance flaky_baseline : Baseline flaky := {
  base_Merge td w :=
    let '(success, effect) := match fl_outcomes w with o :: _ => o | [] => (true, true) end in
    let tables := if success || effect then flaky_written td w else fl_tables w in
    (if success : bool then Ok tt else errorf "connection reset", td, mkFlaky tables (drop 1 (fl_outcomes w)));
  base_Append td w := (Ok tt, td, w);
  queue_Commit _ w := (None, w);
  queue_Ack _ w := w
}.

#[local] Instance flaky_laws : BaselineLaws flaky.
Proof. split; intros td w; simpl; [|done]. by destruct (fl_outcomes w) as [|[[] []] l]. Qed.

Section Example.
#[local] Instance convergence_std : GoStd := plain_std.

(** Two rows fill a buffer; the first merge takes effect and reports an error. *)
Definition flaky_config : Config :=
  mkConfig Replication Snowflake Kafka 10 100 1 None (Some (mkKafkaConfig "localhost:9092" "group" EmptyString EmptyString
    false [routed_topic])) (mkSettings [] false) false None None None None None.
Definition flaky_world : flaky := mkFlaky ∅ [(false, true)].

Definition flaky_started : app flaky :=
  mkApp (TopicToConsumer_Add "events" NewTopicToConsumer) (app_state (initial flaky_world)) None.
Definition flaky_fetch (k : KafkaMessage) (a : app flaky) : app flaky :=
  run (fun rs => kafka_iteration keys_of keys_of keys_of flaky_config process_formats rs (Ok k) (mkTime 0 0) []) a.
Definition flaky_app : app flaky :=
  flaky_fetch (kafka_message 3 1 1) (flaky_fetch (kafka_message 2 1 2) (flaky_fetch (kafka_message 1 1 1) flaky_started)).

Lemma flaky_started_reachable : reachable keys_of keys_of keys_of flaky_config process_formats 0 flaky_world flaky_started.
Proof. apply (reader_reachable keys_of keys_of keys_of flaky_config process_formats 0 flaky_world "events" (initial flaky_world)); [done | left | done | apply reach_initial]. Qed.

Lemma flaky_app_reachable : reachable keys_of keys_of keys_of flaky_config process_formats 0 flaky_world flaky_app.
Proof. do 3 (apply fetched_reachable; [done | done | apply TopicToConsumer_Add_self | done|]). apply flaky_started_reachable. Qed.

(** The rows of the example, and the changes its messages are *)
Definition flaky_row (pk : Z) : row := {[ "id" := VInt KInt pk; DeleteColumnMarker := VBool false ]}.
Definition flaky_changes : list (change string value) :=
  [mkChange "id=1" (flaky_row 1); mkChange "id=2" (flaky_row 2); mkChange "id=1" (flaky_row 1)].

Lemma flaky_changes_only l :
  Forall2 (is_change keys_of flaky_config process_formats "a") (messages_of "a" (app_state flaky_app)) l ->
  l = flaky_changes.
Proof.
  assert (Hc : forall o pk c, pk = 1 \/ pk = 2 ->
    is_change keys_of flaky_config process_formats "a" (NewMessage (Some (kafka_message o 1 pk)) None "events") c ->
    c = mkChange ("id=" +:+ itoa pk) (flaky_row pk)).
  { intros o pk c Hpk (now & tc & e & He & _ & ->). unfold message_event in He. vm_compute in He.
    injection He as _ <-. destruct Hpk as [-> | ->]; vm_compute; reflexivity. }
  replace (messages_of "a" (app_state flaky_app))
    with (map (fun '(o, pk) => NewMessage (Some (kafka_message o 1 pk)) None "events") [(1, 1); (2, 2); (3, 1)])
    by (vm_compute; reflexivity).
  cbn [map]. intros Hl. repeat match goal with
    | Hf : Forall2 _ (_ :: _) _ |- _ => apply Forall2_cons_inv_l in Hf as (? & ? & ?%Hc & ? & ->); [subst | auto]
    | Hf : Forall2 _ [] _ |- _ => apply Forall2_nil_inv_l in Hf as ->
    end.
  reflexivity.
Qed.

(** The first write failed but took effect, the second succeeded. *)
Lemma flaky_writes_applied :
  applied (writes_of replicated "a" (app_state flaky_app)) ∅ (flaky_table (cs_world (app_state flaky_app)) "a").
Proof.
  set (B := {[ "id=1" := flaky_row 1; "id=2" := flaky_row 2 ]} : gmap string row).
  replace (writes_of replicated "a" (app_state flaky_app)) with [(B, false); (B, true)] by (vm_compute; reflexivity).
  replace (flaky_table _ "a") with (merge_batch B (merge_batch B ∅)) by (vm_compute; reflexivity).
  do 3 constructor.
Qed.

Lemma destination_converges_witness :
  flaky_table (cs_world (app_state flaky_app)) "a" = replay ∅ flaky_changes /\
  replay ∅ flaky_changes = {[ "id=1" := {[ "id" := VInt KInt 1 ]}; "id=2" := {[ "id" := VInt KInt 2 ]} ]}.
Proof.
  split; [|vm_compute; reflexivity].
  destruct (destination_converges keys_of keys_of keys_of flaky_config process_formats flaky_world ltac:(discriminate)
    0 flaky_app "a" flaky_app_reachable) as (_ & l & Hl & Hs).
  apply flaky_changes_only in Hl as ->.
  apply (Hs ltac:(apply (bool_decide_unpack _); vm_compute; reflexivity) _ _ flaky_writes_applied).
  vm_compute. reflexivity.
Defined.

(** With no failure left the destination accepts; one of the two rows fetched
    first is then still buffered, its failed merge behind it. *)
Definition flaky_calm (w : flaky) : Prop := fl_outcomes w = [].

Lemma flaky_accepts : Accepting flaky_calm.
Proof.
  unfold flaky_calm. split; simpl; [|done..]. intros td w ->. done.
Qed.

Definition flaky_failed : app flaky := flaky_fetch (kafka_message 2 1 2) (flaky_fetch (kafka_message 1 1 1) flaky_started).

Lemma flaky_failed_reachable : reachable keys_of keys_of keys_of flaky_config process_formats 0 flaky_world flaky_failed.
Proof. do 2 (apply fetched_reachable; [done | done | apply TopicToConsumer_Add_self | done|]). apply flaky_started_reachable. Qed.

Lemma Tick_converges_witness :
  is_Some (cs_db (app_state flaky_failed) !! "a" ≫= mt_TableData) /\
  exists a', step keys_of keys_of keys_of flaky_config process_formats flaky_failed (Tick (mkTime (10 * Second) 0) []) a' /\
    exists l, Forall2 (is_change keys_of flaky_config process_formats "a") (messages_of "a" (app_state flaky_failed)) l /\
      (stream_ok ∅ l -> forall T, applied (writes_of replicated "a" (app_state a')) ∅ T -> T = replay ∅ l).
Proof.
  split; [vm_compute; by eexists|].
  destruct (Tick_converges keys_of keys_of keys_of flaky_config process_formats flaky_world ltac:(discriminate)
    flaky_calm 0 flaky_failed (mkTime (10 * Second) 0) [] flaky_accepts) as (a' & Hstep & _ & Ht).
  - vm_compute. reflexivity.
  - exact (fun parts => Permutation_refl _).
  - exact (fun db => Permutation_refl _).
  - left. reflexivity.
  - exact process_formats_wf.
  - vm_compute. discriminate.
  - exact flaky_failed_reachable.
  - vm_compute. reflexivity.
  - vm_compute. discriminate.
  - exists a'. split; [exact Hstep|]. destruct (Ht "a") as (l & Hl & Hs). exists l. split; [exact Hl|].
    intros Hok T Ha. exact (Hs Hok ∅ T Ha).
Defined.
End Example.
