(* ===== verification/Histories.v ===== *)
(** Histories: what the destination's tables become in history mode.  Every
    change is a row of its own, written by an append.  The state records every
    buffer handed to the destination and whether the append reported success.
    A table to which the rows of the successful appends were added, and some of
    those of the failed ones, has every written change at least once, since a
    buffer is written again until its write and its commit succeed; and it has
    nothing else.  Nothing is assumed of the destination. *)
From S2P Require Import Prelude GoLang Constants StringUtil Decimal Values Typing Columns Kafkalib Config Retry.
From S2P Require Import TableData Replication Event Effects TableConfig Warehouse Ddl Dml Shared Consumer Drain Process Changes.
Local Open Scope string_scope.
Local Open Scope list_scope.
Local Open Scope Z_scope.

(** What a table may be after its appends, its rows in no order: one that
    reported success added its rows, one that failed may have added some. *)
Inductive added : list (list row * bool) -> list row -> list row -> Prop :=
| added_none : forall d d', d' ≡ₚ d -> added [] d d'
| added_rows : forall v l ok ws d d', l ⊆+ v -> (ok = true -> l = v) -> added ws (d ++ l) d' -> added ((v, ok) :: ws) d d'.

Lemma added_nil d d' : added [] d d' <-> d' ≡ₚ d.
Proof. split; [by inversion 1 | apply added_none]. Qed.

Lemma added_cons v ok ws d d' :
  added ((v, ok) :: ws) d d' <-> exists l, l ⊆+ v /\ (ok = true -> l = v) /\ added ws (d ++ l) d'.
Proof. split; [inversion 1; eauto|]. intros (l & H1 & H2 & H3). by apply added_rows with l. Qed.

Lemma added_snoc ws v ok d d' :
  added (ws ++ [(v, ok)]) d d' <-> exists d1 l, added ws d d1 /\ l ⊆+ v /\ (ok = true -> l = v) /\ d' ≡ₚ d1 ++ l.
Proof.
  revert d. induction ws as [|[v' ok'] ws IH]; intros d; simpl.
  - rewrite added_cons. setoid_rewrite added_nil. split.
    + intros (l & H1 & H2 & H3). by exists d, l.
    + intros (d1 & l & Hd & H1 & H2 & H3). exists l. by rewrite H3, Hd.
  - rewrite added_cons. setoid_rewrite IH. setoid_rewrite added_cons. naive_solver.
Qed.

(** The rows waiting in a buffer *)
Definition buffer_list (db : DatabaseData) (t : string) : list row :=
  match buffer_at db t with Some td => td_rows td | None => [] end.

Section Appends.
Context {W : Type} `{Baseline W} `{!BaselineLaws W} `{GoStd}.
Context (iter : row -> list string) (iter_parts : gmap string (list Message) -> list string)
        (iter_tables : DatabaseData -> list string) (cfg : Config) (formats : TcFmtMap) (w0 : W).
Context (Hmode : cfg_Mode cfg = History).

Notation rows_of_changes l := (map (@ch_row string value) l).

(** Of a buffer one watches the rows. *)
Definition appending : observation (list row) :=
  {| ob_content := td_rows; ob_empty := []; ob_put := fun v c => v ++ [ch_row c] |}.

Lemma appending_observed : observed cfg appending.
Proof.
  split; simpl.
  - by intros td td' [_ E].
  - done.
  - intros td pk r del Hm. unfold InsertRow. by rewrite bool_decide_true by congruence.
Qed.

(** A table that starts as [d0] and holds the rows of the changes [written]:
    whatever else it holds repeats rows of the changes saved. *)
Definition at_least_once (written saved : list (change string value)) (d0 d : list row) : Prop :=
  exists extra, d ≡ₚ d0 ++ rows_of_changes written ++ extra /\ forall r, r ∈ extra -> r ∈ rows_of_changes saved.

Lemma at_least_once_more written saved d0 d l :
  at_least_once written saved d0 d -> (forall r, r ∈ l -> r ∈ rows_of_changes saved) ->
  at_least_once written saved d0 (d ++ l).
Proof.
  intros (ex & Hd & Hex) Hl. exists (ex ++ l). split; [by rewrite Hd, <- !app_assoc|].
  intros r [Hr | Hr]%elem_of_app; [by apply Hex | by apply Hl].
Qed.

#[local] Instance at_least_once_proper written saved d0 : Proper ((≡ₚ) ==> iff) (at_least_once written saved d0).
Proof. intros d d' Hd. unfold at_least_once. by setoid_rewrite Hd. Qed.

(** Of the changes saved in a table, the first have been written and the others
    are buffered. *)
Definition appended (t : string) (ms : list Message) (v : list row) (ws : list (list row * bool)) : Prop :=
  exists written waiting,
    Forall2 (is_change iter cfg formats t) ms (written ++ waiting) /\ v = rows_of_changes waiting /\
    forall d0 d, added ws d0 d -> at_least_once written (written ++ waiting) d0 d.

Lemma appended_flush t ms v ws v' ws' : appended t ms v ws -> table_flush appending v ws v' ws' -> appended t ms v' ws'.
Proof.
  intros (l1 & l2 & Hms & -> & Hd) Hf.
  assert (Hrows : forall l : list row, l ⊆+ rows_of_changes l2 -> forall r, r ∈ l -> r ∈ rows_of_changes (l1 ++ l2)).
  { intros l Hl r Hr. rewrite map_app. apply elem_of_app. right. by eapply elem_of_submseteq. }
  destruct Hf as [|ok|].
  - by exists l1, l2.
  - exists l1, l2. split_and!; [done..|]. intros d0 d (d1 & l & Ha & Hl & _ & ->)%added_snoc.
    apply at_least_once_more; [by apply Hd | by apply Hrows].
  - exists (l1 ++ l2), []. rewrite app_nil_r. split_and!; [done..|].
    intros d0 d (d1 & l & Ha & _ & Hl & ->)%added_snoc. rewrite (Hl eq_refl).
    destruct (Hd _ _ Ha) as (ex & -> & Hex). exists ex. split; [|exact Hex].
    rewrite map_app, <- !app_assoc. do 2 f_equiv. apply Permutation_app_comm.
Qed.

Lemma appended_save t ms v ws msg c :
  appended t ms v ws -> is_change iter cfg formats t msg c -> appended t (ms ++ [msg]) (v ++ [ch_row c]) ws.
Proof.
  intros (l1 & l2 & Hms & -> & Hd) Hc. exists l1, (l2 ++ [c]). rewrite app_assoc. split_and!.
  - by apply Forall2_app; [|constructor].
  - by rewrite map_app.
  - intros d0 d Ha. destruct (Hd _ _ Ha) as (ex & Hperm & Hex). exists ex. split; [exact Hperm|].
    intros r Hr. rewrite map_app. apply elem_of_app. left. by apply Hex.
Qed.

(** C5. In history mode every saved change becomes a row: in every state the
    process can reach, the changes of the messages saved in a table are, in
    order, those written and those whose rows the buffer holds; without a buffer
    all are written.  Take the table and add to it the rows of the appends made
    of it so far: all rows of one that reported success, any of one that failed.
    It has a row for each written change besides what it started with, and any
    further row repeats the row of a saved change.  No append was of a buffer
    that is skipped for lack of columns. *)
Theorem history_at_least_once until a t :
  reachable iter iter_parts iter_tables cfg formats until w0 a ->
  Forall (write_wf cfg) (cs_writes (app_state a)) /\
  exists written waiting,
    Forall2 (is_change iter cfg formats t) (messages_of t (app_state a)) (written ++ waiting) /\
    buffer_list (cs_db (app_state a)) t = rows_of_changes waiting /\
    (buffer_at (cs_db (app_state a)) t = None -> waiting = []) /\
    forall d0 d, added (writes_of appending t (app_state a)) d0 d ->
      exists extra, d ≡ₚ d0 ++ rows_of_changes written ++ extra /\
        forall r, r ∈ extra -> r ∈ rows_of_changes (written ++ waiting).
Proof.
  intros Hr. destruct (reachable_told iter iter_parts iter_tables cfg formats appending appending_observed appended) with until w0 a
    as [_ Hw Ht]; [| exact appended_flush | exact appended_save | exact Hr |].
  { intros t'. exists [], []. split_and!; [constructor | done |]. intros d0 d Hd%added_nil. exists [].
    split; [by rewrite !app_nil_r | intros r []%not_elem_of_nil]. }
  split; [exact Hw|]. destruct (Ht t) as (l1 & l2 & Hms & Hv & Hd). exists l1, l2. split_and!; [done..| |exact Hd].
  intros Hn. unfold content_of in Hv. rewrite Hn in Hv. by destruct l2.
Qed.
End Appends.

(** * A destination that fails half-way *)

(** Rows in memory, and the next appends: how many rows one writes before it
    reports an error *)
Record spotty := mkSpotty { sp_rows : gmap string (list row); sp_failures : list nat }.

Definition spotty_rows (w : spotty) (t : string) : list row := default [] (sp_rows w !! t).

Definition spotty_add (t : string) (l : list row) (w : spotty) : spotty :=
  mkSpotty (<[t := spotty_rows w t ++ l]> (sp_rows w)) (drop 1 (sp_failures w)).

#[local] Instance spotty_baseline : Baseline spotty := {
  base_Merge td w := (Ok tt, td, w);
  base_Append td w :=
    match sp_failures w with
    | n :: _ => (errorf "connection reset", td, spotty_add (td_name td) (take n (td_rows td)) w)
    | [] => (Ok tt, td, spotty_add (td_name td) (td_rows td) w)
    end;
  queue_Commit _ w := (None, w);
  queue_Ack _ w := w
}.

#[local] Instance spotty_laws : BaselineLaws spotty.
Proof. split; intros td w; simpl; [done|]. by destruct (sp_failures w). Qed.

Section Example.
#[local] Instance histories_std : GoStd := plain_std.

(** Two rows fill a buffer; the first append writes one row and fails. *)
Definition spotty_config : Config :=
  mkConfig History Snowflake Kafka 10 100 1 None (Some (mkKafkaConfig "localhost:9092" "group" EmptyString EmptyString
    false [routed_topic])) (mkSettings [] false) false None None None None None.
Definition spotty_world : spotty := mkSpotty ∅ [1%nat].

Definition spotty_started : app spotty :=
  mkApp (TopicToConsumer_Add "events" NewTopicToConsumer) (app_state (initial spotty_world)) None.
Definition spotty_fetch (k : KafkaMessage) (a : app spotty) : app spotty :=
  run (fun rs => kafka_iteration keys_of keys_of keys_of spotty_config process_formats rs (Ok k) (mkTime 0 0) []) a.
Definition spotty_app : app spotty :=
  spotty_fetch (kafka_message 3 1 3) (spotty_fetch (kafka_message 2 1 2) (spotty_fetch (kafka_message 1 1 1) spotty_started)).

Lemma spotty_app_reachable : reachable keys_of keys_of keys_of spotty_config process_formats 0 spotty_world spotty_app.
Proof.
  do 3 (apply fetched_reachable; [done | done | apply TopicToConsumer_Add_self | done|]).
  apply (reader_reachable keys_of keys_of keys_of spotty_config process_formats 0 spotty_world "events" (initial spotty_world)); [done | left | done | apply reach_initial].
Qed.

(** The append that failed wrote the first row, the other one all three. *)
Lemma spotty_writes_added :
  added (writes_of appending "a__history" (app_state spotty_app)) [] (spotty_rows (cs_world (app_state spotty_app)) "a__history").
Proof.
  set (ws := writes_of _ _ _). set (d := spotty_rows _ _).
  assert (Hd : exists r1 r2 r3 : row, ws = [([r1; r2], false); ([r1; r2; r3], true)] /\ d = [r1; r1; r2; r3])
    by (do 3 eexists; split; vm_compute; reflexivity).
  destruct Hd as (r1 & r2 & r3 & -> & ->).
  apply added_rows with [r1]; [by apply submseteq_skip, submseteq_nil_l | done|].
  apply added_rows with [r1; r2; r3]; [done..|]. by apply added_none.
Qed.

(** The row that was written before the failure is there twice. *)
Lemma history_at_least_once_witness :
  map (fun r : row => r !! "id") (spotty_rows (cs_world (app_state spotty_app)) "a__history") =
    map (fun z => Some (VInt KInt z)) [1; 1; 2; 3] /\
  exists written extra,
    Forall2 (is_change keys_of spotty_config process_formats "a__history")
      (messages_of "a__history" (app_state spotty_app)) written /\
    spotty_rows (cs_world (app_state spotty_app)) "a__history" ≡ₚ map ch_row written ++ extra /\
    length written = 3%nat /\ length extra = 1%nat.
Proof.
  split; [vm_compute; reflexivity|].
  destruct (history_at_least_once keys_of keys_of keys_of spotty_config process_formats spotty_world eq_refl
    0 spotty_app "a__history" spotty_app_reachable) as (_ & written & waiting & Hms & _ & Hw & Ha).
  destruct (Ha _ _ spotty_writes_added) as (extra & Hd & _).
  rewrite (Hw ltac:(vm_compute; reflexivity)), app_nil_r in Hms. exists written, extra.
  assert (Hn : length written = 3%nat) by (rewrite <- (Forall2_length _ _ _ Hms); vm_compute; reflexivity).
  split_and!; [exact Hms | exact Hd | exact Hn|].
  apply Permutation_length in Hd. rewrite !length_app, length_map, Hn in Hd.
  assert (H4 : length (spotty_rows (cs_world (app_state spotty_app)) "a__history") = 4%nat) by (vm_compute; reflexivity).
  rewrite H4 in Hd. change (4 = 0 + (3 + length extra))%nat in Hd. lia.
Defined.
End Example.
