(* ===== verification/Redshift.v ===== *)
(** The Redshift client: [clients/redshift].  A buffer is staged as a gzipped,
    tab-separated file in S3 that COPY loads into a temporary table; the cells
    are those of [CastValues.CastColValStaging]. *)
From S2P Require Import Prelude GoLang Constants StringUtil Decimal Values Typing Columns CastValues Csv Config Dsn Kafkalib.
From S2P Require Import TableData Effects TableConfig Warehouse Ddl Dml Shared Staging.
Local Open Scope string_scope.
Local Open Scope list_scope.
Local Open Scope Z_scope.

Module Redshift.

Record Store := mkStore {
  credentialsClause : string;
  bucket : string;
  optionalS3Prefix : string;
  skipLgCols : bool;
  config : Config
}.

(** [_store]: a connection is given, for tests *)
Definition LoadRedshift {D} `{Outside D} (cfg : Config) (_store : bool) : go (env D) Store :=
  match cfg_Redshift cfg with
  | None => lift nil_deref
  | Some r =>
      if _store then mret (mkStore EmptyString EmptyString EmptyString (rs_SkipLgCols r) cfg)
      else
        db_Open "postgres" (Redshift_connStr r) ;;
        mret (mkStore (rs_CredentialsClause r) (rs_Bucket r) (rs_OptionalS3Prefix r) (rs_SkipLgCols r) cfg)
  end.

Definition describeTableQuery (rawTableName schema : string) : string * list string :=
  ("
SELECT 
    c.column_name,
    CASE 
        WHEN c.data_type = 'numeric' THEN 
            'numeric(' || COALESCE(CAST(c.numeric_precision AS VARCHAR), '') || ',' || COALESCE(CAST(c.numeric_scale AS VARCHAR), '') || ')'
        ELSE 
            c.data_type
    END AS data_type,
    c." +:+ StrPrecisionCol +:+ ",
    d.description
FROM
    INFORMATION_SCHEMA.COLUMNS c
LEFT JOIN 
    PG_CLASS c1 ON c.table_name = c1.relname 
LEFT JOIN 
    PG_CATALOG.PG_NAMESPACE n ON c.table_schema = n.nspname AND c1.relnamespace = n.oid 
LEFT JOIN 
    PG_CATALOG.PG_DESCRIPTION d ON d.objsubid = c.ordinal_position AND d.objoid = c1.oid 
WHERE 
    LOWER(c.table_name) = LOWER($1) AND LOWER(c.table_schema) = LOWER($2);
", [rawTableName; schema]).

Definition sweep_query (dbAndSchemaPair : string * string) : string * list string :=
  ("
SELECT
    n.nspname, c.relname
FROM
    PG_CATALOG.PG_CLASS c
JOIN
    PG_CATALOG.PG_NAMESPACE n ON n.oid = c.relnamespace
WHERE
    n.nspname = $1 AND c.relname ILIKE $2 AND c.relkind = 'r';", [snd dbAndSchemaPair; "%" +:+ ArtiePrefix +:+ "%"]).

Section Client.
Context {D : Type} {base : SqlStore D} `{Outside D} `{GoStd}.
(** The order in which Go iterates over the rows *)
Context (rows_of : TableData -> list row) (s : Store).

#[local] Instance store : SqlStore D := with_label Redshift base.

Definition up : bool := UppercaseEscapedNames (config s).

Definition fq_name (td : TableData) (escape : bool) : string :=
  ToFqName td Label escape up (mkFqNameOpts EmptyString EmptyString).

Definition table_cfg_args (td : TableData) : GetTableCfgArgs :=
  let '(query, args) := describeTableQuery (td_name td) (tc_Schema (td_TopicConfig td)) in
  mkGetTableCfgArgs (fq_name td true) query args "column_name" "data_type" "description" (Some "<nil>")
    (tc_DropDeletedColumns (td_TopicConfig td)).

Definition cast (v : value) (c : Column) : result string :=
  CastColValStaging (skipLgCols s) v c (AdditionalDateFormats (TypingSettings (config s))).

(** The rows go through a compressor, which passes on to the file what it has
    compressed and the rest when it is closed.  The deferred [Close] comes
    before that of the file, and its error is dropped. *)
Definition loadTemporaryTable (td : TableData) (newTableName : string) : go (env D) string :=
  let filePath := "/tmp/" +:+ newTableName +:+ ".csv.gz" in
  call_outside (CreateFile filePath) ;;
  deferred (call_outside (CloseFile filePath))
    (deferred (call_outside (GzipClose filePath))
      (records ← lift (cast_rows cast (ReadOnlyInMemoryCols td) up (rows_of td));
       wrap_go "failed to flush csv writer: " EmptyString (call_outside (GzipWrite filePath (csv_text records))) ;;
       mret filePath)).

Definition copy_statement (tempTableName s3Uri : string) : string :=
  "COPY " +:+ tempTableName +:+ " FROM '" +:+ s3Uri +:+ "' DELIMITER '\t' NULL AS '\\N' GZIP FORMAT CSV "
    +:+ credentialsClause s +:+ " dateformat 'auto' timeformat 'auto';".

(** The flag that says whether to create the table is not looked at. *)
Definition PrepareTemporaryTable (key tempTableName : string) : go (env D) unit :=
  td ← table_data;
  create_temp_table (config s) key tempTableName td ;;
  fp ← wrap_go "failed to load temporary table: " EmptyString (loadTemporaryTable td tempTableName);
  deferred (remove_file fp)
    (s3Uri ← wrap_go ("failed to upload " +:+ fp +:+ " to s3: ") EmptyString
               (UploadLocalFileToS3 (bucket s) (optionalS3Prefix s) fp);
     wrap_go "failed to run COPY for temporary table: " EmptyString (Exec (copy_statement tempTableName s3Uri))).

Lemma keeps_td_Redshift_Prepare key tempTableName : preserves keeps_td (PrepareTemporaryTable key tempTableName).
Proof. unfold PrepareTemporaryTable, loadTemporaryTable, table_data. preserve. Qed.

(** What writing the staged file did, when it succeeded *)
Lemma loadTemporaryTable_ok td newTableName st fp st' :
  loadTemporaryTable td newTableName st = (Ok fp, st') ->
  fp = "/tmp/" +:+ newTableName +:+ ".csv.gz" /\
  exists records, cast_rows cast (ReadOnlyInMemoryCols td) up (rows_of td) = Ok records /\
    env_log st' = env_log st ++ map OutsideCall [CreateFile fp; GzipWrite fp (csv_text records); GzipClose fp; CloseFile fp].
Proof.
  intros ([] & st1 & E1%call_outside_ok & (st2 & (st3 & E2 & ->)%deferred_Ok & ->)%deferred_Ok)%go_bind_Ok.
  apply go_bind_Ok in E2 as (records & st4 & E3 & ([] & st5 & E4%wrap_go_Ok%call_outside_ok & E5)%go_bind_Ok).
  injection E3 as Hr <-. injection E5 as <- <-. split; [done|]. exists records. split; [done|].
  rewrite !call_outside_log, E4, E1, <- !app_assoc. done.
Qed.

#[local] Instance warehouse : DataWarehouse D := {|
  Warehouse.ToFullyQualifiedName := fq_name;
  Warehouse.GetTableConfig td := GetTableConfig_shared (table_cfg_args td);
  Warehouse.PrepareTemporaryTable key tempTableName _ _ := PrepareTemporaryTable key tempTableName
|}.

#[local] Instance laws : DataWarehouseLaws D.
Proof.
  split.
  - intros td st. apply keeps_td_GetTableConfig_shared.
  - intros td st key st'. apply GetTableConfig_shared_some.
  - intros key tempTableName c b st. apply keeps_td_Redshift_Prepare.
Qed.

Definition merge_opts : MergeOpts := mkMergeOpts true true [] false.

Definition Merge (Int63n : Z -> Z -> Z) : go (env D) unit := Shared.Merge Int63n (config s) merge_opts.

(** The staging table is loaded by the shared append and then moved into the
    target; it is dropped by nobody here, and left to the sweep. *)
Definition Append : go (env D) unit :=
  td ← table_data;
  now ← time_now;
  let temporaryTableName := fq_name td false +:+ "_" +:+ TempTableSuffix td now in
  Shared.Append (config s) (mkAppendOpts temporaryTableName EmptyString) ;;
  Exec ("ALTER TABLE " +:+ fq_name td true +:+ " APPEND FROM " +:+ temporaryTableName +:+ ";").

Definition Sweep (pairs : list (string * string)) : go (env D) unit :=
  lift (TopicConfigs (config s)) ;; Shared.Sweep pairs sweep_query.

Definition Dedupe (fqTableName : string) : result unit := errorf "dedupe is not yet implemented".

(** C16. What COPY loads is the buffer: a staging that succeeds created the
    table, wrote to the compressor a text that reads back as one record per
    row with a cell for each column of a known type, closed the compressor and
    the file, uploaded that file, copied from the object it had just uploaded,
    and removed the file.  Whether closing the compressor failed is not
    looked at ([gzip_close_error_dropped]): the object holds the whole text when
    it did not. *)
Theorem Redshift_stage_complete key tempTableName cols st st' :
  ReadOnlyInMemoryCols (env_td st) = Some cols -> valid_columns cols <> [] ->
  PrepareTemporaryTable key tempTableName st = (Ok tt, st') ->
  let path := "/tmp/" +:+ tempTableName +:+ ".csv.gz" in
  let object := object_key (optionalS3Prefix s) path in
  exists st1 text,
    create_temp_table (config s) key tempTableName (env_td st) st = (Ok tt, st1) /\
    staged_text cast cols (rows_of (env_td st)) text /\
    env_log st' = env_log st1
      ++ map OutsideCall [CreateFile path; GzipWrite path text; GzipClose path; CloseFile path;
                          LoadAwsConfig; OpenFile path; PutObject (bucket s) object path; CloseFile path]
      ++ [SqlExec (copy_statement tempTableName ("s3://" +:+ bucket s +:+ "/" +:+ object));
          OutsideCall (RemoveFile path)].
Proof.
  intros Hcols Hne. unfold PrepareTemporaryTable, table_data, gets. rewrite go_bind_run.
  intros ([] & st1 & E1 & (fp & st2 & (-> & records & Hr & E2)%wrap_go_Ok%loadTemporaryTable_ok & E3)%go_bind_Ok)%go_bind_Ok.
  apply deferred_Ok in E3 as (st3 & (uri & st4 & (-> & E4)%wrap_go_Ok%UploadLocalFileToS3_ok & E5)%go_bind_Ok & ->).
  apply wrap_go_Ok, Exec_ok in E5. exists st1, (csv_text records). split; [done|]. rewrite Hcols in Hr. split.
  - eapply cast_rows_text; [by eapply ReadOnlyInMemoryCols_Some_wf | done | done].
  - destruct (remove_file_run ("/tmp/" +:+ tempTableName +:+ ".csv.gz") st3) as [_ ->].
    rewrite E5, E4, E2, <- !app_assoc. done.
Qed.
Lemma keeps_rows_Redshift Int63n : preserves keeps_rows (Merge Int63n) /\ preserves keeps_rows Append.
Proof.
  split; [apply (Merge_Append_keep_rows Int63n (config s) _ (mkAppendOpts EmptyString EmptyString))|].
  apply preserves_bind; [apply _ | apply preserves_gets, _ |]. intros td.
  apply preserves_bind; [apply _ | apply preserves_gets, _ |]. intros now.
  apply preserves_bind; [apply _ | | intros _; apply keeps_of_td; preserve].
  apply (Merge_Append_keep_rows Int63n (config s) merge_opts).
Qed.
End Client.

Definition example_store : Store := mkStore "credentials" "staging" "artie" true example_config.

Lemma Redshift_stage_complete_witness :
  let run := PrepareTemporaryTable (base := quiet_store Redshift) (H := quiet_outside) (H0 := plain_std)
               some_rows example_store "orders" "public.orders___artie_x" example_stage_env in
  exists text, staged_text (cast (H0 := plain_std) example_store) example_stage_columns
      (some_rows example_merge_table) text /\
    last (env_log (snd run)) = Some (OutsideCall (RemoveFile "/tmp/public.orders___artie_x.csv.gz")) /\
    OutsideCall (GzipWrite "/tmp/public.orders___artie_x.csv.gz" text) ∈ env_log (snd run).
Proof.
  cbv zeta. set (run := PrepareTemporaryTable _ _ _ _ _). destruct run as [[[]|e|w] st'] eqn:E;
    [|exfalso; vm_compute in E; discriminate..].
  destruct (Redshift_stage_complete (base := quiet_store Redshift) (H := quiet_outside) (H0 := plain_std)
    some_rows example_store "orders" "public.orders___artie_x" example_stage_columns
    example_stage_env st' eq_refl example_stage_valid E) as (st1 & text & _ & Ht & Hlog).
  exists text. split; [exact Ht|]. cbn [snd]. rewrite Hlog. split.
  - by rewrite !app_assoc, last_app.
  - apply list_elem_of_In, in_or_app. right. right. left. reflexivity.
Defined.

(** A full disk: the compressor keeps what it is given, and cannot write it out
    when it is closed.  The staging succeeds all the same, and loads the
    truncated file. *)
Definition full_disk : Outside Z := {|
  outside c d := match c with GzipClose _ => (Some (ErrNew "no space left on device"), d) | _ => (None, d) end
|}.

Theorem gzip_close_error_dropped :
  let run := PrepareTemporaryTable (base := quiet_store Redshift) (H := full_disk) (H0 := plain_std)
               some_rows example_store "orders" "public.orders___artie_x" example_stage_env in
  fst run = Ok tt /\
  SqlExec (copy_statement example_store "public.orders___artie_x" "s3://staging/artie/public.orders___artie_x.csv.gz")
    ∈ env_log (snd run).
Proof.
  cbv zeta. split; [vm_compute; reflexivity|]. apply (list_elem_of_lookup_2 _ 9). vm_compute. reflexivity.
Qed.
End Redshift.
