(* ===== verification/Snowflake.v ===== *)
(** The Snowflake client: [clients/snowflake].  A buffer is staged as a
    tab-separated file that PUT uploads to the table's stage and COPY loads;
    an expired session is renewed and the whole write tried again. *)
From S2P Require Import Prelude GoLang Constants StringUtil Decimal Values Typing Columns CastValues Csv Config Dsn Kafkalib.
From S2P Require Import TableData Effects TableConfig Warehouse Ddl Dml Shared Staging.
Local Open Scope string_scope.
Local Open Scope list_scope.
Local Open Scope Z_scope.

Module Snowflake.

Definition maxRetries : nat := 10.

Definition IsAuthExpiredError (err : option error) : bool :=
  match err with None => false | Some e => contains (error_text e) "Authentication token has expired" end.

(** [addPrefixToTableName]: the prefix goes before the last part of the name. *)
Definition addPrefixToTableName (fqTableName prefix : string) : string :=
  let tableParts := split_on "." fqTableName in
  if (length tableParts =? 1)%nat then prefix +:+ fqTableName
  else join "." (removelast tableParts) +:+ "." +:+ prefix +:+ List.last tableParts EmptyString.

(** The source of a column's value: a position of the file, parsed when the
    column is not a scalar *)
Definition copy_source (c : Column) (position : nat) : string :=
  let escapedCol := "$" +:+ itoa (Z.of_nat position) in
  if kd_eqb (c_KindDetails c) Struct then "PARSE_JSON(" +:+ escapedCol +:+ ")"
  else if kd_eqb (c_KindDetails c) Array
       then "CAST(PARSE_JSON(" +:+ escapedCol +:+ ") AS ARRAY) AS " +:+ escapedCol
       else escapedCol.

Fixpoint escaped_columns (index : nat) (cols : list Column) : list string :=
  match cols with
  | [] => []
  | c :: cols =>
      if kd_eqb (c_KindDetails c) Invalid then escaped_columns index cols
      else copy_source c (S index) :: escaped_columns (S index) cols
  end.

Definition escapeColumns (columns : option (list Column)) (delimiter : string) : string :=
  join delimiter (escaped_columns 0 (GetColumns columns)).

(** [Sweep]'s query *)
Definition sweep_query (dbAndSchemaPair : string * string) : string * list string :=
  ("
SELECT
    table_schema, table_name
FROM
    " +:+ fst dbAndSchemaPair +:+ ".information_schema.tables
WHERE
    UPPER(table_schema) = UPPER(?) AND table_name ILIKE ?",
   [snd dbAndSchemaPair; "%" +:+ ArtiePrefix +:+ "%"]).

(** A store made for tests keeps the connection it was given. *)
Record Store := mkStore { testDB : bool; config : Config }.

Section Client.
Context {D : Type} {base : SqlStore D} `{Outside D} `{GoStd} `{Gosnowflake}.
(** The order in which Go iterates over the rows *)
Context (rows_of : TableData -> list row) (s : Store).

#[local] Instance store : SqlStore D := with_label Snowflake base.

Definition up : bool := UppercaseEscapedNames (config s).

Definition fq_name (td : TableData) (escape : bool) : string :=
  ToFqName td Label escape up (mkFqNameOpts EmptyString EmptyString).

Definition table_cfg_args (td : TableData) : GetTableCfgArgs :=
  let fqName := fq_name td true in
  mkGetTableCfgArgs fqName ("DESC TABLE " +:+ fqName +:+ ";") [] "name" "type" "comment" (Some "<nil>")
    (tc_DropDeletedColumns (td_TopicConfig td)).

Definition cast (v : value) (c : Column) : result string :=
  castColValStaging v c (AdditionalDateFormats (TypingSettings (config s))).

(** The directory of temporary files is /tmp. *)
Definition writeTemporaryTableFile (td : TableData) (newTableName : string) : go (env D) string :=
  write_csv_file ("/tmp/" +:+ newTableName +:+ ".csv") EmptyString cast (config s) (rows_of td) td.

Definition put_statement (fp tempTableName : string) : string :=
  "PUT file://" +:+ fp +:+ " @" +:+ addPrefixToTableName tempTableName "%" +:+ " AUTO_COMPRESS=TRUE".

Definition copy_targets (cols : option (list Column)) : list string :=
  GetColumnsToUpdate cols up (Some (mkNameArgs true Label)).

Definition copy_statement (tempTableName additionalCopyClause : string) (cols : option (list Column)) : string :=
  "COPY INTO " +:+ tempTableName +:+ " (" +:+ join "," (copy_targets cols) +:+ ") FROM (SELECT "
    +:+ escapeColumns cols "," +:+ " FROM @" +:+ addPrefixToTableName tempTableName "%" +:+ ")"
    +:+ (if String.eqb additionalCopyClause EmptyString then EmptyString else " " +:+ additionalCopyClause).

Definition PrepareTemporaryTable (key tempTableName additionalCopyClause : string) (createTempTable : bool)
  : go (env D) unit :=
  td ← table_data;
  (if createTempTable then create_temp_table (config s) key tempTableName td else mret tt) ;;
  fp ← wrap_go "failed to load temporary table: " EmptyString (writeTemporaryTableFile td tempTableName);
  deferred (remove_file fp)
    (wrap_go "failed to run PUT for temporary table: " EmptyString (Exec (put_statement fp tempTableName)) ;;
     wrap_go "failed to run copy into temporary table: " EmptyString
       (Exec (copy_statement tempTableName additionalCopyClause (ReadOnlyInMemoryCols td)))).

Lemma keeps_td_Snowflake_Prepare key tempTableName clause create :
  preserves keeps_td (PrepareTemporaryTable key tempTableName clause create).
Proof. unfold PrepareTemporaryTable, writeTemporaryTableFile, table_data. preserve. Qed.

#[local] Instance warehouse : DataWarehouse D := {|
  Warehouse.ToFullyQualifiedName := fq_name;
  Warehouse.GetTableConfig td := GetTableConfig_shared (table_cfg_args td);
  Warehouse.PrepareTemporaryTable := PrepareTemporaryTable
|}.

#[local] Instance laws : DataWarehouseLaws D.
Proof.
  split.
  - intros td st. apply keeps_td_GetTableConfig_shared.
  - intros td st key st'. apply GetTableConfig_shared_some.
  - intros key tempTableName c b st. apply keeps_td_Snowflake_Prepare.
Qed.

Definition reestablishConnection : go (env D) unit :=
  if testDB s then mret tt
  else match cfg_Snowflake (config s) with
       | None => lift nil_deref
       | Some c =>
           match gosnowflake_DSN (snowflake_connection c) with
           | Ok dsn => db_Open "snowflake" dsn
           | _ => lift (Panic "Failed to get snowflake dsn")
           end
       end.

Definition error_of (r : result unit) : option error := match r with Err e => Some e | _ => None end.

(** The loop of [Merge] and [Append]: [left_] attempts left, [err] the outcome
    of the previous one *)
Fixpoint retry_loop (write : go (env D) unit) (left_ : nat) (first : bool) (err : option error)
  : go (env D) (option error) :=
  match left_ with
  | O => mret err
  | Datatypes.S left_ =>
      let run := r ← attempt write; retry_loop write left_ false (error_of r) in
      if first then run
      else if IsAuthExpiredError err then reestablishConnection ;; run
      else mret err
  end.

Definition with_retries (write : go (env D) unit) : go (env D) unit :=
  err ← retry_loop write maxRetries true None;
  lift (fail_if err).

Definition Merge (Int63n : Z -> Z -> Z) : go (env D) unit :=
  with_retries (Shared.Merge Int63n (config s) (mkMergeOpts false false [] false)).

Definition additional_copy_clause : string :=
  "FILE_FORMAT = (TYPE = 'csv' FIELD_DELIMITER= '\t' FIELD_OPTIONALLY_ENCLOSED_BY='" +:+ dquote
    +:+ "' NULL_IF='\\N' EMPTY_FIELD_AS_NULL=FALSE) PURGE = TRUE".

Definition Append : go (env D) unit :=
  td ← table_data;
  with_retries (Shared.Append (config s) (mkAppendOpts (fq_name td true) additional_copy_clause)).

Definition Sweep (pairs : list (string * string)) : go (env D) unit :=
  lift (TopicConfigs (config s)) ;; Shared.Sweep pairs sweep_query.

Definition Dedupe (fqTableName : string) : go (env D) unit :=
  Exec ("CREATE OR REPLACE TABLE " +:+ fqTableName +:+ " AS SELECT DISTINCT * FROM " +:+ fqTableName).

(** ** Staging *)

Lemma escaped_columns_length index cols :
  length (escaped_columns index cols) = length (valid_columns cols).
Proof.
  revert index. induction cols as [|c cols IH]; intros index; [done|]. cbn.
  destruct (kd_eqb (c_KindDetails c) Invalid); cbn; by rewrite IH.
Qed.

Lemma escaped_columns_lookup index cols i c :
  valid_columns cols !! i = Some c -> escaped_columns index cols !! i = Some (copy_source c (S (index + i))).
Proof.
  revert index i. induction cols as [|c' cols IH]; intros index i; [done|]. cbn.
  destruct (kd_eqb (c_KindDetails c') Invalid) eqn:Hk; cbn; [apply IH|].
  destruct i as [|i]; cbn.
  - intros [= ->]. by rewrite Nat.add_0_r.
  - intros Hi. etrans; [exact (IH (Datatypes.S index) i Hi) | by rewrite Nat.add_succ_r].
Qed.

(** C18. The three lists of a COPY agree position by position: the i-th target
    column is the i-th column of a known type, its source is the i-th
    position of the file, and the i-th cell of every staged row is the cast
    of that column. *)
Theorem copy_positions_agree cols r cells i c :
  cells_of cast cols r cells -> valid_columns cols !! i = Some c ->
  copy_targets (Some cols) !! i = Some (Name c up (Some (mkNameArgs true Label))) /\
  escaped_columns 0 cols !! i = Some (copy_source c (S i)) /\
  exists cell, cells !! i = Some cell /\ cast (default VNil (r !! c_name c)) c = Ok cell /\
    length (copy_targets (Some cols)) = length cells /\ length (escaped_columns 0 cols) = length cells.
Proof.
  intros Hcells Hi. split; [|split].
  - unfold copy_targets, GetColumnsToUpdate. rewrite list_lookup_fmap. unfold valid_columns in Hi. cbn. by rewrite Hi.
  - apply (escaped_columns_lookup 0 cols i c Hi).
  - pose proof (Forall2_length _ _ _ Hcells) as Hlen.
    destruct (Forall2_lookup_l _ _ _ _ _ Hcells Hi) as (cell & Hc & Hcast). exists cell.
    split; [done|]. split; [done|]. rewrite escaped_columns_length. split; [|done].
    unfold copy_targets, GetColumnsToUpdate. by rewrite length_map.
Qed.

(** C17. What COPY loads is the buffer: a staging that succeeds wrote a file that
    reads back as one record per row, uploaded that very file to the stage
    of the table it then copied into, and removed the file. *)
Theorem Snowflake_stage_complete key tempTableName clause create cols st st' :
  ReadOnlyInMemoryCols (env_td st) = Some cols -> valid_columns cols <> [] ->
  PrepareTemporaryTable key tempTableName clause create st = (Ok tt, st') ->
  let path := "/tmp/" +:+ tempTableName +:+ ".csv" in
  exists st1 text,
    (if create then create_temp_table (config s) key tempTableName (env_td st) else mret tt) st = (Ok tt, st1) /\
    staged_text cast cols (rows_of (env_td st)) text /\
    env_log st' = env_log st1
      ++ map OutsideCall [CreateFile path; WriteFile path text; CloseFile path]
      ++ [SqlExec (put_statement path tempTableName); SqlExec (copy_statement tempTableName clause (Some cols));
          OutsideCall (RemoveFile path)].
Proof.
  intros Hcols Hne. unfold PrepareTemporaryTable, table_data, gets. rewrite go_bind_run.
  intros ([] & st1 & E1 & (fp & st2 & (-> & records & Hr & E2)%wrap_go_Ok%write_csv_file_ok & E3)%go_bind_Ok)%go_bind_Ok.
  apply deferred_Ok in E3 as (st3 & ([] & st4 & E4%wrap_go_Ok%Exec_ok & E5%wrap_go_Ok%Exec_ok)%go_bind_Ok & ->).
  rewrite Hcols in Hr, E5. exists st1, (csv_text records). split; [done|]. split.
  - eapply cast_rows_text; [by eapply ReadOnlyInMemoryCols_Some_wf | done | done].
  - destruct (remove_file_run ("/tmp/" +:+ tempTableName +:+ ".csv") st3) as [_ ->].
    rewrite E5, E4, E2, <- !app_assoc. done.
Qed.

(** ** Retries *)

(** [attempts write k st r st']: [write] ran [k + 1] times, the first [k] of
    them ending in an expired session that was renewed; or the last renewal
    failed. *)
Inductive attempts (write : go (env D) unit) : nat -> env D -> result unit -> env D -> Prop :=
| attempts_last st r st' : write st = (r, st') -> attempts write 0 st r st'
| attempts_again k st e st1 st2 r st' :
    write st = (Err e, st1) -> IsAuthExpiredError (Some e) = true -> reestablishConnection st1 = (Ok tt, st2) ->
    attempts write k st2 r st' -> attempts write (Datatypes.S k) st r st'
| attempts_lost st e st1 w st2 :
    write st = (Err e, st1) -> IsAuthExpiredError (Some e) = true -> reestablishConnection st1 = (Panic w, st2) ->
    attempts write 1 st (Panic w) st2.

Lemma reestablishConnection_no_err st e : fst (reestablishConnection st) <> Err e.
Proof.
  unfold reestablishConnection. destruct (testDB s); [done|]. destruct (cfg_Snowflake (config s)) as [c|]; [|done].
  destruct (gosnowflake_DSN _); [apply db_Open_no_err | done..].
Qed.

Lemma retry_loop_not_expired write n err st :
  IsAuthExpiredError err = false -> retry_loop write n false err st = (Ok err, st).
Proof. intros Hn. destruct n; cbn [retry_loop]; [done | by rewrite Hn]. Qed.

Definition report (m : go (env D) (option error)) : go (env D) unit := err ← m; lift (fail_if err).

Lemma retry_loop_attempts write n : forall st r st',
  report (x ← attempt write; retry_loop write n false (error_of x)) st = (r, st') ->
  exists k, (k <= n)%nat /\ attempts write k st r st' /\
    (forall e, r = Err e -> IsAuthExpiredError (Some e) = true -> k = n).
Proof.
  induction n as [|n IH]; intros st r st'; unfold report at 1; rewrite !go_bind_run; unfold attempt;
    destruct (write st) as [[[]|e|w] st1] eqn:Hw; cbn [error_of].
  1-3: intros [= <- <-]; exists 0%nat; split_and!; [lia | by constructor | done].
  - rewrite retry_loop_not_expired by done. intros [= <- <-]. exists 0%nat.
    split_and!; [lia | by constructor | done].
  - destruct (IsAuthExpiredError (Some e)) eqn:He.
    + cbn [retry_loop]. rewrite He. rewrite go_bind_run. pose proof (reestablishConnection_no_err st1) as Hp.
      destruct (reestablishConnection st1) as [[[]|e'|w] st2] eqn:Hc; [|by destruct (Hp e')|].
      * intros (k & Hk & Ha & Hlast)%IH. exists (Datatypes.S k). split_and!; [lia | by eapply attempts_again|].
        intros e' Hr Hx. by rewrite (Hlast e' Hr Hx).
      * intros [= <- <-]. exists 1%nat. split_and!; [lia | by eapply attempts_lost | done].
    + rewrite retry_loop_not_expired by done. intros [= <- <-]. exists 0%nat.
      split_and!; [lia | by constructor|]. intros e' [= <-]. congruence.
  - intros [= <- <-]. exists 0%nat. split_and!; [lia | by constructor | done].
Qed.

(** C29. An expired session is renewed and the write tried again, at most nine
    times; any other outcome ends the loop at once and is the one reported,
    so an expired session is reported only after ten attempts. *)
Theorem with_retries_spec write st :
  exists k, (k < maxRetries)%nat /\ attempts write k st (fst (with_retries write st)) (snd (with_retries write st)) /\
    (forall e, fst (with_retries write st) = Err e -> IsAuthExpiredError (Some e) = true -> Datatypes.S k = maxRetries).
Proof.
  destruct (with_retries write st) as [r st'] eqn:Hrun.
  destruct (retry_loop_attempts write 9 st r st' Hrun) as (k & Hk & Ha & Hlast). unfold maxRetries.
  exists k. split_and!; [lia | done|]. intros e Hr He. by rewrite (Hlast e Hr He).
Qed.

Lemma with_retries_keeps write : preserves keeps_rows write -> preserves keeps_rows (with_retries write).
Proof.
  intros Hw. unfold with_retries. apply preserves_bind; [apply _ | | intros; apply preserves_lift, _].
  generalize true as first, (None : option error) as err. generalize maxRetries as n.
  induction n as [|n IH]; intros first err; cbn [retry_loop]; [apply preserves_ret, _|].
  assert (Hrun : preserves keeps_rows (x ← attempt write; retry_loop write n false (error_of x))).
  { apply preserves_bind; [apply _ | by apply preserves_attempt | intros; apply IH]. }
  destruct first; [done|]. destruct (IsAuthExpiredError err); [|apply preserves_ret, _].
  apply preserves_bind; [apply _ | | done]. unfold reestablishConnection.
  apply keeps_of_td. preserve.
Qed.

(** However often the session expires, a failed merge or append leaves the
    buffered rows as they were: every attempt, and the next flush, writes the
    same rows. *)
Theorem Snowflake_keeps_buffer Int63n : preserves keeps_rows (Merge Int63n) /\ preserves keeps_rows Append.
Proof.
  split; [apply with_retries_keeps, (Merge_Append_keep_rows Int63n (config s) _ (mkAppendOpts EmptyString EmptyString))|].
  unfold Append. apply preserves_bind; [apply _ | unfold table_data; apply preserves_gets, _ |]. intros td.
  apply with_retries_keeps, (Merge_Append_keep_rows Int63n (config s) (mkMergeOpts false false [] false)).
Qed.
End Client.

(** [_store]: a connection is given, for tests *)
Definition LoadSnowflake {D} `{Outside D} `{Gosnowflake} (cfg : Config) (_store : bool) : go (env D) Store :=
  if _store then mret (mkStore true cfg)
  else let s := mkStore false cfg in reestablishConnection s ;; mret s.

Definition example_store : Store := mkStore true example_config.

Lemma copy_positions_agree_witness :
  let cols := [NewColumn "id" Integer; NewColumn "gone" Invalid; NewColumn "data" Struct] in
  copy_targets (base := quiet_store Snowflake) example_store (Some cols) !! 1%nat = Some "data" /\
  escaped_columns 0 cols !! 1%nat = Some "PARSE_JSON($2)".
Proof.
  cbv zeta.
  destruct (copy_positions_agree (H0 := plain_std) (base := quiet_store Snowflake) example_store
    [NewColumn "id" Integer; NewColumn "gone" Invalid; NewColumn "data" Struct]
    {[ "id" := VInt KInt 1; "data" := VString "{}" ]} ["1"; "{}"] 1 (NewColumn "data" Struct)) as (H1 & H2 & _).
  - constructor; [reflexivity|]. constructor; [reflexivity|]. constructor.
  - reflexivity.
  - split; [exact H1 | exact H2].
Defined.

Lemma Snowflake_stage_complete_witness :
  let run := PrepareTemporaryTable (base := quiet_store Snowflake) (H := quiet_outside) (H0 := plain_std)
               some_rows example_store "orders" "db.public.orders___artie_x" EmptyString true example_stage_env in
  exists text, staged_text (cast (H0 := plain_std) example_store) example_stage_columns
      (some_rows example_merge_table) text /\
    last (env_log (snd run)) = Some (OutsideCall (RemoveFile "/tmp/db.public.orders___artie_x.csv")).
Proof.
  cbv zeta. set (run := PrepareTemporaryTable _ _ _ _ _ _ _). destruct run as [[[]|e|w] st'] eqn:E;
    [|exfalso; vm_compute in E; discriminate..].
  destruct (Snowflake_stage_complete (base := quiet_store Snowflake) (H := quiet_outside) (H0 := plain_std)
    some_rows example_store "orders" "db.public.orders___artie_x" EmptyString true example_stage_columns
    example_stage_env st' eq_refl example_stage_valid E) as (st1 & text & _ & Ht & Hlog).
  exists text. split; [exact Ht|]. cbn [snd]. rewrite Hlog. by rewrite !app_assoc, last_app.
Defined.
End Snowflake.
