(* ===== verification/Mssql.v ===== *)
(** The SQL Server client: [clients/mssql].  A buffer is staged by a bulk copy
    inside a transaction; the cells are those of [CastValues.parseValue]. *)
From S2P Require Import Prelude GoLang Constants StringUtil Decimal Values Typing Columns CastValues Config Dsn Kafkalib.
From S2P Require Import TableData Effects TableConfig Warehouse Ddl Dml Shared Staging.
Local Open Scope string_scope.
Local Open Scope list_scope.
Local Open Scope Z_scope.

Module Mssql.

Definition describeTableQuery (schema rawTableName : string) : string * list string :=
  ("
SELECT 
    COLUMN_NAME, 
    CASE
        WHEN DATA_TYPE = 'numeric' THEN
		'numeric(' + COALESCE(CAST(NUMERIC_PRECISION AS VARCHAR), '') + ',' + COALESCE(CAST(NUMERIC_SCALE AS VARCHAR), '') + ')'
		ELSE
		DATA_TYPE
	END AS DATA_TYPE,
    CHARACTER_MAXIMUM_LENGTH
FROM 
    INFORMATION_SCHEMA.COLUMNS
WHERE 
    LOWER(TABLE_NAME) = LOWER(?) AND LOWER(TABLE_SCHEMA) = LOWER(?);", [rawTableName; schema]).

Definition sweepQuery (schema : string) : string * list string :=
  ("
SELECT
    TABLE_SCHEMA, TABLE_NAME
FROM
    INFORMATION_SCHEMA.TABLES
WHERE
    LOWER(TABLE_NAME) LIKE ? AND LOWER(TABLE_SCHEMA) = LOWER(?)", ["%" +:+ ArtiePrefix +:+ "%"; schema]).

(** [public] is a reserved word; the default schema is called [dbo]. *)
Definition getSchema (schema : string) : string := if String.eqb (to_lower schema) "public" then "dbo" else schema.

Definition Schema (td : TableData) : string := getSchema (tc_Schema (td_TopicConfig td)).

(** The store is its configuration, and the connection. *)
Definition LoadStore {D} `{Outside D} (cfg : Config) : go (env D) Config :=
  match cfg_MSSQL cfg with
  | None => lift nil_deref
  | Some m => db_Open "mssql" (MSSQL_DSN m) ;; mret cfg
  end.

Section Client.
Context {D : Type} {base : SqlStore D} `{Outside D} `{GoStd}.
(** The order in which Go iterates over the rows *)
Context (rows_of : TableData -> list row) (config : Config).

#[local] Instance store : SqlStore D := with_label MSSQL base.

Definition up : bool := UppercaseEscapedNames config.

Definition fq_name (td : TableData) (escape : bool) : string :=
  ToFqName td Label escape up (mkFqNameOpts EmptyString (Schema td)).

Definition table_cfg_args (td : TableData) : GetTableCfgArgs :=
  let '(query, args) := describeTableQuery (Schema td) (td_name td) in
  mkGetTableCfgArgs (fq_name td true) query args "column_name" "data_type" "description" (Some "<nil>")
    (tc_DropDeletedColumns (td_TopicConfig td)).

Definition cast (v : value) (c : Column) : result bulk_value :=
  parseValue v c (AdditionalDateFormats (TypingSettings config)).

(** [defer func() { if !txCommitted { tx.Rollback() } }()] *)
Definition rollback_unless_committed (txCommitted : bool) : go (env D) unit :=
  if txCommitted then mret tt else attempt (call_outside Rollback) ;; mret tt.

Definition copy_row (td : TableData) (r : row) : go (env D) unit :=
  cells ← lift (cast_row cast (ReadOnlyInMemoryCols td) up r);
  wrap_go "failed to copy row: " EmptyString (call_outside (BulkRow cells)).

(** The rest of the staging, beside the variable [txCommitted] *)
Definition bulk_copy (td : TableData) (tempTableName : string) : go (bool * env D) unit :=
  scoped (wrap_go "failed to prepare bulk insert: " EmptyString
    (call_outside (PrepareBulk tempTableName (staged_columns (ReadOnlyInMemoryCols td) up)))) ;;
  deferred (scoped (call_outside CloseStmt))
    (scoped (for_each (copy_row td) (rows_of td)) ;;
     scoped (wrap_go "failed to finalize bulk insert: " EmptyString (call_outside BulkEnd)) ;;
     scoped (wrap_go "failed to commit transaction: " EmptyString TxCommit) ;;
     set_local true).

Definition PrepareTemporaryTable (key tempTableName : string) (createTempTable : bool) : go (env D) unit :=
  td ← table_data;
  (if createTempTable then create_temp_table config key tempTableName td else mret tt) ;;
  wrap_go "failed to begin transaction: " EmptyString Begin ;;
  with_local false rollback_unless_committed (bulk_copy td tempTableName).

Lemma keeps_td_Mssql_Prepare key tempTableName create : preserves keeps_td (PrepareTemporaryTable key tempTableName create).
Proof.
  unfold PrepareTemporaryTable, table_data. preserve. apply preserves_with_local; [apply _ | |].
  - intros []; unfold rollback_unless_committed; preserve.
  - unfold bulk_copy, copy_row. preserve.
Qed.

#[local] Instance warehouse : DataWarehouse D := {|
  Warehouse.ToFullyQualifiedName := fq_name;
  Warehouse.GetTableConfig td := GetTableConfig_shared (table_cfg_args td);
  Warehouse.PrepareTemporaryTable key tempTableName _ create := PrepareTemporaryTable key tempTableName create
|}.

#[local] Instance laws : DataWarehouseLaws D.
Proof.
  split.
  - intros td st. apply keeps_td_GetTableConfig_shared.
  - intros td st key st'. apply GetTableConfig_shared_some.
  - intros key tempTableName c b st. apply keeps_td_Mssql_Prepare.
Qed.

Definition Merge (Int63n : Z -> Z -> Z) : go (env D) unit :=
  Shared.Merge Int63n config (mkMergeOpts false false [] false).

Definition Append : go (env D) unit :=
  td ← table_data;
  Shared.Append config (mkAppendOpts (fq_name td true) EmptyString).

Definition Sweep (pairs : list (string * string)) : go (env D) unit :=
  lift (TopicConfigs config) ;; Shared.Sweep pairs (fun pair => sweepQuery (getSchema (snd pair))).

Definition Dedupe (fqTableName : string) : result unit := Ok tt.

(** ** The bulk copy *)

Lemma copy_rows_ok td cols rows st st' :
  ReadOnlyInMemoryCols td = Some cols -> for_each (copy_row td) rows st = (Ok tt, st') ->
  exists records, Forall2 (cells_of cast cols) rows records /\
    env_log st' = env_log st ++ map (fun cells => OutsideCall (BulkRow cells)) records.
Proof.
  intros Hcols. revert st. induction rows as [|r rows IH]; intros st; cbn [for_each].
  - intros [= <-]. exists []. split; [constructor | by rewrite app_nil_r].
  - intros ([] & st1 & (cells & st2 & E1 & E2%wrap_go_Ok%call_outside_ok)%go_bind_Ok & (records & Hr & E3)%IH)%go_bind_Ok.
    injection E1 as E1 <-. rewrite Hcols in E1.
    apply cast_row_cells in E1; [|by eapply ReadOnlyInMemoryCols_Some_wf]. exists (cells :: records).
    split; [by constructor|]. by rewrite E3, E2, <- app_assoc.
Qed.

(** The bulk copy without its variable *)
Definition bulk_calls (td : TableData) (tempTableName : string) : go (env D) unit :=
  wrap_go "failed to prepare bulk insert: " EmptyString
    (call_outside (PrepareBulk tempTableName (staged_columns (ReadOnlyInMemoryCols td) up))) ;;
  deferred (call_outside CloseStmt)
    (for_each (copy_row td) (rows_of td) ;;
     wrap_go "failed to finalize bulk insert: " EmptyString (call_outside BulkEnd) ;;
     wrap_go "failed to commit transaction: " EmptyString TxCommit).

(** The variable is set exactly when the bulk copy succeeds. *)
Lemma bulk_copy_run td tempTableName st :
  bulk_copy td tempTableName (false, st) =
  (fst (bulk_calls td tempTableName st),
   (is_ok (fst (bulk_calls td tempTableName st)), snd (bulk_calls td tempTableName st))).
Proof.
  unfold bulk_copy, bulk_calls. rewrite !go_bind_run, scoped_run.
  destruct (wrap_go _ _ _ st) as [[[]|e|w] st1]; simpl; [|done..].
  unfold deferred. rewrite !go_bind_run, scoped_run.
  destruct (for_each _ _ st1) as [[[]|e|w] st2]; cbn [fst snd].
  2-3: rewrite scoped_run; pose proof (call_outside_no_panic CloseStmt st2) as Hp;
    destruct (call_outside CloseStmt st2) as [[[]|e'|w'] st5]; cbn in *; try done; by destruct (Hp w').
  rewrite !go_bind_run, scoped_run. destruct (wrap_go _ _ _ st2) as [[[]|e|w] st3]; cbn [fst snd].
  2-3: rewrite scoped_run; pose proof (call_outside_no_panic CloseStmt st3) as Hp;
    destruct (call_outside CloseStmt st3) as [[[]|e'|w'] st5]; cbn in *; try done; by destruct (Hp w').
  rewrite !go_bind_run, scoped_run. destruct (wrap_go _ _ _ st3) as [[[]|e|w] st4]; cbn [fst snd set_local];
    rewrite scoped_run; pose proof (call_outside_no_panic CloseStmt st4) as Hp;
    destruct (call_outside CloseStmt st4) as [[[]|e'|w'] st5]; cbn in *; try done; by destruct (Hp w').
Qed.

Lemma rollback_run st :
  rollback_unless_committed false st = (Ok tt, snd (call_outside Rollback st)).
Proof.
  unfold rollback_unless_committed. rewrite go_bind_run. unfold attempt.
  pose proof (call_outside_no_panic Rollback st) as Hp.
  destruct (call_outside Rollback st) as [[[]|e|w] st1]; [done | done|]. by destruct (Hp w).
Qed.

Lemma bulk_calls_log td tempTableName :
  preserves (logs (fun ev => ev <> OutsideCall Rollback)) (bulk_calls td tempTableName).
Proof.
  unfold bulk_calls, copy_row, TxCommit.
  preserve; first [apply logs_call_outside | apply logs_driver_call]; discriminate.
Qed.

Lemma bulk_calls_commit td tempTableName st st' :
  bulk_calls td tempTableName st = (Ok tt, st') ->
  exists before, env_log st' = env_log st ++ before ++ [SqlCommit; OutsideCall CloseStmt].
Proof.
  intros ([] & st1 & E1%wrap_go_Ok%call_outside_ok & (st2 & E2 & ->)%deferred_Ok)%go_bind_Ok.
  apply go_bind_Ok in E2 as ([] & st3 & E2 & ([] & st4 & E3%wrap_go_Ok%call_outside_ok & E4%wrap_go_Ok)%go_bind_Ok).
  apply (logged TxCommit [SqlCommit]) in E4; [|apply TxCommit_log].
  assert (Hl : preserves (logs (fun _ => True)) (for_each (copy_row td) (rows_of td))).
  { unfold copy_row. preserve. by apply logs_driver_call. }
  destruct (Hl st1) as (rows & Hrows & _). rewrite E2 in Hrows. cbn in Hrows. rewrite call_outside_log, E4, E3, Hrows, E1.
  exists ([OutsideCall (PrepareBulk tempTableName (staged_columns (ReadOnlyInMemoryCols td) up))] ++ rows ++ [OutsideCall BulkEnd]).
  by rewrite <- !app_assoc.
Qed.

(** C19. What the bulk copy loads is the buffer: a staging that succeeds sent one
    row per buffered row, cell by cell in the order of the columns it
    announced, and committed the transaction it began. *)
Theorem Mssql_stage_complete key tempTableName create cols st st' :
  ReadOnlyInMemoryCols (env_td st) = Some cols ->
  PrepareTemporaryTable key tempTableName create st = (Ok tt, st') ->
  exists (st1 : env D) (records : list (list bulk_value)),
    (if create then create_temp_table config key tempTableName (env_td st) else mret tt) st = (Ok tt, st1) /\
    Forall2 (cells_of cast cols) (rows_of (env_td st)) records /\
    env_log st' = env_log st1 ++ [SqlBegin; OutsideCall (PrepareBulk tempTableName (map c_name (valid_columns cols)))]
      ++ map (fun cells => OutsideCall (BulkRow cells)) records
      ++ [OutsideCall BulkEnd; SqlCommit; OutsideCall CloseStmt].
Proof.
  intros Hcols. unfold PrepareTemporaryTable, table_data, gets. rewrite go_bind_run.
  intros ([] & st1 & E1 & ([] & st2 & E2%wrap_go_Ok & E3)%go_bind_Ok)%go_bind_Ok.
  unfold with_local in E3. rewrite bulk_copy_run in E3.
  destruct (bulk_calls (env_td st) tempTableName st2) as [[[]|e|w] st3] eqn:E4; cbn [fst snd is_ok] in E3;
    [injection E3 as <- | by rewrite rollback_run in E3..].
  apply go_bind_Ok in E4 as ([] & st4 & E4%wrap_go_Ok%call_outside_ok & (st5 & E5 & ->)%deferred_Ok).
  apply go_bind_Ok in E5 as ([] & st6 & (records & Hr & E6)%(copy_rows_ok _ _ _ _ _ Hcols) & E7).
  apply go_bind_Ok in E7 as ([] & st7 & E7%wrap_go_Ok%call_outside_ok & E8%wrap_go_Ok).
  exists st1, records. split; [done|]. split; [done|]. rewrite call_outside_log.
  apply (logged TxCommit [SqlCommit]) in E8; [|apply TxCommit_log].
  apply (logged Begin [SqlBegin]) in E2; [|apply Begin_log].
  rewrite E8, E7, E6, E4, E2, Hcols, staged_columns_names, <- !app_assoc. done.
Qed.

(** C30. No transaction of a bulk copy stays open: once it began, a staging that
    fails, by an error or a panic, a failing commit included, rolls back
    once, as its last call; one that succeeds committed, and does not roll back. *)
Theorem Mssql_rolls_back key tempTableName (create : bool) (st st1 st2 : env D) :
  (if create then create_temp_table config key tempTableName (env_td st) else mret tt) st = (Ok tt, st1) ->
  Begin st1 = (Ok tt, st2) ->
  let '(r, st') := PrepareTemporaryTable key tempTableName create st in
  exists calls, OutsideCall Rollback ∉ calls /\
    match r with
    | Ok _ => env_log st' = env_log st2 ++ calls /\ exists before, calls = before ++ [SqlCommit; OutsideCall CloseStmt]
    | _ => env_log st' = env_log st2 ++ calls ++ [OutsideCall Rollback]
    end.
Proof.
  intros E1 E2. unfold PrepareTemporaryTable, table_data, gets. rewrite !go_bind_run, E1, go_bind_run.
  unfold wrap_go. rewrite E2. cbn [wrap_err]. unfold with_local. rewrite bulk_copy_run.
  destruct (bulk_calls_log (env_td st) tempTableName st2) as (calls & Hlog & Hcalls).
  assert (Hno : OutsideCall Rollback ∉ calls) by (intros Hin; rewrite Forall_forall in Hcalls; by apply (Hcalls _ Hin)).
  destruct (bulk_calls (env_td st) tempTableName st2) as [r st3] eqn:E4. cbn [fst snd] in *.
  destruct r as [[]|e|w]; cbn [is_ok].
  - change (rollback_unless_committed true st3) with (Ok tt, st3). cbv iota beta.
    exists calls. split; [done|]. split; [exact Hlog|].
    apply bulk_calls_commit in E4 as (before & E4). rewrite Hlog in E4. apply app_inv_head in E4. by exists before.
  - rewrite rollback_run. cbv iota beta. exists calls. split; [done|]. by rewrite call_outside_log, Hlog, app_assoc.
  - rewrite rollback_run. cbv iota beta. exists calls. split; [done|]. by rewrite call_outside_log, Hlog, app_assoc.
Qed.
Lemma keeps_rows_Mssql Int63n : preserves keeps_rows (Merge Int63n) /\ preserves keeps_rows Append.
Proof.
  split; [apply (Merge_Append_keep_rows Int63n config _ (mkAppendOpts EmptyString EmptyString))|].
  apply preserves_bind; [apply _ | apply preserves_gets, _ |]. intros td.
  apply (Merge_Append_keep_rows Int63n config (mkMergeOpts false false [] false)).
Qed.
End Client.

Lemma Mssql_stage_complete_witness :
  let run := PrepareTemporaryTable (base := quiet_store MSSQL) (H := quiet_outside) (H0 := plain_std)
               some_rows example_config "orders" "dbo.orders___artie_x" true example_stage_env in
  exists (st1 : env Z) (records : list (list bulk_value)),
    Forall2 (cells_of (cast (H0 := plain_std) example_config) example_stage_columns)
      (some_rows example_merge_table) records /\
    env_log (snd run) = env_log st1
      ++ [SqlBegin; OutsideCall (PrepareBulk "dbo.orders___artie_x" (map c_name (valid_columns example_stage_columns)))]
      ++ map (fun cells => OutsideCall (BulkRow cells)) records ++ [OutsideCall BulkEnd; SqlCommit; OutsideCall CloseStmt].
Proof.
  cbv zeta. set (run := PrepareTemporaryTable _ _ _ _ _ _). destruct run as [[[]|e|w] st'] eqn:E;
    [|exfalso; vm_compute in E; discriminate..].
  destruct (Mssql_stage_complete (base := quiet_store MSSQL) (H := quiet_outside) (H0 := plain_std)
    some_rows example_config "orders" "dbo.orders___artie_x" true example_stage_columns
    example_stage_env st' eq_refl E) as (st1 & records & _ & Hr & Hlog).
  exists st1, records. split; [exact Hr | exact Hlog].
Defined.

(** A driver whose bulk copy fails *)
Definition failing_bulk : Outside Z := {|
  outside c d := match c with BulkEnd => (Some (ErrNew "connection reset"), d) | _ => (None, d) end
|}.

Lemma Mssql_rolls_back_witness :
  let run := PrepareTemporaryTable (base := quiet_store MSSQL) (H := failing_bulk) (H0 := plain_std)
    some_rows example_config "orders" "dbo.orders___artie_x" false example_stage_env in
  is_ok (fst run) = false /\
  exists calls, OutsideCall Rollback ∉ calls /\ env_log (snd run) = SqlBegin :: calls ++ [OutsideCall Rollback].
Proof.
  cbv zeta.
  pose proof (Mssql_rolls_back (base := quiet_store MSSQL) (H := failing_bulk) (H0 := plain_std)
    some_rows example_config "orders" "dbo.orders___artie_x" false example_stage_env example_stage_env
    (mkEnv 0 {[ "orders" := NewDwhTableConfig [] ∅ true false ]} example_merge_table [SqlBegin]) eq_refl eq_refl) as Hr.
  set (run := PrepareTemporaryTable _ _ _ _ _ _) in *. assert (Hok : is_ok (fst run) = false) by (vm_compute; reflexivity).
  split; [exact Hok|]. clearbody run. destruct run as [[[]|e|w] st']; [discriminate Hok| |]; exact Hr.
Defined.
End Mssql.
