(* ===== verification/Bigquery.v ===== *)
(** The BigQuery client: [clients/bigquery].  A buffer is staged by streaming
    its rows in batches; a partitioned table adds the distinct dates of the
    rows to the merge. *)
From S2P Require Import Prelude GoLang Constants StringUtil Decimal Values Typing Columns CastValues Config Kafkalib.
From S2P Require Import TableData Effects TableConfig Event Cdc Warehouse Ddl Dml Shared Staging.
Local Open Scope string_scope.
Local Open Scope list_scope.
Local Open Scope Z_scope.

Module Bigquery.

Record Store := mkStore { batchSize : Z; ProjectID : string; config : Config }.

Definition GooglePathToCredentialsEnvKey : string := "GOOGLE_APPLICATION_CREDENTIALS".

(** [_store]: a connection is given, for tests, which leaves the batch size 0 *)
Definition LoadBigQuery {D} `{Outside D} (cfg : Config) (_store : bool) : go (env D) Store :=
  match cfg_BigQuery cfg with
  | None => lift nil_deref
  | Some b =>
      let b := LoadDefaultValues b in
      if _store then mret (mkStore 0 (bq_ProjectID b) cfg)
      else
        (if String.eqb (bq_PathToCredentials b) EmptyString then mret tt
         else panic_on_error ("Error setting env var for " +:+ GooglePathToCredentialsEnvKey)
                (call_outside (Setenv GooglePathToCredentialsEnvKey (bq_PathToCredentials b)))) ;;
        db_Open "bigquery" (BigQuery_DSN b) ;;
        mret (mkStore (bq_BatchSize b) (bq_ProjectID b) cfg)
  end.

Definition isTableQuotaError (err : error) : bool :=
  contains (error_text err) "Exceeded rate limits: too many table update operations for this table".

Definition tableRelName (fqName : string) : result string :=
  let fqNameParts := split_on "." fqName in
  if (length fqNameParts <? 3)%nat then errorf ("invalid fully qualified name: " +:+ fqName)
  else Ok (join "." (drop 2 fqNameParts)).

Section Client.
Context {D : Type} {base : SqlStore D} `{Outside D} `{GoStd}.
(** The order in which Go iterates over the rows *)
Context (rows_of : TableData -> list row) (s : Store).

Definition IsRetryableError (err : error) : bool :=
  if isTableQuotaError err then true else @Warehouse.IsRetryableError D base err.

#[local] Instance store : SqlStore D := {|
  Label := BigQuery;
  driver_Exec := @driver_Exec D base;
  driver_Query := @driver_Query D base;
  driver_Begin := @driver_Begin D base;
  driver_TxExec := @driver_TxExec D base;
  driver_Commit := @driver_Commit D base;
  Warehouse.IsRetryableError := IsRetryableError;
  Now := @Now D base
|}.

Definition up : bool := UppercaseEscapedNames (config s).

Definition fq_name (td : TableData) (escape : bool) : string :=
  ToFqName td Label escape up (mkFqNameOpts (ProjectID s) EmptyString).

Definition table_cfg_args (td : TableData) : GetTableCfgArgs :=
  mkGetTableCfgArgs (fq_name td true)
    ("SELECT column_name, data_type, description FROM `" +:+ tc_Database (td_TopicConfig td)
       +:+ ".INFORMATION_SCHEMA.COLUMN_FIELD_PATHS` WHERE table_name = ?;")
    [td_name td] "column_name" "data_type" "description" (Some EmptyString)
    (tc_DropDeletedColumns (td_TopicConfig td)).

Definition cast (v : value) (c : Column) : result value :=
  wrap_err ("failed to cast col " +:+ c_name c +:+ ": ") EmptyString
    (castColVal v c (AdditionalDateFormats (TypingSettings (config s)))).

(** [data]: the cells that are not NULL, by column *)
Definition data_of (names : list string) (cells : list value) : row :=
  list_to_map (List.filter (fun kv => negb (is_nil (snd kv))) (zip names cells)).

Definition bigquery_row (cols : option (list Column)) (r : row) : result row :=
  data_of (staged_columns cols up) <$> cast_row cast cols up r.

(** [GetClient] panics when there is no client. *)
Definition GetClient : go (env D) unit :=
  r ← attempt (call_outside NewClient);
  lift (match r with Err e => Panic (error_text e) | _ => Ok tt end).

Definition put_chunk (dataset relTableName : string) (chunk : result (list row)) : go (env D) unit :=
  rows ← lift chunk;
  wrap_go "failed to insert rows: " EmptyString (call_outside (PutRows dataset relTableName rows)).

(** The loop over the batches runs at most once per row, unless the batch size
    is not positive: the Go loop then does not end, which the model reports as
    a panic. *)
Definition putTable (dataset tableName : string) (rows : list row) : go (env D) unit :=
  relTableName ← wrap_go "failed to get table name: " EmptyString (lift (tableRelName tableName));
  GetClient ;;
  deferred (call_outside CloseClient)
    (match chunks (length rows) (NewBatch rows (batchSize s)) with
     | Some cs => for_each (put_chunk dataset relTableName) cs
     | None => lift (Panic "the batches do not end")
     end).

Definition PrepareTemporaryTable (key tempTableName : string) (createTempTable : bool) : go (env D) unit :=
  td ← table_data;
  (if createTempTable then create_temp_table (config s) key tempTableName td else mret tt) ;;
  rows ← lift (traverse (bigquery_row (ReadOnlyInMemoryCols td)) (rows_of td));
  putTable (tc_Database (td_TopicConfig td)) tempTableName rows.

Lemma keeps_td_Bigquery_Prepare key tempTableName create : preserves keeps_td (PrepareTemporaryTable key tempTableName create).
Proof. unfold PrepareTemporaryTable, putTable, put_chunk, GetClient, table_data. preserve. Qed.

#[local] Instance warehouse : DataWarehouse D := {|
  Warehouse.ToFullyQualifiedName := fq_name;
  Warehouse.GetTableConfig td := GetTableConfig_shared (table_cfg_args td);
  Warehouse.PrepareTemporaryTable key tempTableName _ create := PrepareTemporaryTable key tempTableName create
|}.

#[local] Instance laws : DataWarehouseLaws D.
Proof.
  split.
  - intros td st. apply keeps_td_GetTableConfig_shared.
  - intros td st key st'. apply GetTableConfig_shared_some.
  - intros key tempTableName c b st. apply keeps_td_Bigquery_Prepare.
Qed.

(** The condition on the partition that a merge adds *)
Definition partition_strings (td : TableData) : result (list string) :=
  match tc_BigQueryPartitionSettings (td_TopicConfig td) with
  | None => Ok []
  | Some settings =>
      distinctDates ← wrap_err "failed to generate distinct dates: " EmptyString
        (DistinctDates td (PartitionField settings) (AdditionalDateFormats (TypingSettings (config s))));
      mergeString ← GenerateMergeString (Some settings) distinctDates;
      Ok [mergeString]
  end.

Definition Merge (Int63n : Z -> Z -> Z) : go (env D) unit :=
  td ← table_data;
  additionalEqualityStrings ← lift (partition_strings td);
  Shared.Merge Int63n (config s) (mkMergeOpts false false additionalEqualityStrings true).

Definition Append : go (env D) unit :=
  td ← table_data;
  Shared.Append (config s) (mkAppendOpts (fq_name td true) EmptyString).

Definition Dedupe (fqTableName : string) : result unit := errorf "dedupe is not yet implemented".

(** ** Streaming *)

Lemma put_chunks_ok dataset rel cs st st' :
  for_each (put_chunk dataset rel) (map Ok cs) st = (Ok tt, st') ->
  env_log st' = env_log st ++ map (fun rows => OutsideCall (PutRows dataset rel rows)) cs.
Proof.
  revert st. induction cs as [|rows cs IH]; intros st; cbn [map for_each].
  - intros [= <-]. by rewrite app_nil_r.
  - intros ([] & st1 & (rows' & st2 & E1 & E2%wrap_go_Ok%call_outside_ok)%go_bind_Ok & E3%IH)%go_bind_Ok.
    injection E1 as <- <-. by rewrite E3, E2, <- app_assoc.
Qed.

Lemma GetClient_ok st st' : GetClient st = (Ok tt, st') -> env_log st' = env_log st ++ [OutsideCall NewClient].
Proof.
  apply logged. clear st st'. intros st. unfold GetClient. rewrite go_bind_run. unfold attempt.
  pose proof (call_outside_log NewClient st) as Hl. pose proof (call_outside_no_panic NewClient st) as Hp.
  destruct (call_outside NewClient st) as [[[]|e|w] st1]; [done..|]. by destruct (Hp w).
Qed.

Definition streamed (cols : list Column) (r data : row) : Prop :=
  exists cells, cells_of cast cols r cells /\ data = data_of (map c_name (valid_columns cols)) cells.

Lemma bigquery_rows_streamed cols rows datas :
  columns_wf cols -> traverse (bigquery_row (Some cols)) rows = Ok datas -> Forall2 (streamed cols) rows datas.
Proof.
  intros Hwf Hr%traverse_Ok. apply (Forall2_impl _ _ _ _ Hr). intros r data. unfold bigquery_row.
  destruct (cast_row cast (Some cols) up r) as [cells|e|w] eqn:Hc; intros [= <-].
  exists cells. split; [by apply cast_row_cells in Hc | done].
Qed.

(** C20. What is streamed is the buffer: with a positive batch size, a staging
    that succeeds sent every buffered row once and in order, in non-empty
    batches no larger than the batch size, each row with the casts of its
    columns that are not NULL. *)
Theorem Bigquery_stage_complete key tempTableName (create : bool) cols (st st' : env D) :
  ReadOnlyInMemoryCols (env_td st) = Some cols ->
  0 < batchSize s -> Z.of_nat (length (rows_of (env_td st))) + batchSize s <= max_int64 ->
  PrepareTemporaryTable key tempTableName create st = (Ok tt, st') ->
  exists (st1 : env D) (batches : list (list row)) rel,
    (if create then create_temp_table (config s) key tempTableName (env_td st) else mret tt) st = (Ok tt, st1) /\
    tableRelName tempTableName = Ok rel /\
    Forall2 (streamed cols) (rows_of (env_td st)) (concat batches) /\
    Forall (fun batch => batch <> [] /\ Z.of_nat (length batch) <= batchSize s) batches /\
    env_log st' = env_log st1 ++ [OutsideCall NewClient]
      ++ map (fun rows => OutsideCall (PutRows (tc_Database (td_TopicConfig (env_td st))) rel rows)) batches
      ++ [OutsideCall CloseClient].
Proof.
  intros Hcols Hpos Hmax. unfold PrepareTemporaryTable, table_data, gets. rewrite go_bind_run.
  intros ([] & st1 & E1 & (datas & st2 & E2 & E3)%go_bind_Ok)%go_bind_Ok. injection E2 as E2 <-. rewrite Hcols in E2.
  apply bigquery_rows_streamed in E2; [|by eapply ReadOnlyInMemoryCols_Some_wf].
  apply go_bind_Ok in E3 as (rel & st3 & E3%wrap_go_Ok & ([] & st4 & E4%GetClient_ok & (st5 & E5 & ->)%deferred_Ok)%go_bind_Ok).
  injection E3 as E3 <-. rewrite (Forall2_length _ _ _ E2) in Hmax.
  destruct (chunks_from datas (batchSize s) 0%nat Hpos Hmax ltac:(lia) (length datas) 0 ltac:(lia) ltac:(by left))
    as (cs & Hcs & Hcat & Hall).
  unfold NewBatch in E5. rewrite Hcs in E5. apply put_chunks_ok in E5. exists st1, cs, rel. rewrite Hcat.
  split_and!; [done.. |]. rewrite call_outside_log, E5, E4, <- !app_assoc. done.
Qed.

(** ** Partitions *)

Lemma distinct_dates_missing col fmts rows set r :
  r ∈ rows -> r !! col = None -> forall dates, distinct_dates_set col fmts rows set <> Ok dates.
Proof.
  revert set. induction rows as [|r' rows IH]; intros set Hin Hmiss dates; [inversion Hin|].
  cbn [distinct_dates_set]. apply elem_of_cons in Hin as [->|Hin]; [by rewrite Hmiss|].
  destruct (r' !! col) as [v|]; [|done].
  destruct (wrap_err _ _ _) as [t|e|w]; [|done..]. by apply IH.
Qed.

(** A merge into a partitioned table needs the partition column in every
    buffered row: one row without it, such as the row of a deletion, fails
    the merge of the whole buffer before anything is sent. *)
Theorem Bigquery_partition_missing Int63n st settings r :
  tc_BigQueryPartitionSettings (td_TopicConfig (env_td st)) = Some settings ->
  r ∈ map snd (map_to_list (td_rowsData (env_td st))) -> r !! PartitionField settings = None ->
  fst (Merge Int63n st) <> Ok tt /\ snd (Merge Int63n st) = st.
Proof.
  intros Hset Hr Hmiss. unfold Merge, table_data, gets. rewrite !go_bind_run. unfold lift, partition_strings.
  rewrite Hset. unfold DistinctDates.
  pose proof (distinct_dates_missing (PartitionField settings) (AdditionalDateFormats (TypingSettings (config s)))
                _ ∅ r Hr Hmiss) as Hd.
  destruct (distinct_dates_set _ _ _ _) as [dates|e|w]; [by destruct (Hd dates)|..]; done.
Qed.
Lemma keeps_rows_Bigquery Int63n : preserves keeps_rows (Merge Int63n) /\ preserves keeps_rows Append.
Proof.
  split; (apply preserves_bind; [apply _ | apply preserves_gets, _ |]); intros td.
  - apply preserves_bind; [apply _ | apply preserves_lift, _ |]. intros strs.
    apply (Merge_Append_keep_rows Int63n (config s) _ (mkAppendOpts EmptyString EmptyString)).
  - apply (Merge_Append_keep_rows Int63n (config s) (mkMergeOpts false false [] false)).
Qed.
End Client.

Definition example_store : Store := mkStore 2 "project" example_config.

Lemma Bigquery_stage_complete_witness :
  let run := PrepareTemporaryTable (base := quiet_store BigQuery) (H := quiet_outside) (H0 := plain_std)
               some_rows example_store "orders" "`project`.`db`.orders___artie_x" true example_stage_env in
  exists batches, Forall2 (streamed (H0 := plain_std) example_store example_stage_columns)
      (some_rows example_merge_table) (concat batches) /\
    last (env_log (snd run)) = Some (OutsideCall CloseClient).
Proof.
  cbv zeta. set (run := PrepareTemporaryTable _ _ _ _ _ _). destruct run as [[[]|e|w] st'] eqn:E;
    [|exfalso; vm_compute in E; discriminate..].
  destruct (Bigquery_stage_complete (base := quiet_store BigQuery) (H := quiet_outside) (H0 := plain_std)
    some_rows example_store "orders" "`project`.`db`.orders___artie_x" true example_stage_columns
    example_stage_env st' eq_refl eq_refl) as (st1 & batches & rel & _ & _ & Hr & _ & Hlog).
  - intros Hn. vm_compute in Hn. discriminate Hn.
  - exact E.
  - exists batches. split; [exact Hr|]. cbn [snd]. rewrite Hlog. by rewrite !app_assoc, last_snoc.
Defined.

(** A table partitioned by day, with one deleted row *)
Definition partitioned_topic : TopicConfig :=
  mkTopicConfig "db" "orders" "public" "topic" EmptyString "debezium.postgres" JSONKeyFmt false false EmptyString
    false false (Some (mkBigQuerySettings "time" "created_at" "daily")) None.
Definition partitioned_table : TableData :=
  InsertRow (H := plain_std) (NewTableData (Some [NewColumn "id" Integer]) Replication ["id"] partitioned_topic "orders")
    "id=1" (deleted_row (H := plain_std) {[ "id" := VInt KInt 1 ]} partitioned_topic zero_time) true.

Lemma Bigquery_partition_missing_witness :
  let st := mkEnv 0 ∅ partitioned_table [] in
  fst (Merge (base := quiet_store BigQuery) (H := quiet_outside) (H0 := plain_std)
         some_rows example_store (fun _ _ => 0) st) <> Ok tt.
Proof.
  cbv zeta.
  refine (proj1 (Bigquery_partition_missing (base := quiet_store BigQuery) (H := quiet_outside) (H0 := plain_std)
    some_rows example_store (fun _ _ => 0) (mkEnv 0 ∅ partitioned_table []) (mkBigQuerySettings "time" "created_at" "daily")
    (deleted_row (H := plain_std) {[ "id" := VInt KInt 1 ]} partitioned_topic zero_time) _ _ _)).
  - reflexivity.
  - apply list_elem_of_In. vm_compute. left. reflexivity.
  - vm_compute. reflexivity.
Defined.
End Bigquery.
