(* ===== verification/S3.v ===== *)
(** The S3 destination: [clients/s3].  A buffer is written to a Parquet file
    that is uploaded under the table's name and day; merging and appending are
    the same. *)
From S2P Require Import Prelude GoLang Constants StringUtil Decimal Values Typing Columns CastValues Parquet Config Kafkalib.
From S2P Require Import TableData Effects Warehouse Ddl Dml Shared Staging.
Local Open Scope string_scope.
Local Open Scope list_scope.
Local Open Scope Z_scope.

Module S3Client.

Record Store := mkStore { config : Config; settings : S3Settings; uppercaseEscNames : bool }.

(** [LoadStore]: a store of valid settings *)
Definition LoadStore (cfg : Config) : result Store :=
  wrap_err "failed to validate settings: " EmptyString (S3_Validate (cfg_S3 cfg)) ;;
  match cfg_S3 cfg with
  | Some s => Ok (mkStore cfg s false)
  | None => nil_deref
  end.

Section Client.
Context {D : Type} `{Outside D} `{GoStd}.
(** The order in which Go iterates over the rows *)
Context (rows_of : TableData -> list row) (s : Store).

Definition IsRetryableError (err : error) : bool := false.

Definition ObjectPrefix (td : TableData) : string :=
  let fqTableName := ToFqName td S3 false (uppercaseEscNames s) (mkFqNameOpts EmptyString EmptyString) in
  let yyyyMMDDFormat := time_Format (td_LatestCDCTs td) PostgresDateFormat in
  if String.eqb (s3_OptionalPrefix (settings s)) EmptyString then join "/" [fqTableName; yyyyMMDDFormat]
  else join "/" [s3_OptionalPrefix (settings s); fqTableName; yyyyMMDDFormat].

(** The columns of the schema: those of a known type *)
Definition schema_columns (td : TableData) : list Column := valid_columns (GetColumns (ReadOnlyInMemoryCols td)).

(** [draws]: the random choices of the four characters of the file's name *)
Definition file_path (td : TableData) (draws : list nat) : string :=
  "/tmp/" +:+ itoa (t_ns (td_LatestCDCTs td) / Millisecond) +:+ "_" +:+ stringWithCharset draws +:+ ".parquet.gz".

(** One cell of a row, and its error *)
Definition parse_cell (cols : option (list Column)) (r : row) (col : string) : result (string * value) :=
  match GetColumn (GetColumns cols) col with
  | None => errorf ("expected column: " +:+ col +:+ " to exist in readOnlyInMemoryCols(...) but it does not")
  | Some colKind =>
      let v := default VNil (r !! col) in
      value ← wrap_err "failed to parse value, err: " (", value: " +:+ Sprint v +:+ ", column: " +:+ col)
                (parquet_ParseValue v colKind (AdditionalDateFormats (TypingSettings (config s))));
      Ok (col, value)
  end.

(** A row as the JSON text the Parquet writer takes *)
Definition row_json (td : TableData) (r : row) : result string :=
  cells ← traverse (parse_cell (ReadOnlyInMemoryCols td) r)
            (staged_columns (ReadOnlyInMemoryCols td) (uppercaseEscNames s));
  wrap_err "failed to marshal row: " EmptyString (marshal (VMap (sorted_entries (list_to_map cells)))).

Definition write_row (td : TableData) (r : row) : go (env D) unit :=
  json ← lift (row_json td r);
  wrap_go "failed to write row: " EmptyString (call_outside (ParquetRow json)).

Definition Merge (draws : list nat) : go (env D) unit :=
  td ← table_data;
  if ShouldSkipUpdate td then mret tt
  else
    schema ← wrap_go "failed to generate parquet schema: " EmptyString (lift (GenerateJSONSchema (schema_columns td)));
    let fp := file_path td draws in
    wrap_go "failed to create a local parquet file: " EmptyString (call_outside (CreateFile fp)) ;;
    wrap_go "failed to instantiate parquet writer: " EmptyString (call_outside (ParquetWriter fp schema)) ;;
    for_each (write_row td) (rows_of td) ;;
    wrap_go "failed to write stop: " EmptyString (call_outside ParquetStop) ;;
    wrap_go "failed to close filewriter: " EmptyString (call_outside (CloseFile fp)) ;;
    deferred (remove_file fp)
      (wrap_go "failed to upload file to s3: " EmptyString
         (UploadLocalFileToS3 (s3_Bucket (settings s)) (ObjectPrefix td) fp) ;;
       mret tt).

Definition Append (draws : list nat) : go (env D) unit := Merge draws.

Lemma write_rows_ok td rows st st' :
  for_each (write_row td) rows st = (Ok tt, st') ->
  exists jsons, Forall2 (fun r json => row_json td r = Ok json) rows jsons /\
    env_log st' = env_log st ++ map (fun json => OutsideCall (ParquetRow json)) jsons.
Proof.
  revert st. induction rows as [|r rows IH]; intros st; cbn [for_each].
  - intros [= <-]. exists []. split; [constructor | by rewrite app_nil_r].
  - intros ([] & st1 & (json & st2 & E1 & E2%wrap_go_Ok%call_outside_ok)%go_bind_Ok & (jsons & Hj & E3)%IH)%go_bind_Ok.
    injection E1 as E1 <-. exists (json :: jsons).
    split; [by constructor|]. by rewrite E3, E2, <- app_assoc.
Qed.

(** C31. The object holds the buffer: a merge that succeeds created a Parquet
    file with the generated schema, wrote one JSON row per buffered row,
    closed the file before uploading it under the table's name and day, and
    removed it. *)
Theorem S3_Merge_complete draws st st' :
  ShouldSkipUpdate (env_td st) = false -> Merge draws st = (Ok tt, st') ->
  let td := env_td st in
  let fp := file_path td draws in
  exists schema jsons,
    GenerateJSONSchema (schema_columns td) = Ok schema /\
    Forall2 (fun r json => row_json td r = Ok json) (rows_of td) jsons /\
    env_log st' = env_log st ++ map OutsideCall
      ([CreateFile fp; ParquetWriter fp schema] ++ map ParquetRow jsons ++
       [ParquetStop; CloseFile fp; LoadAwsConfig; OpenFile fp;
        PutObject (s3_Bucket (settings s)) (object_key (ObjectPrefix td) fp) fp; CloseFile fp; RemoveFile fp]).
Proof.
  intros Hs. unfold Merge, table_data, gets. rewrite go_bind_run, Hs. cbv zeta.
  intros (schema & st1 & Esch%wrap_go_Ok & ([] & st2 & E2%wrap_go_Ok%call_outside_ok & E3)%go_bind_Ok)%go_bind_Ok.
  injection Esch as Esch <-.
  apply go_bind_Ok in E3 as ([] & st3 & E3%wrap_go_Ok%call_outside_ok & ([] & st4 & (jsons & Hj & E4)%write_rows_ok & E5)%go_bind_Ok).
  apply go_bind_Ok in E5 as ([] & st5 & E5%wrap_go_Ok%call_outside_ok & ([] & st6 & E6%wrap_go_Ok%call_outside_ok & E7)%go_bind_Ok).
  apply deferred_Ok in E7 as (st7 & (uri & st8 & (_ & E8)%wrap_go_Ok%UploadLocalFileToS3_ok & E9)%go_bind_Ok & ->).
  injection E9 as <-. exists schema, jsons. split; [done|]. split; [done|].
  destruct (remove_file_run (file_path (env_td st) draws) st8) as [_ ->].
  rewrite E8, E6, E5, E4, E3, E2, !map_app, map_map, <- !app_assoc. done.
Qed.
End Client.

(** [quoting_std] with an encoder that accepts every value *)
Definition encoding_std : GoStd := {|
  time_Parse := fun _ _ => None;
  time_Format := fun t _ => itoa (t_ns t);
  json_Valid := fun _ => false;
  json_Unmarshal := fun _ => None;
  json_Marshal := fun v => match v with VString s => Some (quote s) | _ => Some "{}" end;
  base64_Decode := fun _ => None;
  base64_Encode := fun b => join "," (map itoa b);
  sprint_float := fun _ => "float";
  sprint_time := fun t => itoa (t_ns (et_Time t));
  float_shortest := fun f => itoa (bf_mant f);
  parse_Float := fun _ => None;
  float_Overflow := fun _ => min_int64
|}.

Definition example_store : Store := mkStore example_config (mkS3Settings "lake" "bucket" "id" "secret" "parquet") false.

Lemma S3_Merge_complete_witness :
  let run := Merge (H := quiet_outside) (H0 := encoding_std) some_rows example_store
               [0; 1; 2; 3]%nat example_stage_env in
  exists jsons, Forall2 (fun r json => row_json (H0 := encoding_std) example_store example_merge_table r = Ok json)
      (some_rows example_merge_table) jsons /\
    last (env_log (snd run)) =
      Some (OutsideCall (RemoveFile (file_path example_merge_table [0; 1; 2; 3]%nat))).
Proof.
  cbv zeta. set (run := Merge _ _ _ _). destruct run as [[[]|e|w] st'] eqn:E;
    [|exfalso; vm_compute in E; discriminate..].
  destruct (S3_Merge_complete (H := quiet_outside) (H0 := encoding_std) some_rows example_store
    [0; 1; 2; 3]%nat example_stage_env st' eq_refl E) as (schema & jsons & _ & Hj & Hlog).
  exists jsons. split; [exact Hj|]. cbn [snd]. rewrite Hlog. by rewrite !map_app, !app_assoc, last_app.
Defined.
End S3Client.
