(* ===== verification/Destinations.v ===== *)
(** The destinations, put together: [lib/destination/utils/load.go].  Which
    client a configuration loads, and that each of them, driven by the shared
    algorithms on its own driver, is a [Baseline] for the consumer. *)
From S2P Require Import Prelude GoLang Constants StringUtil Decimal Values Typing Columns Kafkalib Config Dsn Retry.
From S2P Require Import TableData Event Effects TableConfig Warehouse Ddl Dml Shared Staging Consumer.
From S2P Require Import Redshift Snowflake Mssql Bigquery S3.
Local Open Scope string_scope.
Local Open Scope list_scope.
Local Open Scope Z_scope.

(** * The stores *)

Inductive Destination :=
| SnowflakeStore (s : Snowflake.Store)
| BigQueryStore (s : Bigquery.Store)
| MSSQLStore (cfg : Config)
| RedshiftStore (s : Redshift.Store)
| S3Store (s : S3Client.Store).

(** The queue's client: [CommitMessages] of a reader, [Ack] of a message *)
Class QueueClient (D : Type) := {
  CommitMessages : KafkaMessage -> D -> option error * D;
  Ack : pubsubWrapper -> D -> D
}.

(** [mock.DB]: the generated fake of the "test" output *)
Record MockDB (D : Type) := mkMockDB { Fake : SqlStore D }.
Arguments Fake {D}.

Section Destinations.
Context {D : Type} {base : SqlStore D} `{Outside D} `{GoStd} `{Gosnowflake} `{QueueClient D}.
(** The mock, the order in which Go iterates over
    the rows and over the pairs of a sweep, and the random source *)
Context (mock : MockDB D) (rows_of : TableData -> list row)
        (pairs_of : list TopicConfig -> list (string * string))
        (Int63n : Z -> Z -> Z) (draws_of : D -> list nat).

(** The connection a Snowflake store holds *)
Definition snowflake_base (s : Snowflake.Store) : SqlStore D := if Snowflake.testDB s then Fake mock else base.

(** ** Loading *)

Definition IsOutputBaseline (cfg : Config) : bool := bool_decide (cfg_Output cfg = S3).

Definition load_Baseline (cfg : Config) : go (env D) Destination :=
  match cfg_Output cfg with
  | S3 =>
      r ← attempt (lift (S3Client.LoadStore cfg));
      match r with
      | Ok store => mret (S3Store store)
      | _ => lift (Panic "Failed to load s3")
      end
  | _ => lift (Panic "No valid output sources specified")
  end.

Definition sweep_pairs (cfg : Config) : list (string * string) :=
  match TopicConfigs cfg with Ok tcs => pairs_of tcs | _ => [] end.

(** [DataWarehouse]; [store] says whether a connection is given. *)
Definition load_DataWarehouse (cfg : Config) (store : bool) : go (env D) Destination :=
  match cfg_Output cfg with
  | Test => s ← Snowflake.LoadSnowflake cfg true; mret (SnowflakeStore s)
  | Snowflake =>
      s ← Snowflake.LoadSnowflake cfg store;
      panic_on_error "Failed to clean up snowflake"
        (Snowflake.Sweep (base := snowflake_base s) s (sweep_pairs cfg)) ;;
      mret (SnowflakeStore s)
  | BigQuery => s ← Bigquery.LoadBigQuery cfg store; mret (BigQueryStore s)
  | MSSQL =>
      s ← Mssql.LoadStore cfg;
      panic_on_error "Failed to clean up mssql" (Mssql.Sweep s (sweep_pairs cfg)) ;;
      mret (MSSQLStore s)
  | Redshift =>
      s ← Redshift.LoadRedshift cfg store;
      panic_on_error "Failed to clean up redshift" (Redshift.Sweep s (sweep_pairs cfg)) ;;
      mret (RedshiftStore s)
  | _ => lift (Panic "No valid output sources specified")
  end.

(** What [main] does with the two *)
Definition load_destination (cfg : Config) : go (env D) Destination :=
  if IsOutputBaseline cfg then load_Baseline cfg else load_DataWarehouse cfg false.

(** ** Writing *)

Definition dest_Merge (d : Destination) : go (env D) unit :=
  match d with
  | SnowflakeStore s => Snowflake.Merge (base := snowflake_base s) rows_of s Int63n
  | BigQueryStore s => Bigquery.Merge rows_of s Int63n
  | MSSQLStore cfg => Mssql.Merge rows_of cfg Int63n
  | RedshiftStore s => Redshift.Merge rows_of s Int63n
  | S3Store s => draws ← gets (fun st => draws_of (env_db st)); S3Client.Merge rows_of s draws
  end.

Definition dest_Append (d : Destination) : go (env D) unit :=
  match d with
  | SnowflakeStore s => Snowflake.Append (base := snowflake_base s) rows_of s
  | BigQueryStore s => Bigquery.Append rows_of s
  | MSSQLStore cfg => Mssql.Append rows_of cfg
  | RedshiftStore s => Redshift.Append rows_of s
  | S3Store s => draws ← gets (fun st => draws_of (env_db st)); S3Client.Append rows_of s draws
  end.

(** ** As a [Baseline] *)

(** The world of the consumer: the outside, the configurations, the log *)
Definition world : Type := D * gmap string DwhTableConfig * list sql_event.

Definition in_world (m : go (env D) unit) (td : TableData) (w : world) : result unit * TableData * world :=
  let '(db, configs, log) := w in
  let '(r, st) := m (mkEnv db configs td log) in
  (r, env_td st, (env_db st, env_configs st, env_log st)).

Definition destination_baseline (d : Destination) : Baseline world := {|
  base_Merge := in_world (dest_Merge d);
  base_Append := in_world (dest_Append d);
  queue_Commit := fun k w => let '(db, configs, log) := w in
                             let '(e, db) := CommitMessages k db in (e, (db, configs, log));
  queue_Ack := fun p w => let '(db, configs, log) := w in (Ack p db, configs, log)
|}.

Lemma in_world_same_rows m td w : preserves keeps_rows m -> same_rows td (snd (fst (in_world m td w))).
Proof.
  intros Hm. destruct w as [[db configs] log]. unfold in_world.
  specialize (Hm (mkEnv db configs td log)). by destruct (m _).
Qed.

Lemma keeps_td_S3_Merge s draws : preserves keeps_td (S3Client.Merge rows_of s draws).
Proof. unfold S3Client.Merge, S3Client.write_row, table_data. preserve. Qed.

(** Each client's writes leave the buffered rows as they were. *)
Lemma dest_keeps_rows d : preserves keeps_rows (dest_Merge d) /\ preserves keeps_rows (dest_Append d).
Proof.
  destruct d as [s | s | cfg | s | s]; cbn [dest_Merge dest_Append].
  - exact (Snowflake.Snowflake_keeps_buffer (base := snowflake_base s) rows_of s Int63n).
  - exact (Bigquery.keeps_rows_Bigquery rows_of s Int63n).
  - exact (Mssql.keeps_rows_Mssql rows_of cfg Int63n).
  - exact (Redshift.keeps_rows_Redshift rows_of s Int63n).
  - split; (apply preserves_bind; [apply _ | apply preserves_gets, _ |]; intros draws; apply keeps_of_td, keeps_td_S3_Merge).
Qed.

#[export] Instance destination_laws d : BaselineLaws (H := destination_baseline d) world.
Proof. destruct (dest_keeps_rows d) as [Hm Ha]. split; intros td w; by apply in_world_same_rows. Qed.

(** ** What loading gives *)

(** The section of the settings a loader reads *)
Definition section_present (cfg : Config) : Prop :=
  match cfg_Output cfg with
  | Snowflake => is_Some (cfg_Snowflake cfg)
  | BigQuery => is_Some (cfg_BigQuery cfg)
  | _ => True
  end.

(** The destination is the one the output names. *)
Definition destination_for (cfg : Config) (d : Destination) : Prop :=
  match d with
  | SnowflakeStore s => cfg_Output cfg = (if Snowflake.testDB s then Test else Snowflake) /\ Snowflake.config s = cfg
  | BigQueryStore s => cfg_Output cfg = BigQuery /\ Bigquery.config s = cfg
  | MSSQLStore c => cfg_Output cfg = MSSQL /\ c = cfg
  | RedshiftStore s => cfg_Output cfg = Redshift /\ Redshift.config s = cfg
  | S3Store s => cfg_Output cfg = S3 /\ S3Client.config s = cfg
  end.

(** [m] does not fail with an error, and its outcomes are in [P]. *)
Definition gives {A} (P : A -> Prop) (m : go (env D) A) : Prop :=
  forall st, match fst (m st) with Ok a => P a | Err _ => False | Panic _ => True end.

Lemma gives_bind {A B} (P : A -> Prop) (Q : B -> Prop) m (f : A -> go (env D) B) :
  gives P m -> (forall a, P a -> gives Q (f a)) -> gives Q (m ≫= f).
Proof.
  intros Hm Hf st. rewrite go_bind_run. specialize (Hm st). destruct (m st) as [[a|e|w] st1]; [|done..]. by apply Hf.
Qed.

Lemma gives_ret {A} (P : A -> Prop) a : P a -> gives P (mret a).
Proof. intros Ha st. exact Ha. Qed.

Lemma gives_panic_on_error why m : gives (fun _ => True) (panic_on_error why m).
Proof.
  intros st. pose proof (fun e => panic_on_error_no_err why m st e) as Hno. by destruct (fst _) as [|e|]; [| destruct (Hno e) |].
Qed.

Lemma gives_db_Open driverName dsn : gives (fun _ => True) (db_Open driverName dsn).
Proof. apply (gives_bind (fun _ => True)); intros; apply gives_panic_on_error. Qed.

Lemma gives_LoadSnowflake cfg :
  gives (fun s => s = Snowflake.mkStore false cfg /\ is_Some (cfg_Snowflake cfg)) (Snowflake.LoadSnowflake cfg false).
Proof.
  unfold Snowflake.LoadSnowflake, Snowflake.reestablishConnection. cbn [Snowflake.testDB Snowflake.config].
  apply (gives_bind (fun _ => is_Some (cfg_Snowflake cfg))); [|intros _ Hc; by apply gives_ret].
  destruct (cfg_Snowflake cfg) as [c|]; [|done]. destruct (gosnowflake_DSN _) as [dsn| |]; [|done..].
  intros st. pose proof (gives_db_Open "snowflake" dsn st) as Hd. destruct (fst _); [by eexists | done..].
Qed.

Lemma gives_LoadBigQuery cfg :
  gives (fun s => Bigquery.config s = cfg /\ is_Some (cfg_BigQuery cfg)) (Bigquery.LoadBigQuery cfg false).
Proof.
  unfold Bigquery.LoadBigQuery. destruct (cfg_BigQuery cfg) as [b|]; [|done].
  apply (gives_bind (fun _ => True)); [case_match; [by apply gives_ret | apply gives_panic_on_error]|]. intros _ _.
  apply (gives_bind (fun _ => True)); [apply gives_db_Open | intros _ _; apply gives_ret; by split; [|eexists]].
Qed.

(** Whatever the world does, the destination that is loaded is the one the
    settings name, with its section. *)
Lemma load_destination_gives cfg : gives (fun d => section_present cfg /\ destination_for cfg d) (load_destination cfg).
Proof.
  unfold load_destination, IsOutputBaseline, load_Baseline, load_DataWarehouse, section_present.
  destruct (cfg_Output cfg) eqn:Ho; (rewrite bool_decide_true by done) || (rewrite bool_decide_false by done); try done.
  - eapply gives_bind; [apply gives_LoadSnowflake|]. intros s [-> Hc].
    apply (gives_bind (fun _ => True)); [apply gives_panic_on_error | intros _ _; by apply gives_ret].
  - eapply gives_bind; [apply gives_LoadBigQuery|]. intros s [Hc Hs]. by apply gives_ret.
  - apply (gives_bind (fun s => Redshift.config s = cfg)).
    { unfold Redshift.LoadRedshift. destruct (cfg_Redshift cfg) as [r|]; [|done].
      apply (gives_bind (fun _ => True)); [apply gives_db_Open | intros _ _; by apply gives_ret]. }
    intros s Hc. apply (gives_bind (fun _ => True)); [apply gives_panic_on_error | intros _ _; by apply gives_ret].
  - intros st. unfold attempt, lift, S3Client.LoadStore. rewrite go_bind_run.
    destruct (wrap_err _ _ _); [|done..]. by destruct (cfg_S3 cfg).
  - apply (gives_bind (fun c => c = cfg)).
    { unfold Mssql.LoadStore. destruct (cfg_MSSQL cfg) as [m|]; [|done].
      apply (gives_bind (fun _ => True)); [apply gives_db_Open | intros _ _; by apply gives_ret]. }
    intros c ->. apply (gives_bind (fun _ => True)); [apply gives_panic_on_error | intros _ _; by apply gives_ret].
Qed.

(** ** When loading succeeds *)

(** A world that accepts: no outside call and no statement fails, and a listing
    holds rows of two texts. *)
Record Welcoming : Prop := {
  wel_outside : forall c d, fst (outside c d) = None;
  wel_exec : forall q d, fst (driver_Exec (SqlStore := base) q d) = None;
  wel_query : forall q args d, exists rows, fst (driver_Query (SqlStore := base) q args d) = Ok rows /\
                Forall (fun r => is_ok (scan2 r) = true) rows;
  wel_dsn : forall c, is_ok (gosnowflake_DSN c) = true
}.

(** [m] succeeds from every state, with an outcome in [P]. *)
Definition yields {A} (P : A -> Prop) (m : go (env D) A) : Prop :=
  forall st, exists a st', m st = (Ok a, st') /\ P a.

Lemma yields_bind {A B} (P : A -> Prop) (Q : B -> Prop) m (f : A -> go (env D) B) :
  yields P m -> (forall a, P a -> yields Q (f a)) -> yields Q (m ≫= f).
Proof.
  intros Hm Hf st. destruct (Hm st) as (a & st1 & Ha & HP). rewrite go_bind_run, Ha. by apply Hf.
Qed.

Lemma yields_ret {A} (P : A -> Prop) a : P a -> yields P (mret a).
Proof. intros Ha st. by exists a, st. Qed.

Lemma yields_for_each {A} (f : A -> go (env D) unit) l :
  (forall x, x ∈ l -> yields (fun _ => True) (f x)) -> yields (fun _ => True) (for_each f l).
Proof.
  induction l as [|x l IH]; intros Hf; cbn [for_each]; [by apply yields_ret|].
  eapply yields_bind; [apply Hf; left | intros _ _; apply IH; intros y Hy; apply Hf; by right].
Qed.

Lemma yields_panic_on_error P why m : yields P m -> yields P (panic_on_error why m).
Proof. intros Hm st. rewrite panic_on_error_run. destruct (Hm st) as ([] & st' & -> & HP). by exists tt, st'. Qed.

Context (Hw : Welcoming).

Lemma yields_call_outside c : yields (fun _ => True) (call_outside c).
Proof.
  intros st. unfold call_outside. rewrite go_bind_run. unfold driver_call.
  pose proof (wel_outside Hw c (env_db st)) as Hc. destruct (outside c (env_db st)) as [[e|] db]; [done|].
  by do 2 eexists.
Qed.

Lemma yields_db_Open driverName dsn : yields (fun _ => True) (db_Open driverName dsn).
Proof.
  unfold db_Open. eapply yields_bind; [apply yields_panic_on_error, yields_call_outside|].
  intros _ _. apply yields_panic_on_error, yields_call_outside.
Qed.

Lemma yields_sweep_row label pair r :
  is_ok (scan2 r) = true -> yields (fun _ => True) (sweep_row (H := with_label label base) pair r).
Proof.
  intros Hr. unfold sweep_row. destruct (scan2 r) as [[sch tbl]| |]; [|done..].
  eapply (yields_bind (fun names => names = (sch, tbl))); [intros st; by do 2 eexists|]. intros ? ->.
  eapply (yields_bind (fun _ => True)); [intros st; by do 2 eexists|]. intros now _.
  destruct (ShouldDeleteFromName tbl now); [|by apply yields_ret]. unfold DropTemporaryTable.
  destruct (contains _ _); [|by apply yields_ret].
  eapply (yields_bind (fun r => r = Ok tt)); [|intros ? ->; by apply yields_ret].
  intros st. unfold attempt. rewrite Exec_run. simpl.
  rewrite (wel_exec Hw). by do 2 eexists.
Qed.

Lemma yields_Sweep label pairs q : yields (fun _ => True) (Shared.Sweep (H := with_label label base) pairs q).
Proof.
  apply yields_for_each. intros pair _. destruct (q pair) as [query args].
  eapply (yields_bind (Forall (fun r => is_ok (scan2 r) = true))).
  - intros st. unfold Query. rewrite go_bind_run. unfold driver_call. simpl.
    destruct (wel_query Hw query args (env_db st)) as (rows & Hq & Hrows).
    destruct (driver_Query query args (env_db st)) as [r db]. simpl in Hq. subst r. by exists rows; eexists.
  - intros rows Hrows. apply yields_for_each. intros r Hr. apply yields_sweep_row.
    by eapply (proj1 (Forall_forall _ _)) in Hrows.
Qed.

Lemma yields_lift_ok {A} (r : result A) : is_ok r = true -> yields (fun _ => True) (lift r).
Proof. destruct r; [|done..]. intros _ st. by do 2 eexists. Qed.

Lemma yields_client_sweep why label cfg pairs q :
  is_ok (TopicConfigs cfg) = true ->
  yields (fun _ => True)
    (panic_on_error why (lift (TopicConfigs cfg) ;; Shared.Sweep (H := with_label label base) pairs q)).
Proof.
  intros Ht. apply yields_panic_on_error. eapply yields_bind; [by apply yields_lift_ok|].
  intros _ _. apply yields_Sweep.
Qed.

Lemma yields_LoadSnowflake cfg c :
  cfg_Snowflake cfg = Some c -> yields (fun s => s = Snowflake.mkStore false cfg) (Snowflake.LoadSnowflake cfg false).
Proof.
  intros Hc. unfold Snowflake.LoadSnowflake. cbv zeta.
  eapply (yields_bind (fun _ => True)); [|intros _ _; by apply yields_ret].
  unfold Snowflake.reestablishConnection. cbn [Snowflake.testDB Snowflake.config]. rewrite Hc.
  pose proof (wel_dsn Hw (snowflake_connection c)) as Hd. destruct (gosnowflake_DSN _); [apply yields_db_Open | done..].
Qed.

Lemma yields_LoadBigQuery cfg b :
  cfg_BigQuery cfg = Some b -> yields (fun s => Bigquery.config s = cfg) (Bigquery.LoadBigQuery cfg false).
Proof.
  intros Hb. unfold Bigquery.LoadBigQuery. rewrite Hb. cbv zeta.
  eapply (yields_bind (fun _ => True)).
  { destruct (String.eqb _ _); [by apply yields_ret | apply yields_panic_on_error, yields_call_outside]. }
  intros _ _. eapply (yields_bind (fun _ => True)); [apply yields_db_Open | intros _ _; by apply yields_ret].
Qed.

Lemma load_destination_yields cfg :
  destination_valid cfg -> is_ok (TopicConfigs cfg) = true -> section_present cfg ->
  yields (destination_for cfg) (load_destination cfg).
Proof.
  intros Hd Ht Hs. unfold load_destination, IsOutputBaseline, load_Baseline, load_DataWarehouse, destination_valid,
    section_present in *.
  destruct (cfg_Output cfg) eqn:Ho; cbn [bool_decide]; try done.
  - destruct Hs as [c Hc]. eapply yields_bind; [by eapply yields_LoadSnowflake|]. intros s ->.
    eapply (yields_bind (fun _ => True)); [exact (yields_client_sweep _ Snowflake cfg _ _ Ht)|].
    intros _ _. by apply yields_ret.
  - eapply (yields_bind (fun s => s = Snowflake.mkStore true cfg)); [by apply yields_ret|]. intros s ->.
    by apply yields_ret.
  - destruct Hs as [b Hb]. eapply yields_bind; [by eapply yields_LoadBigQuery|]. intros s Hcfg. by apply yields_ret.
  - destruct Hd as (r & Hr & _). eapply (yields_bind (fun s => Redshift.config s = cfg)).
    { unfold Redshift.LoadRedshift. rewrite Hr.
      eapply (yields_bind (fun _ => True)); [apply yields_db_Open | intros _ _; by apply yields_ret]. }
    intros s Hcfg. eapply (yields_bind (fun _ => True)); [|intros _ _; by apply yields_ret].
    unfold Redshift.Sweep. rewrite Hcfg. exact (yields_client_sweep _ Redshift cfg _ _ Ht).
  - destruct Hd as (s & Hs3 & Hf & Hne). eapply (yields_bind (fun r => r = Ok (S3Client.mkStore cfg s false))).
    + intros st. unfold attempt, lift, S3Client.LoadStore. rewrite Hs3.
      assert (Hv : S3_Validate (Some s) = Ok tt).
      { unfold S3_Validate, Empty, IsValidS3OutputFormat. rewrite Hf.
        rewrite (proj2 (existsb_empty_false _) Hne). done. }
      rewrite Hv. by do 2 eexists.
    + intros r ->. by apply yields_ret.
  - destruct Hd as (m & Hm & _). eapply (yields_bind (fun s => s = cfg)).
    { unfold Mssql.LoadStore. rewrite Hm.
      eapply (yields_bind (fun _ => True)); [apply yields_db_Open | intros _ _; by apply yields_ret]. }
    intros s ->. eapply (yields_bind (fun _ => True)); [|intros _ _; by apply yields_ret].
    exact (yields_client_sweep _ MSSQL cfg _ _ Ht).
Qed.

End Destinations.
