(* ===== verification/Application.v ===== *)
(** The application: [main.go], and the start of the queue
    ([processes/consumer/kafka.go], [pubsub.go]).  A configuration is loaded,
    the destination it names is opened and swept, the topics get their formats,
    and the process of [Process] runs on that destination. *)
From S2P Require Import Prelude GoLang Constants StringUtil Decimal Values Typing Columns Kafkalib Config Dsn Retry.
From S2P Require Import TableData Event Effects TableConfig Warehouse Shared Staging Consumer Drain Process S3 Destinations.
Local Open Scope string_scope.
Local Open Scope list_scope.
Local Open Scope Z_scope.

(** * The Kafka consumer *)

Inductive Mechanism := AwsMskIam | PlainMechanism (username password : string).

(** [kafka.Dialer]; [d_TLS] says whether TLS is configured. *)
Record Dialer := mkDialer { d_Timeout : Z; d_DualStack : bool; d_SASLMechanism : option Mechanism; d_TLS : bool }.

(** [kafka.ReaderConfig] *)
Record ReaderConfig := mkReaderConfig {
  rc_GroupID : string;
  rc_Dialer : Dialer;
  rc_Topic : string;
  rc_Brokers : list string
}.

Definition with_mechanism (m : Mechanism) (d : Dialer) : Dialer := mkDialer (d_Timeout d) (d_DualStack d) (Some m) true.

(** A username replaces the mechanism of AWS. *)
Definition with_username (k : KafkaConfig) (d : Dialer) : Dialer :=
  if String.eqb (k_Username k) EmptyString then d else with_mechanism (PlainMechanism (k_Username k) (k_Password k)) d.

Definition reader_config (k : KafkaConfig) (dialer : Dialer) (topic : string) : ReaderConfig :=
  mkReaderConfig (k_GroupID k) dialer topic (BootstrapServers k).

(** * Pub/Sub subscriptions *)

Definition defaultAckDeadline : Z := 10 * Minute.

Record SubscriptionConfig := mkSubscriptionConfig { sc_Topic : string; sc_AckDeadline : Z; sc_EnableMessageOrdering : bool }.
Record Subscription := mkSubscription { sub_Name : string; sub_MaxOutstandingMessages : Z; sub_NumGoroutines : Z }.

(** Third-party code: Pub/Sub's client.  [E] is the state of the service. *)
Class PubSubService (E : Type) := {
  Subscription_Exists : string -> E -> result bool * E;
  Topic_Exists : string -> E -> (bool * option error) * E;
  CreateSubscription : string -> SubscriptionConfig -> E -> option error * E
}.

Section Subscriptions.
Context {E : Type} `{PubSubService E}.

(** The settings of a subscription: one goroutine, and one message more than a
    buffer has rows *)
Definition receive_settings (cfg : Config) (subName : string) : Subscription :=
  mkSubscription subName (wrap64 (wrap64 (BufferRows cfg) + 1)) 1.

Definition findOrCreateSubscription (cfg : Config) (topic subName : string) : go E Subscription :=
  exists_ ← wrap_go "failed to fetch subscription: " EmptyString
    (fun st => Subscription_Exists subName st);
  (if exists_ : bool then mret tt
   else
     found ← (fun st => let '(r, st) := Topic_Exists topic st in (Ok r, st));
     match found : bool * option error with
     | (true, None) =>
         created ← (fun st => let '(r, st) := CreateSubscription subName
                                 (mkSubscriptionConfig topic defaultAckDeadline true) st in (Ok r, st));
         match created : option error with
         | None => mret tt
         | Some e => lift (Err (ErrWrap ("failed to create subscription for topic " +:+ topic +:+ ": ") e EmptyString))
         end
     | (found, Some e) =>
         lift (Err (ErrWrap ("failed to fetch gcp topic, topic exists: " +:+ bool_text found +:+ ", err: ") e EmptyString))
     | (found, None) =>
         lift (errorf ("failed to fetch gcp topic, topic exists: " +:+ bool_text found +:+ ", err: %!w(<nil>)"))
     end) ;;
  mret (receive_settings cfg subName).

(** A subscription is created only when it is needed and possible: it is
    returned, with room for one message more than a buffer has rows, exactly
    when it existed, or it did not, the topic did, and it was created with
    ordered delivery; nothing is created on any other path. *)
Theorem findOrCreateSubscription_spec cfg topic subName e :
  let ordered := mkSubscriptionConfig topic defaultAckDeadline true in
  match Subscription_Exists subName e with
  | (Ok true, e1) => findOrCreateSubscription cfg topic subName e = (Ok (receive_settings cfg subName), e1)
  | (Ok false, e1) =>
      match Topic_Exists topic e1 with
      | ((true, None), e2) =>
          let '(created, e3) := CreateSubscription subName ordered e2 in
          snd (findOrCreateSubscription cfg topic subName e) = e3 /\
          (created = None -> fst (findOrCreateSubscription cfg topic subName e) = Ok (receive_settings cfg subName)) /\
          (created <> None -> is_err (fst (findOrCreateSubscription cfg topic subName e)) = true)
      | (_, e2) => is_err (fst (findOrCreateSubscription cfg topic subName e)) = true /\
                   snd (findOrCreateSubscription cfg topic subName e) = e2
      end
  | (r, e1) => is_ok (fst (findOrCreateSubscription cfg topic subName e)) = false /\
               snd (findOrCreateSubscription cfg topic subName e) = e1
  end.
Proof.
  cbv zeta. unfold findOrCreateSubscription. rewrite !go_bind_run. unfold wrap_go.
  destruct (Subscription_Exists subName e) as [[[|]|err|w] e1]; cbn [wrap_err]; try done.
  rewrite !go_bind_run. destruct (Topic_Exists topic e1) as [[[|] [err|]] e2]; try done.
  rewrite !go_bind_run. by destruct (CreateSubscription _ _ e2) as [[err|] e3].
Qed.

(** The flow control never stops a single table's buffer from filling up. *)
Lemma receive_settings_room cfg subName :
  0 <= BufferRows cfg < max_int64 ->
  BufferRows cfg < sub_MaxOutstandingMessages (receive_settings cfg subName).
Proof.
  intros Hb. unfold receive_settings. simpl. rewrite (wrap64_id (BufferRows cfg)); [rewrite wrap64_id|];
    unfold min_int64, max_int64 in *; lia.
Qed.

Definition subscription_name (topic : string) : string := "transfer_" +:+ topic.

(** The start of a topic's goroutine in [StartSubscriber] *)
Definition subscribe (cfg : Config) (topic : string) : go E Subscription := fun st =>
  match findOrCreateSubscription cfg topic (subscription_name topic) st with
  | (Err _, st') => (Panic "Failed to find or create subscription", st')
  | (r, st') => (r, st')
  end.
End Subscriptions.

(** * Starting *)

Record application := mkApplication {
  ap_settings : Config;
  ap_destination : Destination;
  ap_formats : TcFmtMap;
  ap_readers : list ReaderConfig
}.

Section Start.
Context {D : Type} {base : SqlStore D} `{Outside D} `{GoStd} `{Gosnowflake} `{QueueClient D}.
Context (mock : MockDB D) (pairs_of : list TopicConfig -> list (string * string)) (validFormats : list Format).

(** The dialer of [StartConsumer] *)
Definition kafka_dialer (k : KafkaConfig) : go (env D) Dialer :=
  let dialer := mkDialer (10 * Second) true None false in
  if k_EnableAWSMSKIAM k then
    panic_on_error "Failed to load aws configuration" (call_outside LoadAwsConfig) ;;
    mret (with_username k (with_mechanism AwsMskIam dialer))
  else mret (with_username k dialer).

(** [StartConsumer], up to its goroutines *)
Definition StartConsumer (k : KafkaConfig) : go (env D) (TcFmtMap * list ReaderConfig) :=
  dialer ← kafka_dialer k;
  tcFmtMap ← lift (add_topics validFormats ∅ (k_TopicConfigs k));
  mret (tcFmtMap, map (reader_config k dialer ∘ tc_Topic) (k_TopicConfigs k)).

(** [StartSubscriber], up to its goroutines *)
Definition StartSubscriber (p : PubsubConfig) : go (env D) (TcFmtMap * list ReaderConfig) :=
  panic_on_error "Failed to create a pubsub client"
    (call_outside (NewPubSubClient (ps_ProjectID p) (ps_PathToCredentials p))) ;;
  tcFmtMap ← lift (add_topics validFormats ∅ (ps_TopicConfigs p));
  mret (tcFmtMap, []).

Definition start_queue (cfg : Config) : go (env D) (TcFmtMap * list ReaderConfig) :=
  match cfg_Queue cfg with
  | Kafka => match cfg_Kafka cfg with Some k => StartConsumer k | None => lift nil_deref end
  | PubSub => match cfg_Pubsub cfg with Some p => StartSubscriber p | None => lift nil_deref end
  | OtherQueue s => lift (Panic ("Message queue: " +:+ s +:+ " not supported"))
  end.

(** [main] from the parsed file, up to the process; an exit is a panic here. *)
Definition main (parsed : result Config) : go (env D) application :=
  settings ← lift (match LoadSettings parsed with
                   | Err _ => Panic "Failed to initialize config"
                   | r => r
                   end);
  dest ← load_destination mock pairs_of settings;
  started ← start_queue settings;
  mret (mkApplication settings dest (fst started) (snd started)).

(** ** When it starts *)

(** The topics of the configuration name formats there are. *)
Definition formats_known (cfg : Config) : Prop :=
  exists tcs, TopicConfigs cfg = Ok tcs /\
    forallb (fun tc => is_ok (GetFormatParser validFormats (tc_CDCFormat tc))) tcs = true.

Lemma LoadSettings_valid parsed cfg : LoadSettings parsed = Ok cfg -> config_valid cfg.
Proof.
  unfold LoadSettings. intros (c & _ & (tcs & _ & ([] & Hv & [= <-])%bind_Ok)%bind_Ok)%bind_Ok.
  apply Validate_iff_valid. by apply wrap_err_ok in Hv.
Qed.

(** The queue of a valid configuration starts only when its formats are known,
    and always then in a world that accepts. *)
Lemma start_queue_spec cfg (st : env D) :
  queue_valid cfg ->
  match fst (start_queue cfg st) with
  | Ok (t, _) => formats_known cfg /\ exists tcs, TopicConfigs cfg = Ok tcs /\ add_topics validFormats ∅ tcs = Ok t
  | Err _ => False
  | Panic _ => Welcoming -> ~ formats_known cfg
  end.
Proof.
  intros (tcs & _ & _ & Hq).
  assert (Hgen : forall (A : Type) (m : go (env D) A) (rc : A -> list ReaderConfig),
    TopicConfigs cfg = Ok tcs -> gives (fun _ => True) m -> (Welcoming -> yields (fun _ => True) m) ->
    match fst ((x ← m; t ← lift (add_topics validFormats ∅ tcs); mret (t, rc x)) st) with
    | Ok (t, _) => formats_known cfg /\ exists tcs, TopicConfigs cfg = Ok tcs /\ add_topics validFormats ∅ tcs = Ok t
    | Err _ => False
    | Panic _ => Welcoming -> ~ formats_known cfg
    end).
  { intros A m rc Htc Hg Hy. rewrite go_bind_run. specialize (Hg st).
    assert (Hx : Welcoming -> is_ok (fst (m st)) = true) by (intros Hw; by destruct (Hy Hw st) as (x & st' & -> & _)).
    destruct (m st) as [[x|e|w] st']; simpl in *; [|done | by intros ?%Hx]. rewrite lift_bind.
    pose proof (add_topics_total validFormats tcs ∅) as Ht. unfold formats_known. rewrite Htc.
    destruct (forallb _ tcs) eqn:Hall.
    - destruct Ht as [t Ht]. rewrite Ht. simpl. split; by eexists.
    - destruct Ht as [w Hwhy]. rewrite Hwhy. simpl. intros _ (tcs' & [= <-] & Hk). congruence. }
  unfold start_queue. assert (Htc : TopicConfigs cfg = Ok tcs).
  { unfold TopicConfigs. destruct (cfg_Queue cfg); [| |done]; by destruct Hq as (k & -> & -> & _). }
  destruct (cfg_Queue cfg); [| |done].
  - destruct Hq as (k & -> & Hk & _). unfold StartConsumer. rewrite Hk.
    apply (Hgen Dialer (kafka_dialer k) (fun d => map (reader_config k d ∘ tc_Topic) tcs) Htc);
      unfold kafka_dialer; destruct (k_EnableAWSMSKIAM k); [|by apply gives_ret| |by intros _; apply yields_ret].
    + apply (gives_bind (fun _ => True)); [apply gives_panic_on_error | intros _ _; by apply gives_ret].
    + intros Hw. eapply yields_bind; [by apply yields_panic_on_error, yields_call_outside | intros _ _; by apply yields_ret].
  - destruct Hq as (p & -> & Hp & _). unfold StartSubscriber. rewrite Hp.
    apply (Hgen unit _ (fun _ => []) Htc); [apply gives_panic_on_error|].
    intros Hw. by apply yields_panic_on_error, yields_call_outside.
Qed.

Lemma queue_valid_topics cfg : queue_valid cfg -> is_ok (TopicConfigs cfg) = true.
Proof.
  intros (tcs & _ & _ & Hq). unfold TopicConfigs. destruct (cfg_Queue cfg); [| |done]; by destruct Hq as (k & -> & _).
Qed.

(** C7. Which accepted configurations start.  Whatever the world does, [main]
    gets a configuration that validation accepts running only when the section
    of its destination is there, which validation does not ask of Snowflake and
    BigQuery, and every topic names a known format; it then runs that
    configuration on the destination it names, each topic with its last
    configuration.  Otherwise it panics, and it never does anything else.  In a
    world that accepts, where no outside call, statement, listing or DSN
    fails, those two are the only reasons to panic. *)
Theorem main_spec parsed cfg (st : env D) :
  LoadSettings parsed = Ok cfg ->
  match fst (main parsed st) with
  | Ok a => section_present cfg /\ formats_known cfg /\ ap_settings a = cfg /\ destination_for cfg (ap_destination a) /\
      exists tcs, TopicConfigs cfg = Ok tcs /\ forall topic,
        fst <$> ap_formats a !! topic = last_config topic tcs
  | Err _ => False
  | Panic _ => Welcoming -> ~ (section_present cfg /\ formats_known cfg)
  end.
Proof.
  intros Hload. destruct (LoadSettings_valid _ _ Hload) as (_ & _ & _ & Hdest & Hqueue).
  unfold main. rewrite lift_bind, Hload, go_bind_run.
  pose proof (load_destination_gives mock pairs_of cfg st) as Hgives.
  assert (Hyields : Welcoming -> section_present cfg -> is_ok (fst (load_destination mock pairs_of cfg st)) = true).
  { intros Hw Hs. destruct (load_destination_yields mock pairs_of Hw cfg Hdest (queue_valid_topics _ Hqueue) Hs st)
      as (d & st1 & -> & _). done. }
  destruct (load_destination mock pairs_of cfg st) as [[d|e|w] st1]; simpl in *;
    [destruct Hgives as [Hs Hfor] | done | intros Hw [Hs _]; by specialize (Hyields Hw Hs)].
  rewrite go_bind_run. pose proof (start_queue_spec cfg st1 Hqueue) as Hq.
  destruct (start_queue cfg st1) as [[[t rcs]|e|w] st2]; simpl in *; [|done | intros Hw [_ Hk]; by apply Hq].
  destruct Hq as (Hk & tcs & Htc & Ht). split_and!; try done. exists tcs. split; [done|]. intros topic.
  pose proof (add_topics_lookup _ _ _ _ topic Ht) as Hl. rewrite Hl.
  destruct (last_config topic tcs) as [tc|] eqn:Hlast; [|done].
  destruct Hk as (tcs' & Htc' & Hall). rewrite Htc in Htc'. injection Htc' as <-.
  apply last_config_topic in Hlast as [_ Hin]. rewrite forallb_forall in Hall.
  specialize (Hall tc (proj1 (list_elem_of_In _ _) Hin)). by destruct (GetFormatParser _ _).
Qed.
End Start.

(** * The whole *)

Section Whole.
Context {D : Type} {base : SqlStore D} `{Outside D} `{GoStd} `{Gosnowflake} `{QueueClient D}.
Context (mock : MockDB D) (pairs_of : list TopicConfig -> list (string * string)) (validFormats : list Format)
        (rows_of : TableData -> list row) (Int63n : Z -> Z -> Z) (draws_of : D -> list nat)
        (iter : row -> list string) (iter_parts : gmap string (list Message) -> list string)
        (iter_tables : DatabaseData -> list string).

(** The process of a started application, on its destination *)
Definition application_baseline (a : application) : Baseline (world (D := D)) :=
  destination_baseline mock rows_of Int63n draws_of (ap_destination a).

Definition runs_to (a : application) (T : Z) (w : world (D := D)) (b : app world) : Prop :=
  reachable (H := application_baseline a) iter iter_parts iter_tables (ap_settings a) (ap_formats a) T w b.

Definition world_of (st : env D) : world := (env_db st, env_configs st, env_log st).

Lemma main_formats parsed st a st1 :
  main mock pairs_of validFormats parsed st = (Ok a, st1) -> formats_wf (ap_formats a).
Proof.
  unfold main. intros (cfg & st2 & _ & (dest & st3 & _ & ([t rcs] & st4 & Hq & Ha)%go_bind_Ok)%go_bind_Ok)%go_bind_Ok.
  injection Ha as <- _. simpl. revert Hq. unfold start_queue, StartConsumer, StartSubscriber.
  destruct (cfg_Queue cfg); [destruct (cfg_Kafka cfg) | destruct (cfg_Pubsub cfg) |]; try done;
    intros (x & st5 & _ & (t' & st6 & Ht & Hr)%go_bind_Ok)%go_bind_Ok;
    injection Hr as <- _ _; injection Ht as Ht _; by apply add_topics_wf in Ht.
Qed.

(** C1. At least once, end to end: whichever destination [main] loads and
    whatever the goroutines then do, in whatever order and whatever fails, a
    message is committed or acknowledged only once it, and every message saved
    in its table before it, is part of a write that destination reported as
    successful, and no saved message is lost: it is part of such a write, or
    its table still has its buffer. *)
Theorem application_at_least_once parsed st a st1 T b :
  main mock pairs_of validFormats parsed st = (Ok a, st1) -> t_ns zero_time <= T ->
  runs_to a T (world_of st1) b ->
  Forall (commit_covered (app_state b)) (cs_committed (app_state b)) /\
  forall t m, (t, m) ∈ cs_all (app_state b) ->
    m ∈ cs_written (app_state b) \/
    (m ∈ saved_of t (app_state b) /\ exists td, cs_db (app_state b) !! t ≫= mt_TableData = Some td).
Proof.
  intros Hmain HT Hr. pose proof (main_formats _ _ _ _ Hmain) as Hwf.
  destruct (reachable_inv (H := application_baseline a)
    (BaselineLaws0 := destination_laws mock rows_of Int63n draws_of (ap_destination a))
    iter iter_parts iter_tables (ap_settings a) (ap_formats a) Hwf T (world_of st1) b HT Hr) as [Hi _].
  split.
  - apply Forall_forall. intros m Hm. by apply (ci_committed _ Hi).
  - intros t m Hm. destruct (ci_all _ Hi t m Hm) as [Hw | Hs]; [by left|]. right. split; [done|].
    pose proof (ci_empty _ Hi t) as He. destruct (cs_db (app_state b) !! t ≫= mt_TableData) as [td|]; [by exists td|].
    rewrite (He eq_refl) in Hs. by apply not_elem_of_nil in Hs.
Qed.
End Whole.

(** * An example: Kafka to S3 *)

Section Example.
#[local] Instance lake_store : SqlStore Z := quiet_store Snowflake.
#[local] Instance lake_outside : Outside Z := quiet_outside.
#[local] Instance lake_std : GoStd := S3Client.encoding_std.
#[local] Instance lake_dsn : Gosnowflake := plain_dsn.
#[local] Instance lake_queue : QueueClient Z := {| CommitMessages := fun _ d => (None, d); Ack := fun _ d => d |}.

Definition lake_config : Config :=
  mkConfig Replication S3 Kafka 10 100 1000 None (Some (mkKafkaConfig "localhost:9092" "group" EmptyString EmptyString
    false [routed_topic])) (mkSettings [] false) false None None None
    (Some (mkS3Settings "lake" "bucket" "id" "secret" "parquet")) None.

Definition lake_env : env Z := mkEnv 0 ∅ (NewTableData None Replication [] routed_topic EmptyString) [].
Definition lake_mock : MockDB Z := mkMockDB Z (quiet_store Snowflake).
Definition lake_main := main lake_mock (fun _ => []) [routed_format] (Ok lake_config) lake_env.

Definition lake_application : application :=
  mkApplication lake_config (S3Store (S3Client.mkStore lake_config (mkS3Settings "lake" "bucket" "id" "secret" "parquet") false))
    process_formats
    [mkReaderConfig "group" (mkDialer (10 * Second) true None false) "events" ["localhost:9092"]].

Lemma lake_main_runs : lake_main = (Ok lake_application, lake_env).
Proof. vm_compute. reflexivity. Qed.

Definition lake_baseline : Baseline (world (D := Z)) :=
  application_baseline lake_mock some_rows (fun _ _ => 0) (fun _ => []) lake_application.

(** The reader starts, fetches a message, and the ticker flushes it. *)
Definition lake_started : app (world (D := Z)) :=
  mkApp (TopicToConsumer_Add "events" NewTopicToConsumer) (app_state (initial (world_of lake_env))) None.
Definition lake_fetched : app (world (D := Z)) :=
  run (fun rs => kafka_iteration (H := lake_baseline) keys_of keys_of keys_of (ap_settings lake_application)
                   (ap_formats lake_application) rs
                   (Ok (kafka_message 1 1 1)) (mkTime 0 0) []) lake_started.
Definition lake_app : app (world (D := Z)) :=
  run (fun rs => pool_tick (H := lake_baseline) keys_of keys_of (ap_settings lake_application) rs (mkTime (10 * Second) 0) [])
    lake_fetched.

Lemma lake_app_reachable :
  runs_to lake_mock some_rows (fun _ _ => 0) (fun _ => []) keys_of keys_of keys_of lake_application (10 * Second)
    (world_of lake_env) lake_app.
Proof.
  assert (Ht : step (H := lake_baseline) keys_of keys_of keys_of (ap_settings lake_application) (ap_formats lake_application)
      lake_fetched (Tick (mkTime (10 * Second) 0) []) lake_app).
  { apply step_tick. vm_compute. reflexivity. }
  unfold runs_to. fold lake_baseline.
  eapply reach_step.
  2: exact Ht.
  2: simpl; lia.
  eapply reach_step with (a := lake_started) (h := Fetched "events" (Ok (kafka_message 1 1 1)) (mkTime 0 0) []).
  2: refine (step_fetch (H := lake_baseline) keys_of keys_of keys_of _ _ lake_started "events" _ (mkTime 0 0) [] _ _ _ _).
  6: vm_compute; discriminate.
  - eapply (reach_step _ _ _ _ _ _ _ _ (ReaderStarts "events")); [apply reach_initial | apply step_reader | exact I].
    + reflexivity.
    + reflexivity.
    + left.
  - reflexivity.
  - reflexivity.
  - apply TopicToConsumer_Add_self.
  - by intros k [= <-].
Qed.

Lemma application_at_least_once_witness :
  Forall (commit_covered (app_state lake_app)) (cs_committed (app_state lake_app)) /\
  offsets (cs_committed (app_state lake_app)) = [1].
Proof.
  split; [|vm_compute; reflexivity].
  exact (proj1 (application_at_least_once lake_mock (fun _ => []) [routed_format] some_rows (fun _ _ => 0) (fun _ => [])
    keys_of keys_of keys_of (Ok lake_config) lake_env lake_application lake_env (10 * Second) lake_app lake_main_runs
    ltac:(vm_compute; discriminate) lake_app_reachable)).
Defined.

Lemma lake_welcoming : Welcoming (base := lake_store).
Proof. split; try done. intros q args d. by exists []. Qed.

(** The settings start; with a format that no topic can name, they do not. *)
Lemma main_spec_witness :
  (section_present lake_config /\ formats_known [routed_format] lake_config) /\ ~ formats_known [] lake_config.
Proof.
  split.
  - pose proof (main_spec lake_mock (fun _ => []) [routed_format] (Ok lake_config) lake_config lake_env
      ltac:(vm_compute; reflexivity)) as Hm.
    assert (Hrun : fst (main lake_mock (fun _ => []) [routed_format] (Ok lake_config) lake_env) = Ok lake_application)
      by exact (f_equal fst lake_main_runs).
    rewrite Hrun in Hm. destruct Hm as (Hs & Hk & _). exact (conj Hs Hk).
  - pose proof (main_spec lake_mock (fun _ => []) [] (Ok lake_config) lake_config lake_env
      ltac:(vm_compute; reflexivity)) as Hm.
    assert (Hrun : exists w, fst (main lake_mock (fun _ => []) [] (Ok lake_config) lake_env) = Panic w)
      by (eexists; vm_compute; reflexivity).
    destruct Hrun as [w Hrun]. rewrite Hrun in Hm. intros Hk. exact (Hm lake_welcoming (conj I Hk)).
Defined.
End Example.
